(* ===== verification/_CoqProject ===== *)
-Q . S2P
Prelude.v
Console.v
Memory.v
CString.v
Format.v
Mmu.v
AddressSpace.v
Heap.v
RamDisk.v
VfsPath.v
Machine.v
Alloc.v
HeapClient.v
Vfs.v
Slots.v
Serial.v
Pic.v
Ps2.v
Pit.v
Rtc.v
Keymap.v
Storage.v
Mouse.v
Keyboard.v
Isr.v
Idt.v
Ide.v
RamFs.v
Streams.v
IdeDevice.v
Vga.v
Window.v
Desktop.v
Paint.v
Screen.v
Sysinfo.v
Setup.v
Kernel.v
Steady.v
Start.v
Interrupts.v
Typing.v
