(* ===== verification/Prelude.v ===== *)
(** * Verification of the NansOS kernel

    A shallow embedding of the C code under src/src/impl: every function is a
    definition that can be evaluated, every theorem is about these
    definitions. (Paths below leave out the leading src/.)

    ** The program

    A kernel for x86-64. [kernel_main] (src/impl/kernel/main.c) initialises
    memory, the interrupt table, the interrupt controllers, the timer, the
    serial port, the clock, the keyboard and the mouse, shows a setup wizard,
    and then draws a desktop from a loop that halts between interrupts. What
    happens after the start happens in interrupt routines: they call the
    drivers' handlers, which call the functions that main.c registered with
    them. The RAM disk, the virtual file system and the storage devices are
    libraries that the start does not use.

    ** The files

    Shared:
    - Prelude: the C conversions to machine integers ([u8] .. [i64]), the C
      operators, the results [res] of loops ([Done], [Spin], [Undef]), lists;
    - Memory: the byte memory [mem], little-endian loads and stores, strings
      in memory, what a store may change ([changes]);
    - Machine: src/impl/drivers/port_io/port.c and the instructions of
      src/impl/kernel/asm_utils.h; computations [M K] over a
      state [K] and the log of what the processor does at its pins; polling
      loops; the class [Has], a component's part of the state; the classes
      [Hw] (what a port read returns), [Code] (what a call through a function
      pointer does) and [Linker] (addresses of literals and functions);
    - Slots: arrays of pointers with a count, shared by Storage and Window;
    - Alloc: [malloc] and [free] as computations;
    - HeapClient: the contract of the heap with the programs that use it;
    - Steady: a small logic for computations that return or are undefined, and
      for what they do to the part of the state that is watched.

    Components, each after its source:
    - Console: src/impl/x86_64/print.c, the text screen;
    - CString, Format: src/impl/kernel/string.c, the memory and string
      functions and [vsprintf], [vsnprintf];
    - Mmu: src/impl/kernel/mmu.c, pages and the four levels of page tables;
    - AddressSpace: the contract of the paging functions with their users:
      a sequence of calls refines a map from pages to frames;
    - Heap: src/impl/kernel/stdlib.c, the block list of [malloc];
    - RamDisk, RamFs: src/impl/kernel/ramdisk.c, the disk itself and its
      place behind the virtual file system;
    - Streams: descriptors on files of a RAM disk as their users see them:
      bytes, sizes and positions;
    - VfsPath, Vfs: src/impl/kernel/fs.c, paths, and descriptors and lookup;
    - Serial, Pic, Pit, Rtc: the drivers of the same names;
    - Keymap, Keyboard, Mouse, Ps2: src/impl/drivers/keyboard and mouse;
    - Isr, Idt: src/impl/kernel/isr.c and idt.c;
    - Storage, Ide, IdeDevice: src/impl/drivers/storage;
    - Vga, Window, Desktop, Paint: src/impl/drivers/video/vga.c and window.c;
    - Screen: the contract of the window manager with the programs and the
      user: a sequence of calls, mouse events, keys and repaints refines a
      stack of windows on a screen;
    - Sysinfo: src/impl/kernel/sysinfo.c;
    - Setup, Kernel, Start, Interrupts, Typing: src/impl/kernel/main.c:
      the wizard, the rest of the file, and the theorems about the parts
      together; Interrupts has the code behind every pointer ([kernel_code])
      and the calls of the routines behind the gates of the sixteen lines
      ([interrupt]).

    ** How state and operations correspond to the code

    The statics of a file are one record ([Pit], [Keyboard], [WM], [Vfs] and
    so on); a function that uses them is a computation [M K A] for every
    state [K] that has that record as a part ([Has]). Data that the code
    reaches through pointers lie in the byte memory where the arithmetic on
    them matters: heap blocks, page tables, strings, path buffers, windows and
    the graphics buffers. The nodes, file systems and devices that are only
    followed through pointers are records in maps from addresses. Integers
    have the width of their C type, with the wrap-around written out; signed
    overflow, a division by zero, an access through a null pointer and a
    store past the back buffer, the path buffers or the message arrays of
    storage.c are [Undef]. A call through a function pointer goes to the parameter [Code].
    A read from a port gives whatever the parameter [Hw] says, a function of
    everything that happened at the pins before.

    ** What the theorems show

    - Memory: [malloc], [free] and [realloc] keep a well-formed block list,
      refine first fit on an abstract list and never touch another
      allocation; over any sequence of legal calls, reads and writes (a step
      relation) each call returns what the specification of an allocator
      promises; mapping and unmapping change exactly one translation, and over
      any sequence of legal requests the tables in memory are an abstract map
      from pages to frames.
    - Strings: [vsprintf] and [vsnprintf] store what a format means, by a
      relation that does not mention their code ([renders], [numeral]);
      [memmove] copies for every overlap.
    - Files: path normalisation stays in its buffer, leaves no [.] and [..] and
      joins names by single slashes; descriptors, seeks and transfers; the RAM
      disk refines a map from names to files, isolates them, and gives back
      what was written; reads, writes
      and seeks on any number of open descriptors refine files as lists of
      bytes with a position for each descriptor.
    - Devices: the drivers program the registers of their devices (folds over
      the log, after the data sheets) and terminate with devices that respond;
      the keyboard's and the mouse's handlers refine state machines; every
      interrupt is acknowledged once; the registry of storage devices refines
      a list; transfers ask an IDE drive for exactly the sectors and move
      exactly the bytes; the creation of its device frees what it allocated
      when the drive does not answer, and the cleanup frees it otherwise.
    - Screen: lines terminate and follow the ideal line, rectangles fill what
      they should; the window list refines a stack under create, destroy
      and raise; in a mode whose pixels fit the back buffer ([mode_fits]), over
      any legal sequence of calls, mouse events, keys and
      repaints the memory displays an abstract screen ([screen_refines]), also
      from the two windows of the desktop on ([open_windows_serves]). The
      desktop itself never comes up: [window_init_gui] selects a mode that
      does not fit and is undefined ([window_init_gui_overruns]).
    - The whole: when no interrupt arrives meanwhile, [kernel_main] reaches its
      loop with all callbacks and gates in place; until the setup is complete,
      a turn of the loop only halts, and a call of the routine of any line
      returns with the keys and the setup exactly what the scancode means
      ([press]), the ticks counted, the interrupt acknowledged and the desk
      untouched, or is undefined in exactly the cases named
      ([routines_serve_setup]); typing through the wizard makes the choices
      typed, and the key that completes it is undefined
      ([typing_makes_choices]).
    - Behaviour that differs from what the code or its comments intend is
      proved where the component is ([vga_640x480_overruns],
      [window_close_dangles], [ramdisk_growth_overlaps],
      [malloc_large_overlap], [vfs_never_opens], [vfs_normalize_overruns],
      [vfs_normalize_double_dotdot], [two_shifts_misread], [ide_lba48_count],
      [unregister_drive_undefined],
      [rtc_init_misreads], [clock_text_constant] and others).

    ** Bounds and fuel

    A loop with a bound in the source has that bound ([retry], [wait_while],
    [attempts] count as the source's [timeout] does; [print_num] makes 65
    rounds, more than a 64-bit number has digits). Loops over strings take
    fuel above the string's length, [vga_draw_line] above the longer of its
    two distances (65536 is always enough), searches of the block list above
    its length, which grows by at most two with each call ([heap_room]); the
    theorems say so and conclude that the result is reached.
    Loops that wait for a device take fuel, and the theorems assume that the
    device is ready within it ([always_ready], [drained], [clock_idle]); the
    witnesses give such devices. The [while (1)] of the main loop spins in
    the model; theorems speak of its turns ([main_step]).

    ** What is not modelled

    - The boot code is assembly. The instructions that asm_utils.h wraps are
      events of the log, or parameters ([cpuid_regs]).
    - The entry and the return of an interrupt. The routines of isr.c are C
      functions that end in [ret]; the sources have no [iretq] and save no
      registers (test_output/serial.log ends with a general protection fault
      after the interrupts are enabled). The theorems about routines are about
      calls of these functions, one after the other; that anything continues
      the interrupted code is not claimed. Interrupts are enabled during the
      start (by [keyboard_init] and [mouse_init]); the start is modelled
      without any arriving.
    - The statics other than the graphics buffers lie outside the byte memory;
      likewise the structures of RamFs and IdeDevice apart from their
      addresses. The fields of a structure from [malloc] that nothing assigns
      are 0 or a parameter ([junk] in IdeDevice).
    - The processor's walk of the page tables ([walk] in Mmu) does not look at
      the page-size bit of level 3, which no function of mmu.c sets, and takes
      bits 52 to 63 of an entry as part of the frame's address, where a
      processor has none: requests for such frames are beyond the model.
    - scheduler.h and the functions that mmu.h and fs.h only declare have no
      code. The programs under tests/ are not part of the kernel (it never calls [run_tests]).

    ** What could follow

    Nothing in the kernel calls [window_handle_mouse]: [open_windows_serves]
    speaks of what the window manager would do with calls and events, in a mode
    that fits. The text that the handlers print on the console is not
    stated. *)
From Stdlib Require Export ZArith Lia.
From stdpp Require Export base numbers list gmap strings.

#[global] Open Scope Z_scope.
#[export] Set Default Goal Selector "!".

(** ** Notations for the C operators on integers *)

Declare Scope c_scope.
Delimit Scope c_scope with c.
Notation "a .& b" := (Z.land a b) (at level 40, left associativity) : c_scope.
Notation "a .| b" := (Z.lor a b) (at level 45, left associativity) : c_scope.
Notation "a .<< n" := (Z.shiftl a n) (at level 35, right associativity) : c_scope.
Notation "a .>> n" := (Z.shiftr a n) (at level 35, right associativity) : c_scope.
#[global] Open Scope c_scope.

(** ** Machine integers

    A value of an unsigned [w]-bit C type is an integer in [0, 2^w); a value
    of [int] is an integer in [-2^31, 2^31). The functions below are the C
    conversions to these types. *)

Definition u8 (x : Z) : Z := x mod 2 ^ 8.
Definition u16 (x : Z) : Z := x mod 2 ^ 16.
Definition u32 (x : Z) : Z := x mod 2 ^ 32.
Definition u64 (x : Z) : Z := x mod 2 ^ 64.
Definition i8 (x : Z) : Z := (x + 2 ^ 7) mod 2 ^ 8 - 2 ^ 7.
Definition i32 (x : Z) : Z := (x + 2 ^ 31) mod 2 ^ 32 - 2 ^ 31.
Definition i64 (x : Z) : Z := (x + 2 ^ 63) mod 2 ^ 64 - 2 ^ 63.

(** [if (x & mask)] of the source. *)
Definition tst (x mask : Z) : bool := negb (x .& mask =? 0).

Create HintDb cint discriminated.

Lemma u8_range x : 0 <= u8 x < 2 ^ 8.
Proof. apply Z.mod_pos_bound. lia. Qed.
Lemma u16_range x : 0 <= u16 x < 2 ^ 16.
Proof. apply Z.mod_pos_bound. lia. Qed.
Lemma u32_range x : 0 <= u32 x < 2 ^ 32.
Proof. apply Z.mod_pos_bound. lia. Qed.
Lemma u64_range x : 0 <= u64 x < 2 ^ 64.
Proof. apply Z.mod_pos_bound. lia. Qed.
Lemma i8_range x : - 2 ^ 7 <= i8 x < 2 ^ 7.
Proof. unfold i8. pose proof (Z.mod_pos_bound (x + 2 ^ 7) (2 ^ 8)). lia. Qed.
Lemma i32_range x : - 2 ^ 31 <= i32 x < 2 ^ 31.
Proof. unfold i32. pose proof (Z.mod_pos_bound (x + 2 ^ 31) (2 ^ 32)). lia. Qed.
#[export] Hint Resolve u8_range u16_range u32_range u64_range i8_range i32_range : cint.

Lemma u8_id x : 0 <= x < 2 ^ 8 -> u8 x = x.
Proof. apply Z.mod_small. Qed.
Lemma u16_id x : 0 <= x < 2 ^ 16 -> u16 x = x.
Proof. apply Z.mod_small. Qed.
Lemma u32_id x : 0 <= x < 2 ^ 32 -> u32 x = x.
Proof. apply Z.mod_small. Qed.
Lemma u64_id x : 0 <= x < 2 ^ 64 -> u64 x = x.
Proof. apply Z.mod_small. Qed.
Lemma i32_id x : - 2 ^ 31 <= x < 2 ^ 31 -> i32 x = x.
Proof. intros. unfold i32. rewrite Z.mod_small; lia. Qed.
Lemma i64_id x : - 2 ^ 63 <= x < 2 ^ 63 -> i64 x = x.
Proof. intros. unfold i64. rewrite Z.mod_small; lia. Qed.

(** [cint] puts the range facts of every conversion of the goal and the
    hypotheses in the context and calls [lia]. *)
Ltac cint_ranges :=
  repeat match goal with
  | |- context [u8 ?x] => unless (0 <= u8 x < 2 ^ 8) by assumption; pose proof (u8_range x)
  | |- context [u16 ?x] => unless (0 <= u16 x < 2 ^ 16) by assumption; pose proof (u16_range x)
  | |- context [u32 ?x] => unless (0 <= u32 x < 2 ^ 32) by assumption; pose proof (u32_range x)
  | |- context [u64 ?x] => unless (0 <= u64 x < 2 ^ 64) by assumption; pose proof (u64_range x)
  end.
Ltac cint := cint_ranges; lia.

Lemma tst_bit x k : 0 <= k -> tst x (1 .<< k) = Z.testbit x k.
Proof.
  intros Hk. unfold tst. rewrite Z.shiftl_mul_pow2, Z.mul_1_l by lia.
  destruct (Z.testbit x k) eqn:Hb.
  - apply negb_true_iff, Z.eqb_neq. intros H0.
    assert (Z.testbit (x .& 2 ^ k) k = false) as H1 by (rewrite H0; apply Z.bits_0).
    rewrite Z.land_spec, Hb, Z.pow2_bits_true in H1 by lia. done.
  - apply negb_false_iff, Z.eqb_eq. apply Z.bits_inj'. intros i Hi.
    rewrite Z.land_spec, Z.bits_0. destruct (decide (i = k)) as [->|Hne].
    + by rewrite Hb.
    + rewrite Z.pow2_bits_false by lia. apply andb_false_r.
Qed.

Lemma land_FF x : x .& 0xFF = x mod 256.
Proof. apply (Z.land_ones x 8). lia. Qed.

(** Clearing the low [k] bits of a 64-bit word. *)
Lemma land_high x k :
  0 <= k <= 64 -> 0 <= x < 2 ^ 64 ->
  x .& Z.shiftl (Z.ones (64 - k)) k = x / 2 ^ k * 2 ^ k.
Proof.
  intros Hk Hx. rewrite <- Z.shiftr_div_pow2, <- Z.shiftl_mul_pow2 by lia.
  rewrite <- (Z.mod_small x (2 ^ 64)) at 1 by lia. rewrite <- Z.land_ones by lia.
  apply Z.bits_inj'. intros i Hi.
  rewrite !Z.land_spec, !Z.shiftl_spec by lia. rewrite (Z.testbit_ones_nonneg 64) by lia.
  destruct (Z.ltb_spec i k).
  - rewrite !(Z.testbit_neg_r _ (i - k)) by lia. by rewrite andb_false_r.
  - rewrite Z.shiftr_spec, Z.testbit_ones_nonneg by lia. replace (i - k + k) with i by lia.
    destruct (Z.ltb_spec i 64), (Z.ltb_spec (i - k) (64 - k)); try lia.
    + by rewrite !andb_true_r.
    + rewrite !andb_false_r. symmetry. rewrite <- (Z.mod_small x (2 ^ 64)) by lia.
      by apply Z.mod_pow2_bits_high.
Qed.

(** ** Outcomes of a computation

    [Done a]: the C code returns [a]. [Spin]: a loop of the source used up
    the fuel it was given (the code is still looping). [Undef]: the code
    reached a point where C gives it no meaning. *)

Inductive res (A : Type) : Type :=
  | Done (a : A)
  | Spin
  | Undef.
Arguments Done {A} a.
Arguments Spin {A}.
Arguments Undef {A}.

#[export] Instance res_ret : MRet res := fun A a => Done a.
#[export] Instance res_bind : MBind res := fun A B f x =>
  match x with Done a => f a | Spin => Spin | Undef => Undef end.

Lemma res_bind_done {A B} (a : A) (f : A -> res B) : (Done a ≫= f) = f a.
Proof. reflexivity. Qed.

Lemma res_bind_inv {A B} (x : res A) (f : A -> res B) b :
  (x ≫= f) = Done b -> exists a, x = Done a /\ f a = Done b.
Proof. destruct x; simpl; intros H; try discriminate. eauto. Qed.

Lemma res_bind_assoc {A B C} (x : res A) (f : A -> res B) (g : B -> res C) :
  ((x ≫= f) ≫= g) = (x ≫= (fun a => f a ≫= g)).
Proof. by destruct x. Qed.

(** A loop over a list whose body may not return. *)
Fixpoint fold_res {A B} (f : B -> A -> res B) (b : B) (xs : list A) : res B :=
  match xs with
  | [] => Done b
  | x :: xs => b ← f b x; fold_res f b xs
  end.

Lemma fold_res_app {A B} (f : B -> A -> res B) b xs ys :
  fold_res f b (xs ++ ys) = (b ← fold_res f b xs; fold_res f b ys).
Proof. revert b. induction xs as [|x xs IH]; intros b; cbn [fold_res app]; [done|]. destruct (f b x); cbn; [apply IH|done..]. Qed.

Lemma fold_res_snoc {A B} (f : B -> A -> res B) b xs x :
  fold_res f b (xs ++ [x]) = (b ← fold_res f b xs; f b x).
Proof.
  rewrite fold_res_app. destruct (fold_res f b xs) as [b1| |]; [|done..]. cbn [mbind res_bind fold_res].
  by destruct (f b1 x).
Qed.

(** The body returns in every round: so does the loop. *)
Lemma fold_res_done {A B} (f : B -> A -> res B) (R : relation B) `{!PreOrder R} b xs :
  (forall b x, x ∈ xs -> exists b', f b x = Done b' /\ R b b') ->
  exists b', fold_res f b xs = Done b' /\ R b b'.
Proof.
  revert b. induction xs as [|x xs IH]; intros b Hf; cbn [fold_res]; [by exists b|].
  destruct (Hf b x) as (b1 & -> & H1); [by left|]. cbn [mbind res_bind].
  destruct (IH b1) as (b2 & -> & H2); [intros b' y Hy; apply Hf; by right|].
  exists b2. split; [done|]. by transitivity b1.
Qed.

(** The loop ends whatever the body does, as long as the body does. *)
Lemma fold_res_ends {A B} (f : B -> A -> res B) b xs :
  (forall b x, f b x <> Spin) -> fold_res f b xs <> Spin.
Proof.
  intros Hf. revert b. induction xs as [|x xs IH]; intros b; cbn [fold_res]; [done|].
  pose proof (Hf b x). destruct (f b x); cbn [mbind res_bind]; [apply IH|done..].
Qed.

(** ** Characters

    A [char] is the integer in [0, 256) of its byte; string literals of the
    source are lists of such integers, without the terminating NUL. *)

Definition chr (c : Ascii.ascii) : Z := Z.of_N (Ascii.N_of_ascii c).
Arguments chr c%_char_scope.

Fixpoint bytes_of (s : string) : list Z :=
  match s with
  | String.EmptyString => []
  | String.String c s => chr c :: bytes_of s
  end.

(** A literal that ends in a newline. *)
Definition line (s : string) : list Z := bytes_of s ++ [10].

(** A byte that can occur inside a C string. *)
Definition cchar (c : Z) : Prop := 0 < c < 256.

#[export] Instance cchar_dec c : Decision (cchar c).
Proof. unfold cchar. apply _. Defined.

Lemma Forall_Z_lookup {A} (P : A -> Prop) (l : list A) (i : Z) x :
  Forall P l -> l !! Z.to_nat i = Some x -> P x.
Proof. intros HF Hl. by eapply Forall_lookup_1. Qed.

(** Removes the [decide]s and boolean tests whose outcome [lia] knows. *)
Ltac decide_lia :=
  repeat first
    [ rewrite decide_True by lia
    | rewrite decide_False by lia
    | match goal with
      | |- context [?a =? ?b] => first
          [ replace (a =? b) with true by (symmetry; apply Z.eqb_eq; lia)
          | replace (a =? b) with false by (symmetry; apply Z.eqb_neq; lia) ]
      | |- context [?a <? ?b] => first
          [ replace (a <? b) with true by (symmetry; apply Z.ltb_lt; lia)
          | replace (a <? b) with false by (symmetry; apply Z.ltb_ge; lia) ]
      | |- context [?a <=? ?b] => first
          [ replace (a <=? b) with true by (symmetry; apply Z.leb_le; lia)
          | replace (a <=? b) with false by (symmetry; apply Z.leb_gt; lia) ]
      end ].

(** A decidable property of the integers below a bound is checked by
    evaluation: [check_below n] leaves no goal when it holds of [0 .. n - 1]. *)
Lemma forall_below (P : Z -> Prop) `{!forall d, Decision (P d)} (n : Z) :
  forallb (fun d => bool_decide (P d)) (seqZ 0 n) = true ->
  forall d, 0 <= d < n -> P d.
Proof.
  rewrite forallb_forall. intros Hall d Hd. eapply bool_decide_eq_true, Hall.
  apply list_elem_of_In, elem_of_seqZ. lia.
Qed.

Ltac check_below n := apply (forall_below _ n); vm_compute; reflexivity.
