(* ===== verification/Console.v ===== *)
(** * Text console (src/impl/x86_64/print.c)

    The cells of the text buffer at 0xb8000 are a map from the cell's index to
    its character and colour. Indices from [NUM_COLS * NUM_ROWS] on are memory
    behind the visible screen. *)
From Stdlib Require Import Ascii.
From S2P Require Export Prelude.

(** ** Definitions *)

Definition NUM_COLS := 80.
Definition NUM_ROWS := 25.
Definition PRINT_COLOR_BLACK := 0.
Definition PRINT_COLOR_WHITE := 15.
Definition NEWLINE := 10.

Record Char := MkChar { character : Z; ch_color : Z }.

Record Console := MkConsole {
  buffer : gmap Z Char;
  col : Z;
  row : Z;
  color : Z;
}.

Definition console_initial : Console :=
  MkConsole ∅ 0 0 (PRINT_COLOR_WHITE .| (PRINT_COLOR_BLACK .<< 4)).

Definition set_buffer (b : gmap Z Char) (c : Console) : Console :=
  MkConsole b (col c) (row c) (color c).
Definition set_pos (x y : Z) (c : Console) : Console := MkConsole (buffer c) x y (color c).

Definition clear_row (r : Z) (c : Console) : Console :=
  let empty := MkChar (chr " ") (color c) in
  set_buffer (foldl (fun b x => <[x + NUM_COLS * r := empty]> b) (buffer c) (seqZ 0 NUM_COLS)) c.

Definition print_clear (c : Console) : Console :=
  foldl (fun c i => clear_row i c) c (seqZ 0 NUM_ROWS).

(** [buffer[to] = buffer[from]]; a cell nothing was stored in stays so. *)
Definition copy_cell (from to : Z) (b : gmap Z Char) : gmap Z Char :=
  match b !! from with Some ch => <[to := ch]> b | None => delete to b end.

(** One row of the scroll: row [r] goes to row [r - 1]. *)
Definition scroll_row (b : gmap Z Char) (r : Z) : gmap Z Char :=
  foldl (fun b x => copy_cell (x + NUM_COLS * r) (x + NUM_COLS * (r - 1)) b) b (seqZ 0 NUM_COLS).

Definition print_newline (c : Console) : Console :=
  let c := set_pos 0 (row c) c in
  if row c <? NUM_ROWS - 1 then set_pos (col c) (row c + 1) c
  else
    let c := set_buffer (foldl scroll_row (buffer c) (seqZ 1 (NUM_ROWS - 1))) c in
    clear_row (NUM_ROWS - 1) c.

Definition print_char (ch : Z) (c : Console) : Console :=
  if ch =? NEWLINE then print_newline c
  else
    let c := if NUM_COLS <? col c then print_newline c else c in
    let c := set_buffer (<[col c + NUM_COLS * row c := MkChar ch (color c)]> (buffer c)) c in
    set_pos (col c + 1) (row c) c.

(** [str] is the string's characters, without the NUL. *)
Definition print_str (str : list Z) (c : Console) : Console :=
  foldl (fun c ch => print_char ch c) c str.

Definition print_set_color (foreground background : Z) (c : Console) : Console :=
  MkConsole (buffer c) (col c) (row c) (u8 (foreground + (background .<< 4))).

(** ** Invariant *)

Record console_ok (c : Console) : Prop := {
  ok_col : 0 <= col c <= NUM_COLS + 1;
  ok_row : 0 <= row c < NUM_ROWS;
}.

Lemma newline_pos c :
  console_ok c -> col (print_newline c) = 0 /\ color (print_newline c) = color c /\
  row (print_newline c) = Z.min (row c + 1) (NUM_ROWS - 1).
Proof.
  intros [_ Hr]. unfold print_newline. cbn [row set_pos].
  destruct (Z.ltb_spec (row c) (NUM_ROWS - 1)); cbn; split_and!; try done; lia.
Qed.

Lemma newline_ok c : console_ok c -> console_ok (print_newline c).
Proof.
  intros Hc. destruct (newline_pos c Hc) as (Hx & _ & Hy). destruct Hc as [_ Hr].
  unfold NUM_ROWS, NUM_COLS in *. split; rewrite ?Hx, ?Hy; unfold NUM_ROWS, NUM_COLS; lia.
Qed.

Lemma print_char_ok ch c : console_ok c -> console_ok (print_char ch c).
Proof.
  intros Hc. unfold print_char. destruct (ch =? NEWLINE); [by apply newline_ok|].
  destruct (Z.ltb_spec NUM_COLS (col c)).
  - destruct (newline_pos c Hc) as (Hx & _ & _). apply newline_ok in Hc as [_ Hr].
    split; cbn; [rewrite Hx; unfold NUM_COLS; lia|exact Hr].
  - destruct Hc as [Hx Hr]. split; cbn; [lia|exact Hr].
Qed.

Lemma print_str_ok str c : console_ok c -> console_ok (print_str str c).
Proof.
  unfold print_str. revert c. induction str as [|ch str IH]; intros c Hc; cbn [foldl]; [done|].
  by apply IH, print_char_ok.
Qed.

(** ** Rows *)

(** A loop that visits the cells [base], ..., [base + n - 1] and gives each
    one its value from the map it started with. *)
Lemma fold_cells (step : gmap Z Char -> Z -> gmap Z Char) (v : Z -> option Char) base b :
  (forall b' x i, 0 <= x ->
     (forall j, base + x <= j -> b' !! j = b !! j) ->
     step b' x !! i = if decide (i = base + x) then v i else b' !! i) ->
  forall n i, 0 <= n ->
    foldl step b (seqZ 0 n) !! i = if decide (base <= i < base + n) then v i else b !! i.
Proof.
  intros Hstep n i Hn. rewrite <- (Z2Nat.id n) by done. generalize (Z.to_nat n) as k. clear n Hn.
  intros k. revert i. induction k as [|k IH]; intros i; [simpl; by rewrite decide_False by lia|].
  rewrite seqZ_S, foldl_snoc, Z.add_0_l, Hstep, IH by
    (try lia; intros j Hj; rewrite IH; by rewrite decide_False by lia).
  repeat case_decide; try lia; done.
Qed.

Lemma clear_row_lookup r c i :
  buffer (clear_row r c) !! i =
  if decide (NUM_COLS * r <= i < NUM_COLS * r + NUM_COLS) then Some (MkChar (chr " ") (color c))
  else buffer c !! i.
Proof.
  unfold clear_row. cbn [buffer set_buffer].
  apply (fold_cells _ (fun _ => Some (MkChar (chr " ") (color c)))); [|unfold NUM_COLS; lia].
  intros b x j Hx _. destruct (decide (j = NUM_COLS * r + x)) as [->|Hne].
  - rewrite Z.add_comm. by rewrite lookup_insert_eq.
  - rewrite lookup_insert_ne by lia. done.
Qed.

Lemma copy_cell_lookup from to b i :
  copy_cell from to b !! i = if decide (i = to) then b !! from else b !! i.
Proof.
  unfold copy_cell. destruct (b !! from) eqn:E; case_decide as Hi; subst.
  - by rewrite lookup_insert_eq.
  - by rewrite lookup_insert_ne.
  - by rewrite lookup_delete_eq.
  - by rewrite lookup_delete_ne.
Qed.

Lemma scroll_row_lookup r b i :
  scroll_row b r !! i =
  if decide (NUM_COLS * (r - 1) <= i < NUM_COLS * (r - 1) + NUM_COLS) then b !! (i + NUM_COLS)
  else b !! i.
Proof.
  unfold scroll_row.
  apply (fold_cells _ (fun i => b !! (i + NUM_COLS)) (NUM_COLS * (r - 1))); [|unfold NUM_COLS; lia].
  intros b' x j Hx Hb. rewrite copy_cell_lookup, Hb by (unfold NUM_COLS; lia).
  rewrite (decide_ext (j = x + _) (j = NUM_COLS * (r - 1) + x)) by lia.
  case_decide as E; [|done]. subst j. f_equal. unfold NUM_COLS. lia.
Qed.

Lemma scroll_lookup b n i :
  0 <= n ->
  foldl scroll_row b (seqZ 1 n) !! i = if decide (0 <= i < NUM_COLS * n) then b !! (i + NUM_COLS) else b !! i.
Proof.
  intros Hn. rewrite <- (Z2Nat.id n) by done. generalize (Z.to_nat n) as k. clear n Hn.
  intros k. revert i. induction k as [|k IH]; intros i; [simpl; by rewrite decide_False by lia|].
  rewrite seqZ_S, foldl_snoc, scroll_row_lookup, !IH. unfold NUM_COLS.
  repeat case_decide; try lia; done.
Qed.

Lemma newline_scroll c i :
  row c = NUM_ROWS - 1 ->
  buffer (print_newline c) !! i =
  if decide (0 <= i < NUM_COLS * (NUM_ROWS - 1)) then buffer c !! (i + NUM_COLS)
  else if decide (NUM_COLS * (NUM_ROWS - 1) <= i < NUM_COLS * NUM_ROWS)
       then Some (MkChar (chr " ") (color c)) else buffer c !! i.
Proof.
  intros Hr. unfold print_newline. cbn [row set_pos]. rewrite Hr, Z.ltb_irrefl.
  rewrite clear_row_lookup. cbn [buffer set_buffer set_pos color].
  rewrite scroll_lookup by (unfold NUM_ROWS; lia). unfold NUM_COLS, NUM_ROWS.
  repeat case_decide; try lia; done.
Qed.

Lemma newline_no_scroll c i :
  row c < NUM_ROWS - 1 -> buffer (print_newline c) !! i = buffer c !! i.
Proof. intros Hr. unfold print_newline. cbn [row set_pos]. by decide_lia. Qed.

(** ** A line of text *)

(** The console after [k] characters without a newline, from the top left. *)
Record typed (c0 : Console) (text : list Z) (c : Console) : Prop := {
  ty_color : color c = color c0;
  ty_pos : 0 <= col c <= 81 /\ 0 <= row c /\ Z.of_nat (length text) = 81 * row c + col c /\
    (col c = 0 -> row c = 0);
  ty_cell : forall r x ch, 0 <= x < 80 -> 0 <= r -> text !! Z.to_nat (81 * r + x) = Some ch ->
    buffer c !! (x + 80 * r) = Some (MkChar ch (color c0));
}.

Lemma typed_snoc c0 text c ch :
  typed c0 text c -> ch <> NEWLINE -> Z.of_nat (length text) < 81 * 25 ->
  typed c0 (text ++ [ch]) (print_char ch c).
Proof.
  intros [Hcol (Hx & Hy & Hlen & H0) Hcell] Hch Hmax. unfold print_char.
  assert (forall r x ch', 0 <= x < 80 -> 0 <= r -> (text ++ [ch]) !! Z.to_nat (81 * r + x) = Some ch' ->
    81 * r + x = Z.of_nat (length text) /\ ch' = ch \/ text !! Z.to_nat (81 * r + x) = Some ch')
    as Happ.
  { intros r x ch' Hx' Hr Hl. apply lookup_app_Some in Hl as [Hl|[Hge Hl]]; [by right|].
    apply list_lookup_singleton_Some in Hl as [Hz <-]. left. split; [lia|done]. }
  replace (ch =? NEWLINE) with false by lia. unfold NUM_COLS.
  destruct (Z.ltb_spec 80 (col c)) as [Hc|Hc].
  - assert (row c < NUM_ROWS - 1) as Hr by (unfold NUM_ROWS; lia).
    assert (print_newline c = set_pos 0 (row c + 1) c) as ->.
    { unfold print_newline. cbn [row set_pos]. by decide_lia. }
    split; cbn [color set_pos set_buffer buffer col row]; [done|rewrite length_app; simpl; lia|].
    intros r x ch' Hx' Hr' Hl. apply (Happ r x ch' Hx' Hr') in Hl as [[Heq ->]|Hl].
    + replace (x + 80 * r) with (0 + 80 * (row c + 1)) by lia. by rewrite lookup_insert_eq, Hcol.
    + apply lookup_lt_Some in Hl as Hlt. rewrite lookup_insert_ne by lia. by apply Hcell.
  - split; cbn [color set_pos set_buffer buffer col row]; [done|rewrite length_app; simpl; lia|].
    intros r x ch' Hx' Hr' Hl. apply (Happ r x ch' Hx' Hr') in Hl as [[Heq ->]|Hl].
    + replace (x + 80 * r) with (col c + 80 * row c) by lia. by rewrite lookup_insert_eq, Hcol.
    + apply lookup_lt_Some in Hl as Hlt. rewrite lookup_insert_ne by lia. by apply Hcell.
Qed.

Lemma print_str_snoc text ch c : print_str (text ++ [ch]) c = print_char ch (print_str text c).
Proof. unfold print_str. by rewrite foldl_snoc. Qed.

Lemma print_str_typed c0 text :
  col c0 = 0 -> row c0 = 0 -> Forall (fun ch => ch <> NEWLINE) text ->
  Z.of_nat (length text) <= 81 * 25 -> typed c0 text (print_str text c0).
Proof.
  intros Hx Hy. induction text as [|ch text IH] using rev_ind; intros Ht Hl.
  - split; [done|simpl; lia|]. intros r x ch _ _ Hn. by rewrite lookup_nil in Hn.
  - rewrite length_app in Hl. simpl in Hl. apply Forall_app in Ht as [Ht Hch].
    rewrite print_str_snoc. apply typed_snoc; [apply IH; [done|lia]|by inversion Hch|lia].
Qed.

(** ** Properties *)

(** Text without newlines printed from the top left of the screen wraps
    after 81 characters although a row has 80: of the first 2025 characters,
    number [81 * r + x] with [x < 80] stays in row [r], column [x], and every
    81st is overwritten by its successor (or, in the last row, written behind
    the screen). *)
Theorem print_str_wraps_at_81 c text :
  col c = 0 -> row c = 0 -> Forall (fun ch => ch <> NEWLINE) text ->
  Z.of_nat (length text) <= 81 * 25 ->
  forall r x ch, 0 <= x < 80 -> 0 <= r -> text !! Z.to_nat (81 * r + x) = Some ch ->
    buffer (print_str text c) !! (x + 80 * r) = Some (MkChar ch (color c)).
Proof. intros Hx Hy Ht Hl. apply (ty_cell _ _ _ (print_str_typed c text Hx Hy Ht Hl)). Qed.

(** From a good position, printing any string leaves the cursor in the 25
    rows, and never changes a cell outside the 80x25 screen except the one
    just behind it, cell 2000. *)
Theorem print_str_cells c str i :
  console_ok c -> ~ 0 <= i <= NUM_COLS * NUM_ROWS ->
  console_ok (print_str str c) /\ buffer (print_str str c) !! i = buffer c !! i.
Proof.
  intros Hc Hi. split; [by apply print_str_ok|].
  unfold print_str. revert c Hc. induction str as [|ch str IH]; intros c Hc; cbn [foldl]; [done|].
  rewrite IH by by apply print_char_ok.
  assert (forall c, console_ok c -> buffer (print_newline c) !! i = buffer c !! i) as Hnl.
  { intros c' [_ Hr]. destruct (decide (row c' = NUM_ROWS - 1)) as [E|E].
    - rewrite newline_scroll by done. unfold NUM_COLS, NUM_ROWS in *. by rewrite !decide_False by lia.
    - apply newline_no_scroll. lia. }
  unfold print_char. destruct (ch =? NEWLINE); [by apply Hnl|].
  destruct (Z.ltb_spec NUM_COLS (col c)) as [Hx|Hx]; cbn [buffer set_pos set_buffer].
  - destruct (newline_pos c Hc) as (Hx' & _ & _). pose proof (ok_row _ (newline_ok c Hc)).
    rewrite lookup_insert_ne by (unfold NUM_COLS, NUM_ROWS in *; lia). by apply Hnl.
  - destruct Hc. by rewrite lookup_insert_ne by (unfold NUM_COLS, NUM_ROWS in *; lia).
Qed.

(** A newline in the last row moves every row up by one and blanks the
    last one in the current colour; in any other row it only moves the cursor. *)
Theorem print_newline_scrolls c r x :
  console_ok c -> 0 <= r < NUM_ROWS -> 0 <= x < NUM_COLS ->
  let c' := print_newline c in
  col c' = 0 /\ row c' = Z.min (row c + 1) (NUM_ROWS - 1) /\
  buffer c' !! (x + NUM_COLS * r) =
    if decide (row c < NUM_ROWS - 1) then buffer c !! (x + NUM_COLS * r)
    else if decide (r = NUM_ROWS - 1) then Some (MkChar (chr " ") (color c))
    else buffer c !! (x + NUM_COLS * (r + 1)).
Proof.
  intros Hc Hr Hx c'. destruct (newline_pos c Hc) as (Hx' & _ & Hy').
  split; [exact Hx'|]. split; [exact Hy'|]. pose proof (ok_row _ Hc). unfold c'. case_decide as E.
  - by apply newline_no_scroll.
  - rewrite newline_scroll by lia. unfold NUM_COLS, NUM_ROWS in *.
    repeat case_decide; try lia; [|done]. f_equal. lia.
Qed.

Lemma print_str_wraps_at_81_witness :
  buffer (print_str (replicate 81 65 ++ [66]) console_initial) !! 80 = Some (MkChar 66 15).
Proof.
  apply (print_str_wraps_at_81 console_initial (replicate 81 65 ++ [66]) eq_refl eq_refl) with (r := 1) (x := 0);
    [|simpl; lia|lia|lia|reflexivity].
  apply Forall_app; split; [apply Forall_replicate|constructor; [|constructor]]; unfold NEWLINE; lia.
Defined.

Lemma console_initial_ok : console_ok console_initial.
Proof. split; unfold NUM_COLS, NUM_ROWS; simpl; lia. Qed.

Lemma print_str_cells_witness :
  console_ok (print_str [72; 105; 10] console_initial) /\
  buffer (print_str [72; 105; 10] console_initial) !! 2001 = None.
Proof. apply (print_str_cells console_initial [72; 105; 10] 2001 console_initial_ok). unfold NUM_COLS, NUM_ROWS. lia. Defined.

Lemma print_newline_scrolls_witness :
  buffer (print_newline (set_pos 0 24 (set_buffer {[80 := MkChar 65 15]} console_initial))) !! 0 =
  Some (MkChar 65 15).
Proof.
  destruct (print_newline_scrolls (set_pos 0 24 (set_buffer {[80 := MkChar 65 15]} console_initial)) 0 0)
    as (_ & _ & Hb); unfold NUM_COLS, NUM_ROWS; [split; unfold NUM_COLS, NUM_ROWS; simpl; lia|lia|lia|].
  exact Hb.
Defined.

(** The 81st character of the last row goes behind the screen. *)
Lemma print_char_behind_screen :
  buffer (print_char 65 (set_pos 80 24 console_initial)) !! (NUM_COLS * NUM_ROWS) = Some (MkChar 65 15).
Proof. reflexivity. Qed.
