(* ===== verification/Memory.v ===== *)
(** * The byte memory

    The kernel runs with the boot loader's identity mapping, so an object
    pointer is the address of its first byte. [mem] is that memory: a finite
    map from addresses to bytes, 0 where nothing was stored. Struct fields
    and pointers are read and written as little-endian words, as the
    processor does. *)
From S2P Require Export Prelude.

Abbreviation mem := (gmap Z Z).

Implicit Types m : mem.

Definition load (m : mem) (a : Z) : Z := u8 (default 0 (m !! a)).
Definition store (m : mem) (a v : Z) : mem := <[a := u8 v]> m.

Fixpoint load_le (n : nat) (m : mem) (a : Z) : Z :=
  match n with
  | O => 0
  | S n => load m a + 256 * load_le n m (a + 1)
  end.

Fixpoint store_le (n : nat) (m : mem) (a v : Z) : mem :=
  match n with
  | O => m
  | S n => store_le n (store m a v) (a + 1) (v / 256)
  end.

Definition load64 := load_le 8.
Definition store64 := store_le 8.
Definition load32 := load_le 4.
Definition store32 := store_le 4.

(** [bytes_at m a l]: the bytes [l] lie at [a], [a + 1], ... *)
Fixpoint bytes_at (m : mem) (a : Z) (l : list Z) : Prop :=
  match l with
  | [] => True
  | c :: l => load m a = c /\ bytes_at m (a + 1) l
  end.

(** [cstr m s l]: [s] points to the NUL-terminated string [l]. *)
Definition cstr (m : mem) (s : Z) (l : list Z) : Prop :=
  Forall cchar l /\ bytes_at m s (l ++ [0]).

Fixpoint read_bytes (m : mem) (a : Z) (n : nat) : list Z :=
  match n with
  | O => []
  | S n => load m a :: read_bytes m (a + 1) n
  end.

Fixpoint write_bytes (m : mem) (a : Z) (l : list Z) : mem :=
  match l with
  | [] => m
  | c :: l => write_bytes (store m a c) (a + 1) l
  end.

(** ** Equality of memories, and frames

    Two memories are equal when every address holds the same byte. *)

Definition meq (m m' : mem) : Prop := forall a, load m a = load m' a.

#[export] Instance meq_equivalence : Equivalence meq.
Proof.
  split.
  - intros m a. done.
  - intros m m' H a. by rewrite (H a).
  - intros m1 m2 m3 H1 H2 a. by rewrite (H1 a).
Qed.

(** [changes lo hi m m']: only addresses of [lo, hi) may differ. *)
Definition changes (lo hi : Z) (m m' : mem) : Prop :=
  forall a, ~ lo <= a < hi -> load m' a = load m a.

Lemma load_range m a : 0 <= load m a < 256.
Proof. apply u8_range. Qed.

Lemma load_store m a v b :
  load (store m a v) b = if decide (a = b) then u8 v else load m b.
Proof.
  unfold load, store. rewrite lookup_insert. case_decide; [|done].
  simpl. apply u8_id, u8_range.
Qed.

Lemma load_store_eq m a v : load (store m a v) a = u8 v.
Proof. rewrite load_store. by rewrite decide_True. Qed.

Lemma load_store_ne m a v b : a <> b -> load (store m a v) b = load m b.
Proof. intros. rewrite load_store. by rewrite decide_False. Qed.

Lemma load_empty a : load ∅ a = 0.
Proof. unfold load. by rewrite lookup_empty. Qed.

Lemma load_u8 m a : u8 (load m a) = load m a.
Proof. apply u8_id, load_range. Qed.

#[export] Instance store_proper : Proper (meq ==> eq ==> eq ==> meq) store.
Proof.
  intros m m' Hm a ? <- v ? <- b. rewrite !load_store. case_decide; [done|apply Hm].
Qed.

#[export] Instance load_proper : Proper (meq ==> eq ==> eq) load.
Proof. intros m m' Hm a ? <-. apply Hm. Qed.

#[export] Instance load_le_proper n : Proper (meq ==> eq ==> eq) (load_le n).
Proof.
  induction n as [|n IH]; intros m m' Hm a ? <-; simpl; [done|].
  by rewrite (Hm a), (IH _ _ Hm (a + 1) _ eq_refl).
Qed.

#[export] Instance store_le_proper n :
  Proper (meq ==> eq ==> eq ==> meq) (store_le n).
Proof.
  induction n as [|n IH]; intros m m' Hm a ? <- v ? <-; simpl; [done|].
  apply IH; [|done..]. by rewrite Hm.
Qed.

Lemma changes_refl lo hi m : changes lo hi m m.
Proof. intros a _. done. Qed.

Lemma changes_trans lo hi m1 m2 m3 :
  changes lo hi m1 m2 -> changes lo hi m2 m3 -> changes lo hi m1 m3.
Proof. intros H1 H2 a Ha. rewrite H2, H1 by done. done. Qed.

Lemma changes_weaken lo hi lo' hi' m m' :
  changes lo hi m m' -> lo' <= lo -> hi <= hi' -> changes lo' hi' m m'.
Proof. intros H ?? a Ha. apply H. lia. Qed.

Lemma changes_store lo hi m a v : lo <= a < hi -> changes lo hi m (store m a v).
Proof. intros ? b ?. apply load_store_ne. lia. Qed.

#[export] Hint Resolve changes_refl load_range : cint.

(** ** Words *)

Lemma load_le_range n m a : 0 <= load_le n m a < 256 ^ Z.of_nat n.
Proof.
  revert a. induction n as [|n IH]; intros a; simpl load_le.
  - simpl. lia.
  - rewrite Nat2Z.inj_succ, Z.pow_succ_r by lia.
    pose proof (load_range m a). specialize (IH (a + 1)). lia.
Qed.

Lemma load_le_changes n m m' lo hi a :
  changes lo hi m m' -> a + Z.of_nat n <= lo \/ hi <= a ->
  load_le n m' a = load_le n m a.
Proof.
  intros Hc. revert a. induction n as [|n IH]; intros a Ha; simpl; [done|].
  rewrite Hc by lia. rewrite IH by lia. done.
Qed.

Lemma load_le_ext n m m' a :
  (forall b, a <= b < a + Z.of_nat n -> load m' b = load m b) -> load_le n m' a = load_le n m a.
Proof.
  revert a. induction n as [|n IH]; intros a Ha; simpl; [done|].
  rewrite Ha, IH by (intros; apply Ha || idtac; lia). done.
Qed.

Lemma load64_ext m m' a :
  (forall b, a <= b < a + 8 -> load m' b = load m b) -> load64 m' a = load64 m a.
Proof. apply (load_le_ext 8). Qed.
Lemma load32_ext m m' a :
  (forall b, a <= b < a + 4 -> load m' b = load m b) -> load32 m' a = load32 m a.
Proof. apply (load_le_ext 4). Qed.

Lemma store_le_changes n m a v : changes a (a + Z.of_nat n) m (store_le n m a v).
Proof.
  revert m a v. induction n as [|n IH]; intros m a v; simpl store_le.
  - apply changes_refl.
  - eapply changes_trans; [apply (changes_store _ _ m a v); lia|].
    eapply changes_weaken; [apply IH|lia|lia].
Qed.

Lemma load_le_store_le_eq n m a v :
  load_le n (store_le n m a v) a = v mod 256 ^ Z.of_nat n.
Proof.
  revert m a v. induction n as [|n IH]; intros m a v; simpl load_le; simpl store_le.
  - by rewrite Z.mod_1_r.
  - rewrite IH. rewrite (store_le_changes n (store m a v) (a + 1) (v / 256) a) by lia.
    rewrite load_store_eq, Nat2Z.inj_succ, Z.pow_succ_r by lia.
    unfold u8. change (2 ^ 8) with 256.
    rewrite Z.rem_mul_r by lia. done.
Qed.

Lemma load_le_store_le_ne n k m a v b :
  b + Z.of_nat n <= a \/ a + Z.of_nat k <= b ->
  load_le n (store_le k m a v) b = load_le n m b.
Proof. intros. eapply load_le_changes; [apply store_le_changes|lia]. Qed.

Lemma load64_range m a : 0 <= load64 m a < 2 ^ 64.
Proof. apply (load_le_range 8). Qed.
Lemma load32_range m a : 0 <= load32 m a < 2 ^ 32.
Proof. apply (load_le_range 4). Qed.
Lemma load64_store64_eq m a v : load64 (store64 m a v) a = u64 v.
Proof. apply (load_le_store_le_eq 8). Qed.
Lemma load64_store64_ne m a v b :
  b + 8 <= a \/ a + 8 <= b -> load64 (store64 m a v) b = load64 m b.
Proof. apply (load_le_store_le_ne 8 8). Qed.
Lemma store64_changes m a v : changes a (a + 8) m (store64 m a v).
Proof. apply (store_le_changes 8). Qed.
Lemma store32_changes m a v : changes a (a + 4) m (store32 m a v).
Proof. apply (store_le_changes 4). Qed.
Lemma load64_changes m m' lo hi a :
  changes lo hi m m' -> a + 8 <= lo \/ hi <= a -> load64 m' a = load64 m a.
Proof. apply (load_le_changes 8). Qed.
Lemma load32_changes m m' lo hi a :
  changes lo hi m m' -> a + 4 <= lo \/ hi <= a -> load32 m' a = load32 m a.
Proof. apply (load_le_changes 4). Qed.
Lemma load32_store32_eq m a v : load32 (store32 m a v) a = u32 v.
Proof. apply (load_le_store_le_eq 4). Qed.

Lemma load64_store32_ne m a v b :
  b + 8 <= a \/ a + 4 <= b -> load64 (store32 m a v) b = load64 m b.
Proof. apply (load_le_store_le_ne 8 4). Qed.
Lemma load32_store64_ne m a v b :
  b + 4 <= a \/ a + 8 <= b -> load32 (store64 m a v) b = load32 m b.
Proof. apply (load_le_store_le_ne 4 8). Qed.
Lemma load32_store32_ne m a v b :
  b + 4 <= a \/ a + 4 <= b -> load32 (store32 m a v) b = load32 m b.
Proof. apply (load_le_store_le_ne 4 4). Qed.

(** Reads of a word after stores to the same or to other words. *)
Ltac mem_words :=
  repeat first
    [ rewrite load64_store64_eq | rewrite load32_store32_eq
    | rewrite load64_store64_ne by lia | rewrite load64_store32_ne by lia
    | rewrite load32_store64_ne by lia | rewrite load32_store32_ne by lia ].

Lemma load_le_zero n m a :
  (forall b, a <= b < a + Z.of_nat n -> load m b = 0) -> load_le n m a = 0.
Proof.
  revert a. induction n as [|n IH]; intros a Ha; simpl; [done|].
  rewrite Ha, IH by (intros; apply Ha || idtac; lia). done.
Qed.

Lemma load64_zero m a : (forall b, a <= b < a + 8 -> load m b = 0) -> load64 m a = 0.
Proof. apply (load_le_zero 8). Qed.

(** ** Runs of bytes *)

Lemma bytes_at_lookup m a l :
  bytes_at m a l <-> forall i c, l !! i = Some c -> load m (a + Z.of_nat i) = c.
Proof.
  revert a. induction l as [|d l IH]; intros a; simpl.
  - split; [|done]. intros _ i c Hi. by rewrite lookup_nil in Hi.
  - rewrite IH. split.
    + intros [Hd Hl] [|i] c Hi; simpl in Hi; simplify_eq.
      * by rewrite Z.add_0_r.
      * replace (a + Z.of_nat (S i)) with (a + 1 + Z.of_nat i) by lia. eauto.
    + intros H. split; [rewrite <- (H 0%nat d) by done; f_equal; lia|].
      intros i c Hi. rewrite <- (H (S i) c) by done. f_equal. lia.
Qed.

Lemma bytes_at_app m a l1 l2 :
  bytes_at m a (l1 ++ l2) <->
  bytes_at m a l1 /\ bytes_at m (a + Z.of_nat (length l1)) l2.
Proof.
  revert a. induction l1 as [|c l1 IH]; intros a; simpl.
  - rewrite Z.add_0_r. tauto.
  - rewrite IH. replace (a + 1 + Z.of_nat (length l1)) with
      (a + Z.of_nat (S (length l1))) by lia. tauto.
Qed.

Lemma bytes_at_changes m m' lo hi a l :
  changes lo hi m m' -> a + Z.of_nat (length l) <= lo \/ hi <= a ->
  bytes_at m a l -> bytes_at m' a l.
Proof.
  intros Hc Ha. rewrite !bytes_at_lookup. intros H i c Hi.
  apply lookup_lt_Some in Hi as Hlt. rewrite Hc by lia. eauto.
Qed.

Lemma length_read_bytes m a n : length (read_bytes m a n) = n.
Proof. revert a. induction n; intros a; simpl; [done|]. by rewrite IHn. Qed.

Lemma read_bytes_app m a n n' : read_bytes m a (n + n') = read_bytes m a n ++ read_bytes m (a + Z.of_nat n) n'.
Proof.
  revert a. induction n as [|n IH]; intros a; cbn [Nat.add read_bytes app].
  - by rewrite Z.add_0_r.
  - rewrite IH. do 3 f_equal. lia.
Qed.

Lemma lookup_read_bytes m a n i : read_bytes m a n !! i = if decide (i < n)%nat then Some (load m (a + Z.of_nat i)) else None.
Proof.
  revert a i. induction n as [|n IH]; intros a i; [by case_decide; [lia|]|].
  destruct i as [|i]; cbn [read_bytes lookup list_lookup]; [by rewrite Z.add_0_r|].
  change (list_lookup i (read_bytes m (a + 1) n)) with (read_bytes m (a + 1) n !! i). rewrite IH.
  repeat case_decide; try lia; [|done]. do 2 f_equal. lia.
Qed.

(** [l] stored at [off] of [n] bytes, which may make them longer. *)
Definition splice {A} (off : nat) (l xs : list A) : list A := take off xs ++ l ++ drop (off + length l) xs.

Lemma read_bytes_splice m m' a off l n :
  (off <= n)%nat ->
  (forall b, load m' b = if decide (a + Z.of_nat off <= b < a + Z.of_nat off + Z.of_nat (length l))
                         then default 0 (l !! Z.to_nat (b - (a + Z.of_nat off))) else load m b) ->
  read_bytes m' a (Nat.max n (off + length l)) = splice off l (read_bytes m a n).
Proof.
  intros Ho Hm. apply list_eq. intros i. unfold splice. rewrite lookup_read_bytes, Hm.
  destruct (decide (i < off)%nat).
  { rewrite lookup_app_l, lookup_take by (rewrite ?length_take, ?length_read_bytes; lia).
    rewrite lookup_read_bytes. repeat case_decide; try lia; done. }
  assert (length (take off (read_bytes m a n)) = off) as Hl by (rewrite length_take, length_read_bytes; lia).
  rewrite lookup_app_r, Hl by lia. destruct (decide (i < off + length l)%nat).
  - rewrite lookup_app_l by lia. rewrite !decide_True by lia.
    replace (Z.to_nat _) with (i - off)%nat by lia.
    destruct (lookup_lt_is_Some_2 l (i - off)) as [c ->]; [lia|done].
  - rewrite lookup_app_r, lookup_drop, lookup_read_bytes by lia.
    replace (off + length l + (i - off - length l))%nat with i by lia.
    repeat case_decide; try lia; done.
Qed.

Lemma read_bytes_changes m m' lo hi a n :
  changes lo hi m m' -> a + Z.of_nat n <= lo \/ hi <= a -> read_bytes m' a n = read_bytes m a n.
Proof.
  intros Hc. revert a. induction n as [|n IH]; intros a Ha; simpl; [done|].
  rewrite Hc by lia. f_equal. apply IH. lia.
Qed.

Lemma bytes_at_read m a n : bytes_at m a (read_bytes m a n).
Proof. revert a. induction n; intros a; simpl; eauto. Qed.

Lemma read_bytes_eq m a l :
  bytes_at m a l -> read_bytes m a (length l) = l.
Proof.
  revert a. induction l as [|c l IH]; intros a; simpl; [done|].
  intros [-> H]. by rewrite IH.
Qed.

Lemma write_bytes_changes m a l :
  changes a (a + Z.of_nat (length l)) m (write_bytes m a l).
Proof.
  revert m a. induction l as [|c l IH]; intros m a; simpl; [apply changes_refl|].
  eapply changes_trans; [apply (changes_store _ _ m a c); lia|].
  eapply changes_weaken; [apply IH|lia|lia].
Qed.

Lemma write_bytes_at m a l :
  Forall (fun c => 0 <= c < 256) l -> bytes_at (write_bytes m a l) a l.
Proof.
  intros Hl. revert m a. induction Hl as [|c l Hc Hl IH]; intros m a; simpl; [done|].
  split; [|apply IH].
  rewrite write_bytes_changes by lia. rewrite load_store_eq. by apply u8_id.
Qed.

Lemma load_write_bytes m a l b :
  load (write_bytes m a l) b =
  if decide (a <= b < a + Z.of_nat (length l))
  then u8 (default 0 (l !! Z.to_nat (b - a))) else load m b.
Proof.
  revert m a. induction l as [|c l IH]; intros m a; cbn [write_bytes length].
  - by rewrite decide_False by lia.
  - rewrite IH, load_store. destruct (decide (a = b)) as [->|Hab].
    + rewrite decide_False by lia. rewrite decide_True by lia. by rewrite Z.sub_diag.
    + repeat case_decide; try lia; try done.
      replace (Z.to_nat (b - a)) with (S (Z.to_nat (b - (a + 1)))) by lia. done.
Qed.

Lemma write_bytes_app m a l1 l2 :
  write_bytes m a (l1 ++ l2) =
  write_bytes (write_bytes m a l1) (a + Z.of_nat (length l1)) l2.
Proof.
  revert m a. induction l1 as [|c l1 IH]; intros m a; simpl.
  - by rewrite Z.add_0_r.
  - rewrite IH. f_equal. lia.
Qed.

Lemma cstr_inv m s l :
  cstr m s l -> match l with
                | [] => load m s = 0
                | c :: l => cchar c /\ load m s = c /\ cstr m (s + 1) l
                end.
Proof.
  intros [Hf Hb]. destruct l as [|c l]; simpl in Hb; [by destruct Hb|].
  inversion Hf; subst. unfold cstr. tauto.
Qed.

Lemma cstr_changes m m' lo hi s l :
  changes lo hi m m' -> s + Z.of_nat (length l) < lo \/ hi <= s ->
  cstr m s l -> cstr m' s l.
Proof.
  intros Hc Hs [Hf Hb]. split; [done|]. eapply bytes_at_changes; [done| |done].
  rewrite length_app. simpl. lia.
Qed.

Lemma cstr_ext m m' p s :
  (forall a, p <= a < p + Z.of_nat (length s) + 1 -> load m' a = load m a) -> cstr m p s -> cstr m' p s.
Proof.
  intros Hd [Hf Hb]. split; [done|]. rewrite bytes_at_lookup in *. intros i c Hi.
  apply lookup_lt_Some in Hi as Hlen. rewrite length_app in Hlen. cbn [length] in Hlen.
  rewrite Hd by lia. by apply Hb.
Qed.

Lemma cstr_unique m s l l' : cstr m s l -> cstr m s l' -> l = l'.
Proof.
  revert s l'. induction l as [|c l IH]; intros s l' H H';
    apply cstr_inv in H; destruct l' as [|c' l']; apply cstr_inv in H'; [done|..].
  - destruct H' as (Hc & ? & ?). unfold cchar in Hc. lia.
  - destruct H as (Hc & ? & ?). unfold cchar in Hc. lia.
  - destruct H as (? & <- & H), H' as (? & <- & H'). f_equal. eauto.
Qed.

Lemma cstr_load m s l i :
  cstr m s l -> 0 <= i <= Z.of_nat (length l) -> load m (s + i) = default 0 (l !! Z.to_nat i).
Proof.
  intros [_ Hb] Hi. rewrite bytes_at_lookup in Hb.
  destruct (decide (i = Z.of_nat (length l))) as [->|Hne].
  - rewrite Nat2Z.id, lookup_ge_None_2 by lia. apply Hb.
    by rewrite lookup_app_r, Nat.sub_diag by lia.
  - destruct (lookup_lt_is_Some_2 l (Z.to_nat i)) as [c Hc]; [lia|].
    rewrite Hc. simpl. replace i with (Z.of_nat (Z.to_nat i)) by lia. apply Hb.
    by apply lookup_app_l_Some.
Qed.

Lemma cstr_drop m s l1 l2 :
  cstr m s (l1 ++ l2) -> cstr m (s + Z.of_nat (length l1)) l2.
Proof.
  intros [Hf Hb]. apply Forall_app in Hf as [_ Hf]. split; [done|].
  rewrite <- app_assoc, bytes_at_app in Hb. tauto.
Qed.

Create Rewrite HintDb mem.
#[export] Hint Rewrite load_store_eq load_u8 length_read_bytes : mem.
#[export] Hint Rewrite load64_store64_eq load32_store32_eq : mem.
