(* ===== verification/CString.v ===== *)
(** * Memory and string functions (src/impl/kernel/string.c, lines 11-141)

    Every function reads and writes the byte memory through pointers. A
    function whose C result is its [dest] argument returns only the new
    memory. A loop that runs to a NUL byte takes fuel and is [Spin] when the
    fuel does not reach the end; a loop counted by a [size_t] recurses on the
    count. A null pointer result is 0. *)
From S2P Require Export Memory.

(** ** Definitions *)

(** [for (i = 0; i < n; i++) d[i] = s[i]], [k] iterations left. *)
Fixpoint copy_up (k : nat) (m : mem) (d s i : Z) : mem :=
  match k with
  | O => m
  | S k => copy_up k (store m (d + i) (load m (s + i))) d s (i + 1)
  end.

(** [for (i = n; i > 0; i--) d[i-1] = s[i-1]]. *)
Fixpoint copy_down (i : nat) (m : mem) (d s : Z) : mem :=
  match i with
  | O => m
  | S j => copy_down j (store m (d + Z.of_nat j) (load m (s + Z.of_nat j))) d s
  end.

Definition memcpy (m : mem) (dest src n : Z) : mem :=
  copy_up (Z.to_nat n) m dest src 0.

Fixpoint memset_loop (k : nat) (m : mem) (p c i : Z) : mem :=
  match k with
  | O => m
  | S k => memset_loop k (store m (p + i) (u8 c)) p c (i + 1)
  end.

Definition memset (m : mem) (s c n : Z) : mem :=
  memset_loop (Z.to_nat n) m s c 0.

Definition memmove (m : mem) (dest src n : Z) : mem :=
  if dest <? src then copy_up (Z.to_nat n) m dest src 0
  else copy_down (Z.to_nat n) m dest src.

Fixpoint memcmp_loop (k : nat) (m : mem) (p1 p2 i : Z) : Z :=
  match k with
  | O => 0
  | S k =>
      if negb (load m (p1 + i) =? load m (p2 + i))
      then load m (p1 + i) - load m (p2 + i)
      else memcmp_loop k m p1 p2 (i + 1)
  end.

Definition memcmp (m : mem) (s1 s2 n : Z) : Z := memcmp_loop (Z.to_nat n) m s1 s2 0.

Fixpoint strlen_loop (fuel : nat) (m : mem) (s len : Z) : res Z :=
  match fuel with
  | O => Spin
  | S fuel =>
      if negb (load m (s + len) =? 0) then strlen_loop fuel m s (len + 1)
      else Done len
  end.

Definition strlen (fuel : nat) (m : mem) (s : Z) : res Z := strlen_loop fuel m s 0.

Fixpoint strcpy_loop (fuel : nat) (m : mem) (dest src i : Z) : res mem :=
  match fuel with
  | O => Spin
  | S fuel =>
      let c := load m (src + i) in
      let m := store m (dest + i) c in
      if negb (c =? 0) then strcpy_loop fuel m dest src (i + 1) else Done m
  end.

Definition strcpy (fuel : nat) (m : mem) (dest src : Z) : res mem :=
  strcpy_loop fuel m dest src 0.

(** The two loops of [strncpy]; [k] is [n - i]. *)
Fixpoint strncpy_pad (k : nat) (m : mem) (dest i : Z) : mem :=
  match k with
  | O => m
  | S k => strncpy_pad k (store m (dest + i) 0) dest (i + 1)
  end.

Fixpoint strncpy_loop (k : nat) (m : mem) (dest src i : Z) : mem :=
  match k with
  | O => m
  | S k' =>
      if negb (load m (src + i) =? 0)
      then strncpy_loop k' (store m (dest + i) (load m (src + i))) dest src (i + 1)
      else strncpy_pad k m dest i
  end.

Definition strncpy (m : mem) (dest src n : Z) : mem :=
  strncpy_loop (Z.to_nat n) m dest src 0.

Fixpoint strcat_loop (fuel : nat) (m : mem) (ptr src : Z) : res mem :=
  match fuel with
  | O => Spin
  | S fuel =>
      if negb (load m src =? 0)
      then strcat_loop fuel (store m ptr (load m src)) (ptr + 1) (src + 1)
      else Done (store m ptr 0)
  end.

Definition strcat (fuel : nat) (m : mem) (dest src : Z) : res mem :=
  n ← strlen fuel m dest;
  strcat_loop fuel m (dest + n) src.

Fixpoint strncat_loop (k : nat) (m : mem) (dest src dest_len i : Z) : mem * Z :=
  match k with
  | O => (m, i)
  | S k =>
      if negb (load m (src + i) =? 0)
      then strncat_loop k (store m (dest + (dest_len + i)) (load m (src + i)))
             dest src dest_len (i + 1)
      else (m, i)
  end.

Definition strncat (fuel : nat) (m : mem) (dest src n : Z) : res mem :=
  dest_len ← strlen fuel m dest;
  let '(m, i) := strncat_loop (Z.to_nat n) m dest src dest_len 0 in
  Done (store m (dest + (dest_len + i)) 0).

Fixpoint strcmp (fuel : nat) (m : mem) (s1 s2 : Z) : res Z :=
  match fuel with
  | O => Spin
  | S fuel =>
      if negb (load m s1 =? 0) && (load m s1 =? load m s2)
      then strcmp fuel m (s1 + 1) (s2 + 1)
      else Done (load m s1 - load m s2)
  end.

Fixpoint strncmp_loop (n : nat) (m : mem) (s1 s2 : Z) : Z :=
  match n with
  | O => 0
  | S k =>
      if negb (load m s1 =? 0) && (load m s1 =? load m s2)
      then strncmp_loop k m (s1 + 1) (s2 + 1)
      else load m s1 - load m s2
  end.

Definition strncmp (m : mem) (s1 s2 n : Z) : Z := strncmp_loop (Z.to_nat n) m s1 s2.

Fixpoint strchr (fuel : nat) (m : mem) (s c : Z) : res Z :=
  match fuel with
  | O => Spin
  | S fuel =>
      if negb (load m s =? u8 c)
      then if load m s =? 0 then Done 0 else strchr fuel m (s + 1) c
      else Done s
  end.

Fixpoint strrchr_loop (fuel : nat) (m : mem) (s c found : Z) : res Z :=
  match fuel with
  | O => Spin
  | S fuel =>
      if negb (load m s =? 0)
      then strrchr_loop fuel m (s + 1) c (if load m s =? u8 c then s else found)
      else Done (if c =? 0 then s else found)
  end.

Definition strrchr (fuel : nat) (m : mem) (s c : Z) : res Z :=
  strrchr_loop fuel m s c 0.

(** ** Memory functions *)

Lemma copy_up_spec k m d s i a :
  d <= s \/ s + Z.of_nat k <= d ->
  load (copy_up k m d s i) a =
  if decide (d + i <= a < d + i + Z.of_nat k) then load m (s + (a - d)) else load m a.
Proof.
  revert m i. induction k as [|k IH]; intros m i Hds; cbn [copy_up].
  - by rewrite decide_False by lia.
  - rewrite IH by lia. rewrite !load_store, load_u8.
    repeat case_decide; try lia; try done.
    f_equal. lia.
Qed.

Lemma copy_down_spec k m d s a :
  s <= d ->
  load (copy_down k m d s) a =
  if decide (d <= a < d + Z.of_nat k) then load m (s + (a - d)) else load m a.
Proof.
  intros Hds. revert m. induction k as [|k IH]; intros m; cbn [copy_down].
  - by rewrite decide_False by lia.
  - rewrite IH. rewrite !load_store, load_u8.
    repeat case_decide; try lia; try done.
    f_equal. lia.
Qed.

Lemma memcpy_load m d s n a :
  0 <= n -> d <= s \/ s + n <= d ->
  load (memcpy m d s n) a =
  if decide (d <= a < d + n) then load m (s + (a - d)) else load m a.
Proof.
  intros. unfold memcpy. rewrite copy_up_spec by lia.
  rewrite Z2Nat.id by lia. by rewrite Z.add_0_r.
Qed.

Lemma copy_up_changes k m d s i :
  changes (d + i) (d + i + Z.of_nat k) m (copy_up k m d s i).
Proof.
  revert m i. induction k as [|k IH]; intros m i; cbn [copy_up]; [apply changes_refl|].
  eapply changes_trans; [apply (changes_store _ _ m (d + i)); lia|].
  eapply changes_weaken; [apply IH|lia|lia].
Qed.

Lemma memcpy_changes m d s n : 0 <= n -> changes d (d + n) m (memcpy m d s n).
Proof.
  intros. unfold memcpy. eapply changes_weaken; [apply copy_up_changes|lia|lia].
Qed.

Lemma memset_loop_spec k m p c i a :
  load (memset_loop k m p c i) a =
  if decide (p + i <= a < p + i + Z.of_nat k) then u8 c else load m a.
Proof.
  revert m i. induction k as [|k IH]; intros m i; cbn [memset_loop].
  - by rewrite decide_False by lia.
  - rewrite IH, load_store. rewrite (u8_id (u8 c)) by apply u8_range.
    repeat case_decide; try lia; done.
Qed.

Lemma memset_load m s c n a :
  load (memset m s c n) a = if decide (s <= a < s + n) then u8 c else load m a.
Proof.
  unfold memset. rewrite memset_loop_spec, Z.add_0_r.
  destruct (decide (0 <= n)); [by rewrite Z2Nat.id|].
  replace (Z.to_nat n) with 0%nat by lia. by rewrite !decide_False by lia.
Qed.

Lemma memset_changes m s c n : changes s (s + n) m (memset m s c n).
Proof. intros a Ha. rewrite memset_load. by rewrite decide_False. Qed.

(** [memmove] copies as if the source were read first, whatever the overlap. *)
Lemma memmove_load m d s n a :
  0 <= n ->
  load (memmove m d s n) a =
  if decide (d <= a < d + n) then load m (s + (a - d)) else load m a.
Proof.
  intros. unfold memmove. destruct (Z.ltb_spec d s).
  - rewrite copy_up_spec by lia. rewrite Z2Nat.id by lia. by rewrite Z.add_0_r.
  - rewrite copy_down_spec by lia. by rewrite Z2Nat.id by lia.
Qed.

(** The value the comparison functions return for the byte sequences they
    compare: the difference at the first place where they differ. *)
Fixpoint first_diff (l1 l2 : list Z) : Z :=
  match l1, l2 with
  | c1 :: l1, c2 :: l2 => if c1 =? c2 then first_diff l1 l2 else c1 - c2
  | _, _ => 0
  end.

Lemma first_diff_eq l1 l2 : length l1 = length l2 -> first_diff l1 l2 = 0 <-> l1 = l2.
Proof.
  revert l2. induction l1 as [|c1 l1 IH]; intros [|c2 l2] Hlen; simpl in *; try done.
  destruct (Z.eqb_spec c1 c2) as [->|Hne].
  - rewrite IH by lia. split; [by intros ->|by intros [= ->]].
  - split; [intros; exfalso; lia|congruence].
Qed.

Lemma memcmp_loop_spec k m p1 p2 i :
  memcmp_loop k m p1 p2 i =
  first_diff (read_bytes m (p1 + i) k) (read_bytes m (p2 + i) k).
Proof.
  revert i. induction k as [|k IH]; intros i; simpl; [done|].
  rewrite IH, !Z.add_assoc. by destruct (load m (p1 + i) =? load m (p2 + i)).
Qed.

Lemma memcmp_first_diff m s1 s2 n :
  memcmp m s1 s2 n =
  first_diff (read_bytes m s1 (Z.to_nat n)) (read_bytes m s2 (Z.to_nat n)).
Proof. unfold memcmp. by rewrite memcmp_loop_spec, !Z.add_0_r. Qed.

(** ** String functions *)

Lemma strlen_loop_spec fuel m s l len :
  cstr m (s + len) l -> (length l < fuel)%nat ->
  strlen_loop fuel m s len = Done (len + Z.of_nat (length l)).
Proof.
  revert len l. induction fuel as [|fuel IH]; intros len l Hl Hf; [lia|].
  apply cstr_inv in Hl. simpl. destruct l as [|c l].
  - rewrite Hl. simpl. f_equal. lia.
  - destruct Hl as (Hc & -> & Hl). unfold cchar in Hc. decide_lia. simpl in *.
    rewrite (IH _ l); [f_equal; lia| |lia]. by rewrite Z.add_assoc.
Qed.

Lemma strlen_spec fuel m s l :
  cstr m s l -> (length l < fuel)%nat ->
  strlen fuel m s = Done (Z.of_nat (length l)).
Proof.
  intros. unfold strlen. rewrite (strlen_loop_spec _ _ _ l); [done| |done].
  by rewrite Z.add_0_r.
Qed.

(** The string copied by [strcpy] may lie anywhere that the bytes written
    before the copy reaches them do not touch. *)
Lemma strcpy_loop_spec fuel m dest src i l :
  cstr m (src + i) l -> (length l < fuel)%nat ->
  dest <= src \/ src + i + Z.of_nat (length l) < dest + i ->
  strcpy_loop fuel m dest src i = Done (write_bytes m (dest + i) (l ++ [0])).
Proof.
  revert m i l. induction fuel as [|fuel IH]; intros m i l Hl Hf Hd; [lia|].
  apply cstr_inv in Hl as Hi. cbn [strcpy_loop]. destruct l as [|c l].
  - rewrite Hi. done.
  - destruct Hi as (Hc & -> & Hl'). unfold cchar in Hc. decide_lia.
    cbn [app negb write_bytes length] in *. rewrite (IH _ _ l).
    + by rewrite Z.add_assoc.
    + rewrite Z.add_assoc.
      eapply (cstr_changes m _ (dest + i) (dest + i + 1)); [apply changes_store; lia| |done].
      lia.
    + lia.
    + lia.
Qed.

Lemma strcpy_spec fuel m dest src l :
  cstr m src l -> (length l < fuel)%nat ->
  dest <= src \/ src + Z.of_nat (length l) < dest ->
  strcpy fuel m dest src = Done (write_bytes m dest (l ++ [0])).
Proof.
  intros. unfold strcpy. rewrite (strcpy_loop_spec _ _ _ _ _ l).
  - by rewrite Z.add_0_r.
  - by rewrite Z.add_0_r.
  - done.
  - lia.
Qed.

Lemma cchar_byte l : Forall cchar l -> Forall (fun c => 0 <= c < 256) l.
Proof. intros H. eapply Forall_impl; [exact H|]. unfold cchar. lia. Qed.

Lemma cstr_write m a l : Forall cchar l -> cstr (write_bytes m a (l ++ [0])) a l.
Proof.
  intros Hl. split; [done|]. apply write_bytes_at.
  apply Forall_app. split; [by apply cchar_byte|]. repeat constructor; lia.
Qed.

Lemma strncpy_pad_spec k m dest i :
  strncpy_pad k m dest i = write_bytes m (dest + i) (replicate k 0).
Proof.
  revert m i. induction k as [|k IH]; intros m i; simpl; [done|].
  by rewrite IH, Z.add_assoc.
Qed.

Lemma strncpy_loop_spec k m dest src i l :
  cstr m (src + i) l ->
  dest + i + Z.of_nat k <= src + i \/ src + i + Z.of_nat (length l) < dest + i ->
  strncpy_loop k m dest src i =
  write_bytes m (dest + i) (take k l ++ replicate (k - length l) 0).
Proof.
  revert m i l. induction k as [|k IH]; intros m i l Hl Hd; [done|].
  apply cstr_inv in Hl as Hi. cbn [strncpy_loop]. destruct l as [|c l].
  - rewrite Hi. cbn [negb Z.eqb]. by rewrite strncpy_pad_spec.
  - destruct Hi as (Hc & -> & Hl'). unfold cchar in Hc. decide_lia.
    cbn [negb take app write_bytes length Nat.sub] in *. rewrite (IH _ _ l).
    + by rewrite Z.add_assoc.
    + rewrite Z.add_assoc.
      eapply (cstr_changes m _ (dest + i) (dest + i + 1)); [apply changes_store; lia| |done].
      lia.
    + lia.
Qed.

Lemma strncpy_spec m dest src n l :
  0 <= n -> cstr m src l ->
  dest + n <= src \/ src + Z.of_nat (length l) < dest ->
  strncpy m dest src n =
  write_bytes m dest (take (Z.to_nat n) l ++ replicate (Z.to_nat n - length l) 0).
Proof.
  intros. unfold strncpy. rewrite (strncpy_loop_spec _ _ _ _ _ l).
  - by rewrite Z.add_0_r.
  - by rewrite Z.add_0_r.
  - lia.
Qed.

Lemma strcat_loop_spec fuel m ptr src l :
  cstr m src l -> (length l < fuel)%nat ->
  ptr <= src \/ src + Z.of_nat (length l) < ptr ->
  strcat_loop fuel m ptr src = Done (write_bytes m ptr (l ++ [0])).
Proof.
  revert m ptr src l. induction fuel as [|fuel IH]; intros m ptr src l Hl Hf Hd; [lia|].
  apply cstr_inv in Hl as Hi. cbn [strcat_loop]. destruct l as [|c l].
  - by rewrite Hi.
  - destruct Hi as (Hc & -> & Hl'). unfold cchar in Hc. decide_lia.
    cbn [app negb write_bytes length] in *. apply IH; [|lia|lia].
    eapply (cstr_changes m _ ptr (ptr + 1)); [apply changes_store; lia| |done]. lia.
Qed.

Lemma strcat_spec fuel m dest src l1 l2 :
  cstr m dest l1 -> cstr m src l2 -> (length l1 < fuel)%nat -> (length l2 < fuel)%nat ->
  dest + Z.of_nat (length l1) <= src \/
    src + Z.of_nat (length l2) < dest + Z.of_nat (length l1) ->
  strcat fuel m dest src =
  Done (write_bytes m (dest + Z.of_nat (length l1)) (l2 ++ [0])).
Proof.
  intros H1 H2 Hf1 Hf2 Hd. unfold strcat. rewrite (strlen_spec _ _ _ l1) by done.
  simpl. by apply strcat_loop_spec.
Qed.

Lemma cstr_append m dest l1 l2 :
  cstr m dest l1 -> Forall cchar l2 ->
  cstr (write_bytes m (dest + Z.of_nat (length l1)) (l2 ++ [0])) dest (l1 ++ l2).
Proof.
  intros [Hf1 Hb1] Hf2. split; [by apply Forall_app|].
  rewrite <- app_assoc. apply bytes_at_app. split.
  - apply bytes_at_app in Hb1 as [Hb1 _].
    eapply bytes_at_changes; [apply write_bytes_changes| |done]. lia.
  - by apply cstr_write.
Qed.

Lemma strncat_loop_spec k m dest src dl i l :
  cstr m (src + i) l ->
  dest + dl + i + Z.of_nat k <= src + i \/ src + i + Z.of_nat (length l) < dest + dl + i ->
  strncat_loop k m dest src dl i =
  (write_bytes m (dest + (dl + i)) (take k l), i + Z.of_nat (length (take k l))).
Proof.
  revert m i l. induction k as [|k IH]; intros m i l Hl Hd; cbn [strncat_loop take].
  - simpl. by rewrite Z.add_0_r.
  - apply cstr_inv in Hl as Hi. destruct l as [|c l].
    + rewrite Hi. simpl. by rewrite Z.add_0_r.
    + destruct Hi as (Hc & -> & Hl'). unfold cchar in Hc. decide_lia.
      cbn [negb write_bytes length take] in *. rewrite (IH _ _ l).
      * f_equal; [|lia]. f_equal. lia.
      * replace (src + (i + 1)) with (src + i + 1) by lia.
        eapply (cstr_changes m _ (dest + (dl + i)) (dest + (dl + i) + 1));
          [apply changes_store; lia| |done]. lia.
      * lia.
Qed.

Lemma strncat_spec fuel m dest src n l1 l2 :
  cstr m dest l1 -> cstr m src l2 -> (length l1 < fuel)%nat -> 0 <= n ->
  dest + Z.of_nat (length l1) + n <= src \/
    src + Z.of_nat (length l2) < dest + Z.of_nat (length l1) ->
  strncat fuel m dest src n =
  Done (write_bytes m (dest + Z.of_nat (length l1)) (take (Z.to_nat n) l2 ++ [0])).
Proof.
  intros H1 H2 Hf Hn Hd. unfold strncat. rewrite (strlen_spec _ _ _ l1) by done.
  simpl. rewrite (strncat_loop_spec _ _ _ _ _ _ l2).
  - rewrite Z.add_0_r, Z.add_0_l, write_bytes_app. simpl. by rewrite Z.add_assoc.
  - by rewrite Z.add_0_r.
  - lia.
Qed.

(** The value of [strcmp] on the strings [l1] and [l2]. *)
Definition str_diff (l1 l2 : list Z) : Z := first_diff (l1 ++ [0]) (l2 ++ [0]).

Lemma str_diff_eq l1 l2 :
  Forall cchar l1 -> Forall cchar l2 -> str_diff l1 l2 = 0 <-> l1 = l2.
Proof.
  unfold str_diff. intros H1. revert l2.
  induction H1 as [|c1 l1 Hc1 H1 IH]; intros l2 H2;
    destruct H2 as [|c2 l2 Hc2 H2]; cbn [app first_diff]; unfold cchar in *; try done.
  - decide_lia. split; [intros; exfalso; lia|done].
  - decide_lia. split; [intros; exfalso; lia|done].
  - destruct (Z.eqb_spec c1 c2) as [->|Hne].
    + rewrite IH by done. split; [by intros ->|by intros [= ->]].
    + split; [intros; exfalso; lia|congruence].
Qed.

Lemma strcmp_spec fuel m s1 s2 l1 l2 :
  cstr m s1 l1 -> cstr m s2 l2 -> (length l1 < fuel)%nat ->
  strcmp fuel m s1 s2 = Done (str_diff l1 l2).
Proof.
  unfold str_diff. revert s1 s2 l1 l2.
  induction fuel as [|fuel IH]; intros s1 s2 l1 l2 H1 H2 Hf; [lia|].
  apply cstr_inv in H1, H2. cbn [strcmp]. unfold cchar in *.
  destruct l1 as [|c1 l1], l2 as [|c2 l2]; cbn [app first_diff].
  - by rewrite H1, H2.
  - destruct H2 as (? & -> & _). rewrite H1. by decide_lia.
  - destruct H1 as (? & -> & _). rewrite H2. by decide_lia.
  - destruct H1 as (? & -> & H1), H2 as (? & -> & H2). decide_lia. cbn [negb andb].
    destruct (c1 =? c2); [|done]. apply IH; simpl in *; [done..|lia].
Qed.

Lemma strncmp_spec m s1 s2 n l1 l2 :
  cstr m s1 l1 -> cstr m s2 l2 ->
  strncmp m s1 s2 n =
  first_diff (take (Z.to_nat n) (l1 ++ [0])) (take (Z.to_nat n) (l2 ++ [0])).
Proof.
  unfold strncmp. generalize (Z.to_nat n) as k. intros k. revert s1 s2 l1 l2.
  induction k as [|k IH]; intros s1 s2 l1 l2 H1 H2; [done|].
  apply cstr_inv in H1, H2. cbn [strncmp_loop take]. unfold cchar in *.
  destruct l1 as [|c1 l1], l2 as [|c2 l2]; cbn [app take first_diff].
  - rewrite H1, H2. by destruct k.
  - destruct H2 as (? & -> & _). rewrite H1. by decide_lia.
  - destruct H1 as (? & -> & _). rewrite H2. by decide_lia.
  - destruct H1 as (? & -> & H1), H2 as (? & -> & H2). decide_lia. cbn [negb andb].
    destruct (c1 =? c2); [|done]. by apply IH.
Qed.

Lemma strchr_spec fuel m s c l :
  cstr m s l -> (length l < fuel)%nat ->
  strchr fuel m s c =
  Done (match list_find (fun x => x = u8 c) (l ++ [0]) with
        | Some (i, _) => s + Z.of_nat i
        | None => 0
        end).
Proof.
  revert s l. induction fuel as [|fuel IH]; intros s l Hl Hf; [lia|].
  apply cstr_inv in Hl. cbn [strchr]. destruct l as [|d l].
  - rewrite Hl. cbn [app list_find]. case_decide as Hd.
    + rewrite <- Hd. simpl. by rewrite Z.add_0_r.
    + decide_lia. simpl. done.
  - destruct Hl as (Hd & -> & Hl). unfold cchar in Hd. cbn [app list_find length] in *.
    case_decide as Hdc.
    + decide_lia. simpl. by rewrite Z.add_0_r.
    + decide_lia. cbn [negb]. rewrite (IH _ l) by (done || lia). f_equal.
      destruct (list_find _ (l ++ [0])) as [[i x]|]; simpl; [lia|done].
Qed.

(** The place of the last [c] of a list. *)
Fixpoint last_index (c : Z) (l : list Z) : option nat :=
  match l with
  | [] => None
  | d :: l =>
      match last_index c l with
      | Some i => Some (S i)
      | None => if d =? c then Some 0%nat else None
      end
  end.

Lemma strrchr_loop_spec fuel m s c found l :
  cstr m s l -> (length l < fuel)%nat -> c <> 0 ->
  strrchr_loop fuel m s c found =
  Done (match last_index (u8 c) l with
        | Some i => s + Z.of_nat i
        | None => found
        end).
Proof.
  revert s found l. induction fuel as [|fuel IH]; intros s found l Hl Hf Hc; [lia|].
  apply cstr_inv in Hl. cbn [strrchr_loop]. destruct l as [|d l].
  - rewrite Hl. cbn [negb Z.eqb last_index]. by decide_lia.
  - destruct Hl as (Hd & -> & Hl). unfold cchar in Hd. decide_lia.
    cbn [negb last_index length] in *. rewrite (IH _ _ l) by (done || lia).
    destruct (last_index (u8 c) l) as [i|]; [f_equal; lia|].
    destruct (d =? u8 c); [|done]. by rewrite Z.add_0_r.
Qed.

Lemma strrchr_spec fuel m s c l :
  cstr m s l -> (length l < fuel)%nat -> c <> 0 ->
  strrchr fuel m s c =
  Done (match last_index (u8 c) l with Some i => s + Z.of_nat i | None => 0 end).
Proof. intros. by apply strrchr_loop_spec. Qed.

Lemma last_index_Some c l i :
  last_index c l = Some i ->
  l !! i = Some c /\ forall j, (i < j)%nat -> l !! j <> Some c.
Proof.
  revert i. induction l as [|d l IH]; intros i; simpl; [done|].
  destruct (last_index c l) as [k|] eqn:Hk.
  - intros [= <-]. destruct (IH k eq_refl) as [Hi Hj]. split; [done|].
    intros [|j] Hlt; [lia|]. apply Hj. lia.
  - destruct (Z.eqb_spec d c) as [->|]; intros [= <-]. split; [done|].
    intros [|j] Hlt Hl; [lia|]. simpl in Hl. clear IH Hlt.
    revert j Hl. induction l as [|e l IHl]; intros j Hl; [done|]. simpl in Hk.
    destruct (last_index c l); [done|]. destruct (Z.eqb_spec e c); [done|].
    destruct j as [|j]; simpl in Hl; [congruence|]. by eapply IHl.
Qed.

(** ** Properties *)

(** C40. [memmove] copies [n] bytes as if the source were read first, however the
    two ranges overlap, and changes nothing else. *)
Theorem memmove_copies m d s n :
  0 <= n ->
  (forall i, 0 <= i < n -> load (memmove m d s n) (d + i) = load m (s + i)) /\
  (forall a, ~ d <= a < d + n -> load (memmove m d s n) a = load m a).
Proof.
  intros Hn. split; intros; rewrite memmove_load by done.
  - rewrite decide_True by lia. f_equal. lia.
  - by rewrite decide_False.
Qed.

Lemma str_diff_sym l1 l2 : str_diff l2 l1 = - str_diff l1 l2.
Proof.
  unfold str_diff. revert l2. induction l1 as [|c1 l1 IH]; intros [|c2 l2]; cbn [app first_diff].
  - done.
  - destruct (Z.eqb_spec c2 0), (Z.eqb_spec 0 c2); try lia. by destruct l2.
  - destruct (Z.eqb_spec c1 0), (Z.eqb_spec 0 c1); try lia. by destruct l1.
  - rewrite (Z.eqb_sym c2 c1). destruct (c1 =? c2); [apply IH|lia].
Qed.

(** Copying one string and appending another, neither of which lies where
    the result goes, gives their concatenation, and both sources are intact. *)
Theorem strcpy_strcat_concat fuel m dest s1 s2 l1 l2 :
  cstr m s1 l1 -> cstr m s2 l2 ->
  (length l1 < fuel)%nat -> (length l2 < fuel)%nat ->
  let len := Z.of_nat (length l1) + Z.of_nat (length l2) + 1 in
  (forall s l, (s, l) = (s1, l1) \/ (s, l) = (s2, l2) ->
     dest + len <= s \/ s + Z.of_nat (length l) < dest) ->
  exists m', (m ← strcpy fuel m dest s1; strcat fuel m dest s2) = Done m' /\
    cstr m' dest (l1 ++ l2) /\ cstr m' s1 l1 /\ cstr m' s2 l2 /\
    changes dest (dest + len) m m'.
Proof.
  intros H1 H2 Hf1 Hf2 len Hd.
  pose proof (Hd s1 l1 ltac:(by left)) as Hd1. pose proof (Hd s2 l2 ltac:(by right)) as Hd2.
  rewrite (strcpy_spec _ _ _ _ l1) by (done || lia). cbn [mbind res_bind].
  set (m1 := write_bytes m dest (l1 ++ [0])).
  assert (changes dest (dest + len) m m1) as Hc1.
  { eapply changes_weaken; [apply write_bytes_changes|lia|]. rewrite length_app. simpl. lia. }
  assert (cstr m1 s1 l1 /\ cstr m1 s2 l2) as [H1' H2'] by (split; eapply cstr_changes; done || lia).
  assert (cstr m1 dest l1) as Hdst by (apply cstr_write, H1).
  rewrite (strcat_spec _ _ _ _ l1 l2) by (done || lia).
  assert (changes dest (dest + len) m1
    (write_bytes m1 (dest + Z.of_nat (length l1)) (l2 ++ [0]))) as Hc2.
  { eapply changes_weaken; [apply write_bytes_changes|lia|]. rewrite length_app. simpl. lia. }
  eexists. split; [reflexivity|]. split_and!.
  - apply cstr_append; [done|apply H2].
  - eapply cstr_changes; [exact Hc2|lia|done].
  - eapply cstr_changes; [exact Hc2|lia|done].
  - by eapply changes_trans.
Qed.

(** [strcmp] decides equality of strings, and swapping its arguments flips the
    sign of its result. *)
Theorem strcmp_decides fuel m s1 s2 l1 l2 :
  cstr m s1 l1 -> cstr m s2 l2 -> (length l1 < fuel)%nat -> (length l2 < fuel)%nat ->
  exists r, strcmp fuel m s1 s2 = Done r /\ strcmp fuel m s2 s1 = Done (- r) /\
    (r = 0 <-> l1 = l2).
Proof.
  intros H1 H2 Hf1 Hf2. exists (str_diff l1 l2).
  rewrite (strcmp_spec _ _ _ _ l1 l2), (strcmp_spec _ _ _ _ l2 l1) by done.
  split_and!; [done|by rewrite str_diff_sym|]. apply str_diff_eq; [apply H1|apply H2].
Qed.

Definition w_strings : mem := write_bytes (write_bytes ∅ 100 [97; 98; 0]) 200 [97; 99; 0].

Lemma w_string1 : cstr w_strings 100 [97; 98].
Proof. split; [repeat constructor; lia|vm_compute; by split_and!]. Qed.
Lemma w_string2 : cstr w_strings 200 [97; 99].
Proof. split; [repeat constructor; lia|vm_compute; by split_and!]. Qed.

Lemma memmove_copies_witness :
  load (memmove w_strings 101 100 2) (101 + 1) = load w_strings (100 + 1).
Proof. apply (memmove_copies w_strings 101 100 2); lia. Defined.

Lemma strcpy_strcat_concat_witness :
  exists m, (m ← strcpy 5 w_strings 300 100; strcat 5 m 300 200) = Done m /\
    cstr m 300 [97; 98; 97; 99].
Proof.
  destruct (strcpy_strcat_concat 5 w_strings 300 100 200 [97; 98] [97; 99] w_string1 w_string2)
    as (m & ? & ? & _); [simpl; lia..| |by exists m].
  intros s l [[= -> ->]|[= -> ->]]; simpl; lia.
Defined.

Lemma strcmp_decides_witness :
  exists r, strcmp 5 w_strings 100 200 = Done r /\ r <> 0.
Proof.
  destruct (strcmp_decides 5 w_strings 100 200 [97; 98] [97; 99] w_string1 w_string2)
    as (r & ? & _ & Hr); [simpl; lia..|].
  exists r. split; [done|]. by intros E%Hr.
Defined.
