(* ===== verification/Format.v ===== *)
(** * printf-style formatting (src/impl/kernel/string.c, lines 152-233 and 260-332)

    [vsprintf] and [vsnprintf] read the format and the string arguments from
    memory and store the output there. A [va_list] is the list of the
    arguments' register values; [va_arg] takes the first one and converts it
    to the named type, and is undefined on an empty list. *)
From Stdlib Require Import Ascii.
From S2P Require Export CString.


(** ** Definitions *)

Definition is_digit (c : Z) : bool := (chr "0" <=? c) && (c <=? chr "9").

(** [digits[d]] of [print_num]. *)
Definition digit_char (d : Z) : Z :=
  default 0 (bytes_of "0123456789ABCDEF" !! Z.to_nat d).

(** The [do ... while (num)] loop: [tmp] holds the digits so far, the least
    significant first. *)
Fixpoint num_digits (fuel : nat) (num base : Z) (tmp : list Z) : res (list Z) :=
  match fuel with
  | O => Spin
  | S fuel =>
      let tmp := tmp ++ [digit_char (num mod base)] in
      let num := num / base in
      if negb (num =? 0) then num_digits fuel num base tmp else Done tmp
  end.

(** [while (i < width) tmp[i++] = pad_char], [k] iterations. *)
Fixpoint num_pad (k : nat) (tmp : list Z) (pad_char : Z) : list Z :=
  match k with
  | O => tmp
  | S k => num_pad k (tmp ++ [u8 pad_char]) pad_char
  end.

(** [while (i > 0) *( *str)++ = tmp[--i]]. *)
Fixpoint emit_rev (i : nat) (tmp : list Z) (m : mem) (str : Z) : mem * Z :=
  match i with
  | O => (m, str)
  | S i => emit_rev i tmp (store m str (default 0 (tmp !! i))) (str + 1)
  end.

(** [tmp] has 65 places and a 64-bit number at most 64 digits, so 65 rounds
    are enough. *)
Definition print_num (m : mem) (str num base width pad_char : Z) : res (mem * Z) :=
  tmp ← num_digits 65 num base [];
  let tmp := num_pad (Z.to_nat width - length tmp) tmp pad_char in
  Done (emit_rev (length tmp) tmp m str).

Definition va_arg (args : list Z) : res (Z * list Z) :=
  match args with [] => Undef | a :: args => Done (a, args) end.

(** [while ( *s) *str++ = *s++]. *)
Fixpoint copy_str (fuel : nat) (m : mem) (str s : Z) : res (mem * Z) :=
  match fuel with
  | O => Spin
  | S fuel =>
      if negb (load m s =? 0)
      then copy_str fuel (store m str (load m s)) (str + 1) (s + 1)
      else Done (m, str)
  end.

(** The [switch] of [vsprintf] on the conversion character [k]. *)
Definition vsprintf_conv (fuel : nat) (m : mem) (str k width : Z) (args : list Z)
  : res (mem * Z * list Z) :=
  if (k =? chr "d") || (k =? chr "i") then
    '(a, args) ← va_arg args;
    '(m, str) ← print_num m str (u64 (i32 a)) 10 width (chr " ");
    Done (m, str, args)
  else if (k =? chr "x") || (k =? chr "X") then
    '(a, args) ← va_arg args;
    '(m, str) ← print_num m str (u32 a) 16 width (chr "0");
    Done (m, str, args)
  else if k =? chr "u" then
    '(a, args) ← va_arg args;
    '(m, str) ← print_num m str (u32 a) 10 width (chr " ");
    Done (m, str, args)
  else if k =? chr "s" then
    '(s, args) ← va_arg args;
    '(m, str) ← copy_str fuel m str s;
    Done (m, str, args)
  else if k =? chr "c" then
    '(a, args) ← va_arg args;
    Done (store m str (u8 a), str + 1, args)
  else if k =? chr "%" then Done (store m str (chr "%"), str + 1, args)
  else Done (store m str (chr "?"), str + 1, args).

Fixpoint vsprintf_loop (fuel sfuel : nat) (m : mem) (str format : Z) (args : list Z)
  : res (mem * Z) :=
  match fuel with
  | O => Spin
  | S fuel =>
      let c := load m format in
      let format := format + 1 in
      if c =? 0 then Done (m, str)
      else if negb (c =? chr "%") then
        vsprintf_loop fuel sfuel (store m str c) (str + 1) format args
      else
        let '(width, format) :=
          if is_digit (load m format)
          then (load m format - chr "0", format + 1) else (0, format) in
        '(m, str, args) ← vsprintf_conv sfuel m str (load m format) width args;
        vsprintf_loop fuel sfuel m str (format + 1) args
  end.

Definition vsprintf (fuel : nat) (m : mem) (str format : Z) (args : list Z)
  : res (mem * Z) :=
  '(m, str') ← vsprintf_loop fuel fuel m str format args;
  Done (store m str' 0, i32 (str' - str)).

Definition sprintf := vsprintf.

(** The loops of [vsnprintf], which stop at [end_]. *)
Fixpoint copy_str_n (fuel : nat) (m : mem) (str end_ s : Z) : res (mem * Z) :=
  match fuel with
  | O => Spin
  | S fuel =>
      if negb (load m s =? 0) && (str <? end_)
      then copy_str_n fuel (store m str (load m s)) (str + 1) end_ (s + 1)
      else Done (m, str)
  end.

Fixpoint emit_rev_n (len : nat) (buf : list Z) (m : mem) (str end_ : Z) : mem * Z :=
  match len with
  | O => (m, str)
  | S len =>
      if str <? end_
      then emit_rev_n len buf (store m str (default 0 (buf !! len))) (str + 1) end_
      else (m, str)
  end.

(** [do { num_buf[len++] = '0' + num % 10; num /= 10; } while (num && len < 31)];
    [k] is [31 - len]. *)
Fixpoint dec_digits (k : nat) (num : Z) (buf : list Z) : list Z :=
  let buf := buf ++ [u8 (chr "0" + num mod 10)] in
  let num := num / 10 in
  match k with
  | O => buf
  | S k => if negb (num =? 0) then dec_digits k num buf else buf
  end.

Definition hex_digit (digit : Z) : Z :=
  if digit <? 10 then chr "0" + digit else chr "a" + (digit - 10).

Fixpoint hex_digits (k : nat) (num : Z) (buf : list Z) : list Z :=
  let buf := buf ++ [hex_digit (num .& 15)] in
  let num := num .>> 4 in
  match k with
  | O => buf
  | S k => if negb (num =? 0) then hex_digits k num buf else buf
  end.

Definition put_n (m : mem) (str end_ c : Z) : mem * Z :=
  if str <? end_ then (store m str c, str + 1) else (m, str).

Definition vsnprintf_conv (fuel : nat) (m : mem) (str end_ k : Z) (args : list Z)
  : res (mem * Z * list Z) :=
  if k =? chr "s" then
    '(s, args) ← va_arg args;
    '(m, str) ← copy_str_n fuel m str end_ s;
    Done (m, str, args)
  else if k =? chr "d" then
    '(a, args) ← va_arg args;
    let num := i32 a in
    let '(m, str) := if num <? 0 then put_n m str end_ (chr "-") else (m, str) in
    (* [-num] overflows for the least [int] *)
    if num =? - 2 ^ 31 then Undef else
    let buf := dec_digits 30 (if num <? 0 then - num else num) [] in
    let '(m, str) := emit_rev_n (length buf) buf m str end_ in
    Done (m, str, args)
  else if k =? chr "x" then
    '(a, args) ← va_arg args;
    let buf := hex_digits 30 (u32 a) [] in
    let '(m, str) := emit_rev_n (length buf) buf m str end_ in
    Done (m, str, args)
  else let '(m, str) := put_n m str end_ k in Done (m, str, args).

Fixpoint vsnprintf_loop (fuel sfuel : nat) (m : mem) (str end_ format : Z)
    (args : list Z) : res (mem * Z) :=
  match fuel with
  | O => Spin
  | S fuel =>
      if negb (load m format =? 0) && (str <? end_) then
        if negb (load m format =? chr "%") then
          vsnprintf_loop fuel sfuel (store m str (load m format)) (str + 1) end_
            (format + 1) args
        else
          let format := format + 1 in
          '(m, str, args) ← vsnprintf_conv sfuel m str end_ (load m format) args;
          vsnprintf_loop fuel sfuel m str end_ (format + 1) args
      else Done (m, str)
  end.

Definition vsnprintf (fuel : nat) (m : mem) (str size format : Z) (args : list Z)
  : res (mem * Z) :=
  if size =? 0 then Done (m, 0)
  else
    let end_ := str + size - 1 in
    '(m, str') ← vsnprintf_loop fuel fuel m str end_ format args;
    Done (store m str' 0, i32 (str' - str)).

(** ** Numbers *)

(** The number an upper-case digit string denotes. *)
Definition digit_val (c : Z) : Z := if c <? 58 then c - 48 else c - 55.

Definition parse_num (base : Z) (l : list Z) : Z :=
  foldl (fun acc c => acc * base + digit_val c) 0 l.

Definition pad_list (l : list Z) (width pad_char : Z) : list Z :=
  l ++ replicate (Z.to_nat width - length l) (u8 pad_char).

(** The text [print_num] stores. *)
Definition num_string (num base width pad_char : Z) : list Z :=
  match num_digits 65 num base [] with
  | Done tmp => rev (pad_list tmp width pad_char)
  | _ => []
  end.

Lemma digit_char_val : forall d, 0 <= d < 16 -> digit_val (digit_char d) = d.
Proof. check_below 16. Qed.

Lemma digit_char_cchar : forall d, 0 <= d < 16 -> cchar (digit_char d).
Proof. check_below 16. Qed.

(** The value of a list of digits, the least significant first. *)
Fixpoint le_value (base : Z) (ds : list Z) : Z :=
  match ds with [] => 0 | d :: ds => d + base * le_value base ds end.

Lemma num_digits_spec fuel num base tmp :
  2 <= base <= 16 -> 0 <= num < base ^ Z.of_nat fuel -> (0 < fuel)%nat ->
  exists ds, num_digits fuel num base tmp = Done (tmp ++ (digit_char <$> ds)) /\
    Forall (fun d => 0 <= d < base) ds /\ le_value base ds = num /\
    (1 <= length ds <= fuel)%nat.
Proof.
  intros Hb. revert num tmp. induction fuel as [|fuel IH]; intros num tmp Hn Hf; [lia|].
  cbn [num_digits]. rewrite Nat2Z.inj_succ, Z.pow_succ_r in Hn by lia.
  pose proof (Z.mod_pos_bound num base ltac:(lia)) as Hm.
  pose proof (Z.div_mod num base ltac:(lia)) as Hdm.
  destruct (Z.eqb_spec (num / base) 0) as [H0|H0]; cbn [negb].
  - exists [num mod base]. split; [done|]. simpl. repeat split; [by constructor|lia..].
  - destruct fuel as [|fuel].
    { exfalso. apply H0, Z.div_small. simpl in Hn. lia. }
    destruct (IH (num / base) (tmp ++ [digit_char (num mod base)])) as (ds & -> & Hds & Hv & Hl).
    + split; [apply Z.div_pos; lia|]. apply Z.div_lt_upper_bound; lia.
    + lia.
    + exists (num mod base :: ds). rewrite <- app_assoc. split; [done|].
      simpl. rewrite Hv. repeat split; [by constructor|lia..].
Qed.

Lemma parse_num_app base l1 l2 :
  parse_num base (l1 ++ l2) =
  foldl (fun acc c => acc * base + digit_val c) (parse_num base l1) l2.
Proof. unfold parse_num. by rewrite foldl_app. Qed.

Lemma parse_num_rev base ds :
  Forall (fun d => 0 <= d < base) ds -> base <= 16 ->
  parse_num base (rev (digit_char <$> ds)) = le_value base ds.
Proof.
  intros Hd Hb. induction Hd as [|d ds Hd Hds IH]; [done|].
  rewrite fmap_cons. cbn [rev]. rewrite parse_num_app. cbn [foldl le_value].
  rewrite IH, digit_char_val by lia. lia.
Qed.

Lemma parse_num_zeros base k l :
  parse_num base (replicate k (chr "0") ++ l) = parse_num base l.
Proof.
  induction k as [|k IH]; [done|]. cbn [replicate app].
  unfold parse_num in *. cbn [foldl]. exact IH.
Qed.

Lemma num_digits_64 num base :
  2 <= base <= 16 -> 0 <= num < 2 ^ 64 ->
  exists ds, num_digits 65 num base [] = Done (digit_char <$> ds) /\
    Forall (fun d => 0 <= d < base) ds /\ le_value base ds = num /\
    (1 <= length ds <= 65)%nat.
Proof.
  intros Hb Hn. apply (num_digits_spec 65 num base []); [done| |lia].
  split; [lia|]. eapply Z.lt_le_trans; [apply Hn|].
  etrans; [|apply (Z.pow_le_mono_l 2 base); lia]. by apply Z.pow_le_mono_r.
Qed.

Lemma rev_replicate' {A} n (x : A) : rev (replicate n x) = replicate n x.
Proof.
  induction n as [|n IH]; [done|]. cbn [replicate rev]. rewrite IH.
  change (x :: replicate n x) with (replicate (S n) x). by rewrite replicate_S_end.
Qed.

Lemma num_string_parse num base width :
  2 <= base <= 16 -> 0 <= num < 2 ^ 64 ->
  parse_num base (num_string num base width (chr "0")) = num.
Proof.
  intros Hb Hn. destruct (num_digits_64 num base Hb Hn) as (ds & Hd & Hr & Hv & _).
  unfold num_string, pad_list. rewrite Hd, rev_app_distr, rev_replicate'.
  rewrite parse_num_zeros, parse_num_rev by (done || lia). done.
Qed.

(** *** The length of a number *)

Lemma num_digits_mono fuel fuel' num base tmp out :
  num_digits fuel num base tmp = Done out -> (fuel <= fuel')%nat -> num_digits fuel' num base tmp = Done out.
Proof.
  revert fuel' num tmp. induction fuel as [|fuel IH]; intros fuel' num tmp; [done|].
  destruct fuel' as [|fuel']; [lia|]. cbn [num_digits]. intros E Hf. destruct (negb _); [|done].
  apply IH; [done|lia].
Qed.

Lemma num_string_length_le base n pad k :
  2 <= base <= 16 -> 0 <= n < base ^ Z.of_nat k -> (0 < k <= 65)%nat -> (length (num_string n base 0 pad) <= k)%nat.
Proof.
  intros Hb Hn Hk. destruct (num_digits_spec k n base [] Hb Hn ltac:(lia)) as (ds & E & _ & _ & Hl).
  apply (num_digits_mono _ 65) in E; [|lia]. unfold num_string, pad_list. rewrite E, length_rev, length_app. cbn [app].
  rewrite length_fmap, length_replicate. lia.
Qed.

Lemma le_value_lt base ds :
  2 <= base -> Forall (fun d => 0 <= d < base) ds -> le_value base ds < base ^ Z.of_nat (length ds).
Proof.
  intros Hb. induction 1 as [|d ds Hd _ IH]; [simpl; lia|]. cbn [le_value length].
  rewrite Nat2Z.inj_succ, Z.pow_succ_r by lia. nia.
Qed.

Lemma num_string_length_gt base n pad k :
  2 <= base <= 16 -> base ^ Z.of_nat k <= n < 2 ^ 64 -> (k < length (num_string n base 0 pad))%nat.
Proof.
  intros Hb Hn. pose proof (Z.pow_pos_nonneg base (Z.of_nat k)).
  destruct (num_digits_64 n base Hb ltac:(lia)) as (ds & E & Hd & Hv & _).
  pose proof (le_value_lt base ds ltac:(lia) Hd) as Hlt. rewrite Hv in Hlt.
  unfold num_string, pad_list. rewrite E, length_rev, length_app, length_fmap.
  destruct (decide (k < length ds)%nat); [lia|]. pose proof (Z.pow_le_mono_r base (Z.of_nat (length ds)) (Z.of_nat k)). lia.
Qed.

Lemma num_pad_spec k tmp pad : num_pad k tmp pad = tmp ++ replicate k (u8 pad).
Proof.
  revert tmp. induction k as [|k IH]; intros tmp; cbn [num_pad replicate].
  - by rewrite app_nil_r.
  - rewrite IH. by rewrite <- app_assoc.
Qed.

Lemma emit_rev_spec i tmp m str :
  (i <= length tmp)%nat ->
  emit_rev i tmp m str = (write_bytes m str (rev (take i tmp)), str + Z.of_nat i).
Proof.
  revert m str. induction i as [|i IH]; intros m str Hi.
  - simpl. by rewrite Z.add_0_r.
  - destruct (lookup_lt_is_Some_2 tmp i) as [c Hc]; [lia|].
    rewrite (take_S_r _ _ _ Hc), rev_app_distr. cbn [emit_rev rev app write_bytes].
    rewrite Hc, IH by lia. simpl. f_equal. lia.
Qed.

Lemma print_num_spec m str num base width pad :
  2 <= base <= 16 -> 0 <= num < 2 ^ 64 ->
  print_num m str num base width pad =
  Done (write_bytes m str (num_string num base width pad),
        str + Z.of_nat (length (num_string num base width pad))).
Proof.
  intros Hb Hn. destruct (num_digits_64 num base Hb Hn) as (ds & Hd & _).
  unfold print_num, num_string. rewrite Hd. cbn [mbind res_bind].
  rewrite num_pad_spec. change (?a ++ replicate (Z.to_nat width - length ?a) (u8 pad))
    with (pad_list a width pad).
  rewrite emit_rev_spec by done. by rewrite firstn_all, length_rev.
Qed.

(** ** What [vsprintf] prints

    [render] expands a format with its arguments given as values: a number,
    or the content of a string. It has no value where the arguments run out
    or where the format ends inside a conversion. *)

Inductive farg :=
  | FInt (a : Z)
  | FStr (l : list Z).

Definition conv_out (k width : Z) (args : list farg) : option (list Z * list farg) :=
  if (k =? chr "d") || (k =? chr "i") then
    match args with
    | FInt a :: args => Some (num_string (u64 (i32 a)) 10 width (chr " "), args)
    | _ => None
    end
  else if (k =? chr "x") || (k =? chr "X") then
    match args with
    | FInt a :: args => Some (num_string (u32 a) 16 width (chr "0"), args)
    | _ => None
    end
  else if k =? chr "u" then
    match args with
    | FInt a :: args => Some (num_string (u32 a) 10 width (chr " "), args)
    | _ => None
    end
  else if k =? chr "s" then
    match args with FStr l :: args => Some (l, args) | _ => None end
  else if k =? chr "c" then
    match args with FInt a :: args => Some ([u8 a], args) | _ => None end
  else if k =? chr "%" then Some ([chr "%"], args)
  else Some ([chr "?"], args).

Fixpoint render (fmt : list Z) (args : list farg) : option (list Z) :=
  match fmt with
  | [] => Some []
  | c :: fmt =>
      if negb (c =? chr "%") then cons c <$> render fmt args
      else
        match fmt with
        | [] => None
        | d :: fmt =>
            if is_digit d then
              match fmt with
              | [] => None
              | k :: fmt =>
                  match conv_out k (d - chr "0") args with
                  | Some (o, args) => app o <$> render fmt args
                  | None => None
                  end
              end
            else
              match conv_out d 0 args with
              | Some (o, args) => app o <$> render fmt args
              | None => None
              end
        end
  end.

(** An argument register [a] stands for the value [fa]; a string lies
    outside the output region [lo, hi) and is shorter than the fuel. *)
Definition arg_rep (m : mem) (lo hi : Z) (fuel : nat) (a : Z) (fa : farg) : Prop :=
  match fa with
  | FInt z => a = z
  | FStr l =>
      cstr m a l /\ (length l < fuel)%nat /\ (a + Z.of_nat (length l) < lo \/ hi <= a)
  end.

Lemma arg_rep_changes m m' lo hi lo' hi' fuel args fargs :
  changes lo' hi' m m' -> lo <= lo' -> hi' <= hi ->
  Forall2 (arg_rep m lo hi fuel) args fargs ->
  Forall2 (arg_rep m' lo hi fuel) args fargs.
Proof.
  intros Hc ?? Ha. eapply Forall2_impl; [exact Ha|]. intros a [z|l]; simpl; [done|].
  intros (Hl & ? & ?). split; [|done].
  eapply cstr_changes; [exact Hc| |done]. lia.
Qed.

Lemma copy_str_spec fuel m str s l :
  cstr m s l -> (length l < fuel)%nat -> str <= s \/ s + Z.of_nat (length l) < str ->
  copy_str fuel m str s = Done (write_bytes m str l, str + Z.of_nat (length l)).
Proof.
  revert m str s l. induction fuel as [|fuel IH]; intros m str s l Hl Hf Hd; [lia|].
  apply cstr_inv in Hl as Hi. cbn [copy_str]. destruct l as [|c l].
  - rewrite Hi. simpl. by rewrite Z.add_0_r.
  - destruct Hi as (Hc & -> & Hl'). unfold cchar in Hc. decide_lia.
    cbn [negb write_bytes length] in *. rewrite (IH _ _ _ l).
    + do 2 f_equal. lia.
    + eapply (cstr_changes m _ str (str + 1)); [apply changes_store; lia| |done]. lia.
    + lia.
    + lia.
Qed.

Lemma u64_i32_range a : 0 <= u64 (i32 a) < 2 ^ 64.
Proof. apply u64_range. Qed.

Lemma u32_range64 a : 0 <= u32 a < 2 ^ 64.
Proof. pose proof (u32_range a). lia. Qed.

Lemma conv_spec fuel m str k width args fargs o fargs' lo hi :
  conv_out k width fargs = Some (o, fargs') ->
  Forall2 (arg_rep m lo hi fuel) args fargs ->
  lo <= str -> str + Z.of_nat (length o) <= hi ->
  exists args',
    vsprintf_conv fuel m str k width args =
      Done (write_bytes m str o, str + Z.of_nat (length o), args') /\
    Forall2 (arg_rep m lo hi fuel) args' fargs'.
Proof.
  unfold conv_out, vsprintf_conv. intros Ho Ha Hlo Hhi.
  repeat (match type of Ho with (if ?b then _ else _) = _ => destruct b end;
    [first
      [ (* a numeric conversion *)
        destruct Ha as [|a [z|l] args fargs Hr Ha]; try discriminate; simplify_eq;
        cbn [va_arg mbind res_bind]; simpl in Hr; subst;
        rewrite print_num_spec by
          (lia || apply u64_i32_range || apply u32_range64);
        eexists; split; [reflexivity|done]
      | (* %s *)
        destruct Ha as [|a [z|l] args fargs Hr Ha]; try discriminate; simplify_eq;
        destruct Hr as (Hl & Hf & Hd); cbn [va_arg mbind res_bind];
        rewrite (copy_str_spec _ _ _ _ o) by (done || lia);
        eexists; split; [reflexivity|done]
      | (* %c *)
        destruct Ha as [|a [z|l] args fargs Hr Ha]; try discriminate; simplify_eq;
        simpl in Hr; subst; eexists; split; [reflexivity|done]
      | simplify_eq; eexists; split; [reflexivity|done] ]
    |]).
  simplify_eq. eexists. split; [reflexivity|done].
Qed.

Lemma is_digit_nz d : is_digit d = true -> d <> 0.
Proof. unfold is_digit. change (chr "0") with 48. lia. Qed.

Lemma vsprintf_loop_spec fuel sfuel m str fp fmt args fargs out lo hi :
  render fmt fargs = Some out ->
  cstr m fp fmt -> fp + Z.of_nat (length fmt) < lo \/ hi <= fp ->
  Forall2 (arg_rep m lo hi sfuel) args fargs ->
  (length fmt < fuel)%nat -> lo <= str -> str + Z.of_nat (length out) <= hi ->
  vsprintf_loop fuel sfuel m str fp args =
  Done (write_bytes m str out, str + Z.of_nat (length out)).
Proof.
  revert m str fp fmt args fargs out.
  induction fuel as [|fuel IH]; intros m str fp fmt args fargs out Hr Hs Hd Ha Hf Hlo Hhi; [lia|].
  apply cstr_inv in Hs as Hi. cbn [vsprintf_loop]. destruct fmt as [|c fmt].
  { injection Hr as <-. rewrite Hi. simpl. by rewrite Z.add_0_r. }
  destruct Hi as (Hc & -> & Hs1). unfold cchar in Hc. decide_lia.
  (* one conversion, then the rest of the format *)
  assert (forall k w p fmt' o fargs' rest,
    conv_out k w fargs = Some (o, fargs') -> render fmt' fargs' = Some rest ->
    out = o ++ rest -> cstr m p fmt' -> (length fmt' < length (c :: fmt))%nat ->
    p + Z.of_nat (length fmt') = fp + Z.of_nat (length (c :: fmt)) -> fp < p ->
    ('(m, str, args) ← vsprintf_conv sfuel m str k w args;
       vsprintf_loop fuel sfuel m str p args) =
    Done (write_bytes m str out, str + Z.of_nat (length out))) as Hconv.
  { intros k w p fmt' o fargs' rest Ho Hrest -> Hp Hlen Hend Hlt.
    rewrite length_app in *. cbn [length] in *.
    destruct (conv_spec sfuel m str k w args fargs o fargs' lo hi) as (args' & -> & Ha');
      [done..|lia|].
    cbn [mbind res_bind].
    rewrite (IH _ _ _ fmt' _ fargs' rest); [|done| |lia| |lia|lia|lia].
    - rewrite write_bytes_app. do 2 f_equal. lia.
    - eapply cstr_changes; [apply write_bytes_changes| |done]. lia.
    - eapply arg_rep_changes; [apply write_bytes_changes|lia|lia|done]. }
  cbn [render] in Hr. destruct (c =? chr "%") eqn:Hpc; cbn [negb] in *.
  - destruct fmt as [|d fmt]; [done|].
    apply cstr_inv in Hs1 as (Hdc & Hld & Hs2). rewrite Hld.
    destruct (is_digit d) eqn:Hdig.
    + destruct fmt as [|k fmt]; [done|].
      apply cstr_inv in Hs2 as (Hkc & Hlk & Hs3). rewrite Hlk.
      destruct (conv_out k (d - chr "0") fargs) as [[o fargs']|] eqn:Ho; [|done].
      destruct (render fmt fargs') as [rest|] eqn:Hrest; [|done]. injection Hr as <-.
      eapply Hconv; [exact Ho|exact Hrest|done|exact Hs3| | |]; cbn [length]; lia.
    + destruct (conv_out d 0 fargs) as [[o fargs']|] eqn:Ho; [|done].
      destruct (render fmt fargs') as [rest|] eqn:Hrest; [|done]. injection Hr as <-.
      rewrite Hld. eapply Hconv; [exact Ho|exact Hrest|done|exact Hs2| | |]; cbn [length]; lia.
  - destruct (render fmt fargs) as [rest|] eqn:Hrest; [|done]. injection Hr as <-.
    cbn [length] in *. rewrite (IH _ _ _ fmt _ fargs rest); [|done| |lia| |lia|lia|lia].
    + cbn [write_bytes]. do 2 f_equal. lia.
    + eapply (cstr_changes m _ str (str + 1)); [apply changes_store; lia| |done]. lia.
    + eapply (arg_rep_changes m _ _ _ str (str + 1));
        [apply changes_store; lia|lia|lia|done].
Qed.

Lemma vsprintf_spec fuel m str fp fmt args fargs out :
  render fmt fargs = Some out ->
  cstr m fp fmt ->
  fp + Z.of_nat (length fmt) < str \/ str + Z.of_nat (length out) <= fp ->
  Forall2 (arg_rep m str (str + Z.of_nat (length out)) fuel) args fargs ->
  (length fmt < fuel)%nat ->
  vsprintf fuel m str fp args =
  Done (write_bytes m str (out ++ [0]), i32 (Z.of_nat (length out))).
Proof.
  intros Hr Hs Hd Ha Hf. unfold vsprintf.
  rewrite (vsprintf_loop_spec _ _ _ _ _ fmt _ fargs out str
    (str + Z.of_nat (length out))) by (done || lia).
  cbn [mbind res_bind]. rewrite write_bytes_app. simpl. do 3 f_equal. lia.
Qed.

(** ** What [vsnprintf] prints *)

Definition dec_string (num : Z) : list Z :=
  (if num <? 0 then [chr "-"] else []) ++
  rev (dec_digits 30 (if num <? 0 then - num else num) []).

Definition hex_string (num : Z) : list Z := rev (hex_digits 30 num []).

Definition conv_out_n (k : Z) (args : list farg) : option (list Z * list farg) :=
  if k =? chr "s" then
    match args with FStr l :: args => Some (l, args) | _ => None end
  else if k =? chr "d" then
    match args with
    | FInt a :: args =>
        if i32 a =? - 2 ^ 31 then None else Some (dec_string (i32 a), args)
    | _ => None
    end
  else if k =? chr "x" then
    match args with FInt a :: args => Some (hex_string (u32 a), args) | _ => None end
  else Some ([k], args).

Fixpoint render_n (fmt : list Z) (args : list farg) : option (list Z) :=
  match fmt with
  | [] => Some []
  | c :: fmt =>
      if negb (c =? chr "%") then cons c <$> render_n fmt args
      else
        match fmt with
        | [] => None
        | k :: fmt =>
            match conv_out_n k args with
            | Some (o, args) => app o <$> render_n fmt args
            | None => None
            end
        end
  end.

(** Storing [o] at [str], cut at [end_]. *)
Definition write_trunc (m : mem) (str end_ : Z) (o : list Z) : mem * Z :=
  (write_bytes m str (take (Z.to_nat (end_ - str)) o),
   str + Z.of_nat (length (take (Z.to_nat (end_ - str)) o))).

Lemma write_trunc_full m str end_ o : end_ <= str -> write_trunc m str end_ o = (m, str).
Proof.
  intros. unfold write_trunc. replace (Z.to_nat (end_ - str)) with 0%nat by lia.
  simpl. by rewrite Z.add_0_r.
Qed.

Lemma write_trunc_nil m str end_ : write_trunc m str end_ [] = (m, str).
Proof. unfold write_trunc. rewrite take_nil. simpl. by rewrite Z.add_0_r. Qed.

Lemma write_trunc_cons m str end_ c o :
  str < end_ ->
  write_trunc m str end_ (c :: o) = write_trunc (store m str c) (str + 1) end_ o.
Proof.
  intros. unfold write_trunc.
  replace (Z.to_nat (end_ - str)) with (S (Z.to_nat (end_ - (str + 1)))) by lia.
  cbn [take write_bytes length]. f_equal. lia.
Qed.

Lemma write_trunc_end m str end_ o :
  str <= end_ -> str <= (write_trunc m str end_ o).2 <= end_.
Proof. intros. unfold write_trunc. simpl. rewrite length_take. lia. Qed.

Lemma write_trunc_changes m str end_ o :
  str <= end_ -> changes str end_ m (write_trunc m str end_ o).1.
Proof.
  intros. unfold write_trunc. simpl. eapply changes_weaken; [apply write_bytes_changes|lia|].
  rewrite length_take. lia.
Qed.

Lemma write_trunc_app m str end_ o1 o2 m1 str1 :
  write_trunc m str end_ o1 = (m1, str1) ->
  write_trunc m str end_ (o1 ++ o2) = write_trunc m1 str1 end_ o2.
Proof.
  revert m str. induction o1 as [|c o1 IH]; intros m str.
  - rewrite write_trunc_nil. by intros [= -> ->].
  - destruct (decide (str < end_)) as [Hlt|Hge]; cbn [app].
    + rewrite !write_trunc_cons by done. apply IH.
    + rewrite !write_trunc_full by lia. intros [= <- <-]. by rewrite write_trunc_full by lia.
Qed.

Lemma put_n_spec m str end_ c : put_n m str end_ c = write_trunc m str end_ [c].
Proof.
  unfold put_n. destruct (Z.ltb_spec str end_).
  - by rewrite write_trunc_cons, write_trunc_nil.
  - by rewrite write_trunc_full by lia.
Qed.

Lemma emit_rev_n_spec i buf m str end_ :
  (i <= length buf)%nat ->
  emit_rev_n i buf m str end_ = write_trunc m str end_ (rev (take i buf)).
Proof.
  revert m str. induction i as [|i IH]; intros m str Hi.
  - simpl. by rewrite write_trunc_nil.
  - destruct (lookup_lt_is_Some_2 buf i) as [c Hc]; [lia|].
    rewrite (take_S_r _ _ _ Hc), rev_app_distr. cbn [emit_rev_n rev app].
    rewrite Hc. destruct (Z.ltb_spec str end_).
    + rewrite write_trunc_cons by done. apply IH. lia.
    + by rewrite write_trunc_full by lia.
Qed.

Lemma copy_str_n_spec fuel m str end_ s l :
  cstr m s l -> (length l < fuel)%nat -> end_ <= s \/ s + Z.of_nat (length l) < str ->
  copy_str_n fuel m str end_ s = Done (write_trunc m str end_ l).
Proof.
  revert m str s l. induction fuel as [|fuel IH]; intros m str s l Hl Hf Hd; [lia|].
  apply cstr_inv in Hl as Hi. cbn [copy_str_n]. destruct l as [|c l].
  - rewrite Hi. by rewrite write_trunc_nil.
  - destruct Hi as (Hc & -> & Hl'). unfold cchar in Hc. decide_lia. cbn [negb andb].
    destruct (Z.ltb_spec str end_) as [Hlt|Hge].
    + rewrite write_trunc_cons by done. cbn [length] in *. apply IH; [|lia|lia].
      eapply (cstr_changes m _ str (str + 1)); [apply changes_store; lia| |done]. lia.
    + by rewrite write_trunc_full by lia.
Qed.

Lemma conv_n_spec fuel m str end_ k args fargs o fargs' lo :
  conv_out_n k fargs = Some (o, fargs') ->
  Forall2 (arg_rep m lo end_ fuel) args fargs -> lo <= str <= end_ ->
  exists args',
    vsnprintf_conv fuel m str end_ k args =
      Done ((write_trunc m str end_ o).1, (write_trunc m str end_ o).2, args') /\
    Forall2 (arg_rep m lo end_ fuel) args' fargs'.
Proof.
  unfold conv_out_n, vsnprintf_conv. intros Ho Ha Hlo.
  destruct (k =? chr "s"); [|destruct (k =? chr "d"); [|destruct (k =? chr "x")]].
  - destruct Ha as [|a [z|l] args fargs Hr Ha]; try discriminate; simplify_eq.
    destruct Hr as (Hl & Hf & Hd). cbn [va_arg mbind res_bind].
    rewrite (copy_str_n_spec _ _ _ _ _ o) by (done || lia).
    eexists. split; [reflexivity|done].
  - destruct Ha as [|a [z|l] args fargs Hr Ha]; try discriminate. simpl in Hr. subst z.
    cbn [va_arg mbind res_bind]. destruct (i32 a =? - 2 ^ 31); [done|]. simplify_eq.
    exists args. split; [|done]. unfold dec_string.
    destruct (i32 a <? 0).
    + rewrite put_n_spec. destruct (write_trunc m str end_ [chr "-"]) as [m1 s1] eqn:E.
      rewrite emit_rev_n_spec, firstn_all by done.
      rewrite (write_trunc_app _ _ _ _ _ _ _ E).
      by destruct (write_trunc m1 s1 end_ _).
    + rewrite emit_rev_n_spec, firstn_all by done. cbn [app].
      by destruct (write_trunc m str end_ _).
  - destruct Ha as [|a [z|l] args fargs Hr Ha]; try discriminate. simpl in Hr. subst z.
    simplify_eq. cbn [va_arg mbind res_bind]. exists args. split; [|done].
    unfold hex_string. rewrite emit_rev_n_spec, firstn_all by done.
    by destruct (write_trunc m str end_ _).
  - simplify_eq. exists args. split; [|done]. rewrite put_n_spec.
    by destruct (write_trunc m str end_ [k]).
Qed.

Lemma vsnprintf_loop_spec fuel sfuel m str end_ fp fmt args fargs out lo :
  render_n fmt fargs = Some out ->
  cstr m fp fmt -> fp + Z.of_nat (length fmt) < lo \/ end_ <= fp ->
  Forall2 (arg_rep m lo end_ sfuel) args fargs ->
  (length fmt < fuel)%nat -> lo <= str <= end_ ->
  vsnprintf_loop fuel sfuel m str end_ fp args = Done (write_trunc m str end_ out).
Proof.
  revert m str fp fmt args fargs out.
  induction fuel as [|fuel IH]; intros m str fp fmt args fargs out Hr Hs Hd Ha Hf Hlo; [lia|].
  apply cstr_inv in Hs as Hi. cbn [vsnprintf_loop]. destruct fmt as [|c fmt].
  { injection Hr as <-. rewrite Hi. by rewrite write_trunc_nil. }
  destruct Hi as (Hc & -> & Hs1). unfold cchar in Hc. decide_lia. cbn [negb andb].
  destruct (Z.ltb_spec str end_) as [Hlt|Hge]; [|by rewrite write_trunc_full by lia].
  cbn [render_n length] in *. destruct (c =? chr "%") eqn:Hpc; cbn [negb] in *.
  - destruct fmt as [|k fmt]; [done|]. cbn [length] in *.
    apply cstr_inv in Hs1 as (Hkc & -> & Hs2).
    destruct (conv_out_n k fargs) as [[o fargs']|] eqn:Ho; [|done].
    destruct (render_n fmt fargs') as [rest|] eqn:Hrest; [|done]. injection Hr as <-.
    destruct (conv_n_spec sfuel m str end_ k args fargs o fargs' lo) as (args' & -> & Ha');
      [done|done|lia|].
    cbn [mbind res_bind].
    destruct (write_trunc m str end_ o) as [m1 s1] eqn:E. cbn [fst snd].
    rewrite (write_trunc_app _ _ _ _ _ _ _ E).
    pose proof (write_trunc_end m str end_ o) as He.
    pose proof (write_trunc_changes m str end_ o) as Hch. rewrite E in He, Hch.
    cbn [fst snd] in He, Hch.
    apply (IH _ _ _ fmt _ fargs'); [done| |lia| |lia|lia].
    + eapply cstr_changes; [apply Hch; lia| |done]. lia.
    + eapply arg_rep_changes; [apply Hch; lia|lia|lia|done].
  - destruct (render_n fmt fargs) as [rest|] eqn:Hrest; [|done]. injection Hr as <-.
    rewrite write_trunc_cons by done.
    apply (IH _ _ _ fmt _ fargs); [done| |lia| |lia|lia].
    + eapply (cstr_changes m _ str (str + 1)); [apply changes_store; lia| |done]. lia.
    + eapply (arg_rep_changes m _ _ _ str (str + 1));
        [apply changes_store; lia|lia|lia|done].
Qed.

Lemma vsnprintf_spec fuel m str size fp fmt args fargs out :
  0 < size -> render_n fmt fargs = Some out ->
  cstr m fp fmt -> fp + Z.of_nat (length fmt) < str \/ str + size - 1 <= fp ->
  Forall2 (arg_rep m str (str + size - 1) fuel) args fargs ->
  (length fmt < fuel)%nat ->
  vsnprintf fuel m str size fp args =
  Done (write_bytes m str (take (Z.to_nat (size - 1)) out ++ [0]),
        i32 (Z.min (Z.of_nat (length out)) (size - 1))).
Proof.
  intros Hsz Hr Hs Hd Ha Hf. unfold vsnprintf. decide_lia.
  rewrite (vsnprintf_loop_spec _ _ _ _ _ _ fmt _ fargs out str) by (done || lia).
  unfold write_trunc. cbn [mbind res_bind].
  replace (str + size - 1 - str) with (size - 1) by lia.
  rewrite write_bytes_app, length_take. simpl. do 3 f_equal. lia.
Qed.

(** *** Bounds of [vsnprintf], for every format and argument list *)

Lemma copy_str_n_bounds fuel m str end_ s m' str' :
  copy_str_n fuel m str end_ s = Done (m', str') -> str <= end_ ->
  changes str end_ m m' /\ str <= str' <= end_.
Proof.
  revert m str s. induction fuel as [|fuel IH]; intros m str s; [done|].
  cbn [copy_str_n]. destruct (negb _); cbn [andb];
    [|intros [= <- <-] ?; split; [apply changes_refl|lia]].
  destruct (Z.ltb_spec str end_); [|intros [= <- <-] ?; split; [apply changes_refl|lia]].
  intros He Hle. apply IH in He as [Hc ?]; [|lia]. split; [|lia].
  eapply changes_trans; [apply (changes_store str end_ m str); lia|].
  eapply changes_weaken; [exact Hc|lia|lia].
Qed.

Lemma conv_n_bounds fuel m str end_ k args m' str' args' :
  vsnprintf_conv fuel m str end_ k args = Done (m', str', args') -> str <= end_ ->
  changes str end_ m m' /\ str <= str' <= end_.
Proof.
  assert (forall m str o m' str',
    write_trunc m str end_ o = (m', str') -> str <= end_ ->
    changes str end_ m m' /\ str <= str' <= end_) as Ht.
  { intros m0 s0 o m1 s1 E ?. pose proof (write_trunc_end m0 s0 end_ o).
    pose proof (write_trunc_changes m0 s0 end_ o). rewrite E in *. auto. }
  unfold vsnprintf_conv. intros H Hle.
  destruct (k =? chr "s"); [|destruct (k =? chr "d"); [|destruct (k =? chr "x")]];
    [destruct args as [|a args]; [done|]; cbn [va_arg mbind res_bind] in H..|].
  - destruct (copy_str_n fuel m str end_ a) as [[m1 s1]| |] eqn:E; [|done..].
    injection H as <- <- <-. by eapply copy_str_n_bounds.
  - destruct (if i32 a <? 0 then _ else _) as [m1 s1] eqn:E1.
    destruct (i32 a =? _); [done|].
    destruct (emit_rev_n _ _ m1 s1 end_) as [m2 s2] eqn:E2. injection H as <- <- <-.
    rewrite emit_rev_n_spec in E2 by done.
    assert (changes str end_ m m1 /\ str <= s1 <= end_) as [??].
    { destruct (i32 a <? 0); [|simplify_eq; split; [apply changes_refl|lia]].
      rewrite put_n_spec in E1. by eapply Ht. }
    apply Ht in E2 as [??]; [|lia]. split; [|lia].
    eapply changes_trans; [done|]. eapply changes_weaken; [done|lia|lia].
  - destruct (emit_rev_n _ _ m str end_) as [m2 s2] eqn:E2. injection H as <- <- <-.
    rewrite emit_rev_n_spec in E2 by done. by eapply Ht.
  - destruct (put_n m str end_ k) as [m1 s1] eqn:E. injection H as <- <- <-.
    rewrite put_n_spec in E. by eapply Ht.
Qed.

Lemma vsnprintf_loop_bounds fuel sfuel m str end_ fp args m' str' :
  vsnprintf_loop fuel sfuel m str end_ fp args = Done (m', str') -> str <= end_ ->
  changes str end_ m m' /\ str <= str' <= end_.
Proof.
  revert m str fp args. induction fuel as [|fuel IH]; intros m str fp args; [done|].
  cbn [vsnprintf_loop]. destruct (negb (load m fp =? 0)); cbn [andb];
    [|intros [= <- <-] ?; split; [apply changes_refl|lia]].
  destruct (Z.ltb_spec str end_); [|intros [= <- <-] ?; split; [apply changes_refl|lia]].
  intros He Hle. destruct (negb (load m fp =? chr "%")).
  - apply IH in He as [Hc ?]; [|lia]. split; [|lia].
    eapply changes_trans; [apply (changes_store str end_ m str); lia|].
    eapply changes_weaken; [exact Hc|lia|lia].
  - apply res_bind_inv in He as ([[m1 s1] args1] & Hconv & He).
    apply conv_n_bounds in Hconv as [Hc1 ?]; [|lia].
    apply IH in He as [Hc2 ?]; [|lia]. split; [|lia].
    eapply changes_trans; [exact Hc1|]. eapply changes_weaken; [exact Hc2|lia|lia].
Qed.

(** ** What a format means

    The reference for both functions, apart from their code: a numeral is the
    sequence of a number's digits without leading zeros, and a format is a
    sequence of characters and conversions, each of which takes its arguments
    and stands for a text. *)

Definition upper (d : Z) : Z := if d <? 10 then chr "0" + d else chr "A" + (d - 10).
Definition lower (d : Z) : Z := if d <? 10 then chr "0" + d else chr "a" + (d - 10).

(** The number that a list of digits denotes, the most significant first. *)
Definition digits_value (base : Z) (ds : list Z) : Z := foldl (fun v d => v * base + d) 0 ds.

Definition numeral (symbol : Z -> Z) (base n : Z) (l : list Z) : Prop :=
  exists ds, l = symbol <$> ds /\ ds <> [] /\ Forall (fun d => 0 <= d < base) ds /\
    digits_value base ds = n /\ (head ds = Some 0 -> ds = [0]).

Definition pad_left (width pad : Z) (l : list Z) : list Z :=
  replicate (Z.to_nat width - length l) pad ++ l.

Inductive renders (shown : list Z -> list farg -> list Z -> Prop) : list Z -> list farg -> list Z -> Prop :=
  | renders_end args : renders shown [] args []
  | renders_char c fmt args out :
      c <> chr "%" -> renders shown fmt args out -> renders shown (c :: fmt) args (c :: out)
  | renders_conv dir args1 text fmt args out :
      shown dir args1 text -> renders shown fmt args out ->
      renders shown (chr "%" :: dir ++ fmt) (args1 ++ args) (text ++ out).

(** The width of a directive: none, or one digit. *)
Inductive width_of : list Z -> Z -> Prop :=
  | width_none : width_of [] 0
  | width_digit d : chr "0" <= d <= chr "9" -> width_of [d] (d - chr "0").

(** The conversions of [vsprintf]: numbers are not negative, and [%x] is only
    covered where no digit is a letter. *)
Inductive shown : list Z -> list farg -> list Z -> Prop :=
  | shown_signed w width k n l :
      width_of w width -> k = chr "d" \/ k = chr "i" -> 0 <= n < 2 ^ 31 -> numeral upper 10 n l ->
      shown (w ++ [k]) [FInt n] (pad_left width (chr " ") l)
  | shown_unsigned w width n l :
      width_of w width -> 0 <= n < 2 ^ 32 -> numeral upper 10 n l ->
      shown (w ++ [chr "u"]) [FInt n] (pad_left width (chr " ") l)
  | shown_upper w width n l :
      width_of w width -> 0 <= n < 2 ^ 32 -> numeral upper 16 n l ->
      shown (w ++ [chr "X"]) [FInt n] (pad_left width (chr "0") l)
  | shown_lower w width n l :
      width_of w width -> 0 <= n < 2 ^ 32 -> numeral lower 16 n l -> Forall (fun c => c <= chr "9") l ->
      shown (w ++ [chr "x"]) [FInt n] (pad_left width (chr "0") l)
  | shown_string l : shown [chr "s"] [FStr l] l
  | shown_character c : 0 <= c < 256 -> shown [chr "c"] [FInt c] [c]
  | shown_percent : shown [chr "%"] [] [chr "%"].

(** The conversions of [vsnprintf]. *)
Inductive shown_n : list Z -> list farg -> list Z -> Prop :=
  | shown_n_decimal n l : 0 <= n < 2 ^ 31 -> numeral lower 10 n l -> shown_n [chr "d"] [FInt n] l
  | shown_n_negative n l : - 2 ^ 31 < n < 0 -> numeral lower 10 (- n) l -> shown_n [chr "d"] [FInt n] (chr "-" :: l)
  | shown_n_hex n l : 0 <= n < 2 ^ 32 -> numeral lower 16 n l -> shown_n [chr "x"] [FInt n] l
  | shown_n_string l : shown_n [chr "s"] [FStr l] l
  | shown_n_percent : shown_n [chr "%"] [] [chr "%"].

(** *** The digit loops produce the numeral *)

Lemma digits_value_snoc base ds d : digits_value base (ds ++ [d]) = digits_value base ds * base + d.
Proof. unfold digits_value. by rewrite foldl_app. Qed.

Lemma digits_value_cons base d ds : digits_value base (d :: ds) = d * base ^ Z.of_nat (length ds) + digits_value base ds.
Proof.
  induction ds as [|x ds IH] using rev_ind; [unfold digits_value; simpl; lia|].
  rewrite app_comm_cons, !digits_value_snoc, IH, length_app, Nat2Z.inj_add, Z.pow_add_r by lia. cbn [length]. lia.
Qed.

Lemma digits_value_nonneg base ds : 2 <= base -> Forall (fun d => 0 <= d < base) ds -> 0 <= digits_value base ds.
Proof.
  intros Hb. induction ds as [|d ds IH] using rev_ind; intros Hd; [done|].
  apply Forall_app in Hd as [Hds [[? _] _]%Forall_cons]. rewrite digits_value_snoc. specialize (IH Hds). nia.
Qed.

(** Without leading zeros the number is at least the weight of the first digit. *)
Lemma digits_value_lower base d ds :
  2 <= base -> Forall (fun d => 0 <= d < base) (d :: ds) -> d <> 0 ->
  base ^ Z.of_nat (length ds) <= digits_value base (d :: ds).
Proof.
  intros Hb [Hd Hds]%Forall_cons Hn. rewrite digits_value_cons.
  pose proof (digits_value_nonneg base ds Hb Hds). pose proof (Z.pow_pos_nonneg base (Z.of_nat (length ds))). nia.
Qed.

(** The three loops: [digit] stores the symbol of the number's last digit and
    [step] drops it. *)
Section digit_loop.
Context (base : Z) (symbol digit step : Z -> Z) (loop : nat -> Z -> list Z -> list Z -> Prop).
Context (Hbase : 2 <= base).
Context (Hdigit : forall v d, 0 <= v -> 0 <= d < base -> digit (v * base + d) = symbol d).
Context (Hstep : forall v d, 0 <= v -> 0 <= d < base -> step (v * base + d) = v).
Context (Hlast : forall k n buf, step n = 0 -> loop k n buf (buf ++ [digit n])).
Context (Hmore : forall k n buf out, step n <> 0 -> loop k (step n) (buf ++ [digit n]) out -> loop (S k) n buf out).

Lemma digit_loop_spec ds : forall k buf,
  ds <> [] -> Forall (fun d => 0 <= d < base) ds -> (head ds = Some 0 -> ds = [0]) -> (length ds <= S k)%nat ->
  loop k (digits_value base ds) buf (buf ++ rev (symbol <$> ds)).
Proof.
  induction ds as [|d ds IH] using rev_ind; intros k buf Hne Hd Hz Hk; [done|].
  apply Forall_app in Hd as [Hds [Hd _]%Forall_cons]. pose proof (digits_value_nonneg base ds Hbase Hds) as Hv.
  rewrite digits_value_snoc, fmap_app, rev_app_distr. cbn [rev fmap list_fmap app].
  destruct ds as [|x ds].
  - pose proof (Hlast k (digits_value base [] * base + d) buf) as L. rewrite Hdigit, Hstep in L by done. by apply L.
  - assert (x <> 0) as Hx by (intros ->; specialize (Hz eq_refl); by destruct ds).
    pose proof (digits_value_lower base x ds Hbase Hds Hx) as Hlo.
    pose proof (Z.pow_pos_nonneg base (Z.of_nat (length ds))).
    destruct k as [|k]; [rewrite length_app in Hk; simpl in Hk; lia|]. apply Hmore; rewrite Hstep by done; [lia|].
    rewrite Hdigit by done. specialize (IH k (buf ++ [symbol d])). rewrite <- app_assoc in IH. apply IH; [done|done| |].
    + by intros [= ->].
    + rewrite length_app in Hk. cbn [length] in *. lia.
Qed.
End digit_loop.

Lemma numeral_length symbol base n k ds :
  2 <= base -> ds <> [] -> Forall (fun d => 0 <= d < base) ds -> (head ds = Some 0 -> ds = [0]) ->
  digits_value base ds = n -> n < base ^ Z.of_nat k -> (0 < k)%nat -> (length (symbol <$> ds : list Z) <= k)%nat.
Proof.
  intros Hb Hne Hd Hz Hv Hn Hk. rewrite length_fmap. destruct ds as [|d ds]; [done|]. destruct (decide (d = 0)) as [->|Hd0].
  - rewrite Hz by done. simpl. lia.
  - pose proof (digits_value_lower base d ds Hb Hd Hd0) as Hlo. rewrite Hv in Hlo.
    destruct (decide (length ds < k)%nat); [simpl; lia|].
    pose proof (Z.pow_le_mono_r base (Z.of_nat k) (Z.of_nat (length ds))). lia.
Qed.

Lemma div_mul_add base v d : 0 <= d < base -> (v * base + d) / base = v.
Proof. intros. rewrite Z.div_add_l by lia. rewrite (Z.div_small d) by lia. lia. Qed.

Lemma mod_mul_add base v d : 0 <= d < base -> (v * base + d) mod base = d.
Proof. intros. rewrite Z.add_comm, Z_mod_plus_full. by apply Z.mod_small. Qed.

Lemma digit_char_upper : forall d, 0 <= d < 16 -> digit_char d = upper d.
Proof. check_below 16. Qed.

Lemma hex_digit_lower d : hex_digit d = lower d.
Proof. done. Qed.

Lemma num_string_numeral base n width pad l :
  2 <= base <= 16 -> 0 <= n < 2 ^ 64 -> numeral upper base n l -> 0 <= pad < 256 ->
  num_string n base width pad = pad_left width pad l.
Proof.
  intros Hb Hn (ds & -> & Hne & Hd & Hv & Hz) Hpad. unfold num_string.
  assert (length (upper <$> ds : list Z) <= 65)%nat as Hlen.
  { apply (numeral_length upper base n 65 ds); try done; [lia| |lia].
    pose proof (Z.pow_le_mono_l 2 base 65 ltac:(lia)). simpl Z.of_nat. lia. }
  rewrite length_fmap in Hlen.
  pose proof (digit_loop_spec base upper (fun n => digit_char (n mod base)) (fun n => n / base)
    (fun k n buf out => num_digits (S k) n base buf = Done out) ltac:(lia)) as L.
  rewrite <- Hv. rewrite (L) with (buf := []) (k := 64%nat); [..|done|done|done|done].
  - cbn [app]. unfold pad_list, pad_left. rewrite rev_app_distr, rev_involutive, rev_replicate', length_rev.
    by rewrite u8_id.
  - intros v d _ H. by rewrite mod_mul_add, digit_char_upper by lia.
  - intros v d _ H. by apply div_mul_add.
  - intros k m buf Hm. cbn [num_digits]. by rewrite Hm.
  - intros k m buf out Hm Ho. cbn [num_digits] in *. decide_lia. done.
Qed.

Lemma dec_digits_numeral n l :
  0 <= n < 2 ^ 31 -> numeral lower 10 n l -> rev (dec_digits 30 n []) = l.
Proof.
  intros Hn (ds & -> & Hne & Hd & Hv & Hz).
  assert (length (lower <$> ds : list Z) <= 31)%nat as Hlen
    by (apply (numeral_length lower 10 n 31 ds); try done; lia).
  rewrite length_fmap in Hlen. rewrite <- Hv.
  rewrite (digit_loop_spec 10 lower (fun n => u8 (chr "0" + n mod 10)) (fun n => n / 10)
    (fun k n buf out => dec_digits k n buf = out)) with (buf := []); [apply rev_involutive|..]; try done.
  - intros v d _ H. rewrite mod_mul_add by lia. unfold lower. change (chr "0") with 48. decide_lia. apply u8_id. lia.
  - intros v d _ H. by apply div_mul_add.
  - intros [|k] m buf Hm; cbn [dec_digits]; [done|]. by rewrite Hm.
  - intros k m buf out Hm Ho. cbn [dec_digits]. decide_lia. done.
Qed.

Lemma hex_digits_numeral n l :
  0 <= n < 2 ^ 32 -> numeral lower 16 n l -> hex_string n = l.
Proof.
  intros Hn (ds & -> & Hne & Hd & Hv & Hz). unfold hex_string.
  assert (length (lower <$> ds : list Z) <= 31)%nat as Hlen
    by (apply (numeral_length lower 16 n 31 ds); try done; lia).
  rewrite length_fmap in Hlen. rewrite <- Hv.
  rewrite (digit_loop_spec 16 lower (fun n => hex_digit (n .& 15)) (fun n => n .>> 4)
    (fun k n buf out => hex_digits k n buf = out)) with (buf := []); [apply rev_involutive|..]; try done.
  - intros v d _ H. change 15 with (Z.ones 4). rewrite Z.land_ones by lia. change (2 ^ 4) with 16.
    by rewrite mod_mul_add, hex_digit_lower by lia.
  - intros v d _ H. rewrite Z.shiftr_div_pow2 by lia. by apply div_mul_add.
  - intros [|k] m buf Hm; cbn [hex_digits]; [done|]. by rewrite Hm.
  - intros k m buf out Hm Ho. cbn [hex_digits]. decide_lia. done.
Qed.

(** *** The conversions *)

Lemma upper_lower_decimal ds :
  Forall (fun d => 0 <= d < 16) ds -> Forall (fun c => c <= chr "9") (lower <$> ds) -> lower <$> ds = upper <$> ds.
Proof.
  intros Hd. induction Hd as [|d ds Hd _ IH]; intros Hc; [done|].
  rewrite !fmap_cons in *. apply Forall_cons in Hc as [Hc Hcs]. rewrite IH by done. f_equal.
  revert Hc. unfold lower, upper. change (chr "9") with 57. change (chr "a") with 97. change (chr "0") with 48.
  destruct (Z.ltb_spec d 10); lia.
Qed.

Lemma numeral_upper n l : numeral lower 16 n l -> Forall (fun c => c <= chr "9") l -> numeral upper 16 n l.
Proof. intros (ds & -> & Hne & Hd & Hv & Hz) Hc. exists ds. split_and!; try done. by apply upper_lower_decimal. Qed.

Lemma render_directive k width w a fmt args out rest :
  width_of w width -> is_digit k = false ->
  conv_out k width (a :: args) = Some (out, args) -> render fmt args = Some rest ->
  render (chr "%" :: (w ++ [k]) ++ fmt) (a :: args) = Some (out ++ rest).
Proof.
  intros [|d Hd] Hk Ho Hr; cbn [render app]; change (chr "%" =? chr "%") with true; cbn [negb].
  - by rewrite Hk, Ho, Hr.
  - assert (is_digit d = true) as -> by (unfold is_digit; lia). by rewrite Ho, Hr.
Qed.

Lemma renders_render fmt args out : renders shown fmt args out -> render fmt args = Some out.
Proof.
  induction 1 as [args|c fmt args out Hc _ IH|dir args1 text fmt args out Hs _ IH]; [done| |].
  - cbn [render]. decide_lia. cbn [negb]. by rewrite IH.
  - destruct Hs as [w width k n l Hw Hk Hn Hl|w width n l Hw Hn Hl|w width n l Hw Hn Hl|w width n l Hw Hn Hl Hc
      |l|c Hc|].
    + apply (render_directive k width); [done|by destruct Hk as [-> | ->]| |done].
      rewrite <- (num_string_numeral 10 n width (chr " ") l) by (done || lia).
      unfold conv_out. rewrite i32_id, u64_id by lia. by destruct Hk as [-> | ->].
    + apply (render_directive _ width); [done|done| |done]. transitivity (Some (num_string (u32 n) 10 width (chr " "), args)); [done|]. rewrite u32_id by lia.
      by rewrite (num_string_numeral 10 n width _ l) by (done || lia).
    + apply (render_directive _ width); [done|done| |done]. transitivity (Some (num_string (u32 n) 16 width (chr "0"), args)); [done|]. rewrite u32_id by lia.
      by rewrite (num_string_numeral 16 n width _ l) by (done || lia).
    + apply (render_directive _ width); [done|done| |done]. transitivity (Some (num_string (u32 n) 16 width (chr "0"), args)); [done|]. rewrite u32_id by lia.
      apply numeral_upper in Hl; [|done]. by rewrite (num_string_numeral 16 n width _ l) by (done || lia).
    + transitivity (app l <$> render fmt args); [done|]. by rewrite IH.
    + transitivity (app [u8 c] <$> render fmt args); [done|]. by rewrite IH, u8_id.
    + transitivity (app [chr "%"] <$> render fmt args); [done|]. by rewrite IH.
Qed.

Lemma renders_render_n fmt args out : renders shown_n fmt args out -> render_n fmt args = Some out.
Proof.
  induction 1 as [args|c fmt args out Hc _ IH|dir args1 text fmt args out Hs _ IH]; [done| |].
  - cbn [render_n]. decide_lia. cbn [negb]. by rewrite IH.
  - transitivity (match conv_out_n (default 0 (head dir)) (args1 ++ args) with
      | Some (o, args) => app o <$> render_n fmt args | None => None end); [by destruct Hs|].
    assert (conv_out_n (default 0 (head dir)) (args1 ++ args) = Some (text, args)) as ->; [|by rewrite IH].
    destruct Hs as [n l Hn Hl|n l Hn Hl|n l Hn Hl|l|]; [..|done|done].
    + transitivity (if i32 n =? - 2 ^ 31 then None else Some (dec_string (i32 n), args)); [done|].
      rewrite i32_id by lia. unfold dec_string. decide_lia. by rewrite (dec_digits_numeral n l) by (done || lia).
    + transitivity (if i32 n =? - 2 ^ 31 then None else Some (dec_string (i32 n), args)); [done|].
      rewrite i32_id by lia. unfold dec_string. decide_lia. by rewrite (dec_digits_numeral (- n) l) by (done || lia).
    + transitivity (Some (hex_string (u32 n), args)); [done|].
      rewrite u32_id by lia. by rewrite (hex_digits_numeral n l) by (done || lia).
Qed.

(** ** Properties *)

(** What [print_num] stores with zero padding reads back as the number, for
    every base it supports. *)
Theorem print_num_reads_back m str num base width :
  2 <= base <= 16 -> 0 <= num < 2 ^ 64 ->
  exists text, print_num m str num base width (chr "0") =
      Done (write_bytes m str text, str + Z.of_nat (length text)) /\
    parse_num base text = num /\ width <= Z.of_nat (length text).
Proof.
  intros Hb Hn. exists (num_string num base width (chr "0")). split_and!.
  - by apply print_num_spec.
  - by apply num_string_parse.
  - destruct (num_digits_64 num base Hb Hn) as (ds & Hd & _). unfold num_string, pad_list.
    rewrite Hd, length_rev, length_app, length_replicate. lia.
Qed.


(** C21. [vsnprintf] stores what the format means, cut to [size - 1] characters,
    and a NUL, which fills at most the [size] bytes of its buffer, and changes
    no other byte. When nothing is cut it returns the length of the text. *)
Theorem vsnprintf_truncates fuel m str size fp fmt args fargs out :
  0 < size -> renders shown_n fmt fargs out ->
  cstr m fp fmt -> fp + Z.of_nat (length fmt) < str \/ str + size - 1 <= fp ->
  Forall2 (arg_rep m str (str + size - 1) fuel) args fargs ->
  (length fmt < fuel)%nat ->
  exists r, vsnprintf fuel m str size fp args =
      Done (write_bytes m str (take (Z.to_nat (size - 1)) out ++ [0]), r) /\
    (Z.of_nat (length out) < size -> r = i32 (Z.of_nat (length out))).
Proof.
  intros Hsz Hr%renders_render_n Hs Hd Ha Hf. eexists. split; [by eapply vsnprintf_spec|].
  intros. by rewrite Z.min_l by lia.
Qed.

(** For every format, argument list and memory, [vsnprintf] changes no byte
    outside the [size] bytes of its buffer. *)
Theorem vsnprintf_in_bounds fuel m str size fp args m' r :
  0 < size -> vsnprintf fuel m str size fp args = Done (m', r) ->
  changes str (str + size) m m'.
Proof.
  intros Hs. unfold vsnprintf. decide_lia.
  intros ([m1 s1] & Hl & [= <- <-])%res_bind_inv.
  apply vsnprintf_loop_bounds in Hl as [Hc ?]; [|lia].
  eapply changes_trans; [eapply changes_weaken; [exact Hc|lia|lia]|].
  apply changes_store. lia.
Qed.

(** [vsnprintf] on the concrete format "%d%s" with -5 and "ab". *)
Definition w_fmt : mem :=
  write_bytes (write_bytes ∅ 100 (bytes_of "%d%s" ++ [0])) 200 (bytes_of "ab" ++ [0]).

Lemma w_fmt_cstr : cstr w_fmt 100 (bytes_of "%d%s").
Proof. split; [by repeat constructor|vm_compute; by split_and!]. Qed.

Lemma w_fmt_arg lo hi : 203 <= lo -> arg_rep w_fmt lo hi 9 200 (FStr (bytes_of "ab")).
Proof.
  intros. split; [|split; [simpl; lia|left; simpl; lia]].
  split; [by repeat constructor|vm_compute; by split_and!].
Qed.

Lemma print_num_reads_back_witness :
  exists text, print_num ∅ 0 255 16 4 (chr "0") =
    Done (write_bytes ∅ 0 text, 0 + Z.of_nat (length text)) /\ parse_num 16 text = 255.
Proof.
  destruct (print_num_reads_back ∅ 0 255 16 4) as (t & ? & ? & _); [lia..|]. by exists t.
Defined.


Lemma vsnprintf_truncates_witness :
  exists r, vsnprintf 9 w_fmt 1000 4 100 [-5; 200] =
  Done (write_bytes w_fmt 1000 (bytes_of "-5a" ++ [0]), r).
Proof.
  destruct (vsnprintf_truncates 9 w_fmt 1000 4 100 (bytes_of "%d%s") [-5; 200]
    [FInt (-5); FStr (bytes_of "ab")] (bytes_of "-5ab")) as (r & E & _);
    [lia| |apply w_fmt_cstr|simpl; lia| |simpl; lia|exists r; exact E].
  - apply (renders_conv shown_n [chr "d"] [FInt (-5)] (bytes_of "-5") (bytes_of "%s") [FStr (bytes_of "ab")] (bytes_of "ab")).
    + apply (shown_n_negative (-5) [chr "5"]); [lia|].
      exists [5]. split_and!; try done. repeat constructor; lia.
    + apply (renders_conv shown_n [chr "s"] [FStr (bytes_of "ab")] (bytes_of "ab") [] [] []); constructor.
  - constructor; [done|]. constructor; [apply w_fmt_arg; simpl; lia|constructor].
Defined.

Lemma vsnprintf_in_bounds_witness :
  exists m r, vsnprintf 9 w_fmt 1000 4 100 [-5; 200] = Done (m, r) /\ load m 1004 = load w_fmt 1004.
Proof.
  destruct (vsnprintf 9 w_fmt 1000 4 100 [-5; 200]) as [[m r]| |] eqn:E;
    [|vm_compute in E; discriminate..].
  exists m, r. split; [done|]. apply (vsnprintf_in_bounds 9 w_fmt 1000 4 100 [-5; 200] m r ltac:(lia) E). lia.
Defined.

(** The minimum [int] has no negation in [int]; [%d] of [vsnprintf] needs it. *)
Lemma vsnprintf_int_min :
  vsnprintf 9 w_fmt 1000 40 100 [- 2 ^ 31; 200] = Undef.
Proof. vm_compute. reflexivity. Qed.
