(* ===== verification/Mmu.v ===== *)
(** * Memory management unit (src/impl/kernel/mmu.c)

    The page allocator hands out consecutive pages. The paging functions walk
    and extend the four-level tables that the boot loader set up; the tables
    lie in the byte memory, an entry is a 64-bit word. [cr3] is the value
    [asm_read_cr3()] returns, the address of the level-4 table. *)
From S2P Require Export CString Console.

(** ** Definitions *)

Definition PAGE_SIZE := 4096.
Definition PAGE_PRESENT := 1 .<< 0.
Definition PAGE_WRITABLE := 1 .<< 1.
Definition PAGE_HUGE := 1 .<< 7.

Record Mmu := MkMmu {
  next_free_page : Z;
  heap_start : Z;
  heap_current : Z;
  heap_end : Z;
}.

Definition mmu_initial : Mmu := MkMmu 0x400000 0x400000 0x400000 0x800000.

Definition mmu_init (c : Console) : Console :=
  print_str (line "[MMU] Using boot loader's page tables") c.

Definition vmm_init (st : Mmu) (c : Console) : Mmu * Console :=
  (MkMmu (next_free_page st) (heap_start st) (heap_start st) (heap_end st),
   print_str (line "[VMM] Basic heap initialized") c).

Definition mmu_alloc_page (st : Mmu) (m : mem) : Z * Mmu * mem :=
  let page := next_free_page st in
  let st := MkMmu (u64 (page + PAGE_SIZE)) (heap_start st) (heap_current st) (heap_end st) in
  (page, st, memset m page 0 PAGE_SIZE).

Definition mmu_free_page (st : Mmu) (page : Z) : Mmu := st.

(** The four table indices of a virtual address. *)
Definition pml4_idx (virt_addr : Z) := (virt_addr .>> 39) .& 0x1FF.
Definition pdp_idx (virt_addr : Z) := (virt_addr .>> 30) .& 0x1FF.
Definition pd_idx (virt_addr : Z) := (virt_addr .>> 21) .& 0x1FF.
Definition pt_idx (virt_addr : Z) := (virt_addr .>> 12) .& 0x1FF.

(** [e & ~0xFFF]: the [int] mask is sign-extended to 64 bits. *)
Definition entry_addr (e : Z) : Z := e .& u64 (Z.lnot 0xFFF).

(** [table[idx]] and [table[idx] = v] for a table of 64-bit entries. *)
Definition entry (m : mem) (table idx : Z) : Z := load64 m (table + 8 * idx).
Definition set_entry (m : mem) (table idx v : Z) : mem := store64 m (table + 8 * idx) v.

(** "Ensure the next table exists": allocate, clear and link a table when the
    entry is not present; then the address the entry holds. *)
Definition ensure_table (st : Mmu) (m : mem) (table idx flags : Z) : Mmu * mem * Z :=
  let '(st, m) :=
    if negb (tst (entry m table idx) PAGE_PRESENT) then
      let '(page, st, m) := mmu_alloc_page st m in
      let m := memset m page 0 PAGE_SIZE in
      (st, set_entry m table idx (page .| flags))
    else (st, m) in
  (st, m, entry_addr (entry m table idx)).

Definition mmu_map_page (cr3 : Z) (st : Mmu) (m : mem) (phys_addr virt_addr flags : Z)
  : Mmu * mem :=
  if virt_addr <? 0x400000 then (st, m)
  else
    let '(st, m, pdp) := ensure_table st m cr3 (pml4_idx virt_addr) flags in
    let '(st, m, pd) := ensure_table st m pdp (pdp_idx virt_addr) flags in
    if tst (entry m pd (pd_idx virt_addr)) PAGE_HUGE then (st, m)
    else
      let '(st, m, pt) := ensure_table st m pd (pd_idx virt_addr) flags in
      (st, set_entry m pt (pt_idx virt_addr) (phys_addr .| flags)).

Definition mmu_is_mapped (cr3 : Z) (m : mem) (virt_addr : Z) : Z :=
  if negb (tst (entry m cr3 (pml4_idx virt_addr)) PAGE_PRESENT) then 0 else
  let pdp := entry_addr (entry m cr3 (pml4_idx virt_addr)) in
  if negb (tst (entry m pdp (pdp_idx virt_addr)) PAGE_PRESENT) then 0 else
  let pd := entry_addr (entry m pdp (pdp_idx virt_addr)) in
  if tst (entry m pd (pd_idx virt_addr)) PAGE_HUGE then 1 else
  if negb (tst (entry m pd (pd_idx virt_addr)) PAGE_PRESENT) then 0 else
  let pt := entry_addr (entry m pd (pd_idx virt_addr)) in
  Z.b2z (tst (entry m pt (pt_idx virt_addr)) PAGE_PRESENT).

(** The level-4 table of [mmu_unmap_page] is the constant 0x1000, not CR3. *)
Definition mmu_unmap_page (m : mem) (virt_addr : Z) : mem :=
  let pml4 := 0x1000 in
  if negb (tst (entry m pml4 (pml4_idx virt_addr)) PAGE_PRESENT) then m else
  let pdp := entry_addr (entry m pml4 (pml4_idx virt_addr)) in
  if negb (tst (entry m pdp (pdp_idx virt_addr)) PAGE_PRESENT) then m else
  let pd := entry_addr (entry m pdp (pdp_idx virt_addr)) in
  if negb (tst (entry m pd (pd_idx virt_addr)) PAGE_PRESENT) then m else
  let pt := entry_addr (entry m pd (pd_idx virt_addr)) in
  set_entry m pt (pt_idx virt_addr) 0.

(** The control registers, and the routines of asm_utils.h that move them from
    and to a general register: what their names, types and constraints say (the
    order of the operands is that of the AT&T syntax, while the Makefile asks
    for the other one). *)
Record Cr := MkCr { cr0 : Z; cr3 : Z }.

Definition asm_read_cr0 (c : Cr) : Z := cr0 c.
Definition asm_write_cr0 (c : Cr) (value : Z) : Cr := MkCr value (cr3 c).
Definition asm_read_cr3 (c : Cr) : Z := cr3 c.
Definition asm_write_cr3 (c : Cr) (value : Z) : Cr := MkCr (cr0 c) value.

Definition mmu_load_cr3 (c : Cr) (pml4_addr : Z) : Cr := asm_write_cr3 c pml4_addr.
Definition mmu_enable_paging (c : Cr) : Cr := asm_write_cr0 c (asm_read_cr0 c .| 0x80000000).

Definition mmu_set_kernel_stack (stack : Z) (c : Console) : Console :=
  print_str (line "[MMU] Using boot loader's stack mapping") c.

Definition mmu_add_memory_region (st : Mmu) (base length type : Z) : Mmu := st.
(** The region table and its length, which is stored through [count]. *)
Definition mmu_get_memory_regions (m : mem) (count : Z) : Z * mem := (0, store32 m count 0).
Definition mmu_get_total_memory : Z := 8 * 1024 * 1024.
Definition mmu_get_available_memory : Z := 6 * 1024 * 1024.

(** ** What the processor makes of the tables

    [walk]: the entry that decides the translation of an address, [None] if a
    table on the way is missing; [translate] is the physical address. *)

Inductive leaf :=
  | Huge (e : Z)    (* a 2 MiB page, from the level-2 table *)
  | Small (e : Z).  (* an entry of a level-1 table *)

Definition present (e : Z) : bool := tst e PAGE_PRESENT.
Definition huge (e : Z) : bool := tst e PAGE_HUGE.

Definition walk (cr3 : Z) (m : mem) (va : Z) : option leaf :=
  let e4 := entry m cr3 (pml4_idx va) in
  if negb (present e4) then None else
  let e3 := entry m (entry_addr e4) (pdp_idx va) in
  if negb (present e3) then None else
  let e2 := entry m (entry_addr e3) (pd_idx va) in
  if huge e2 then Some (Huge e2) else
  if negb (present e2) then None else
  Some (Small (entry m (entry_addr e2) (pt_idx va))).

Definition translate (cr3 : Z) (m : mem) (va : Z) : option Z :=
  match walk cr3 m va with
  | Some (Huge e) => if present e then Some (e / 2 ^ 21 * 2 ^ 21 + va mod 2 ^ 21) else None
  | Some (Small e) => if present e then Some (entry_addr e + va mod 2 ^ 12) else None
  | None => None
  end.

(** ** Entries *)

Lemma entry_addr_eq e : 0 <= e < 2 ^ 64 -> entry_addr e = e / 4096 * 4096.
Proof. apply (land_high e 12). lia. Qed.

Lemma lor_flags p f :
  p mod 4096 = 0 -> 0 <= f < 4096 -> p .| f = p + f.
Proof.
  intros Hp Hf. rewrite <- Z.lxor_lor, <- Z.add_nocarry_lxor; [done|..];
    apply Z.bits_inj'; intros i Hi; rewrite Z.land_spec, Z.bits_0;
    destruct (Z.ltb_spec i 12).
  1,3: replace p with (Z.shiftl (p / 2 ^ 12) 12)
        by (rewrite Z.shiftl_mul_pow2 by lia; change (2 ^ 12) with 4096;
            pose proof (Z.div_mod p 4096); lia);
       by rewrite Z.shiftl_spec, Z.testbit_neg_r by lia.
  all: rewrite <- (Z.mod_small f (2 ^ 12)) by lia;
       rewrite Z.mod_pow2_bits_high by lia; apply andb_false_r.
Qed.

Lemma testbit_add_aligned p f k :
  p mod 4096 = 0 -> 0 <= f < 4096 -> 0 <= k < 12 -> Z.testbit (p + f) k = Z.testbit f k.
Proof.
  intros Hp Hf Hk. rewrite <- (Z.mod_pow2_bits_low (p + f) 12 k) by lia.
  rewrite <- (Z.mod_pow2_bits_low f 12 k) by lia. f_equal.
  rewrite Z.add_mod by lia. change (2 ^ 12) with 4096. rewrite Hp.
  by rewrite Z.add_0_l, Z.mod_mod by lia.
Qed.

Section new_entry.
Context (p f : Z) (Hp : p mod 4096 = 0) (Hr : 0 <= p < 2 ^ 64) (Hf : 0 <= f < 4096).

Lemma new_entry_range : 0 <= p .| f < 2 ^ 64.
Proof.
  rewrite lor_flags by done. split; [lia|].
  pose proof (Z.div_mod p 4096 ltac:(lia)) as Hd. rewrite Hp in Hd.
  change (2 ^ 64) with (4096 * 2 ^ 52) in *. nia.
Qed.

Lemma new_entry_addr : entry_addr (p .| f) = p.
Proof.
  rewrite entry_addr_eq by apply new_entry_range. rewrite lor_flags by done.
  pose proof (Z.div_mod p 4096 ltac:(lia)) as Hd. rewrite Hp in Hd.
  rewrite Hd at 1. replace (4096 * (p / 4096) + 0 + f) with (p / 4096 * 4096 + f) by lia.
  rewrite Z.div_add_l, (Z.div_small f) by lia. lia.
Qed.

Lemma new_entry_present : present (p .| f) = present f.
Proof.
  unfold present, PAGE_PRESENT. rewrite !tst_bit by lia. rewrite lor_flags by done.
  by apply testbit_add_aligned.
Qed.

Lemma new_entry_huge : huge (p .| f) = huge f.
Proof.
  unfold huge, PAGE_HUGE. rewrite !tst_bit by lia. rewrite lor_flags by done.
  by apply testbit_add_aligned.
Qed.
End new_entry.

#[local] Opaque memset store64 load64.

(** ** Well-formed tables

    [path] names the pages that are tables: a page's path is the list of
    indices that lead to it from the root, so its length is the level and no
    two entries share a table. A present entry of a table that is not a
    level-1 table (and not a huge page) leads to the table its path names. *)

Record pt_wf (cr3 nf : Z) (m : mem) (path : gmap Z (list Z)) : Prop := {
  wf_root : path !! cr3 = Some [];
  wf_page : forall p pi, path !! p = Some pi ->
    p mod 4096 = 0 /\ 0 <= p /\ p + 4096 <= nf /\ (length pi <= 3)%nat;
  wf_entry : forall p pi i, path !! p = Some pi -> (length pi < 3)%nat ->
    0 <= i < 512 -> present (entry m p i) = true ->
    (length pi = 2%nat -> huge (entry m p i) = false) ->
    path !! entry_addr (entry m p i) = Some (pi ++ [i]);
}.

Arguments wf_root {_ _ _ _}.
Arguments wf_page {_ _ _ _}.
Arguments wf_entry {_ _ _ _}.

(** Flags the callers pass: a present 4 KiB page. *)
Definition flags_ok (f : Z) : Prop :=
  0 <= f < 4096 /\ present f = true /\ huge f = false.

Definition va_indices (va : Z) : list Z := [pml4_idx va; pdp_idx va; pd_idx va; pt_idx va].

(** [walk] as a recursion on the indices that are left. *)
Fixpoint descend (m : mem) (t : Z) (ix : list Z) : option leaf :=
  match ix with
  | [] => None
  | i :: ix =>
      match ix with
      | [] => Some (Small (entry m t i))
      | j :: ix' =>
          if (length ix' =? 0)%nat && huge (entry m t i) then Some (Huge (entry m t i))
          else if negb (present (entry m t i)) then None
          else descend m (entry_addr (entry m t i)) ix
      end
  end.

Definition leaf_addr (va : Z) (l : option leaf) : option Z :=
  match l with
  | Some (Huge e) => if present e then Some (e / 2 ^ 21 * 2 ^ 21 + va mod 2 ^ 21) else None
  | Some (Small e) => if present e then Some (entry_addr e + va mod 2 ^ 12) else None
  | None => None
  end.

Lemma walk_descend cr3 m va : walk cr3 m va = descend m cr3 (va_indices va).
Proof.
  unfold walk, va_indices. cbn [descend length Nat.eqb andb].
  repeat case_match; done.
Qed.

Lemma translate_descend cr3 m va :
  translate cr3 m va = leaf_addr va (descend m cr3 (va_indices va)).
Proof. unfold translate. by rewrite walk_descend. Qed.

Lemma idx_range va s : 0 <= (va .>> s) .& 0x1FF < 512.
Proof.
  change 0x1FF with (Z.ones 9). rewrite Z.land_ones by lia. apply Z.mod_pos_bound. lia.
Qed.

Lemma va_indices_range va : Forall (fun i => 0 <= i < 512) (va_indices va).
Proof. repeat constructor; apply idx_range. Qed.

Lemma aligned_disjoint p q i j :
  p mod 4096 = 0 -> q mod 4096 = 0 -> 0 <= i < 512 -> 0 <= j < 512 ->
  (p, i) <> (q, j) -> p + 8 * i + 8 <= q + 8 * j \/ q + 8 * j + 8 <= p + 8 * i.
Proof.
  intros Hp Hq Hi Hj Hne. apply Z.mod_divide in Hp as [a ->], Hq as [b ->]; [|lia..].
  destruct (decide (a = b)) as [->|]; [|lia].
  assert (i <> j) by congruence. lia.
Qed.

Lemma entry_set_eq m t i v : 0 <= v < 2 ^ 64 -> entry (set_entry m t i v) t i = v.
Proof. intros. unfold entry, set_entry. rewrite load64_store64_eq. by apply u64_id. Qed.

Lemma entry_set_ne m t i v p j :
  t mod 4096 = 0 -> p mod 4096 = 0 -> 0 <= i < 512 -> 0 <= j < 512 ->
  (p, j) <> (t, i) -> entry (set_entry m t i v) p j = entry m p j.
Proof.
  intros Ht Hp Hi Hj Hne. unfold entry, set_entry. apply load64_store64_ne.
  by destruct (aligned_disjoint p t j i) as [?|?]; [done..|lia|lia].
Qed.

Lemma entry_changes lo hi m m' p i :
  changes lo hi m m' -> 0 <= i < 512 -> p + 4096 <= lo \/ hi <= p ->
  entry m' p i = entry m p i.
Proof. intros. unfold entry. eapply load64_changes; [done|lia]. Qed.

Lemma entry_zeroed m p i : 0 <= i < 512 -> entry (memset m p 0 PAGE_SIZE) p i = 0.
Proof.
  intros Hi. unfold entry. apply load64_zero. intros b Hb.
  rewrite memset_load. unfold PAGE_SIZE. by rewrite decide_True by lia.
Qed.

Lemma empty_not_present : present 0 = false.
Proof. reflexivity. Qed.
Lemma empty_not_huge : huge 0 = false.
Proof. reflexivity. Qed.

(** The address [a] is in none of the tables. *)
Definition outside_tables (path : gmap Z (list Z)) (a : Z) : Prop :=
  forall p pi, path !! p = Some pi -> a < p \/ p + 4096 <= a.

(** A store into a table changes nothing outside the tables. *)
Lemma set_entry_keep m t i v path pi a :
  path !! t = Some pi -> 0 <= i < 512 -> outside_tables path a -> load (set_entry m t i v) a = load m a.
Proof.
  intros Ht Hi Ho. apply (store64_changes m (t + 8 * i) v). destruct (Ho t pi Ht); lia.
Qed.

(** What "ensure the next table exists" guarantees. *)
Record ensured (cr3 : Z) (st st' : Mmu) (m m' : mem) (path path' : gmap Z (list Z))
    (t i : Z) (pi : list Z) (t' : Z) : Prop := {
  en_wf : pt_wf cr3 (next_free_page st') m' path';
  en_path : path ⊆ path';
  en_next : path' !! t' = Some (pi ++ [i]);
  en_alloc : next_free_page st <= next_free_page st' <= next_free_page st + 4096;
  en_align : next_free_page st' mod 4096 = 0;
  en_present : present (entry m' t i) = true;
  en_huge : (length pi = 2)%nat -> huge (entry m' t i) = false;
  en_addr : entry_addr (entry m' t i) = t';
  en_others : forall p pi' j, path !! p = Some pi' -> 0 <= j < 512 -> (p, j) <> (t, i) ->
    entry m' p j = entry m p j;
  en_same : present (entry m t i) = true -> entry m' t i = entry m t i;
  en_fresh : present (entry m t i) = false -> forall j, 0 <= j < 512 -> entry m' t' j = 0;
  en_new : forall p pp, path' !! p = Some pp -> path !! p = Some pp \/ next_free_page st <= p;
  en_keep : forall a, outside_tables path a -> a < next_free_page st -> load m' a = load m a;
}.

Arguments en_wf {_ _ _ _ _ _ _ _ _ _ _}.
Arguments en_path {_ _ _ _ _ _ _ _ _ _ _}.
Arguments en_next {_ _ _ _ _ _ _ _ _ _ _}.
Arguments en_alloc {_ _ _ _ _ _ _ _ _ _ _}.
Arguments en_align {_ _ _ _ _ _ _ _ _ _ _}.
Arguments en_present {_ _ _ _ _ _ _ _ _ _ _}.
Arguments en_huge {_ _ _ _ _ _ _ _ _ _ _}.
Arguments en_addr {_ _ _ _ _ _ _ _ _ _ _}.
Arguments en_others {_ _ _ _ _ _ _ _ _ _ _}.
Arguments en_same {_ _ _ _ _ _ _ _ _ _ _}.
Arguments en_fresh {_ _ _ _ _ _ _ _ _ _ _}.
Arguments en_new {_ _ _ _ _ _ _ _ _ _ _}.
Arguments en_keep {_ _ _ _ _ _ _ _ _ _ _}.

Lemma ensure_table_present cr3 st m path t i pi f :
  pt_wf cr3 (next_free_page st) m path -> next_free_page st mod 4096 = 0 ->
  path !! t = Some pi -> (length pi < 3)%nat -> 0 <= i < 512 ->
  (length pi = 2%nat -> huge (entry m t i) = false) ->
  present (entry m t i) = true ->
  exists t', ensure_table st m t i f = (st, m, t') /\
    ensured cr3 st st m m path path t i pi t'.
Proof.
  intros Hwf Hal Ht Hpi Hi Hh Hp. unfold ensure_table.
  change (tst (entry m t i) PAGE_PRESENT) with (present (entry m t i)). rewrite Hp.
  eexists. split; [reflexivity|]. split; try done; [|lia|congruence|by left].
  by apply (wf_entry Hwf).
Qed.

(** A new, empty table linked from an entry of an old one. *)
Lemma new_table_wf cr3 nf m m' path t i pi e :
  pt_wf cr3 nf m path -> path !! t = Some pi -> nf mod 4096 = 0 -> nf + 4096 < 2 ^ 64 -> path !! nf = None ->
  (length pi < 3)%nat -> entry m' t i = e -> entry_addr e = nf ->
  (forall p pi' j, path !! p = Some pi' -> 0 <= j < 512 -> (p, j) <> (t, i) -> entry m' p j = entry m p j) ->
  (forall j, 0 <= j < 512 -> entry m' nf j = 0) ->
  pt_wf cr3 (nf + 4096) m' (<[nf := pi ++ [i]]> path).
Proof.
  intros Hwf Ht Hal Hnf Hfresh Hpi He Haddr Hothers Hzero.
  pose proof (wf_page Hwf cr3 [] (wf_root Hwf)) as (_ & Hc0 & Hcn & _). pose proof (wf_page Hwf t pi Ht) as (_ & Ht0 & Htn & _).
  split.
  - rewrite lookup_insert_ne by lia. apply (wf_root Hwf).
  - intros p pi' Hpp. destruct (decide (p = nf)) as [->|Hne].
    + rewrite lookup_insert_eq in Hpp. injection Hpp as <-. rewrite length_app. simpl. lia.
    + rewrite lookup_insert_ne in Hpp by done. apply (wf_page Hwf) in Hpp. lia.
  - intros p pi' j Hpp Hl Hj Hpr Hhu. destruct (decide (p = nf)) as [->|Hne].
    { by rewrite Hzero in Hpr. }
    rewrite lookup_insert_ne in Hpp by done.
    destruct (decide ((p, j) = (t, i))) as [[= -> ->]|Hpj].
    + rewrite He, Haddr, lookup_insert_eq. congruence.
    + rewrite (Hothers p pi' j) in * by done. rewrite lookup_insert_ne.
      * by apply (wf_entry Hwf).
      * intros E. pose proof (wf_entry Hwf p pi' j Hpp Hl Hj Hpr Hhu) as E'.
        rewrite <- E in E'. congruence.
Qed.

Lemma ensure_table_absent cr3 st m path t i pi f :
  pt_wf cr3 (next_free_page st) m path -> next_free_page st mod 4096 = 0 ->
  next_free_page st + 4096 < 2 ^ 64 -> flags_ok f ->
  path !! t = Some pi -> (length pi < 3)%nat -> 0 <= i < 512 ->
  present (entry m t i) = false ->
  exists st' m' t', ensure_table st m t i f = (st', m', t') /\
    ensured cr3 st st' m m' path (<[t' := pi ++ [i]]> path) t i pi t'.
Proof.
  intros Hwf Hal Hnf (Hf & Hfp & Hfh) Ht Hpi Hi Hp. unfold ensure_table.
  change (tst (entry m t i) PAGE_PRESENT) with (present (entry m t i)). rewrite Hp.
  cbn [negb mmu_alloc_page]. set (nf := next_free_page st) in *.
  set (m1 := memset (memset m nf 0 PAGE_SIZE) nf 0 PAGE_SIZE).
  set (st' := MkMmu (u64 (nf + PAGE_SIZE)) _ _ _).
  destruct (wf_page Hwf t pi Ht) as (Hta & Ht0 & Htn & _).
  pose proof (wf_page Hwf cr3 [] (wf_root Hwf)) as (_ & Hc0 & Hcn & _).
  assert (next_free_page st' = nf + 4096) as Hst'.
  { simpl. rewrite u64_id; unfold PAGE_SIZE; lia. }
  assert (0 <= nf .| f < 2 ^ 64) as Hnr by (apply new_entry_range; [done|lia|done]).
  assert (entry (set_entry m1 t i (nf .| f)) t i = nf .| f) as He by (by apply entry_set_eq).
  assert (path !! nf = None) as Hfresh.
  { destruct (path !! nf) eqn:E; [|done]. apply (wf_page Hwf) in E. lia. }
  assert (forall p pi' j, path !! p = Some pi' -> 0 <= j < 512 -> (p, j) <> (t, i) ->
    entry (set_entry m1 t i (nf .| f)) p j = entry m p j) as Hothers.
  { intros p pi' j Hpp Hj Hne.
    destruct (wf_page Hwf p pi' Hpp) as (? & ? & ? & _).
    rewrite entry_set_ne by done. unfold m1, PAGE_SIZE.
    rewrite !(entry_changes nf (nf + 4096) _ _ p j (memset_changes _ _ _ _)) by lia.
    done. }
  assert (forall j, 0 <= j < 512 -> entry (set_entry m1 t i (nf .| f)) nf j = 0) as Hzero.
  { intros j Hj. rewrite entry_set_ne; [by apply entry_zeroed|done..|].
    intros [= -> _]. lia. }
  assert (entry_addr (nf .| f) = nf) as Haddr by (apply new_entry_addr; [done|lia|done]).
  assert (forall a, a < nf -> load m1 a = load m a) as Hm1.
  { intros a Ha. unfold m1, PAGE_SIZE. rewrite !memset_load, !decide_False by lia. done. }
  exists st', (set_entry m1 t i (nf .| f)), nf. split; [by rewrite He, Haddr|].
  clearbody st' m1. split; rewrite ?He, ?Hst'.
  - by apply (new_table_wf cr3 nf m _ path t i pi (nf .| f)).
  - by apply insert_subseteq.
  - by rewrite lookup_insert_eq.
  - lia.
  - rewrite <- (Z.mod_add nf 1 4096) in Hal by lia. by rewrite Z.mul_1_l in Hal.
  - rewrite new_entry_present; [exact Hfp|exact Hal|lia].
  - intros _. rewrite new_entry_huge; [exact Hfh|exact Hal|lia].
  - exact Haddr.
  - exact Hothers.
  - congruence.
  - intros _. exact Hzero.
  - intros p pp [[<- _]|[_ Hpp]]%lookup_insert_Some; [by right|by left].
  - intros a Ha Hlt. rewrite (set_entry_keep m1 t i _ path pi a) by done. by apply Hm1.
Qed.

Lemma ensure_table_spec cr3 st m path t i pi f :
  pt_wf cr3 (next_free_page st) m path -> next_free_page st mod 4096 = 0 ->
  next_free_page st + 4096 < 2 ^ 64 -> flags_ok f ->
  path !! t = Some pi -> (length pi < 3)%nat -> 0 <= i < 512 ->
  (length pi = 2%nat -> huge (entry m t i) = false) ->
  exists st' m' t' path', ensure_table st m t i f = (st', m', t') /\
    ensured cr3 st st' m m' path path' t i pi t'.
Proof.
  intros Hwf Hal Hnf Hf Ht Hpi Hi Hh. destruct (present (entry m t i)) eqn:Hp.
  - destruct (ensure_table_present cr3 st m path t i pi f) as (t' & ? & ?); [done..|].
    by exists st, m, t', path.
  - destruct (ensure_table_absent cr3 st m path t i pi f) as (st' & m' & t' & ? & ?);
      [done..|].
    by exists st', m', t', (<[t' := pi ++ [i]]> path).
Qed.

(** A walk may find a cleared level-1 entry where it found no table before. *)
Definition leaf_ext (l l' : option leaf) : Prop :=
  l' = l \/ l = None /\ l' = Some (Small 0).

Lemma leaf_ext_trans l1 l2 l3 : leaf_ext l1 l2 -> leaf_ext l2 l3 -> leaf_ext l1 l3.
Proof. intros [->|[-> ->]] [->|[? ->]]; first [by left|by right|done]. Qed.

Lemma leaf_ext_addr va l l' : leaf_ext l l' -> leaf_addr va l' = leaf_addr va l.
Proof. by intros [->|[-> ->]]. Qed.

Lemma descend_fresh m t ix :
  (forall j, 0 <= j < 512 -> entry m t j = 0) -> Forall (fun i => 0 <= i < 512) ix ->
  leaf_ext None (descend m t ix).
Proof.
  intros Hz Hr. destruct Hr as [|i ix Hi Hr]; [by left|]. cbn [descend].
  rewrite (Hz i Hi). destruct ix; [by right|].
  rewrite empty_not_huge, empty_not_present, andb_false_r. by left.
Qed.

Lemma ensured_descend cr3 st st' m m' path path' t i pi t' :
  pt_wf cr3 (next_free_page st) m path ->
  ensured cr3 st st' m m' path path' t i pi t' ->
  path !! t = Some pi -> (length pi < 3)%nat -> 0 <= i < 512 ->
  (length pi = 2%nat -> huge (entry m t i) = false) ->
  forall ix p pp, path !! p = Some pp -> (length pp + length ix = 4)%nat -> ix <> [] ->
  Forall (fun i => 0 <= i < 512) ix ->
  leaf_ext (descend m p ix) (descend m' p ix).
Proof.
  intros Hwf Hen Ht Hpi Hi Hh ix.
  induction ix as [|j ix IH]; intros p pp Hp Hlen Hne Hr; [done|].
  inversion Hr as [|?? Hj Hr']; subst. cbn [descend]. destruct ix as [|k ix].
  { left. do 2 f_equal. eapply (en_others Hen); [done..|].
    intros [= -> ->]. simpl in Hlen. simplify_eq. lia. }
  cbn [length] in Hlen.
  assert ((length ix =? 0)%nat = true -> length pp = 2%nat) as Hlvl.
  { intros ?%Nat.eqb_eq. lia. }
  (* the entry at hand is the same in both memories, and present *)
  assert (entry m' p j = entry m p j ->
    leaf_ext
      (if (length ix =? 0)%nat && huge (entry m p j) then Some (Huge (entry m p j))
       else if negb (present (entry m p j)) then None
       else descend m (entry_addr (entry m p j)) (k :: ix))
      (if (length ix =? 0)%nat && huge (entry m' p j) then Some (Huge (entry m' p j))
       else if negb (present (entry m' p j)) then None
       else descend m' (entry_addr (entry m' p j)) (k :: ix))) as Hsame.
  { intros ->. destruct (_ && huge _) eqn:Hhu; [by left|].
    destruct (present (entry m p j)) eqn:Hpr; [|by left]. cbn [negb].
    eapply (IH _ (pp ++ [j])); [|rewrite length_app; simpl; lia|done|done].
    apply (wf_entry Hwf); [done|lia|done..|].
    intros Hl. apply andb_false_iff in Hhu as [Hz|?]; [|done].
    apply Nat.eqb_neq in Hz. lia. }
  destruct (decide ((p, j) = (t, i))) as [[= -> ->]|Hpj].
  - destruct (present (entry m t i)) eqn:Hpr.
    + apply Hsame. by apply (en_same Hen).
    + clear Hsame. simplify_eq. cbn [negb].
      assert ((length ix =? 0)%nat && huge (entry m t i) = false) as ->.
      { destruct (length ix =? 0)%nat eqn:E; [|done]. by rewrite Hh by auto. }
      assert ((length ix =? 0)%nat && huge (entry m' t i) = false) as ->.
      { destruct (length ix =? 0)%nat eqn:E; [|done].
        by rewrite (en_huge Hen) by auto. }
      rewrite (en_present Hen), (en_addr Hen).
      cbn [negb]. apply descend_fresh; [|done].
      by apply (en_fresh Hen).
  - apply Hsame. by eapply (en_others Hen).
Qed.

Section set_leaf.
Context (cr3 nf : Z) (m : mem) (path : gmap Z (list Z)) (pt i v : Z) (pi : list Z).
Context (Hwf : pt_wf cr3 nf m path) (Hpt : path !! pt = Some pi)
  (Hpi : length pi = 3%nat) (Hi : 0 <= i < 512).

Lemma set_leaf_other p pp j :
  path !! p = Some pp -> 0 <= j < 512 -> (p, j) <> (pt, i) ->
  entry (set_entry m pt i v) p j = entry m p j.
Proof.
  intros Hp Hj Hne. apply (wf_page Hwf) in Hp as (? & _).
  pose proof (wf_page Hwf _ _ Hpt) as (? & _). by apply entry_set_ne.
Qed.

Lemma set_leaf_wf : pt_wf cr3 nf (set_entry m pt i v) path.
Proof.
  split; [apply (wf_root Hwf)|apply (wf_page Hwf)|].
  intros p pp j Hp Hl Hj. rewrite (set_leaf_other p pp j) by (done || congruence || (intros [= -> ->]; rewrite Hpt in Hp; simplify_eq; lia)).
  by apply (wf_entry Hwf).
Qed.

Lemma set_leaf_descend ix p pp :
  path !! p = Some pp -> (length pp + length ix = 4)%nat -> ix <> [] ->
  Forall (fun i => 0 <= i < 512) ix -> pp ++ ix <> pi ++ [i] ->
  descend (set_entry m pt i v) p ix = descend m p ix.
Proof.
  revert p pp. induction ix as [|j ix IH]; intros p pp Hp Hlen Hne Hr Hdiff; [done|].
  inversion Hr as [|?? Hj Hr']; subst. cbn [descend].
  assert (entry (set_entry m pt i v) p j = entry m p j) as ->.
  { apply (set_leaf_other p pp); [done..|]. intros [= -> ->]. simplify_eq.
    simpl in Hlen. destruct ix; [done|simpl in Hlen; lia]. }
  destruct ix as [|k ix]; [done|].
  destruct (_ && huge _) eqn:Hhu; [done|].
  destruct (present (entry m p j)) eqn:Hpr; [|done]. cbn [negb length] in *.
  apply (IH _ (pp ++ [j])); [|rewrite length_app; simpl; lia|done|done|].
  - apply (wf_entry Hwf); [done|lia|done..|].
    intros Hl. apply andb_false_iff in Hhu as [Hz|?]; [|done].
    apply Nat.eqb_neq in Hz. lia.
  - by rewrite <- app_assoc.
Qed.
End set_leaf.

(** ** Mapping a page *)

Lemma is_mapped_walk cr3 m va :
  mmu_is_mapped cr3 m va =
  match walk cr3 m va with
  | Some (Huge _) => 1
  | Some (Small e) => Z.b2z (present e)
  | None => 0
  end.
Proof. unfold mmu_is_mapped, walk, present, huge. by repeat case_match. Qed.

Lemma descend_step m t i j ix :
  present (entry m t i) = true -> (ix = [] -> huge (entry m t i) = false) ->
  descend m t (i :: j :: ix) = descend m (entry_addr (entry m t i)) (j :: ix).
Proof.
  intros Hp Hh. cbn [descend]. rewrite Hp. destruct ix; simpl; [by rewrite Hh|done].
Qed.

Lemma ensured_keep {cr3 st st' m m' path path' t i pi t'} p pp j :
  ensured cr3 st st' m m' path path' t i pi t' ->
  path !! t = Some pi -> path !! p = Some pp -> 0 <= j < 512 -> length pp <> length pi ->
  entry m' p j = entry m p j.
Proof. intros Hen Ht Hp Hj Hne. eapply (en_others Hen); [done..|]. congruence. Qed.

(** The levels of a path, one "ensure" step after the other. *)
Section levels.
Context {cr3 : Z} {st st1 st2 st3 : Mmu} {m m1 m2 m3 : mem} {path path1 path2 path3 : gmap Z (list Z)}.
Context {i4 i3 i2 pdp pd pt : Z} (Hi4 : 0 <= i4 < 512) (Hi3 : 0 <= i3 < 512) (Hi2 : 0 <= i2 < 512).
Context (En1 : ensured cr3 st st1 m m1 path path1 cr3 i4 [] pdp).
Context (En2 : ensured cr3 st1 st2 m1 m2 path1 path2 pdp i3 [i4] pd).

Lemma level_kept : entry m2 cr3 i4 = entry m1 cr3 i4.
Proof. eapply (ensured_keep cr3 []); [done|apply (en_next En1)|apply (wf_root (en_wf En1))|done|done]. Qed.

(** No huge page before, none on the way to the last table. *)
Lemma level_small i1 :
  (forall e, descend m cr3 [i4; i3; i2; i1] <> Some (Huge e)) ->
  leaf_ext (descend m cr3 [i4; i3; i2; i1]) (descend m2 cr3 [i4; i3; i2; i1]) -> huge (entry m2 pd i2) = false.
Proof using Type*.
  intros Hnh E. pose proof level_kept as K2.
  destruct (huge (entry m2 pd i2)) eqn:Hh; [exfalso|done]. apply (Hnh (entry m2 pd i2)).
  destruct E as [<-|[_ Hs]].
  - rewrite descend_step, K2, (en_addr En1), descend_step, (en_addr En2);
      rewrite ?K2, ?(en_present En1), ?(en_present En2); [|done..].
    cbn [descend length Nat.eqb]. by rewrite Hh.
  - rewrite descend_step, K2, (en_addr En1), descend_step, (en_addr En2) in Hs;
      rewrite ?K2, ?(en_present En1), ?(en_present En2); [|done..].
    cbn [descend length Nat.eqb] in Hs. by rewrite Hh in Hs.
Qed.

Context (En3 : ensured cr3 st2 st3 m2 m3 path2 path3 pd i2 [i4; i3] pt).

(** Where the tables above the last are not changed, the address leads to the last one. *)
Lemma level_descend m' i1 :
  (forall p pp j, path3 !! p = Some pp -> 0 <= j < 512 -> (length pp < 3)%nat -> entry m' p j = entry m3 p j) ->
  descend m' cr3 [i4; i3; i2; i1] = Some (Small (entry m' pt i1)).
Proof using Type*.
  intros Hm'. assert (path2 !! pdp = Some [i4]) as Hpdp
    by (eapply lookup_weaken; [apply (en_next En1)|apply (en_path En2)]).
  assert (entry m' cr3 i4 = entry m1 cr3 i4) as K.
  { rewrite (Hm' cr3 []) by (done || (simpl; lia) || apply (wf_root (en_wf En3))).
    rewrite <- level_kept. eapply (ensured_keep cr3 []);
      [done|apply (en_next En2)|apply (wf_root (en_wf En2))|done|done]. }
  assert (entry m' pdp i3 = entry m2 pdp i3) as K3.
  { rewrite (Hm' pdp [i4]); [|by eapply lookup_weaken, (en_path En3)|done|simpl; lia].
    eapply (ensured_keep pdp [i4]); [done|apply (en_next En2)|done..]. }
  assert (entry m' pd i2 = entry m3 pd i2) as K4.
  { apply (Hm' pd [i4; i3]); [|done|simpl; lia].
    eapply lookup_weaken; [apply (en_next En2)|apply (en_path En3)]. }
  rewrite descend_step, K, (en_addr En1), descend_step, K3, (en_addr En2), descend_step, K4,
    (en_addr En3);
    rewrite ?K, ?K3, ?K4, ?(en_present En1), ?(en_present En2), ?(en_present En3);
    try done. by intros _; apply (en_huge En3).
Qed.

(** The pages that became tables are new, and nothing else has changed. *)
Lemma level_frame :
  (forall p pp, path3 !! p = Some pp -> path !! p = Some pp \/ next_free_page st <= p) /\
  forall a, outside_tables path a -> a < next_free_page st -> load m3 a = load m a.
Proof using En1 En2 En3.
  pose proof (en_alloc En1) as A1. pose proof (en_alloc En2) as A2. split.
  - intros p pp Hp. destruct (en_new En3 p pp Hp) as [Hp2|?]; [|right; lia].
    destruct (en_new En2 p pp Hp2) as [Hp1|?]; [|right; lia]. by apply (en_new En1).
  - intros a Ha Hlt. assert (outside_tables path1 a) as Ha1.
    { intros p pp Hp. destruct (en_new En1 p pp Hp) as [Hp0|?]; [by eapply Ha|left; lia]. }
    assert (outside_tables path2 a) as Ha2.
    { intros p pp Hp. destruct (en_new En2 p pp Hp) as [Hp1|?]; [by eapply Ha1|left; lia]. }
    rewrite (en_keep En3), (en_keep En2), (en_keep En1) by (done || lia). done.
Qed.
End levels.

(** What the three "ensure" steps of [mmu_map_page] reach: the level-1 table
    of the address. *)
Lemma ensure_path cr3 st m path va f :
  pt_wf cr3 (next_free_page st) m path -> next_free_page st mod 4096 = 0 ->
  next_free_page st + 3 * 4096 < 2 ^ 64 -> flags_ok f ->
  (forall e, walk cr3 m va <> Some (Huge e)) ->
  exists st1 m1 pdp st2 m2 pd st3 m3 pt path',
    ensure_table st m cr3 (pml4_idx va) f = (st1, m1, pdp) /\
    ensure_table st1 m1 pdp (pdp_idx va) f = (st2, m2, pd) /\
    huge (entry m2 pd (pd_idx va)) = false /\
    ensure_table st2 m2 pd (pd_idx va) f = (st3, m3, pt) /\
    pt_wf cr3 (next_free_page st3) m3 path' /\ path ⊆ path' /\
    next_free_page st3 mod 4096 = 0 /\
    next_free_page st <= next_free_page st3 <= next_free_page st + 3 * 4096 /\
    path' !! pt = Some [pml4_idx va; pdp_idx va; pd_idx va] /\
    (forall m', (forall p pp j, path' !! p = Some pp -> 0 <= j < 512 -> (length pp < 3)%nat ->
       entry m' p j = entry m3 p j) ->
     descend m' cr3 (va_indices va) = Some (Small (entry m' pt (pt_idx va)))) /\
    (forall va', leaf_ext (descend m cr3 (va_indices va')) (descend m3 cr3 (va_indices va'))) /\
    (forall p pp, path' !! p = Some pp -> path !! p = Some pp \/ next_free_page st <= p) /\
    (forall a, outside_tables path a -> a < next_free_page st -> load m3 a = load m a).
Proof.
  intros Hwf Hal Hnf Hf Hnh. unfold PAGE_SIZE in *.
  set (i4 := pml4_idx va). set (i3 := pdp_idx va). set (i2 := pd_idx va).
  assert (0 <= i4 < 512 /\ 0 <= i3 < 512 /\ 0 <= i2 < 512) as (Hi4 & Hi3 & Hi2)
    by (split_and!; apply idx_range).
  pose proof (va_indices_range va) as Hr.
  assert (forall va', leaf_ext (descend m cr3 (va_indices va')) (descend m cr3 (va_indices va')))
    as E0 by (by left).
  destruct (ensure_table_spec cr3 st m path cr3 i4 [] f) as (st1 & m1 & pdp & path1 & H1 & En1);
    [done|done|lia|done|apply (wf_root Hwf)|simpl; lia|done|done|].
  pose proof (ensured_descend _ _ _ _ _ _ _ _ _ _ _ Hwf En1 (wf_root Hwf)
    ltac:(simpl; lia) Hi4 ltac:(done)) as D1.
  pose proof (en_alloc En1) as A1.
  destruct (ensure_table_spec cr3 st1 m1 path1 pdp i3 [i4] f)
    as (st2 & m2 & pd & path2 & H2 & En2);
    [apply (en_wf En1)|apply (en_align En1)|lia|done|apply (en_next En1)|simpl; lia|done|done|].
  pose proof (ensured_descend _ _ _ _ _ _ _ _ _ _ _ (en_wf En1) En2 (en_next En1)
    ltac:(simpl; lia) Hi3 ltac:(done)) as D2.
  pose proof (en_alloc En2) as A2.
  assert (forall va', leaf_ext (descend m cr3 (va_indices va')) (descend m2 cr3 (va_indices va')))
    as E2.
  { intros va'. eapply leaf_ext_trans.
    - eapply (D1 _ cr3 []); [apply (wf_root Hwf)|done|done|apply va_indices_range].
    - eapply (D2 _ cr3 []); [apply (wf_root (en_wf En1))|done|done|apply va_indices_range]. }
  assert (huge (entry m2 pd i2) = false) as Hh.
  { apply (level_small Hi4 Hi3 Hi2 En1 En2 (pt_idx va)); [|exact (E2 va)].
    intros e. pose proof (Hnh e) as Hne. rewrite walk_descend in Hne. exact Hne. }
  destruct (ensure_table_spec cr3 st2 m2 path2 pd i2 [i4; i3] f)
    as (st3 & m3 & pt & path3 & H3 & En3);
    [apply (en_wf En2)|apply (en_align En2)|lia|done|apply (en_next En2)|simpl; lia|done|done|].
  pose proof (ensured_descend _ _ _ _ _ _ _ _ _ _ _ (en_wf En2) En3 (en_next En2)
    ltac:(simpl; lia) Hi2 ltac:(done)) as D3.
  pose proof (en_alloc En3) as A3.
  exists st1, m1, pdp, st2, m2, pd, st3, m3, pt, path3.
  split_and!; try done; try lia.
  - apply (en_wf En3).
  - etrans; [apply (en_path En1)|]. etrans; [apply (en_path En2)|apply (en_path En3)].
  - apply (en_align En3).
  - apply (en_next En3).
  - intros m' Hm'. exact (level_descend Hi4 Hi3 Hi2 En1 En2 En3 m' (pt_idx va) Hm').
  - intros va'. eapply leaf_ext_trans; [apply E2|].
    eapply (D3 _ cr3 []); [apply (wf_root (en_wf En2))|done|done|apply va_indices_range].
  - apply (level_frame En1 En2 En3).
  - apply (level_frame En1 En2 En3).
Qed.

(** An address that the path of [va] does not lead to. *)
Lemma set_leaf_walk cr3 nf m path pt v pi va va' :
  pt_wf cr3 nf m path -> path !! pt = Some pi ->
  pi ++ [pt_idx va] = va_indices va -> va_indices va' <> va_indices va ->
  walk cr3 (set_entry m pt (pt_idx va) v) va' = walk cr3 m va'.
Proof.
  intros Hwf Hpt Hpi Hne. rewrite !walk_descend.
  apply (f_equal length) in Hpi as Hl. rewrite length_app in Hl. simpl in Hl.
  rewrite (set_leaf_descend cr3 nf m path pt (pt_idx va) v pi Hwf Hpt ltac:(lia)
    (idx_range _ _) _ _ [] (wf_root Hwf)); [done|done|done|apply va_indices_range|by rewrite Hpi].
Qed.

Lemma set_leaf_translate cr3 nf m path pt v pi va va' :
  pt_wf cr3 nf m path -> path !! pt = Some pi ->
  pi ++ [pt_idx va] = va_indices va -> va_indices va' <> va_indices va ->
  translate cr3 (set_entry m pt (pt_idx va) v) va' = translate cr3 m va'.
Proof.
  intros. unfold translate. by erewrite set_leaf_walk.
Qed.

(** Mapping, for an address that no huge page covers. *)
Lemma map_page_spec cr3 st m path phys va f :
  pt_wf cr3 (next_free_page st) m path -> next_free_page st mod 4096 = 0 ->
  next_free_page st + 3 * 4096 < 2 ^ 64 -> flags_ok f ->
  phys mod 4096 = 0 -> 0 <= phys < 2 ^ 64 -> 0x400000 <= va ->
  (forall e, walk cr3 m va <> Some (Huge e)) ->
  let '(st', m') := mmu_map_page cr3 st m phys va f in
  (exists path', pt_wf cr3 (next_free_page st') m' path' /\ path ⊆ path' /\
     forall p pp, path' !! p = Some pp -> path !! p = Some pp \/ next_free_page st <= p) /\
  next_free_page st' mod 4096 = 0 /\
  next_free_page st <= next_free_page st' <= next_free_page st + 3 * 4096 /\
  walk cr3 m' va = Some (Small (phys .| f)) /\
  (forall va', va_indices va' <> va_indices va -> leaf_ext (walk cr3 m va') (walk cr3 m' va')) /\
  (forall a, outside_tables path a -> a < next_free_page st -> load m' a = load m a).
Proof.
  intros Hwf Hal Hnf Hf Hpa Hpr Hva Hnh.
  destruct (ensure_path cr3 st m path va f)
    as (st1 & m1 & pdp & st2 & m2 & pd & st3 & m3 & pt & path' & H1 & H2 & Hh & H3 & Hwf' &
        Hsub & Hal' & Hnf' & Hpt & Hdesc & Hext & Hnew & Hkeep); [done..|].
  unfold mmu_map_page. decide_lia. rewrite H1, H2. change (tst ?e PAGE_HUGE) with (huge e).
  rewrite Hh, H3.
  assert (0 <= phys .| f < 2 ^ 64) by (apply new_entry_range; [done..|apply Hf]).
  split_and!; try done; try lia.
  - exists path'. split; [|by split]. eapply set_leaf_wf; [apply Hwf'|apply Hpt|done|apply idx_range].
  - rewrite walk_descend, Hdesc; [by rewrite entry_set_eq|].
    intros p pp j Hp Hj Hl. eapply set_leaf_other; try done; [apply idx_range|].
    intros [= -> ->]. rewrite Hp in Hpt. injection Hpt as ->. simpl in Hl. lia.
  - intros va' Hne. rewrite (set_leaf_walk cr3 _ m3 path' pt _ _ va va' Hwf' Hpt) by done.
    rewrite !walk_descend. apply Hext.
  - intros a Ha Hlt. rewrite (set_entry_keep m3 pt _ _ path' _ a Hpt); [by apply Hkeep|apply idx_range|].
    intros p pp Hp. destruct (Hnew p pp Hp) as [Hp0|?]; [by eapply Ha|left; lia].
Qed.

(** ** Properties *)

(** C11. Mapping a page-aligned frame at an address from 4 MiB up that no huge
    page covers, with present, non-huge flags: afterwards the processor
    translates every address of that page to the frame, [mmu_is_mapped]
    answers 1, every address of another page translates as before, the table
    structure is still well formed, and at most three table pages were
    allocated. *)
Theorem mmu_map_page_correct cr3 st m path phys va f :
  pt_wf cr3 (next_free_page st) m path -> next_free_page st mod 4096 = 0 ->
  next_free_page st + 3 * 4096 < 2 ^ 64 -> flags_ok f ->
  phys mod 4096 = 0 -> 0 <= phys < 2 ^ 64 -> 0x400000 <= va ->
  (forall e, walk cr3 m va <> Some (Huge e)) ->
  let '(st', m') := mmu_map_page cr3 st m phys va f in
  (exists path', pt_wf cr3 (next_free_page st') m' path' /\ path ⊆ path') /\
  next_free_page st <= next_free_page st' <= next_free_page st + 3 * 4096 /\
  translate cr3 m' va = Some (phys + va mod 4096) /\
  mmu_is_mapped cr3 m' va = 1 /\
  (forall va', va_indices va' <> va_indices va -> translate cr3 m' va' = translate cr3 m va').
Proof.
  intros Hwf Hal Hnf Hf Hpa Hpr Hva Hnh.
  pose proof (map_page_spec cr3 st m path phys va f Hwf Hal Hnf Hf Hpa Hpr Hva Hnh) as Hs.
  destruct (mmu_map_page cr3 st m phys va f) as [st' m'].
  destruct Hs as ((path' & ? & ? & _) & ? & ? & Hw & Hext & _). destruct Hf as (Hf & Hfp & _).
  split_and!; try lia; [by exists path'|..].
  - unfold translate. rewrite Hw, new_entry_present, Hfp by done.
    by rewrite new_entry_addr.
  - rewrite is_mapped_walk, Hw, new_entry_present by done. by rewrite Hfp.
  - intros va' Hne. apply (leaf_ext_addr va'), Hext, Hne.
Qed.

(** An address below 4 MiB and an address a huge page covers are left
    alone: [mmu_map_page] changes no translation for them (it only may have
    created nothing), the page allocator and the memory are the same. *)
Theorem mmu_map_page_skips cr3 st m phys va f :
  va < 0x400000 \/ (exists e, walk cr3 m va = Some (Huge e)) ->
  mmu_map_page cr3 st m phys va f = (st, m).
Proof.
  unfold mmu_map_page. intros [Hlo|[e Hw]]; [by decide_lia|].
  case_match; [done|]. unfold walk in Hw. unfold ensure_table.
  change (tst ?e PAGE_PRESENT) with (present e). change (tst ?e PAGE_HUGE) with (huge e).
  repeat (case_match; simplify_eq; try done).
Qed.

(** The tables a walk goes through when it ends in a level-1 entry. *)
Record walked (cr3 : Z) (m : mem) (path : gmap Z (list Z)) (va e pdp pd pt : Z) : Prop := {
  wk_pdp : present (entry m cr3 (pml4_idx va)) = true /\ entry_addr (entry m cr3 (pml4_idx va)) = pdp;
  wk_pd : present (entry m pdp (pdp_idx va)) = true /\ entry_addr (entry m pdp (pdp_idx va)) = pd;
  wk_huge : huge (entry m pd (pd_idx va)) = false;
  wk_pt : present (entry m pd (pd_idx va)) = true /\ entry_addr (entry m pd (pd_idx va)) = pt;
  wk_leaf : entry m pt (pt_idx va) = e;
  wk_path3 : path !! pdp = Some [pml4_idx va];
  wk_path2 : path !! pd = Some [pml4_idx va; pdp_idx va];
  wk_path1 : path !! pt = Some [pml4_idx va; pdp_idx va; pd_idx va];
}.

Lemma walk_walked {cr3 nf m path va e} :
  pt_wf cr3 nf m path -> walk cr3 m va = Some (Small e) ->
  exists pdp pd pt, walked cr3 m path va e pdp pd pt.
Proof.
  unfold walk. intros Hwf Hw. set (i4 := pml4_idx va) in *. set (i3 := pdp_idx va) in *.
  set (i2 := pd_idx va) in *.
  assert (0 <= i4 < 512 /\ 0 <= i3 < 512 /\ 0 <= i2 < 512) as (Hi4 & Hi3 & Hi2)
    by (split_and!; apply idx_range).
  destruct (present (entry m cr3 i4)) eqn:P4; [|done].
  set (pdp := entry_addr (entry m cr3 i4)) in *.
  destruct (present (entry m pdp i3)) eqn:P3; [|done].
  set (pd := entry_addr (entry m pdp i3)) in *.
  destruct (huge (entry m pd i2)) eqn:Hh; [done|].
  destruct (present (entry m pd i2)) eqn:P2; [|done].
  assert (path !! pdp = Some [i4]) as Q3
    by (apply (wf_entry Hwf cr3 [] i4 (wf_root Hwf)); [simpl; lia|done..]).
  assert (path !! pd = Some [i4; i3]) as Q2
    by (apply (wf_entry Hwf pdp [i4] i3 Q3); [simpl; lia|done..]).
  eexists pdp, pd, _. split; try done.
  - by injection Hw.
  - apply (wf_entry Hwf pd [i4; i3] i2 Q2); [simpl; lia|done..].
Qed.

Section clear_leaf.
Context (cr3 nf : Z) (m : mem) (path : gmap Z (list Z)) (va e pdp pd pt : Z).
Context (Hwf : pt_wf cr3 nf m path) (Hk : walked cr3 m path va e pdp pd pt).

Lemma clear_leaf_other p pp j :
  path !! p = Some pp -> (length pp < 3)%nat -> 0 <= j < 512 ->
  entry (set_entry m pt (pt_idx va) 0) p j = entry m p j.
Proof.
  intros Hp Hl Hj. pose proof (wk_path1 _ _ _ _ _ _ _ _ Hk) as Hpt.
  apply (set_leaf_other cr3 nf m path pt (pt_idx va) 0 _ Hwf Hpt (idx_range _ _) p pp j);
    [done..|].
  intros [= -> ->]. rewrite Hp in Hpt. injection Hpt as ->. simpl in Hl. lia.
Qed.

Lemma clear_leaf_walk : walk cr3 (set_entry m pt (pt_idx va) 0) va = Some (Small 0).
Proof.
  pose proof clear_leaf_other as Ho. destruct Hk as [[P4 A4] [P3 A3] Hh [P2 A2] He Q3 Q2 Q1].
  unfold walk.
  rewrite (Ho cr3 []) by (apply (wf_root Hwf) || apply idx_range || (simpl; lia)).
  rewrite P4, A4. cbn [negb].
  rewrite (Ho pdp [pml4_idx va]) by (apply Q3 || apply idx_range || (simpl; lia)).
  rewrite P3, A3. cbn [negb].
  rewrite (Ho pd [pml4_idx va; pdp_idx va]) by (apply Q2 || apply idx_range || (simpl; lia)).
  rewrite Hh, P2, A2. cbn [negb]. by rewrite entry_set_eq by lia.
Qed.
End clear_leaf.

Lemma unmap_walked m path va e pdp pd pt :
  walked 0x1000 m path va e pdp pd pt -> mmu_unmap_page m va = set_entry m pt (pt_idx va) 0.
Proof.
  intros [[P4 A4] [P3 A3] _ [P2 A2] _ _ _ _].
  unfold mmu_unmap_page. change (tst ?e PAGE_PRESENT) with (present e).
  rewrite P4, A4. cbn [negb]. rewrite P3, A3. cbn [negb]. by rewrite P2, A2.
Qed.

(** Unmapping an address that no huge page covers. *)
Lemma unmap_page_spec nf m path va :
  pt_wf 0x1000 nf m path -> (forall e, walk 0x1000 m va <> Some (Huge e)) ->
  let m' := mmu_unmap_page m va in
  pt_wf 0x1000 nf m' path /\
  (walk 0x1000 m' va = None \/ walk 0x1000 m' va = Some (Small 0)) /\
  (forall va', va_indices va' <> va_indices va -> walk 0x1000 m' va' = walk 0x1000 m va') /\
  (forall a, outside_tables path a -> load m' a = load m a).
Proof.
  intros Hwf Hnh. cbv zeta. destruct (walk 0x1000 m va) as [[e|e]|] eqn:Hw; [by destruct (Hnh e)| |].
  - destruct (walk_walked Hwf Hw) as (pdp & pd & pt & Hk).
    rewrite (unmap_walked _ _ _ _ _ _ _ Hk). pose proof (wk_path1 _ _ _ _ _ _ _ _ Hk) as Hpt.
    split_and!.
    + by apply (set_leaf_wf 0x1000 nf m path pt (pt_idx va) 0 _ Hwf Hpt eq_refl (idx_range _ _)).
    + right. apply (clear_leaf_walk _ _ _ _ _ _ _ _ _ Hwf Hk).
    + intros va' Hne. by apply (set_leaf_walk 0x1000 nf m path pt _ _ va va' Hwf Hpt).
    + intros a. apply (set_entry_keep m pt _ 0 path _ a Hpt), idx_range.
  - assert (mmu_unmap_page m va = m) as ->; [|split_and!; by auto].
    unfold walk in Hw. unfold mmu_unmap_page. change (tst ?e PAGE_PRESENT) with (present e).
    repeat (case_match; simplify_eq; try done).
Qed.

(** [mmu_unmap_page] takes the tables at 0x1000, whatever CR3 holds. In tables rooted
    there, unmapping an address that a 4 KiB
    page covers removes exactly that page: the address does not translate any
    more, every address of another page translates as before, and the tables
    stay well formed. *)
Theorem mmu_unmap_page_correct nf m path va e :
  pt_wf 0x1000 nf m path -> walk 0x1000 m va = Some (Small e) ->
  let m' := mmu_unmap_page m va in
  pt_wf 0x1000 nf m' path /\ translate 0x1000 m' va = None /\ mmu_is_mapped 0x1000 m' va = 0 /\
  (forall va', va_indices va' <> va_indices va ->
     translate 0x1000 m' va' = translate 0x1000 m va').
Proof.
  intros Hwf Hw. cbv zeta.
  destruct (unmap_page_spec nf m path va Hwf) as (Hwf' & Hva & Ho & _); [by rewrite Hw|].
  split_and!; [done| | |].
  - unfold translate. by destruct Hva as [-> | ->].
  - rewrite is_mapped_walk. by destruct Hva as [-> | ->].
  - intros va' Hne. unfold translate. by rewrite Ho.
Qed.

(** An address that a 2 MiB page covers, with the level-4 table at
    0x1000 and the page's frame apart from the tables of the walk: unmapping
    takes the frame for a level-1 table, clears eight bytes of the data in it,
    and the address stays mapped to the same place. *)
Theorem mmu_unmap_page_huge m va e :
  let pdp := entry_addr (entry m 0x1000 (pml4_idx va)) in
  let pd := entry_addr (entry m pdp (pdp_idx va)) in
  walk 0x1000 m va = Some (Huge e) -> present e = true ->
  Forall (fun t => t + 4096 <= entry_addr e \/ entry_addr e + 4096 <= t) [0x1000; pdp; pd] ->
  mmu_unmap_page m va = store64 m (entry_addr e + 8 * pt_idx va) 0 /\
  translate 0x1000 (mmu_unmap_page m va) va = translate 0x1000 m va.
Proof.
  intros pdp pd Hw Hp Hd. set (m' := store64 m (entry_addr e + 8 * pt_idx va) 0).
  assert (forall t i, t + 4096 <= entry_addr e \/ entry_addr e + 4096 <= t ->
    0 <= i < 512 -> entry m' t i = entry m t i) as Ho.
  { intros t i Ht Hi. unfold entry. eapply load64_changes; [apply store64_changes|].
    pose proof (idx_range va 12). fold (pt_idx va) in *. lia. }
  inversion_clear Hd as [|?? Hd4 Hd']. inversion_clear Hd' as [|?? Hd3 Hd''].
  inversion_clear Hd'' as [|?? Hd2 _].
  assert (mmu_unmap_page m va = m') as Hm; [|split; [done|rewrite Hm; unfold translate; f_equal]];
    unfold walk in Hw |- *; unfold mmu_unmap_page; change (tst ?e PAGE_PRESENT) with (present e).
  - destruct (present (entry m 0x1000 _)); [|done]. cbn [negb] in *. fold pdp in Hw |- *.
    destruct (present (entry m pdp _)); [|done]. cbn [negb] in *. fold pd in Hw |- *.
    destruct (huge (entry m pd _)); [|by destruct (present (entry m pd _))].
    injection Hw as ->. by rewrite Hp.
  - rewrite (Ho 0x1000) by (done || apply idx_range). fold pdp.
    rewrite (Ho pdp) by (done || apply idx_range). fold pd.
    rewrite (Ho pd) by (done || apply idx_range).
    destruct (present (entry m 0x1000 _)); [|done]. cbn [negb] in *. fold pdp in Hw |- *.
    destruct (present (entry m pdp _)); [|done]. cbn [negb] in *. fold pd in Hw |- *.
    destruct (huge (entry m pd _)); [done|]. by destruct (present (entry m pd _)).
Qed.

(** ** Concrete inputs *)

Definition w_path : gmap Z (list Z) := {[0x1000 := []]}.

(** Tables with 0x40000000 mapped to 0x700000 by a 4 KiB page. *)
Definition w_tables (cr3 : Z) : mem :=
  snd (mmu_map_page cr3 mmu_initial ∅ 0x700000 0x40000000 3).

(** The level-2 table has a 2 MiB page for 0x200000, as the boot loader maps it. *)
Definition w_huge : mem :=
  store64 (store64 (store64 ∅ 0x1000 0x2003) 0x2000 0x3003) 0x3008 0x200083.

Lemma entry_empty p i : entry ∅ p i = 0.
Proof. apply load64_zero. intros. apply load_empty. Qed.

Lemma w_wf : pt_wf 0x1000 (next_free_page mmu_initial) ∅ w_path.
Proof.
  split.
  - reflexivity.
  - unfold w_path. intros p pi [<- <-]%lookup_singleton_Some. split; [reflexivity|]. simpl. lia.
  - intros p pi i _ _ _. by rewrite entry_empty.
Qed.

Lemma w_no_huge va e : walk 0x1000 ∅ va <> Some (Huge e).
Proof. unfold walk. by rewrite entry_empty. Qed.

Lemma w_tables_walk : walk 0x1000 (w_tables 0x1000) 0x40000000 = Some (Small 0x700003).
Proof. vm_compute. reflexivity. Qed.

Lemma w_tables_wf : exists nf path, pt_wf 0x1000 nf (w_tables 0x1000) path.
Proof.
  pose proof (map_page_spec 0x1000 mmu_initial ∅ w_path 0x700000 0x40000000 3 w_wf) as H.
  unfold w_tables. destruct (mmu_map_page _ _ _ _ _ _) as [st' m'].
  destruct H as ((path & ? & _) & _); [reflexivity|simpl; lia| |reflexivity|lia..| |by eauto].
  - split_and!; [lia|lia|reflexivity..].
  - apply w_no_huge.
Qed.

Lemma mmu_map_page_correct_witness :
  translate 0x1000 (w_tables 0x1000) 0x40000000 = Some (0x700000 + 0x40000000 mod 4096) /\
  mmu_is_mapped 0x1000 (w_tables 0x1000) 0x40000000 = 1.
Proof.
  pose proof (mmu_map_page_correct 0x1000 mmu_initial ∅ w_path 0x700000 0x40000000 3
    w_wf eq_refl ltac:(simpl; lia) ltac:(split_and!; [lia|lia|reflexivity..])
    eq_refl ltac:(lia) ltac:(lia) (w_no_huge _)) as H.
  unfold w_tables. destruct (mmu_map_page _ _ _ _ _ _). split; apply H.
Defined.

Lemma mmu_map_page_skips_witness :
  mmu_map_page 0x1000 mmu_initial w_huge 0x700000 0x200000 3 = (mmu_initial, w_huge).
Proof. apply mmu_map_page_skips. left. lia. Defined.

Lemma mmu_unmap_page_correct_witness :
  translate 0x1000 (w_tables 0x1000) 0x40000000 = Some 0x700000 /\
  translate 0x1000 (mmu_unmap_page (w_tables 0x1000) 0x40000000) 0x40000000 = None.
Proof.
  split; [vm_compute; reflexivity|]. destruct w_tables_wf as (nf & path & Hwf).
  apply (mmu_unmap_page_correct nf _ path _ _ Hwf w_tables_walk).
Defined.

Lemma mmu_unmap_page_huge_witness :
  translate 0x1000 w_huge 0x200000 = Some 0x200000 /\
  mmu_unmap_page w_huge 0x200000 = store64 w_huge 0x200000 0.
Proof.
  split; [vm_compute; reflexivity|].
  apply (mmu_unmap_page_huge w_huge 0x200000 0x200083); [vm_compute; reflexivity..|].
  repeat constructor; vm_compute; intuition congruence.
Defined.

(** With the tables elsewhere than at 0x1000, unmapping what was mapped has
    no effect. *)
Lemma mmu_unmap_page_ignores_cr3 :
  let m := w_tables 0x2000 in
  mmu_is_mapped 0x2000 m 0x40000000 = 1 /\ mmu_unmap_page m 0x40000000 = m.
Proof.
  cbv zeta. split; [vm_compute; reflexivity|]. unfold mmu_unmap_page.
  assert (tst (entry (w_tables 0x2000) 0x1000 (pml4_idx 0x40000000)) PAGE_PRESENT = false)
    as -> by (vm_compute; reflexivity).
  reflexivity.
Qed.
