(* ===== verification/AddressSpace.v ===== *)
(** * Address spaces: any sequence of mappings (src/impl/kernel/mmu.c)

    What the paging functions promise to the code that uses them, over any
    sequence of calls whose choice may depend on the answers so far. The
    specification knows neither tables nor entries: it is a map from page
    numbers to frames over the translation there was at the start, and the
    bytes of the pages handed out by the page allocator. [legal] is the
    caller's side of the contract, [promised] the other, [after] the
    specification's state after a call; [session] is the relation of the states
    that calls of Mmu.v reach. The tables are anywhere, but [mmu_unmap_page]
    may be called only when they are where it has them as a constant (see
    [mmu_unmap_page_ignores_cr3]). *)
From S2P Require Export Mmu.

(** ** The specification *)

(** The number of the page of a 48-bit virtual address. *)
Definition page_number (va : Z) : Z := (va / 4096) mod 2 ^ 36.

(** [sp_map]: the pages mapped or unmapped since the start; [sp_held]: the
    pages handed out, with the bytes written to each. *)
Record space := MkSpace { sp_map : gmap Z (option Z); sp_held : gmap Z (gmap Z Z) }.

Definition space_start : space := MkSpace ∅ ∅.

Inductive request :=
  | MapPage (phys va flags : Z)
  | UnmapPage (va : Z)
  | IsMapped (va : Z)
  | AllocPage
  | WriteByte (page off c : Z)
  | ReadByte (page off : Z).

(** What [A] says of an address, [old] being the translation at the start. *)
Definition translation (old : Z -> option Z) (A : space) (va : Z) : option Z :=
  match sp_map A !! page_number va with
  | Some frame => (fun phys => phys + va mod 4096) <$> frame
  | None => old va
  end.

Definition in_page (A : space) (page off : Z) : Prop := is_Some (sp_held A !! page) /\ 0 <= off < 4096.

Definition promised (old : Z -> option Z) (A : space) (r : request) (v : Z) : Prop :=
  match r with
  | IsMapped va => v = Z.b2z (bool_decide (is_Some (translation old A va)))
  | AllocPage => v mod 4096 = 0 /\ sp_held A !! v = None
  | ReadByte page off => forall w, sp_held A !! page = Some w -> v = default 0 (w !! off)
  | MapPage _ _ _ | UnmapPage _ | WriteByte _ _ _ => True
  end.

Definition after (A : space) (r : request) (v : Z) : space :=
  match r with
  | MapPage phys va _ => MkSpace (<[page_number va := Some phys]> (sp_map A)) (sp_held A)
  | UnmapPage va => MkSpace (<[page_number va := None]> (sp_map A)) (sp_held A)
  | AllocPage => MkSpace (sp_map A) (<[v := ∅]> (sp_held A))
  | WriteByte page off c => MkSpace (sp_map A) (alter <[off := u8 c]> page (sp_held A))
  | IsMapped _ | ReadByte _ _ => A
  end.

(** ** The calls *)

(** [cr3]: the address of the level-4 table. *)
Section tables.
Variable cr3 : Z.

Definition serve (r : request) (s : Mmu * mem) : Z * (Mmu * mem) :=
  let '(st, m) := s in
  match r with
  | MapPage phys va flags => (0, mmu_map_page cr3 st m phys va flags)
  | UnmapPage va => (0, (st, mmu_unmap_page m va))
  | IsMapped va => (mmu_is_mapped cr3 m va, s)
  | AllocPage => let '(page, st, m) := mmu_alloc_page st m in (page, (st, m))
  | WriteByte page off c => (0, (st, store m (page + off) c))
  | ReadByte page off => (load m (page + off), s)
  end.

Section sessions.
Variable m0 : mem.

(** No 2 MiB page covers [va] at the start. *)
Definition small_pages (va : Z) : Prop := forall e, walk cr3 m0 va <> Some (Huge e).

Definition legal (A : space) (r : request) : Prop :=
  match r with
  | MapPage phys va flags =>
      phys mod 4096 = 0 /\ 0 <= phys < 2 ^ 64 /\ 0x400000 <= va /\ flags_ok flags /\ small_pages va
  | UnmapPage va => cr3 = 0x1000 /\ small_pages va
  | IsMapped va => small_pages va
  | AllocPage => True
  | WriteByte page off _ | ReadByte page off => in_page A page off
  end.

Inductive session (st0 : Mmu) : nat -> Mmu * mem -> space -> Prop :=
  | session_start : session st0 0 (st0, m0) space_start
  | session_call n s A r :
      session st0 n s A -> legal A r ->
      session st0 (S n) (serve r s).2 (after A r (serve r s).1).
End sessions.

(** ** Pages *)

Lemma page_number_indices va :
  page_number va = pml4_idx va * 2 ^ 27 + pdp_idx va * 2 ^ 18 + pd_idx va * 2 ^ 9 + pt_idx va.
Proof.
  unfold page_number, pml4_idx, pdp_idx, pd_idx, pt_idx. change 0x1FF with (Z.ones 9).
  rewrite !Z.land_ones, !Z.shiftr_div_pow2 by lia. change 4096 with (2 ^ 12).
  set (p := va / 2 ^ 12).
  replace (va / 2 ^ 21) with (p / 2 ^ 9) by (unfold p; rewrite Z.div_div by lia; f_equal; lia).
  replace (va / 2 ^ 30) with (p / 2 ^ 9 / 2 ^ 9) by (unfold p; rewrite !Z.div_div by lia; f_equal; lia).
  replace (va / 2 ^ 39) with (p / 2 ^ 9 / 2 ^ 9 / 2 ^ 9) by (unfold p; rewrite !Z.div_div by lia; f_equal; lia).
  change (2 ^ 36) with (2 ^ 9 * (2 ^ 9 * (2 ^ 9 * 2 ^ 9))). rewrite !Z.rem_mul_r by lia. lia.
Qed.

Lemma same_page va va' : page_number va = page_number va' <-> va_indices va = va_indices va'.
Proof.
  rewrite !page_number_indices. unfold va_indices. split.
  - intros E. pose proof (idx_range va 39). pose proof (idx_range va 30). pose proof (idx_range va 21).
    pose proof (idx_range va 12). pose proof (idx_range va' 39). pose proof (idx_range va' 30).
    pose proof (idx_range va' 21). pose proof (idx_range va' 12).
    fold (pml4_idx va) (pdp_idx va) (pd_idx va) (pt_idx va) in *.
    fold (pml4_idx va') (pdp_idx va') (pd_idx va') (pt_idx va') in *.
    assert (pml4_idx va = pml4_idx va' /\ pdp_idx va = pdp_idx va' /\ pd_idx va = pd_idx va' /\
      pt_idx va = pt_idx va') as (-> & -> & -> & ->) by lia. done.
  - by intros [= -> -> -> ->].
Qed.

Lemma walk_same_page m va va' : page_number va = page_number va' -> walk cr3 m va = walk cr3 m va'.
Proof. intros E%same_page. by rewrite !walk_descend, E. Qed.

(** An address whose walk does not end in a huge page is mapped when it
    translates. *)
Lemma is_mapped_translate m va :
  (forall e, walk cr3 m va <> Some (Huge e)) ->
  mmu_is_mapped cr3 m va = Z.b2z (bool_decide (is_Some (translate cr3 m va))).
Proof.
  intros Hn. rewrite is_mapped_walk. unfold translate. destruct (walk cr3 m va) as [[e|e]|]; [by destruct (Hn e)| |done].
  by destruct (present e).
Qed.

(** ** The invariant *)

(** The page at [p] is none of the tables, and holds the bytes [w] over zeros. *)
Record held_page (nf0 nf : Z) (path : gmap Z (list Z)) (m : mem) (p : Z) (w : gmap Z Z) : Prop := {
  hp_align : p mod 4096 = 0;
  hp_range : nf0 <= p /\ p + 4096 <= nf;
  hp_table : path !! p = None;
  hp_bytes : forall off, 0 <= off < 4096 -> load m (p + off) = default 0 (w !! off);
}.
Arguments hp_align {_ _ _ _ _ _}.
Arguments hp_range {_ _ _ _ _ _}.
Arguments hp_table {_ _ _ _ _ _}.
Arguments hp_bytes {_ _ _ _ _ _}.

(** The state [s], after a start with the memory [m0] and the tables [path0],
    is what [A] says, and has room for [k] more calls. *)
Record models (nf0 : Z) (m0 : mem) (path0 : gmap Z (list Z)) (k : nat) (s : Mmu * mem) (A : space)
    (path : gmap Z (list Z)) : Prop := {
  mo_wf : pt_wf cr3 (next_free_page s.1) s.2 path;
  mo_align : next_free_page s.1 mod 4096 = 0;
  mo_room : nf0 <= next_free_page s.1 /\ next_free_page s.1 + 3 * 4096 * Z.of_nat k < 2 ^ 64;
  mo_new : forall p pp, path !! p = Some pp -> path0 !! p = Some pp \/ nf0 <= p;
  mo_map : forall va, translate cr3 s.2 va = translation (translate cr3 m0) A va;
  mo_huge : forall va, small_pages m0 va -> forall e, walk cr3 s.2 va <> Some (Huge e);
  mo_held : map_Forall (held_page nf0 (next_free_page s.1) path s.2) (sp_held A);
  mo_frame : forall a, outside_tables path0 a -> a < nf0 -> load s.2 a = load m0 a;
}.
Arguments mo_wf {_ _ _ _ _ _ _}.
Arguments mo_align {_ _ _ _ _ _ _}.
Arguments mo_room {_ _ _ _ _ _ _}.
Arguments mo_new {_ _ _ _ _ _ _}.
Arguments mo_map {_ _ _ _ _ _ _}.
Arguments mo_huge {_ _ _ _ _ _ _}.
Arguments mo_held {_ _ _ _ _ _ _}.
Arguments mo_frame {_ _ _ _ _ _ _}.

Section models.
Context (nf0 : Z) (m0 : mem) (path0 : gmap Z (list Z)).
#[local] Notation models := (models nf0 m0 path0).

(** No byte of a page handed out lies in a table. *)
Lemma held_outside nf path m p w off :
  pt_wf cr3 nf m path -> held_page nf0 nf path m p w -> 0 <= off < 4096 -> outside_tables path (p + off).
Proof.
  intros Hwf [Ha Hr Ht _] Ho q qi Hq. destruct (wf_page Hwf q qi Hq) as (Hqa & _).
  assert (q <> p) as Hne by (intros ->; congruence).
  apply Z.mod_divide in Ha as [i ->], Hqa as [j ->]; [|lia..]. lia.
Qed.

(** Nor a byte from before the start outside the first tables. *)
Lemma frame_outside path a :
  (forall p pp, path !! p = Some pp -> path0 !! p = Some pp \/ nf0 <= p) ->
  outside_tables path0 a -> a < nf0 -> outside_tables path a.
Proof. intros Hn Ho Ha p pp Hp. destruct (Hn p pp Hp) as [Hp0|?]; [by eapply Ho|lia]. Qed.

(** A table entry that answers for one page: the walks after a change of it. *)
Lemma map_update A old va frame :
  forall va', translation old (MkSpace (<[page_number va := frame]> (sp_map A)) (sp_held A)) va' =
    if decide (page_number va = page_number va') then (fun phys => phys + va' mod 4096) <$> frame
    else translation old A va'.
Proof.
  intros va'. unfold translation. cbn [sp_map]. case_decide as E.
  - by rewrite E, lookup_insert_eq.
  - by rewrite lookup_insert_ne.
Qed.

Lemma held_after nf nf' path path' m m' A :
  pt_wf cr3 nf m path -> nf <= nf' ->
  (forall p pp, path' !! p = Some pp -> path !! p = Some pp \/ nf <= p) ->
  (forall a, outside_tables path a -> a < nf -> load m' a = load m a) ->
  map_Forall (held_page nf0 nf path m) (sp_held A) -> map_Forall (held_page nf0 nf' path' m') (sp_held A).
Proof.
  intros Hwf Hle Hnew Hk Hh p w Hp. pose proof (Hh p w Hp) as Hq. pose proof Hq as [Ha Hr Ht Hb].
  split; [done|lia| |].
  - destruct (path' !! p) as [pp|] eqn:E; [|done]. destruct (Hnew p pp E); [congruence|lia].
  - intros off Ho. rewrite Hk; [by apply Hb|by eapply held_outside|lia].
Qed.

Lemma map_models k s A path phys va f :
  models (S k) s A path -> legal m0 A (MapPage phys va f) ->
  exists path', models k (serve (MapPage phys va f) s).2 (after A (MapPage phys va f) 0) path'.
Proof.
  destruct s as [st m]. intros Hm (Hp & Hpr & Hva & Hf & Hsm). pose proof Hm as [Hwf Hal [H0 Hroom] Hnew Hmap Hhuge Hheld Hfr].
  cbn [fst snd serve after] in *.
  pose proof (map_page_spec cr3 st m path phys va f Hwf Hal ltac:(lia) Hf Hp Hpr Hva (Hhuge va Hsm)) as Hs.
  destruct (mmu_map_page cr3 st m phys va f) as [st' m'].
  destruct Hs as ((path' & Hwf' & _ & Hnew') & Hal' & Hnf & Hw & Hext & Hk).
  exists path'. split; cbn [fst snd]; [done|done|lia| | | | |].
  - intros p pp Hp'. destruct (Hnew' p pp Hp') as [?|?]; [by apply Hnew|right; lia].
  - intros va'. rewrite map_update. case_decide as E.
    + unfold translate. rewrite <- (walk_same_page _ _ _ E), Hw. cbn [fmap option_fmap option_map].
      rewrite new_entry_present by (done || apply Hf). destruct Hf as (Hf & -> & _).
      by rewrite new_entry_addr.
    + rewrite <- Hmap. assert (va_indices va' <> va_indices va) as Hne by (intros Hi; apply E, same_page; congruence).
      apply (leaf_ext_addr va'), Hext, Hne.
  - intros va' Hs' e. destruct (decide (page_number va = page_number va')) as [E|E].
    + rewrite <- (walk_same_page _ _ _ E), Hw. done.
    + assert (va_indices va' <> va_indices va) as Hne by (intros Hi; apply E, same_page; congruence).
      destruct (Hext va' Hne) as [->|[_ ->]]; [by apply Hhuge|done].
  - eapply held_after; [exact Hwf|lia|exact Hnew'|exact Hk|exact Hheld].
  - intros a Ho Ha. rewrite <- Hfr by done. apply Hk; [by eapply frame_outside|lia].
Qed.

Lemma unmap_models k s A path va :
  models (S k) s A path -> cr3 = 0x1000 -> small_pages m0 va ->
  models k (serve (UnmapPage va) s).2 (after A (UnmapPage va) 0) path.
Proof.
  destruct s as [st m]. intros [Hwf Hal [H0 Hroom] Hnew Hmap Hhuge Hheld Hfr] E0 Hsm. cbn [fst snd serve after] in *.
  pose proof (unmap_page_spec (next_free_page st) m path va) as Hu. rewrite <- E0 in Hu.
  destruct (Hu Hwf (Hhuge va Hsm)) as (Hwf' & Hva & Ho & Hk).
  split; cbn [fst snd]; [done|done|lia|done| | | |].
  - intros va'. rewrite map_update. case_decide as E.
    + unfold translate. rewrite <- (walk_same_page _ _ _ E). by destruct Hva as [-> | ->].
    + rewrite <- Hmap. unfold translate. rewrite Ho; [done|]. intros Hi. apply E, same_page. congruence.
  - intros va' Hs' e. destruct (decide (page_number va = page_number va')) as [E|E].
    + rewrite <- (walk_same_page _ _ _ E). by destruct Hva as [-> | ->].
    + rewrite Ho; [by apply Hhuge|]. intros Hi. apply E, same_page. congruence.
  - eapply held_after; [exact Hwf|done|by left| |exact Hheld]. intros a Ha _. by apply Hk.
  - intros a Hoa Ha. rewrite <- Hfr by done. apply Hk. by eapply frame_outside.
Qed.

(** A change of bytes that belong to no table. *)
Lemma load64_entry m m' t i :
  (forall a, t <= a < t + 4096 -> load m' a = load m a) -> 0 <= i < 512 -> entry m' t i = entry m t i.
Proof. intros Hm Hi. unfold entry. apply load64_ext. intros a Ha. apply Hm. lia. Qed.

Lemma tables_kept nf path m m' :
  pt_wf cr3 nf m path ->
  (forall p pp a, path !! p = Some pp -> p <= a < p + 4096 -> load m' a = load m a) ->
  pt_wf cr3 nf m' path /\ forall va, walk cr3 m' va = walk cr3 m va.
Proof.
  intros Hwf Hk. assert (forall p pp i, path !! p = Some pp -> 0 <= i < 512 -> entry m' p i = entry m p i) as He.
  { intros p pp i Hp Hi. apply load64_entry; [|done]. intros a. by eapply Hk. }
  split.
  - split; [apply (wf_root Hwf)|apply (wf_page Hwf)|]. intros p pp i Hp Hl Hi.
    rewrite (He p pp i Hp Hi). by apply (wf_entry Hwf).
  - intros va. unfold walk. pose proof (idx_range va 39). pose proof (idx_range va 30).
    pose proof (idx_range va 21). pose proof (idx_range va 12).
    fold (pml4_idx va) (pdp_idx va) (pd_idx va) (pt_idx va) in *.
    rewrite (He cr3 [] _ (wf_root Hwf)) by done.
    destruct (present (entry m cr3 _)) eqn:P4; [|done]. cbn [negb].
    pose proof (wf_entry Hwf cr3 [] _ (wf_root Hwf) ltac:(simpl; lia) H P4 ltac:(done)) as Hp3.
    rewrite (He _ _ _ Hp3) by done. destruct (present (entry m _ (pdp_idx va))) eqn:P3; [|done]. cbn [negb].
    pose proof (wf_entry Hwf _ _ _ Hp3 ltac:(simpl; lia) H0 P3 ltac:(done)) as Hp2.
    rewrite (He _ _ _ Hp2) by done. destruct (huge (entry m _ (pd_idx va))) eqn:Hh; [done|].
    destruct (present (entry m _ (pd_idx va))) eqn:P2; [|done]. cbn [negb].
    pose proof (wf_entry Hwf _ _ _ Hp2 ltac:(simpl; lia) H1 P2 ltac:(done)) as Hp1.
    by rewrite (He _ _ _ Hp1).
Qed.

Lemma alloc_models k s A path :
  models (S k) s A path ->
  exists v, (serve AllocPage s).1 = v /\ promised (translate cr3 m0) A AllocPage v /\
    models k (serve AllocPage s).2 (after A AllocPage v) path.
Proof.
  destruct s as [st m]. intros [Hwf Hal [H0 Hroom] Hnew Hmap Hhuge Hheld Hfr]. cbn [fst snd serve after mmu_alloc_page] in *.
  set (v := next_free_page st) in *. set (m' := memset m v 0 PAGE_SIZE). exists v. split; [done|].
  assert (forall a, a < v -> load m' a = load m a) as Hk.
  { intros a Ha. unfold m'. rewrite memset_load, decide_False by lia. done. }
  assert (u64 (v + PAGE_SIZE) = v + 4096) as Hu by (pose proof (wf_page Hwf cr3 [] (wf_root Hwf)) as (_ & ? & ? & _);
    unfold PAGE_SIZE; apply u64_id; lia).
  assert (path !! v = None) as Hv.
  { destruct (path !! v) as [pp|] eqn:E; [|done]. apply (wf_page Hwf) in E. lia. }
  destruct (tables_kept v path m m' Hwf) as [Hwf' Hwalk].
  { intros p pp a Hp Ha. apply Hk. apply (wf_page Hwf) in Hp. lia. }
  split.
  - split; [done|]. destruct (sp_held A !! v) as [w|] eqn:E; [|done]. pose proof (hp_range (Hheld v w E)). lia.
  - split; cbn [fst snd next_free_page sp_held]; rewrite ?Hu.
    + split; [apply (wf_root Hwf')|intros p pp Hp; pose proof (wf_page Hwf' p pp Hp); lia|apply (wf_entry Hwf')].
    + rewrite <- (Z.mod_add v 1 4096) in Hal by lia. by rewrite Z.mul_1_l in Hal.
    + lia.
    + done.
    + intros va. unfold translate. rewrite Hwalk. apply Hmap.
    + intros va Hs e. rewrite Hwalk. by apply Hhuge.
    + apply map_Forall_insert_2.
      * split; [done|lia|done|]. intros off Ho. unfold m'. rewrite memset_load, lookup_empty. by rewrite decide_True by (unfold PAGE_SIZE; lia).
      * eapply held_after; [exact Hwf|lia|by left| |exact Hheld]. intros a _ Ha. by apply Hk.
    + intros a Ho Ha. rewrite <- Hfr by done. apply Hk. lia.
Qed.

Lemma write_models k s A path p off c :
  models (S k) s A path -> in_page A p off ->
  models k (serve (WriteByte p off c) s).2 (after A (WriteByte p off c) 0) path.
Proof.
  destruct s as [st m]. intros [Hwf Hal [H0 Hroom] Hnew Hmap Hhuge Hheld Hfr] [[w Hw] Ho].
  cbn [fst snd serve after] in *. pose proof (Hheld p w Hw) as Hp. pose proof Hp as [Ha Hr Ht Hb].
  pose proof (held_outside _ _ _ _ _ off Hwf Hp Ho) as Hout. set (m' := store m (p + off) c).
  destruct (tables_kept (next_free_page st) path m m' Hwf) as [Hwf' Hwalk].
  { intros q qq a Hq Haq. apply load_store_ne. destruct (Hout q qq Hq); lia. }
  split; cbn [fst snd sp_held]; [done|done|lia|done| | | |].
  - intros va. unfold translate. rewrite Hwalk. apply Hmap.
  - intros va Hs e. rewrite Hwalk. by apply Hhuge.
  - intros q v [[-> (w' & Hw' & ->)]|[Hne Hq]]%lookup_alter_Some.
    + simplify_eq. split; [done|done|done|]. intros i Hi. unfold m'.
      destruct (decide (off = i)) as [->|Hne]; [by rewrite lookup_insert_eq, load_store_eq|].
      rewrite lookup_insert_ne, load_store_ne by lia. by apply Hb.
    + destruct (Hheld q v Hq) as [Haq Hrq Htq Hbq]. split; [done|done|done|]. intros i Hi.
      unfold m'. rewrite load_store_ne; [by apply Hbq|].
      apply Z.mod_divide in Ha as [x ->], Haq as [y ->]; [|lia..]. lia.
  - intros a Hoa Hlt. rewrite <- Hfr by done. apply load_store_ne. lia.
Qed.

(** One call is answered as promised, and the invariant holds after it. *)
Lemma call_models k s A path r :
  models (S k) s A path -> legal m0 A r ->
  promised (translate cr3 m0) A r (serve r s).1 /\
  exists path', models k (serve r s).2 (after A r (serve r s).1) path'.
Proof.
  intros Hm. assert (models k s A path) as Hm' by (destruct Hm as [? ? [? ?]]; split; (done || lia)).
  destruct r as [phys va f|va|va| |p off c|p off]; intros Hl.
  - split; [done|]. destruct (map_models k s A path phys va f Hm Hl) as [path' Hp]. exists path'. by destruct s.
  - split; [done|]. exists path. destruct s, Hl. by apply unmap_models.
  - split; [|exists path; by destruct s]. destruct s as [st m]. cbn [serve fst promised].
    rewrite is_mapped_translate by (intros e; by apply (mo_huge Hm)). by rewrite <- (mo_map Hm va).
  - destruct (alloc_models k s A path Hm) as (v & <- & Hp & Hq). split; [done|by exists path].
  - split; [done|]. exists path. destruct s. by apply write_models.
  - split; [|exists path; by destruct s]. destruct s as [st m]. intros w Hw. apply (hp_bytes (mo_held Hm p w Hw)), Hl.
Qed.
End models.

(** The invariant of the sessions, by induction on the calls. *)
Lemma session_models st0 m0 path0 n s A :
  pt_wf cr3 (next_free_page st0) m0 path0 -> next_free_page st0 mod 4096 = 0 ->
  session m0 st0 n s A -> forall k, next_free_page st0 + 3 * 4096 * Z.of_nat (n + k) < 2 ^ 64 ->
  exists path, models (next_free_page st0) m0 path0 k s A path.
Proof.
  intros Hwf Hal. induction 1 as [|n s A r _ IH Hl]; intros k Hroom.
  - exists path0. split; cbn [fst snd]; [done|done|lia|by left|done|done|apply map_Forall_empty|done].
  - destruct (IH (S k)) as [path Hm]; [lia|]. by apply (call_models _ _ _ k s A path r Hm).
Qed.

End tables.

(** ** Properties *)

(** C4. In every state that a sequence of legal calls ([mmu_map_page],
    [mmu_unmap_page], [mmu_is_mapped], [mmu_alloc_page], and reads and writes
    of the pages handed out) reaches from well-formed tables, the processor
    translates every address as the specification says: the pages mapped to
    their last frame, the unmapped ones not at all, all others as at the
    start. Any further legal call is answered as promised: [mmu_is_mapped]
    tells whether the address translates, pages handed out are new, and hold
    what was last written to them, and zero before that. What lay below the
    allocator at the start, tables apart, never changes. (Unmapping is legal
    only where the level-4 table is at 0x1000.) *)
Theorem address_space_refines cr3 (st0 : Mmu) (m0 : mem) path0 n s A r :
  pt_wf cr3 (next_free_page st0) m0 path0 -> next_free_page st0 mod 4096 = 0 ->
  next_free_page st0 + 3 * 4096 * (Z.of_nat n + 1) < 2 ^ 64 ->
  session cr3 m0 st0 n s A -> legal cr3 m0 A r ->
  (forall va, translate cr3 s.2 va = translation (translate cr3 m0) A va) /\
  promised (translate cr3 m0) A r (serve cr3 r s).1 /\
  (forall a, outside_tables path0 a -> a < next_free_page st0 -> load (serve cr3 r s).2.2 a = load m0 a).
Proof.
  intros Hwf Hal Hroom Hs Hl.
  destruct (session_models cr3 st0 m0 path0 n s A Hwf Hal Hs 1) as [path Hm]; [lia|].
  destruct (call_models _ _ _ _ 0 s A path r Hm Hl) as (Hp & path' & Hm').
  split; [apply Hm|]. split; [done|apply Hm'].
Qed.

(** ** A concrete session

    A page is taken from the allocator, mapped at two addresses, written, and
    unmapped at one of them. *)

Lemma w_small_pages va : small_pages 0x1000 ∅ va.
Proof. intros e. apply w_no_huge. Qed.

Lemma w_flags : flags_ok 3.
Proof. split_and!; [lia|lia|reflexivity..]. Qed.

Lemma address_space_refines_witness :
  exists s A, session 0x1000 ∅ mmu_initial 5 s A /\ load s.2 0x400007 = 65 /\
    translate 0x1000 s.2 0x40000007 = Some 0x400007 /\ translate 0x1000 s.2 0x80000007 = None /\
    (serve 0x1000 (ReadByte 0x400000 7) s).1 = 65.
Proof.
  pose proof (session_start 0x1000 ∅ mmu_initial) as S0.
  apply (session_call _ _ _ _ _ _ AllocPage) in S0 as S1; [|done].
  set (p := (serve 0x1000 AllocPage (mmu_initial, ∅)).1) in *. assert (p = 0x400000) as Hp by reflexivity. clearbody p. subst p.
  assert (forall va, 0x400000 <= va -> forall A, legal 0x1000 ∅ A (MapPage 0x400000 va 3)) as Hl
    by (intros va Hva A; split_and!; [done|lia|lia|done|apply w_flags|apply w_small_pages]).
  apply (session_call _ _ _ _ _ _ (MapPage 0x400000 0x40000000 3)) in S1 as S2; [|by apply Hl].
  apply (session_call _ _ _ _ _ _ (MapPage 0x400000 0x80000000 3)) in S2 as S3; [|by apply Hl].
  apply (session_call _ _ _ _ _ _ (WriteByte 0x400000 7 65)) in S3 as S4;
    [|split; [by exists ∅|lia]].
  apply (session_call _ _ _ _ _ _ (UnmapPage 0x80000000)) in S4 as S5; [|by split; [|apply w_small_pages]].
  eexists _, _. split; [exact S5|].
  destruct (address_space_refines 0x1000 mmu_initial ∅ w_path 5 _ _ (ReadByte 0x400000 7) w_wf eq_refl ltac:(simpl; lia) S5)
    as (Hm & Hr & _).
  { split; [|lia]. cbn [after sp_held]. by eexists. }
  split; [|split; [rewrite Hm; reflexivity|split; [rewrite Hm; reflexivity|]]].
  - vm_compute. reflexivity.
  - rewrite (Hr (<[7 := 65]> ∅)); [reflexivity|]. vm_compute. reflexivity.
Defined.
