(* ===== verification/Heap.v ===== *)
(** * The heap (src/impl/kernel/stdlib.c, and its users in string.c)

    A block is a 24-byte header [struct MemBlock] (size at 0, is_free at 8,
    next at 16) followed by its payload, all in the byte memory. The heap
    gets its memory a page at a time from [mmu_alloc_page]. The theorems are
    stated against an abstract heap: the list of the blocks' sizes and free
    flags in list order, from which every address follows because consecutive
    blocks are adjacent. *)
From S2P Require Export Format Mmu.

(** ** Definitions *)

Record heap := MkHeap { heap_head : Z; pages : Mmu }.

Definition HDR := 24.
Definition MIN_ALLOC := 4096.

Definition blk_size (m : mem) (b : Z) := load64 m b.
Definition blk_free (m : mem) (b : Z) := load32 m (b + 8).
Definition blk_next (m : mem) (b : Z) := load64 m (b + 16).
Definition set_size (m : mem) (b v : Z) := store64 m b v.
Definition set_free (m : mem) (b v : Z) := store32 m (b + 8) v.
Definition set_next (m : mem) (b v : Z) := store64 m (b + 16) v.

Definition init_block (m : mem) (addr size : Z) : mem :=
  set_next (set_free (set_size m addr (u64 (size - HDR))) addr 1) addr 0.

(** [current] and [*last] are the loop's variables. *)
Fixpoint find_free_block (fuel : nat) (m : mem) (last current size : Z) : res (Z * Z) :=
  match fuel with
  | O => Spin
  | S fuel =>
      if negb (current =? 0) &&
         negb (negb (blk_free m current =? 0) && (size <=? blk_size m current))
      then find_free_block fuel m current (blk_next m current) size
      else Done (last, current)
  end.

Definition split_block (m : mem) (block size : Z) : mem :=
  if u64 (u64 (size + HDR) + 32) <=? blk_size m block then
    let new_block := u64 (block + HDR + size) in
    let m := set_size m new_block (u64 (blk_size m block - size - HDR)) in
    let m := set_free m new_block 1 in
    let m := set_next m new_block (blk_next m block) in
    let m := set_size m block size in
    set_next m block new_block
  else m.

(** The page (one, whatever [size] is) and the header of a new block. *)
Definition new_block (h : heap) (m : mem) (size : Z) : Z * heap * mem :=
  let alloc_size := u64 (size + HDR) in
  let alloc_size := if alloc_size <? MIN_ALLOC then MIN_ALLOC else alloc_size in
  let '(block, st, m) := mmu_alloc_page (pages h) m in
  (block, MkHeap (heap_head h) st, if block =? 0 then m else init_block m block alloc_size).

(** The block [malloc] uses: the first allocation's, a free one, or a new one
    linked after the last. *)
Definition pick_block (fuel : nat) (h : heap) (m : mem) (size : Z) : res (Z * heap * mem) :=
  if heap_head h =? 0 then
    let '(block, h, m) := new_block h m size in
    Done (block, if block =? 0 then h else MkHeap block (pages h), m)
  else
    '(last, block) ← find_free_block fuel m 0 (heap_head h) size;
    if block =? 0 then
      let '(block, h, m) := new_block h m size in
      Done (block, h, if block =? 0 then m else set_next m last block)
    else Done (block, h, m).

Definition malloc (fuel : nat) (h : heap) (m : mem) (size : Z) : res (Z * heap * mem) :=
  if size =? 0 then Done (0, h, m) else
  let size := u64 (size + 7) .& u64 (Z.lnot 7) in
  '(block, h, m) ← pick_block fuel h m size;
  if block =? 0 then Done (0, h, m) else
  let m := split_block m block size in
  Done (block + HDR, h, set_free m block 0).

Definition free (m : mem) (ptr : Z) : mem :=
  if ptr =? 0 then m else
  let block := ptr - HDR in
  let m := set_free m block 1 in
  if negb (blk_next m block =? 0) && negb (blk_free m (blk_next m block) =? 0) then
    let m := set_size m block (u64 (blk_size m block + (HDR + blk_size m (blk_next m block)))) in
    set_next m block (blk_next m (blk_next m block))
  else m.

Definition calloc (fuel : nat) (h : heap) (m : mem) (nmemb size : Z) : res (Z * heap * mem) :=
  let total := u64 (nmemb * size) in
  '(ptr, h, m) ← malloc fuel h m total;
  Done (ptr, h, if ptr =? 0 then m else memset m ptr 0 total).

Definition realloc (fuel : nat) (h : heap) (m : mem) (ptr size : Z) : res (Z * heap * mem) :=
  if ptr =? 0 then malloc fuel h m size else
  if size =? 0 then Done (0, h, free m ptr) else
  let block := ptr - HDR in
  if size <=? blk_size m block then Done (ptr, h, split_block m block size) else
  '(new_ptr, h, m) ← malloc fuel h m size;
  if new_ptr =? 0 then Done (0, h, m) else
  let m := memcpy m new_ptr ptr (blk_size m block) in
  Done (new_ptr, h, free m ptr).

(** [strdup] and [snprintf] of string.c. *)
Definition strdup (fuel : nat) (h : heap) (m : mem) (s : Z) : res (Z * heap * mem) :=
  n ← strlen fuel m s;
  let len := u64 (n + 1) in
  '(new, h, m) ← malloc fuel h m len;
  Done (new, h, if new =? 0 then m else memcpy m new s len).

(** [ret] is compared with [size] as a [size_t]. *)
Definition snprintf (fuel : nat) (h : heap) (m : mem) (str size format : Z) (args : list Z)
  : res (Z * heap * mem) :=
  if size =? 0 then Done (0, h, m) else
  '(temp, h, m) ← malloc fuel h m size;
  if temp =? 0 then Done (-1, h, m) else
  '(m, ret) ← vsprintf fuel m temp format args;
  let m :=
    if 0 <=? ret then
      let copy_size := if size <=? ret then size - 1 else ret in
      store (memcpy m str temp copy_size) (str + copy_size) 0
    else m in
  Done (ret, h, free m temp).

#[local] Opaque memset store64 load64 store32 load32.

(** ** The abstract heap

    [(size, is_free)] for each block, in list order. *)

Abbreviation ablk := (Z * bool)%type.

Definition total (bl : list ablk) : Z := foldr (fun '(sz, _) acc => HDR + sz + acc) 0 bl.

(** A block of [sz] bytes taken for [n]: the rest becomes a free block. *)
Definition place (n : Z) (sz : Z) (fr : bool) : list ablk :=
  if n + HDR + 32 <=? sz then [(n, fr); (sz - n - HDR, true)] else [(sz, fr)].

(** First fit: the address of the block and the blocks afterwards. *)
Fixpoint first_fit (n b : Z) (bl : list ablk) : option (Z * list ablk) :=
  match bl with
  | [] => None
  | (sz, fr) :: bl =>
      if fr && (n <=? sz) then Some (b, place n sz false ++ bl)
      else '(p, bl') ← first_fit n (b + HDR + sz) bl; Some (p, (sz, fr) :: bl')
  end.

Definition align8 (n : Z) : Z := (n + 7) / 8 * 8.

(** [malloc] on blocks that lie from [base] to [top]. *)
Definition a_malloc (n base top : Z) (bl : list ablk) : Z * list ablk :=
  match first_fit (align8 n) base bl with
  | Some (p, bl') => (p + HDR, bl')
  | None => (top + HDR, bl ++ place (align8 n) (MIN_ALLOC - HDR) false)
  end.

Fixpoint a_free (b : Z) (bl : list ablk) (ptr : Z) : list ablk :=
  match bl with
  | [] => []
  | (sz, fr) :: bl' =>
      if b + HDR =? ptr then
        match bl' with
        | (sz', true) :: bl'' => (sz + (HDR + sz'), true) :: bl''
        | _ => (sz, true) :: bl'
        end
      else (sz, fr) :: a_free (b + HDR + sz) bl' ptr
  end.

(** The allocations in use: address and size of their payloads. *)
Fixpoint live (b : Z) (bl : list ablk) : list (Z * Z) :=
  match bl with
  | [] => []
  | (sz, fr) :: bl =>
      let l := live (b + HDR + sz) bl in if fr then l else (b + HDR, sz) :: l
  end.

(** ** The blocks in memory *)

Definition header (m : mem) (b sz : Z) (fr : bool) (nxt : Z) : Prop :=
  blk_size m b = sz /\ blk_free m b = Z.b2z fr /\ blk_next m b = nxt.

(** Blocks [bl] from [b] to [e]; the last one's [next] is [nx]. *)
Fixpoint seg (m : mem) (b : Z) (bl : list ablk) (e nx : Z) : Prop :=
  match bl with
  | [] => b = e
  | (sz, fr) :: bl =>
      0 <= sz /\ header m b sz fr (match bl with [] => nx | _ => b + HDR + sz end) /\
      seg m (b + HDR + sz) bl e nx
  end.

(** [heap_rep h m base bl]: the heap's blocks are [bl], adjacent from [base]
    up to the next page that [mmu_alloc_page] will return. *)
Record heap_rep (h : heap) (m : mem) (base : Z) (bl : list ablk) : Prop := {
  hr_head : heap_head h = match bl with [] => 0 | _ => base end;
  hr_seg : seg m base bl (next_free_page (pages h)) 0;
  hr_base : 0 < base;
  hr_top : next_free_page (pages h) < 2 ^ 63;
}.

(** [a] is a byte of a header. *)
Fixpoint in_header (b : Z) (bl : list ablk) (a : Z) : Prop :=
  match bl with
  | [] => False
  | (sz, _) :: bl => b <= a < b + HDR \/ in_header (b + HDR + sz) bl a
  end.

Arguments hr_head {_ _ _ _}.
Arguments hr_seg {_ _ _ _}.
Arguments hr_base {_ _ _ _}.
Arguments hr_top {_ _ _ _}.

Lemma total_app l1 l2 : total (l1 ++ l2) = total l1 + total l2.
Proof. induction l1 as [|[sz fr] l1 IH]; simpl; [done|]. rewrite IH. lia. Qed.

Lemma seg_bounds m b bl e nx : seg m b bl e nx -> e = b + total bl /\ b <= e.
Proof.
  revert b. induction bl as [|[sz fr] bl IH]; intros b; simpl; [lia|].
  intros (? & _ & Hs). apply IH in Hs. unfold HDR in *. lia.
Qed.

Lemma seg_app m b l1 l2 e nx :
  seg m b (l1 ++ l2) e nx <->
  exists mid, seg m b l1 mid (match l2 with [] => nx | _ => mid end) /\ seg m mid l2 e nx.
Proof.
  revert b. induction l1 as [|[sz fr] l1 IH]; intros b; simpl.
  - split; [eauto|]. by intros (? & -> & ?).
  - rewrite IH. split.
    + intros (? & Hh & mid & H1 & H2). exists mid. split; [|done]. split_and!; try done.
      destruct l1; [|done]. simpl in *. subst mid. by destruct l2.
    + intros (mid & (? & Hh & H1) & H2). split_and!; [done| |eauto].
      destruct l1; [|done]. simpl in *. subst mid. by destruct l2.
Qed.

Lemma seg_prefix m b l1 l2 e nx : seg m b (l1 ++ l2) e nx -> 0 <= total l1.
Proof. intros (mid & H & _)%seg_app. apply seg_bounds in H. lia. Qed.

Lemma header_ext m m' b sz fr nxt :
  (forall a, b <= a < b + HDR -> load m' a = load m a) ->
  header m b sz fr nxt -> header m' b sz fr nxt.
Proof.
  intros Ha. unfold header, blk_size, blk_free, blk_next.
  rewrite (load64_ext m m' b), (load32_ext m m' (b + 8)), (load64_ext m m' (b + 16));
    [done|intros; apply Ha; unfold HDR; lia..].
Qed.

Lemma seg_ext m m' b bl e nx :
  (forall a, in_header b bl a -> load m' a = load m a) ->
  seg m b bl e nx -> seg m' b bl e nx.
Proof.
  revert b. induction bl as [|[sz fr] bl IH]; intros b Ha; simpl in *; [done|].
  intros (? & Hh & Hs). split_and!; [done| |by apply IH; auto].
  eapply header_ext; [|done]. auto.
Qed.

Lemma in_header_bounds m b bl e nx a : seg m b bl e nx -> in_header b bl a -> b <= a < e.
Proof.
  revert b. induction bl as [|[sz fr] bl IH]; intros b; simpl; [done|].
  intros (? & _ & Hs) [Ha|Ha].
  - apply seg_bounds in Hs. unfold HDR in *. lia.
  - specialize (IH _ Hs Ha). unfold HDR in *. lia.
Qed.

Lemma seg_changes m m' b bl e nx lo hi :
  changes lo hi m m' -> e <= lo \/ hi <= b -> seg m b bl e nx -> seg m' b bl e nx.
Proof.
  intros Hc Hd Hs. eapply seg_ext; [|done]. intros a Ha. apply Hc.
  eapply in_header_bounds in Ha; [|done]. lia.
Qed.

Lemma live_app b l1 l2 : live b (l1 ++ l2) = live b l1 ++ live (b + total l1) l2.
Proof.
  revert b. induction l1 as [|[sz fr] l1 IH]; intros b; simpl; [by rewrite Z.add_0_r|].
  rewrite IH. replace (b + HDR + sz + total l1) with (b + (HDR + sz + total l1)) by lia.
  by destruct fr.
Qed.

Lemma live_bounds m b bl e nx p sz :
  seg m b bl e nx -> (p, sz) ∈ live b bl -> b + HDR <= p /\ p + sz <= e.
Proof.
  revert b. induction bl as [|[sz' fr] bl IH]; intros b; simpl.
  - by intros _ ?%elem_of_nil.
  - intros (? & _ & Hs) Hin. apply seg_bounds in Hs as Hb. unfold HDR in *.
    destruct fr; [specialize (IH _ Hs Hin); lia|].
    apply elem_of_cons in Hin as [[= -> ->]|Hin]; [lia|].
    specialize (IH _ Hs Hin). lia.
Qed.

Lemma live_not_header m b bl e nx p sz a :
  seg m b bl e nx -> (p, sz) ∈ live b bl -> p <= a < p + sz -> ~ in_header b bl a.
Proof.
  revert b. induction bl as [|[sz' fr] bl IH]; intros b; simpl.
  - by intros _ ?%elem_of_nil.
  - intros (? & Hh & Hs) Hin Ha [Hx|Hx].
    + destruct (live_bounds m b ((sz', fr) :: bl) e nx p sz); [done..|].
      unfold HDR in *. lia.
    + pose proof (in_header_bounds _ _ _ _ _ _ Hs Hx). destruct fr; [by eapply IH|].
      apply elem_of_cons in Hin as [[= -> ->]|Hin]; [lia|]. by eapply IH.
Qed.

(** The payloads in use do not overlap. *)
Definition disjoint_ranges (l : list (Z * Z)) : Prop :=
  forall i j p sz q sz', i <> j -> l !! i = Some (p, sz) -> l !! j = Some (q, sz') ->
    p + sz <= q \/ q + sz' <= p.

Lemma live_disjoint m b bl e nx : seg m b bl e nx -> disjoint_ranges (live b bl).
Proof.
  revert b. induction bl as [|[sz fr] bl IH]; intros b; simpl; [by intros _ ?|].
  intros (? & _ & Hs). specialize (IH _ Hs). destruct fr; [done|].
  assert (forall j q sz', live (b + HDR + sz) bl !! j = Some (q, sz') -> b + HDR + sz <= q) as Hge.
  { intros j q sz' Hj%list_elem_of_lookup_2. eapply live_bounds in Hj; [|done].
    unfold HDR in *. lia. }
  intros [|i] [|j] p sz1 q sz2 Hne Hi Hj; simplify_eq/=.
  - left. eauto.
  - right. eauto.
  - eapply (IH i j); [congruence|done..].
Qed.

Lemma live_NoDup m b bl e nx : seg m b bl e nx -> NoDup (live b bl).*1.
Proof.
  revert b. induction bl as [|[sz fr] bl IH]; intros b; simpl; [constructor|].
  intros (? & _ & Hs). specialize (IH _ Hs). destruct fr; [done|].
  apply NoDup_cons. split; [|done]. intros ([p s] & Hp & Hin)%list_elem_of_fmap.
  eapply live_bounds in Hin; [|done]. unfold HDR in *. simpl in Hp. lia.
Qed.

(** ** The operations on the blocks *)

Definition no_fit (n : Z) (x : ablk) : Prop := x.2 && (n <=? x.1) = false.

Lemma first_fit_None n b bl : first_fit n b bl = None -> Forall (no_fit n) bl.
Proof.
  revert b. induction bl as [|[sz fr] bl IH]; intros b; simpl; [done|].
  destruct (fr && (n <=? sz)) eqn:E; [done|].
  destruct (first_fit n (b + HDR + sz) bl) as [[]|] eqn:F; [done|].
  constructor; [exact E|by eapply IH].
Qed.

Lemma first_fit_Some n b bl p bl' :
  first_fit n b bl = Some (p, bl') ->
  exists l1 sz l2, bl = l1 ++ (sz, true) :: l2 /\ Forall (no_fit n) l1 /\ n <= sz /\
    p = b + total l1 /\ bl' = l1 ++ place n sz false ++ l2.
Proof.
  revert b bl'. induction bl as [|[sz fr] bl IH]; intros b bl'; simpl; [done|].
  destruct (fr && (n <=? sz)) eqn:E.
  - apply andb_true_iff in E as [-> E]. intros [= <- <-].
    exists [], sz, bl. split_and!; [done|done|lia|simpl; lia|done].
  - destruct (first_fit n (b + HDR + sz) bl) as [[p' bl'']|] eqn:F; [|done].
    intros [= -> <-]. apply IH in F as (l1 & sz' & l2 & -> & ? & ? & -> & ->).
    exists ((sz, fr) :: l1), sz', l2. split_and!; [done|by constructor|done|simpl; lia|done].
Qed.

(** The pointer to the first block of a segment. *)
Definition ptr_to (b : Z) (bl : list ablk) (nx : Z) : Z := match bl with [] => nx | _ => b end.

Lemma blk_free_tst m b sz fr nxt : header m b sz fr nxt -> negb (blk_free m b =? 0) = fr.
Proof. intros (_ & -> & _). by destruct fr. Qed.

Lemma find_spec fuel m lst n b bl e :
  seg m b bl e 0 -> 0 < b -> (length bl < fuel)%nat ->
  exists lst',
    find_free_block fuel m lst (ptr_to b bl 0) n =
      Done (lst', match first_fit n b bl with Some (p, _) => p | None => 0 end) /\
    (first_fit n b bl = None -> bl <> [] ->
     exists l1 sz fr, bl = l1 ++ [(sz, fr)] /\ lst' = b + total l1).
Proof.
  revert b lst bl. induction fuel as [|fuel IH]; intros b lst bl Hs Hb Hf; [lia|].
  cbn [find_free_block]. destruct bl as [|[sz fr] bl]; cbn [ptr_to]; [by exists lst|].
  destruct Hs as (Hsz & Hh & Hs). rewrite (blk_free_tst _ _ _ _ _ Hh).
  destruct Hh as (-> & _ & ->). decide_lia. cbn [negb andb first_fit].
  destruct (fr && (n <=? sz)) eqn:E; cbn [negb]; [by exists lst|].
  destruct (IH (b + HDR + sz) b bl) as (lst' & Hfind & Hlast);
    [done|unfold HDR; lia|simpl in Hf; lia|].
  exists lst'. split.
  - unfold ptr_to in Hfind. rewrite Hfind. by destruct (first_fit _ _ bl) as [[]|].
  - intros Hn _. destruct (first_fit n (b + HDR + sz) bl) as [[]|] eqn:F; [done|].
    destruct bl as [|x bl].
    + exists [], sz, fr. split; [done|]. simpl. destruct fuel; [done|].
      simpl in Hfind. injection Hfind as <-. lia.
    + destruct (Hlast eq_refl) as (l1 & sz' & fr' & -> & ->); [done|].
      exists ((sz, fr) :: l1), sz', fr'. split; [done|]. simpl. lia.
Qed.

(** Header fields after stores to this and to other headers. *)
Ltac hdr_words :=
  unfold header, blk_size, blk_free, blk_next, set_size, set_free, set_next, HDR in *; mem_words.

Lemma split_block_spec m b sz fr nxt n :
  header m b sz fr nxt -> 0 < b -> 0 <= n -> n + HDR + 32 < 2 ^ 64 ->
  0 <= sz -> b + HDR + sz < 2 ^ 64 ->
  seg (split_block m b n) b (place n sz fr) (b + HDR + sz) nxt /\
  (forall a, a < b \/ b + HDR + sz <= a \/ b + HDR <= a < b + HDR + n ->
     load (split_block m b n) a = load m a).
Proof.
  intros (Hz & Hfr & Hn) Hb Hn0 Hn1 Hsz Htop. unfold split_block, place.
  assert (0 <= nxt < 2 ^ 64) as Hnr by (rewrite <- Hn; apply load64_range).
  rewrite (u64_id (n + HDR)), (u64_id (n + HDR + 32)) by (unfold HDR in *; lia). rewrite Hz.
  destruct (Z.leb_spec (n + HDR + 32) sz) as [Hle|Hle].
  - rewrite (u64_id (b + HDR + n)), (u64_id (sz - n - HDR)) by (unfold HDR in *; lia).
    split.
    + cbn [seg]. hdr_words. rewrite ?Hfr, ?Hn, !u64_id by lia. split_and!; done || lia.
    + intros a Ha. unfold set_size, set_free, set_next, HDR in *.
      rewrite (store64_changes _ (b + 16)), (store64_changes _ b),
        (store64_changes _ (b + 24 + n + 16)), (store32_changes _ (b + 24 + n + 8)),
        (store64_changes _ (b + 24 + n)) by lia. done.
  - split; [|done]. simpl. split_and!; done.
Qed.

Lemma seg_split m b sz fr bl e nx n :
  seg m b ((sz, fr) :: bl) e nx -> 0 < b -> 0 <= n -> n + HDR + 32 < 2 ^ 64 -> e < 2 ^ 64 ->
  seg (split_block m b n) b (place n sz fr ++ bl) e nx /\
  (forall a, a < b \/ b + HDR + sz <= a \/ b + HDR <= a < b + HDR + n ->
     load (split_block m b n) a = load m a).
Proof.
  intros (Hsz & Hh & Hs) Hb Hn Hn1 He. apply seg_bounds in Hs as Hbd.
  destruct (split_block_spec m b sz fr _ n Hh) as [Hp Hc]; [done|lia..|]. split; [|exact Hc].
  apply seg_app. exists (b + HDR + sz). split; [done|]. eapply seg_ext; [|done].
  intros a Ha. apply Hc. eapply in_header_bounds in Ha; [|done]. lia.
Qed.

Lemma set_free_header m b sz fr fr' nxt :
  header m b sz fr nxt -> header (set_free m b (Z.b2z fr')) b sz fr' nxt.
Proof.
  intros (Hz & _ & Hn). hdr_words. rewrite Hz, Hn. split_and!; [done| |done].
  by destruct fr'.
Qed.

Lemma seg_set_free m b sz fr fr' bl e nx :
  seg m b ((sz, fr) :: bl) e nx -> seg (set_free m b (Z.b2z fr')) b ((sz, fr') :: bl) e nx.
Proof.
  intros (Hsz & Hh & Hs). split_and!; [done|by eapply set_free_header|].
  eapply (seg_changes _ _ _ _ _ _ (b + 8) (b + 12)); [|unfold HDR; lia|done].
  eapply changes_weaken; [apply store32_changes|lia|lia].
Qed.

Lemma place_cons n sz : exists s tl, forall fr, place n sz fr = (s, fr) :: tl.
Proof. unfold place. case_match; eauto. Qed.

(** Taking a free block out of the list for [n] bytes. *)
Lemma seg_take m base l1 sz fr l2 e n :
  seg m base (l1 ++ (sz, fr) :: l2) e 0 -> 0 < base -> 0 <= n -> n + HDR + 32 < 2 ^ 64 ->
  e < 2 ^ 64 ->
  let b := base + total l1 in
  let m' := set_free (split_block m b n) b 0 in
  seg m' base (l1 ++ place n sz false ++ l2) e 0 /\ changes b (b + HDR + sz) m m'.
Proof.
  intros Hs Hb Hn Hn1 He b m'. apply seg_app in Hs as (mid & H1 & H2).
  apply seg_bounds in H1 as Hmid. destruct Hmid as [-> Hmid]. fold b in H1, H2, Hmid.
  destruct (seg_split m b sz fr l2 e 0 n) as [Hp Hc]; [done|lia..|].
  assert (changes b (b + HDR + sz) m m') as Hch.
  { intros a Ha. unfold m', set_free. rewrite store32_changes by (destruct H2; unfold HDR in *; lia).
    apply Hc. lia. }
  split; [|done]. destruct (place_cons n sz) as (s & tl & Hpl). rewrite Hpl in Hp |- *.
  apply seg_app. exists b. split.
  - eapply seg_changes; [exact Hch|lia|]. done.
  - by apply (seg_set_free _ _ _ fr false).
Qed.

Lemma align8_eq n :
  0 <= n < 2 ^ 64 - 7 -> u64 (n + 7) .& u64 (Z.lnot 7) = align8 n.
Proof.
  intros Hn. rewrite u64_id by lia. apply (land_high (n + 7) 3); lia.
Qed.

Lemma align8_bounds n : 0 < n -> n <= align8 n < n + 8 /\ 8 <= align8 n.
Proof. unfold align8. intros. pose proof (Z.div_mod (n + 7) 8). pose proof (Z.mod_pos_bound (n + 7) 8). lia. Qed.

(** Whatever the size, one page; the header claims what was asked for. *)
Lemma new_block_any h m n :
  let nf := next_free_page (pages h) in
  0 <= n < 2 ^ 63 -> 0 < nf -> nf + 4096 < 2 ^ 64 ->
  exists st' m', new_block h m n = (nf, MkHeap (heap_head h) st', m') /\
    next_free_page st' = nf + 4096 /\
    header m' nf (Z.max (n + HDR) MIN_ALLOC - HDR) true 0 /\
    changes nf (nf + 4096) m m'.
Proof.
  intros nf Hn Hnf Htop. unfold new_block. cbn [mmu_alloc_page]. fold nf. decide_lia.
  assert ((if u64 (n + HDR) <? MIN_ALLOC then MIN_ALLOC else u64 (n + HDR)) =
    Z.max (n + HDR) MIN_ALLOC) as ->.
  { rewrite u64_id by (unfold MIN_ALLOC, HDR in *; lia). destruct (Z.ltb_spec (n + HDR) MIN_ALLOC); lia. }
  eexists _, _. split; [reflexivity|]. split_and!.
  - simpl. rewrite u64_id; unfold PAGE_SIZE; lia.
  - unfold init_block, MIN_ALLOC. hdr_words. split_and!; [|reflexivity..].
    rewrite !u64_id by (rewrite ?u64_id; lia). done.
  - intros a Ha. unfold init_block, set_next, set_free, set_size.
    rewrite (store64_changes _ (nf + 16)), (store32_changes _ (nf + 8)), (store64_changes _ nf) by lia.
    apply memset_changes. unfold PAGE_SIZE. lia.
Qed.

Lemma new_block_spec h m n :
  let nf := next_free_page (pages h) in
  0 <= n -> n + HDR <= MIN_ALLOC -> 0 < nf -> nf + 4096 < 2 ^ 64 ->
  exists st' m', new_block h m n = (nf, MkHeap (heap_head h) st', m') /\
    next_free_page st' = nf + 4096 /\ header m' nf (MIN_ALLOC - HDR) true 0 /\
    changes nf (nf + 4096) m m'.
Proof.
  intros nf Hn Hmin Hnf Htop.
  destruct (new_block_any h m n) as (st' & m' & ? & ? & Hh & ?);
    [unfold MIN_ALLOC, HDR in *; lia|done..|].
  exists st', m'. split_and!; try done.
  by rewrite Z.max_r in Hh by lia.
Qed.

(** Linking a new block after the last one. *)
Lemma seg_link m base bl e sz fr :
  seg m base bl e 0 -> header m e sz fr 0 -> 0 <= sz -> bl <> [] -> 0 <= e < 2 ^ 64 ->
  forall l1 sz1 fr1, bl = l1 ++ [(sz1, fr1)] ->
  seg (set_next m (base + total l1) e) base (bl ++ [(sz, fr)]) (e + HDR + sz) 0 /\
  changes (base + total l1) (base + total l1 + HDR) m (set_next m (base + total l1) e).
Proof.
  intros Hs Hh Hsz Hne He l1 sz1 fr1 ->. apply seg_app in Hs as (mid & H1 & H2).
  apply seg_bounds in H1 as Hb. destruct Hb as [-> Hb]. set (b := base + total l1) in *.
  destruct H2 as (Hsz1 & Hh1 & He'). simpl in He'.
  assert (changes b (b + HDR) m (set_next m b e)) as Hc.
  { eapply changes_weaken; [apply store64_changes|lia|unfold HDR; lia]. }
  split; [|done]. rewrite <- app_assoc. apply seg_app. exists b. split.
  - eapply seg_changes; [exact Hc|lia|done].
  - cbn [app seg]. split_and!; [done| |done| |by rewrite He'].
    + destruct Hh1 as (Hz & Hf & _). hdr_words. rewrite u64_id by lia.
      split_and!; [done|done|lia].
    + rewrite He'. eapply header_ext; [|done]. intros a Ha. apply Hc. unfold HDR in *. lia.
Qed.

(** The bytes of the payloads in use, and everything below the heap, are the same. *)
Definition keeps (base : Z) (bl : list ablk) (m m' : mem) : Prop :=
  (forall a, a < base -> load m' a = load m a) /\
  (forall p sz a, (p, sz) ∈ live base bl -> p <= a < p + sz -> load m' a = load m a).

Lemma keeps_changes m m' m0 base bl e lo hi :
  seg m0 base bl e 0 -> changes lo hi m m' -> base <= lo ->
  (forall p sz, (p, sz) ∈ live base bl -> p + sz <= lo \/ hi <= p) -> keeps base bl m m'.
Proof.
  intros Hs Hc Hlo Hd. split; intros; apply Hc; [lia|].
  edestruct Hd; [done|lia..].
Qed.

Lemma keeps_trans base bl m1 m2 m3 : keeps base bl m1 m2 -> keeps base bl m2 m3 -> keeps base bl m1 m3.
Proof. intros [A B] [C D]. split; intros; [rewrite C, A|erewrite D, B]; done. Qed.

Lemma live_free_block m base l1 sz l2 e p s :
  seg m base (l1 ++ (sz, true) :: l2) e 0 ->
  (p, s) ∈ live base (l1 ++ (sz, true) :: l2) ->
  p + s <= base + total l1 \/ base + total l1 + HDR + sz <= p.
Proof.
  intros Hs. rewrite live_app, elem_of_app. apply seg_app in Hs as (mid & H1 & H2).
  apply seg_bounds in H1 as Hb. destruct Hb as [-> _]. intros [Hin|Hin].
  - eapply live_bounds in Hin; [|exact H1]. lia.
  - simpl in Hin. destruct H2 as (_ & _ & H2). eapply live_bounds in Hin; [|exact H2].
    unfold HDR in *. lia.
Qed.

Lemma in_header_app b l1 l2 a :
  in_header b (l1 ++ l2) a <-> in_header b l1 a \/ in_header (b + total l1) l2 a.
Proof.
  revert b. induction l1 as [|[sz fr] l1 IH]; intros b; simpl.
  - rewrite Z.add_0_r. tauto.
  - rewrite IH. replace (b + HDR + sz + total l1) with (b + (HDR + sz + total l1)) by lia. tauto.
Qed.

(** A header write keeps the payloads. *)
Lemma keeps_header m m' m0 base bl e l1 sz fr l2 :
  seg m0 base bl e 0 -> bl = l1 ++ (sz, fr) :: l2 ->
  changes (base + total l1) (base + total l1 + HDR) m m' -> keeps base bl m m'.
Proof.
  intros Hs -> Hc. apply seg_app in Hs as Hs'. destruct Hs' as (mid & H1 & _).
  apply seg_bounds in H1. split; intros; apply Hc; [lia|].
  intros Ha. eapply live_not_header; [exact Hs|done|done|].
  apply in_header_app. right. simpl. by left.
Qed.

(** What [pick_block] finds: a free block of the list [bl1], which is [bl]
    with perhaps a new page's block at the end. *)
Definition picked (h : heap) (m : mem) (base : Z) (bl : list ablk) (n : Z)
    (blk : Z) (h1 : heap) (m1 : mem) : Prop :=
  exists l1 sz l2,
    heap_rep h1 m1 base (l1 ++ (sz, true) :: l2) /\ blk = base + total l1 /\
    match first_fit n base bl with
    | Some (p, bl') => (p + HDR, bl')
    | None => (next_free_page (pages h) + HDR, bl ++ place n (MIN_ALLOC - HDR) false)
    end = (blk + HDR, l1 ++ place n sz false ++ l2) /\
    live base bl = live base (l1 ++ (sz, true) :: l2) /\
    keeps base bl m m1 /\ next_free_page (pages h1) <= next_free_page (pages h) + 4096.

Section pick.
Context (fuel : nat) (h : heap) (m : mem) (base n : Z).
Context (Hn : 0 <= n <= 4072) (Hnf : next_free_page (pages h) + 4096 < 2 ^ 63).

Lemma pick_first :
  heap_rep h m base [] ->
  exists blk h1 m1, pick_block fuel h m n = Done (blk, h1, m1) /\ picked h m base [] n blk h1 m1.
Proof.
  intros [Hhd Hs Hb Htop]. simpl in Hs.
  destruct (new_block_spec h m n) as (st' & m1 & Hnew & Hnf' & Hh' & Hc);
    [lia|unfold HDR, MIN_ALLOC; lia|lia..|].
  unfold pick_block. rewrite Hhd, Hnew, Z.eqb_refl. rewrite <- Hs in *. decide_lia.
  eexists _, _, _. split; [reflexivity|]. exists [], (MIN_ALLOC - HDR), [].
  rewrite <- Hs. split_and!; simpl.
  - split; simpl; [lia| |done|lia]. split_and!; [done|done|].
    rewrite Hnf'. unfold HDR, MIN_ALLOC. lia.
  - lia.
  - by rewrite app_nil_r.
  - done.
  - split; [intros a Ha; apply Hc; lia|]. by intros ? ? ? ?%elem_of_nil.
  - lia.
Qed.

Lemma pick_fit bl p bl' :
  heap_rep h m base bl -> (length bl < fuel)%nat -> first_fit n base bl = Some (p, bl') ->
  exists blk h1 m1, pick_block fuel h m n = Done (blk, h1, m1) /\ picked h m base bl n blk h1 m1.
Proof.
  intros [Hhd Hs Hb Htop] Hf F. unfold picked. rewrite F.
  destruct (find_spec fuel m 0 n base bl _ Hs Hb Hf) as (lst & Hfind & _). rewrite F in Hfind.
  apply first_fit_Some in F as (l1 & sz & l2 & E & _ & _ & -> & ->).
  assert (heap_head h = base /\ ptr_to base bl 0 = base) as [Hhd' Hp]
    by (rewrite Hhd, E; by destruct l1).
  pose proof Hs as Ht. rewrite E in Ht. apply seg_prefix in Ht.
  unfold pick_block. rewrite Hhd'. rewrite Hp in Hfind. rewrite Hfind.
  decide_lia. cbn [mbind res_bind]. decide_lia.
  eexists _, _, _. split; [reflexivity|]. exists l1, sz, l2. rewrite <- E.
  split_and!; [by split|done..|lia].
Qed.

Lemma pick_grow bl :
  heap_rep h m base bl -> (length bl < fuel)%nat -> bl <> [] -> first_fit n base bl = None ->
  exists blk h1 m1, pick_block fuel h m n = Done (blk, h1, m1) /\ picked h m base bl n blk h1 m1.
Proof.
  intros [Hhd Hs Hb Htop] Hf Hne F. unfold picked. rewrite F.
  apply seg_bounds in Hs as Hbd.
  destruct (find_spec fuel m 0 n base bl _ Hs Hb Hf) as (lst & Hfind & Hlast). rewrite F in Hfind.
  destruct (Hlast F Hne) as (l1 & sz1 & fr1 & E & ->).
  assert (heap_head h = base /\ ptr_to base bl 0 = base) as [Hhd' Hp]
    by (rewrite Hhd; by destruct bl).
  unfold pick_block. rewrite Hhd'. rewrite Hp in Hfind. rewrite Hfind.
  cbn [mbind res_bind]. rewrite Z.eqb_refl.
  destruct (new_block_spec h m n) as (st' & m1 & Hnew & Hnf' & Hh' & Hc);
    [lia|unfold HDR, MIN_ALLOC; lia|lia..|].
  rewrite Hnew. decide_lia. set (nf := next_free_page (pages h)) in *.
  assert (seg m1 base bl nf 0) as Hs1 by (eapply seg_changes; [exact Hc|lia|done]).
  destruct (seg_link m1 base bl nf (MIN_ALLOC - HDR) true Hs1 Hh' ltac:(done)
    Hne ltac:(lia) l1 sz1 fr1 E) as [Hl Hcl].
  eexists _, _, _. split; [reflexivity|]. exists bl, (MIN_ALLOC - HDR), [].
  split_and!.
  - split; simpl; [by rewrite Hhd; destruct bl| |done|lia]. rewrite Hnf'.
    replace (nf + 4096) with (nf + HDR + (MIN_ALLOC - HDR)) by (unfold HDR, MIN_ALLOC; lia). done.
  - lia.
  - rewrite app_nil_r. done.
  - rewrite live_app. simpl. by rewrite app_nil_r.
  - eapply keeps_trans; [|by eapply keeps_header].
    eapply (keeps_changes m m1 m); [done|exact Hc|lia|].
    intros p s Hin. left. eapply live_bounds in Hin; [|done]. lia.
  - simpl. lia.
Qed.

Lemma pick_block_spec bl :
  heap_rep h m base bl -> (length bl < fuel)%nat ->
  exists blk h1 m1, pick_block fuel h m n = Done (blk, h1, m1) /\ picked h m base bl n blk h1 m1.
Proof.
  intros Hr Hf. destruct (decide (bl = [])) as [->|Hne]; [by apply pick_first|].
  destruct (first_fit n base bl) as [[]|] eqn:F; [by eapply pick_fit|by eapply pick_grow].
Qed.
End pick.

(** [malloc] does to the blocks what first fit does to the list. *)
Lemma malloc_spec fuel h m base bl n :
  heap_rep h m base bl -> 0 < n <= 4072 -> next_free_page (pages h) + 4096 < 2 ^ 63 ->
  (length bl < fuel)%nat ->
  let r := a_malloc n base (next_free_page (pages h)) bl in
  exists h' m', malloc fuel h m n = Done (r.1, h', m') /\ heap_rep h' m' base r.2 /\
    keeps base bl m m' /\
    next_free_page (pages h') <= next_free_page (pages h) + 4096.
Proof.
  intros Hr Hn Hnf Hf. unfold a_malloc, malloc. decide_lia.
  rewrite align8_eq by lia. pose proof (align8_bounds n ltac:(lia)) as Hal.
  assert (align8 n <= 4072) as Hal2.
  { unfold align8 in *. pose proof (Z.div_le_mono (n + 7) 4079 8). lia. }
  destruct (pick_block_spec fuel h m base (align8 n) ltac:(lia) Hnf bl Hr Hf)
    as (blk & h1 & m1 & -> & l1 & sz & l2 & [Hhd1 Hs1 Hb Htop1] & -> & -> & Hlive & Hk & Hnf1).
  apply seg_prefix in Hs1 as Ht. cbn [mbind res_bind fst snd]. decide_lia.
  destruct (seg_take m1 base l1 sz true l2 _ (align8 n) Hs1) as [Hs2 Hc2];
    [done|lia|unfold HDR; lia|lia|].
  eexists _, _. split; [reflexivity|]. split_and!; [| |lia].
  - split; [|done..]. rewrite Hhd1. destruct (place_cons (align8 n) sz) as (s & tl & ->).
    by destruct l1.
  - eapply keeps_trans; [exact Hk|].
    destruct Hr. eapply (keeps_changes _ _ m); [done|exact Hc2|lia|].
    rewrite Hlive. intros p s Hin. by eapply live_free_block.
Qed.

Lemma place_live n sz : n <= sz -> exists s tl,
  place n sz false = (s, false) :: tl /\ n <= s /\ total (place n sz false) = HDR + sz /\
  forall b, live b tl = [].
Proof.
  intros. unfold place. case_match; simpl.
  - exists n, [(sz - n - HDR, true)]. split_and!; [done|lia|lia|done].
  - exists sz, []. split_and!; [done|done|lia|done].
Qed.

(** [first_fit] and the new page alike put a block of at least [n] bytes in
    place of a free one. *)
Lemma live_place base l1 sz l2 n :
  n <= sz -> exists s, n <= s /\
  live base (l1 ++ place n sz false ++ l2) ≡ₚ
    (base + total l1 + HDR, s) :: live base (l1 ++ (sz, true) :: l2).
Proof.
  intros Hn. destruct (place_live n sz Hn) as (s & tl & Hp & Hs & Ht & Hl).
  exists s. split; [done|]. rewrite !live_app, Ht, Hp. simpl. rewrite Hl. simpl.
  replace (base + total l1 + HDR + sz) with (base + total l1 + (HDR + sz)) by lia.
  by rewrite <- Permutation_middle.
Qed.

Lemma a_malloc_live m base bl e n :
  seg m base bl e 0 -> 0 < n <= 4072 ->
  exists s, n <= s /\
  live base (a_malloc n base e bl).2 ≡ₚ ((a_malloc n base e bl).1, s) :: live base bl.
Proof.
  intros Hs Hn. pose proof (align8_bounds n ltac:(lia)) as Hal.
  assert (align8 n <= 4072) as Hal2.
  { unfold align8 in *. pose proof (Z.div_le_mono (n + 7) 4079 8). lia. }
  unfold a_malloc. destruct (first_fit _ _ _) as [[p bl']|] eqn:F.
  - apply first_fit_Some in F as (l1 & sz & l2 & -> & _ & Hle & -> & ->).
    destruct (live_place base l1 sz l2 _ Hle) as (s & ? & Hl). exists s. split; [lia|done].
  - destruct (live_place base bl (MIN_ALLOC - HDR) [] (align8 n)) as (s & ? & Hl);
      [unfold HDR, MIN_ALLOC; lia|].
    exists s. split; [lia|]. simpl. rewrite app_nil_r in Hl. rewrite Hl.
    apply seg_bounds in Hs as [-> _]. rewrite live_app. simpl. by rewrite app_nil_r.
Qed.

(** *** Freeing *)

Lemma live_elem b bl p sz :
  (p, sz) ∈ live b bl -> exists l1 l2, bl = l1 ++ (sz, false) :: l2 /\ p = b + total l1 + HDR.
Proof.
  revert b. induction bl as [|[sz' fr] bl IH]; intros b; simpl; [by intros ?%elem_of_nil|].
  intros Hin. destruct fr; [|apply elem_of_cons in Hin as [[= -> ->]|Hin]].
  - apply IH in Hin as (l1 & l2 & -> & ->). exists ((sz', true) :: l1), l2. split; [done|simpl; lia].
  - exists [], bl. split; [done|simpl; lia].
  - apply IH in Hin as (l1 & l2 & -> & ->). exists ((sz', false) :: l1), l2. split; [done|simpl; lia].
Qed.

Definition merge (sz : Z) (l2 : list ablk) : list ablk :=
  match l2 with
  | (sz', true) :: l3 => (sz + (HDR + sz'), true) :: l3
  | _ => (sz, true) :: l2
  end.

Lemma a_free_app m b l1 sz l2 e nx :
  seg m b l1 e nx ->
  a_free b (l1 ++ (sz, false) :: l2) (b + total l1 + HDR) = l1 ++ merge sz l2.
Proof.
  revert b. induction l1 as [|[s fr] l1 IH]; intros b.
  - intros _. simpl. decide_lia. done.
  - intros (? & _ & Hs). apply seg_bounds in Hs as Hb. simpl. unfold HDR in *. decide_lia. f_equal.
    rewrite <- (IH _ Hs). f_equal. simpl. lia.
Qed.

Lemma a_free_length b bl ptr : (length (a_free b bl ptr) <= length bl)%nat.
Proof.
  revert b. induction bl as [|[sz fr] bl IH]; intros b; [done|]. cbn [a_free].
  case_match; [destruct bl as [|[? []] ?]; cbn [length]; lia|]. cbn [length]. specialize (IH (b + HDR + sz)). lia.
Qed.

Lemma live_merge b sz l2 : live b (merge sz l2) = live (b + HDR + sz) l2.
Proof.
  unfold merge. destruct l2 as [|[s [|]] l3]; simpl; [done| |done].
  f_equal. lia.
Qed.

Lemma free_seg m b sz fr l2 e :
  seg m b ((sz, fr) :: l2) e 0 -> 0 < b -> e < 2 ^ 64 ->
  seg (free m (b + HDR)) b (merge sz l2) e 0 /\ changes b (b + HDR) m (free m (b + HDR)).
Proof.
  intros Hs Hb He. unfold free.
  assert ((b + HDR =? 0) = false) as -> by (unfold HDR; lia).
  replace (b + HDR - HDR) with b by lia.
  apply (seg_set_free _ _ _ _ true) in Hs. change (Z.b2z true) with 1 in Hs.
  assert (changes b (b + HDR) m (set_free m b 1)) as Hc1.
  { eapply changes_weaken; [apply store32_changes|lia|unfold HDR; lia]. }
  set (m1 := set_free m b 1) in *. clearbody m1.
  destruct Hs as (Hsz & Hh & Hs). destruct Hh as (Hz & Hf & Hn). rewrite Hn.
  destruct l2 as [|[s fr2] l3].
  { split; [|exact Hc1]. cbn [merge seg]. split_and!; done. }
  destruct Hs as (Hs0 & Hh2 & Hs). unfold HDR in *. decide_lia. cbn [negb andb].
  rewrite (blk_free_tst _ _ _ _ _ Hh2). destruct fr2; cbn [merge];
    [|split; [split_and!; try done; lia|done]].
  apply seg_bounds in Hs as Hbd. destruct Hh2 as (Hz2 & Hf2 & Hn2).
  rewrite Hz, Hz2. rewrite u64_id by lia.
  set (v := match l3 with [] => 0 | _ => b + 24 + sz + 24 + s end) in *.
  assert (blk_next (set_size m1 b (sz + (24 + s))) (blk_next (set_size m1 b (sz + (24 + s))) b) = v)
    as ->.
  { assert (blk_next (set_size m1 b (sz + (24 + s))) b = b + 24 + sz) as -> by (by hdr_words).
    rewrite <- Hn2. by hdr_words. }
  assert (0 <= v < 2 ^ 64) as Hv by (rewrite <- Hn2; apply load64_range).
  assert (changes b (b + 24) m1 (set_next (set_size m1 b (sz + (24 + s))) b v)) as Hc2.
  { intros a Ha. unfold set_next, set_size.
    rewrite (store64_changes _ (b + 16)), (store64_changes _ b) by lia. done. }
  split; [|by eapply changes_trans].
  replace (b + 24 + (sz + (24 + s))) with (b + 24 + sz + 24 + s) by lia.
  cbn [seg]. unfold HDR. split_and!; [lia| |].
  - hdr_words. rewrite Hf, !u64_id by lia. split_and!; [done|done|].
    unfold v. destruct l3; [done|lia].
  - replace (b + 24 + (sz + (24 + s))) with (b + 24 + sz + 24 + s) by lia.
    eapply seg_changes; [exact Hc2|lia|done].
Qed.

(** [free] does to the blocks what [a_free] does to the list. *)
Lemma free_spec h m base bl ptr sz :
  heap_rep h m base bl -> (ptr, sz) ∈ live base bl ->
  let m' := free m ptr in
  let bl' := a_free base bl ptr in
  heap_rep h m' base bl' /\ keeps base bl m m' /\ live base bl ≡ₚ (ptr, sz) :: live base bl'.
Proof.
  intros [Hhd Hs Hb Htop] Hin. cbv zeta.
  apply live_elem in Hin as (l1 & l2 & -> & ->). apply seg_prefix in Hs as Ht.
  apply seg_app in Hs as Hs'. destruct Hs' as (mid & H1 & H2).
  apply seg_bounds in H1 as Hb1. destruct Hb1 as [-> Hb1].
  erewrite a_free_app by exact H1.
  destruct (free_seg m _ sz false l2 _ H2) as [H2' Hc]; [lia|lia|].
  split_and!.
  - split; [|  |done..].
    + rewrite Hhd. unfold merge. destruct l1; [|done]. by destruct l2 as [|[? [|]] ?].
    + apply seg_app. exists (base + total l1). split; [|exact H2'].
      eapply (seg_changes _ _ _ _ _ _ (base + total l1)) in H1; [|exact Hc|lia].
      unfold merge. by destruct l2 as [|[? [|]] ?].
  - by eapply keeps_header.
  - rewrite !live_app, live_merge. simpl. by rewrite <- Permutation_middle.
Qed.

(** *** Writing to a payload *)

Lemma live_header m b bl e nx p sz :
  seg m b bl e nx -> (p, sz) ∈ live b bl -> blk_size m (p - HDR) = sz /\ 0 <= sz.
Proof.
  intros Hs Hin. apply live_elem in Hin as (l1 & l2 & -> & ->).
  apply seg_app in Hs as (mid & H1 & Hsz & Hh & _). apply seg_bounds in H1 as [-> _].
  replace (b + total l1 + HDR - HDR) with (b + total l1) by lia. split; [apply Hh|done].
Qed.

(** The bytes of every payload but the one at [p] are the same. *)
Definition keeps_but (p : Z) (l : list (Z * Z)) (m m' : mem) : Prop :=
  forall q sz a, (q, sz) ∈ l -> q <> p -> q <= a < q + sz -> load m' a = load m a.

Lemma live_disjoint_2 m b bl e nx p sz q sz' :
  seg m b bl e nx -> (p, sz) ∈ live b bl -> (q, sz') ∈ live b bl -> p <> q ->
  p + sz <= q \/ q + sz' <= p.
Proof.
  intros Hs [i Hi]%list_elem_of_lookup_1 [j Hj]%list_elem_of_lookup_1 Hne.
  eapply (live_disjoint m b bl e nx Hs i j); [congruence|done..].
Qed.

Lemma heap_rep_write h m m' base bl p sz :
  heap_rep h m base bl -> (p, sz) ∈ live base bl -> changes p (p + sz) m m' ->
  heap_rep h m' base bl /\ keeps_but p (live base bl) m m'.
Proof.
  intros [Hhd Hs Hb Htop] Hin Hc. split.
  - split; [done| |done..]. eapply seg_ext; [|done]. intros a Ha. apply Hc.
    intros Ha'. by eapply live_not_header.
  - intros q sz' a Hq Hne Ha. apply Hc.
    destruct (live_disjoint_2 _ _ _ _ _ p sz q sz' Hs Hin Hq); [congruence|lia..].
Qed.

Lemma keeps_lookup base bl m m' p sz i :
  keeps base bl m m' -> (p, sz) ∈ live base bl -> 0 <= i < sz -> load m' (p + i) = load m (p + i).
Proof. intros [_ Hk] Hin Hi. eapply Hk; [done|lia]. Qed.

(** ** Properties *)

(** What a caller of an allocation function is promised: a pointer to [n]
    bytes of its own; the allocations so far are intact. *)
Definition allocated (h : heap) (m : mem) (base : Z) (bl : list ablk) (n : Z)
    (ptr : Z) (h' : heap) (m' : mem) : Prop :=
  exists bl' s, heap_rep h' m' base bl' /\ n <= s /\
    live base bl' ≡ₚ (ptr, s) :: live base bl /\ base + HDR <= ptr /\
    disjoint_ranges (live base bl') /\ keeps base bl m m' /\
    next_free_page (pages h') <= next_free_page (pages h) + 4096 /\
    (length bl' <= length bl + 2)%nat.

Lemma place_length n sz fr : (length (place n sz fr) <= 2)%nat.
Proof. unfold place. case_match; cbn [length]; lia. Qed.

Lemma a_malloc_length n base top bl : (length (a_malloc n base top bl).2 <= length bl + 2)%nat.
Proof.
  unfold a_malloc. destruct (first_fit _ base bl) as [[p bl']|] eqn:E; cbn [snd].
  - apply first_fit_Some in E as (l1 & sz & l2 & -> & _ & _ & _ & ->).
    pose proof (place_length (align8 n) sz false). rewrite !length_app. cbn [length]. lia.
  - pose proof (place_length (align8 n) (MIN_ALLOC - HDR) false). rewrite length_app. lia.
Qed.

Lemma malloc_allocated fuel h m base bl n :
  heap_rep h m base bl -> 0 < n <= 4072 -> next_free_page (pages h) + 4096 < 2 ^ 63 ->
  (length bl < fuel)%nat ->
  exists ptr h' m', malloc fuel h m n = Done (ptr, h', m') /\ allocated h m base bl n ptr h' m'.
Proof.
  intros Hr Hn Hnf Hf.
  destruct (malloc_spec fuel h m base bl n Hr Hn Hnf Hf) as (h' & m' & Hm & Hr' & Hk & Hp).
  destruct (a_malloc_live m base bl _ n (hr_seg Hr) Hn) as (s & Hs & Hl).
  eexists _, h', m'. split; [exact Hm|]. exists (a_malloc n base (next_free_page (pages h)) bl).2, s.
  split_and!; try done.
  - apply (live_bounds m' base _ _ 0 _ s (hr_seg Hr')). rewrite Hl. by left.
  - eapply live_disjoint, (hr_seg Hr').
  - apply a_malloc_length.
Qed.

(** C8. For requests of 1 to 4072 bytes, which a page can hold together with the
    block's header, [malloc] refines first fit over the
    list of blocks: it returns the address that [a_malloc] computes and leaves
    in memory exactly the blocks that [a_malloc] computes, keeping every
    payload in use. *)
Theorem malloc_refines fuel h m base bl n :
  heap_rep h m base bl -> 0 < n <= 4072 -> next_free_page (pages h) + 4096 < 2 ^ 63 ->
  (length bl < fuel)%nat ->
  let r := a_malloc n base (next_free_page (pages h)) bl in
  exists h' m', malloc fuel h m n = Done (r.1, h', m') /\ heap_rep h' m' base r.2 /\
    keeps base bl m m'.
Proof.
  intros Hr Hn Hnf Hf.
  destruct (malloc_spec fuel h m base bl n Hr Hn Hnf Hf) as (h' & m' & ? & ? & ? & _). eauto.
Qed.

(** [malloc] of a size that a page can hold returns at least that many
    bytes, apart from every allocation in use, whose bytes do not change. *)
Theorem malloc_correct fuel h m base bl n :
  heap_rep h m base bl -> 0 < n <= 4072 -> next_free_page (pages h) + 4096 < 2 ^ 63 ->
  (length bl < fuel)%nat ->
  exists ptr h' m' bl' s, malloc fuel h m n = Done (ptr, h', m') /\ ptr <> 0 /\
    heap_rep h' m' base bl' /\ n <= s /\ live base bl' ≡ₚ (ptr, s) :: live base bl /\
    disjoint_ranges (live base bl') /\ keeps base bl m m'.
Proof.
  intros Hr Hn Hnf Hf.
  destruct (malloc_allocated fuel h m base bl n Hr Hn Hnf Hf) as
    (ptr & h' & m' & Hm & bl' & s & Hr' & Hs & Hl & Hp & Hd & Hk & _).
  exists ptr, h', m', bl', s. pose proof (hr_base Hr). unfold HDR in *.
  split_and!; try done; lia.
Qed.

(** C9. [free] of an allocation in use takes exactly it off the allocations in
    use, as [a_free] does on the list of blocks (with the following block
    joined when it is free), and no other payload changes. *)
Theorem free_correct h m base bl ptr sz :
  heap_rep h m base bl -> (ptr, sz) ∈ live base bl ->
  heap_rep h (free m ptr) base (a_free base bl ptr) /\
  live base bl ≡ₚ (ptr, sz) :: live base (a_free base bl ptr) /\ keeps base bl m (free m ptr).
Proof. intros Hr Hin. by destruct (free_spec h m base bl ptr sz Hr Hin) as (? & ? & ?). Qed.

(** C12. [calloc] of 1 to 4072 bytes in all, which a page can hold, returns at least that
    many bytes, zeroed and apart from every allocation in use, keeps the
    allocations in use and their bytes, and stores nothing below the heap. *)
Theorem calloc_correct fuel h m base bl nmemb size :
  heap_rep h m base bl -> 0 < nmemb * size <= 4072 ->
  next_free_page (pages h) + 4096 < 2 ^ 63 -> (length bl < fuel)%nat ->
  exists ptr h' m' bl' s, calloc fuel h m nmemb size = Done (ptr, h', m') /\
    heap_rep h' m' base bl' /\ nmemb * size <= s /\
    live base bl' ≡ₚ (ptr, s) :: live base bl /\
    (forall i, 0 <= i < nmemb * size -> load m' (ptr + i) = 0) /\
    keeps_but ptr (live base bl) m m' /\ (forall a, a < base -> load m' a = load m a) /\
    next_free_page (pages h') <= next_free_page (pages h) + 4096 /\
    (length bl' <= length bl + 2)%nat.
Proof.
  intros Hr Hn Hnf Hf. unfold calloc. rewrite u64_id by lia. set (n := nmemb * size) in *.
  destruct (malloc_allocated fuel h m base bl n Hr Hn Hnf Hf) as
    (ptr & h' & m' & -> & bl' & s & Hr' & Hs & Hl & Hp & Hd & Hk & Hnf' & Hlen').
  cbn [mbind res_bind]. pose proof (hr_base Hr).
  assert ((ptr =? 0) = false) as -> by (unfold HDR in *; lia).
  assert ((ptr, s) ∈ live base bl') as Hin by (rewrite Hl; by left).
  destruct (heap_rep_write h' m' (memset m' ptr 0 n) base bl' ptr s Hr' Hin) as [Hr2 Hk2].
  { eapply changes_weaken; [apply memset_changes|lia|lia]. }
  eexists _, _, _, bl', s. split; [reflexivity|]. split_and!; try done.
  - intros i Hi. rewrite memset_load. by rewrite decide_True by lia.
  - intros q sz a Hq Hne Ha. rewrite (Hk2 q sz a); [|rewrite Hl; by right|done..].
    destruct Hk as [_ Hk]. by eapply Hk.
  - intros a Ha. rewrite memset_changes by (unfold HDR in *; lia). by apply Hk.
Qed.

Lemma seg_split_mid m base l1 sz fr l2 e n :
  seg m base (l1 ++ (sz, fr) :: l2) e 0 -> 0 < base -> 0 <= n -> n + HDR + 32 < 2 ^ 64 ->
  e < 2 ^ 64 ->
  let b := base + total l1 in
  seg (split_block m b n) base (l1 ++ place n sz fr ++ l2) e 0 /\
  (forall a, a < b \/ b + HDR + sz <= a \/ b + HDR <= a < b + HDR + n ->
     load (split_block m b n) a = load m a).
Proof.
  intros Hs Hb Hn Hn1 He b. apply seg_app in Hs as (mid & H1 & H2).
  apply seg_bounds in H1 as Hmid. destruct Hmid as [-> Hmid]. fold b in H1, H2, Hmid.
  destruct (seg_split m b sz fr l2 e 0 n) as [Hp Hc]; [done|lia..|]. split; [|exact Hc].
  destruct (place_cons n sz) as (s & tl & Hpl). rewrite Hpl in Hp |- *.
  apply seg_app. exists b. split; [|exact Hp]. eapply seg_ext; [|exact H1].
  intros a Ha. apply Hc. eapply in_header_bounds in Ha; [|exact H1]. lia.
Qed.

(** [realloc] of a payload in place: the rest of the block becomes free. *)
Lemma realloc_shrink fuel h m base bl ptr sz n :
  heap_rep h m base bl -> (ptr, sz) ∈ live base bl -> 0 < n <= sz ->
  exists m' bl' s rest, realloc fuel h m ptr n = Done (ptr, h, m') /\
    heap_rep h m' base bl' /\ n <= s /\
    live base bl ≡ₚ (ptr, sz) :: rest /\ live base bl' ≡ₚ (ptr, s) :: rest /\
    (forall i, 0 <= i < n -> load m' (ptr + i) = load m (ptr + i)) /\
    keeps_but ptr (live base bl) m m' /\ (forall a, a < base -> load m' a = load m a) /\
    (length bl' <= length bl + 2)%nat.
Proof.
  intros [Hhd Hs Hb Htop] Hin Hn. destruct (live_header _ _ _ _ _ _ _ Hs Hin) as [Hz Hsz].
  destruct (live_bounds _ _ _ _ _ _ _ Hs Hin) as [Hlo Hhi].
  unfold realloc. unfold HDR in Hlo. decide_lia.
  apply live_elem in Hin as Hel. destruct Hel as (l1 & l2 & E & Hptr).
  assert (ptr - HDR = base + total l1) as Hb' by lia. rewrite Hb'.
  rewrite E in Hs. apply seg_bounds in Hs as Hbd. apply seg_prefix in Hs as Ht.
  destruct (seg_split_mid m base l1 sz false l2 _ n Hs) as [Hs' Hc];
    [done|lia|unfold HDR in *; lia|lia|].
  destruct (place_live n sz ltac:(lia)) as (s & tl & Hp & Hle & Htot & Hlv).
  eexists _, (l1 ++ place n sz false ++ l2), s, (live base l1 ++ live (base + total l1 + HDR + sz) l2).
  split; [reflexivity|]. split_and!; [|done|..].
  - split; [|done..]. rewrite Hhd, E, Hp. by destruct l1.
  - rewrite E, live_app. simpl. rewrite <- Hptr. by rewrite <- Permutation_middle.
  - rewrite !live_app, Htot, Hp. simpl. rewrite Hlv. simpl.
    replace (base + total l1 + (HDR + sz)) with (base + total l1 + HDR + sz) by lia.
    rewrite <- Hptr. by rewrite <- Permutation_middle.
  - intros i Hi. apply Hc. lia.
  - intros q s' a Hq Hne Ha. apply Hc. rewrite E in Hq.
    destruct (live_disjoint_2 _ _ _ _ _ ptr sz q s' Hs) as [Hd|Hd];
      [rewrite <- E; done|done|congruence|lia|].
    destruct (live_bounds _ _ _ _ _ _ _ Hs Hq) as [Hlo' _].
    left. destruct (decide (a < base + total l1)); [done|].
    exfalso. eapply (live_not_header _ _ _ _ _ q s' a Hs Hq Ha).
    apply in_header_app. right. simpl. left. unfold HDR in *. lia.
  - intros a Ha. apply Hc. unfold HDR in *. lia.
  - pose proof (place_length n sz false). rewrite E, !length_app. cbn [length]. lia.
Qed.

(** [realloc] to a new block. *)
Lemma realloc_grow fuel h m base bl ptr sz n :
  heap_rep h m base bl -> (ptr, sz) ∈ live base bl -> sz < n <= 4072 ->
  next_free_page (pages h) + 4096 < 2 ^ 63 -> (length bl < fuel)%nat ->
  exists q h' m' bl' s rest, realloc fuel h m ptr n = Done (q, h', m') /\
    heap_rep h' m' base bl' /\ n <= s /\
    live base bl ≡ₚ (ptr, sz) :: rest /\ live base bl' ≡ₚ (q, s) :: rest /\
    (forall i, 0 <= i < sz -> load m' (q + i) = load m (ptr + i)) /\
    keeps_but ptr (live base bl) m m' /\ (forall a, a < base -> load m' a = load m a) /\
    next_free_page (pages h') <= next_free_page (pages h) + 4096 /\
    (length bl' <= length bl + 2)%nat.
Proof.
  intros Hr Hin Hn Hnf Hf.
  destruct (live_header _ _ _ _ _ _ _ (hr_seg Hr) Hin) as [Hz Hsz].
  destruct (live_bounds _ _ _ _ _ _ _ (hr_seg Hr) Hin) as [Hlo _].
  pose proof (hr_base Hr) as Hb. unfold realloc. rewrite Hz.
  assert ((ptr =? 0) = false) as -> by (unfold HDR in *; lia). decide_lia.
  destruct (malloc_allocated fuel h m base bl n Hr ltac:(lia) Hnf Hf) as
    (q & h1 & m1 & -> & bl1 & s & Hr1 & Hs & Hl & Hq & Hd & Hk & Hnf1 & Hlen1).
  cbn [mbind res_bind].
  assert ((q =? 0) = false) as -> by (unfold HDR in *; lia).
  assert ((ptr, sz) ∈ live base bl1) as Hin1 by (rewrite Hl; by right).
  assert ((q, s) ∈ live base bl1) as Hinq by (rewrite Hl; by left).
  destruct (live_header _ _ _ _ _ _ _ (hr_seg Hr1) Hin1) as [-> _].
  assert (ptr <> q) as Hpq.
  { pose proof (live_NoDup _ _ _ _ _ (hr_seg Hr1)) as Hnd. rewrite Hl, fmap_cons in Hnd.
    apply NoDup_cons in Hnd as [Hnd _]. intros ->. apply Hnd. by apply (list_elem_of_fmap_2 fst) in Hin. }
  pose proof (live_disjoint_2 _ _ _ _ _ _ _ _ _ (hr_seg Hr1) Hin1 Hinq Hpq) as Hdis.
  set (m2 := memcpy m1 q ptr sz).
  destruct (heap_rep_write h1 m1 m2 base bl1 q s Hr1 Hinq) as [Hr2 Hk2].
  { eapply changes_weaken; [apply memcpy_changes; lia|lia|lia]. }
  destruct (free_spec h1 m2 base bl1 ptr sz Hr2 Hin1) as (Hr3 & Hk3 & Hl3).
  apply elem_of_Permutation in Hin as Hrest. destruct Hrest as [rest Hrest].
  eexists _, _, _, _, s, rest. split; [reflexivity|]. split_and!; [exact Hr3|done|done|..].
  - rewrite Hl, Hrest in Hl3. rewrite perm_swap in Hl3. by apply Permutation_cons_inv in Hl3.
  - intros i Hi. rewrite (keeps_lookup _ _ _ _ q s i Hk3 Hinq) by lia.
    unfold m2. rewrite memcpy_load by lia. rewrite decide_True by lia.
    replace (q + i - q) with i by lia. eapply keeps_lookup; done.
  - intros x sx a Hx Hne Ha. assert ((x, sx) ∈ live base bl1) as Hx1 by (rewrite Hl; by right).
    rewrite (proj2 Hk3 x sx a Hx1 Ha). rewrite (Hk2 x sx a Hx1); [|intros ->|done].
    + by apply (proj2 Hk x sx a).
    + pose proof (live_NoDup _ _ _ _ _ (hr_seg Hr1)) as Hnd. rewrite Hl, fmap_cons in Hnd.
      apply NoDup_cons in Hnd as [Hnd _]. apply Hnd. by apply (list_elem_of_fmap_2 fst) in Hx.
  - intros a Ha. rewrite (proj1 Hk3 a Ha). unfold m2. rewrite memcpy_changes by (unfold HDR in *; lia).
    by apply Hk.
  - done.
  - pose proof (a_free_length base bl1 ptr). lia.
Qed.

(** C10. [realloc] of an allocation in use to a size [n] of 1 to 4072 bytes, which a page
    can hold, returns at least [n] bytes that start
    with the old contents (as much of them as both sizes hold), in place when
    the block is large enough; the other allocations and their bytes stay. *)
Theorem realloc_correct fuel h m base bl ptr sz n :
  heap_rep h m base bl -> (ptr, sz) ∈ live base bl -> 0 < n <= 4072 ->
  next_free_page (pages h) + 4096 < 2 ^ 63 -> (length bl < fuel)%nat ->
  exists q h' m' bl' s rest, realloc fuel h m ptr n = Done (q, h', m') /\
    (n <= sz -> q = ptr) /\ heap_rep h' m' base bl' /\ n <= s /\
    live base bl ≡ₚ (ptr, sz) :: rest /\ live base bl' ≡ₚ (q, s) :: rest /\
    (forall i, 0 <= i < Z.min sz n -> load m' (q + i) = load m (ptr + i)) /\
    keeps_but ptr (live base bl) m m'.
Proof.
  intros Hr Hin Hn Hnf Hf. destruct (Z.le_gt_cases n sz) as [Hle|Hgt].
  - destruct (realloc_shrink fuel h m base bl ptr sz n Hr Hin) as
      (m' & bl' & s & rest & Hm & ? & ? & ? & ? & Hi & ? & _); [lia|].
    exists ptr, h, m', bl', s, rest. split_and!; try done. intros i ?. apply Hi. lia.
  - destruct (realloc_grow fuel h m base bl ptr sz n Hr Hin) as
      (q & h' & m' & bl' & s & rest & Hm & ? & ? & ? & ? & Hi & ? & _); [lia|done..|].
    exists q, h', m', bl', s, rest. split_and!; try done; [lia|]. intros i ?. apply Hi. lia.
Qed.

(** [strdup] of a string that lies in an allocation in use or below the
    heap returns a copy of it that is an allocation of its own. *)
Theorem strdup_correct fuel h m base bl str l :
  heap_rep h m base bl -> cstr m str l -> Z.of_nat (length l) < 4072 ->
  str + Z.of_nat (length l) < base \/
    (exists p sz, (p, sz) ∈ live base bl /\ p <= str /\ str + Z.of_nat (length l) < p + sz) ->
  next_free_page (pages h) + 4096 < 2 ^ 63 -> (length bl < fuel)%nat -> (length l < fuel)%nat ->
  exists q h' m' bl' s, strdup fuel h m str = Done (q, h', m') /\ q <> 0 /\
    heap_rep h' m' base bl' /\ live base bl' ≡ₚ (q, s) :: live base bl /\
    cstr m' q l /\ cstr m' str l.
Proof.
  intros Hr Hl Hlen Hstr Hnf Hf Hf'. unfold strdup.
  rewrite (strlen_spec _ _ _ l) by done. cbn [mbind res_bind].
  rewrite u64_id by lia. set (n := Z.of_nat (length l) + 1).
  destruct (malloc_allocated fuel h m base bl n Hr ltac:(lia) Hnf Hf) as
    (q & h1 & m1 & -> & bl1 & s & Hr1 & Hs & Hlv & Hq & _ & Hk & _).
  cbn [mbind res_bind]. pose proof (hr_base Hr).
  assert ((q =? 0) = false) as -> by (unfold HDR in *; lia).
  assert ((q, s) ∈ live base bl1) as Hinq by (rewrite Hlv; by left).
  destruct (heap_rep_write h1 m1 (memcpy m1 q str n) base bl1 q s Hr1 Hinq) as [Hr2 Hk2].
  { eapply changes_weaken; [apply memcpy_changes; lia|lia|lia]. }
  assert (str + n <= q \/ q + s <= str) as Hdis.
  { destruct Hstr as [?|(p & sz & Hin & ? & ?)]; [unfold HDR in *; lia|].
    pose proof (live_NoDup _ _ _ _ _ (hr_seg Hr1)) as Hnd. rewrite Hlv, fmap_cons in Hnd.
    apply NoDup_cons in Hnd as [Hnd _].
    destruct (live_disjoint_2 _ _ _ _ _ p sz q s (hr_seg Hr1)); [rewrite Hlv; by right|done| |lia..].
    intros ->. apply Hnd. by apply (list_elem_of_fmap_2 fst) in Hin. }
  assert (forall i, 0 <= i < n -> load m1 (str + i) = load m (str + i)) as Hkeep.
  { intros i Hi. destruct Hstr as [?|(p & sz & Hin & ? & ?)]; [apply Hk; lia|].
    apply (proj2 Hk p sz); [done|lia]. }
  destruct Hl as [Hfl Hb]. assert (bytes_at m1 str (l ++ [0])) as Hb1.
  { rewrite bytes_at_lookup in Hb |- *. intros i c Hi. rewrite Hkeep; [by apply Hb|].
    apply lookup_lt_Some in Hi. rewrite length_app in Hi. simpl in Hi. lia. }
  eexists q, _, _, bl1, s. split; [reflexivity|]. split_and!; try done.
  - unfold HDR in *. lia.
  - split; [done|]. rewrite bytes_at_lookup in Hb1 |- *. intros i c Hi.
    apply lookup_lt_Some in Hi as Hlt. rewrite length_app in Hlt. simpl in Hlt.
    rewrite memcpy_load by lia. rewrite decide_True by lia.
    replace (str + (q + Z.of_nat i - q)) with (str + Z.of_nat i) by lia. by apply Hb1.
  - split; [done|]. eapply bytes_at_changes; [apply memcpy_changes; lia| |done].
    rewrite length_app. simpl. lia.
Qed.

(** The first allocation of more than a page can hold: the block's header
    claims all the bytes although only one page was taken, so the page the
    next allocation that needs one gets lies inside the first payload. *)
Theorem malloc_large_overlap fuel st m n :
  0 < next_free_page st -> next_free_page st + 8192 < 2 ^ 63 ->
  4096 < n < 2 ^ 62 -> n mod 8 = 0 -> (1 < fuel)%nat ->
  exists ptr h1 m1 ptr2 h2 m2,
    malloc fuel (MkHeap 0 st) m n = Done (ptr, h1, m1) /\
    malloc fuel h1 m1 n = Done (ptr2, h2, m2) /\
    ptr < ptr2 < ptr + n.
Proof.
  intros Hnf Htop Hn Ha Hf. set (nf := next_free_page st) in *.
  assert (u64 (n + 7) .& u64 (Z.lnot 7) = n) as Hal.
  { rewrite align8_eq by lia. unfold align8. pose proof (Z.div_mod n 8 ltac:(lia)) as Hd.
    rewrite Hd, Ha at 1. replace (8 * (n / 8) + 0 + 7) with (n / 8 * 8 + 7) by lia.
    rewrite Z.div_add_l by lia. change (7 / 8) with 0. lia. }
  destruct (new_block_any (MkHeap 0 st) m n) as (st1 & m1 & H1 & Hst1 & Hh1 & _);
    [lia|simpl; fold nf; lia..|]. simpl in H1, Hst1, Hh1. fold nf in H1, Hst1, Hh1.
  rewrite Z.max_l in Hh1 by (unfold MIN_ALLOC, HDR; lia).
  replace (n + HDR - HDR) with n in Hh1 by lia.
  assert (forall m b, blk_size m b = n -> split_block m b n = m) as Hns.
  { intros m' b Hz. unfold split_block. rewrite !u64_id by (rewrite ?u64_id; unfold HDR; lia).
    rewrite Hz. unfold HDR. by decide_lia. }
  set (m1' := set_free m1 nf 0).
  destruct (new_block_any (MkHeap nf st1) m1' n) as (st2 & m2 & H2 & Hst2 & Hh2 & _);
    [lia|simpl; lia..|]. simpl in H2, Hh2. rewrite Hst1 in *.
  eexists _, (MkHeap nf st1), m1', (nf + 4096 + HDR), _, _. split_and!.
  - unfold malloc. decide_lia. rewrite Hal. unfold pick_block. simpl heap_head.
    rewrite Z.eqb_refl, H1. decide_lia. cbn [mbind res_bind]. decide_lia.
    rewrite Hns by apply Hh1. reflexivity.
  - unfold malloc. decide_lia. rewrite Hal. unfold pick_block. simpl heap_head. decide_lia.
    apply (set_free_header _ _ _ _ false) in Hh1. change (set_free m1 nf (Z.b2z false)) with m1' in Hh1.
    destruct fuel as [|[|fuel]]; [lia..|]. cbn [find_free_block]. decide_lia.
    rewrite (blk_free_tst _ _ _ _ _ Hh1). cbn [negb andb].
    destruct Hh1 as (_ & _ & ->). rewrite Z.eqb_refl. cbn [negb andb mbind res_bind].
    rewrite Z.eqb_refl. rewrite H2. decide_lia. cbn [mbind res_bind]. decide_lia. reflexivity.
  - unfold HDR. lia.
  - unfold HDR. lia.
Qed.

(** ** Concrete inputs *)

Definition w_h0 : heap := MkHeap 0 mmu_initial.
Definition w_blocks : list ablk := [(104, false); (3944, true)].

Lemma w_rep0 : heap_rep w_h0 ∅ 0x400000 [].
Proof. by split. Qed.

(** The heap after a first [malloc(100)]. *)
Lemma w_rep1 : exists h m, heap_rep h m 0x400000 w_blocks /\
  next_free_page (pages h) + 4096 < 2 ^ 63.
Proof.
  destruct (malloc_spec 5 w_h0 ∅ 0x400000 [] 100 w_rep0 ltac:(lia) ltac:(simpl; lia) ltac:(simpl; lia))
    as (h & m & _ & Hr & _ & Hnf).
  exists h, m. split; [exact Hr|]. simpl in Hnf. lia.
Qed.

Lemma w_live1 : (0x400018, 104) ∈ live 0x400000 w_blocks.
Proof. by left. Qed.

Lemma malloc_refines_witness :
  a_malloc 100 0x400000 0x400000 [] = (0x400018, w_blocks) /\
  exists h m, malloc 5 w_h0 ∅ 100 = Done (0x400018, h, m).
Proof.
  split; [reflexivity|].
  destruct (malloc_refines 5 w_h0 ∅ 0x400000 [] 100 w_rep0 ltac:(lia) ltac:(simpl; lia)
    ltac:(simpl; lia)) as (h & m & Hm & _). by exists h, m.
Defined.

Lemma malloc_correct_witness :
  exists ptr h m, malloc 5 w_h0 ∅ 4072 = Done (ptr, h, m) /\ ptr <> 0.
Proof.
  destruct (malloc_correct 5 w_h0 ∅ 0x400000 [] 4072 w_rep0 ltac:(lia) ltac:(simpl; lia)
    ltac:(simpl; lia)) as (ptr & h & m & _ & _ & ? & ? & _). eauto.
Defined.

Lemma free_correct_witness :
  exists h m, heap_rep h m 0x400000 w_blocks /\
    heap_rep h (free m 0x400018) 0x400000 [(104 + (24 + 3944), true)].
Proof.
  destruct w_rep1 as (h & m & Hr & _). exists h, m. split; [done|].
  apply (free_correct h m 0x400000 w_blocks 0x400018 104 Hr w_live1).
Defined.

Lemma calloc_correct_witness :
  exists ptr h m, calloc 5 w_h0 ∅ 10 20 = Done (ptr, h, m) /\ load m (ptr + 199) = 0.
Proof.
  destruct (calloc_correct 5 w_h0 ∅ 0x400000 [] 10 20 w_rep0 ltac:(lia) ltac:(simpl; lia)
    ltac:(simpl; lia)) as (ptr & h & m & _ & _ & ? & _ & _ & _ & Hz & _).
  exists ptr, h, m. split; [done|]. apply Hz. lia.
Defined.

Lemma realloc_correct_witness :
  exists h m q h' m', heap_rep h m 0x400000 w_blocks /\
    realloc 5 h m 0x400018 3000 = Done (q, h', m') /\ load m' (q + 103) = load m (0x400018 + 103).
Proof.
  destruct w_rep1 as (h & m & Hr & Hnf).
  destruct (realloc_correct 5 h m 0x400000 w_blocks 0x400018 104 3000 Hr w_live1 ltac:(lia) Hnf
    ltac:(simpl; lia)) as (q & h' & m' & _ & _ & _ & ? & _ & _ & _ & _ & _ & Hi & _).
  exists h, m, q, h', m'. split_and!; try done. apply Hi. lia.
Defined.

Lemma strdup_correct_witness :
  exists q h m, strdup 5 w_h0 (store ∅ 0x1000 65) 0x1000 = Done (q, h, m) /\ cstr m q [65].
Proof.
  destruct (strdup_correct 5 w_h0 (store ∅ 0x1000 65) 0x400000 [] 0x1000 [65]) as
    (q & h & m & _ & _ & ? & _ & _ & _ & ? & _);
    [by split|split; [by repeat constructor|by vm_compute]|simpl; lia|left; simpl; lia|simpl; lia..|].
  eauto.
Defined.

Lemma malloc_large_overlap_witness :
  exists ptr h1 m1 ptr2 h2 m2,
    malloc 2 w_h0 ∅ 8192 = Done (ptr, h1, m1) /\ malloc 2 h1 m1 8192 = Done (ptr2, h2, m2) /\
    ptr < ptr2 < ptr + 8192.
Proof. apply (malloc_large_overlap 2 mmu_initial ∅ 8192); [simpl; lia..|reflexivity|lia]. Defined.

(** A product that wraps: [calloc] hands out 8 bytes for 2^64 + 8. *)
Lemma calloc_wraps h m : calloc 5 h m (2 ^ 61 + 1) 8 = calloc 5 h m 1 8.
Proof. reflexivity. Qed.
