(* ===== verification/RamDisk.v ===== *)
(** * RAM disk (src/impl/kernel/ramdisk.c)

    The file table and the allocator of a mounted RAM disk are records; the
    1 MiB of disk data and the callers' buffers lie in the byte memory. The
    structure is kept apart from the data (the C code has both on the heap).
    A node stands for the name it carries. *)
From S2P Require Export CString Console.

(** ** Definitions *)

Definition RAMDISK_SIZE := 1024 * 1024.
Definition RAMDISK_BLOCK_SIZE := 512.
Definition RAMDISK_MAX_FILES := 64.
Definition RAMDISK_MAX_NAME_LEN := 32.

Record RamDiskFile := MkFile {
  rf_name : list Z;
  rf_flags : Z;
  rf_size : Z;
  block_start : Z;
  block_count : Z;
  create_time : Z;
  modify_time : Z;
  access_time : Z;
  in_use : bool;
}.

Definition no_file : RamDiskFile := MkFile [] 0 0 0 0 0 0 0 false.

Record RamDisk := MkRamDisk {
  data : Z;
  files : list RamDiskFile;
  free_block_start : Z;
  total_blocks : Z;
  free_blocks : Z;
}.

(** The state: the disk, the byte memory and the console. *)
Record st := MkSt { disk : RamDisk; ram : mem; screen : Console }.

Definition set_disk (d : RamDisk) (s : st) : st := MkSt d (ram s) (screen s).
Definition set_ram (m : mem) (s : st) : st := MkSt (disk s) m (screen s).
Definition puts (text : list Z) (s : st) : st := MkSt (disk s) (ram s) (print_str text (screen s)).
Definition set_files (fs : list RamDiskFile) (d : RamDisk) : RamDisk :=
  MkRamDisk (data d) fs (free_block_start d) (total_blocks d) (free_blocks d).

(** What [ramdisk_create] sets up once its allocations are made. *)
Definition ramdisk_format (d : Z) (m : mem) : RamDisk * mem :=
  (MkRamDisk d (replicate (Z.to_nat RAMDISK_MAX_FILES) no_file) 0
     (RAMDISK_SIZE / RAMDISK_BLOCK_SIZE) (RAMDISK_SIZE / RAMDISK_BLOCK_SIZE),
   memset m d 0 RAMDISK_SIZE).

Definition find_free_file (d : RamDisk) : option nat :=
  fst <$> list_find (fun f => in_use f = false) (files d).

Definition find_file_by_name (d : RamDisk) (name : list Z) : option nat :=
  fst <$> list_find (fun f => in_use f = true /\ rf_name f = name) (files d).

(** [None] is the result -1; otherwise the first block, stored through [start]. *)
Definition allocate_blocks (d : RamDisk) (count : Z) : option (Z * RamDisk) :=
  if free_blocks d <? count then None
  else Some (free_block_start d,
    MkRamDisk (data d) (files d) (u32 (free_block_start d + count)) (total_blocks d)
      (u32 (free_blocks d - count))).

Definition ramdisk_create_file (s : st) (name : list Z) (flags : Z) : Z * st :=
  if RAMDISK_MAX_NAME_LEN <=? Z.of_nat (length name) then
    (-1, puts (line "[RAMDISK] Error: File name too long") s)
  else if decide (is_Some (find_file_by_name (disk s) name)) then
    (-1, puts (line "[RAMDISK] Error: File already exists") s)
  else
    match find_free_file (disk s) with
    | None => (-1, puts (line "[RAMDISK] Error: Maximum number of files reached") s)
    | Some i =>
        let file := MkFile name flags 0 0 0 0 0 0 true in
        let s := set_disk (set_files (<[i := file]> (files (disk s))) (disk s)) s in
        (0, puts (bytes_of "[RAMDISK] Created file: " ++ name ++ [10]) s)
    end.

Definition ramdisk_delete_file (s : st) (name : list Z) : Z * st :=
  match find_file_by_name (disk s) name with
  | None => (-1, puts (line "[RAMDISK] Error: File not found") s)
  | Some i =>
      let d := disk s in
      let file := default no_file (files d !! i) in
      let d := MkRamDisk (data d) (<[i := no_file]> (files d)) (free_block_start d) (total_blocks d)
        (u32 (free_blocks d + block_count file)) in
      (0, puts (bytes_of "[RAMDISK] Deleted file: " ++ name ++ [10]) (set_disk d s))
  end.

(** The address of a file's first byte. *)
Definition file_data (d : RamDisk) (start : Z) : Z := data d + u32 (start * RAMDISK_BLOCK_SIZE).

Definition set_file (i : nat) (f : RamDiskFile) (d : RamDisk) : RamDisk :=
  set_files (<[i := f]> (files d)) d.

Definition with_size (n : Z) (f : RamDiskFile) : RamDiskFile :=
  MkFile (rf_name f) (rf_flags f) n (block_start f) (block_count f) (create_time f)
    (modify_time f) (access_time f) (in_use f).
Definition with_blocks (b c : Z) (f : RamDiskFile) : RamDiskFile :=
  MkFile (rf_name f) (rf_flags f) (rf_size f) b c (create_time f)
    (modify_time f) (access_time f) (in_use f).
Definition with_times (mt at_ : Z) (f : RamDiskFile) : RamDiskFile :=
  MkFile (rf_name f) (rf_flags f) (rf_size f) (block_start f) (block_count f) (create_time f)
    mt at_ (in_use f).

Definition ramdisk_read (s : st) (name : list Z) (offset size buffer : Z) : Z * st :=
  match find_file_by_name (disk s) name with
  | None => (-1, puts (line "[RAMDISK] Error: File not found") s)
  | Some i =>
      let file := default no_file (files (disk s) !! i) in
      if rf_size file <=? offset then (0, s)
      else
        let read_size := if rf_size file <? u64 (offset + size) then rf_size file - offset else size in
        let src := file_data (disk s) (block_start file) + offset in
        let m := memcpy (ram s) buffer src read_size in
        let file := with_times (modify_time file) 0 file in
        (i32 read_size, set_ram m (set_disk (set_file i file (disk s)) s))
  end.

(** The part of [ramdisk_write] that gives a file more blocks, moving its
    contents; [None] when there is no space. *)
Definition grow_file (d : RamDisk) (m : mem) (file : RamDiskFile) (required_blocks : Z)
  : option (RamDiskFile * RamDisk * mem) :=
  if block_count file <? required_blocks then
    let new_blocks := required_blocks - block_count file in
    match allocate_blocks d new_blocks with
    | None => None
    | Some (new_start, d) =>
        let m :=
          if 0 <? block_count file then
            memcpy m (file_data d new_start) (file_data d (block_start file)) (rf_size file)
          else m in
        Some (with_blocks new_start required_blocks file, d, m)
    end
  else Some (file, d, m).

Definition ramdisk_write (s : st) (name : list Z) (offset size buffer : Z) : Z * st :=
  match find_file_by_name (disk s) name with
  | None => (-1, puts (line "[RAMDISK] Error: File not found") s)
  | Some i =>
      let file := default no_file (files (disk s) !! i) in
      let required_blocks :=
        u32 (u64 (offset + size + RAMDISK_BLOCK_SIZE - 1) / RAMDISK_BLOCK_SIZE) in
      match grow_file (disk s) (ram s) file required_blocks with
      | None => (-1, puts (line "[RAMDISK] Error: No space available") s)
      | Some (file, d, m) =>
          let dest := file_data d (block_start file) + offset in
          let m := memcpy m dest buffer size in
          let file := if rf_size file <? u64 (offset + size)
                      then with_size (u32 (offset + size)) file else file in
          let file := with_times 0 0 file in
          (i32 size, set_ram m (set_disk (set_file i file d) s))
      end
  end.

(** ** The abstract disk: a map from names to contents *)

Definition contents (d : RamDisk) (m : mem) (f : RamDiskFile) : list Z :=
  read_bytes m (file_data d (block_start f)) (Z.to_nat (rf_size f)).

(** ** Well-formed disks *)

Record file_ok (d : RamDisk) (f : RamDiskFile) : Prop := {
  fo_start : 0 <= block_start f;
  fo_count : 0 <= block_count f;
  fo_end : block_start f + block_count f <= free_block_start d;
  fo_size : 0 <= rf_size f <= RAMDISK_BLOCK_SIZE * block_count f;
}.

Definition apart (f g : RamDiskFile) : Prop :=
  block_start f + block_count f <= block_start g \/ block_start g + block_count g <= block_start f.

(** The blocks below [free_block_start] are the files', each block of one
    file; the others are free. *)
Record disk_ok (d : RamDisk) : Prop := {
  do_files : length (files d) = 64%nat;
  do_free : 0 <= free_block_start d;
  do_space : 0 <= free_blocks d /\ free_block_start d + free_blocks d = 2048;
  do_file : forall i f, files d !! i = Some f -> in_use f = true -> file_ok d f;
  do_apart : forall i j f g, files d !! i = Some f -> files d !! j = Some g -> i <> j ->
    in_use f = true -> in_use g = true -> apart f g;
}.

Lemma find_by_name_Some d name i :
  find_file_by_name d name = Some i ->
  exists f, files d !! i = Some f /\ in_use f = true /\ rf_name f = name /\
    default no_file (files d !! i) = f.
Proof.
  unfold find_file_by_name. intros ([i' f] & Hf & E)%fmap_Some. simpl in E. subst i'.
  apply list_find_Some in Hf as (Hl & [Hu Hn] & _). exists f. by rewrite Hl.
Qed.

Lemma find_by_name_update d name i f g fs :
  find_file_by_name d name = Some i -> files d !! i = Some f ->
  in_use g = in_use f -> rf_name g = rf_name f -> fs = <[i := g]> (files d) ->
  find_file_by_name (set_files fs d) name = Some i.
Proof.
  unfold find_file_by_name. intros ([i' f'] & Hf & E)%fmap_Some Hi Hu Hn ->. simpl in E. subst i'.
  apply list_find_Some in Hf as (Hl & [Hu' Hn'] & Hmin). rewrite Hi in Hl. injection Hl as <-.
  apply fmap_Some. exists (i, g). split; [|done]. apply list_find_Some.
  apply lookup_lt_Some in Hi as Hlt. simpl. rewrite list_lookup_insert_eq by done.
  split; [done|]. split; [rewrite Hu, Hn; split; congruence|].
  intros j y Hj Hlj. rewrite list_lookup_insert_ne in Hj by lia. by eapply Hmin.
Qed.

Lemma grow_file_inv d m f n f' d' m' :
  grow_file d m f n = Some (f', d', m') ->
  rf_size f' = rf_size f /\ rf_name f' = rf_name f /\ in_use f' = in_use f /\
  files d' = files d /\ data d' = data d /\ n <= block_count f'.
Proof.
  unfold grow_file, allocate_blocks. destruct (Z.ltb_spec (block_count f) n).
  - destruct (free_blocks d <? _); [done|]. intros [= <- <- <-]. simpl. split_and!; done || lia.
  - intros [= <- <- <-]. split_and!; done || lia.
Qed.

(** [n] bytes at [b] that the disk cannot reach. *)
Definition outside (d : RamDisk) (b n : Z) : Prop := b + n <= data d \/ data d + 2 ^ 33 <= b.

Lemma file_data_range d start : data d <= file_data d start < data d + 2 ^ 32.
Proof. unfold file_data. pose proof (u32_range (start * RAMDISK_BLOCK_SIZE)). lia. Qed.

Lemma grow_file_ram d m f n f' d' m' :
  grow_file d m f n = Some (f', d', m') -> 0 <= rf_size f < 2 ^ 32 ->
  changes (data d) (data d + 2 ^ 33) m m'.
Proof.
  unfold grow_file, allocate_blocks. intros Hg Hs. destruct (block_count f <? n).
  - destruct (free_blocks d <? _); [done|]. injection Hg as _ _ <-.
    destruct (0 <? block_count f); [|apply changes_refl].
    match goal with |- context [memcpy m ?a ?b ?c] =>
      pose proof (memcpy_changes m a b c ltac:(lia)) as Hc end.
    pose proof (file_data_range d (free_block_start d)).
    change (file_data (MkRamDisk (data d) _ _ _ _) ?x) with (file_data d x) in Hc |- *.
    eapply changes_weaken; [exact Hc|lia|lia].
  - injection Hg as _ _ <-. apply changes_refl.
Qed.

(** [ramdisk_write] of a file that is found, when there is space. *)
Lemma ramdisk_write_run s name offset size buffer i f f' d' m' :
  find_file_by_name (disk s) name = Some i -> files (disk s) !! i = Some f ->
  grow_file (disk s) (ram s) f
    (u32 (u64 (offset + size + RAMDISK_BLOCK_SIZE - 1) / RAMDISK_BLOCK_SIZE)) = Some (f', d', m') ->
  ramdisk_write s name offset size buffer =
  (i32 size,
   MkSt (set_file i (with_times 0 0 (if rf_size f <? u64 (offset + size)
           then with_size (u32 (offset + size)) f' else f')) d')
     (memcpy m' (file_data d' (block_start f') + offset) buffer size) (screen s)).
Proof.
  intros Hn Hf Hg. unfold ramdisk_write. rewrite Hn, Hf. simpl default. cbv zeta. rewrite Hg.
  destruct (grow_file_inv _ _ _ _ _ _ _ Hg) as (-> & _). done.
Qed.

(** Replacing one entry keeps the disk well formed. *)
Lemma disk_ok_set d d' i f :
  disk_ok d -> files d' = files d ->
  free_block_start d <= free_block_start d' -> 0 <= free_blocks d' ->
  free_block_start d' + free_blocks d' = 2048 ->
  (in_use f = true -> file_ok d' f) ->
  (forall j g, in_use f = true -> j <> i -> files d !! j = Some g -> in_use g = true -> apart f g) ->
  disk_ok (set_file i f d').
Proof.
  intros [Hl Hfs Hsp Hok Hap] Hf Hle Hfb Hsum Hnew Hnap.
  assert (forall g, file_ok d g -> file_ok (set_file i f d') g) as Hmono.
  { intros g [? ? ? ?]. split; simpl; lia. }
  assert (forall j g, files (set_file i f d') !! j = Some g ->
    (j = i /\ g = f) \/ (j <> i /\ files d !! j = Some g)) as Hlook.
  { intros j g. simpl. rewrite Hf. destruct (decide (j = i)) as [->|].
    - intros [(_ & <- & _)|[Hn _]]%list_lookup_insert_Some; [by left|done].
    - rewrite list_lookup_insert_ne by done. auto. }
  split.
  - simpl. by rewrite Hf, length_insert.
  - simpl. lia.
  - simpl. lia.
  - intros j g [[-> ->]|[Hj Hg]]%Hlook Hu; [|by eauto].
    destruct (Hnew Hu) as [? ? ? ?]. by split.
  - intros j k g h [[-> ->]|[Hj Hg]]%Hlook [[-> ->]|[Hk Hh]]%Hlook Hne Hug Huh; [done|..].
    + by eapply Hnap.
    + destruct (Hnap j g Huh Hj Hg Hug); unfold apart; lia.
    + by eapply Hap.
Qed.

(** Giving blocks to an empty file, or none to a file that has enough. *)
Lemma grow_file_ok d m i f n f' d' m' :
  disk_ok d -> files d !! i = Some f -> in_use f = true -> 0 <= n ->
  block_count f = 0 \/ n <= block_count f -> grow_file d m f n = Some (f', d', m') ->
  m' = m /\ disk_ok (set_file i f' d') /\
  (forall j g, j <> i -> files d !! j = Some g -> in_use g = true -> apart f' g).
Proof.
  intros Hd Hf Hu Hn Hc Hg. pose proof Hd as [Hl Hfs Hsp Hok Hap].
  destruct (Hok i f Hf Hu) as [H1 H2 H3 H4]. unfold grow_file, allocate_blocks in Hg.
  destruct (Z.ltb_spec (block_count f) n).
  - destruct (Z.ltb_spec (free_blocks d) (n - block_count f)) as [|Hfr]; [done|].
    injection Hg as <- <- <-. decide_lia. rewrite !u32_id by lia.
    assert (forall j g, j <> i -> files d !! j = Some g -> in_use g = true ->
      apart (with_blocks (free_block_start d) n f) g) as Hnap.
    { intros j g Hj Hg' Hu'. destruct (Hok j g Hg' Hu'). right. simpl. lia. }
    split_and!; [done| |done]. apply (disk_ok_set d); simpl; try done; try lia; eauto.
    intros _. unfold RAMDISK_BLOCK_SIZE in *. split; simpl; unfold RAMDISK_BLOCK_SIZE; lia.
  - injection Hg as <- <- <-. split_and!; [done| |by eauto].
    apply (disk_ok_set d); try done; try lia; eauto.
Qed.

Lemma set_file_twice d i f g : set_file i g (set_file i f d) = set_file i g d.
Proof. unfold set_file, set_files. simpl. by rewrite list_insert_insert_eq. Qed.

Lemma file_data_id d start : 0 <= start <= 2048 -> file_data d start = data d + start * 512.
Proof. intros. unfold file_data. rewrite u32_id; [done|]. unfold RAMDISK_BLOCK_SIZE. lia. Qed.

Lemma required_blocks_bound n :
  0 <= n < 2 ^ 31 ->
  let r := u32 (u64 (n + RAMDISK_BLOCK_SIZE - 1) / RAMDISK_BLOCK_SIZE) in
  0 <= r /\ n <= 512 * r < n + 512.
Proof.
  intros Hn. cbv zeta. unfold RAMDISK_BLOCK_SIZE. rewrite u64_id by lia.
  rewrite u32_id by (split; [apply Z.div_pos|apply Z.div_lt_upper_bound]; lia).
  pose proof (Z.div_mod (n + 512 - 1) 512). pose proof (Z.mod_pos_bound (n + 512 - 1) 512). lia.
Qed.

Lemma grow_file_counts d m f n f' d' m' :
  0 <= block_count f -> 0 <= n < 2 ^ 32 -> 0 <= free_blocks d < 2 ^ 32 ->
  block_count f = 0 \/ n <= block_count f -> grow_file d m f n = Some (f', d', m') ->
  (block_count f <> 0 -> block_start f' = block_start f) /\
  (if block_count f =? 0 then block_count f' = n /\ n <= free_blocks d /\ free_blocks d' = free_blocks d - n
   else block_count f' = block_count f /\ free_blocks d' = free_blocks d).
Proof.
  unfold grow_file, allocate_blocks. intros Hc Hn Hfb Hor Hg. destruct (Z.ltb_spec (block_count f) n).
  - assert (block_count f = 0) as H0 by lia. rewrite H0, Z.sub_0_r in *. decide_lia.
    destruct (Z.ltb_spec (free_blocks d) n); [done|]. injection Hg as <- <- <-. cbn. rewrite u32_id by lia. split; [lia|].
    split_and!; lia.
  - injection Hg as <- <- <-. split; [done|]. destruct (Z.eqb_spec (block_count f) 0); [|done]. split_and!; lia.
Qed.

(** A write that does not have to move the file: it succeeds unless the blocks
    are missing, and touches only the bytes of the disk it is asked to. *)
Lemma ramdisk_write_in_place s name offset size buf r s1 i f :
  disk_ok (disk s) -> find_file_by_name (disk s) name = Some i ->
  files (disk s) !! i = Some f -> in_use f = true ->
  0 <= offset -> 0 <= size -> offset + size < 2 ^ 31 ->
  block_count f = 0 \/ offset + size <= 512 * block_count f ->
  ramdisk_write s name offset size buf = (r, s1) ->
  let required := u32 (u64 (offset + size + RAMDISK_BLOCK_SIZE - 1) / RAMDISK_BLOCK_SIZE) in
  r = -1 /\ disk s1 = disk s /\ ram s1 = ram s /\ block_count f = 0 /\ free_blocks (disk s) < required \/
  exists f1, r = size /\ disk_ok (disk s1) /\ files (disk s1) = <[i := f1]> (files (disk s)) /\
    in_use f1 = true /\ data (disk s1) = data (disk s) /\ rf_size f1 = Z.max (rf_size f) (offset + size) /\
    file_ok (disk s1) f1 /\
    (forall j g, j <> i -> files (disk s) !! j = Some g -> in_use g = true -> apart f1 g) /\
    ram s1 = memcpy (ram s) (file_data (disk s1) (block_start f1) + offset) buf size /\
    rf_name f1 = rf_name f /\ (block_count f <> 0 -> block_start f1 = block_start f) /\
    (if block_count f =? 0 then block_count f1 = required /\ required <= free_blocks (disk s) /\
       free_blocks (disk s1) = free_blocks (disk s) - required
     else block_count f1 = block_count f /\ free_blocks (disk s1) = free_blocks (disk s)).
Proof.
  cbv zeta. intros Hd Hn Hf Hu Ho Hs Hb Hc Hw.
  pose proof (required_blocks_bound (offset + size) ltac:(lia)) as Hreq. cbv zeta in Hreq.
  set (req := u32 (u64 (offset + size + RAMDISK_BLOCK_SIZE - 1) / RAMDISK_BLOCK_SIZE)) in *.
  pose proof Hd as [_ _ _ Hok _]. specialize (Hok i f Hf Hu) as [? ? ? Hsz].
  change RAMDISK_BLOCK_SIZE with 512 in Hsz.
  destruct (grow_file (disk s) (ram s) f req) as [[[f' d'] m']|] eqn:Hg.
  2:{ unfold ramdisk_write in Hw. rewrite Hn, Hf in Hw. simpl default in Hw. cbv zeta in Hw.
      fold req in Hw. rewrite Hg in Hw. injection Hw as <- <-. left.
      enough (block_count f = 0 /\ free_blocks (disk s) < req) as [? ?] by (simpl; by split_and!).
      unfold grow_file, allocate_blocks in Hg. destruct (Z.ltb_spec (block_count f) req); [|done].
      destruct (Z.ltb_spec (free_blocks (disk s)) (req - block_count f)); [split; lia|done]. }
  rewrite (ramdisk_write_run _ _ _ _ _ i f f' d' m' Hn Hf Hg) in Hw.
  destruct (grow_file_inv _ _ _ _ _ _ _ Hg) as (Hs' & Hn' & Hu' & Hfs & Hdt & Hge).
  destruct (grow_file_ok _ _ i f req f' d' m' Hd Hf Hu ltac:(lia) ltac:(lia) Hg) as (-> & Hd' & Hap').
  assert ((block_count f <> 0 -> block_start f' = block_start f) /\
    (if block_count f =? 0 then block_count f' = req /\ req <= free_blocks (disk s) /\
       free_blocks d' = free_blocks (disk s) - req
     else block_count f' = block_count f /\ free_blocks d' = free_blocks (disk s))) as [Hst Hcnt].
  { pose proof (do_space _ Hd). pose proof (do_free _ Hd).
    apply (grow_file_counts (disk s) (ram s) f req f' d' (ram s)); [lia..|exact Hg]. }
  injection Hw as <- <-. right. rewrite i32_id, u64_id, u32_id by lia.
  set (g := with_times 0 0 _).
  assert (in_use g = true /\ block_start g = block_start f' /\ block_count g = block_count f' /\
    rf_size g = Z.max (rf_size f) (offset + size) /\ rf_name g = rf_name f) as (Hgu & Hgb & Hgc & Hgs & Hgn).
  { unfold g. destruct (Z.ltb_spec (rf_size f) (offset + size)); simpl; split_and!; try lia; congruence. }
  clearbody g.
  assert (file_ok d' f') as [F1 F2 F3 F4].
  { pose proof Hd' as [_ _ _ Hok' _]. apply lookup_lt_Some in Hf as Hlt.
    destruct (Hok' i f') as [? ? ? ?]; [|congruence|by split].
    simpl. rewrite Hfs. by rewrite list_lookup_insert_eq. }
  assert (file_ok d' g) as Hgok.
  { unfold RAMDISK_BLOCK_SIZE in *. split; rewrite ?Hgb, ?Hgc, ?Hgs; unfold RAMDISK_BLOCK_SIZE; lia. }
  assert (forall j h, j <> i -> files (disk s) !! j = Some h -> in_use h = true -> apart g h) as Hgap.
  { intros j h Hj Hh Hhu. specialize (Hap' j h Hj Hh Hhu). unfold apart in *. by rewrite Hgb, Hgc. }
  exists g. cbn [disk ram files set_file set_files data]. rewrite Hfs, Hdt.
  split_and!; rewrite ?Hgb, ?Hgc; try done; try lia.
  - rewrite <- (set_file_twice d' i f'). pose proof Hd' as [_ _ Hf1 _ _].
    apply (disk_ok_set _ _ _ _ Hd'); [done|lia|lia|lia|intros _; by destruct Hgok; split|].
    intros j h _ Hj Hh. apply (Hgap j); [done|]. simpl in Hh. rewrite Hfs in Hh.
    by rewrite list_lookup_insert_ne in Hh by done.
  - destruct Hgok. by split.
Qed.

(** A file keeps its contents when no byte of its blocks changes. *)
Lemma contents_changes d d1 m m1 lo hi f :
  disk_ok d -> file_ok d f -> data d1 = data d -> changes lo hi m m1 ->
  hi <= data d + 512 * block_start f \/ data d + 512 * (block_start f + block_count f) <= lo ->
  contents d1 m1 f = contents d m f.
Proof.
  intros Hd [G1 G2 G3 G4] Hdt Hch Hap. pose proof (do_space _ Hd). pose proof (do_free _ Hd). unfold contents.
  unfold file_data at 1. rewrite Hdt. fold (file_data d (block_start f)). rewrite !file_data_id by lia.
  unfold RAMDISK_BLOCK_SIZE in *. eapply read_bytes_changes; [exact Hch|]. lia.
Qed.

(** A write that succeeds in place splices the bytes into the contents. *)
Lemma write_contents d d1 m f f1 offset buf size :
  disk_ok d1 -> file_ok d f -> file_ok d1 f1 -> data d1 = data d -> 0 <= offset <= rf_size f -> 0 <= size ->
  outside d buf size -> rf_size f1 = Z.max (rf_size f) (offset + size) ->
  (block_count f <> 0 -> block_start f1 = block_start f) ->
  contents d1 (memcpy m (file_data d1 (block_start f1) + offset) buf size) f1 =
    splice (Z.to_nat offset) (read_bytes m buf (Z.to_nat size)) (contents d m f).
Proof.
  intros Hd [G1 G2 G3 G4] [F1 F2 F3 F4] Hdt Ho Hs Hout Hsz Hst. pose proof (do_space _ Hd). pose proof (do_free _ Hd).
  unfold RAMDISK_BLOCK_SIZE in *.
  assert (contents d m f = read_bytes m (file_data d1 (block_start f1)) (Z.to_nat (rf_size f))) as ->.
  { unfold contents. destruct (decide (block_count f = 0)) as [Hz|Hz].
    - replace (rf_size f) with 0 by lia. done.
    - rewrite Hst by done. unfold file_data. by rewrite Hdt. }
  set (a := file_data d1 (block_start f1)) in *. assert (a = data d + block_start f1 * 512) as Ha.
  { unfold a. rewrite file_data_id, Hdt by lia. done. }
  unfold contents. fold a. rewrite Hsz.
  replace (Z.to_nat (Z.max (rf_size f) (offset + size))) with
    (Nat.max (Z.to_nat (rf_size f)) (Z.to_nat offset + length (read_bytes m buf (Z.to_nat size))))
    by (rewrite length_read_bytes; lia).
  apply read_bytes_splice; [lia|]. intros b. rewrite length_read_bytes, !Z2Nat.id by lia.
  unfold outside in Hout. rewrite memcpy_load by lia. case_decide; [|done].
  rewrite lookup_read_bytes, decide_True by lia. cbn [default]. unfold id. f_equal. lia.
Qed.

(** [ramdisk_read] of a file that is found: the bytes it delivers. *)
Lemma ramdisk_read_spec s name offset size buf r s1 i f :
  disk_ok (disk s) -> find_file_by_name (disk s) name = Some i -> files (disk s) !! i = Some f -> in_use f = true ->
  0 <= offset -> 0 <= size -> offset + size < 2 ^ 31 -> outside (disk s) buf size ->
  ramdisk_read s name offset size buf = (r, s1) ->
  let bytes := take (Z.to_nat size) (drop (Z.to_nat offset) (contents (disk s) (ram s) f)) in
  r = Z.of_nat (length bytes) /\ read_bytes (ram s1) buf (Z.to_nat r) = bytes /\
  changes buf (buf + size) (ram s) (ram s1) /\ disk_ok (disk s1) /\ data (disk s1) = data (disk s) /\
  free_blocks (disk s1) = free_blocks (disk s) /\
  exists t, files (disk s1) = <[i := with_times (modify_time f) t f]> (files (disk s)).
Proof.
  intros Hd Hn Hf Hu Ho Hs Hb Hout Hr. cbv zeta. pose proof (do_file _ Hd i f Hf Hu) as [F1 F2 F3 F4].
  pose proof (do_space _ Hd). pose proof (do_free _ Hd). unfold RAMDISK_BLOCK_SIZE in *.
  unfold ramdisk_read in Hr. rewrite Hn, Hf in Hr. cbn [default id] in Hr. unfold id in Hr. cbv zeta in Hr.
  assert (length (contents (disk s) (ram s) f) = Z.to_nat (rf_size f)) as Hlen by apply length_read_bytes.
  destruct (Z.leb_spec (rf_size f) offset) as [Hle|Hlt].
  { injection Hr as <- <-. rewrite drop_ge, take_nil by lia. split_and!; try done.
    exists (access_time f). symmetry. apply list_insert_id. rewrite Hf. by destruct f. }
  set (n := if _ <? _ then _ else size) in Hr. injection Hr as <- <-.
  assert (n = Z.min size (rf_size f - offset)) as Hnn.
  { unfold n. rewrite u64_id by lia. destruct (Z.ltb_spec (rf_size f) (offset + size)); lia. }
  clearbody n. rewrite length_take, length_drop, Hlen. rewrite i32_id by lia.
  assert (file_data (disk s) (block_start f) = data (disk s) + block_start f * 512) as Hfd by (apply file_data_id; lia).
  cbn [ram set_ram disk set_disk set_file set_files data free_blocks files]. unfold outside in Hout.
  split_and!; [lia| | | |done|done|by eexists].
  - apply list_eq. intros k. rewrite lookup_read_bytes, lookup_take, lookup_drop. unfold contents.
    rewrite lookup_read_bytes, Hfd. repeat case_decide; try lia; try done.
    f_equal. rewrite memcpy_load by lia. rewrite decide_True by lia. f_equal. lia.
  - eapply changes_weaken; [apply memcpy_changes; lia|lia|lia].
  - apply (disk_ok_set (disk s) (disk s)); try done; try lia.
    intros j g _ Hj Hg Hgu. by apply (do_apart _ Hd i j f g).
Qed.

(** ** The abstract file table: a map from names to files *)

Definition file_named (d : RamDisk) (name : list Z) : option RamDiskFile :=
  find_file_by_name d name ≫= fun i => files d !! i.

(** No two files of the disk have the same name. *)
Definition unique_names (d : RamDisk) : Prop :=
  forall i j f g, files d !! i = Some f -> files d !! j = Some g ->
    in_use f = true -> in_use g = true -> rf_name f = rf_name g -> i = j.

Lemma file_named_Some d name f :
  unique_names d ->
  file_named d name = Some f <->
  exists i, files d !! i = Some f /\ in_use f = true /\ rf_name f = name.
Proof.
  intros Hu. unfold file_named. split.
  - intros (i & Hi & Hf)%bind_Some. destruct (find_by_name_Some _ _ _ Hi) as (f' & Hf' & ? & ? & _).
    exists i. simplify_eq. done.
  - intros (i & Hf & Hin & Hnm). unfold find_file_by_name.
    destruct (list_find _ (files d)) as [[j g]|] eqn:Hl; simpl.
    + apply list_find_Some in Hl as (Hj & [Hg Hgn] & _).
      replace j with i; [done|]. eapply Hu; eauto. congruence.
    + exfalso. apply list_find_None in Hl. eapply Forall_lookup_1 in Hl; [|done]. naive_solver.
Qed.

Lemma file_named_None d name :
  unique_names d ->
  file_named d name = None <->
  forall i f, files d !! i = Some f -> in_use f = true -> rf_name f <> name.
Proof.
  intros Hu. split.
  - intros Hn i f Hf Hin Hnm. assert (file_named d name = Some f) as H; [|congruence].
    apply file_named_Some; eauto.
  - intros H. destruct (file_named d name) as [f|] eqn:Hf; [|done].
    apply file_named_Some in Hf as (i & ? & ? & ?); [|done]. by destruct (H i f).
Qed.

(** Only the table matters for the names. *)
Lemma names_files d d1 :
  files d1 = files d -> (unique_names d -> unique_names d1) /\ forall n, file_named d1 n = file_named d n.
Proof. intros E. unfold unique_names, file_named, find_file_by_name. rewrite E. by split. Qed.

(** Replacing an entry that is free or named [name] by one that is. *)
Lemma file_named_insert d i f0 f name n :
  unique_names d -> files d !! i = Some f0 ->
  (in_use f0 = true -> rf_name f0 = name) -> (in_use f = true -> rf_name f = name) ->
  (in_use f = true -> in_use f0 = true \/ file_named d name = None) ->
  unique_names (set_file i f d) /\
  file_named (set_file i f d) n =
    if decide (n = name) then (if decide (in_use f0 = true \/ in_use f = true) then
                                 (if in_use f then Some f else None) else file_named d n)
    else file_named d n.
Proof.
  intros Hu Hi Hn0 Hn Hfree. apply lookup_lt_Some in Hi as Hlt.
  assert (forall j g, files (set_file i f d) !! j = Some g <->
    (j = i /\ g = f) \/ (j <> i /\ files d !! j = Some g)) as Hlook.
  { intros j g. simpl. rewrite list_lookup_insert_Some. naive_solver. }
  assert (forall j g, j <> i -> files d !! j = Some g -> in_use g = true ->
    in_use f = true -> rf_name g <> name) as Hsep.
  { intros j g Hj Hg Hgu Hfu Hgn. destruct (Hfree Hfu) as [H0|H0].
    - apply Hj. eapply Hu; eauto. rewrite Hn0; done.
    - rewrite file_named_None in H0 by done. by eapply H0. }
  assert (unique_names (set_file i f d)) as Hu'.
  { intros j k g h [[-> ->]|[Hj Hg]]%Hlook [[-> ->]|[Hk Hh]]%Hlook Hgu Hhu He; [done|..].
    - destruct (Hsep k h); try done. rewrite <- He. auto.
    - destruct (Hsep j g); try done. rewrite He. auto.
    - by eapply Hu. }
  split; [done|]. apply option_eq. intros g. rewrite file_named_Some by done.
  setoid_rewrite Hlook. destruct (decide (n = name)) as [->|Hne].
  - destruct (decide _) as [Hor|Hor].
    + destruct (in_use f) eqn:Hfu.
      * split; [|intros [= <-]; exists i; naive_solver].
        intros (j & [[-> ->]|[Hj Hg]] & Hgu & Hgn); [done|]. by destruct (Hsep j g).
      * split; [|done]. intros (j & [[-> ->]|[Hj Hg]] & Hgu & Hgn); [congruence|].
        destruct Hor as [Hor|]; [|done]. destruct Hj. eapply Hu; eauto. rewrite Hn0; done.
    + rewrite file_named_Some by done. split; [naive_solver|].
      intros (j & Hg & Hgu & Hgn). exists j. split; [|done]. right. split; [|done].
      intros ->. naive_solver.
  - rewrite file_named_Some by done. split.
    + intros (j & [[-> ->]|[Hj Hg]] & Hgu & Hgn); [naive_solver|eauto].
    + intros (j & Hg & Hgu & Hgn). exists j. split; [|done]. right. split; [|done].
      intros ->. naive_solver.
Qed.

(** The two outcomes of [ramdisk_create_file]. *)
Lemma ramdisk_create_cases s name flags r s1 :
  ramdisk_create_file s name flags = (r, s1) ->
  r = -1 /\ disk s1 = disk s /\
    ~ (Z.of_nat (length name) < RAMDISK_MAX_NAME_LEN /\ file_named (disk s) name = None /\
       is_Some (find_free_file (disk s))) \/
  r = 0 /\ exists i f0, Z.of_nat (length name) < RAMDISK_MAX_NAME_LEN /\
    file_named (disk s) name = None /\ files (disk s) !! i = Some f0 /\ in_use f0 = false /\
    is_Some (find_free_file (disk s)) /\
    disk s1 = set_file i (MkFile name flags 0 0 0 0 0 0 true) (disk s).
Proof.
  unfold ramdisk_create_file. intros E.
  destruct (Z.leb_spec RAMDISK_MAX_NAME_LEN (Z.of_nat (length name))).
  { injection E as <- <-. left. split_and!; [done..|]. intros (? & _). lia. }
  case_decide as Hs.
  { injection E as <- <-. left. split_and!; [done..|]. intros (_ & Hn & _).
    destruct Hs as [i Hi]. destruct (find_by_name_Some _ _ _ Hi) as (f & Hf & _).
    unfold file_named in Hn. rewrite Hi in Hn. simpl in Hn. congruence. }
  destruct (find_free_file (disk s)) as [i|] eqn:Hf.
  - injection E as <- <-. right. split; [done|]. unfold find_free_file in Hf.
    apply fmap_Some in Hf as ([i' f0] & Hf & Ei). simpl in Ei. subst i'.
    apply list_find_Some in Hf as (Hi & Hfu & _). exists i, f0. split_and!; try done.
    unfold file_named. destruct (find_file_by_name (disk s) name); [|done].
    destruct Hs. eauto.
  - injection E as <- <-. left. split_and!; [done..|]. intros (_ & _ & Hx). by destruct Hx.
Qed.

(** A new version of a file that is found. *)
Lemma file_named_update d d1 name i f f1 :
  unique_names d -> find_file_by_name d name = Some i -> files d !! i = Some f -> in_use f = true ->
  files d1 = <[i := f1]> (files d) -> in_use f1 = true -> rf_name f1 = rf_name f ->
  unique_names d1 /\ forall n, file_named d1 n = if decide (n = name) then Some f1 else file_named d n.
Proof.
  intros Hun Hn Hf Hu Hfs Hu1 Hn1. destruct (find_by_name_Some _ _ _ Hn) as (f' & Hf' & _ & Hnm & _). simplify_eq.
  destruct (names_files (set_file i f1 d) d1 Hfs) as [Hu' He].
  assert (forall n, unique_names (set_file i f1 d) /\ file_named (set_file i f1 d) n =
    if decide (n = rf_name f) then Some f1 else file_named d n) as Hs.
  { intros n. destruct (file_named_insert d i f f1 (rf_name f) n) as [? E]; [done|done|done|done|by left|].
    split; [done|]. rewrite E, Hu1. by rewrite (decide_True (P := in_use f = true \/ _)) by (by left). }
  split; [by apply Hu', (Hs [])|]. intros n. rewrite He. apply Hs.
Qed.

(** What is written is read back, and the file keeps its place in the table. *)
Lemma ramdisk_write_then_read s name offset size buf buf2 r s1 :
  0 <= offset -> 0 < size -> offset + size < 2 ^ 31 ->
  ramdisk_write s name offset size buf = (r, s1) -> r <> -1 ->
  (forall i f, find_file_by_name (disk s) name = Some i -> files (disk s) !! i = Some f ->
     0 <= rf_size f < 2 ^ 32) ->
  outside (disk s) buf size -> outside (disk s) buf2 size ->
  exists s2, ramdisk_read s1 name offset size buf2 = (size, s2) /\ r = size /\
    forall k, 0 <= k < size -> load (ram s2) (buf2 + k) = load (ram s) (buf + k).
Proof.
  intros Ho Hs Hb Hw Hr Hsz Hd1 Hd2.
  destruct (find_file_by_name (disk s) name) as [i|] eqn:Hn.
  2:{ unfold ramdisk_write in Hw. rewrite Hn in Hw. injection Hw as <- _. done. }
  destruct (find_by_name_Some _ _ _ Hn) as (f & Hf & Hu & Hnm & _).
  set (req := u32 (u64 (offset + size + RAMDISK_BLOCK_SIZE - 1) / RAMDISK_BLOCK_SIZE)).
  destruct (grow_file (disk s) (ram s) f req) as [[[f' d'] m']|] eqn:Hg.
  2:{ unfold ramdisk_write in Hw. rewrite Hn, Hf in Hw. simpl default in Hw. cbv zeta in Hw. fold req in Hw.
      rewrite Hg in Hw. injection Hw as <- _. done. }
  rewrite (ramdisk_write_run _ _ _ _ _ i f f' d' m' Hn Hf Hg) in Hw.
  destruct (grow_file_inv _ _ _ _ _ _ _ Hg) as (Hs' & Hn' & Hu' & Hfs & Hdt & _).
  specialize (Hsz i f eq_refl Hf). pose proof (grow_file_ram _ _ _ _ _ _ _ Hg Hsz) as Hkeep.
  rewrite i32_id in Hw by lia. injection Hw as <- <-.
  rewrite u64_id by lia. set (g := with_times 0 0 _).
  assert (in_use g = in_use f /\ rf_name g = rf_name f /\ block_start g = block_start f' /\
    offset + size <= rf_size g) as (Hgu & Hgn & Hgb & Hgs).
  { unfold g. destruct (Z.ltb_spec (rf_size f) (offset + size)); simpl;
      rewrite ?u32_id by lia; split_and!; try done; lia. }
  clearbody g. unfold ramdisk_read. cbn [disk ram].
  assert (find_file_by_name (set_file i g d') name = Some i) as ->.
  { eapply (find_by_name_update d' name i f g); [|by rewrite Hfs|done|done|done].
    unfold find_file_by_name in *. by rewrite Hfs. }
  apply lookup_lt_Some in Hf as Hlt. cbn [files set_file set_files].
  rewrite list_lookup_insert_eq by (by rewrite Hfs). cbn [default]. unfold id. cbv zeta.
  rewrite u64_id by lia. decide_lia.
  rewrite i32_id by lia. eexists. split; [reflexivity|]. split; [done|].
  intros k Hk. cbn [ram set_ram]. rewrite Hgb.
  change (file_data (set_file i g d') (block_start f')) with (file_data d' (block_start f')).
  pose proof (file_data_range d' (block_start f')) as Hlo. rewrite Hdt in Hlo. unfold outside in *.
  set (lo := file_data d' (block_start f') + offset) in *.
  rewrite memcpy_load by lia. rewrite decide_True by lia.
  rewrite memcpy_load by lia. rewrite decide_True by lia.
  replace (buf + (lo + (buf2 + k - buf2) - lo)) with (buf + k) by lia. apply Hkeep. lia.
Qed.

(** ** Properties *)

(** C18. What [ramdisk_write] stores, [ramdisk_read] of the same file, offset and
    size returns: after a successful write of [size] bytes, the read delivers
    exactly the bytes that were in the writer's buffer, and says so. *)
Theorem ramdisk_read_write s name offset size buf buf2 r s1 :
  0 <= offset -> 0 < size -> offset + size < 2 ^ 31 ->
  ramdisk_write s name offset size buf = (r, s1) -> r <> -1 ->
  (forall i f, find_file_by_name (disk s) name = Some i -> files (disk s) !! i = Some f ->
     0 <= rf_size f < 2 ^ 32) ->
  outside (disk s) buf size -> outside (disk s) buf2 size ->
  exists s2, ramdisk_read s1 name offset size buf2 = (size, s2) /\ r = size /\
    forall k, 0 <= k < size -> load (ram s2) (buf2 + k) = load (ram s) (buf + k).
Proof. apply ramdisk_write_then_read. Qed.

(** C19. On a well-formed disk, a write that fits the file's blocks, or the first
    write to a file without blocks, keeps the disk well formed, leaves every
    other file's entry and contents alone, and stores only inside the disk's
    data; it fails only when the first allocation finds too few free blocks. *)
Theorem ramdisk_write_isolates s name offset size buf r s1 i f :
  disk_ok (disk s) -> find_file_by_name (disk s) name = Some i -> files (disk s) !! i = Some f ->
  0 <= offset -> 0 <= size -> offset + size < 2 ^ 31 ->
  block_count f = 0 \/ offset + size <= RAMDISK_BLOCK_SIZE * block_count f ->
  ramdisk_write s name offset size buf = (r, s1) ->
  (r = size \/ r = -1 /\ block_count f = 0) /\ disk_ok (disk s1) /\
  (forall j g, j <> i -> files (disk s) !! j = Some g ->
     files (disk s1) !! j = Some g /\
     (in_use g = true -> contents (disk s1) (ram s1) g = contents (disk s) (ram s) g)) /\
  changes (data (disk s)) (data (disk s) + RAMDISK_SIZE) (ram s) (ram s1).
Proof.
  intros Hd Hn Hf Ho Hs Hb Hc Hw. destruct (find_by_name_Some _ _ _ Hn) as (f0 & Hf0 & Hu & _).
  assert (f0 = f) as -> by congruence. pose proof Hd as [_ _ Hsp Hok _].
  destruct (ramdisk_write_in_place _ _ _ _ _ _ _ i f Hd Hn Hf Hu Ho Hs Hb Hc Hw)
    as [(-> & -> & -> & Hz & _)|(f1 & -> & Hd1 & Hfs & Hu1 & Hdt & Hsz & Hok1 & Hap & Hram & _)].
  { split_and!; auto with cint. }
  pose proof Hd1 as [_ _ Hsp1 _ _]. destruct Hok1 as [O1 O2 O3 O4].
  pose proof (memcpy_changes (ram s) (file_data (disk s1) (block_start f1) + offset) buf size Hs) as Hch.
  rewrite <- Hram in Hch.
  unfold RAMDISK_BLOCK_SIZE, RAMDISK_SIZE in *.
  rewrite file_data_id, Hdt in Hch by lia. split_and!; [auto|done| |].
  - intros j g Hj Hg. rewrite Hfs, list_lookup_insert_ne by done. split; [done|].
    intros Hug. eapply contents_changes; [done|by apply (Hok j)|done|exact Hch|].
    destruct (Hap j g Hj Hg Hug); [left|right]; lia.
  - eapply changes_weaken; [exact Hch|lia|lia].
Qed.

(** A file that already has blocks and needs more reserves only the difference
    at its new place but claims the full number: the next file that receives
    blocks gets some of the blocks the grown file claims, so the two files
    overlap (the disk is no longer well formed). *)
Theorem ramdisk_growth_overlaps d m f n f1 d1 m1 m' g k g1 d2 m2 :
  0 <= free_block_start d -> free_block_start d + free_blocks d = 2048 ->
  0 < block_count f < n -> grow_file d m f n = Some (f1, d1, m1) ->
  block_count g = 0 -> 0 < k -> grow_file d1 m' g k = Some (g1, d2, m2) ->
  ~ apart f1 g1 /\ free_block_start d1 < block_start f1 + block_count f1.
Proof.
  unfold grow_file, allocate_blocks. intros Hfs Hsum Hc Hg Hc' Hk Hg'.
  rewrite Hc' in Hg'. decide_lia. revert Hg Hg'. decide_lia.
  destruct (Z.ltb_spec (free_blocks d) (n - block_count f)); [done|]. intros [= <- <- <-].
  simpl. destruct (_ <? k - 0); [done|]. intros [= <- <- <-]. simpl.
  rewrite u32_id by lia. unfold apart. simpl. lia.
Qed.

(** Deleting a file with blocks returns their number to [free_blocks] but not
    their place: the allocator then hands out, as long as the counts allow, blocks
    beyond the end of the disk. *)
Theorem ramdisk_delete_overruns s name i f r s1 :
  disk_ok (disk s) -> find_file_by_name (disk s) name = Some i -> files (disk s) !! i = Some f ->
  0 < block_count f -> ramdisk_delete_file s name = (r, s1) ->
  r = 0 /\ exists b d', allocate_blocks (disk s1) (free_blocks (disk s1)) = Some (b, d') /\
    RAMDISK_SIZE < RAMDISK_BLOCK_SIZE * (b + free_blocks (disk s1)).
Proof.
  intros Hd Hn Hf Hc. destruct (find_by_name_Some _ _ _ Hn) as (f0 & Hf0 & Hu & _).
  assert (f0 = f) as -> by congruence. destruct Hd as [_ Hd1 Hd2 Hok _].
  destruct (Hok i f Hf Hu) as [? ? ? ?].
  unfold ramdisk_delete_file. rewrite Hn, Hf. intros [= <- <-]. split; [done|].
  cbn [disk set_disk puts]. unfold allocate_blocks, RAMDISK_SIZE, RAMDISK_BLOCK_SIZE. cbn.
  unfold id. rewrite u32_id by lia. rewrite Z.ltb_irrefl. do 2 eexists. split; [reflexivity|]. lia.
Qed.

(** C17. The file table is a map from names to files: [ramdisk_create_file] adds an
    empty file under a name below 32 characters that has none, provided an
    entry is free, and changes nothing otherwise; [ramdisk_delete_file] removes the name, and
    reports a name that is missing. The names stay distinct. *)
Theorem ramdisk_table_refines s name flags :
  unique_names (disk s) ->
  (let '(r, s1) := ramdisk_create_file s name flags in
   unique_names (disk s1) /\
   (r = 0 <-> Z.of_nat (length name) < RAMDISK_MAX_NAME_LEN /\ file_named (disk s) name = None /\
              is_Some (find_free_file (disk s))) /\
   (forall n, file_named (disk s1) n =
      if decide (r = 0 /\ n = name) then Some (MkFile name flags 0 0 0 0 0 0 true)
      else file_named (disk s) n)) /\
  (let '(r, s1) := ramdisk_delete_file s name in
   unique_names (disk s1) /\ (r = 0 <-> is_Some (file_named (disk s) name)) /\
   (forall n, file_named (disk s1) n =
      if decide (n = name) then None else file_named (disk s) n)).
Proof.
  intros Hu. split.
  - destruct (ramdisk_create_file s name flags) as [r s1] eqn:E.
    apply ramdisk_create_cases in E as [(-> & Hd & Hno)|(-> & i & f0 & Hlen & Hn & Hf & Hi & Hfr & Hd)].
    + rewrite Hd. split_and!; [done| |intros n; by rewrite decide_False by lia].
      split; [done|]. intros (? & ? & ?). naive_solver.
    + destruct (file_named_insert (disk s) i f0 (MkFile name flags 0 0 0 0 0 0 true) name name)
        as [Hu1 _]; try done; try congruence; [auto|].
      rewrite Hd. split_and!; [done|split; done|]. intros n.
      destruct (file_named_insert (disk s) i f0 (MkFile name flags 0 0 0 0 0 0 true) name n)
        as [_ ->]; try done; try congruence; [auto|].
      repeat case_decide; naive_solver.
  - unfold ramdisk_delete_file. destruct (find_file_by_name (disk s) name) as [i|] eqn:Hn.
    + destruct (find_by_name_Some _ _ _ Hn) as (f & Hf & Hin & Hnm & _).
      set (d1 := MkRamDisk _ _ _ _ _). cbn [disk set_disk puts].
      destruct (file_named_insert (disk s) i f no_file name name) as [Hu1 _]; try done.
      split_and!; [exact Hu1| |].
      * split; [|done]. intros _. exists f. apply file_named_Some; eauto.
      * intros n. destruct (file_named_insert (disk s) i f no_file name n) as [_ Hn1]; try done.
        etransitivity; [exact Hn1|]. repeat case_decide; naive_solver.
    + assert (file_named (disk s) name = None) as H0 by (unfold file_named; by rewrite Hn).
      cbn [disk puts]. split_and!; [done| |].
      * rewrite H0. split; [done|]. by intros [? ?].
      * intros n. case_decide; [|done]. congruence.
Qed.

(** ** The properties at a concrete disk

    The data at address 4096; file [a] has block 0 and 512 bytes, file [b] is
    empty; the buffers lie at 0 and 1024. *)

Definition disk1 : RamDisk :=
  MkRamDisk 4096
    (MkFile [97] 0 512 0 1 0 0 0 true :: MkFile [98] 0 0 0 0 0 0 0 true :: replicate 62 no_file)
    1 2048 2047.
Definition s1 : st := MkSt disk1 (write_bytes ∅ 0 [1; 2; 3]) console_initial.

Lemma disk1_files j f :
  files disk1 !! j = Some f -> in_use f = true ->
  (j = 0%nat /\ f = MkFile [97] 0 512 0 1 0 0 0 true) \/
  (j = 1%nat /\ f = MkFile [98] 0 0 0 0 0 0 0 true).
Proof.
  intros Hj Hu. destruct j as [|[|j]]; [injection Hj as <-; auto..|].
  apply (lookup_replicate_1 62 no_file) in Hj as [-> _]. done.
Qed.

Lemma disk1_ok : disk_ok disk1.
Proof.
  split; [done|done|done| |].
  - intros i f Hi Hu. destruct (disk1_files i f Hi Hu) as [[_ ->]|[_ ->]]; by split.
  - intros i j f g Hi Hj Hne Hf Hg.
    destruct (disk1_files i f Hi Hf) as [[-> ->]|[-> ->]], (disk1_files j g Hj Hg) as [[-> ->]|[-> ->]];
      try done; unfold apart; simpl; lia.
Qed.

Lemma ramdisk_read_write_witness :
  exists r s2 s3, ramdisk_write s1 [97] 100 3 0 = (r, s2) /\
    ramdisk_read s2 [97] 100 3 1024 = (3, s3) /\ load (ram s3) 1025 = 2.
Proof.
  destruct (ramdisk_write s1 [97] 100 3 0) as [r s2] eqn:Hw. exists r, s2.
  assert (r <> -1) as Hr by (injection Hw as <- _; discriminate).
  destruct (ramdisk_read_write s1 [97] 100 3 0 1024 r s2) as (s3 & H1 & H2 & H3); try done; try lia.
  - intros i f Hi Hf. injection Hi as <-. injection Hf as <-. simpl. lia.
  - left. simpl. lia.
  - left. simpl. lia.
  - exists s3. split; [reflexivity|]. split; [exact H1|]. exact (H3 1 ltac:(lia)).
Defined.

Lemma ramdisk_write_isolates_witness :
  exists r s2, ramdisk_write s1 [98] 0 600 0 = (r, s2) /\ disk_ok (disk s2) /\
    contents (disk s2) (ram s2) (MkFile [97] 0 512 0 1 0 0 0 true) =
    contents disk1 (ram s1) (MkFile [97] 0 512 0 1 0 0 0 true).
Proof.
  destruct (ramdisk_write s1 [98] 0 600 0) as [r s2] eqn:Hw. exists r, s2.
  destruct (ramdisk_write_isolates s1 [98] 0 600 0 r s2 1 (MkFile [98] 0 0 0 0 0 0 0 true))
    as (_ & Hd & Hi & _); try done; try lia.
  - apply disk1_ok.
  - left. reflexivity.
  - split; [reflexivity|]. split; [exact Hd|].
    apply (Hi 0%nat (MkFile [97] 0 512 0 1 0 0 0 true)); done.
Defined.

Lemma ramdisk_growth_overlaps_witness :
  exists f1 d1 m1 g1 d2 m2,
    grow_file disk1 ∅ (MkFile [97] 0 512 0 1 0 0 0 true) 2 = Some (f1, d1, m1) /\
    grow_file d1 ∅ (MkFile [98] 0 0 0 0 0 0 0 true) 1 = Some (g1, d2, m2) /\ ~ apart f1 g1.
Proof.
  do 6 eexists. split; [reflexivity|]. split; [reflexivity|].
  refine (proj1 (ramdisk_growth_overlaps disk1 ∅ (MkFile [97] 0 512 0 1 0 0 0 true) 2 _ _ _ ∅
    (MkFile [98] 0 0 0 0 0 0 0 true) 1 _ _ _ _ _ _ _ _ _ _)); try reflexivity; simpl; lia.
Defined.

Lemma ramdisk_delete_overruns_witness :
  exists s2, ramdisk_delete_file s1 [97] = (0, s2) /\ free_blocks (disk s2) = 2048 /\
    exists b d', allocate_blocks (disk s2) 2048 = Some (b, d') /\
      RAMDISK_SIZE < RAMDISK_BLOCK_SIZE * (b + 2048).
Proof.
  destruct (ramdisk_delete_file s1 [97]) as [r s2] eqn:Hw. exists s2.
  destruct (ramdisk_delete_overruns s1 [97] 0 (MkFile [97] 0 512 0 1 0 0 0 true) r s2)
    as (-> & b & d' & H1 & H2); try done.
  - apply disk1_ok.
  - assert (free_blocks (disk s2) = 2048) as Hfb by (injection Hw as <-; reflexivity).
    rewrite Hfb in H1, H2. split; [reflexivity|]. split; [exact Hfb|]. exists b, d'. done.
Defined.

Lemma ramdisk_table_refines_witness :
  exists s2, ramdisk_create_file s1 [99] 7 = (0, s2) /\ unique_names (disk s2) /\
    file_named (disk s2) [97] = Some (MkFile [97] 0 512 0 1 0 0 0 true).
Proof.
  assert (unique_names (disk s1)) as Hu.
  { intros i j f g Hi Hj Hf Hg.
    destruct (disk1_files i f Hi Hf) as [[-> ->]|[-> ->]], (disk1_files j g Hj Hg) as [[-> ->]|[-> ->]];
      done. }
  destruct (proj1 (ramdisk_table_refines s1 [99] 7 Hu)) as (H1 & _ & H3).
  eexists. split; [reflexivity|]. split; [exact H1|]. exact (H3 [97]).
Defined.
