(* ===== verification/VfsPath.v ===== *)
(** * Path normalisation (src/impl/kernel/fs.c, [vfs_normalize_path])

    The function writes its result to a static buffer, through pointers, and
    is also called on that buffer itself ([vfs_mkdir]). A store past the
    buffer's 256 bytes is undefined. The definitions are the
    loops over the byte memory; [norm] is what they compute on lists. *)
From S2P Require Export CString.

(** ** Definitions *)

Definition MAX_PATH_LEN := 256.
Definition SLASH := 47.
Definition DOT := 46.

(** [while ( *pp == '/') pp++;] *)
Fixpoint skip_slashes (fuel : nat) (m : mem) (pp : Z) : res Z :=
  match fuel with
  | O => Spin
  | S fuel => if load m pp =? SLASH then skip_slashes fuel m (pp + 1) else Done pp
  end.

Section normalize.
(** The address of the static buffer, [char normalized[MAX_PATH_LEN]]. *)
Context (normalized : Z).

(** [*np = c;] *)
Definition put (m : mem) (np c : Z) : res mem :=
  if np <? normalized + MAX_PATH_LEN then Done (store m np c) else Undef.

(** [while ( *pp && *pp != '/') *np++ = *pp++;] *)
Fixpoint copy_component (fuel : nat) (m : mem) (np pp : Z) : res (mem * Z * Z) :=
  match fuel with
  | O => Spin
  | S fuel =>
      if negb (load m pp =? 0) && negb (load m pp =? SLASH)
      then m ← put m np (load m pp); copy_component fuel m (np + 1) (pp + 1)
      else Done (m, np, pp)
  end.

(** [while (np > normalized && np[-1] != '/') np--;], [k] being [np - normalized]. *)
Fixpoint back_loop (k : nat) (m : mem) : Z :=
  match k with
  | O => normalized
  | S j => if load m (normalized + Z.of_nat j) =? SLASH then normalized + Z.of_nat k
           else back_loop j m
  end.

Definition back (m : mem) (np : Z) : Z :=
  if normalized + 1 <? np then back_loop (Z.to_nat (np - 1 - normalized)) m else np.

(** [c == '/' || c == '\0'] *)
Definition ends (c : Z) : bool := (c =? SLASH) || (c =? 0).

(** The main loop; each turn leaves the memory, [np] and [pp]. *)
Fixpoint normalize_loop (fuel : nat) (m : mem) (np pp : Z) : res (mem * Z) :=
  match fuel with
  | O => Spin
  | S fuel =>
      let c := load m pp in
      if c =? 0 then Done (m, np)
      else if c =? SLASH then
        pp ← skip_slashes fuel m pp;
        if negb (load m pp =? 0) then m ← put m np SLASH; normalize_loop fuel m (np + 1) pp
        else normalize_loop fuel m np pp
      else if (c =? DOT) && ends (load m (pp + 1)) then
        normalize_loop fuel m np (pp + 1)
      else if (c =? DOT) && (load m (pp + 1) =? DOT) && ends (load m (pp + 2)) then
        normalize_loop fuel m (back m np) (pp + 2)
      else
        '(m, np, pp) ← copy_component fuel m np pp;
        normalize_loop fuel m np pp
  end.

(** The result is the memory and the pointer returned. *)
Definition vfs_normalize_path (fuel : nat) (m : mem) (path : Z) : res (mem * Z) :=
  if path =? 0 then Done (m, 0)
  else
    '(m, np, pp) ← (if load m path =? SLASH then m ← put m normalized SLASH; Done (m, normalized + 1, path + 1)
                    else Done (m, normalized, path));
    '(m, np) ← normalize_loop fuel m np pp;
    '(m, np) ← (if np =? normalized then m ← put m np SLASH; Done (m, np + 1) else Done (m, np));
    m ← put m np 0; Done (m, normalized).
End normalize.

(** ** The reference: paths as lists of components *)

(** The parts of a path between its runs of slashes; the first part is empty
    when the path starts with a slash. *)
Fixpoint split (p : list Z) : list (list Z) :=
  match p with
  | [] => [[]]
  | c :: p =>
      if c =? SLASH then
        match split p with [] :: cs => [] :: cs | cs => [] :: cs end
      else match split p with x :: cs => (c :: x) :: cs | [] => [[c]] end
  end.

(** The output so far is kept in reverse. *)
Fixpoint drop_to_slash (out : list Z) : list Z :=
  match out with
  | [] => []
  | c :: out' => if c =? SLASH then out else drop_to_slash out'
  end.

Definition back_list (out : list Z) : list Z :=
  match out with
  | _ :: ((_ :: _) as out') => drop_to_slash out'
  | _ => out
  end.

Definition component (out c : list Z) : list Z :=
  if decide (c = [DOT]) then out
  else if decide (c = [DOT; DOT]) then back_list out
  else rev c ++ out.

Fixpoint components (out : list Z) (cs : list (list Z)) : list Z :=
  match cs with
  | [] => out
  | [c] => component out c
  | c :: cs => components (SLASH :: component out c) cs
  end.

Definition norm (p : list Z) : list Z :=
  let out := match p with
             | c :: p' => if c =? SLASH then components [SLASH] (split p') else components [] (split p)
             | [] => []
             end in
  match out with [] => [SLASH] | _ => rev out end.

(** ** Components *)

Definition no_slash (x : list Z) : Prop := SLASH ∉ x.

(** What follows a component: nothing, or a slash. *)
Definition cut (r : list Z) : Prop := match r with [] => True | c :: _ => c = SLASH end.

Lemma split_ne p : split p <> [].
Proof.
  induction p as [|c p IH]; simpl; [done|]. repeat case_match; done.
Qed.

Lemma split_component x r :
  no_slash x -> cut r -> exists tl, split (x ++ r) = x :: tl /\ split r = [] :: tl.
Proof.
  intros Hx Hr. induction x as [|c x IH]; simpl.
  - destruct r as [|c r]; simpl in *; [eauto|]. subst. rewrite Z.eqb_refl.
    destruct (split r) as [|[|d y] cs] eqn:E; eauto.
  - unfold no_slash in *. rewrite not_elem_of_cons in Hx. destruct Hx as [Hc Hx].
    destruct (IH Hx) as (tl & -> & Htl). decide_lia. eauto.
Qed.

Lemma split_slashes k r :
  ~ cut r \/ r = [] ->
  split (replicate (S k) SLASH ++ r) = match r with [] => [[]] | _ => [] :: split r end.
Proof.
  intros Hr. induction k as [|k IH].
  - simpl. destruct r as [|c r]; [done|]. destruct Hr as [Hr|]; [|done]. simpl in Hr.
    simpl. decide_lia. destruct (split r) as [|y cs]; done.
  - cbn [replicate app split] in *. rewrite Z.eqb_refl in *. rewrite IH.
    by destruct r.
Qed.

Lemma component_nil out : component out [] = out.
Proof. done. Qed.

Lemma components_cut out x r :
  no_slash x -> cut r ->
  components out (split (x ++ r)) = components (component out x) (split r).
Proof.
  intros Hx Hr. destruct (split_component x r Hx Hr) as (tl & -> & ->).
  destruct tl; reflexivity.
Qed.

Lemma components_slashes out k r :
  ~ cut r -> components out (split (replicate (S k) SLASH ++ r)) = components (SLASH :: out) (split r).
Proof.
  intros Hr. rewrite split_slashes by auto. destruct r as [|c r]; [by destruct Hr|].
  pose proof (split_ne (c :: r)). destruct (split (c :: r)); done.
Qed.

(** Every remainder of a path is empty, starts with slashes, or starts with a
    component. *)
Lemma path_cases r :
  r = [] \/
  (exists k r', r = replicate (S k) SLASH ++ r' /\ (~ cut r' \/ r' = [])) \/
  (exists x r', r = x ++ r' /\ x <> [] /\ no_slash x /\ cut r').
Proof.
  induction r as [|c r IH]; [auto|]. right. destruct (Z.eqb_spec c SLASH) as [->|Hc].
  - left. destruct IH as [->|[(k & r' & -> & Hr)|(x & r' & -> & Hx & Hns & _)]].
    + exists O, []. auto.
    + by exists (S k), r'.
    + exists O, (x ++ r'). split; [done|]. left. destruct x as [|d x]; [done|]. simpl.
      intros ->. apply Hns. by left.
  - right. unfold no_slash. destruct IH as [->|[(k & r' & -> & Hr)|(x & r' & -> & Hx & Hns & Hr)]].
    + exists [c], []. split_and!; [done|done|set_solver|done].
    + exists [c], (replicate (S k) SLASH ++ r'). split_and!; [done|done|set_solver|done].
    + exists (c :: x), r'. split_and!; [done|done| |done]. unfold no_slash in Hns. set_solver.
Qed.

Lemma drop_to_slash_length out : (length (drop_to_slash out) <= length out)%nat.
Proof. induction out as [|c out IH]; simpl; [lia|]. case_match; simpl; lia. Qed.

Lemma back_list_length out : (length (back_list out) <= length out)%nat.
Proof.
  destruct out as [|c [|d out]]; try done. pose proof (drop_to_slash_length (d :: out)).
  cbn [back_list length] in *. lia.
Qed.

Lemma component_length out x : (length (component out x) <= length out + length x)%nat.
Proof.
  unfold component. repeat case_decide; [lia| |rewrite length_app, length_rev; lia].
  pose proof (back_list_length out). lia.
Qed.

(** The output shrinks from its end only. *)
Lemma drop_to_slash_suffix out : drop_to_slash out `suffix_of` out.
Proof.
  induction out as [|c out IH]; simpl; [done|]. case_match; [done|]. by apply suffix_cons_r.
Qed.
Lemma back_list_suffix out : back_list out `suffix_of` out.
Proof.
  destruct out as [|c [|d out]]; try done. apply suffix_cons_r, drop_to_slash_suffix.
Qed.

(** ** The loops *)

Lemma skip_slashes_spec fuel m pp k r :
  cstr m pp (replicate k SLASH ++ r) -> (~ cut r \/ r = []) -> (k < fuel)%nat ->
  skip_slashes fuel m pp = Done (pp + Z.of_nat k).
Proof.
  revert fuel pp. induction k as [|k IH]; intros [|fuel] pp Hs Hr Hf; try lia; simpl in *.
  - destruct r as [|c r]; apply cstr_inv in Hs.
    + rewrite Hs. simpl. by rewrite Z.add_0_r.
    + destruct Hs as (_ & -> & _). destruct Hr as [Hr|]; [|done]. simpl in Hr. decide_lia.
      by rewrite Z.add_0_r.
  - apply cstr_inv in Hs as (_ & -> & Hs). simpl. rewrite IH by (done || lia). f_equal. lia.
Qed.

Lemma put_fits normalized m np c : np < normalized + MAX_PATH_LEN -> put normalized m np c = Done (store m np c).
Proof. intros. unfold put. by decide_lia. Qed.

Lemma put_overruns normalized m np c : normalized + MAX_PATH_LEN <= np -> put normalized m np c = Undef.
Proof. intros. unfold put. by decide_lia. Qed.

Lemma copy_component_spec fuel normalized m np pp x r :
  cstr m pp (x ++ r) -> no_slash x -> cut r -> (length x < fuel)%nat ->
  np + Z.of_nat (length x) <= normalized + MAX_PATH_LEN ->
  np <= pp \/ pp + Z.of_nat (length (x ++ r)) < np ->
  copy_component normalized fuel m np pp =
    Done (write_bytes m np x, np + Z.of_nat (length x), pp + Z.of_nat (length x)).
Proof.
  revert fuel m np pp. induction x as [|c x IH]; intros [|fuel] m np pp Hs Hx Hr Hf Hn Hd; simpl in Hf;
    try lia; simpl.
  - rewrite !Z.add_0_r. destruct r as [|c r]; apply cstr_inv in Hs.
    + by rewrite Hs.
    + destruct Hs as (_ & -> & _). simpl in Hr. by rewrite Hr.
  - apply cstr_inv in Hs as (Hc & -> & Hs). unfold cchar, no_slash in *.
    apply not_elem_of_cons in Hx as [Hne Hx]. decide_lia. cbn [app length] in Hd, Hn.
    rewrite put_fits by lia. simpl.
    replace (np + Z.of_nat (S (length x))) with (np + 1 + Z.of_nat (length x)) by lia.
    replace (pp + Z.of_nat (S (length x))) with (pp + 1 + Z.of_nat (length x)) by lia.
    apply IH; [|done|done|lia|lia|lia].
    eapply cstr_changes; [apply (changes_store np (np + 1)); lia|lia|done].
Qed.

Lemma back_loop_spec m normalized out :
  bytes_at m normalized (rev out) ->
  back_loop normalized (length out) m = normalized + Z.of_nat (length (drop_to_slash out)).
Proof.
  induction out as [|c out IH]; intros Hb; cbn [back_loop length drop_to_slash]; [simpl; lia|].
  simpl in Hb. apply bytes_at_app in Hb as [Hb Hc]. simpl in Hc. rewrite length_rev in Hc.
  destruct Hc as [-> _]. destruct (c =? SLASH); [done|]. by apply IH.
Qed.

Lemma back_spec m normalized out :
  bytes_at m normalized (rev out) ->
  back normalized m (normalized + Z.of_nat (length out)) =
  normalized + Z.of_nat (length (back_list out)).
Proof.
  intros Hb. unfold back. destruct out as [|c [|d out]]; cbn [length back_list].
  - by decide_lia.
  - by decide_lia.
  - decide_lia. replace (Z.to_nat _) with (length (d :: out)) by (simpl; lia).
    apply back_loop_spec. simpl in Hb. rewrite <- app_assoc in Hb. simpl in *.
    rewrite bytes_at_app in Hb |- *. split; [tauto|]. simpl in *. tauto.
Qed.

Lemma ends_cut m pp r : cstr m pp r -> cut r -> ends (load m pp) = true.
Proof.
  intros Hs Hr. destruct r as [|c r]; apply cstr_inv in Hs.
  - by rewrite Hs.
  - destruct Hs as (_ & -> & _). simpl in Hr. by rewrite Hr.
Qed.

Lemma ends_char c : cchar c -> SLASH <> c -> ends c = false.
Proof. unfold cchar, ends. intros. by decide_lia. Qed.

(** A turn of the loop at a component. *)
Definition turn (normalized : Z) (m : mem) (np pp : Z) (x : list Z) : mem * Z * Z :=
  if decide (x = [DOT]) then (m, np, pp + 1)
  else if decide (x = [DOT; DOT]) then (m, back normalized m np, pp + 2)
  else (write_bytes m np x, np + Z.of_nat (length x), pp + Z.of_nat (length x)).

Lemma normalize_loop_component fuel normalized m np pp x r :
  cstr m pp (x ++ r) -> x <> [] -> no_slash x -> cut r -> (length x < fuel)%nat ->
  np + Z.of_nat (length x) <= normalized + MAX_PATH_LEN ->
  np <= pp \/ pp + Z.of_nat (length (x ++ r)) < np ->
  normalize_loop normalized (S fuel) m np pp =
    let '(m, np, pp) := turn normalized m np pp x in normalize_loop normalized fuel m np pp.
Proof.
  intros Hs Hne Hx Hr Hf Hn Hd. cbn [normalize_loop].
  rewrite (copy_component_spec fuel normalized m np pp x r) by done.
  destruct x as [|c x]; [done|]. unfold no_slash in Hx. cbn [app] in Hs.
  apply not_elem_of_cons in Hx as [Hc Hx]. apply cstr_inv in Hs as (Hcc & -> & Hs).
  unfold turn. cbn [length]. unfold cchar in Hcc. decide_lia.
  destruct (Z.eqb_spec c DOT) as [->|Hcd]; cbn [andb].
  2:{ by rewrite !decide_False by congruence. }
  destruct x as [|d x].
  { by rewrite (ends_cut m (pp + 1) r). }
  cbn [app] in Hs. apply not_elem_of_cons in Hx as [Hds Hx]. apply cstr_inv in Hs as (Hdc & -> & Hs).
  rewrite ends_char by done. rewrite decide_False by congruence.
  destruct (Z.eqb_spec d DOT) as [->|Hdd]; cbn [andb].
  2:{ by rewrite decide_False by congruence. }
  replace (pp + 1 + 1) with (pp + 2) in Hs by lia. destruct x as [|e x].
  { by rewrite (ends_cut m (pp + 2) r). }
  cbn [app] in Hs. apply not_elem_of_cons in Hx as [Hes Hx]. apply cstr_inv in Hs as (Hec & -> & Hs).
  rewrite ends_char by done. by rewrite decide_False by congruence.
Qed.

(** What a turn does to the output. *)
Lemma turn_spec normalized m pp x out :
  bytes_at m normalized (rev out) -> Forall cchar x ->
  exists m', turn normalized m (normalized + Z.of_nat (length out)) pp x =
      (m', normalized + Z.of_nat (length (component out x)), pp + Z.of_nat (length x)) /\
    bytes_at m' normalized (rev (component out x)) /\
    changes normalized (normalized + Z.of_nat (length out + length x)) m m'.
Proof.
  intros Hb Hx. unfold turn, component. repeat case_decide; subst.
  - exists m. auto with cint.
  - exists m. rewrite back_spec by done. split_and!; [done| |auto with cint].
    destruct (back_list_suffix out) as [o Ho]. rewrite Ho in Hb.
    rewrite rev_app_distr in Hb. by apply bytes_at_app in Hb as [? _].
  - eexists. split; [|split].
    + rewrite length_app, length_rev, Nat2Z.inj_add.
      by rewrite (Z.add_comm (Z.of_nat (length x))), Z.add_assoc.
    + rewrite rev_app_distr, rev_involutive. apply bytes_at_app. rewrite length_rev. split.
      * eapply bytes_at_changes; [apply write_bytes_changes| |done]. rewrite length_rev. lia.
      * by apply write_bytes_at, cchar_byte.
    + eapply changes_weaken; [apply write_bytes_changes|lia|lia].
Qed.

(** A turn of the loop at a run of slashes. *)
Lemma normalize_loop_slashes fuel normalized m np pp k r :
  cstr m pp (replicate (S k) SLASH ++ r) -> ~ cut r \/ r = [] -> (S k < fuel)%nat ->
  np < normalized + MAX_PATH_LEN ->
  normalize_loop normalized (S fuel) m np pp =
    match r with
    | [] => normalize_loop normalized fuel m np (pp + Z.of_nat (S k))
    | _ => normalize_loop normalized fuel (store m np SLASH) (np + 1) (pp + Z.of_nat (S k))
    end.
Proof.
  intros Hs Hr Hf Hn. cbn [normalize_loop]. rewrite put_fits by done.
  assert (load m pp = SLASH) as -> by (by apply cstr_inv in Hs as (_ & ? & _)).
  change (SLASH =? 0) with false. change (SLASH =? SLASH) with true. cbn iota.
  rewrite (skip_slashes_spec fuel m pp (S k) r) by done. cbn [mbind res_bind].
  pose proof (cstr_drop m pp (replicate (S k) SLASH) r Hs) as Hs'.
  rewrite length_replicate in Hs'. destruct r as [|c r]; apply cstr_inv in Hs'.
  - by rewrite Hs'.
  - destruct Hs' as (Hc & -> & _). unfold cchar in Hc. by decide_lia.
Qed.

(** ** The main loop computes [components] *)

Lemma normalize_loop_spec fuel normalized m pp r out :
  cstr m pp r -> bytes_at m normalized (rev out) -> (length r + 1 < fuel)%nat ->
  normalized + Z.of_nat (length out) <= pp \/ pp + Z.of_nat (length r) < normalized ->
  Z.of_nat (length out + length r) <= MAX_PATH_LEN ->
  let out' := components out (split r) in
  exists m', normalize_loop normalized fuel m (normalized + Z.of_nat (length out)) pp =
      Done (m', normalized + Z.of_nat (length out')) /\
    bytes_at m' normalized (rev out') /\
    (length out' <= length out + length r)%nat /\
    changes normalized (normalized + Z.of_nat (length out + length r)) m m'.
Proof.
  cbv zeta. revert m pp r out. induction fuel as [|fuel IH]; intros m pp r out Hs Hb Hf Hd Hn; [lia|].
  destruct (path_cases r) as [->|[(k & r' & -> & Hr)|(x & r' & -> & Hne & Hx & Hr)]].
  - exists m. cbn [normalize_loop]. apply cstr_inv in Hs as ->. simpl. rewrite component_nil.
    split_and!; [done|done|lia|auto with cint].
  - rewrite length_app, length_replicate in Hf, Hd, Hn |- *.
    rewrite (normalize_loop_slashes fuel normalized m _ pp k r') by (done || lia).
    pose proof (cstr_drop m pp (replicate (S k) SLASH) r' Hs) as Hs'.
    rewrite length_replicate in Hs'. destruct Hr as [Hr| ->].
    + rewrite components_slashes by done. set (np := normalized + Z.of_nat (length out)) in *.
      assert (changes np (np + 1) m (store m np SLASH)) as Hst by (apply changes_store; lia).
      destruct (IH (store m np SLASH) (pp + Z.of_nat (S k)) r' (SLASH :: out))
        as (m' & E & Hb' & Hlen & Hc); cbn [length] in *.
      * eapply cstr_changes; [exact Hst|lia|done].
      * simpl. apply bytes_at_app. rewrite length_rev. split; [|split; [apply load_store_eq|done]].
        eapply bytes_at_changes; [exact Hst| |done]. rewrite length_rev. lia.
      * lia.
      * lia.
      * lia.
      * exists m'. destruct r' as [|c r']; [by destruct Hr|].
        assert (np + 1 = normalized + Z.of_nat (S (length out))) as -> by (unfold np; lia).
        rewrite E. split_and!; [done|done|lia|]. eapply changes_trans; [|eapply changes_weaken; [exact Hc|lia|lia]].
        eapply changes_weaken; [exact Hst|lia|lia].
    + rewrite split_slashes by auto. cbn [length split] in *.
      destruct (IH m (pp + Z.of_nat (S k)) [] out) as (m' & E & Hb' & Hlen & Hc); cbn [length split] in *;
        [done|done|lia|lia|lia|].
      exists m'. rewrite E. split_and!; [done|done|lia|]. eapply changes_weaken; [exact Hc|lia|lia].
  - rewrite length_app in Hf, Hd, Hn.
    rewrite (normalize_loop_component fuel normalized m _ pp x r') by
      (try done; rewrite ?length_app; destruct x; simpl in *; lia || done).
    destruct (turn_spec normalized m pp x out Hb) as (m1 & -> & Hb1 & Hc1).
    { destruct Hs as [Hs _]. by apply Forall_app in Hs as [? _]. }
    cbn iota. rewrite components_cut by done. pose proof (component_length out x) as Hcl.
    destruct (IH m1 (pp + Z.of_nat (length x)) r' (component out x)) as (m' & E & Hb' & Hlen & Hc).
    + eapply cstr_changes; [exact Hc1|lia|by apply cstr_drop].
    + done.
    + destruct x; [done|simpl in *; lia].
    + lia.
    + lia.
    + exists m'. rewrite E, length_app. split_and!; [done|done|lia|].
      eapply changes_trans; (eapply changes_weaken; [eassumption|lia|lia]).
Qed.

Lemma component_cchar out x : Forall cchar out -> Forall cchar x -> Forall cchar (component out x).
Proof.
  intros Ho Hx. unfold component. repeat case_decide; [done| |].
  - destruct (back_list_suffix out) as [o E]. rewrite E in Ho. by apply Forall_app in Ho as [_ ?].
  - apply Forall_app. split; [by apply Forall_rev|done].
Qed.

Lemma components_cchar out cs :
  Forall cchar out -> Forall (Forall cchar) cs -> Forall cchar (components out cs).
Proof.
  intros Ho Hcs. revert out Ho. induction Hcs as [|c cs Hc Hcs IH]; intros out Ho; [done|].
  destruct cs as [|d cs]; [by apply component_cchar|].
  apply (IH (SLASH :: component out c)). constructor; [done|by apply component_cchar].
Qed.

Lemma split_cchar p : Forall cchar p -> Forall (Forall cchar) (split p).
Proof.
  induction 1 as [|c p Hc Hp IH]; simpl; [by repeat constructor|].
  destruct IH as [|x cs Hx Hcs]; destruct (c =? SLASH); simpl; rewrite ?Forall_cons, ?Forall_nil; auto.
  destruct x; rewrite !Forall_cons, ?Forall_nil; [auto|]. by inversion Hx.
Qed.

Lemma norm_cchar p : Forall cchar p -> Forall cchar (norm p).
Proof.
  intros Hp. unfold norm. set (out := match p with [] => [] | _ => _ end).
  assert (Forall cchar out) as Ho.
  { unfold out. destruct p as [|c p]; [done|]. inversion Hp; subst.
    destruct (c =? SLASH); (apply components_cchar; [|by apply split_cchar]); by repeat constructor. }
  destruct out; [by repeat constructor|]. by apply Forall_rev.
Qed.

(** ** [vfs_normalize_path] computes [norm] *)

(** The last steps: an empty result becomes [/], and the NUL. *)
Lemma normalize_finish normalized m out (n : nat) m0 np :
  np = normalized + Z.of_nat (length out) -> bytes_at m normalized (rev out) -> (length out <= n)%nat -> Forall cchar out ->
  changes normalized (normalized + Z.of_nat n) m0 m -> Z.of_nat n < MAX_PATH_LEN ->
  exists m', ('(m, np) ← (if np =? normalized then m ← put normalized m np SLASH; Done (m, np + 1) else Done (m, np));
              m ← put normalized m np 0; Done (m, normalized)) = Done (m', normalized) /\
    cstr m' normalized (match out with [] => [SLASH] | _ => rev out end) /\
    changes normalized (normalized + Z.max 1 (Z.of_nat n) + 1) m0 m'.
Proof.
  unfold MAX_PATH_LEN. intros -> Hb Hn Hf Hc Hlt. destruct out as [|c out].
  - cbn [length]. rewrite Z.add_0_r, Z.eqb_refl, put_fits by (unfold MAX_PATH_LEN; lia).
    cbn [mbind res_bind]. rewrite put_fits by (unfold MAX_PATH_LEN; lia). cbn [mbind res_bind].
    eexists. split; [reflexivity|]. split.
    + split; [by repeat constructor|]. simpl. split_and!; [|by rewrite load_store_eq|done].
      by rewrite load_store_ne, load_store_eq by lia.
    + eapply changes_trans; [eapply changes_weaken; [exact Hc|lia|lia]|].
      eapply changes_trans; apply changes_store; lia.
  - cbn [length] in *. decide_lia. cbn [mbind res_bind]. rewrite put_fits by (unfold MAX_PATH_LEN; lia).
    cbn [mbind res_bind]. eexists. split; [reflexivity|]. split.
    + split; [by apply Forall_rev|]. apply bytes_at_app. split.
      * eapply bytes_at_changes; [apply (changes_store (normalized + Z.of_nat (S (length out)))
          (normalized + Z.of_nat (S (length out)) + 1)); lia| |done].
        rewrite length_rev. simpl. lia.
      * rewrite length_rev. simpl. split; [apply load_store_eq|done].
    + eapply changes_trans; [eapply changes_weaken; [exact Hc|lia|lia]|].
      apply changes_store. lia.
Qed.

Lemma vfs_normalize_path_spec fuel normalized m path p :
  path <> 0 -> cstr m path p -> (length p + 1 < fuel)%nat -> Z.of_nat (length p) < MAX_PATH_LEN ->
  normalized <= path \/ path + Z.of_nat (length p) < normalized ->
  exists m', vfs_normalize_path normalized fuel m path = Done (m', normalized) /\
    cstr m' normalized (norm p) /\
    changes normalized (normalized + Z.max 1 (Z.of_nat (length p)) + 1) m m'.
Proof.
  intros Hp0 Hs Hf Hlt Hd. unfold vfs_normalize_path, norm. decide_lia.
  destruct Hs as [Hcc Hb]. assert (cstr m path p) as Hs by done.
  destruct p as [|c p].
  - apply cstr_inv in Hs as Hz. rewrite Hz. change (0 =? SLASH) with false. cbn iota.
    destruct (normalize_loop_spec fuel normalized m path [] []) as (m' & E & Hb' & Hl & Hc);
      try done; try (simpl in *; lia). cbn [mbind res_bind].
    cbn [length split components] in E. rewrite component_nil, Z.add_0_r in E. rewrite E.
    cbn [mbind res_bind]. apply (normalize_finish normalized m' [] 0 m); try done; simpl; lia.
  - apply cstr_inv in Hs as Hs'. destruct Hs' as (Hc & -> & Hs'). destruct (Z.eqb_spec c SLASH) as [->|Hne].
    + assert (changes normalized (normalized + 1) m (store m normalized SLASH)) as Hst
        by (apply changes_store; lia).
      cbn [length] in *.
      destruct (normalize_loop_spec fuel normalized (store m normalized SLASH) (path + 1) p [SLASH])
        as (m' & E & Hb' & Hl & Hch); cbn [length] in *; [|split; [apply load_store_eq|done]|lia|lia|lia|].
      { eapply cstr_changes; [exact Hst|lia|done]. }
      change (Z.of_nat 1) with 1 in E. rewrite put_fits by (unfold MAX_PATH_LEN; lia). cbn [mbind res_bind].
      rewrite E. cbn [mbind res_bind].
      apply (normalize_finish normalized m' _ (S (length p)) m); [done|done|lia| | |done].
      * apply components_cchar; [by repeat constructor|]. apply split_cchar. by inversion Hcc.
      * eapply changes_trans; (eapply changes_weaken; [eassumption|lia|lia]).
    + destruct (normalize_loop_spec fuel normalized m path (c :: p) []) as (m' & E & Hb' & Hl & Hch);
        [done|done|lia|simpl in *; lia|simpl in *; lia|].
      cbn [length] in E. change (Z.of_nat 0) with 0 in E. rewrite Z.add_0_r in E.
      cbn [mbind res_bind]. rewrite E.
      cbn [mbind res_bind]. apply (normalize_finish normalized m' _ (length (c :: p)) m); [done|done|done| |done|done].
      apply components_cchar; [done|]. by apply split_cchar.
Qed.

(** ** Paths of ordinary components *)

(** A component that is a name. *)
Definition proper (x : list Z) : Prop :=
  x <> [] /\ no_slash x /\ x <> [DOT] /\ x <> [DOT; DOT].

(** The components with runs of slashes between them, and perhaps at the end. *)
Fixpoint spread (cs : list (list Z * nat)) : list Z :=
  match cs with
  | [] => []
  | [(c, n)] => c ++ replicate n SLASH
  | (c, n) :: cs => c ++ replicate (S n) SLASH ++ spread cs
  end.

Fixpoint join (cs : list (list Z)) : list Z :=
  match cs with
  | [] => []
  | [c] => c
  | c :: cs => c ++ SLASH :: join cs
  end.

Lemma component_proper out x : proper x -> component out x = rev x ++ out.
Proof. intros (_ & _ & H1 & H2). unfold component. by rewrite !decide_False. Qed.

Lemma proper_not_cut x r : proper x -> ~ cut (x ++ r).
Proof.
  intros (Hne & Hx & _). destruct x as [|c x]; [done|]. simpl. intros ->. apply Hx. by left.
Qed.

Lemma spread_cons c n cs :
  cs <> [] -> spread ((c, n) :: cs) = c ++ replicate (S n) SLASH ++ spread cs.
Proof. by destruct cs. Qed.

Lemma components_spread out cs :
  Forall (fun c => proper c.1) cs -> cs <> [] ->
  rev (components out (split (spread cs))) = rev out ++ join (fst <$> cs).
Proof.
  intros Hcs. revert out. induction Hcs as [|[c n] cs Hc Hcs IH]; intros out Hne; [done|].
  simpl in Hc. pose proof Hc as (_ & Hns & _). destruct (decide (cs = [])) as [->|Hcs'].
  - simpl. rewrite components_cut by (done || by destruct n). rewrite component_proper by done.
    assert (components (rev c ++ out) (split (replicate n SLASH)) = rev c ++ out) as ->.
    { destruct n as [|n]; [done|]. rewrite <- (app_nil_r (replicate _ _)).
      by rewrite split_slashes by auto. }
    by rewrite rev_app_distr, rev_involutive.
  - rewrite spread_cons by done. rewrite components_cut by done. rewrite component_proper by done.
    rewrite components_slashes.
    + rewrite IH by done. destruct cs as [|d cs]; [done|]. cbn [fmap list_fmap fst join].
      cbn [rev]. by rewrite rev_app_distr, rev_involutive, <- !app_assoc.
    + destruct cs as [|[d k] cs]; [done|]. inversion Hcs; subst.
      destruct cs; simpl spread; by apply proper_not_cut.
Qed.

Lemma norm_slash p :
  norm (SLASH :: p) = match components [SLASH] (split p) with [] => [SLASH] | out => rev out end.
Proof. unfold norm. rewrite Z.eqb_refl. by destruct (components _ _). Qed.

Lemma norm_other c p :
  c <> SLASH ->
  norm (c :: p) = match components [] (split (c :: p)) with [] => [SLASH] | out => rev out end.
Proof. intros. unfold norm. decide_lia. by destruct (components _ _). Qed.

Lemma norm_spread lead cs :
  lead = [] \/ lead = [SLASH] -> Forall (fun c => proper c.1) cs -> cs <> [] ->
  norm (lead ++ spread cs) = lead ++ join (fst <$> cs).
Proof.
  intros Hl Hcs Hne. assert (exists c p, spread cs = c :: p /\ c <> SLASH) as (c & p & Hsp & Hc).
  { destruct cs as [|[x n] cs]; [done|]. inversion Hcs; subst.
    destruct x as [|c x]; [by destruct H1|]. exists c.
    assert (c <> SLASH) by (destruct H1 as (_ & Hns & _); unfold no_slash in Hns; set_solver).
    destruct cs; simpl; eauto. }
  assert (join (fst <$> cs) <> []) as Hj.
  { destruct cs as [|[x n] cs]; [done|]. inversion Hcs; subst. destruct H1 as [Hx _].
    destruct cs; simpl; [done|]. by destruct x. }
  destruct Hl as [-> | ->]; cbn [app].
  - pose proof (components_spread [] cs Hcs Hne) as Hr. rewrite Hsp in Hr |- *.
    rewrite norm_other by done. destruct (components [] (split (c :: p))); [simpl in Hr; congruence|exact Hr].
  - pose proof (components_spread [SLASH] cs Hcs Hne) as Hr. rewrite norm_slash.
    destruct (components [SLASH] (split (spread cs))); [done|]. by rewrite Hr.
Qed.

(** ** No [.] and no [..] is left *)

(** The components between the slashes, empty ones too. *)
Fixpoint parts (p : list Z) : list (list Z) :=
  match p with
  | [] => [[]]
  | c :: p =>
      if c =? SLASH then [] :: parts p
      else match parts p with x :: cs => (c :: x) :: cs | [] => [[c]] end
  end.

Definition is_dots (x : list Z) : Prop := x = [DOT] \/ x = [DOT; DOT].
Definition resolved (p : list Z) : Prop := Forall (fun x => ~ is_dots x) (parts p).

Lemma parts_ne p : parts p <> [].
Proof. induction p as [|c p IH]; simpl; [done|]. repeat case_match; done. Qed.

Lemma parts_app p q : parts (p ++ SLASH :: q) = parts p ++ parts q.
Proof.
  induction p as [|c p IH]; cbn [app parts]; [done|]. rewrite IH. destruct (c =? SLASH); [done|].
  pose proof (parts_ne p). by destruct (parts p).
Qed.

Lemma parts_no_slash x : no_slash x -> parts x = [x].
Proof.
  induction x as [|c x IH]; [done|]. unfold no_slash in *. intros [? ?]%not_elem_of_cons. simpl. decide_lia. by rewrite IH.
Qed.

Lemma not_dots_nil : ~ is_dots [].
Proof. by intros [?|?]. Qed.

(** An output, in reverse, that a component may follow. *)
Definition at_slash (out : list Z) : Prop := out = [] \/ exists o, out = SLASH :: o.

Lemma resolved_slash out : resolved (rev out) -> resolved (rev (SLASH :: out)).
Proof.
  unfold resolved. cbn [rev]. rewrite parts_app, Forall_app. intros H. split; [done|].
  constructor; [exact not_dots_nil|constructor].
Qed.

Lemma resolved_component out x :
  resolved (rev out) -> at_slash out -> no_slash x -> ~ is_dots x -> resolved (rev (rev x ++ out)).
Proof.
  unfold resolved. rewrite rev_app_distr, rev_involutive. intros Hr [->|[o ->]] Hx Hd.
  - cbn [rev app]. rewrite parts_no_slash by done. by constructor.
  - cbn [rev] in *. rewrite <- app_assoc. cbn [app]. rewrite parts_app, Forall_app in *. split; [apply Hr|].
    rewrite parts_no_slash by done. by constructor.
Qed.

Lemma drop_to_slash_cases out :
  drop_to_slash out = [] \/ exists t o, out = t ++ SLASH :: o /\ drop_to_slash out = SLASH :: o.
Proof.
  induction out as [|c out IH]; [by left|]. cbn [drop_to_slash]. destruct (Z.eqb_spec c SLASH) as [->|Hc].
  - right. by exists [], out.
  - destruct IH as [?|(t & o & -> & ?)]; [by left|]. right. by exists (c :: t), o.
Qed.

Lemma resolved_drop out : resolved (rev out) -> resolved (rev (drop_to_slash out)) /\ at_slash (drop_to_slash out).
Proof.
  intros Hr. destruct (drop_to_slash_cases out) as [->|(t & o & -> & ->)].
  - split; [constructor; [exact not_dots_nil|constructor]|by left].
  - split; [|right; by exists o]. apply resolved_slash. unfold resolved in *.
    rewrite rev_app_distr in Hr. cbn [rev] in Hr. rewrite <- app_assoc in Hr. cbn [app] in Hr.
    rewrite parts_app, Forall_app in Hr. by destruct Hr.
Qed.

Lemma resolved_step out x :
  resolved (rev out) -> at_slash out -> no_slash x -> resolved (rev (component out x)).
Proof.
  intros Hr Ha Hx. unfold component. case_decide; [done|]. case_decide.
  - destruct out as [|c [|d out]]; [done|done|]. cbn [back_list].
    destruct Ha as [?|[o [= -> <-]]]; [done|]. apply resolved_drop. unfold resolved in *. cbn [rev] in *.
    rewrite parts_app, Forall_app in Hr. by destruct Hr.
  - apply resolved_component; try done. intros [?|?]; done.
Qed.

Lemma components_resolved out cs :
  resolved (rev out) -> at_slash out -> Forall no_slash cs -> resolved (rev (components out cs)).
Proof.
  intros Hr Ha Hcs. revert out Hr Ha. induction Hcs as [|c cs Hc Hcs IH]; intros out Hr Ha; [done|].
  destruct cs as [|d cs]; [by apply resolved_step|].
  apply (IH (SLASH :: component out c)); [apply resolved_slash; by apply resolved_step|right; eauto].
Qed.

Lemma split_no_slash p : Forall no_slash (split p).
Proof.
  assert (no_slash []) as H0 by (unfold no_slash; set_solver).
  induction p as [|c p IH]; simpl; [by constructor|]. destruct (Z.eqb_spec c SLASH) as [->|Hc].
  - destruct IH as [|x cs Hx Hcs]; [by repeat constructor|]. destruct x; by repeat constructor.
  - destruct IH as [|x cs Hx Hcs]; constructor; try done; unfold no_slash in *; set_solver.
Qed.

Lemma norm_resolved p : resolved (norm p).
Proof.
  unfold norm. set (out := match p with [] => [] | _ => _ end).
  assert (resolved (rev out)) as Ho.
  { unfold out. assert (resolved []) as H0 by (constructor; [exact not_dots_nil|constructor]).
    destruct p as [|c p]; [done|].
    destruct (c =? SLASH); (apply components_resolved; [|unfold at_slash; eauto|apply split_no_slash]).
    - constructor; [exact not_dots_nil|]. constructor; [exact not_dots_nil|constructor].
    - done. }
  destruct out; [|done]. constructor; [exact not_dots_nil|]. constructor; [exact not_dots_nil|constructor].
Qed.

(** An absolute path stays one. *)
Lemma drop_to_slash_last out : last out = Some SLASH -> last (drop_to_slash out) = Some SLASH.
Proof.
  induction out as [|c out IH]; [done|]. cbn [drop_to_slash]. destruct (Z.eqb_spec c SLASH); [done|].
  destruct out as [|d out]; [simpl; congruence|]. exact IH.
Qed.

Lemma component_last out x : last out = Some SLASH -> last (component out x) = Some SLASH.
Proof.
  intros Hl. unfold component. case_decide; [done|]. case_decide.
  - destruct out as [|c [|d out]]; [done|done|]. by apply drop_to_slash_last.
  - rewrite last_app. by rewrite Hl.
Qed.

Lemma components_last out cs : last out = Some SLASH -> last (components out cs) = Some SLASH.
Proof.
  revert out. induction cs as [|c cs IH]; intros out Hl; [done|].
  destruct cs as [|d cs]; [by apply component_last|].
  apply (IH (SLASH :: component out c)). rewrite last_cons, component_last by done. done.
Qed.

Lemma norm_absolute p : head p = Some SLASH -> head (norm p) = Some SLASH.
Proof.
  destruct p as [|c p]; [done|]. intros [= ->]. unfold norm. rewrite Z.eqb_refl.
  pose proof (components_last [SLASH] (split p) eq_refl) as Hl.
  destruct (components [SLASH] (split p)) as [|x out]; [done|].
  rewrite rev_alt. change (head (reverse (x :: out)) = Some SLASH). by rewrite head_reverse.
Qed.

(** ** Properties *)

(** C13. For every path of at most 255 characters that does not begin before the static
    buffer and reach into it (the buffer itself is allowed), [vfs_normalize_path]
    terminates and stores only inside the buffer's 256 bytes. The string it
    leaves there has no component [.] or [..], and starts with a slash when
    the path does. *)
Theorem vfs_normalize_resolves fuel normalized m path p :
  path <> 0 -> cstr m path p -> Z.of_nat (length p) < MAX_PATH_LEN -> (length p + 1 < fuel)%nat ->
  normalized <= path \/ path + Z.of_nat (length p) < normalized ->
  exists m' q, vfs_normalize_path normalized fuel m path = Done (m', normalized) /\
    changes normalized (normalized + MAX_PATH_LEN) m m' /\ cstr m' normalized q /\
    resolved q /\ (head p = Some SLASH -> head q = Some SLASH).
Proof.
  intros Hp Hs Hl Hf Hd.
  destruct (vfs_normalize_path_spec fuel normalized m path p Hp Hs Hf Hl Hd) as (m' & E & Hs' & Hc).
  exists m', (norm p). split_and!; [done| |done|apply norm_resolved|apply norm_absolute].
  unfold MAX_PATH_LEN in *. eapply changes_weaken; [exact Hc|lia|lia].
Qed.

(** C14. A path of at most 255 characters that consists of ordinary names separated by
    runs of slashes, absolute (with one leading slash) or not and perhaps with
    slashes at its end, becomes its names joined by single slashes, behind the
    leading slash of an absolute path. *)
Theorem vfs_normalize_canonical fuel normalized m path lead cs :
  let p := lead ++ spread cs in
  path <> 0 -> cstr m path p -> (length p + 1 < fuel)%nat -> Z.of_nat (length p) < MAX_PATH_LEN ->
  normalized <= path \/ path + Z.of_nat (length p) < normalized ->
  lead = [] \/ lead = [SLASH] -> Forall (fun c => proper c.1) cs -> cs <> [] ->
  exists m', vfs_normalize_path normalized fuel m path = Done (m', normalized) /\
    cstr m' normalized (lead ++ join (fst <$> cs)).
Proof.
  cbv zeta. intros Hp Hs Hf Hlt Hd Hl Hcs Hne.
  destruct (vfs_normalize_path_spec fuel normalized m path _ Hp Hs Hf Hlt Hd) as (m' & E & Hs' & _).
  exists m'. rewrite norm_spread in Hs' by done. done.
Qed.

(** Two [..] in a row climb one level only: after the first, the output ends with
    the slash that the second then takes for its component. [/a/b/../..] becomes
    [/a/], not the root. *)
Theorem vfs_normalize_double_dotdot fuel normalized m path a b :
  let p := SLASH :: a ++ SLASH :: b ++ [SLASH; DOT; DOT; SLASH; DOT; DOT] in
  proper a -> proper b -> path <> 0 -> cstr m path p -> (length p + 1 < fuel)%nat ->
  Z.of_nat (length p) < MAX_PATH_LEN ->
  normalized <= path \/ path + Z.of_nat (length p) < normalized ->
  exists m', vfs_normalize_path normalized fuel m path = Done (m', normalized) /\
    cstr m' normalized (SLASH :: a ++ [SLASH]).
Proof.
  cbv zeta. intros Ha Hb Hp Hs Hf Hlt Hd.
  destruct (vfs_normalize_path_spec fuel normalized m path _ Hp Hs Hf Hlt Hd) as (m' & E & Hs' & _).
  exists m'. split; [done|]. rewrite norm_slash in Hs'.
  pose proof Ha as (_ & Han & _). pose proof Hb as (_ & Hbn & _).
  rewrite components_cut, component_proper in Hs' by done.
  change (SLASH :: b ++ ?r) with (replicate 1 SLASH ++ b ++ r) in Hs'.
  rewrite components_slashes in Hs' by by apply proper_not_cut.
  rewrite components_cut, component_proper in Hs' by done.
  assert (forall x out, no_slash x -> drop_to_slash (rev x ++ SLASH :: out) = SLASH :: out) as Hdrop.
  { intros x out Hx. rewrite <- (rev_involutive x) in Hx. induction (rev x) as [|c y IH]; [done|].
    unfold no_slash in *. simpl in Hx. simpl.
    assert (c <> SLASH) by set_solver. decide_lia. apply IH. set_solver. }
  change (split [SLASH; DOT; DOT; SLASH; DOT; DOT]) with [[]; [DOT; DOT]; [DOT; DOT]] in Hs'.
  cbn [components] in Hs'. rewrite component_nil in Hs'.
  assert (forall out, out <> [] -> component (SLASH :: out) [DOT; DOT] = drop_to_slash out) as Hback.
  { intros out Ho. unfold component. rewrite decide_False, decide_True by done. by destruct out. }
  rewrite (Hback (rev b ++ SLASH :: rev a ++ [SLASH])), Hdrop in Hs' by (done || by destruct (rev b)).
  rewrite Hback in Hs' by done. change (drop_to_slash (SLASH :: ?o)) with (SLASH :: o) in Hs'.
  cbn [rev] in Hs'. rewrite rev_app_distr, rev_involutive in Hs'. done.
Qed.

(** A name that does not fit the buffer is stored past its end. *)
Lemma copy_component_overruns fuel normalized m np pp x r :
  cstr m pp (x ++ r) -> no_slash x -> (length x < fuel)%nat -> np <= normalized + MAX_PATH_LEN ->
  normalized + MAX_PATH_LEN < np + Z.of_nat (length x) ->
  np <= pp \/ pp + Z.of_nat (length (x ++ r)) < np -> copy_component normalized fuel m np pp = Undef.
Proof.
  revert fuel m np pp. induction x as [|c x IH]; intros [|fuel] m np pp Hs Hx Hf Hn Hlt Hd; simpl in Hf, Hlt; try lia.
  apply cstr_inv in Hs as (Hc & Hl & Hs). unfold cchar, no_slash in *. apply not_elem_of_cons in Hx as [Hne Hx].
  cbn [copy_component]. rewrite Hl. decide_lia. cbn [negb andb app length] in *.
  destruct (decide (np = normalized + MAX_PATH_LEN)) as [->|Hnp]; [by rewrite put_overruns|].
  rewrite put_fits by lia. cbn [mbind res_bind]. apply IH; [|done|lia|lia|lia|lia].
  eapply cstr_changes; [apply (changes_store np (np + 1)); lia|lia|done].
Qed.

Theorem vfs_normalize_overruns fuel normalized m path name :
  path <> 0 -> cstr m path (SLASH :: name) -> proper name -> (length name + 1 < fuel)%nat ->
  MAX_PATH_LEN <= Z.of_nat (length name) -> normalized <= path \/ path + Z.of_nat (length name) + 1 < normalized ->
  vfs_normalize_path normalized fuel m path = Undef.
Proof.
  intros Hp Hs (Hne & Hx & Hd1 & Hd2) Hf Hl Hd. apply cstr_inv in Hs as (_ & Hc & Hs).
  unfold vfs_normalize_path. decide_lia. cbn iota.
  rewrite put_fits by (unfold MAX_PATH_LEN; lia). cbn [mbind res_bind]. set (m1 := store m normalized SLASH).
  assert (cstr m1 (path + 1) (name ++ [])) as Hs1.
  { rewrite app_nil_r. eapply cstr_changes; [apply (changes_store normalized (normalized + 1)); lia|lia|done]. }
  destruct fuel as [|fuel]; [lia|].
  assert (copy_component normalized fuel m1 (normalized + 1) (path + 1) = Undef) as Hover.
  { apply (copy_component_overruns _ _ _ _ _ name []); try done; rewrite ?app_nil_r; unfold MAX_PATH_LEN in *; lia. }
  rewrite app_nil_r in Hs1. destruct name as [|c x]; [done|]. destruct x as [|d [|e x]]; [unfold MAX_PATH_LEN in Hl; simpl in Hl; lia..|].
  unfold no_slash in Hx. rewrite !not_elem_of_cons in Hx. destruct Hx as (Hcs & Hds & Hes & _).
  apply cstr_inv in Hs1 as (Hcc & Hl1 & Hs1). apply cstr_inv in Hs1 as (Hdc & Hl2 & Hs1).
  apply cstr_inv in Hs1 as (Hec & Hl3 & _). replace (path + 1 + 1 + 1) with (path + 1 + 2) in Hl3 by lia.
  cbn [normalize_loop]. rewrite Hl1, Hl2, Hl3, Hover, !ends_char by done. unfold cchar in Hcc. decide_lia.
  by rewrite !andb_false_r.
Qed.

(** ** The properties at concrete paths *)

Definition w_path (p : list Z) : mem := write_bytes ∅ 10 (p ++ [0]).

Lemma w_path_cstr p : Forall cchar p -> cstr (w_path p) 10 p.
Proof. intros. by apply cstr_write. Qed.

Ltac w_cchar := apply (bool_decide_unpack _); vm_compute; exact I.

Lemma w_proper c : SLASH <> c -> DOT <> c -> proper [c].
Proof. intros. split_and!; [done|unfold no_slash; set_solver|congruence|done]. Qed.

Lemma vfs_normalize_resolves_witness :
  exists m' q, vfs_normalize_path 1000 20 (w_path (bytes_of "/a/./b//..")) 10 = Done (m', 1000) /\
    cstr m' 1000 q /\ resolved q.
Proof.
  destruct (vfs_normalize_resolves 20 1000 (w_path (bytes_of "/a/./b//..")) 10 (bytes_of "/a/./b//.."))
    as (m' & q & E & _ & Hs & Hr & _).
  - lia.
  - apply w_path_cstr. w_cchar.
  - vm_compute. reflexivity.
  - cbn. lia.
  - right. cbn. lia.
  - exists m', q. split; [exact E|]. split; [exact Hs|exact Hr].
Defined.

Lemma vfs_normalize_overruns_witness :
  vfs_normalize_path 1000 258 (w_path (SLASH :: replicate 256 97)) 10 = Undef.
Proof.
  apply (vfs_normalize_overruns 258 1000 (w_path (SLASH :: replicate 256 97)) 10 (replicate 256 97)).
  - lia.
  - apply w_path_cstr. w_cchar.
  - split_and!; [discriminate| |discriminate|discriminate]. unfold no_slash. apply (bool_decide_unpack _). vm_compute. exact I.
  - cbn. lia.
  - vm_compute. discriminate.
  - right. cbn. lia.
Defined.

Lemma vfs_normalize_canonical_witness :
  exists m', vfs_normalize_path 1000 20 (w_path (bytes_of "/a///b/")) 10 = Done (m', 1000) /\
    cstr m' 1000 (bytes_of "/a/b").
Proof.
  destruct (vfs_normalize_canonical 20 1000 (w_path (bytes_of "/a///b/")) 10 [SLASH] [([97], 2%nat); ([98], 1%nat)])
    as (m' & E & Hs).
  - lia.
  - apply w_path_cstr. w_cchar.
  - cbn. lia.
  - reflexivity.
  - right. cbn. lia.
  - right. reflexivity.
  - repeat constructor; apply w_proper; done.
  - discriminate.
  - exists m'. split; [exact E|exact Hs].
Defined.

Lemma vfs_normalize_double_dotdot_witness :
  exists m', vfs_normalize_path 1000 20 (w_path (bytes_of "/a/b/../..")) 10 = Done (m', 1000) /\
    cstr m' 1000 (bytes_of "/a/").
Proof.
  destruct (vfs_normalize_double_dotdot 20 1000 (w_path (bytes_of "/a/b/../..")) 10 [97] [98])
    as (m' & E & Hs).
  - apply w_proper; done.
  - apply w_proper; done.
  - lia.
  - apply w_path_cstr. w_cchar.
  - cbn. lia.
  - reflexivity.
  - right. cbn. lia.
  - exists m'. split; [exact E|exact Hs].
Defined.
