(* ===== verification/Machine.v ===== *)
(** * The machine as the drivers see it (src/impl/drivers/port_io/port.c)

    A driver is a computation over the kernel's state and the log of what the
    processor did at its pins. What an [in] instruction returns is the
    machine's choice, a function of the log so far: the class [Hw], a
    parameter of every definition that reads a port. *)
From S2P Require Export Memory.

(** ** Definitions *)

(** [bits]: the width of a transfer that is not of one byte. *)
Inductive event :=
  | EIn (port value : Z)
  | EOut (port value : Z)
  | EInWide (bits port value : Z)
  | EOutWide (bits port value : Z)
  | ECli | ESti | EHlt
  | EWrmsr (msr value : Z).

#[export] Instance event_eq_dec : EqDecision event.
Proof. solve_decision. Defined.

Abbreviation log := (list event).

(** [hw_in l port]: the byte the machine puts on the bus when [port] is read
    after the events [l]. *)
Class Hw := { hw_in : log -> Z -> Z }.

Definition inb_val `{Hw} (l : log) (port : Z) : Z := u8 (hw_in l port).

(** Computations over a state [K]. *)
Definition M (K A : Type) : Type := K -> log -> res (A * K * log).

#[export] Instance M_ret K : MRet (M K) := fun A a s l => Done (a, s, l).
#[export] Instance M_bind K : MBind (M K) := fun A B f x s l =>
  match x s l with
  | Done (a, s, l) => f a s l
  | Spin => Spin
  | Undef => Undef
  end.

Definition spin {K A} : M K A := fun _ _ => Spin.
Definition undef {K A} : M K A := fun _ _ => Undef.
(** What is read through a pointer; a bad pointer is undefined. *)
Definition some {K A} (x : option A) : M K A := match x with Some a => mret a | None => undef end.
Definition emit {K} (e : event) : M K unit := fun s l => Done (tt, s, l ++ [e]).
Definition lift {K A} (r : res A) : M K A := fun s l => a ← r; Done (a, s, l).

(** A component's state inside the kernel's: a lens. *)
Class Has (C K : Type) := {
  get_part : K -> C;
  set_part : C -> K -> K;
  get_set : forall c k, get_part (set_part c k) = c;
  set_get : forall k, set_part (get_part k) k = k;
  set_set : forall c c' k, set_part c (set_part c' k) = set_part c k;
}.

#[export] Instance has_refl C : Has C C.
Proof. by refine {| get_part := fun c => c; set_part := fun c _ => c |}. Defined.

#[export] Instance has_fst A B C `{Has C A} : Has C (A * B).
Proof.
  refine {| get_part := fun k => get_part k.1; set_part := fun c k => (set_part c k.1, k.2) |}.
  - intros c [a b]. apply get_set.
  - intros [a b]. simpl. by rewrite set_get.
  - intros c c' [a b]. simpl. by rewrite set_set.
Defined.

#[export] Instance has_snd A B C `{Has C B} : Has C (A * B).
Proof.
  refine {| get_part := fun k => get_part k.2; set_part := fun c k => (k.1, set_part c k.2) |}.
  - intros c [a b]. apply get_set.
  - intros [a b]. simpl. by rewrite set_get.
  - intros c c' [a b]. simpl. by rewrite set_set.
Defined.

Definition gets {C K A} `{Has C K} (f : C -> A) : M K A := fun s l => Done (f (get_part s), s, l).
Definition modify {C K} `{Has C K} (f : C -> C) : M K unit :=
  fun s l => Done (tt, set_part (f (get_part s)) s, l).

(** The code behind a function pointer: callbacks belong to whoever registers
    them, so what a call does is a parameter. *)
Class Code (K : Type) := { call : Z -> list Z -> M K Z }.

Definition call_void {K} `{Code K} (f : Z) (args : list Z) : M K unit := call f args;; mret tt.

(** [while (c) ;] with fuel. *)
Fixpoint while_ {K} (fuel : nat) (c : M K bool) : M K unit :=
  match fuel with
  | O => spin
  | S fuel => b ← c; if b : bool then while_ fuel c else mret tt
  end.

(** [while (c && timeout > 0) timeout--;]: what is left of [timeout]. *)
Fixpoint wait_while {K} (timeout : nat) (c : M K bool) : M K nat :=
  b ← c;
  if b : bool then match timeout with O => mret O | S timeout => wait_while timeout c end
  else mret timeout.

(** [while (--timeout > 0) { if (body) break; }], from a positive [timeout]. *)
Fixpoint retry {K} (timeout : nat) (body : M K bool) : M K nat :=
  match timeout with
  | S (S _ as timeout) => b ← body; if b : bool then mret timeout else retry timeout body
  | _ => mret O
  end.

(** [while (timeout > 0) { if (body) break; timeout--; }]. *)
Fixpoint attempts {K} (timeout : nat) (body : M K bool) : M K unit :=
  match timeout with
  | O => mret tt
  | S timeout => b ← body; if b : bool then mret tt else attempts timeout body
  end.

(** A loop over the elements of a list. *)
Fixpoint for_each {K A} (xs : list A) (f : A -> M K unit) : M K unit :=
  match xs with
  | [] => mret tt
  | x :: xs => f x;; for_each xs f
  end.

(** Where the linker puts the static buffer of vga.c, the string literals and
    the functions whose addresses are taken. *)
Class Linker := {
  back_buffer : Z;
  literal : string -> Z;
  function : string -> Z;
}.

(** The instructions of asm_utils.h, as what the processor does. *)
Section asm.
Context `{Hw} {K : Type}.

Definition asm_outb (port value : Z) : M K unit := emit (EOut (u16 port) (u8 value)).

Definition asm_inb (port : Z) : M K Z := fun s l =>
  let v := inb_val l (u16 port) in Done (v, s, l ++ [EIn (u16 port) v]).

(** The wider accesses: what comes in is again the machine's choice. *)
Definition in_wide (wide : log -> Z -> Z -> Z) (bits port : Z) : M K Z := fun s l =>
  let v := wide l bits port mod 2 ^ bits in Done (v, s, l ++ [EInWide bits port v]).

Definition asm_outw (port value : Z) : M K unit := emit (EOutWide 16 (u16 port) (u16 value)).
Definition asm_inw (wide : log -> Z -> Z -> Z) (port : Z) : M K Z := in_wide wide 16 (u16 port).
Definition asm_outl (port value : Z) : M K unit := emit (EOutWide 32 (u16 port) (u32 value)).
Definition asm_inl (wide : log -> Z -> Z -> Z) (port : Z) : M K Z := in_wide wide 32 (u16 port).

(** The value goes to the processor as its two halves in edx and eax. *)
Definition asm_wrmsr (msr value : Z) : M K unit :=
  let low := u32 (value .& 0xFFFFFFFF) in
  let high := u32 (value .>> 32) in
  emit (EWrmsr (u32 msr) ((high .<< 32) .| low)).

Definition asm_cli : M K unit := emit ECli.
Definition asm_sti : M K unit := emit ESti.
Definition asm_hlt : M K unit := emit EHlt.
End asm.

Section port_io.
Context `{Hw} {K : Type}.

Definition port_byte_out (port value : Z) : M K unit := asm_outb port value.

Definition port_byte_in (port : Z) : M K Z := asm_inb port.

Definition port_word_out (port value : Z) : M K unit :=
  port_byte_out port value;;
  port_byte_out (port + 1) (value .>> 8).

Definition port_word_in (port : Z) : M K Z :=
  result ← port_byte_in port;
  b ← port_byte_in (port + 1);
  mret (u16 (result .| (b .<< 8))).

Definition port_dword_out (port value : Z) : M K unit :=
  port_byte_out port value;;
  port_byte_out (port + 1) (value .>> 8);;
  port_byte_out (port + 2) (value .>> 16);;
  port_byte_out (port + 3) (value .>> 24).

Definition port_dword_in (port : Z) : M K Z :=
  b0 ← port_byte_in port;
  b1 ← port_byte_in (port + 1);
  b2 ← port_byte_in (port + 2);
  b3 ← port_byte_in (port + 3);
  mret (u32 (b0 .| (b1 .<< 8) .| (b2 .<< 16) .| (b3 .<< 24))).

Definition port_io_wait : M K unit := port_byte_out 0x80 0.
End port_io.

(** ** Reasoning about computations *)

Section laws.
Context {K : Type}.

Lemma M_bind_done {A B} (x : M K A) (f : A -> M K B) s l a s' l' :
  x s l = Done (a, s', l') -> (x ≫= f) s l = f a s' l'.
Proof. intros E. unfold mbind, M_bind. by rewrite E. Qed.

Lemma M_bind_undef {A B} (x : M K A) (f : A -> M K B) s l : x s l = Undef -> (x ≫= f) s l = Undef.
Proof. intros E. unfold mbind, M_bind. by rewrite E. Qed.

Lemma M_bind_inv {A B} (x : M K A) (f : A -> M K B) s l r :
  (x ≫= f) s l = Done r -> exists a s' l', x s l = Done (a, s', l') /\ f a s' l' = Done r.
Proof.
  unfold mbind, M_bind. destruct (x s l) as [[[a s'] l']| |]; [|done..]. eauto.
Qed.

Lemma M_bind_assoc {A B C} (x : M K A) (f : A -> M K B) (g : B -> M K C) s l :
  ((x ≫= f) ≫= g) s l = (x ≫= (fun a => f a ≫= g)) s l.
Proof. unfold mbind, M_bind. by destruct (x s l) as [[[a s'] l']| |]. Qed.
End laws.

Section state_laws.
Context {C K : Type} `{Has C K}.

Lemma modify_bind {A} (f : C -> C) (k : unit -> M K A) s l :
  (modify f ≫= k) s l = k tt (set_part (f (get_part s)) s) l.
Proof. reflexivity. Qed.

Lemma gets_bind {A X} (f : C -> X) (k : X -> M K A) s l :
  (gets f ≫= k) s l = k (f (get_part s)) s l.
Proof. reflexivity. Qed.

Lemma ret_bind {A X} (x : X) (k : X -> M K A) s l : (mret x ≫= k) s l = k x s l.
Proof. reflexivity. Qed.

Lemma some_bind {A X} (x : X) (k : X -> M K A) s l : (some (Some x) ≫= k) s l = k x s l.
Proof. reflexivity. Qed.

Lemma emit_bind {A} e (k : unit -> M K A) s l : (emit e ≫= k) s l = k tt s (l ++ [e]).
Proof. reflexivity. Qed.

Lemma asm_cli_bind {A} (k : unit -> M K A) s l : (asm_cli ≫= k) s l = k tt s (l ++ [ECli]).
Proof. reflexivity. Qed.
End state_laws.

(** The bytes sent to a port, in order. *)
Definition sent (port : Z) (l : log) : list Z :=
  omap (fun e => match e with EOut p v => if p =? port then Some v else None | _ => None end) l.

Lemma sent_app port l l' : sent port (l ++ l') = sent port l ++ sent port l'.
Proof. unfold sent. by rewrite omap_app. Qed.

(** [run] executes the straight-line prefix of a computation. *)
Ltac run :=
  cbv beta iota zeta delta [mbind M_bind mret M_ret emit gets modify lift res_bind res_ret
    port_byte_in port_byte_out asm_inb asm_outb port_io_wait spin undef];
  rewrite <- ?app_assoc; cbn [app].

Lemma lor_bytes a b k :
  0 <= a < 2 ^ k -> 0 <= b -> 0 <= k -> a .| (b .<< k) = a + b * 2 ^ k.
Proof.
  intros Ha Hb Hk. rewrite <- Z.shiftl_mul_pow2 by done.
  rewrite <- Z.lxor_lor, <- Z.add_nocarry_lxor; [done|..];
    apply Z.bits_inj'; intros i Hi; rewrite Z.land_spec, Z.bits_0, Z.shiftl_spec by lia;
    (destruct (Z.ltb_spec i k);
     [by rewrite (Z.testbit_neg_r b), andb_false_r by lia|
      rewrite <- (Z.mod_small a (2 ^ k)) by lia; by rewrite Z.mod_pow2_bits_high by lia]).
Qed.

Lemma inb_range `{Hw} l port : 0 <= inb_val l port < 256.
Proof. apply u8_range. Qed.

(** The word read from two ports holds their bytes, low byte first. *)
Lemma port_word_in_spec `{Hw} {K} port (s : K) l :
  0 <= port < 2 ^ 16 - 1 ->
  let b0 := inb_val l port in
  let b1 := inb_val (l ++ [EIn port b0]) (port + 1) in
  port_word_in port s l = Done (b0 + 256 * b1, s, l ++ [EIn port b0; EIn (port + 1) b1]).
Proof.
  intros Hp b0 b1. unfold port_word_in. run.
  rewrite (u16_id port), (u16_id (port + 1)) by lia. fold b0. fold b1. pose proof (inb_range l port). pose proof (inb_range (l ++ [EIn port b0]) (port + 1)).
  fold b0 in H0. fold b1 in H1. rewrite lor_bytes by lia. rewrite u16_id by lia.
  do 3 f_equal. lia.
Qed.

(** The halves of [asm_wrmsr] make up the value again. *)
Lemma asm_wrmsr_value `{Hw} {K} msr value (s : K) l :
  0 <= value < 2 ^ 64 -> asm_wrmsr msr value s l = Done (tt, s, l ++ [EWrmsr (u32 msr) value]).
Proof.
  intros Hv. unfold asm_wrmsr, emit. change 0xFFFFFFFF with (Z.ones 32).
  rewrite Z.land_ones, Z.shiftr_div_pow2 by lia. pose proof (Z.div_mod value (2 ^ 32) ltac:(lia)) as Hd. pose proof (Z.mod_pos_bound value (2 ^ 32) ltac:(lia)).
  assert (0 <= value / 2 ^ 32 < 2 ^ 32) by (split; [apply Z.div_pos|apply Z.div_lt_upper_bound]; lia).
  rewrite (u32_id (value mod 2 ^ 32)), (u32_id (value / 2 ^ 32)) by lia. rewrite Z.lor_comm, lor_bytes by lia.
  do 5 f_equal. lia.
Qed.

(** A word sent as two bytes carries the word. *)
Lemma port_word_out_spec `{Hw} {K} port v (s : K) l :
  0 <= port < 2 ^ 16 - 1 ->
  port_word_out port v s l = Done (tt, s, l ++ [EOut port (v mod 256); EOut (port + 1) (v / 256 mod 256)]).
Proof.
  intros Hp. unfold port_word_out. run. rewrite !u16_id by lia.
  rewrite Z.shiftr_div_pow2 by lia. done.
Qed.

(** ** Polling a status port

    [polled n l port]: the log after [n] reads of [port]. [ready_in n test l
    port]: the [n+1]st read is the first whose value passes [test]. *)

Section poll.
Context `{Hw}.

Fixpoint polled (n : nat) (l : log) (port : Z) : log :=
  match n with
  | O => l
  | S n => polled n (l ++ [EIn port (inb_val l port)]) port
  end.

Fixpoint ready_in (n : nat) (test : Z -> bool) (l : log) (port : Z) : bool :=
  match n with
  | O => test (inb_val l port)
  | S n => negb (test (inb_val l port)) && ready_in n test (l ++ [EIn port (inb_val l port)]) port
  end.

Lemma while_poll {K} fuel n (c : M K bool) test port (s : K) l :
  (forall l, c s l = Done (negb (test (inb_val l port)), s, l ++ [EIn port (inb_val l port)])) ->
  ready_in n test l port = true -> (n < fuel)%nat ->
  while_ fuel c s l = Done (tt, s, polled (S n) l port).
Proof.
  intros Hc. revert n l. induction fuel as [|fuel IH]; intros n l Hr Hf; [lia|].
  cbn [while_]. unfold mbind, M_bind. rewrite Hc. destruct n as [|n]; cbn [ready_in polled] in *.
  - by rewrite Hr.
  - apply andb_true_iff in Hr as [-> Hr]. rewrite (IH n) by (done || lia). done.
Qed.

Lemma sent_polled n l port p : sent p (polled n l port) = sent p l.
Proof.
  revert l. induction n as [|n IH]; intros l; cbn [polled]; [done|].
  rewrite IH, sent_app. simpl. by rewrite app_nil_r.
Qed.
End poll.

(** Callbacks that do nothing, for concrete runs. *)
Definition w_code {K} : Code K := {| call _ _ := mret 0 |}.
