(* ===== verification/Alloc.v ===== *)
(** * Calls of the heap (src/impl/kernel/stdlib.c) from stateful code

    [malloc] and [free] of Heap.v as steps of a computation over a state that
    has a heap and a memory. *)
From S2P Require Export Heap Machine.

Section alloc.
Context {K : Type} `{Has mem K} `{Has heap K} (fuel : nat).

(** [malloc(size)] *)
Definition allocate (size : Z) : M K Z :=
  h ← gets (C := heap) id;
  m ← gets (C := mem) id;
  '(p, h, m) ← lift (malloc fuel h m size);
  modify (fun _ : heap => h);;
  modify (fun _ : mem => m);;
  mret p.

(** [free(ptr)] *)
Definition release (ptr : Z) : M K unit := modify (fun m : mem => free m ptr).
End alloc.

(** There is room for [n] more pages, and fuel for the list of blocks. *)
Definition heap_room (n fuel : nat) (bl : list ablk) (h : heap) : Prop :=
  next_free_page (pages h) + 4096 * Z.of_nat n < 2 ^ 63 /\ (length bl + 2 * n <= S fuel)%nat.

(** In any state with a heap that has room, [allocate] returns a block that
    was in no allocation and changes no other one. *)
Lemma allocate_run {K} `{Has mem K} `{Has heap K} fuel base k bl n (s : K) l :
  heap_rep (get_part s) (get_part s) base bl -> 0 < n <= 4072 -> heap_room (S k) fuel bl (get_part s) ->
  exists p m' h' bl' sz, allocate fuel n s l = Done (p, set_part m' (set_part h' s), l) /\
    heap_rep h' m' base bl' /\ n <= sz /\ live base bl' ≡ₚ (p, sz) :: live base bl /\ base + HDR <= p /\
    keeps base bl (get_part s) m' /\ heap_room k fuel bl' h'.
Proof.
  intros Hr Hn [Hnf Hf].
  destruct (malloc_allocated fuel (get_part s) (get_part s) base bl n Hr Hn ltac:(lia) ltac:(lia))
    as (p & h' & m' & E & bl' & sz & Hr' & Hs & Hl & Hp & _ & Hk & Hnf' & Hlen).
  exists p, m', h', bl', sz. split; [|split_and!; try done; split; lia]. unfold allocate, id.
  rewrite !gets_bind, (M_bind_done _ _ _ _ (p, h', m') s l) by (unfold lift; by rewrite E). reflexivity.
Qed.

(** Two payloads in use, freed one after the other. *)
Lemma free_two base h m bl p sp q sq :
  heap_rep h m base bl -> (p, sp) ∈ live base bl -> (q, sq) ∈ live base bl -> p <> q ->
  exists bl', heap_rep h (free (free m p) q) base bl' /\
    live base bl ≡ₚ (p, sp) :: (q, sq) :: live base bl' /\ keeps base bl' m (free (free m p) q) /\
    (length bl' <= length bl)%nat.
Proof.
  intros Hr Hp Hq Hne. destruct (free_spec h m base bl p sp Hr Hp) as (Hr1 & [Hk1 Hk1'] & Hl1).
  assert ((q, sq) ∈ live base (a_free base bl p)) as Hq1.
  { rewrite Hl1 in Hq. apply elem_of_cons in Hq as [[= -> _]|Hq]; [done|exact Hq]. }
  destruct (free_spec h _ base _ q sq Hr1 Hq1) as (Hr2 & [Hk2 Hk2'] & Hl2).
  eexists. split; [exact Hr2|]. split; [by rewrite Hl1, Hl2|]. split; [|by rewrite !a_free_length]. split.
  - intros a Ha. by rewrite Hk2, Hk1.
  - intros r sz a Hin Ha. rewrite (Hk2' r sz); [|rewrite Hl2; by right|done].
    apply (Hk1' r sz); [rewrite Hl1, Hl2; by right; right|done].
Qed.
