(* ===== verification/HeapClient.v ===== *)
(** * Clients of the heap: any sequence of calls (src/impl/kernel/stdlib.c)

    What a program that uses the heap relies on, over any sequence of calls
    whose choice may depend on the answers so far. The specification is a
    store: for each address the client holds, the size it asked for and the
    bytes it knows to be there. [legal] is the client's side of the contract,
    [promised] the heap's, [after] the store after a call; [session] is the
    relation of the states that calls of Heap.v reach. *)
From S2P Require Export Alloc.

(** ** The specification *)

(** Requested size and known bytes of each area the client holds. *)
Abbreviation area := (Z * gmap Z Z)%type.
Abbreviation store_of_client := (gmap Z area).

Inductive request :=
  | Malloc (n : Z)
  | Calloc (nmemb size : Z)
  | Free (p : Z)
  | Realloc (p n : Z)
  | Write (p off c : Z)
  | Read (p off : Z).

Definition in_area (A : store_of_client) (p off : Z) : Prop :=
  exists n k, A !! p = Some (n, k) /\ 0 <= off < n.

(** Requests for at most a page; pointers that are null or held; accesses
    inside the size asked for. *)
Definition legal (A : store_of_client) (r : request) : Prop :=
  match r with
  | Malloc n => 0 <= n <= 4072
  | Calloc a b => 0 < a * b <= 4072
  | Free p => p = 0 \/ is_Some (A !! p)
  | Realloc p n => (p = 0 \/ is_Some (A !! p)) /\ 0 <= n <= 4072
  | Write p off _ | Read p off => in_area A p off
  end.

(** [v] is [n] bytes apart from all that the client holds (null for no bytes). *)
Definition fresh (A : store_of_client) (n v : Z) : Prop :=
  if n =? 0 then v = 0
  else v <> 0 /\ map_Forall (fun q '(sz, _) => v + n <= q \/ q + sz <= v) A.

Definition grant (A : store_of_client) (n v : Z) (k : gmap Z Z) : store_of_client :=
  if n =? 0 then A else <[v := (n, k)]> A.

Definition zeros (n : Z) : gmap Z Z := gset_to_gmap 0 (list_to_set (seqZ 0 n)).

(** The known bytes that a reallocation to [n] bytes keeps. *)
Definition cut (A : store_of_client) (p n : Z) : gmap Z Z :=
  match A !! p with Some (_, k) => filter (fun '(i, _) => i < n) k | None => ∅ end.

Definition set_byte (off c : Z) : area -> area := fun '(n, k) => (n, <[off := u8 c]> k).

Definition promised (A : store_of_client) (r : request) (v : Z) : Prop :=
  match r with
  | Malloc n => fresh A n v
  | Calloc a b => fresh A (a * b) v
  | Realloc p n =>
      fresh (delete p A) n v /\
      (forall sz k, A !! p = Some (sz, k) -> 0 < n <= sz -> v = p)
  | Read p off => forall n k c, A !! p = Some (n, k) -> k !! off = Some c -> v = c
  | Free _ | Write _ _ _ => True
  end.

Definition after (A : store_of_client) (r : request) (v : Z) : store_of_client :=
  match r with
  | Malloc n => grant A n v ∅
  | Calloc a b => grant A (a * b) v (zeros (a * b))
  | Free p => delete p A
  | Realloc p n => grant (delete p A) n v (cut A p n)
  | Write p off c => alter (set_byte off c) p A
  | Read _ _ => A
  end.

(** ** The calls *)

Section calls.
Variable fuel : nat.

Definition serve (r : request) (s : heap * mem) : res (Z * (heap * mem)) :=
  let '(h, m) := s in
  match r with
  | Malloc n => '(p, h, m) ← malloc fuel h m n; Done (p, (h, m))
  | Calloc a b => '(p, h, m) ← calloc fuel h m a b; Done (p, (h, m))
  | Free p => Done (0, (h, free m p))
  | Realloc p n => '(q, h, m) ← realloc fuel h m p n; Done (q, (h, m))
  | Write p off c => Done (0, (h, store m (p + off) c))
  | Read p off => Done (load m (p + off), (h, m))
  end.

(** The states that legal calls reach from [s0], with the store they leave
    the client with. *)
Inductive session (s0 : heap * mem) : nat -> heap * mem -> store_of_client -> Prop :=
  | session_start : session s0 0 s0 ∅
  | session_call n s A r v s' :
      session s0 n s A -> legal A r -> serve r s = Done (v, s') ->
      session s0 (S n) s' (after A r v).
End calls.

(** ** The invariant *)

(** Among the allocations [l], the area at [p] is held and has its known bytes. *)
Definition holds (l : list (Z * Z)) (m : mem) (p : Z) (e : area) : Prop :=
  0 < e.1 /\ (exists s, (p, s) ∈ l /\ e.1 <= s) /\
  map_Forall (fun i c => 0 <= i < e.1 /\ load m (p + i) = c) e.2.

Definition owned (l : list (Z * Z)) (m : mem) (A : store_of_client) : Prop := map_Forall (holds l m) A.

Lemma owned_keep l l' m m' A :
  owned l m A ->
  (forall p s e, A !! p = Some e -> (p, s) ∈ l ->
     (p, s) ∈ l' /\ forall a, p <= a < p + s -> load m' a = load m a) ->
  owned l' m' A.
Proof.
  intros Ho Hk p e He. destruct (Ho p e He) as (Hn & (s & Hin & Hs) & Hb).
  destruct (Hk p s e He Hin) as [Hin' Hm]. split; [done|]. split; [by exists s|].
  intros i c Hi. destruct (Hb i c Hi) as [? <-]. split; [done|]. apply Hm. lia.
Qed.

(** Without the area at [p]. *)
Lemma owned_delete l rest m A p sz :
  owned l m A -> l ≡ₚ (p, sz) :: rest -> owned rest m (delete p A).
Proof.
  intros Ho Hl. eapply owned_keep; [by apply map_Forall_delete|].
  intros q s e [Hne _]%lookup_delete_Some Hin. rewrite Hl in Hin.
  by apply elem_of_cons in Hin as [[= -> ->]|Hin].
Qed.

(** With a new area at [v]. *)
Lemma owned_insert l rest m m' A v s n k :
  owned rest m A -> l ≡ₚ (v, s) :: rest -> 0 < n <= s ->
  (forall q sz a, (q, sz) ∈ rest -> q <= a < q + sz -> load m' a = load m a) ->
  map_Forall (fun i c => 0 <= i < n /\ load m' (v + i) = c) k -> owned l m' (<[v := (n, k)]> A).
Proof.
  intros Ho Hl Hn Hm Hk. apply map_Forall_insert_2.
  - split; [apply Hn|]. split; [|done]. exists s. split; [rewrite Hl; by left|apply Hn].
  - eapply owned_keep; [exact Ho|]. intros q sz e _ Hin. split; [rewrite Hl; by right|].
    intros a. by apply Hm.
Qed.

(** No two payloads in use have the same address. *)
Lemma live_rest_ne h m base bl v s rest q sz :
  heap_rep h m base bl -> live base bl ≡ₚ (v, s) :: rest -> (q, sz) ∈ rest -> q <> v.
Proof.
  intros Hr Hl Hin ->. pose proof (live_NoDup _ _ _ _ _ (hr_seg Hr)) as Hnd.
  rewrite Hl, fmap_cons in Hnd. apply NoDup_cons in Hnd as [Hnd _]. apply Hnd.
  by apply (list_elem_of_fmap_2 fst) in Hin.
Qed.

Lemma live_fresh h m base bl v s rest A m0 n :
  heap_rep h m base bl -> live base bl ≡ₚ (v, s) :: rest -> owned rest m0 A -> 0 < n <= s ->
  fresh A n v.
Proof.
  intros Hr Hl Ho Hn. unfold fresh. decide_lia.
  assert ((v, s) ∈ live base bl) as Hv by (rewrite Hl; by left).
  destruct (live_bounds _ _ _ _ _ _ _ (hr_seg Hr) Hv) as [Hlo _]. pose proof (hr_base Hr).
  split; [unfold HDR in *; lia|]. intros q [sz k] Hq. destruct (Ho q _ Hq) as (_ & (sq & Hin & Hsq) & _).
  simpl in Hsq. pose proof (live_rest_ne _ _ _ _ _ _ _ _ _ Hr Hl Hin).
  destruct (live_disjoint_2 _ _ _ _ _ v s q sq (hr_seg Hr)); [done|rewrite Hl; by right|done|lia..].
Qed.

Lemma owned_null h m base bl m0 A : heap_rep h m base bl -> owned (live base bl) m0 A -> A !! 0 = None.
Proof.
  intros Hr Ho. destruct (A !! 0) as [e|] eqn:E; [|done]. destruct (Ho 0 e E) as (_ & (s & Hin & _) & _).
  destruct (live_bounds _ _ _ _ _ _ _ (hr_seg Hr) Hin) as [Hlo _]. pose proof (hr_base Hr).
  unfold HDR in *. lia.
Qed.

Lemma zeros_lookup n i c : zeros n !! i = Some c -> 0 <= i < n /\ c = 0.
Proof.
  unfold zeros. intros [Hi <-]%lookup_gset_to_gmap_Some. rewrite elem_of_list_to_set, elem_of_seqZ in Hi. lia.
Qed.

Lemma cut_lookup A p n i c :
  cut A p n !! i = Some c -> exists sz k, A !! p = Some (sz, k) /\ k !! i = Some c /\ i < n.
Proof.
  unfold cut. destruct (A !! p) as [[sz k]|]; [|done].
  intros [? ?]%map_lookup_filter_Some. eauto.
Qed.

(** The heap from [base] serves the client's store [A] and has room for [k]
    more calls; below it the memory is [m0]'s. *)
Section served.
Context (fuel : nat) (base : Z) (m0 : mem).

Definition serves (k : nat) (s : heap * mem) (A : store_of_client) : Prop :=
  exists bl, heap_rep s.1 s.2 base bl /\ heap_room k fuel bl s.1 /\
    owned (live base bl) s.2 A /\ forall a, a < base -> load s.2 a = load m0 a.

(** One call is answered as promised. *)
Definition answered (k : nat) (s : heap * mem) (A : store_of_client) (r : request) : Prop :=
  exists v s', serve fuel r s = Done (v, s') /\ promised A r v /\ serves k s' (after A r v).

Lemma heap_room_weaken k bl h : heap_room (S k) fuel bl h -> heap_room k fuel bl h.
Proof. intros [? ?]. split; lia. Qed.

(** A block at [v] takes the place of the area at [p], if one was there. *)
Lemma serves_grant k bl h m bl' h' m' A v s rest n kn :
  heap_room (S k) fuel bl h -> owned rest m A -> (forall a, a < base -> load m a = load m0 a) ->
  heap_rep h' m' base bl' -> live base bl' ≡ₚ (v, s) :: rest -> 0 < n <= s ->
  (forall q sz a, (q, sz) ∈ rest -> q <= a < q + sz -> load m' a = load m a) ->
  (forall a, a < base -> load m' a = load m a) ->
  next_free_page (pages h') <= next_free_page (pages h) + 4096 -> (length bl' <= length bl + 2)%nat ->
  map_Forall (fun i c => 0 <= i < n /\ load m' (v + i) = c) kn ->
  serves k (h', m') (grant A n v kn).
Proof.
  intros [Hp Hf] Ho H0 Hr Hl Hn Hk Hb Hp' Hf' Hkn. exists bl'. split; [done|]. split; [split; cbn [fst snd]; lia|].
  split.
  - unfold grant. decide_lia. by eapply owned_insert.
  - intros a Ha. simpl. rewrite Hb by done. by apply H0.
Qed.

Lemma serves_idle k s A : serves (S k) s A -> serves k s A.
Proof. intros (bl & ? & Hroom & ?). exists bl. split; [done|]. split; [by apply heap_room_weaken|done]. Qed.

Lemma malloc_answered k s A n : serves (S k) s A -> 0 <= n <= 4072 -> answered k s A (Malloc n).
Proof.
  destruct s as [h m]. intros Hsv Hn. destruct (decide (n = 0)) as [->|Hn0].
  { exists 0, (h, m). split; [reflexivity|]. split; [done|by apply serves_idle]. }
  destruct Hsv as (bl & Hr & Hroom & Ho & H0). cbn [fst snd] in *. destruct (Hroom) as [Hp Hf].
  destruct (malloc_allocated fuel h m base bl n Hr ltac:(lia) ltac:(lia) ltac:(lia)) as
    (v & h' & m' & E & bl' & s & Hr' & Hs & Hl & _ & _ & [Hkb Hk] & Hp' & Hf').
  exists v, (h', m'). split; [cbn [serve]; by rewrite E|]. split.
  - by eapply live_fresh; [exact Hr'|exact Hl| |lia].
  - eapply serves_grant; [done..|lia|done|done|done|done|apply map_Forall_empty].
Qed.

Lemma calloc_answered k s A a b : serves (S k) s A -> 0 < a * b <= 4072 -> answered k s A (Calloc a b).
Proof.
  destruct s as [h m]. intros (bl & Hr & Hroom & Ho & H0) Hn. cbn [fst snd] in *. destruct (Hroom) as [Hp Hf].
  destruct (calloc_correct fuel h m base bl a b Hr ltac:(lia) ltac:(lia) ltac:(lia)) as
    (v & h' & m' & bl' & s & E & Hr' & Hs & Hl & Hz & Hk & Hkb & Hp' & Hf').
  exists v, (h', m'). split; [cbn [serve]; by rewrite E|]. split.
  - by eapply live_fresh; [exact Hr'|exact Hl| |lia].
  - eapply serves_grant; [done..|lia| |done|done|done|].
    + intros q sz a' Hin. apply (Hk q sz); [done|exact (live_rest_ne _ _ _ _ _ _ _ _ _ Hr' Hl Hin)].
    + intros i c [? ->]%zeros_lookup. split; [done|by apply Hz].
Qed.

Lemma free_answered k s A p : serves (S k) s A -> p = 0 \/ is_Some (A !! p) -> answered k s A (Free p).
Proof.
  destruct s as [h m]. intros (bl & Hr & Hroom & Ho & H0) Hp. cbn [fst snd] in *.
  exists 0, (h, free m p). split; [reflexivity|]. split; [done|]. cbn [after].
  destruct Hp as [->|[e He]].
  { rewrite delete_id by (by eapply owned_null). exists bl. split; [done|]. by split; [apply heap_room_weaken|]. }
  destruct (Ho p e He) as (_ & (s & Hin & _) & _).
  destruct (free_spec h m base bl p s Hr Hin) as (Hr' & [Hkb Hk] & Hl).
  exists (a_free base bl p). split; [done|]. split; [|split].
  - pose proof (a_free_length base bl p). destruct Hroom. split; cbn [fst snd]; lia.
  - eapply owned_keep; [by eapply owned_delete|]. intros q sz e' _ Hq. split; [done|].
    intros a. apply Hk. rewrite Hl. by right.
  - intros a Ha. simpl. rewrite Hkb by done. by apply H0.
Qed.

Lemma realloc_answered k s A p n :
  serves (S k) s A -> is_Some (A !! p) -> 0 < n <= 4072 -> answered k s A (Realloc p n).
Proof.
  destruct s as [h m]. intros (bl & Hr & Hroom & Ho & H0) [[sz kn] He] Hn. cbn [fst snd] in *.
  destruct (Ho p _ He) as (Hsz & (s & Hin & Hs) & Hkn). cbn [fst snd] in *.
  destruct (Hroom) as [Hp Hf].
  assert (exists q h' m' bl' s' rest, realloc fuel h m p n = Done (q, h', m') /\ (n <= s -> q = p) /\
    heap_rep h' m' base bl' /\ n <= s' /\
    live base bl ≡ₚ (p, s) :: rest /\ live base bl' ≡ₚ (q, s') :: rest /\
    (forall i, 0 <= i < n -> i < s -> load m' (q + i) = load m (p + i)) /\
    keeps_but p (live base bl) m m' /\ (forall a, a < base -> load m' a = load m a) /\
    next_free_page (pages h') <= next_free_page (pages h) + 4096 /\
    (length bl' <= length bl + 2)%nat) as (q & h' & m' & bl' & s' & rest & E & Hin' & Hr' & Hs' & Hl & Hl' & Hc & Hk & Hkb & Hp' & Hf').
  { destruct (Z.le_gt_cases n s).
    - destruct (realloc_shrink fuel h m base bl p s n Hr Hin ltac:(lia)) as
        (m' & bl' & s' & rest & E & ? & ? & ? & ? & Hc & ? & ? & ?).
      exists p, h, m', bl', s', rest. split_and!; try done; [intros; apply Hc; lia|lia].
    - destruct (realloc_grow fuel h m base bl p s n Hr Hin ltac:(lia) ltac:(lia) ltac:(lia)) as
        (q & h' & m' & bl' & s' & rest & E & ? & ? & ? & ? & Hc & ? & ? & ? & ?).
      exists q, h', m', bl', s', rest. split_and!; try done; [lia|]. intros; apply Hc; lia. }
  assert (owned rest m (delete p A)) as Hod by (by eapply owned_delete).
  exists q, (h', m'). split; [cbn [serve]; by rewrite E|]. split; [split|].
  - by eapply live_fresh; [exact Hr'|exact Hl'| |lia].
  - intros sz' k' He' Hle. rewrite He in He'. injection He' as <- <-. apply Hin'. lia.
  - eapply serves_grant; [done..|lia| |done|done|done|].
    + intros x sx a Hx. apply (Hk x sx); [rewrite Hl; by right|exact (live_rest_ne _ _ _ _ _ _ _ _ _ Hr Hl Hx)].
    + intros i c (sz' & k' & He' & Hi & Hin2)%cut_lookup. rewrite He in He'. injection He' as <- <-.
      destruct (Hkn i c Hi) as [? Hld]. split; [lia|]. rewrite <- Hld. apply Hc; lia.
Qed.

(** [realloc] of null is [malloc], [realloc] to nothing is [free]. *)
Lemma realloc_null_answered k s A n : serves (S k) s A -> 0 <= n <= 4072 -> answered k s A (Realloc 0 n).
Proof.
  intros Hs Hn. destruct (malloc_answered k s A n Hs Hn) as (v & s' & E & Hp & Hs').
  assert (A !! 0 = None) as H0.
  { destruct Hs as (bl & Hr & _ & Ho & _). by eapply owned_null. }
  destruct s as [h m]. exists v, s'. split; [exact E|]. cbn [promised after]. rewrite delete_id by done.
  unfold cut. rewrite H0. split; [|done]. by split.
Qed.

Lemma realloc_nothing_answered k s A p :
  serves (S k) s A -> is_Some (A !! p) -> answered k s A (Realloc p 0).
Proof.
  intros Hs He. destruct (free_answered k s A p Hs (or_intror He)) as (v & s' & E & _ & Hs').
  assert (p <> 0) as Hp.
  { intros ->. destruct Hs as (bl & Hr & _ & Ho & _). rewrite (owned_null _ _ _ _ _ _ Hr Ho) in He.
    by destruct He. }
  destruct s as [h m]. cbn [serve] in E. injection E as <- <-.
  exists 0, (h, free m p). split; [cbn [serve realloc]; unfold realloc; by decide_lia|].
  split; [split; [done|lia]|exact Hs'].
Qed.

Lemma write_answered k s A p off c : serves (S k) s A -> in_area A p off -> answered k s A (Write p off c).
Proof.
  destruct s as [h m]. intros (bl & Hr & Hroom & Ho & H0) (n & kn & He & Hoff). cbn [fst snd] in *.
  destruct (Ho p _ He) as (Hn & (s & Hin & Hs) & Hkn). cbn [fst snd] in *.
  destruct (live_bounds _ _ _ _ _ _ _ (hr_seg Hr) Hin) as [Hlo _].
  assert (changes p (p + s) m (store m (p + off) c)) as Hc by (apply changes_store; lia).
  destruct (heap_rep_write h m _ base bl p s Hr Hin Hc) as [Hr' Hk].
  exists 0, (h, store m (p + off) c). split; [reflexivity|]. split; [done|]. exists bl. split; [done|].
  split; [by apply heap_room_weaken|]. cbn [fst snd after]. split.
  - intros q e [[-> (e' & Hq & ->)]|[Hne Hq]]%lookup_alter_Some.
    + rewrite He in Hq. injection Hq as <-. split; [done|]. split; [by exists s|]. cbn [set_byte fst snd].
      intros i c' [[<- <-]|[Hi Hl]]%lookup_insert_Some; [split; [lia|apply load_store_eq]|].
      destruct (Hkn i c' Hl) as [? <-]. split; [done|]. apply load_store_ne. lia.
    + destruct (Ho q e Hq) as (Hn' & (sq & Hinq & Hsq) & Hb). split; [done|]. split; [by exists sq|].
      intros i c' Hi. destruct (Hb i c' Hi) as [? <-]. split; [done|]. apply (Hk q sq); [done|done|lia].
  - intros a Ha. rewrite load_store_ne by (unfold HDR in *; lia). by apply H0.
Qed.

Lemma read_answered k s A p off : serves (S k) s A -> in_area A p off -> answered k s A (Read p off).
Proof.
  destruct s as [h m]. intros Hs _. exists (load m (p + off)), (h, m). split; [reflexivity|].
  split; [|by apply serves_idle]. intros n kn c He Hc. destruct Hs as (bl & _ & _ & Ho & _).
  destruct (Ho p _ He) as (_ & _ & Hkn). by destruct (Hkn off c Hc).
Qed.

Lemma call_answered k s A r : serves (S k) s A -> legal A r -> answered k s A r.
Proof.
  intros Hs. destruct r as [n|a b|p|p n|p off c|p off]; cbn [legal].
  - by apply malloc_answered.
  - by apply calloc_answered.
  - by apply free_answered.
  - intros [[->|He] Hn]; [by apply realloc_null_answered|].
    destruct (decide (n = 0)) as [->|]; [by apply realloc_nothing_answered|apply realloc_answered; [done..|lia]].
  - by apply write_answered.
  - by apply read_answered.
Qed.

(** The invariant of the sessions, by induction on the calls. *)
Lemma session_serves s0 n s A k :
  session fuel s0 n s A -> serves (n + k) s0 ∅ -> serves k s A.
Proof.
  intros Hss. revert k. induction Hss as [|n s A r v s' _ IH Hl E]; intros k H0; [exact H0|].
  destruct (call_answered k s A r) as (v' & s1 & E' & _ & H1); [|done|].
  - apply IH. by replace (n + S k)%nat with (S n + k)%nat by lia.
  - rewrite E in E'. by injection E' as <- <-.
Qed.
End served.

(** ** Properties *)

(** C3. In every state that a sequence of legal calls ([malloc], [calloc],
    [free], [realloc], and reads and writes inside the areas held) reaches from
    a well-formed heap, any further legal call returns, and returns what the
    specification promises: new areas apart from all that the client holds,
    zero bytes from [calloc], the old contents after [realloc] (in place when it
    shrinks), at every byte what was last written there. Nothing below the
    heap changes. *)
Theorem sessions_are_served fuel base bl (h0 : heap) (m0 : mem) n s A r :
  heap_rep h0 m0 base bl -> heap_room (S n) fuel bl h0 ->
  session fuel (h0, m0) n s A -> legal A r ->
  exists v s', serve fuel r s = Done (v, s') /\ promised A r v /\
    forall a, a < base -> load s'.2 a = load m0 a.
Proof.
  intros Hr Hroom Hss Hl.
  destruct (call_answered fuel base m0 0 s A r) as (v & s' & E & Hp & bl' & _ & _ & _ & Hb); [|done|by exists v, s'].
  eapply session_serves; [exact Hss|]. exists bl. replace (n + 1)%nat with (S n) by lia.
  split_and!; [done|done|apply map_Forall_empty|done].
Qed.

(** A client that asks for 100 bytes, writes one, and has them moved to 3000. *)
Lemma sessions_are_served_witness :
  exists s A q, session 20 (w_h0, ∅) 4 s A /\ A !! q = Some (3000, <[7 := 65]> ∅) /\
    exists s', serve 20 (Read q 7) s = Done (65, s').
Proof.
  set (s0 := (w_h0, ∅) : heap * mem).
  assert (forall n s A r, session 20 s0 n s A -> (n < 5)%nat -> legal A r ->
    exists v s', serve 20 r s = Done (v, s') /\ promised A r v /\
      forall a, a < 0x400000 -> load s'.2 a = load ∅ a) as Hstep.
  { intros n s A r Hs Hn Hl. apply (sessions_are_served 20 0x400000 [] w_h0 ∅ n s A r w_rep0); [|done..].
    split; simpl; lia. }
  assert (session 20 s0 0 s0 ∅) as Hs0 by constructor.
  destruct (Hstep _ _ _ (Malloc 100) Hs0) as (p & s1 & E1 & _); [lia|simpl; lia|].
  apply (session_call 20 s0 _ _ _ (Malloc 100) _ _ Hs0) in E1; [|simpl; lia].
  cbn [after] in E1. change (grant ∅ 100 p ∅) with (<[p := (100, ∅)]> ∅ : store_of_client) in E1.
  destruct (Hstep _ _ _ (Write p 7 65) E1) as (v2 & s2 & E2 & _);
    [lia|exists 100, ∅; split; [apply lookup_insert_eq|lia]|].
  apply (session_call 20 s0 _ _ _ (Write p 7 65) _ _ E1) in E2;
    [|exists 100, ∅; split; [apply lookup_insert_eq|lia]].
  cbn [after] in E2. rewrite alter_insert_eq in E2. change (set_byte 7 65 (100, ∅)) with (100, <[7 := 65]> ∅ : gmap Z Z) in E2.
  destruct (Hstep _ _ _ (Calloc 10 10) E2) as (z & s3 & E3 & Hf & _); [lia|simpl; lia|].
  apply (session_call 20 s0 _ _ _ (Calloc 10 10) _ _ E2) in E3; [|simpl; lia]. cbn [after] in E3.
  change (grant _ (10 * 10) z (zeros (10 * 10))) with
    (<[z := (100, zeros 100)]> (<[p := (100, <[7 := 65]> ∅)]> ∅) : store_of_client) in E3.
  cbn [promised] in Hf. destruct Hf as [_ Hf]. rewrite map_Forall_insert in Hf by done. destruct Hf as [Hf _].
  assert (p <> z) as Hpz by (simpl in Hf; lia).
  assert (legal (<[z := (100, zeros 100)]> (<[p := (100, <[7 := 65]> ∅)]> ∅)) (Realloc p 3000)) as Hl.
  { split; [right|lia]. rewrite lookup_insert_ne, lookup_insert_eq by done. by eexists. }
  destruct (Hstep _ _ _ (Realloc p 3000) E3) as (q & s4 & E4 & _); [lia|done|].
  apply (session_call 20 s0 _ _ _ (Realloc p 3000) _ _ E3) in E4; [|done]. cbn [after] in E4.
  assert (cut (<[z := (100, zeros 100)]> (<[p := (100, <[7 := 65]> ∅)]> ∅)) p 3000 = <[7 := 65]> ∅) as Hc.
  { unfold cut. rewrite lookup_insert_ne, lookup_insert_eq by done. reflexivity. }
  rewrite Hc in E4. eexists s4, _, q. split; [exact E4|]. split; [apply lookup_insert_eq|].
  destruct (Hstep _ _ _ (Read q 7) E4) as (v & s5 & E5 & Hv & _);
    [lia|do 2 eexists; split; [apply lookup_insert_eq|lia]|].
  exists s5. rewrite E5. do 2 f_equal. by apply (Hv 3000 (<[7 := 65]> ∅)); [apply lookup_insert_eq|].
Defined.
