(* ===== verification/Vfs.v ===== *)
(** * Virtual file system (src/impl/kernel/fs.c, fs.h)

    The descriptor and mount tables are lists; the nodes, file systems and
    operation tables that the code reaches through pointers are maps from
    addresses, and a function pointer is called through [Code]. An access
    through a pointer to nothing is [Undef]. Paths lie in the byte memory. *)
From S2P Require Export VfsPath Console Machine.

(** ** Definitions *)

Definition MAX_FD := 256.
Definition MAX_MOUNTS := 16.
Definition FS_FILE := 0x01.
Definition FS_DIRECTORY := 0x02.
Definition FS_SEEK_SET := 0.
Definition FS_SEEK_CUR := 1.
Definition FS_SEEK_END := 2.

(** The operations of a file system; 0 is a null pointer. *)
Record FSOperations := MkOps {
  op_mount : Z;
  op_unmount : Z;
  op_read : Z;
  op_write : Z;
  op_open : Z;
  op_close : Z;
  op_create : Z;
  op_unlink : Z;
  op_mkdir : Z;
  op_rmdir : Z;
  op_finddir : Z;
  op_readdir : Z;
  op_stat : Z;
  op_chmod : Z;
  op_chown : Z;
}.

Record FileSystem := MkFs { fs_name : list Z; fs_flags : Z; fs_device : Z; fs_ops : Z }.

Record FSNode := MkNode {
  node_name : list Z;
  node_flags : Z;
  node_permissions : Z;
  node_uid : Z;
  node_gid : Z;
  node_size : Z;
  node_inode : Z;
  node_atime : Z;
  node_mtime : Z;
  node_ctime : Z;
  node_fs : Z;
  node_private : Z;
}.

Record FileDescriptor := MkFd { fd_node : Z; fd_offset : Z; fd_flags : Z; fd_refcount : Z }.
Definition fd_zero : FileDescriptor := MkFd 0 0 0 0.

Record Vfs := MkVfs {
  nodes : gmap Z FSNode;
  filesystems : gmap Z FileSystem;
  operations : gmap Z FSOperations;
  fd_table : list FileDescriptor;
  mount_points : list (Z * Z);
  num_mounts : Z;
  root_node : Z;
}.

Definition set_fds (t : list FileDescriptor) (v : Vfs) : Vfs :=
  MkVfs (nodes v) (filesystems v) (operations v) t (mount_points v) (num_mounts v) (root_node v).

Definition set_fd (fd : Z) (d : FileDescriptor) (v : Vfs) : Vfs :=
  set_fds (<[Z.to_nat fd := d]> (fd_table v)) v.

(** [node->fs->ops->op]; [None] is an access through a bad pointer. *)
Definition op_of (v : Vfs) (op : FSOperations -> Z) (node : Z) : option Z :=
  n ← nodes v !! node;
  f ← filesystems v !! node_fs n;
  o ← operations v !! fs_ops f;
  Some (op o).

(** The pointer tested by
    [node->fs && node->fs->ops && node->fs->ops->op]: 0 when the test fails. *)
Definition op_if (v : Vfs) (op : FSOperations -> Z) (node : Z) : option Z :=
  n ← nodes v !! node;
  if node_fs n =? 0 then Some 0 else
  f ← filesystems v !! node_fs n;
  if fs_ops f =? 0 then Some 0 else
  o ← operations v !! fs_ops f;
  Some (op o).

(** The entry behind [fd], unless
    [fd < 0 || fd >= MAX_FD || !fd_table[fd].node]. *)
Definition open_fd (v : Vfs) (fd : Z) : option FileDescriptor :=
  if (fd <? 0) || (MAX_FD <=? fd) then None
  else d ← fd_table v !! Z.to_nat fd; if fd_node d =? 0 then None else Some d.

Definition find_free_fd (v : Vfs) : Z :=
  match list_find (fun d => fd_node d = 0) (fd_table v) with
  | Some (i, _) => Z.of_nat i
  | None => -1
  end.

(** [strcmp(s, "/") == 0] *)
Definition is_root (m : mem) (s : Z) : bool := (load m s =? SLASH) && (load m (s + 1) =? 0).

(** The loop over the mount points: the file system (0 when none matches) and
    the rest of the path. *)
Fixpoint find_mount (fuel : nat) (mounts : list (Z * Z)) (m : mem) (norm_path : Z) : res (Z * Z) :=
  match mounts with
  | [] => Done (0, norm_path)
  | (path, fs) :: mounts =>
      mlen ← strlen fuel m path;
      if (strncmp m norm_path path mlen =? 0) && ends (load m (norm_path + mlen)) then
        rel_path ← skip_slashes fuel m (norm_path + mlen);
        Done (fs, rel_path)
      else find_mount fuel mounts m norm_path
  end.

Definition print {K} `{Has Console K} (text : list Z) : M K unit := modify (print_str text).
Section vfs.
Context {K : Type} `{Has mem K} `{Has Vfs K} `{Has Console K} `{Code K}.

(** The static buffer of [vfs_normalize_path], the buffer [component] on the
    stack of [vfs_lookup], and the fuel of the loops over strings. *)
Context (normalized stack : Z) (fuel : nat).

Definition normalize (path : Z) : M K Z :=
  m ← gets id;
  '(m, r) ← lift (vfs_normalize_path normalized fuel m path);
  modify (fun _ : mem => m);;
  mret r.

Fixpoint walk (n : nat) (node p : Z) : M K Z :=
  match n with
  | O => spin
  | S n =>
      m ← gets id;
      if load m p =? 0 then mret node
      else
        '(m, cp, p) ← lift (copy_component stack fuel m stack p);
        m ← lift (put stack m cp 0);
        modify (fun _ : mem => m);;
        p ← lift (skip_slashes fuel m p);
        v ← gets id;
        finddir ← some (op_of v op_finddir node);
        if finddir =? 0 then mret 0
        else
          node ← call finddir [node; stack];
          if node =? 0 then mret 0 else walk n node p
  end.

Definition vfs_lookup (path : Z) : M K Z :=
  if path =? 0 then mret 0
  else
    norm_path ← normalize path;
    if norm_path =? 0 then mret 0
    else
      m ← gets id;
      v ← gets id;
      if is_root m norm_path then mret (root_node v)
      else
        '(fs, rel_path) ← lift (find_mount fuel (take (Z.to_nat (num_mounts v)) (mount_points v)) m norm_path);
        if fs =? 0 then mret 0 else walk fuel (root_node v) rel_path.

Definition vfs_init : M K unit :=
  modify (fun v => MkVfs (nodes v) (filesystems v) (operations v) (replicate 256 fd_zero)
                     (replicate 16 (0, 0)) (num_mounts v) (root_node v));;
  print (line "[VFS] Initialized virtual filesystem").

(** The driver is not chosen yet: [fs] is a null pointer in the source. *)
Definition vfs_mount (path device fs_type : Z) : M K Z :=
  n ← gets num_mounts;
  if MAX_MOUNTS <=? n then
    print (line "[VFS] Error: Maximum number of mount points reached");; mret (-1)
  else
    print (line "[VFS] Error: Failed to initialize filesystem");; mret (-1).

(** [text] is the string at [path], for the message. *)
Definition vfs_open (path : Z) (text : list Z) (flags : Z) : M K Z :=
  node ← vfs_lookup path;
  if node =? 0 then
    print (bytes_of "[VFS] Error: File not found - ");; print text;; print [10];; mret (-1)
  else
    v ← gets id;
    let fd := find_free_fd v in
    if fd <? 0 then print (line "[VFS] Error: No free file descriptors");; mret (-1)
    else
      modify (set_fd fd (MkFd node 0 flags 1));;
      v ← gets id;
      open ← some (op_if v op_open node);
      if negb (open =? 0) then r ← call open [node; flags]; mret (i32 r) else mret fd.

Definition vfs_close (fd : Z) : M K Z :=
  v ← gets id;
  match open_fd v fd with
  | None => mret (-1)
  | Some d =>
      close ← some (op_if v op_close (fd_node d));
      (if negb (close =? 0) then call_void close [fd_node d] else mret tt);;
      modify (set_fd fd fd_zero);;
      mret 0
  end.

(** [fd_table[fd].offset += bytes], when [bytes > 0]. *)
Definition advance (fd bytes : Z) : M K unit :=
  if 0 <? bytes then
    modify (fun v => match fd_table v !! Z.to_nat fd with
                     | Some d => set_fd fd (MkFd (fd_node d) (u64 (fd_offset d + bytes)) (fd_flags d) (fd_refcount d)) v
                     | None => v
                     end)
  else mret tt.

(** [vfs_read] and [vfs_write]: the two differ in the operation called. *)
Definition vfs_transfer (op : FSOperations -> Z) (fd buffer size : Z) : M K Z :=
  v ← gets id;
  match open_fd v fd with
  | None => mret (-1)
  | Some d =>
      f ← some (op_if v op (fd_node d));
      if f =? 0 then mret (-1)
      else
        r ← call f [fd_node d; fd_offset d; size; buffer];
        let bytes := i32 r in
        advance fd bytes;;
        mret bytes
  end.

Definition vfs_read := vfs_transfer op_read.
Definition vfs_write := vfs_transfer op_write.

(** A signed overflow is undefined. *)
Definition add64 (a b : Z) : M K Z := if decide (- 2 ^ 63 <= a + b < 2 ^ 63) then mret (a + b) else undef.

Definition vfs_seek (fd offset whence : Z) : M K Z :=
  v ← gets id;
  match open_fd v fd with
  | None => mret (-1)
  | Some d =>
      node ← some (nodes v !! fd_node d);
      let finish new_offset :=
        if (new_offset <? 0) || (node_size node <? u64 new_offset) then mret (-1)
        else modify (set_fd fd (MkFd (fd_node d) new_offset (fd_flags d) (fd_refcount d)));; mret new_offset in
      if whence =? FS_SEEK_SET then finish offset
      else if whence =? FS_SEEK_CUR then new_offset ← add64 (i64 (fd_offset d)) offset; finish new_offset
      else if whence =? FS_SEEK_END then new_offset ← add64 (i64 (node_size node)) offset; finish new_offset
      else mret (-1)
  end.

Definition vfs_mkdir (path mode : Z) : M K Z :=
  parent_path ← normalize path;
  m ← gets id;
  last_slash ← lift (strrchr fuel m parent_path SLASH);
  if last_slash =? 0 then mret (-1)
  else
    modify (fun m => store m last_slash 0);;
    parent ← vfs_lookup parent_path;
    if parent =? 0 then mret (-1)
    else
      v ← gets id;
      mkdir ← some (op_if v op_mkdir parent);
      if mkdir =? 0 then mret (-1)
      else r ← call mkdir [parent; last_slash + 1; mode]; mret (i32 r).

Definition vfs_exists (path : Z) : M K Z :=
  node ← vfs_lookup path;
  mret (if node =? 0 then 0 else 1).

(** [node && (node->flags & mask)] *)
Definition has_flag (path mask : Z) : M K Z :=
  node ← vfs_lookup path;
  if node =? 0 then mret 0
  else
    v ← gets id;
    n ← some (nodes v !! node);
    mret (if tst (node_flags n) mask then 1 else 0).

Definition vfs_is_directory (path : Z) : M K Z := has_flag path FS_DIRECTORY.
Definition vfs_is_file (path : Z) : M K Z := has_flag path FS_FILE.
End vfs.

(** ** The part of the kernel the file system uses *)

Abbreviation sys := (mem * Vfs * Console)%type.

Definition vfs_of (s : sys) : Vfs := s.1.2.
Definition with_vfs (v : Vfs) (s : sys) : sys := (s.1.1, v, s.2).

(** Runs the straight-line prefix of a computation of the file system. *)
Ltac vfs_run :=
  cbv beta iota zeta delta [mbind M_bind mret M_ret emit gets modify lift some id];
  cbn [get_part set_part has_fst has_snd has_refl fst snd].

(** The table holds no stale entries. *)
Record fds_ok (v : Vfs) : Prop := {
  fds_len : length (fd_table v) = 256%nat;
  fds_zero : forall i d, fd_table v !! i = Some d -> fd_node d = 0 -> d = fd_zero;
}.

Lemma find_free_fd_Some v i d :
  list_find (fun d => fd_node d = 0) (fd_table v) = Some (i, d) ->
  find_free_fd v = Z.of_nat i /\ fd_table v !! i = Some d /\ fd_node d = 0 /\
  forall j d', (j < i)%nat -> fd_table v !! j = Some d' -> fd_node d' <> 0.
Proof.
  intros E. unfold find_free_fd. rewrite E. apply list_find_Some in E as (Hd & Hz & Hlt).
  split_and!; try done. intros j d' Hj Hd'. by eapply Hlt.
Qed.

Lemma open_fd_set v fd d :
  length (fd_table v) = 256%nat -> 0 <= fd < MAX_FD -> fd_node d <> 0 ->
  open_fd (set_fd fd d v) fd = Some d.
Proof.
  unfold MAX_FD. intros Hl Hf Hd. unfold open_fd, MAX_FD. decide_lia. cbn [orb]. simpl.
  rewrite list_lookup_insert_eq by lia. simpl. by decide_lia.
Qed.

Lemma open_fd_Some v fd d :
  open_fd v fd = Some d -> 0 <= fd < MAX_FD /\ fd_table v !! Z.to_nat fd = Some d /\ fd_node d <> 0.
Proof.
  unfold open_fd. destruct (_ || _) eqn:Hb; [done|]. apply orb_false_iff in Hb as [H1 H2].
  intros (d' & Hd & E)%bind_Some. destruct (Z.eqb_spec (fd_node d') 0); [done|].
  injection E as <-. split_and!; [lia|lia|done|done].
Qed.

Lemma op_if_set_fd v op fd d node : op_if (set_fd fd d v) op node = op_if v op node.
Proof. done. Qed.

Lemma set_fd_twice v fd d d' : set_fd fd d (set_fd fd d' v) = set_fd fd d v.
Proof. unfold set_fd, set_fds. simpl. by rewrite list_insert_insert_eq. Qed.

Lemma set_fd_id v fd d : fd_table v !! Z.to_nat fd = Some d -> set_fd fd d v = v.
Proof. intros Hd. unfold set_fd, set_fds. rewrite list_insert_id by done. by destruct v. Qed.

(** A read or a write through a descriptor that is open, in any state with a
    file system. *)
Lemma vfs_transfer_run {K} `{Has Vfs K} `{Code K} (op : FSOperations -> Z) (s s' : K) l l' fd buffer size d f r :
  open_fd (get_part s) fd = Some d -> op_if (get_part s) op (fd_node d) = Some f -> f <> 0 ->
  call f [fd_node d; fd_offset d; size; buffer] s l = Done (r, s', l') ->
  - 2 ^ 31 <= r < 2 ^ 31 -> open_fd (get_part s') fd = Some d ->
  fd_offset d + r < 2 ^ 64 -> 0 <= fd_offset d ->
  vfs_transfer op fd buffer size s l =
    Done (r, set_part (set_fd fd (MkFd (fd_node d) (fd_offset d + Z.max 0 r) (fd_flags d) (fd_refcount d))
                         (get_part s')) s', l').
Proof.
  intros Hd Hop Hf Hc Hr Hd' Ho Hpos. unfold vfs_transfer. rewrite gets_bind. unfold id. rewrite Hd, Hop, some_bind.
  decide_lia. rewrite (M_bind_done _ _ _ _ _ _ _ Hc), i32_id by lia.
  apply open_fd_Some in Hd' as (_ & Htab & _). unfold advance. destruct (Z.ltb_spec 0 r).
  - rewrite modify_bind, Htab, u64_id, Z.max_r by lia. done.
  - rewrite ret_bind, Z.max_l, Z.add_0_r by lia. rewrite set_fd_id, set_get; [done|]. rewrite Htab. by destruct d.
Qed.

(** A seek, in any state with a file system. *)
Lemma seek_run {K} `{Has Vfs K} (s : K) l fd offset whence d n base :
  open_fd (get_part s) fd = Some d -> nodes (get_part s) !! fd_node d = Some n ->
  0 <= fd_offset d < 2 ^ 63 -> 0 <= node_size n < 2 ^ 63 ->
  (whence, base) ∈ [(FS_SEEK_SET, 0); (FS_SEEK_CUR, fd_offset d); (FS_SEEK_END, node_size n)] ->
  - 2 ^ 63 <= base + offset < 2 ^ 63 ->
  vfs_seek fd offset whence s l =
    if decide (0 <= base + offset <= node_size n) then
      Done (base + offset,
            set_part (set_fd fd (MkFd (fd_node d) (base + offset) (fd_flags d) (fd_refcount d)) (get_part s)) s, l)
    else Done (-1, s, l).
Proof.
  intros Hd Hn Ho Hs Hw Hb. unfold vfs_seek. rewrite gets_bind. unfold id. rewrite Hd, Hn, some_bind.
  assert (forall x, - 2 ^ 63 <= x < 2 ^ 63 ->
    (x <? 0) || (node_size n <? u64 x) = negb (bool_decide (0 <= x <= node_size n))) as Hrange.
  { intros x Hx. destruct (Z.ltb_spec x 0); cbn [orb].
    - by rewrite bool_decide_eq_false_2 by lia.
    - rewrite u64_id by lia. destruct (Z.ltb_spec (node_size n) x).
      + by rewrite bool_decide_eq_false_2 by lia.
      + by rewrite bool_decide_eq_true_2 by lia. }
  rewrite !elem_of_cons, elem_of_nil in Hw. unfold add64.
  destruct Hw as [[= -> ->]|[[= -> ->]|[[= -> ->]|[]]]].
  - rewrite Z.add_0_l in *. cbn [Z.eqb FS_SEEK_SET]. rewrite Hrange by done. case_decide; by case_bool_decide.
  - change (FS_SEEK_CUR =? FS_SEEK_SET) with false. change (FS_SEEK_CUR =? FS_SEEK_CUR) with true. cbn iota.
    rewrite i64_id by lia. rewrite decide_True, ret_bind, Hrange by done. case_decide; by case_bool_decide.
  - change (FS_SEEK_END =? FS_SEEK_SET) with false. change (FS_SEEK_END =? FS_SEEK_CUR) with false.
    change (FS_SEEK_END =? FS_SEEK_END) with true. cbn iota.
    rewrite i64_id by lia. rewrite decide_True, ret_bind, Hrange by done. case_decide; by case_bool_decide.
Qed.

(** A seek from the start to a position inside the file. *)
Lemma vfs_seek_set_run {K} `{Has Vfs K} (s : K) l fd offset d n :
  open_fd (get_part s) fd = Some d -> nodes (get_part s) !! fd_node d = Some n ->
  0 <= offset <= node_size n -> offset < 2 ^ 64 ->
  vfs_seek fd offset FS_SEEK_SET s l =
    Done (offset, set_part (set_fd fd (MkFd (fd_node d) offset (fd_flags d) (fd_refcount d)) (get_part s)) s, l).
Proof.
  intros Hd Hn Ho Hlt. unfold vfs_seek. rewrite gets_bind. unfold id. rewrite Hd, Hn, some_bind. cbn [Z.eqb FS_SEEK_SET].
  rewrite u64_id by lia. decide_lia. reflexivity.
Qed.

(** ** Properties *)

(** C15. Opening a file that is found takes the lowest free descriptor, with offset 0,
    and leaves the other descriptors alone. The result is the descriptor when
    the driver has no [open] operation; a driver's [open] is called and its
    result returned in place of the descriptor, which stays taken. Closing the
    descriptor restores the state before the open when the driver has no
    [close] operation; otherwise [close] is called and the descriptor freed. *)
Theorem vfs_open_close `{Code sys} normalized stack fuel path text flags node o c (s s1 : sys) l l1 :
  vfs_lookup normalized stack fuel path s l = Done (node, s1, l1) -> node <> 0 ->
  fds_ok (vfs_of s1) -> (exists i d, fd_table (vfs_of s1) !! i = Some d /\ fd_node d = 0) ->
  op_if (vfs_of s1) op_open node = Some o -> op_if (vfs_of s1) op_close node = Some c ->
  exists fd s2, vfs_open normalized stack fuel path text flags s l =
      (if o =? 0 then mret fd else r ← call o [node; flags]; mret (i32 r)) s2 l1 /\
    0 <= fd < MAX_FD /\ open_fd (vfs_of s1) fd = None /\
    (forall j, 0 <= j < fd -> is_Some (open_fd (vfs_of s1) j)) /\
    open_fd (vfs_of s2) fd = Some (MkFd node 0 flags 1) /\
    (forall j, j <> fd -> open_fd (vfs_of s2) j = open_fd (vfs_of s1) j) /\
    (c = 0 -> forall l', vfs_close fd s2 l' = Done (0, s1, l')) /\
    (c <> 0 -> forall r s3 l2 l3, call c [node] s2 l2 = Done (r, s3, l3) ->
      vfs_close fd s2 l2 = Done (0, with_vfs (set_fd fd fd_zero (vfs_of s3)) s3, l3)).
Proof.
  intros Hlk Hn [Hlen Hzero] (i0 & d0 & Hi0 & Hz0) Ho Hc.
  destruct (list_find (fun d => fd_node d = 0) (fd_table (vfs_of s1))) as [[i d]|] eqn:E.
  2:{ apply list_find_None in E. eapply Forall_lookup_1 in E; [|exact Hi0]. done. }
  destruct (find_free_fd_Some _ _ _ E) as (Hfd & Hd & Hz & Hlow). apply lookup_lt_Some in Hd as Hlt.
  assert (d = fd_zero) as -> by (by eapply Hzero).
  exists (Z.of_nat i), (with_vfs (set_fd (Z.of_nat i) (MkFd node 0 flags 1) (vfs_of s1)) s1).
  assert (forall j d', 0 <= j < MAX_FD -> fd_table (vfs_of s1) !! Z.to_nat j = Some d' ->
    fd_node d' <> 0 -> open_fd (vfs_of s1) j = Some d') as Hopen.
  { intros j d' Hj Hd' Hn'. unfold open_fd. decide_lia. cbn [orb]. rewrite Hd'. simpl. by decide_lia. }
  unfold MAX_FD in *. split_and!.
  - unfold vfs_open. rewrite (M_bind_done _ _ _ _ _ _ _ Hlk). decide_lia.
    destruct s1 as [[m1 v1] c1]. unfold vfs_of, with_vfs in *. cbn [fst snd] in *.
    vfs_run. rewrite Hfd. decide_lia. vfs_run. rewrite op_if_set_fd, Ho. vfs_run. by destruct (o =? 0).
  - lia.
  - lia.
  - unfold open_fd, MAX_FD. decide_lia. cbn [orb]. by rewrite Nat2Z.id, Hd.
  - intros j Hj. destruct (lookup_lt_is_Some_2 (fd_table (vfs_of s1)) (Z.to_nat j)) as [d' Hd']; [lia|].
    exists d'. apply Hopen; [lia|done|]. eapply Hlow; [|done]. lia.
  - cbn [vfs_of with_vfs fst snd]. apply open_fd_set; unfold MAX_FD; [done|lia|done].
  - intros j Hj. cbn [vfs_of with_vfs fst snd]. unfold open_fd, MAX_FD. destruct (_ || _) eqn:Hb; [done|].
    apply orb_false_iff in Hb as [? ?]. simpl. rewrite list_lookup_insert_ne by lia. done.
  - intros -> l'. unfold vfs_close. destruct s1 as [[m1 v1] c1]. unfold vfs_of, with_vfs in *.
    cbn [fst snd] in *. vfs_run. rewrite open_fd_set by (unfold MAX_FD; done || lia). cbn [fd_node].
    rewrite op_if_set_fd, Hc. vfs_run. cbn [Z.eqb negb]. vfs_run. rewrite set_fd_twice, set_fd_id by (by rewrite Nat2Z.id).
    done.
  - intros Hc0 r s3 l2 l3 Hcall. unfold vfs_close. destruct s1 as [[m1 v1] c1]. unfold vfs_of, with_vfs in *.
    cbn [fst snd] in *. vfs_run. rewrite open_fd_set by (unfold MAX_FD; done || lia). cbn [fd_node].
    rewrite op_if_set_fd, Hc. vfs_run. decide_lia. cbn [negb]. unfold call_void.
    rewrite (M_bind_done _ _ _ _ _ _ _ Hcall). destruct s3 as [[m3 v3] c3]. vfs_run. done.
Qed.

(** [vfs_seek] moves an open descriptor to a position counted from the start, from
    the current position or from the end of the file; a position before the
    start or beyond the end is refused with -1 and changes nothing. *)
Theorem vfs_seek_moves (s : sys) l fd offset whence d n base :
  open_fd (vfs_of s) fd = Some d -> nodes (vfs_of s) !! fd_node d = Some n ->
  0 <= fd_offset d < 2 ^ 63 -> 0 <= node_size n < 2 ^ 63 ->
  (whence, base) ∈ [(FS_SEEK_SET, 0); (FS_SEEK_CUR, fd_offset d); (FS_SEEK_END, node_size n)] ->
  - 2 ^ 63 <= base + offset < 2 ^ 63 ->
  vfs_seek fd offset whence s l =
    if decide (0 <= base + offset <= node_size n) then
      Done (base + offset,
            with_vfs (set_fd fd (MkFd (fd_node d) (base + offset) (fd_flags d) (fd_refcount d)) (vfs_of s)) s, l)
    else Done (-1, s, l).
Proof.
  destruct s as [[m v] c]. intros. refine (seek_run (m, v, c) l fd offset whence d n base _ _ _ _ _ _); done.
Qed.

Lemma normalize_run {C} `{Code (mem * Vfs * C)} normalized fuel path p m (v : Vfs) (c : C) l :
  path <> 0 -> cstr m path p -> (length p + 1 < fuel)%nat -> Z.of_nat (length p) < MAX_PATH_LEN ->
  normalized <= path \/ path + Z.of_nat (length p) < normalized ->
  exists m', normalize normalized fuel path (m, v, c) l = Done (normalized, (m', v, c), l) /\
    cstr m' normalized (norm p).
Proof.
  intros Hp Hs Hf Hlt Hd.
  destruct (vfs_normalize_path_spec fuel normalized m path p Hp Hs Hf Hlt Hd) as (m' & E & Hs' & _).
  exists m'. split; [|done]. unfold normalize. vfs_run. by rewrite E.
Qed.

Lemma is_root_spec m s p : cstr m s p -> is_root m s = bool_decide (p = [SLASH]).
Proof.
  intros Hs. unfold is_root. destruct p as [|c p]; apply cstr_inv in Hs.
  - rewrite Hs. done.
  - destruct Hs as (Hc & -> & Hs). destruct (Z.eqb_spec c SLASH) as [->|Hne]; cbn [andb].
    + destruct p as [|d p]; apply cstr_inv in Hs; [by rewrite Hs|]. destruct Hs as (Hd & -> & _).
      unfold cchar in Hd. by decide_lia.
    + rewrite bool_decide_eq_false_2; congruence.
Qed.

(** The lookup of a path that normalises to the root. *)
Lemma vfs_lookup_root `{Code sys} normalized stack fuel path p m (v : Vfs) (c : Console) l :
  normalized <> 0 -> path <> 0 -> cstr m path p -> (length p + 1 < fuel)%nat -> Z.of_nat (length p) < MAX_PATH_LEN ->
  normalized <= path \/ path + Z.of_nat (length p) < normalized -> norm p = [SLASH] ->
  exists m', vfs_lookup normalized stack fuel path (m, v, c) l = Done (root_node v, (m', v, c), l) /\
    cstr m' normalized [SLASH].
Proof.
  intros HN Hp Hs Hf Hlt Hd Hr. destruct (normalize_run normalized fuel path p m v c l) as (m' & E & Hs'); try done.
  rewrite Hr in Hs'. exists m'. split; [|done]. unfold vfs_lookup. decide_lia.
  rewrite (M_bind_done _ _ _ _ _ _ _ E). decide_lia. vfs_run. by rewrite (is_root_spec m' normalized [SLASH]).
Qed.

(** C16. A read or a write through an open descriptor calls the file system's
    operation at the descriptor's offset and returns its result; a positive
    result advances the offset by that much, anything else leaves it. *)
Theorem vfs_transfer_advances {K} `{Has Vfs K} `{Code K} (op : FSOperations -> Z) (s s' : K) l l' fd buffer size d f r :
  open_fd (get_part s) fd = Some d -> op_if (get_part s) op (fd_node d) = Some f -> f <> 0 ->
  call f [fd_node d; fd_offset d; size; buffer] s l = Done (r, s', l') ->
  - 2 ^ 31 <= r < 2 ^ 31 -> open_fd (get_part s') fd = Some d ->
  fd_offset d + r < 2 ^ 64 -> 0 <= fd_offset d ->
  vfs_transfer op fd buffer size s l =
    Done (r, set_part (set_fd fd (MkFd (fd_node d) (fd_offset d + Z.max 0 r) (fd_flags d) (fd_refcount d))
                         (get_part s')) s', l').
Proof. apply vfs_transfer_run. Qed.

(** Making a directory in the root loses its name: the lookup of the parent
    normalises the empty string left before the slash in the same static
    buffer, so that the file system's [mkdir] is called with a pointer to an
    empty name. *)
Theorem vfs_mkdir_loses_name `{Code sys} normalized stack fuel path name mode m (v : Vfs) (c : Console) l f :
  normalized <> 0 -> path <> 0 -> proper name -> cstr m path (SLASH :: name) ->
  (length name + 2 < fuel)%nat -> Z.of_nat (length name) + 1 < MAX_PATH_LEN ->
  normalized <= path \/ path + Z.of_nat (length name) + 1 < normalized ->
  root_node v <> 0 -> op_if v op_mkdir (root_node v) = Some f -> f <> 0 ->
  exists m', load m' (normalized + 1) = 0 /\
    vfs_mkdir normalized stack fuel path mode (m, v, c) l =
      (r ← call f [root_node v; normalized + 1; mode]; mret (i32 r)) (m', v, c) l.
Proof.
  intros HN Hp Hname Hs Hf Hlt Hd Hroot Hop Hf0. unfold vfs_mkdir.
  destruct (normalize_run normalized fuel path (SLASH :: name) m v c l) as (m1 & E & Hs1);
    [done|done|simpl; lia|simpl; lia|simpl; lia|]. rewrite (M_bind_done _ _ _ _ _ _ _ E).
  pose proof (norm_spread [SLASH] [(name, 0%nat)]) as Hn. simpl in Hn. rewrite app_nil_r in Hn.
  rewrite Hn in Hs1 by (first [by right|done|by constructor]).
  assert (strrchr fuel m1 normalized SLASH = Done normalized) as Hsl.
  { rewrite (strrchr_spec fuel m1 normalized SLASH (SLASH :: name)) by (done || simpl; lia).
    cbn [last_index]. destruct (last_index (u8 SLASH) name) as [i|] eqn:Hi.
    - exfalso. apply last_index_Some in Hi as [Hi _]. destruct Hname as (_ & Hns & _). apply Hns.
      by apply list_elem_of_lookup_2 in Hi.
    - simpl. by rewrite Z.add_0_r. }
  assert (cstr (store m1 normalized 0) normalized []) as Hs2.
  { split; [done|]. simpl. split; [apply load_store_eq|done]. }
  destruct (vfs_lookup_root normalized stack fuel normalized [] (store m1 normalized 0) v c l)
    as (m3 & E3 & Hs3); [done|done|done|simpl; lia|done|lia|done|].
  exists m3. split.
  { apply cstr_inv in Hs3 as (_ & _ & Hs3). by apply cstr_inv in Hs3. }
  rewrite gets_bind. change (id (get_part (m1, v, c))) with m1.
  rewrite (M_bind_done _ _ _ _ normalized (m1, v, c) l) by (unfold lift; by rewrite Hsl).
  decide_lia. rewrite modify_bind. cbn [get_part set_part has_fst has_snd has_refl fst snd].
  rewrite (M_bind_done _ _ _ _ _ _ _ E3). decide_lia. vfs_run. rewrite Hop. vfs_run. by decide_lia.
Qed.

(** In a kernel without a root node and without mounts, which is how the tables
    start, every path is refused and so is every mount; the tables stay as
    they are. No code sets the root node, so no file is ever opened. *)
Theorem vfs_never_opens `{Code sys} normalized stack fuel path p text flags m (v : Vfs) (c : Console) l device fs_type :
  root_node v = 0 -> num_mounts v = 0 -> normalized <> 0 -> path <> 0 -> cstr m path p ->
  (length p + 1 < fuel)%nat -> Z.of_nat (length p) < MAX_PATH_LEN ->
  normalized <= path \/ path + Z.of_nat (length p) < normalized ->
  (exists m' c', vfs_open normalized stack fuel path text flags (m, v, c) l = Done (-1, (m', v, c'), l)) /\
  (exists m', vfs_exists normalized stack fuel path (m, v, c) l = Done (0, (m', v, c), l)) /\
  (exists c', vfs_mount path device fs_type (m, v, c) l = Done (-1, (m, v, c'), l)).
Proof.
  intros Hr Hm HN Hp Hs Hf Hlt Hd.
  assert (exists m', vfs_lookup normalized stack fuel path (m, v, c) l = Done (0, (m', v, c), l)) as (m' & E).
  { destruct (normalize_run normalized fuel path p m v c l) as (m' & E & Hs'); try done.
    exists m'. unfold vfs_lookup. decide_lia. rewrite (M_bind_done _ _ _ _ _ _ _ E). decide_lia. vfs_run.
    rewrite Hr, Hm. destruct (is_root m' normalized); [done|]. by simpl. }
  split_and!.
  - unfold vfs_open. do 2 eexists. rewrite (M_bind_done _ _ _ _ _ _ _ E). vfs_run. done.
  - exists m'. unfold vfs_exists. rewrite (M_bind_done _ _ _ _ _ _ _ E). done.
  - eexists. unfold vfs_mount. vfs_run. rewrite Hm. done.
Qed.

(** ** The properties at a concrete kernel

    The root node at 500, its file system at 600 with the operations at 700;
    descriptor 0 is open on the root. *)

Definition w_ops : FSOperations := MkOps 0 0 801 0 0 0 0 0 805 0 0 0 0 0 0.
Definition w_node : FSNode := MkNode [SLASH] FS_DIRECTORY 0 0 0 100 0 0 0 0 600 0.
Definition w_vfs (fd0 : FileDescriptor) : Vfs :=
  MkVfs {[500 := w_node]} {[600 := MkFs [] 0 0 700]} {[700 := w_ops]}
    (fd0 :: replicate 255 fd_zero) (replicate 16 (0, 0)) 0 500.
Definition w_fd : FileDescriptor := MkFd 500 7 0 1.
Definition w_sys (p : list Z) (fd0 : FileDescriptor) : sys := (w_path p, w_vfs fd0, console_initial).

(** Every operation reports 5. *)
Definition w_five : Code sys := {| call _ _ := mret 5 |}.

Lemma vfs_open_close_witness :
  exists s1 s2, @vfs_open sys _ _ _ w_five 1000 2000 20 10 [SLASH] 3 (w_sys [SLASH] w_fd) [] = Done (1, s2, []) /\
    @vfs_close sys _ w_five 1 s2 [] = Done (0, s1, []).
Proof.
  destruct (@vfs_lookup_root w_five 1000 2000 20 10 [SLASH] (w_path [SLASH]) (w_vfs w_fd) console_initial [])
    as (m' & E & _); [done|done|by apply w_path_cstr; w_cchar|simpl; lia|done|right; simpl; lia|done|].
  destruct (@vfs_open_close w_five 1000 2000 20 10 [SLASH] 3 500 0 0 (w_sys [SLASH] w_fd)
    (m', w_vfs w_fd, console_initial) [] []) as (fd & s2 & H1 & H2 & H3 & H4 & _ & _ & H5 & _).
  - exact E.
  - discriminate.
  - split; [reflexivity|]. intros [|i] d Hi Hz; [injection Hi as <-; discriminate|].
    apply (lookup_replicate_1 255 fd_zero) in Hi as [-> _]. reflexivity.
  - exists 1%nat, fd_zero. split; reflexivity.
  - reflexivity.
  - reflexivity.
  - assert (fd = 1) as ->.
    { destruct (decide (fd = 1)) as [|Hne]; [done|]. exfalso.
      destruct (decide (fd = 0)) as [->|]; [done|].
      destruct (H4 1 ltac:(lia)) as [d Hd]. done. }
    exists (m', w_vfs w_fd, console_initial), s2. split; [exact H1|exact (H5 eq_refl [])].
Defined.

Lemma vfs_seek_moves_witness :
  @vfs_seek sys _ 0 (-10) FS_SEEK_END (w_sys [] w_fd) [] =
    Done (90, with_vfs (set_fd 0 (MkFd 500 90 0 1) (w_vfs w_fd)) (w_sys [] w_fd), []) /\
  @vfs_seek sys _ 0 (-8) FS_SEEK_CUR (w_sys [] w_fd) [] = Done (-1, w_sys [] w_fd, []).
Proof.
  split.
  - refine (vfs_seek_moves (w_sys [] w_fd) [] 0 (-10) FS_SEEK_END w_fd w_node 100 _ _ _ _ _ _);
      try reflexivity; try (simpl; lia). do 2 right. left.
  - refine (vfs_seek_moves (w_sys [] w_fd) [] 0 (-8) FS_SEEK_CUR w_fd w_node 7 _ _ _ _ _ _);
      try reflexivity; try (simpl; lia). right. left.
Defined.

Lemma vfs_transfer_advances_witness :
  @vfs_read sys _ w_five 0 300 16 (w_sys [] w_fd) [] =
    Done (5, with_vfs (set_fd 0 (MkFd 500 12 0 1) (w_vfs w_fd)) (w_sys [] w_fd), []).
Proof.
  refine (@vfs_transfer_advances sys _ w_five op_read (w_sys [] w_fd) (w_sys [] w_fd) [] [] 0 300 16 w_fd 801 5 _ _ _ _ _ _ _ _);
    try reflexivity; try discriminate; simpl; lia.
Defined.

Lemma vfs_mkdir_loses_name_witness :
  exists m', load m' 1001 = 0 /\
    @vfs_mkdir sys _ _ w_five 1000 2000 20 10 9 (w_sys [SLASH; 97] w_fd) [] =
      Done (5, (m', w_vfs w_fd, console_initial), []).
Proof.
  destruct (@vfs_mkdir_loses_name w_five 1000 2000 20 10 [97] 9 (w_path [SLASH; 97]) (w_vfs w_fd)
    console_initial [] 805) as (m' & H1 & H2); try discriminate.
  - apply w_proper; discriminate.
  - apply w_path_cstr. w_cchar.
  - simpl. lia.
  - reflexivity.
  - right. simpl. lia.
  - reflexivity.
  - exists m'. split; [exact H1|exact H2].
Defined.

Lemma vfs_never_opens_witness :
  exists m' c', @vfs_open sys _ _ _ w_five 1000 2000 20 10 [SLASH] 3
      (w_path [SLASH], MkVfs ∅ ∅ ∅ (replicate 256 fd_zero) [] 0 0, console_initial) [] =
    Done (-1, (m', MkVfs ∅ ∅ ∅ (replicate 256 fd_zero) [] 0 0, c'), []).
Proof.
  refine (proj1 (@vfs_never_opens w_five 1000 2000 20 10 [SLASH] [SLASH] 3 (w_path [SLASH])
    (MkVfs ∅ ∅ ∅ (replicate 256 fd_zero) [] 0 0) console_initial [] 0 0 _ _ _ _ _ _ _ _));
    try reflexivity; try discriminate.
  - apply w_path_cstr. w_cchar.
  - simpl. lia.
  - right. simpl. lia.
Defined.
