(* ===== verification/Slots.v ===== *)
(** * Arrays of pointers with a count

    The registry of storage devices (src/impl/drivers/storage/storage.c) and
    the list of windows (src/impl/drivers/video/window.c) are arrays of
    sixteen pointers of which the first [n] are in use. An entry is taken out
    by shifting the later ones down. *)
From S2P Require Export Prelude.

(** [for (j = i; j < n - 1; j++) d[j] = d[j + 1];], [k] rounds. *)
Fixpoint shift_down (k j : nat) (d : list Z) : list Z :=
  match k with
  | O => d
  | S k => shift_down k (S j) (<[j := default 0 (d !! S j)]> d)
  end.

(** ** The entries in use as a list *)

Fixpoint remove_first (x : Z) (l : list Z) : list Z :=
  match l with [] => [] | y :: l => if decide (y = x) then l else y :: remove_first x l end.

Lemma remove_first_find x l :
  match list_find (fun d => d = x) l with
  | Some (i, _) => remove_first x l = delete i l
  | None => remove_first x l = l
  end.
Proof.
  induction l as [|y l IH]; [done|]. simpl. destruct (decide (y = x)); [done|].
  destruct (list_find _ l) as [[i z]|]; simpl; by rewrite IH.
Qed.

Lemma remove_first_sub x l P : Forall P l -> Forall P (remove_first x l).
Proof. induction 1; simpl; [done|]. case_decide; [done|]. by constructor. Qed.

Lemma shift_down_length k j d : length (shift_down k j d) = length d.
Proof. revert j d. induction k as [|k IH]; intros j d; simpl; [done|]. by rewrite IH, length_insert. Qed.

Lemma shift_down_lookup k j d x :
  (j + k < length d)%nat ->
  shift_down k j d !! x = if decide (j <= x < j + k)%nat then d !! S x else d !! x.
Proof.
  revert j d. induction k as [|k IH]; intros j d Hl; cbn [shift_down].
  - by rewrite decide_False by lia.
  - rewrite IH by (rewrite length_insert; lia). destruct (decide (x = j)) as [->|Hne].
    + rewrite decide_False, decide_True by lia. rewrite list_lookup_insert_eq by lia.
      destruct (lookup_lt_is_Some_2 d (S j)) as [y Hy]; [lia|]. by rewrite Hy.
    + repeat case_decide; try lia; by rewrite list_lookup_insert_ne by lia.
Qed.

(** Shifting over entry [i] and dropping the last is deleting entry [i]. *)
Lemma shift_down_take d i n :
  (i < n)%nat -> (n <= length d)%nat ->
  take (n - 1) (<[(n - 1)%nat := 0]> (shift_down (n - 1 - i) i d)) = delete i (take n d).
Proof.
  intros Hi Hn. apply list_eq. intros x. rewrite list_lookup_delete.
  destruct (decide (x < n - 1)%nat) as [Hx|Hx].
  - rewrite lookup_take_lt by done. rewrite list_lookup_insert_ne by lia.
    rewrite shift_down_lookup by lia.
    destruct (decide (i <= x < i + (n - 1 - i))%nat), (decide (x < i)%nat); try lia;
      by rewrite lookup_take_lt by lia.
  - rewrite lookup_take_ge by lia. case_decide; [lia|]. by rewrite lookup_take_ge by lia.
Qed.

Lemma slots_push (d : list Z) n x : (n < length d)%nat -> take (S n) (<[n := x]> d) = take n d ++ [x].
Proof.
  intros Hn. rewrite (take_S_r _ _ x) by (rewrite list_lookup_insert_eq by lia; done).
  by rewrite take_insert_ge by lia.
Qed.
