(* ===== verification/Serial.v ===== *)
(** * Serial port (src/impl/drivers/serial/serial.c)

    The driver keeps no state. Its theorems speak of the register file of the
    UART at a port, a fold over the log of what was sent to its eight ports
    ([uart_run], after the 16550 data sheet: the divisor latch is behind the
    data and interrupt-enable ports while DLAB is set). *)
From S2P Require Export Machine.

(** ** Definitions *)

Definition COM1_PORT := 0x3F8.
Definition SERIAL_DATA := 0.
Definition SERIAL_INT_ENABLE := 1.
Definition SERIAL_DIVISOR_LOW := 0.
Definition SERIAL_DIVISOR_HIGH := 1.
Definition SERIAL_INT_ID := 2.
Definition SERIAL_LINE_CTRL := 3.
Definition SERIAL_MODEM_CTRL := 4.
Definition SERIAL_LINE_STATUS := 5.
Definition SERIAL_LC_8BITS := 0x03.
Definition SERIAL_LC_DLAB := 0x80.

Section serial.
Context `{Hw} {K : Type}.

Definition serial_init (port baud : Z) : M K unit :=
  port_byte_out (port + SERIAL_INT_ENABLE) 0x00;;
  port_byte_out (port + SERIAL_LINE_CTRL) SERIAL_LC_DLAB;;
  port_byte_out (port + SERIAL_DIVISOR_LOW) (baud .& 0xFF);;
  port_byte_out (port + SERIAL_DIVISOR_HIGH) ((baud .>> 8) .& 0xFF);;
  port_byte_out (port + SERIAL_LINE_CTRL) SERIAL_LC_8BITS;;
  port_byte_out (port + SERIAL_INT_ID) 0xC7;;
  port_byte_out (port + SERIAL_MODEM_CTRL) 0x0B.

Definition serial_received (port : Z) : M K Z :=
  v ← port_byte_in (port + SERIAL_LINE_STATUS); mret (v .& 1).

Definition serial_read (fuel : nat) (port : Z) : M K Z :=
  while_ fuel (r ← serial_received port; mret (r =? 0));;
  port_byte_in port.

Definition serial_transmit_empty (port : Z) : M K Z :=
  v ← port_byte_in (port + SERIAL_LINE_STATUS); mret (v .& 0x20).

Definition serial_write (fuel : nat) (port c : Z) : M K unit :=
  while_ fuel (r ← serial_transmit_empty port; mret (r =? 0));;
  port_byte_out port c.

(** [str] is the string's characters, without the NUL. *)
Definition serial_write_string (fuel : nat) (port : Z) (str : list Z) : M K unit :=
  for_each str (serial_write fuel port).
End serial.

(** ** The device *)

Record uart := MkUart { u_ier : Z; u_divisor : Z; u_fcr : Z; u_lcr : Z; u_mcr : Z }.

Definition uart_step (port : Z) (u : uart) (e : event) : uart :=
  let '(MkUart ier d fcr lcr mcr) := u in
  match e with
  | EOut p v =>
      let dlab := tst lcr SERIAL_LC_DLAB in
      if p =? port then
        if dlab then MkUart ier (d / 256 * 256 + v) fcr lcr mcr else u
      else if p =? port + 1 then
        if dlab then MkUart ier (v * 256 + d mod 256) fcr lcr mcr else MkUart v d fcr lcr mcr
      else if p =? port + 2 then MkUart ier d v lcr mcr
      else if p =? port + 3 then MkUart ier d fcr v mcr
      else if p =? port + 4 then MkUart ier d fcr lcr v
      else u
  | _ => u
  end.

Definition uart_run (port : Z) : uart -> log -> uart := foldl (uart_step port).

(** The transmitter can take a byte; a byte has arrived. *)
Definition tx_empty (v : Z) : bool := tst v 0x20.
Definition rx_ready (v : Z) : bool := tst v 1.

(** The device at [port] always gets ready within [fuel] polls. *)
Definition always_ready `{Hw} (test : Z -> bool) (fuel : nat) (port : Z) : Prop :=
  forall l, exists n, (n < fuel)%nat /\ ready_in n test l port = true.

Section serial_facts.
Context `{Hw} {K : Type}.

Lemma serial_write_spec fuel port c n (s : K) l :
  0 <= port < 2 ^ 16 - 5 ->
  ready_in n tx_empty l (port + 5) = true -> (n < fuel)%nat ->
  serial_write fuel port c s l = Done (tt, s, polled (S n) l (port + 5) ++ [EOut port (u8 c)]).
Proof.
  intros Hp Hr Hf. unfold serial_write.
  rewrite (M_bind_done _ _ _ _ tt s (polled (S n) l (port + 5))).
  - run. by rewrite u16_id by lia.
  - eapply (while_poll _ _ _ tx_empty); [|done..]. intros l'.
    unfold serial_transmit_empty, SERIAL_LINE_STATUS. run. rewrite u16_id by lia.
    unfold tx_empty, tst. by rewrite negb_involutive.
Qed.

Lemma serial_read_spec fuel port n (s : K) l :
  0 <= port < 2 ^ 16 - 5 ->
  ready_in n rx_ready l (port + 5) = true -> (n < fuel)%nat ->
  let l' := polled (S n) l (port + 5) in
  serial_read fuel port s l = Done (inb_val l' port, s, l' ++ [EIn port (inb_val l' port)]).
Proof.
  intros Hp Hr Hf l'. unfold serial_read.
  rewrite (M_bind_done _ _ _ _ tt s l').
  - run. by rewrite u16_id by lia.
  - eapply (while_poll _ _ _ rx_ready); [|done..]. intros l0.
    unfold serial_received, SERIAL_LINE_STATUS. run. rewrite u16_id by lia.
    unfold rx_ready, tst. by rewrite negb_involutive.
Qed.

(** Writing a string to a device that gets ready: only the data port is
    written, with the string's bytes. *)
Lemma serial_write_string_spec fuel port str (s : K) l :
  0 <= port < 2 ^ 16 - 5 -> always_ready tx_empty fuel (port + 5) ->
  exists l', serial_write_string fuel port str s l = Done (tt, s, l') /\
    forall p, sent p l' = sent p l ++ (if decide (p = port) then u8 <$> str else []).
Proof.
  intros Hp Hr. unfold serial_write_string. revert l.
  induction str as [|c str IH]; intros l; cbn [for_each].
  - exists l. split; [done|]. intros p. case_decide; by rewrite app_nil_r.
  - destruct (Hr l) as (n & Hn & Hrd).
    rewrite (M_bind_done _ _ _ _ _ _ _ (serial_write_spec fuel port c n s l Hp Hrd Hn)).
    destruct (IH (polled (S n) l (port + 5) ++ [EOut port (u8 c)])) as (l' & -> & Hl').
    exists l'. split; [done|]. intros p. rewrite Hl', sent_app, sent_polled, <- app_assoc.
    f_equal. simpl. case_decide as Hd.
    + subst p. by rewrite Z.eqb_refl.
    + replace (port =? p) with false by lia. done.
Qed.
End serial_facts.

(** ** Properties *)

(** The effect of each write. *)
Section uart_writes.
Context (port ier d fcr lcr mcr v : Z).
Let u := MkUart ier d fcr lcr mcr.

Lemma uart_dll : tst lcr SERIAL_LC_DLAB = true ->
  uart_step port u (EOut (port + SERIAL_DIVISOR_LOW) v) =
  MkUart ier (d / 256 * 256 + v) fcr lcr mcr.
Proof. intros Hd. unfold u, SERIAL_DIVISOR_LOW. cbn [uart_step]. rewrite Hd. by decide_lia. Qed.
Lemma uart_dlm : tst lcr SERIAL_LC_DLAB = true ->
  uart_step port u (EOut (port + SERIAL_DIVISOR_HIGH) v) =
  MkUart ier (v * 256 + d mod 256) fcr lcr mcr.
Proof. intros Hd. unfold u, SERIAL_DIVISOR_HIGH. cbn [uart_step]. rewrite Hd. by decide_lia. Qed.
Lemma uart_ier : tst lcr SERIAL_LC_DLAB = false ->
  uart_step port u (EOut (port + SERIAL_INT_ENABLE) v) = MkUart v d fcr lcr mcr.
Proof. intros Hd. unfold u, SERIAL_INT_ENABLE. cbn [uart_step]. rewrite Hd. by decide_lia. Qed.
Lemma uart_fcr : uart_step port u (EOut (port + SERIAL_INT_ID) v) = MkUart ier d v lcr mcr.
Proof. unfold u, SERIAL_INT_ID. cbn [uart_step]. by decide_lia. Qed.
Lemma uart_lcr : uart_step port u (EOut (port + SERIAL_LINE_CTRL) v) = MkUart ier d fcr v mcr.
Proof. unfold u, SERIAL_LINE_CTRL. cbn [uart_step]. by decide_lia. Qed.
Lemma uart_mcr : uart_step port u (EOut (port + SERIAL_MODEM_CTRL) v) = MkUart ier d fcr lcr v.
Proof. unfold u, SERIAL_MODEM_CTRL. cbn [uart_step]. by decide_lia. Qed.
End uart_writes.

Lemma dlab_on : tst (u8 SERIAL_LC_DLAB) SERIAL_LC_DLAB = true.
Proof. reflexivity. Qed.

(** [serial_init] programs the UART whose divisor latch is closed: the
    latch then holds [baud] and is closed again, the line is 8N1, interrupts
    are off, the FIFOs are on and cleared; whatever the registers held. *)
Theorem serial_init_programs {K} port baud (s : K) l u :
  0 <= port < 2 ^ 16 - 5 -> 0 <= baud < 2 ^ 16 -> tst (u_lcr u) SERIAL_LC_DLAB = false ->
  exists l', serial_init port baud s l = Done (tt, s, l ++ l') /\
    uart_run port u l' = MkUart 0 baud 0xC7 SERIAL_LC_8BITS 0x0B.
Proof.
  intros Hp Hb Hd. eexists. split.
  { unfold serial_init. run. reflexivity. }
  rewrite !u16_id by (unfold SERIAL_INT_ENABLE, SERIAL_LINE_CTRL, SERIAL_DIVISOR_LOW,
    SERIAL_DIVISOR_HIGH, SERIAL_INT_ID, SERIAL_MODEM_CTRL; lia).
  rewrite !land_FF, Z.shiftr_div_pow2 by lia. change (2 ^ 8) with 256. unfold uart_run. cbn [foldl].
  destruct u as [ier d fcr lcr mcr]. cbn [u_lcr] in Hd.
  rewrite (uart_ier _ _ _ _ _ _ _ Hd), uart_lcr, (uart_dll _ _ _ _ _ _ _ dlab_on),
    (uart_dlm _ _ _ _ _ _ _ dlab_on), uart_lcr, uart_fcr, uart_mcr.
  f_equal. rewrite !u8_id by (apply Z.mod_pos_bound; lia).
  pose proof (Z.div_mod baud 256). pose proof (Z.mod_pos_bound baud 256).
  rewrite (Z.mod_small (baud / 256)) by (split; [apply Z.div_pos; lia|apply Z.div_lt_upper_bound; lia]).
  set (q := d / 256 * 256). 
  rewrite (Z.add_mod q), Z.mod_mod by lia. unfold q. rewrite Z.mod_mul by lia.
  rewrite Z.add_0_l, Z.mod_mod by lia. lia.
Qed.

(** To a device that always gets ready within [fuel] polls,
    [serial_write_string] returns having sent exactly the string, in order,
    and nothing to any other port. *)
Theorem serial_write_string_sends `{Hw} {K} fuel port str (s : K) l :
  0 <= port < 2 ^ 16 - 5 -> always_ready tx_empty fuel (port + 5) ->
  Forall (fun c => 0 <= c < 256) str ->
  exists l', serial_write_string fuel port str s l = Done (tt, s, l') /\
    sent port l' = sent port l ++ str /\ forall p, p <> port -> sent p l' = sent p l.
Proof.
  intros Hp Hr Hs. destruct (serial_write_string_spec fuel port str s l Hp Hr) as (l' & Hw & Hl).
  exists l'. split_and!; [done| |].
  - rewrite Hl, decide_True by done. f_equal. rewrite <- (list_fmap_id str) at 2.
    apply list_fmap_ext. intros i c Hc. eapply Forall_lookup_1 in Hs; [|done]. by apply u8_id.
  - intros p Hne. by rewrite Hl, decide_False, app_nil_r.
Qed.

(** A machine whose ports all read as 0xFF. *)
Definition w_hw : Hw := {| hw_in _ _ := 0xFF |}.

Lemma w_ready test port : test 255 = true -> @always_ready w_hw test 1 port.
Proof. intros Ht l. exists 0%nat. split; [lia|]. exact Ht. Qed.

Lemma serial_init_programs_witness :
  exists l', serial_init COM1_PORT 12 tt [] = Done (tt, tt, [] ++ l') /\
    uart_run COM1_PORT (MkUart 1 2 3 0 5) l' = MkUart 0 12 0xC7 SERIAL_LC_8BITS 0x0B.
Proof. apply serial_init_programs; [unfold COM1_PORT; lia|lia|reflexivity]. Defined.

Lemma serial_write_string_sends_witness :
  exists l', serial_write_string (H := w_hw) 1 COM1_PORT [72; 105] tt [] = Done (tt, tt, l') /\
    sent COM1_PORT l' = [72; 105].
Proof.
  destruct (serial_write_string_sends (H := w_hw) 1 COM1_PORT [72; 105] tt []) as (l' & ? & ? & _);
    [unfold COM1_PORT; lia|by apply w_ready|repeat constructor; lia|]. by exists l'.
Defined.
