(* ===== verification/Pic.v ===== *)
(** * Programmable interrupt controllers (src/impl/drivers/pic/pic.c)

    The driver keeps no state; its theorems speak of the two 8259A
    controllers, whose registers are a fold over the log ([pic_run], after
    the data sheet: a command with bit 4 set starts an initialisation, the
    next three data writes are the vector offset, the cascade and the mode,
    and any other data write is the interrupt mask). *)
From S2P Require Export Machine.

(** ** Definitions *)

Definition PIC1_COMMAND := 0x20.
Definition PIC1_DATA := 0x21.
Definition PIC2_COMMAND := 0xA0.
Definition PIC2_DATA := 0xA1.
Definition PIC_EOI := 0x20.
Definition ICW1_ICW4 := 0x01.
Definition ICW1_INIT := 0x10.
Definition ICW4_8086 := 0x01.

Section pic.
Context `{Hw} {K : Type}.

Definition pic_init : M K unit :=
  mask1 ← port_byte_in PIC1_DATA;
  mask2 ← port_byte_in PIC2_DATA;
  port_byte_out PIC1_COMMAND (ICW1_INIT .| ICW1_ICW4);;
  port_io_wait;;
  port_byte_out PIC2_COMMAND (ICW1_INIT .| ICW1_ICW4);;
  port_io_wait;;
  port_byte_out PIC1_DATA 0x20;;
  port_io_wait;;
  port_byte_out PIC2_DATA 0x28;;
  port_io_wait;;
  port_byte_out PIC1_DATA 4;;
  port_io_wait;;
  port_byte_out PIC2_DATA 2;;
  port_io_wait;;
  port_byte_out PIC1_DATA ICW4_8086;;
  port_io_wait;;
  port_byte_out PIC2_DATA ICW4_8086;;
  port_io_wait;;
  let mask1 := 0xF8 in
  let mask2 := 0xFF in
  port_byte_out PIC1_DATA mask1;;
  port_io_wait;;
  port_byte_out PIC2_DATA mask2;;
  port_io_wait.

Definition pic_send_eoi (irq : Z) : M K unit :=
  (if 8 <=? irq then port_byte_out PIC2_COMMAND PIC_EOI else mret tt);;
  port_byte_out PIC1_COMMAND PIC_EOI.

(** The data port and the line of an IRQ. *)
Definition irq_port (irq : Z) : Z * Z :=
  if irq <? 8 then (PIC1_DATA, irq) else (PIC2_DATA, u8 (irq - 8)).

Definition pic_set_mask (irq : Z) : M K unit :=
  let '(port, irq) := irq_port irq in
  v ← port_byte_in port;
  let value := u8 (v .| i32 (1 .<< irq)) in
  port_byte_out port value.

Definition pic_clear_mask (irq : Z) : M K unit :=
  let '(port, irq) := irq_port irq in
  v ← port_byte_in port;
  let value := u8 (v .& Z.lnot (i32 (1 .<< irq))) in
  port_byte_out port value.

Definition pic_disable : M K unit :=
  port_byte_out PIC1_DATA 0xFF;;
  port_byte_out PIC2_DATA 0xFF.
End pic.

(** ** The device *)

Record pic8259 := MkPic {
  icw_left : Z;     (* initialisation words still expected *)
  pic_vector : Z;   (* ICW2 *)
  pic_cascade : Z;  (* ICW3 *)
  pic_mode : Z;     (* ICW4 *)
  pic_imr : Z;      (* interrupt mask *)
  pic_eois : Z;     (* non-specific end-of-interrupt commands seen *)
}.

Definition pic_command (p : pic8259) (v : Z) : pic8259 :=
  if Z.testbit v 4 then MkPic 3 0 0 0 0 (pic_eois p)
  else if v =? PIC_EOI then
    MkPic (icw_left p) (pic_vector p) (pic_cascade p) (pic_mode p) (pic_imr p) (pic_eois p + 1)
  else p.

Definition pic_data (p : pic8259) (v : Z) : pic8259 :=
  let '(MkPic n vec cas mode imr eois) := p in
  match n with
  | 3 => MkPic 2 v cas mode imr eois
  | 2 => MkPic 1 vec v mode imr eois
  | 1 => MkPic 0 vec cas v imr eois
  | _ => MkPic n vec cas mode v eois
  end.

(** The controller with command port [cmd] and data port [cmd + 1]. *)
Definition pic_step (cmd : Z) (p : pic8259) (e : event) : pic8259 :=
  match e with
  | EOut port v =>
      if port =? cmd then pic_command p (u8 v)
      else if port =? cmd + 1 then pic_data p (u8 v)
      else p
  | _ => p
  end.

Definition pic_run (cmd : Z) : pic8259 -> log -> pic8259 := foldl (pic_step cmd).

(** The machine answers a read of a data port with the mask register. *)
Definition reads_imr `{Hw} (p1 p2 : pic8259) : Prop :=
  forall l,
    inb_val l PIC1_DATA = pic_imr (pic_run PIC1_COMMAND p1 l) /\
    inb_val l PIC2_DATA = pic_imr (pic_run PIC2_COMMAND p2 l).

(** Line [irq] of the pair is masked. *)
Definition irq_masked (p1 p2 : pic8259) (irq : Z) : bool :=
  if irq <? 8 then Z.testbit (pic_imr p1) irq else Z.testbit (pic_imr p2) (irq - 8).

Lemma pic_run_app cmd p l l' : pic_run cmd p (l ++ l') = pic_run cmd (pic_run cmd p l) l'.
Proof. apply foldl_app. Qed.

Definition pic_ready (p : pic8259) : Prop := icw_left p = 0.

Definition new_mask (set : bool) (v line : Z) : Z :=
  u8 (if set then v .| i32 (1 .<< line) else v .& Z.lnot (i32 (1 .<< line))).

(** The two mask operations: one read and one write of the line's data port. *)
Lemma pic_mask_spec `{Hw} {K} (set : bool) irq (s : K) l :
  let port := (irq_port irq).1 in
  let v := inb_val l port in
  (if set then pic_set_mask irq s l else pic_clear_mask irq s l) =
  Done (tt, s, l ++ [EIn port v; EOut port (new_mask set v (irq_port irq).2)]).
Proof.
  unfold pic_set_mask, pic_clear_mask, irq_port, new_mask.
  destruct set, (irq <? 8); cbn [fst snd]; run;
    rewrite !u16_id by (unfold PIC1_DATA, PIC2_DATA; lia);
    by rewrite (u8_id (u8 _)) by apply u8_range.
Qed.

(** The ports that an interrupt of line [irq] is acknowledged at. *)
Definition eoi_ports (irq : Z) : list Z :=
  if 8 <=? irq then [PIC2_COMMAND; PIC1_COMMAND] else [PIC1_COMMAND].

Lemma pic_send_eoi_spec {K} irq (s : K) l :
  pic_send_eoi irq s l = Done (tt, s, l ++ ((fun q => EOut q PIC_EOI) <$> eoi_ports irq)).
Proof.
  unfold pic_send_eoi, eoi_ports. by destruct (8 <=? irq); run.
Qed.

Lemma shift_line line : 0 <= line < 8 -> i32 (1 .<< line) = 2 ^ line.
Proof.
  intros Hl. rewrite Z.shiftl_mul_pow2, Z.mul_1_l by lia. apply i32_id.
  pose proof (Z.pow_le_mono_r 2 line 7 ltac:(lia) ltac:(lia)).
  pose proof (Z.pow_pos_nonneg 2 line ltac:(lia) ltac:(lia)). lia.
Qed.

Lemma testbit_u8 x i : 0 <= i < 8 -> Z.testbit (u8 x) i = Z.testbit x i.
Proof. intros. apply Z.mod_pow2_bits_low. lia. Qed.

Lemma new_mask_bit set v line i :
  0 <= line < 8 -> 0 <= i < 8 ->
  Z.testbit (new_mask set v line) i = if decide (i = line) then set else Z.testbit v i.
Proof.
  intros Hl Hi. unfold new_mask. rewrite testbit_u8 by done. rewrite shift_line by done.
  destruct set; rewrite ?Z.land_spec, ?Z.lor_spec, ?Z.lnot_spec by lia; case_decide as E.
  - subst. rewrite Z.pow2_bits_true by lia. apply orb_true_r.
  - rewrite Z.pow2_bits_false by done. apply orb_false_r.
  - subst. rewrite Z.pow2_bits_true by lia. apply andb_false_r.
  - rewrite Z.pow2_bits_false by done. apply andb_true_r.
Qed.

(** A data write to an initialised controller sets its mask, and is not seen
    by the other one. *)
Lemma pic_data_ready p v : pic_ready p -> pic_imr (pic_data p v) = v.
Proof. destruct p. unfold pic_ready. cbn [icw_left]. intros E. by subst. Qed.

Lemma pic_mask_write p1 p2 irq v vin i :
  pic_ready p1 -> pic_ready p2 -> 0 <= irq < 16 -> 0 <= i < 16 ->
  let port := (irq_port irq).1 in
  let l := [EIn port vin; EOut port v] in
  irq_masked (pic_run PIC1_COMMAND p1 l) (pic_run PIC2_COMMAND p2 l) i =
  if decide ((i <? 8) = (irq <? 8)) then Z.testbit (u8 v) (if i <? 8 then i else i - 8)
  else irq_masked p1 p2 i.
Proof.
  intros H1 H2 Hirq Hi. unfold irq_port, irq_masked.
  destruct (irq <? 8), (i <? 8); cbn [fst];
    change (pic_run PIC1_COMMAND p1 [EIn PIC1_DATA vin; EOut PIC1_DATA v]) with (pic_data p1 (u8 v));
    change (pic_run PIC2_COMMAND p2 [EIn PIC1_DATA vin; EOut PIC1_DATA v]) with p2;
    change (pic_run PIC1_COMMAND p1 [EIn PIC2_DATA vin; EOut PIC2_DATA v]) with p1;
    change (pic_run PIC2_COMMAND p2 [EIn PIC2_DATA vin; EOut PIC2_DATA v]) with (pic_data p2 (u8 v));
    by rewrite ?pic_data_ready.
Qed.

(** ** Properties *)

(** C35. After [pic_init], whatever the controllers held: both are initialised in
    8086 mode, IRQs 0-7 arrive at vectors 0x20-0x27 and IRQs 8-15 at
    0x28-0x2F, the slave hangs off line 2, and exactly the timer, the
    keyboard and the cascade are unmasked. *)
Theorem pic_init_programs `{Hw} {K} (s : K) l p1 p2 :
  exists l', pic_init s l = Done (tt, s, l ++ l') /\
    let q1 := pic_run PIC1_COMMAND p1 l' in
    let q2 := pic_run PIC2_COMMAND p2 l' in
    q1 = MkPic 0 0x20 4 ICW4_8086 0xF8 (pic_eois p1) /\
    q2 = MkPic 0 0x28 2 ICW4_8086 0xFF (pic_eois p2) /\
    forall irq, 0 <= irq < 16 -> irq_masked q1 q2 irq = negb (irq <? 3).
Proof.
  eexists. split; [unfold pic_init; run; reflexivity|]. cbv zeta.
  assert (forall irq, 0 <= irq < 16 -> irq_masked (MkPic 0 0x20 4 ICW4_8086 0xF8 (pic_eois p1))
    (MkPic 0 0x28 2 ICW4_8086 0xFF (pic_eois p2)) irq = negb (irq <? 3)) as Hm.
  { intros irq Hi. change (irq_masked (MkPic 0 0 0 0 0xF8 0) (MkPic 0 0 0 0 0xFF 0) irq = negb (irq <? 3)).
    revert irq Hi. check_below 16. }
  split_and!; [reflexivity..|exact Hm].
Qed.

(** With initialised controllers that answer reads with their mask register,
    [pic_set_mask irq] masks exactly line [irq] and [pic_clear_mask irq]
    unmasks exactly it; every other of the 16 lines stays as it was. *)
Theorem pic_masks_line `{Hw} {K} (s : K) l p1 p2 irq (set : bool) :
  reads_imr p1 p2 -> 0 <= irq < 16 ->
  pic_ready (pic_run PIC1_COMMAND p1 l) -> pic_ready (pic_run PIC2_COMMAND p2 l) ->
  exists l', (if set then pic_set_mask irq s l else pic_clear_mask irq s l) = Done (tt, s, l ++ l') /\
    forall i, 0 <= i < 16 ->
      irq_masked (pic_run PIC1_COMMAND p1 (l ++ l')) (pic_run PIC2_COMMAND p2 (l ++ l')) i =
      if decide (i = irq) then set
      else irq_masked (pic_run PIC1_COMMAND p1 l) (pic_run PIC2_COMMAND p2 l) i.
Proof.
  intros Hr Hirq H1 H2. destruct (Hr l) as [Hi1 Hi2].
  eexists. split; [apply pic_mask_spec|]. intros i Hi. rewrite !pic_run_app.
  rewrite pic_mask_write by done. unfold irq_masked, irq_port.
  destruct (Z.ltb_spec irq 8), (Z.ltb_spec i 8); cbn [fst snd];
    rewrite ?(u8_id (irq - 8)) by lia;
    rewrite ?decide_True by done; rewrite ?testbit_u8, ?new_mask_bit, ?Hi1, ?Hi2 by lia.
  all: repeat case_decide; try done; lia.
Qed.

(** A machine with freshly initialised controllers: reads of the data ports
    give the mask registers. *)
Definition w_pic : pic8259 := MkPic 0 0x20 4 1 0xF8 0.
Definition w_hw_pic : Hw := {| hw_in l port :=
  if port =? PIC1_DATA then pic_imr (pic_run PIC1_COMMAND w_pic l)
  else if port =? PIC2_DATA then pic_imr (pic_run PIC2_COMMAND w_pic l) else 0 |}.

Lemma pic_imr_range cmd p l :
  0 <= pic_imr p < 256 -> 0 <= pic_imr (pic_run cmd p l) < 256.
Proof.
  unfold pic_run. revert p. induction l as [|e l IH]; intros p Hp; cbn [foldl]; [done|].
  apply IH. destruct e as [|port v| | | | | |]; cbn [pic_step]; try done.
  pose proof (u8_range v). repeat case_match; [|  |done].
  - unfold pic_command. repeat case_match; simpl; lia.
  - destruct p as [n vec cas mode imr eois]. cbn [pic_data]. repeat case_match; simpl in *; lia.
Qed.

Lemma w_reads_imr : @reads_imr w_hw_pic w_pic w_pic.
Proof.
  intros l. unfold inb_val. cbn [hw_in w_hw_pic].
  split; apply u8_id, pic_imr_range; simpl; lia.
Qed.

Lemma pic_masks_line_witness :
  exists l', pic_set_mask (H := w_hw_pic) 9 tt [] = Done (tt, tt, l') /\
    irq_masked (pic_run PIC1_COMMAND w_pic l') (pic_run PIC2_COMMAND w_pic l') 9 = true.
Proof.
  destruct (pic_masks_line (H := w_hw_pic) tt [] w_pic w_pic 9 true w_reads_imr) as (l' & ? & Hm);
    [lia|done|done|].
  exists l'. split; [done|]. by apply (Hm 9).
Defined.
