(* ===== verification/Ps2.v ===== *)
(** * The PS/2 controller: ports and loops that the keyboard and the mouse
    driver share (src/impl/drivers/keyboard/keyboard.h), and the text of
    debug messages. *)
From S2P Require Export Format Serial Pic.

Definition KEYBOARD_DATA_PORT := 0x60.
Definition KEYBOARD_STATUS_PORT := 0x64.
Definition KEYBOARD_COMMAND_PORT := 0x64.

(** The text [sprintf] builds in a stack buffer of the caller
    ([vsprintf] refines [render]). *)
Definition debug_text (fmt : string) (args : list Z) : list Z :=
  default [] (render (bytes_of fmt ++ [10]) (FInt <$> args)).

Section ps2.
Context `{Hw} {K : Type}.

(** [(port_byte_in(KEYBOARD_STATUS_PORT) & mask) != 0] *)
Definition status_bit (mask : Z) : M K bool :=
  v ← port_byte_in KEYBOARD_STATUS_PORT; mret (tst v mask).

(** [while (status & 1) port_byte_in(KEYBOARD_DATA_PORT);] *)
Definition flush_output (fuel : nat) : M K unit :=
  while_ fuel
    (b ← status_bit 1;
     if b : bool then port_byte_in KEYBOARD_DATA_PORT;; mret true else mret false).

(** One turn of a loop that waits for the byte [ack]. *)
Definition got_byte (ack : Z) : M K bool :=
  b ← status_bit 1;
  if b : bool then r ← port_byte_in KEYBOARD_DATA_PORT; mret (r =? ack) else mret false.
End ps2.

(** ** Printing inside a handler

    [prints l l']: between the two logs, only the first serial port's data
    port was written, and perhaps ports were read. *)

Definition prints (l l' : log) : Prop :=
  exists text, forall p, sent p l' = sent p l ++ (if decide (p = COM1_PORT) then text else []).

(** As [prints], and then one end-of-interrupt command to each of [ports]. *)
Definition acknowledges (ports : list Z) (l l' : log) : Prop :=
  exists text, forall p, sent p l' =
    sent p l ++ (if decide (p = COM1_PORT) then text
                 else if decide (p ∈ ports) then [PIC_EOI] else []).

#[export] Instance prints_preorder : PreOrder prints.
Proof.
  split.
  - intros l. exists []. intros p. case_decide; by rewrite app_nil_r.
  - intros l1 l2 l3 [t1 H1] [t2 H2]. exists (t1 ++ t2). intros p. rewrite H2, H1, <- app_assoc.
    by case_decide.
Qed.

Lemma prints_read l port v : prints l (l ++ [EIn port v]).
Proof. exists []. intros p. rewrite sent_app. simpl. by case_decide. Qed.

#[export] Hint Resolve prints_read : cint.

(** Between the two logs no command was sent to the interrupt controllers. *)
Definition no_eoi (l l' : log) : Prop :=
  sent PIC1_COMMAND l' = sent PIC1_COMMAND l /\ sent PIC2_COMMAND l' = sent PIC2_COMMAND l.

#[export] Instance no_eoi_preorder : PreOrder no_eoi.
Proof. split; [by split|]. intros l1 l2 l3 [A B] [C D]. split; congruence. Qed.

Lemma prints_no_eoi l l' : prints l l' -> no_eoi l l'.
Proof. intros [t Hp]. split; by rewrite Hp, decide_False, app_nil_r. Qed.

Lemma no_eoi_app l l' : no_eoi [] l' -> no_eoi l (l ++ l').
Proof. intros [E1 E2]. split; rewrite sent_app; [rewrite E1|rewrite E2]; apply app_nil_r. Qed.
#[export] Hint Resolve prints_no_eoi : cint.

Section print.
Context `{Hw} {K : Type}.
Context (fuel : nat) (Hready : always_ready tx_empty fuel (COM1_PORT + 5)).

Lemma print_bind {A} str (k : unit -> M K A) (s : K) l :
  exists l', prints l l' /\ (serial_write_string fuel COM1_PORT str ≫= k) s l = k tt s l'.
Proof.
  destruct (serial_write_string_spec fuel COM1_PORT str s l) as (l' & E & Hl);
    [unfold COM1_PORT; lia|done|].
  exists l'. split; [by exists (u8 <$> str)|]. by rewrite (M_bind_done _ _ _ _ _ _ _ E).
Qed.

Lemma print_last str (s : K) l :
  exists l', prints l l' /\ serial_write_string fuel COM1_PORT str s l = Done (tt, s, l').
Proof.
  destruct (serial_write_string_spec fuel COM1_PORT str s l) as (l' & E & Hl);
    [unfold COM1_PORT; lia|done|]. exists l'. split; [by exists (u8 <$> str)|done].
Qed.

Lemma port_in_bind {A} port (k : Z -> M K A) (s : K) l :
  0 <= port < 2 ^ 16 ->
  (port_byte_in port ≫= k) s l = k (inb_val l port) s (l ++ [EIn port (inb_val l port)]).
Proof. intros Hp. run. by rewrite u16_id. Qed.
End print.

Lemma sent_eois p ports :
  NoDup ports ->
  sent p ((fun q => EOut q PIC_EOI) <$> ports) = if decide (p ∈ ports) then [PIC_EOI] else [].
Proof.
  induction 1 as [|q ports Hq Hnd IH]; [done|]. rewrite fmap_cons.
  change (EOut q PIC_EOI :: ((fun q => EOut q PIC_EOI) <$> ports))
    with ([EOut q PIC_EOI] ++ ((fun q => EOut q PIC_EOI) <$> ports)).
  rewrite sent_app, IH. simpl. destruct (Z.eqb_spec q p) as [->|Hne]; simpl.
  - rewrite decide_False by done. by rewrite decide_True by left.
  - apply decide_ext. rewrite elem_of_cons. naive_solver.
Qed.

Lemma acknowledges_eois l0 l ports :
  prints l0 l -> NoDup ports -> COM1_PORT ∉ ports ->
  acknowledges ports l0 (l ++ ((fun q => EOut q PIC_EOI) <$> ports)).
Proof.
  intros [t Ht] Hnd Hne. exists t. intros p. rewrite sent_app, Ht, sent_eois, <- app_assoc by done.
  f_equal. case_decide as E; [|done]. subst. rewrite decide_False by done. apply app_nil_r.
Qed.

Lemma eois_acknowledge irq l0 l :
  prints l0 l -> acknowledges (eoi_ports irq) l0 (l ++ ((fun q => EOut q PIC_EOI) <$> eoi_ports irq)).
Proof.
  intros Hp. unfold eoi_ports. case_match; (apply acknowledges_eois; [done| |set_solver]);
    repeat constructor; set_solver.
Qed.

(** Runs the calls of [serial_write_string] at the head of the goal's
    computation, with the logs' relation in the context. *)
Ltac step_print R :=
  match goal with
  | |- context [(serial_write_string ?f COM1_PORT ?str ≫= ?k) ?s ?l] =>
      let l' := fresh "l" in let Hp := fresh "Hp" in let E := fresh "E" in
      destruct (print_bind f R str k s l) as (l' & Hp & E); rewrite E; clear E
  end.

(** One step of a handler: its binds, its accesses to the state, its messages. *)
Ltac step R :=
  first [ rewrite M_bind_assoc | rewrite modify_bind | rewrite gets_bind
        | rewrite ret_bind | step_print R ];
  rewrite ?get_set, ?set_set.

Ltac prints_tac :=
  repeat first
    [ eassumption | apply prints_read | reflexivity
    | match goal with
      | Hp : prints ?l1 ?l2 |- prints _ ?l2 => apply (transitivity (y := l1)); [|exact Hp]
      | |- prints ?l (?l2 ++ [EIn ?p ?v]) => apply (transitivity (y := l2)); [|apply prints_read]
      end ].
