(* ===== verification/Pit.v ===== *)
(** * Interval timer (src/impl/drivers/pit/pit.c) *)
From Stdlib Require Import Ascii.
From S2P Require Export Ps2.

(** ** Definitions *)

Definition PIT_IRQ := 0.
Definition PIT_CHANNEL0 := 0x40.
Definition PIT_COMMAND := 0x43.
Definition PIT_CHANNEL0_SELECT := 0x00.
Definition PIT_LOBYTE_HIBYTE := 0x30.
Definition PIT_SQUARE_WAVE := 0x06.
Definition PIT_BINARY_MODE := 0x00.
Definition PIT_FREQUENCY := 1193180.
Definition PIT_DEFAULT_HZ := 100.

Record Pit := MkPit { tick_count : Z; timer_callback : Z }.
Definition pit_initial : Pit := MkPit 0 0.

Section pit.
Context `{Hw} {K : Type} `{Has Pit K} `{Code K}.

(** A division by zero is undefined. *)
Definition pit_set_frequency (hz : Z) : M K unit :=
  if hz =? 0 then undef else
  let divisor := u32 (PIT_FREQUENCY / hz) in
  port_byte_out PIT_COMMAND
    (PIT_CHANNEL0_SELECT .| PIT_LOBYTE_HIBYTE .| PIT_SQUARE_WAVE .| PIT_BINARY_MODE);;
  port_byte_out PIT_CHANNEL0 (divisor .& 0xFF);;
  port_byte_out PIT_CHANNEL0 ((divisor .>> 8) .& 0xFF).

Definition pit_init (fuel : nat) (frequency : Z) : M K unit :=
  pit_set_frequency frequency;;
  pic_clear_mask PIT_IRQ;;
  serial_write_string fuel COM1_PORT (bytes_of "[PIT] Timer initialized" ++ [10]).

Definition pit_handler (fuel : nat) : M K unit :=
  modify (fun p => MkPit (u64 (tick_count p + 1)) (timer_callback p));;
  ticks ← gets tick_count;
  (if ticks mod PIT_DEFAULT_HZ =? 0
   then serial_write_string fuel COM1_PORT (bytes_of ".") else mret tt);;
  callback ← gets timer_callback;
  (if negb (callback =? 0) then call_void callback [] else mret tt);;
  pic_send_eoi PIT_IRQ.

Definition pit_get_ticks : M K Z := gets tick_count.

Definition pit_set_callback (callback : Z) : M K unit :=
  modify (fun p => MkPit (tick_count p) callback).
End pit.

(** ** Facts *)

(** The reload value of channel 0 after a command that selects low byte then
    high byte: the last two bytes sent to the channel. *)
Definition pit_reload (l : log) : option Z :=
  match sent PIT_COMMAND l, sent PIT_CHANNEL0 l with
  | [cmd], [lo; hi] => if cmd =? 0x36 then Some (lo + 256 * hi) else None
  | _, _ => None
  end.

Lemma pit_set_frequency_spec {K} hz (s : K) l :
  hz <> 0 -> exists l', pit_set_frequency hz s l = Done (tt, s, l ++ l') /\
    pit_reload l' = Some (u32 (PIT_FREQUENCY / hz) mod 65536).
Proof.
  intros Hz. unfold pit_set_frequency. decide_lia. eexists. split; [run; reflexivity|].
  set (d := u32 (PIT_FREQUENCY / hz)). rewrite !land_FF, Z.shiftr_div_pow2 by lia.
  rewrite !(u8_id (_ mod 256)) by (apply Z.mod_pos_bound; lia).
  change (pit_reload _) with (Some (d mod 256 + 256 * (d / 2 ^ 8 mod 256))). f_equal.
  change 65536 with (256 * 256). rewrite (Z.rem_mul_r d 256 256) by lia. done.
Qed.

Section ticks.
Context `{Hw} {K : Type} `{Has Pit K} `{Code K}.
Context (fuel : nat) (Hready : always_ready tx_empty fuel (COM1_PORT + 5)).

Definition tick_of (s : K) : Z := tick_count (get_part s).

(** What the registered callback does with a state and a log. *)
Definition called_back (callback : Z) (s : K) (l : log) : res (Z * K * log) :=
  if callback =? 0 then Done (0, s, l) else call callback [] s l.

(** One interrupt: the tick is counted, the heartbeat sent, the callback
    called, the interrupt acknowledged. *)
Lemma pit_handler_spec (s : K) l :
  let callback := timer_callback (get_part s) in
  exists l1, prints l l1 /\
    sent COM1_PORT l1 = sent COM1_PORT l ++ (if u64 (tick_of s + 1) mod 100 =? 0 then bytes_of "." else []) /\
    pit_handler fuel s l =
      match called_back callback (set_part (MkPit (u64 (tick_of s + 1)) callback) s) l1 with
      | Done (_, s2, l2) => Done (tt, s2, l2 ++ [EOut PIC1_COMMAND PIC_EOI])
      | Spin => Spin
      | Undef => Undef
      end.
Proof.
  intros callback. set (s1 := set_part (MkPit (u64 (tick_of s + 1)) callback) s).
  assert (exists l1, (if u64 (tick_of s + 1) mod PIT_DEFAULT_HZ =? 0
    then serial_write_string fuel COM1_PORT (bytes_of ".") else mret tt) s1 l = Done (tt, s1, l1) /\ prints l l1 /\
    sent COM1_PORT l1 = sent COM1_PORT l ++ (if u64 (tick_of s + 1) mod 100 =? 0 then bytes_of "." else []))
    as (l1 & Hs & Hp & Hl1).
  { unfold PIT_DEFAULT_HZ. destruct (_ mod 100 =? 0).
    - destruct (serial_write_string_spec fuel COM1_PORT (bytes_of ".") s1 l) as (l1 & E & Hl1); [unfold COM1_PORT; lia|done|].
      destruct (print_last fuel Hready (bytes_of ".") s1 l) as (l2 & Hp & E2). rewrite E in E2. injection E2 as <-.
      exists l1. split; [done|]. split; [done|]. by rewrite Hl1, decide_True.
    - exists l. split; [done|]. split; [done|]. by rewrite app_nil_r. }
  exists l1. split; [done|]. split; [done|].
  unfold pit_handler. rewrite modify_bind. rewrite gets_bind, get_set. cbn [tick_count timer_callback].
  fold callback. fold (tick_of s). fold s1. rewrite (M_bind_done _ _ _ _ _ _ _ Hs), gets_bind.
  assert (timer_callback (get_part s1) = callback) as -> by (unfold s1; by rewrite get_set). unfold called_back.
  destruct (callback =? 0); cbn [negb]; [reflexivity|]. unfold call_void, mbind, M_bind.
  by destruct (call callback [] s1 l1) as [[[v s2] l2]| |].
Qed.

(** [n] interrupts. *)
Fixpoint ticks (n : nat) : M K unit :=
  match n with O => mret tt | S n => pit_handler fuel;; ticks n end.
End ticks.

(** ** Properties *)

(** A frequency from 19 Hz to the base frequency programs channel 0 with the
    largest divisor that gives at least that rate; the divisor fits the 16-bit
    counter and is not 0. *)
Theorem pit_set_frequency_programs {K} hz (s : K) l :
  19 <= hz <= PIT_FREQUENCY ->
  exists l' d, pit_set_frequency hz s l = Done (tt, s, l ++ l') /\ pit_reload l' = Some d /\
    0 < d < 2 ^ 16 /\ hz * d <= PIT_FREQUENCY < hz * (d + 1).
Proof.
  intros Hz. destruct (pit_set_frequency_spec hz s l) as (l' & Hr & Hd); [lia|].
  assert (0 < PIT_FREQUENCY / hz) by (apply Z.div_str_pos; lia).
  assert (PIT_FREQUENCY / hz < 65536) by (apply Z.div_lt_upper_bound; unfold PIT_FREQUENCY; lia).
  exists l', (PIT_FREQUENCY / hz). rewrite u32_id, Z.mod_small in Hd by lia.
  pose proof (Z.div_mod PIT_FREQUENCY hz ltac:(lia)).
  pose proof (Z.mod_pos_bound PIT_FREQUENCY hz ltac:(lia)).
  split_and!; [done|done|lia..].
Qed.

(** Below 19 Hz the divisor does not fit the counter and only its low 16 bits
    are sent: the timer runs faster than asked. 0 Hz divides by zero. *)
Theorem pit_set_frequency_low {K} hz (s : K) l :
  0 <= hz < 19 ->
  if decide (hz = 0) then pit_set_frequency hz s l = Undef
  else exists l' d, pit_set_frequency hz s l = Done (tt, s, l ++ l') /\
    pit_reload l' = Some d /\ d <> PIT_FREQUENCY / hz /\ d < PIT_FREQUENCY / hz.
Proof.
  intros Hz. case_decide as E; [by subst|].
  destruct (pit_set_frequency_spec hz s l) as (l' & Hr & Hd); [lia|].
  assert (65536 <= PIT_FREQUENCY / hz) by (apply Z.div_le_lower_bound; unfold PIT_FREQUENCY; lia).
  assert (PIT_FREQUENCY / hz <= PIT_FREQUENCY) by (apply Z.div_le_upper_bound; unfold PIT_FREQUENCY; lia).
  eexists l', _. split; [done|]. split; [exact Hd|].
  rewrite u32_id by (unfold PIT_FREQUENCY in *; lia).
  pose proof (Z.mod_pos_bound (PIT_FREQUENCY / hz) 65536 ltac:(lia)). lia.
Qed.

(** C37. A timer interrupt counts one tick, sends the heartbeat byte when the
    count is a multiple of 100, calls the registered callback (if there is one)
    once, with the new count in place, and acknowledges the interrupt once, after
    the callback. So [n] interrupts with a callback that returns, leaves the
    timer's state alone and sends nothing to the first interrupt controller, or
    with none, count [n] ticks and send [n] acknowledgements. *)
Theorem pit_handler_counts `{Hw} {K} `{Has Pit K} `{Code K} fuel :
  always_ready tx_empty fuel (COM1_PORT + 5) ->
  (forall (s : K) l, let callback := timer_callback (get_part s) in
    exists l1, prints l l1 /\
      sent COM1_PORT l1 = sent COM1_PORT l ++ (if u64 (tick_of s + 1) mod 100 =? 0 then bytes_of "." else []) /\
      pit_handler fuel s l =
        match called_back callback (set_part (MkPit (u64 (tick_of s + 1)) callback) s) l1 with
        | Done (_, s2, l2) => Done (tt, s2, l2 ++ [EOut PIC1_COMMAND PIC_EOI])
        | Spin => Spin
        | Undef => Undef
        end) /\
  forall n (s : K) l callback,
    timer_callback (get_part s) = callback -> 0 <= tick_of s -> tick_of s + Z.of_nat n < 2 ^ 64 ->
    (forall s1 l1, timer_callback (get_part s1) = callback -> exists v s2 l2, called_back callback s1 l1 = Done (v, s2, l2) /\
       get_part s2 = get_part s1 /\ sent PIC1_COMMAND l2 = sent PIC1_COMMAND l1) ->
    exists s' l', ticks fuel n s l = Done (tt, s', l') /\
      get_part s' = MkPit (tick_of s + Z.of_nat n) callback /\
      sent PIC1_COMMAND l' = sent PIC1_COMMAND l ++ replicate n PIC_EOI.
Proof.
  intros Hr. split; [intros s l; by apply pit_handler_spec|].
  intros n. induction n as [|n IH]; intros s l callback Hcb Hpos Ht Hcall; cbn [ticks].
  - exists s, l. split; [done|]. unfold tick_of in *. rewrite Z.add_0_r, app_nil_r. split; [|done].
    rewrite <- Hcb. by destruct (get_part s).
  - destruct (pit_handler_spec fuel Hr s l) as (l1 & [t Hp] & _ & Hh). rewrite Hcb, u64_id in Hh by lia.
    set (s1 := set_part (MkPit (tick_of s + 1) callback) s) in *.
    destruct (Hcall s1 l1) as (v & s2 & l2 & E & Hg & Hl2); [unfold s1; by rewrite get_set|]. rewrite E in Hh.
    assert (get_part s2 = MkPit (tick_of s + 1) callback) as Hs2 by (rewrite Hg; apply get_set).
    assert (tick_of s2 = tick_of s + 1) as Ht2 by (unfold tick_of at 1; by rewrite Hs2).
    destruct (IH s2 (l2 ++ [EOut PIC1_COMMAND PIC_EOI]) callback) as (s' & l' & Hrun & Hg' & Hp'); [by rewrite Hs2|rewrite Ht2; lia..|done|].
    exists s', l'. split; [by rewrite (M_bind_done _ _ _ _ _ _ _ Hh)|]. split; [rewrite Hg', Ht2; f_equal; lia|].
    rewrite Hp', sent_app, Hl2, Hp, decide_False by done. cbn. by rewrite app_nil_r, <- app_assoc.
Qed.

Lemma pit_set_frequency_programs_witness :
  exists l' d, pit_set_frequency 100 tt [] = Done (tt, tt, [] ++ l') /\ pit_reload l' = Some d /\ 0 < d.
Proof.
  destruct (pit_set_frequency_programs 100 tt []) as (l' & d & ? & ? & ? & _);
    [unfold PIT_FREQUENCY; lia|]. exists l', d. split_and!; [done|done|lia].
Defined.

Lemma pit_set_frequency_low_witness :
  pit_set_frequency 0 tt [] = Undef /\
  exists l' d, pit_set_frequency 10 tt [] = Done (tt, tt, [] ++ l') /\ pit_reload l' = Some d /\
    d <> 119318.
Proof.
  split; [apply (pit_set_frequency_low 0 tt []); lia|].
  destruct (pit_set_frequency_low 10 tt []) as (l' & d & ? & ? & ? & _); [lia|].
  exists l', d. by split_and!.
Defined.

(** A callback that counts its calls. *)
Definition w_counting : Code (Pit * Z) := {| call f args := fun s l => Done (0, (s.1, s.2 + 1), l) |}.

Lemma pit_handler_counts_witness :
  exists s' l', ticks (H := w_hw) (H1 := w_counting) 1 200 (MkPit 0 0x1000, 0) [] = Done (tt, s', l') /\
    s'.1 = MkPit 200 0x1000 /\ sent PIC1_COMMAND l' = replicate 200 PIC_EOI.
Proof.
  destruct (pit_handler_counts (H := w_hw) (H1 := w_counting) 1) as [_ Hn]; [by apply w_ready|].
  destruct (Hn 200%nat (MkPit 0 0x1000, 0) [] 0x1000) as (s' & l' & E & Hg & Hp); [reflexivity|vm_compute; discriminate|by vm_compute| |].
  - intros s1 l1 _. do 3 eexists. split; [reflexivity|]. by split.
  - exists s', l'. split; [exact E|]. split; [exact Hg|exact Hp].
Defined.
