(* ===== verification/Rtc.v ===== *)
(** * Real-time clock (src/impl/drivers/rtc/rtc.c) *)
From S2P Require Export Pic.

(** ** Definitions *)

Definition RTC_IRQ := 8.
Definition RTC_INDEX_PORT := 0x70.
Definition RTC_DATA_PORT := 0x71.
Definition RTC_SECONDS := 0x00.
Definition RTC_MINUTES := 0x02.
Definition RTC_HOURS := 0x04.
Definition RTC_WEEKDAY := 0x06.
Definition RTC_DAY := 0x07.
Definition RTC_MONTH := 0x08.
Definition RTC_YEAR := 0x09.
Definition RTC_STATUS_A := 0x0A.
Definition RTC_STATUS_B := 0x0B.
Definition RTC_STATUS_C := 0x0C.

Record RTCTime := MkRTCTime {
  second : Z; minute : Z; hour : Z; day : Z; month : Z; year : Z; weekday : Z;
}.

(** The driver's statics. The callback gets the address of [current_time],
    which the model leaves to the callee. *)
Record Rtc := MkRtc { rtc_callback : Z; current_time : RTCTime }.
Definition rtc_initial : Rtc := MkRtc 0 (MkRTCTime 0 0 0 0 0 0 0).

Definition rtc_bcd_to_bin (bcd : Z) : Z := u8 (((bcd .& 0xF0) .>> 4) * 10 + (bcd .& 0x0F)).
Definition rtc_bin_to_bcd (bin : Z) : Z := u8 (((bin / 10) .<< 4) .| (bin mod 10)).

Section rtc.
Context `{Hw} {K : Type} `{Has Rtc K} `{Code K}.

Definition rtc_read_register (reg : Z) : M K Z :=
  port_byte_out RTC_INDEX_PORT reg;;
  port_byte_in RTC_DATA_PORT.

Definition rtc_write_register (reg value : Z) : M K unit :=
  port_byte_out RTC_INDEX_PORT reg;;
  port_byte_out RTC_DATA_PORT value.

Definition rtc_update_in_progress : M K Z :=
  v ← rtc_read_register RTC_STATUS_A; mret (v .& 0x80).

(** The value stored through [time]. *)
Definition rtc_read_time (fuel : nat) : M K RTCTime :=
  while_ fuel (r ← rtc_update_in_progress; mret (negb (r =? 0)));;
  s ← rtc_read_register RTC_SECONDS;
  mi ← rtc_read_register RTC_MINUTES;
  h ← rtc_read_register RTC_HOURS;
  d ← rtc_read_register RTC_DAY;
  mo ← rtc_read_register RTC_MONTH;
  y ← rtc_read_register RTC_YEAR;
  w ← rtc_read_register RTC_WEEKDAY;
  mret (MkRTCTime (rtc_bcd_to_bin s) (rtc_bcd_to_bin mi) (rtc_bcd_to_bin h) (rtc_bcd_to_bin d)
    (rtc_bcd_to_bin mo) (u16 (rtc_bcd_to_bin y + 2000)) (rtc_bcd_to_bin w)).

Definition set_current_time (t : RTCTime) : M K unit :=
  modify (fun r => MkRtc (rtc_callback r) t).

Definition rtc_init (fuel : nat) : M K unit :=
  status ← rtc_read_register RTC_STATUS_B;
  let status := status .| 0x02 in
  let status := status .| 0x04 in
  rtc_write_register RTC_STATUS_B status;;
  pic_clear_mask RTC_IRQ;;
  t ← rtc_read_time fuel;
  set_current_time t.

Definition rtc_enable_interrupt : M K unit :=
  status ← rtc_read_register RTC_STATUS_B;
  let status := status .| 0x40 in
  rtc_write_register RTC_STATUS_B status;;
  rtc_read_register RTC_STATUS_C;;
  mret tt.

Definition rtc_disable_interrupt : M K unit :=
  status ← rtc_read_register RTC_STATUS_B;
  let status := status .& Z.lnot 0x40 in
  rtc_write_register RTC_STATUS_B status.

Definition rtc_handler (fuel : nat) : M K unit :=
  rtc_read_register RTC_STATUS_C;;
  t ← rtc_read_time fuel;
  set_current_time t;;
  callback ← gets rtc_callback;
  (if negb (callback =? 0) then call_void callback [] else mret tt);;
  pic_send_eoi RTC_IRQ.

Definition rtc_set_callback (callback : Z) : M K unit :=
  modify (fun r => MkRtc callback (current_time r)).
End rtc.

(** ** The device

    While the clock updates its registers, bit 7 of status register A is set
    and what the other registers hold means nothing. They hold still from a
    read of status A that finds the bit clear on, as long as the driver does
    nothing but read them. *)

(** The reversed log begins with reads of registers back to a read of status A
    that found no update in progress. *)
Fixpoint settled_rev (r : log) : bool :=
  match r with
  | EIn p v :: EOut q i :: r =>
      if (p =? RTC_DATA_PORT) && (q =? RTC_INDEX_PORT) then
        if i =? RTC_STATUS_A then negb (tst v 0x80) else settled_rev r
      else false
  | _ => false
  end.

Definition settled (l : log) : bool := settled_rev (rev l).

(** What a read of status A finds after [l]. *)
Definition status_a `{Hw} (l : log) : Z := inb_val (l ++ [EOut RTC_INDEX_PORT RTC_STATUS_A]) RTC_DATA_PORT.

(** Polling status A finds the bit clear within [fuel] reads. *)
Fixpoint clock_idle `{Hw} (fuel : nat) (l : log) : bool :=
  match fuel with
  | O => false
  | S fuel =>
      if tst (status_a l) 0x80
      then clock_idle fuel (l ++ [EOut RTC_INDEX_PORT RTC_STATUS_A; EIn RTC_DATA_PORT (status_a l)])
      else true
  end.

(** The clock's registers are [regs], when they are read as above. *)
Definition reads_regs `{Hw} (regs : Z -> Z) : Prop :=
  forall l r, settled l = true -> r <> RTC_STATUS_A -> inb_val (l ++ [EOut RTC_INDEX_PORT r]) RTC_DATA_PORT = regs r.

(** What the clock shows, in the format of its registers. *)
Definition clock_shows (enc : Z -> Z) (regs : Z -> Z) (t : RTCTime) : Prop :=
  regs RTC_SECONDS = enc (second t) /\ regs RTC_MINUTES = enc (minute t) /\
  regs RTC_HOURS = enc (hour t) /\ regs RTC_DAY = enc (day t) /\
  regs RTC_MONTH = enc (month t) /\ regs RTC_YEAR = enc (year t - 2000) /\
  regs RTC_WEEKDAY = enc (weekday t).

Definition time_ok (t : RTCTime) : Prop :=
  0 <= second t < 60 /\ 0 <= minute t < 60 /\ 0 <= hour t < 24 /\ 1 <= day t < 32 /\
  1 <= month t < 13 /\ 2000 <= year t < 2100 /\ 1 <= weekday t < 8.

Lemma bcd_roundtrip : forall b, 0 <= b < 160 -> rtc_bcd_to_bin (rtc_bin_to_bcd b) = b.
Proof. check_below 160. Qed.

Lemma bcd_misread : forall b, 0 <= b < 256 -> rtc_bcd_to_bin b = b - 6 * (b / 16).
Proof. check_below 256. Qed.

Section rtc_facts.
Context `{Hw} {K : Type}.

Lemma settled_read l r v :
  settled (l ++ [EOut RTC_INDEX_PORT r; EIn RTC_DATA_PORT v]) =
  if r =? RTC_STATUS_A then negb (tst v 0x80) else settled l.
Proof. unfold settled. by rewrite rev_app_distr. Qed.

Lemma read_register_run r (s : K) l :
  0 <= r < 256 -> let v := inb_val (l ++ [EOut RTC_INDEX_PORT r]) RTC_DATA_PORT in
  rtc_read_register r s l = Done (v, s, l ++ [EOut RTC_INDEX_PORT r; EIn RTC_DATA_PORT v]).
Proof. intros Hr. unfold rtc_read_register. run. by rewrite u8_id by lia. Qed.

(** The loop at the start of [rtc_read_time] waits for the end of an update. *)
Lemma wait_settles n (s : K) l :
  clock_idle n l = true ->
  exists l1, while_ n (r ← rtc_update_in_progress; mret (negb (r =? 0))) s l = Done (tt, s, l ++ l1) /\
    settled (l ++ l1) = true /\ forall p, p <> RTC_INDEX_PORT -> sent p l1 = [].
Proof.
  revert l. induction n as [|n IH]; intros l Hi; [done|]. cbn [clock_idle while_] in *.
  unfold rtc_update_in_progress. rewrite !M_bind_assoc.
  rewrite (M_bind_done _ _ _ _ _ _ _ (read_register_run RTC_STATUS_A s l ltac:(unfold RTC_STATUS_A; lia))).
  fold (status_a l). rewrite !ret_bind. fold (tst (status_a l) 0x80).
  set (l0 := [EOut RTC_INDEX_PORT RTC_STATUS_A; EIn RTC_DATA_PORT (status_a l)]) in *.
  assert (forall p, p <> RTC_INDEX_PORT -> sent p l0 = []) as Hl0
    by (intros p Hp; unfold l0, sent; cbn [omap list_omap]; by rewrite (proj2 (Z.eqb_neq _ _)) by congruence).
  destruct (tst (status_a l) 0x80) eqn:Ht.
  - destruct (IH _ Hi) as (l1 & E & Hs & Hp). exists (l0 ++ l1). rewrite !app_assoc. split; [exact E|]. split; [done|].
    intros p Hne. by rewrite sent_app, Hl0, Hp.
  - exists l0. split; [done|]. split; [|done]. unfold l0. rewrite settled_read, Z.eqb_refl. by rewrite Ht.
Qed.

Context (regs : Z -> Z) (Hregs : reads_regs regs).

Lemma rtc_read_register_bind {A} r (k : Z -> M K A) (s : K) l :
  0 <= r < 256 -> r <> RTC_STATUS_A -> settled l = true ->
  (rtc_read_register r ≫= k) s l = k (regs r) s (l ++ [EOut RTC_INDEX_PORT r; EIn RTC_DATA_PORT (regs r)]).
Proof. intros Hr Hne Hs. rewrite (M_bind_done _ _ _ _ _ _ _ (read_register_run r s l Hr)). by rewrite Hregs. Qed.

(** The time that registers mean in the driver's reading. *)
Definition decoded : RTCTime :=
  MkRTCTime (rtc_bcd_to_bin (regs RTC_SECONDS)) (rtc_bcd_to_bin (regs RTC_MINUTES))
    (rtc_bcd_to_bin (regs RTC_HOURS)) (rtc_bcd_to_bin (regs RTC_DAY))
    (rtc_bcd_to_bin (regs RTC_MONTH)) (u16 (rtc_bcd_to_bin (regs RTC_YEAR) + 2000))
    (rtc_bcd_to_bin (regs RTC_WEEKDAY)).

Lemma rtc_read_time_spec fuel (s : K) l :
  clock_idle fuel l = true ->
  exists l', rtc_read_time fuel s l = Done (decoded, s, l ++ l') /\ forall p, p <> RTC_INDEX_PORT -> sent p l' = [].
Proof.
  intros Hi. unfold rtc_read_time. destruct (wait_settles fuel s l Hi) as (l1 & E & Hs & Hp).
  rewrite (M_bind_done _ _ _ _ _ _ _ E).
  do 7 (rewrite rtc_read_register_bind by
    (first [by vm_compute|by rewrite !settled_read|unfold RTC_SECONDS, RTC_MINUTES, RTC_HOURS, RTC_DAY, RTC_MONTH, RTC_YEAR, RTC_WEEKDAY; lia])).
  rewrite <- !app_assoc. cbn [app]. eexists. split; [reflexivity|].
  intros p Hne. rewrite sent_app, Hp by done. assert ((RTC_INDEX_PORT =? p) = false) as Ep by lia.
  unfold sent. cbn [omap list_omap]. by rewrite !Ep.
Qed.
End rtc_facts.

Lemma rtc_init_spec `{Hw} {K} `{Has Rtc K} regs fuel (s : K) l :
  reads_regs regs -> (forall l, clock_idle fuel l = true) ->
  let b := inb_val (l ++ [EOut RTC_INDEX_PORT RTC_STATUS_B]) RTC_DATA_PORT in
  exists l1 l2, rtc_init fuel s l =
    Done (tt, set_part (MkRtc (rtc_callback (get_part s)) (decoded regs)) s,
      l ++ l1 ++ [EOut RTC_INDEX_PORT RTC_STATUS_B;
        EOut RTC_DATA_PORT (u8 (b .| 0x02 .| 0x04))] ++ l2) /\
    sent RTC_DATA_PORT l2 = [].
Proof.
  intros Hr Hi b. unfold rtc_init, rtc_write_register, set_current_time, mbind, M_bind.
  rewrite read_register_run by (unfold RTC_STATUS_B; lia). fold b.
  pose proof (pic_mask_spec false RTC_IRQ s) as Hm. cbn [negb] in Hm. run. rewrite Hm.
  set (l3 := (l ++ _) ++ _).
  destruct (rtc_read_time_spec regs Hr fuel s l3 (Hi _)) as (l' & Ht & Hs).
  rewrite Ht. unfold modify. unfold l3. rewrite <- !app_assoc.
  eexists [_; _], _. split; [reflexivity|].
  rewrite sent_app, Hs by done. reflexivity.
Qed.

(** ** Properties *)

(** C36. [rtc_read_time] first waits for the end of an update: whatever the
    registers give before a read of status A finds no update in progress (within
    the fuel), the fields it returns are the BCD readings of the registers as
    they are from then on, and for a clock in BCD mode that shows a valid time
    they are that time. (The kernel's own [rtc_init] switches the clock to
    binary mode first: see [rtc_init_misreads].) *)
Theorem rtc_read_time_correct `{Hw} {K} regs fuel (s : K) l :
  reads_regs regs -> clock_idle fuel l = true ->
  exists l', rtc_read_time fuel s l = Done (decoded regs, s, l') /\
    forall t, time_ok t -> clock_shows rtc_bin_to_bcd regs t -> decoded regs = t.
Proof.
  intros Hr Hi. destruct (rtc_read_time_spec regs Hr fuel s l Hi) as (l' & Ht & _).
  exists (l ++ l'). split; [exact Ht|]. intros t Hok (Hs & Hm & Hh & Hd & Hmo & Hy & Hw).
  unfold decoded. rewrite Hs, Hm, Hh, Hd, Hmo, Hy, Hw. unfold time_ok in Hok.
  rewrite !bcd_roundtrip by lia. rewrite u16_id by lia. destruct t; simpl; f_equal; lia.
Qed.

(** [rtc_init] switches the clock to binary mode (bit 2 of status register
    B), yet the driver keeps decoding BCD: of a clock in binary mode that
    shows a valid time, every field that is 16 or more is stored wrong. *)
Theorem rtc_init_misreads `{Hw} {K} `{Has Rtc K} regs t fuel (s : K) l :
  reads_regs regs -> (forall l, clock_idle fuel l = true) ->
  time_ok t -> clock_shows (fun b => b) regs t ->
  exists s' l1 v l2, rtc_init fuel s l =
    Done (tt, s', l1 ++ [EOut RTC_INDEX_PORT RTC_STATUS_B; EOut RTC_DATA_PORT v] ++ l2) /\
    Z.testbit v 2 = true /\ sent RTC_DATA_PORT l2 = [] /\
    minute (current_time (get_part s')) = minute t - 6 * (minute t / 16) /\
    hour (current_time (get_part s')) = hour t - 6 * (hour t / 16) /\
    year (current_time (get_part s')) = year t - 6 * ((year t - 2000) / 16).
Proof.
  intros Hr Hi Hok (Hs & Hm & Hh & Hd & Hmo & Hy & Hwd).
  destruct (rtc_init_spec regs fuel s l Hr Hi) as (l1 & l2 & E & Hl2).
  eexists _, (l ++ l1), _, l2. split; [rewrite E, <- !app_assoc; reflexivity|].
  split; [|split; [exact Hl2|]].
  - unfold u8. rewrite Z.mod_pow2_bits_low by lia. rewrite !Z.lor_spec. apply orb_true_r.
  - rewrite get_set. unfold decoded. cbn [current_time minute hour year]. rewrite Hm, Hh, Hy.
    unfold time_ok in Hok. rewrite !bcd_misread by lia.
    pose proof (Z.div_mod (year t - 2000) 16). pose proof (Z.mod_pos_bound (year t - 2000) 16).
    rewrite u16_id by lia. split_and!; lia.
Qed.

(** The BCD conversions are inverse to each other, in both directions. *)
Theorem rtc_bcd_roundtrip b :
  (0 <= b < 100 -> rtc_bcd_to_bin (rtc_bin_to_bcd b) = b) /\
  (0 <= b < 256 -> b mod 16 < 10 -> rtc_bin_to_bcd (rtc_bcd_to_bin b) = b).
Proof.
  split; [intros; apply bcd_roundtrip; lia|]. revert b.
  refine (forall_below (fun b => b mod 16 < 10 -> rtc_bin_to_bcd (rtc_bcd_to_bin b) = b) 256 _).
  vm_compute. reflexivity.
Qed.

Definition w_regs (r : Z) : Z :=
  if r =? RTC_MINUTES then 0x45 else if r =? RTC_HOURS then 0x23 else
  if r =? RTC_DAY then 0x31 else if r =? RTC_MONTH then 0x12 else
  if r =? RTC_YEAR then 0x25 else if r =? RTC_WEEKDAY then 0x04 else 0.
Definition w_regs_bin (r : Z) : Z :=
  if r =? RTC_MINUTES then 45 else if r =? RTC_HOURS then 23 else
  if r =? RTC_DAY then 31 else if r =? RTC_MONTH then 12 else
  if r =? RTC_YEAR then 25 else if r =? RTC_WEEKDAY then 4 else 0.
Definition w_time : RTCTime := MkRTCTime 0 45 23 31 12 2025 4.

(** A machine whose clock is updating when status A is read for the first time,
    gives 0xFF for a register then, and its registers afterwards. *)
Definition w_hw_rtc (regs : Z -> Z) : Hw := {| hw_in l port :=
  match rev l with
  | EOut _ r :: l0 =>
      if r =? RTC_STATUS_A then (match l0 with EIn _ 0x80 :: _ => 0 | _ => 0x80 end)
      else if settled_rev l0 then regs r else 0xFF
  | _ => 0
  end |}.

Lemma w_reads_regs regs : (forall r, 0 <= regs r < 256) -> @reads_regs (w_hw_rtc regs) regs.
Proof.
  intros Hr l r Hs Hne. unfold inb_val. cbn [hw_in w_hw_rtc]. rewrite rev_app_distr. cbn [rev app].
  rewrite (proj2 (Z.eqb_neq _ _) Hne). unfold settled in Hs. rewrite Hs. by apply u8_id.
Qed.

Lemma w_clock_idle regs l : @clock_idle (w_hw_rtc regs) 2 l = true.
Proof.
  assert (@status_a (w_hw_rtc regs) l = 0 \/ @status_a (w_hw_rtc regs) l = 0x80) as Ha.
  { unfold status_a, inb_val. cbn [hw_in w_hw_rtc]. rewrite rev_app_distr. cbn [rev app]. rewrite Z.eqb_refl.
    repeat case_match; auto. }
  cbn [clock_idle]. destruct Ha as [-> | ->]; [done|]. cbn [tst].
  assert (@status_a (w_hw_rtc regs) (l ++ [EOut RTC_INDEX_PORT RTC_STATUS_A; EIn RTC_DATA_PORT 128]) = 0) as ->; [|done].
  unfold status_a, inb_val. cbn [hw_in w_hw_rtc]. by rewrite !rev_app_distr.
Qed.

Lemma w_regs_range r : 0 <= w_regs r < 256.
Proof. unfold w_regs. repeat case_match; lia. Qed.
Lemma w_regs_bin_range r : 0 <= w_regs_bin r < 256.
Proof. unfold w_regs_bin. repeat case_match; lia. Qed.

Lemma rtc_read_time_correct_witness :
  exists l, rtc_read_time (H := w_hw_rtc w_regs) 2 tt [] = Done (w_time, tt, l).
Proof.
  destruct (rtc_read_time_correct (H := w_hw_rtc w_regs) w_regs 2 tt []) as (l & E & Ht);
    [apply w_reads_regs, w_regs_range|apply w_clock_idle|].
  exists l. rewrite <- (Ht w_time); [exact E|unfold time_ok; simpl; lia|by split_and!].
Defined.

Lemma rtc_init_misreads_witness :
  exists s l, rtc_init (H := w_hw_rtc w_regs_bin) 2 rtc_initial [] = Done (tt, s, l) /\
    minute (current_time s) = 33.
Proof.
  destruct (rtc_init_misreads (H := w_hw_rtc w_regs_bin) w_regs_bin w_time 2 rtc_initial [])
    as (s & l1 & v & l2 & Hi & _ & _ & Hm & _);
    [apply w_reads_regs, w_regs_bin_range|apply w_clock_idle|unfold time_ok; simpl; lia|by split_and!|].
  exists s. eexists. split; [exact Hi|exact Hm].
Defined.

Lemma rtc_bcd_roundtrip_witness :
  rtc_bcd_to_bin (rtc_bin_to_bcd 59) = 59 /\ rtc_bin_to_bcd (rtc_bcd_to_bin 0x59) = 0x59.
Proof. split; [apply rtc_bcd_roundtrip; lia|apply (rtc_bcd_roundtrip 0x59); [lia|reflexivity]]. Defined.
