(* ===== verification/Keymap.v ===== *)
(** * Scancode tables and modifier keys (src/impl/drivers/keyboard/keymap.c) *)
From Stdlib Require Import Ascii.
From S2P Require Export Prelude.

(** ** Definitions *)

Definition KEY_RELEASED := 0x80.
Definition KEY_ESCAPE := 0x01.
Definition KEY_LCTRL := 0x1D.
Definition KEY_RCTRL := 0x1D.
Definition KEY_LSHIFT := 0x2A.
Definition KEY_RSHIFT := 0x36.
Definition KEY_LALT := 0x38.
Definition KEY_RALT := 0x38.
Definition KEY_CAPSLOCK := 0x3A.
Definition KEY_F1 := 0x3B.
Definition KEY_F12 := 0x58.
Definition KEY_NUMLOCK := 0x45.
Definition KEY_SCROLLLOCK := 0x46.
Definition KEY_HOME := 0x47.
Definition KEY_DELETE := 0x53.
Definition KEY_EXTENDED := 0xE0.

(** The bit field; [reserved] is never used. *)
Record KeyboardState := MkKeyboardState {
  shift_pressed : bool;
  ctrl_pressed : bool;
  alt_pressed : bool;
  caps_lock : bool;
  num_lock : bool;
  scroll_lock : bool;
  extended : bool;
}.

Definition kbs_initial : KeyboardState :=
  MkKeyboardState false false false false false false false.

Record SpecialKeyEvent := MkSpecialKeyEvent {
  key_code : Z; is_pressed : bool; event_state : KeyboardState;
}.

Definition ascii_lowercase : list Z :=
  [0; 0] ++ bytes_of "1234567890-=" ++ [8; 9] ++ bytes_of "qwertyuiop[]" ++ [10; 0] ++
  bytes_of "asdfghjkl;'`" ++ [0; 92] ++ bytes_of "zxcvbnm,./" ++ [0] ++ bytes_of "*" ++ [0] ++
  bytes_of " ".

Definition ascii_uppercase : list Z :=
  [0; 0] ++ bytes_of "!@#$%^&*()_+" ++ [8; 9] ++ bytes_of "QWERTYUIOP{}" ++ [10; 0] ++
  bytes_of "ASDFGHJKL:" ++ [34] ++ bytes_of "~" ++ [0] ++ bytes_of "|ZXCVBNM<>?" ++ [0] ++
  bytes_of "*" ++ [0] ++ bytes_of " ".

(** [scancode & ~KEY_RELEASED] as a [uint8_t]. *)
Definition key_of (scancode : Z) : Z := u8 (scancode .& Z.lnot KEY_RELEASED).
Definition is_release (scancode : Z) : bool := tst scancode KEY_RELEASED.

Definition is_special_key (scancode : Z) : bool :=
  let key := key_of scancode in
  ((KEY_F1 <=? key) && (key <=? KEY_F12)) ||
  ((KEY_HOME <=? key) && (key <=? KEY_DELETE)) ||
  (key =? KEY_ESCAPE).

Definition special_event_of (scancode : Z) (state : KeyboardState) : SpecialKeyEvent :=
  MkSpecialKeyEvent (key_of scancode) (negb (is_release scancode)) state.

Definition set_shift (b : bool) (s : KeyboardState) : KeyboardState :=
  MkKeyboardState b (ctrl_pressed s) (alt_pressed s) (caps_lock s) (num_lock s) (scroll_lock s)
    (extended s).
Definition set_ctrl (b : bool) (s : KeyboardState) : KeyboardState :=
  MkKeyboardState (shift_pressed s) b (alt_pressed s) (caps_lock s) (num_lock s) (scroll_lock s)
    (extended s).
Definition set_alt (b : bool) (s : KeyboardState) : KeyboardState :=
  MkKeyboardState (shift_pressed s) (ctrl_pressed s) b (caps_lock s) (num_lock s) (scroll_lock s)
    (extended s).
Definition set_caps (b : bool) (s : KeyboardState) : KeyboardState :=
  MkKeyboardState (shift_pressed s) (ctrl_pressed s) (alt_pressed s) b (num_lock s) (scroll_lock s)
    (extended s).
Definition set_num (b : bool) (s : KeyboardState) : KeyboardState :=
  MkKeyboardState (shift_pressed s) (ctrl_pressed s) (alt_pressed s) (caps_lock s) b (scroll_lock s)
    (extended s).
Definition set_scroll (b : bool) (s : KeyboardState) : KeyboardState :=
  MkKeyboardState (shift_pressed s) (ctrl_pressed s) (alt_pressed s) (caps_lock s) (num_lock s) b
    (extended s).
Definition set_extended (b : bool) (s : KeyboardState) : KeyboardState :=
  MkKeyboardState (shift_pressed s) (ctrl_pressed s) (alt_pressed s) (caps_lock s) (num_lock s)
    (scroll_lock s) b.

Definition update_keyboard_state (scancode : Z) (state : KeyboardState) : KeyboardState :=
  if scancode =? KEY_EXTENDED then set_extended true state
  else
    let key := key_of scancode in
    let released := is_release scancode in
    if extended state then
      let state :=
        if key =? KEY_RCTRL then set_ctrl (negb released) state
        else if key =? KEY_RALT then set_alt (negb released) state
        else state in
      set_extended false state
    else if (key =? KEY_LSHIFT) || (key =? KEY_RSHIFT) then set_shift (negb released) state
    else if key =? KEY_LCTRL then set_ctrl (negb released) state
    else if key =? KEY_LALT then set_alt (negb released) state
    else if key =? KEY_CAPSLOCK then
      if negb released then set_caps (negb (caps_lock state)) state else state
    else if key =? KEY_NUMLOCK then
      if negb released then set_num (negb (num_lock state)) state else state
    else if key =? KEY_SCROLLLOCK then
      if negb released then set_scroll (negb (scroll_lock state)) state else state
    else state.

Definition scancode_to_ascii (scancode : Z) (state : KeyboardState) : Z :=
  let key := key_of scancode in
  if is_release scancode || extended state then 0
  else if Z.of_nat (length ascii_lowercase) <=? key then 0
  else
    let lower := default 0 (ascii_lowercase !! Z.to_nat key) in
    let base := lower in
    if ctrl_pressed state && (0x1E <=? key) && (key <=? 0x39) &&
       (chr "a" <=? base) && (base <=? chr "z")
    then base - chr "a" + 1
    else
      let use_uppercase :=
        (shift_pressed state || caps_lock state) && negb (shift_pressed state && caps_lock state) in
      if use_uppercase then default 0 (ascii_uppercase !! Z.to_nat key) else lower.

(** ** What a sequence of scancodes means

    The keys pressed and released: whether it is an extended key, its code,
    and whether it was pressed. *)
Fixpoint key_events (ext : bool) (codes : list Z) : list (bool * Z * bool) :=
  match codes with
  | [] => []
  | c :: codes =>
      if c =? KEY_EXTENDED then key_events true codes
      else (ext, key_of c, negb (is_release c)) :: key_events false codes
  end.

(** Whether the last event of one of the [keys] was a press; [b] if there was none. *)
Definition last_press (keys : list (bool * Z)) (b : bool) (evs : list (bool * Z * bool)) : bool :=
  foldl (fun b '(k, pressed) => if decide (k ∈ keys) then pressed else b) b evs.

(** [b] toggled at each press of [key]. *)
Definition toggled (key : Z) (b : bool) (evs : list (bool * Z * bool)) : bool :=
  foldl (fun b '(k, pressed) => if decide (k = (false, key)) then xorb b pressed else b) b evs.

(** The modifier state that the last events of the keys from [s] on say. *)
Definition modifiers (s : KeyboardState) (evs : list (bool * Z * bool)) (ext : bool) : KeyboardState :=
  MkKeyboardState
    (last_press [(false, KEY_LSHIFT); (false, KEY_RSHIFT)] (shift_pressed s) evs)
    (last_press [(false, KEY_LCTRL); (true, KEY_RCTRL)] (ctrl_pressed s) evs)
    (last_press [(false, KEY_LALT); (true, KEY_RALT)] (alt_pressed s) evs)
    (toggled KEY_CAPSLOCK (caps_lock s) evs)
    (toggled KEY_NUMLOCK (num_lock s) evs)
    (toggled KEY_SCROLLLOCK (scroll_lock s) evs)
    ext.

(** One scancode that is not the prefix. *)
Lemma update_one c s :
  c <> KEY_EXTENDED ->
  update_keyboard_state c s =
  modifiers s [(extended s, key_of c, negb (is_release c))] false.
Proof.
  intros Hc. unfold update_keyboard_state. rewrite (proj2 (Z.eqb_neq _ _) Hc).
  generalize (key_of c) as k, (negb (is_release c)) as p. intros k p.
  unfold modifiers, last_press, toggled. cbn [foldl].
  destruct s as [sh ct al ca nu sc []]; cbn [extended set_extended set_ctrl set_alt set_shift
    set_caps set_num set_scroll shift_pressed ctrl_pressed alt_pressed caps_lock num_lock scroll_lock];
  unfold KEY_RCTRL, KEY_RALT, KEY_LSHIFT, KEY_RSHIFT, KEY_LCTRL, KEY_LALT, KEY_CAPSLOCK, KEY_NUMLOCK,
    KEY_SCROLLLOCK.
  all: destruct (decide (k ∈ [0x1D; 0x38; 0x2A; 0x36; 0x3A; 0x45; 0x46])) as [Hin|Hout].
  all: try (rewrite !elem_of_cons in Hin; destruct_or! Hin; subst; [..|by apply elem_of_nil in Hin];
            destruct p; simpl; by rewrite ?xorb_true_r, ?xorb_false_r).
  all: rewrite !not_elem_of_cons in Hout; destruct_and! Hout; decide_lia; cbn [orb];
    rewrite !decide_False by (rewrite ?elem_of_cons, ?elem_of_nil; intuition congruence);
    reflexivity.
Qed.

Lemma modifiers_app s evs1 evs2 e1 e2 :
  modifiers (modifiers s evs1 e1) evs2 e2 = modifiers s (evs1 ++ evs2) e2.
Proof. unfold modifiers, last_press, toggled. cbn. by rewrite !foldl_app. Qed.

Lemma modifiers_nil s : modifiers s [] (extended s) = s.
Proof. by destruct s. Qed.

(** Whether a prefix is pending after the codes. *)
Definition pending (ext : bool) (codes : list Z) : bool :=
  foldl (fun _ c => c =? KEY_EXTENDED) ext codes.

Lemma update_many codes s :
  foldl (fun s c => update_keyboard_state c s) s codes =
  modifiers s (key_events (extended s) codes) (pending (extended s) codes).
Proof.
  unfold pending. revert s. induction codes as [|c codes IH]; intros s; cbn [foldl key_events].
  - by rewrite modifiers_nil.
  - rewrite IH. destruct (Z.eqb_spec c KEY_EXTENDED) as [->|Hc].
    + by destruct s.
    + rewrite update_one by done. cbn [extended modifiers]. by rewrite modifiers_app.
Qed.

(** *** Keys that are down *)

Definition shift_keys : list (bool * Z) := [(false, KEY_LSHIFT); (false, KEY_RSHIFT)].
Definition ctrl_keys : list (bool * Z) := [(false, KEY_LCTRL); (true, KEY_RCTRL)].
Definition alt_keys : list (bool * Z) := [(false, KEY_LALT); (true, KEY_RALT)].

(** Whether the key [k] is down after the events, all keys being up before. *)
Definition is_down (evs : list (bool * Z * bool)) (k : bool * Z) : bool :=
  foldl (fun b '(k', pressed) => if decide (k' = k) then pressed else b) false evs.

(** Whether one of the [keys] is. *)
Definition held (keys : list (bool * Z)) (evs : list (bool * Z * bool)) : bool := existsb (is_down evs) keys.

(** Of two keys that do the same, one is not touched while the other is down. *)
Fixpoint one_at_a_time (keys : list (bool * Z)) (before evs : list (bool * Z * bool)) : bool :=
  match evs with
  | [] => true
  | (k, pressed) :: evs =>
      implb (bool_decide (k ∈ keys)) (forallb (fun k' => bool_decide (k' = k) || negb (is_down before k')) keys) &&
      one_at_a_time keys (before ++ [(k, pressed)]) evs
  end.

Lemma is_down_snoc evs k pressed k' :
  is_down (evs ++ [(k, pressed)]) k' = if decide (k = k') then pressed else is_down evs k'.
Proof. unfold is_down. by rewrite foldl_app. Qed.

Lemma held_snoc_in keys evs k pressed :
  k ∈ keys -> forallb (fun k' => bool_decide (k' = k) || negb (is_down evs k')) keys = true ->
  held keys (evs ++ [(k, pressed)]) = pressed.
Proof.
  intros Hk Ho. rewrite forallb_forall in Ho. unfold held. apply eq_true_iff_eq. rewrite existsb_exists. split.
  - intros (k' & Hin & Hd). rewrite is_down_snoc in Hd. case_decide as E; [done|].
    specialize (Ho k' Hin). rewrite bool_decide_false, Hd in Ho by done. discriminate.
  - intros ->. exists k. split; [by apply list_elem_of_In|]. rewrite is_down_snoc. by case_decide.
Qed.

Lemma held_snoc_out keys evs k pressed : k ∉ keys -> held keys (evs ++ [(k, pressed)]) = held keys evs.
Proof.
  intros Hk. unfold held. induction keys as [|k' keys IH]; [done|]. cbn [existsb].
  apply not_elem_of_cons in Hk as [Hne Hk]. rewrite is_down_snoc, decide_False, IH by done. done.
Qed.

(** Then the last event of any of the keys says whether one of them is down. *)
Lemma last_press_held keys before evs :
  one_at_a_time keys before evs = true -> last_press keys (held keys before) evs = held keys (before ++ evs).
Proof.
  revert before. induction evs as [|[k pressed] evs IH]; intros before Ho; [by rewrite app_nil_r|].
  cbn [one_at_a_time] in Ho. apply andb_true_iff in Ho as [Hk Ho]. specialize (IH _ Ho).
  rewrite <- app_assoc in IH. cbn [app] in IH. rewrite <- IH. unfold last_press at 1. cbn [foldl].
  fold (last_press keys (if decide (k ∈ keys) then pressed else held keys before) evs). f_equal.
  case_decide as E; [rewrite bool_decide_true in Hk by done; by rewrite held_snoc_in|by rewrite held_snoc_out].
Qed.

Lemma last_press_up keys evs : one_at_a_time keys [] evs = true -> last_press keys false evs = held keys evs.
Proof.
  intros Ho. rewrite <- (app_nil_l evs) at 2. rewrite <- last_press_held by done. f_equal.
  clear Ho. unfold held. by induction keys.
Qed.

(** The character of a key. *)
Definition lower_of (key : Z) : Z := default 0 (ascii_lowercase !! Z.to_nat key).
Definition upper_of (key : Z) : Z := default 0 (ascii_uppercase !! Z.to_nat key).
Definition is_letter (c : Z) : bool := (chr "a" <=? c) && (c <=? chr "z").

Lemma key_of_press key : 0 <= key < 128 -> key_of key = key /\ is_release key = false.
Proof.
  revert key. refine (forall_below (fun key => key_of key = key /\ is_release key = false) 128 _).
  vm_compute. reflexivity.
Qed.

Lemma release_bit key : 0 <= key < 58 -> is_release (key + 128) = true.
Proof.
  revert key. refine (forall_below (fun key => is_release (key + 128) = true) 58 _).
  vm_compute. reflexivity.
Qed.

Lemma upper_of_letter key :
  0 <= key < 58 -> is_letter (lower_of key) = true -> upper_of key = lower_of key - 32.
Proof.
  revert key.
  refine (forall_below (fun key => is_letter (lower_of key) = true -> upper_of key = lower_of key - 32)
    58 _). vm_compute. reflexivity.
Qed.

(** ** Properties *)

(** C33. After any sequence of scancodes in which, of the two keys of Shift, of
    Ctrl and of Alt, one is not pressed or released while the other is down,
    Shift, Ctrl and Alt are set exactly when one of their keys is down (left or
    right, the right ones with the extended prefix), each lock key is toggled
    once per press, and only a trailing prefix leaves [extended] set. (With both
    keys of a pair down, releasing one clears the state: [two_shifts_misread].) *)
Theorem keyboard_state_tracks_keys codes :
  let evs := key_events false codes in
  one_at_a_time shift_keys [] evs = true -> one_at_a_time ctrl_keys [] evs = true -> one_at_a_time alt_keys [] evs = true ->
  foldl (fun s c => update_keyboard_state c s) kbs_initial codes =
  MkKeyboardState (held shift_keys evs) (held ctrl_keys evs) (held alt_keys evs)
    (toggled KEY_CAPSLOCK false evs) (toggled KEY_NUMLOCK false evs) (toggled KEY_SCROLLLOCK false evs)
    (pending false codes).
Proof.
  intros evs Hs Hc Ha. rewrite update_many. unfold modifiers. fold shift_keys ctrl_keys alt_keys.
  cbn [kbs_initial shift_pressed ctrl_pressed alt_pressed caps_lock num_lock scroll_lock extended]. fold evs.
  by rewrite !last_press_up.
Qed.

(** Both Shift keys down and the left one released: the right one is down, but
    Shift is not set. *)
Theorem two_shifts_misread :
  let codes := [KEY_LSHIFT; KEY_RSHIFT; KEY_LSHIFT + KEY_RELEASED] in
  is_down (key_events false codes) (false, KEY_RSHIFT) = true /\
  shift_pressed (foldl (fun s c => update_keyboard_state c s) kbs_initial codes) = false.
Proof. by vm_compute. Qed.

(** The character of a pressed key of the main block: Shift and Caps Lock cancel
    each other and choose the table; Ctrl gives the control code 1-26 of a
    letter, but only for keys from 0x1E on, so the letters of the top row (Q
    to P) stay plain letters under Ctrl; a letter's upper case is the ASCII
    one; a release has no character. *)
Theorem scancode_to_ascii_spec key s :
  0 <= key < 58 -> extended s = false ->
  let c := lower_of key in
  scancode_to_ascii key s =
    (if ctrl_pressed s && (0x1E <=? key) && is_letter c then c - 96
     else if xorb (shift_pressed s) (caps_lock s)
          then (if is_letter c then c - 32 else upper_of key) else c) /\
  scancode_to_ascii (key + 128) s = 0.
Proof.
  intros Hk He c. destruct (key_of_press key ltac:(lia)) as [Hko Hr]. split.
  - unfold scancode_to_ascii. rewrite Hko, Hr, He. cbn [orb].
    change (Z.of_nat (length ascii_lowercase)) with 58. decide_lia.
    fold (lower_of key). fold (upper_of key). fold c.
    replace (key <=? 0x39) with true by lia. rewrite andb_true_r.
    unfold is_letter in *. rewrite <- !andb_assoc.
    destruct (ctrl_pressed s && ((30 <=? key) && ((chr "a" <=? c) && (c <=? chr "z")))) eqn:E.
    + change (chr "a") with 97. lia.
    + pose proof (upper_of_letter key Hk) as Hu. unfold is_letter in Hu. fold c in Hu.
      destruct (shift_pressed s), (caps_lock s); cbn [orb andb negb xorb]; try done;
        destruct (_ && (c <=? chr "z")); auto.
  - unfold scancode_to_ascii. by rewrite release_bit.
Qed.

(** Although [scancode_to_ascii] means to ignore extended keys, the prefix is
    always consumed before the character is looked up, so an extended key
    gives the character of the plain key with the same code. *)
Theorem extended_prefix_ignored key s :
  0 <= key < 256 -> key <> KEY_EXTENDED -> extended s = false ->
  scancode_to_ascii key (update_keyboard_state key (update_keyboard_state KEY_EXTENDED s)) =
  scancode_to_ascii key (update_keyboard_state key s).
Proof.
  intros Hk Hne He. destruct s as [sh ct al ca nu sc ex]. cbn in He. subst ex.
  revert key Hk Hne.
  refine (forall_below (fun key => key <> KEY_EXTENDED ->
    scancode_to_ascii key (update_keyboard_state key (update_keyboard_state KEY_EXTENDED
      (MkKeyboardState sh ct al ca nu sc false))) =
    scancode_to_ascii key (update_keyboard_state key (MkKeyboardState sh ct al ca nu sc false))) 256 _).
  destruct sh, ct, al, ca, nu, sc; vm_compute; reflexivity.
Qed.

(** Left Shift down and up, right Shift down, right Ctrl down. *)
Lemma keyboard_state_tracks_keys_witness :
  foldl (fun s c => update_keyboard_state c s) kbs_initial [0x2A; 0xAA; 0x36; 0xE0; 0x1D] =
  MkKeyboardState true true false false false false false.
Proof.
  rewrite (keyboard_state_tracks_keys [0x2A; 0xAA; 0x36; 0xE0; 0x1D]); [reflexivity|by vm_compute..].
Defined.

Lemma scancode_to_ascii_spec_witness :
  scancode_to_ascii 0x1E (set_ctrl true kbs_initial) = 1 /\
  scancode_to_ascii 0x10 (set_ctrl true kbs_initial) = 113.
Proof.
  split.
  - apply (scancode_to_ascii_spec 0x1E (set_ctrl true kbs_initial)); [lia|reflexivity].
  - apply (scancode_to_ascii_spec 0x10 (set_ctrl true kbs_initial)); [lia|reflexivity].
Defined.

Lemma extended_prefix_ignored_witness :
  scancode_to_ascii 0x35 (update_keyboard_state 0x35 (update_keyboard_state KEY_EXTENDED kbs_initial)) = 47.
Proof.
  rewrite (extended_prefix_ignored 0x35 kbs_initial ltac:(lia) ltac:(discriminate) eq_refl).
  reflexivity.
Defined.
