(* ===== verification/Storage.v ===== *)
(** * Storage devices (src/impl/drivers/storage/storage.c, storage.h)

    The registry is the array of 16 device pointers and their number; the
    devices and their operation tables, which belong to the drivers, are maps
    from addresses. Messages are built with [sprintf] ([render] of Format.v). *)
From Stdlib Require Import Ascii.
From S2P Require Export Slots Ps2.

(** ** Definitions *)

Definition MAX_STORAGE_DEVICES := 16.
Definition STORAGE_TYPE_IDE := 1.
Definition STORAGE_TYPE_AHCI := 2.
Definition STORAGE_TYPE_NVME := 3.
Definition STORAGE_TYPE_RAMDISK := 4.
Definition STORAGE_FLAG_REMOVABLE := 0x01.
Definition STORAGE_FLAG_READONLY := 0x02.
Definition STORAGE_FLAG_BOOT := 0x04.

Record StorageDeviceInfo := MkInfo {
  i_name : list Z;
  i_type : Z;
  i_flags : Z;
  total_sectors : Z;
  sector_size : Z;
  max_transfer : Z;
  model : list Z;
  serial : list Z;
  firmware : list Z;
}.

(** The operations of a device; 0 is a null pointer. *)
Record StorageDeviceOps := MkDevOps {
  dev_init : Z;
  dev_read_sectors : Z;
  dev_write_sectors : Z;
  dev_flush : Z;
  dev_cleanup : Z;
}.

Record StorageDevice := MkDevice { info : StorageDeviceInfo; dev_ops : Z; private_data : Z }.

Record Storage := MkStorage {
  device_at : gmap Z StorageDevice;
  ops_at : gmap Z StorageDeviceOps;
  devices : list Z;
  num_devices : Z;
}.

Definition set_registry (d : list Z) (n : Z) (s : Storage) : Storage :=
  MkStorage (device_at s) (ops_at s) d n.

(** The pointer tested by [dev->ops && dev->ops->op]; 0 when the test fails. *)
Definition dev_op (s : Storage) (op : StorageDeviceOps -> Z) (dev : Z) : option Z :=
  d ← device_at s !! dev;
  if dev_ops d =? 0 then Some 0 else o ← ops_at s !! dev_ops d; Some (op o).

(** A line built with [sprintf] in an array of [size] characters: a longer text
    is stored past its end. *)
Definition message {K} (size : Z) (fmt : string) (args : list farg) : M K (list Z) :=
  t ← some (render (bytes_of fmt ++ [10]) args);
  if Z.of_nat (length t) <? size then mret t else undef.

Definition storage_type_to_string (type : Z) : list Z :=
  if type =? STORAGE_TYPE_IDE then bytes_of "IDE"
  else if type =? STORAGE_TYPE_AHCI then bytes_of "AHCI"
  else if type =? STORAGE_TYPE_NVME then bytes_of "NVMe"
  else if type =? STORAGE_TYPE_RAMDISK then bytes_of "RAM Disk"
  else bytes_of "Unknown".

(** The format of [storage_print_device_info] and its arguments. *)
Definition info_format : list Z :=
  bytes_of "Storage Device Information:" ++ [10] ++ bytes_of "  Name: %s" ++ [10] ++
  bytes_of "  Type: %s" ++ [10] ++ bytes_of "  Flags: %s%s%s" ++ [10] ++
  bytes_of "  Capacity: %llu sectors (%llu bytes)" ++ [10] ++ bytes_of "  Sector Size: %u bytes" ++ [10] ++
  bytes_of "  Model: %s" ++ [10] ++ bytes_of "  Serial: %s" ++ [10] ++ bytes_of "  Firmware: %s" ++ [10].

Definition info_args (i : StorageDeviceInfo) : list farg :=
  let flag mask s := FStr (if tst (i_flags i) mask then bytes_of s else []) in
  [ FStr (i_name i); FStr (storage_type_to_string (i_type i));
    flag STORAGE_FLAG_REMOVABLE "Removable "%string; flag STORAGE_FLAG_READONLY "ReadOnly "%string;
    flag STORAGE_FLAG_BOOT "Boot "%string;
    FInt (total_sectors i); FInt (u64 (total_sectors i * sector_size i)); FInt (sector_size i);
    FStr (model i); FStr (serial i); FStr (firmware i) ].

Section storage.
Context `{Hw} {K : Type} `{Has Storage K} `{Code K}.
Context (fuel : nat).

Definition say (t : list Z) : M K unit := serial_write_string fuel COM1_PORT t.

Definition storage_init : M K unit :=
  say (line "[STORAGE] Initializing storage subsystem...");;
  modify (set_registry (replicate 16 0) 0);;
  say (line "[STORAGE] Storage subsystem initialized").

Definition storage_register_device (dev : Z) : M K Z :=
  if dev =? 0 then say (line "[STORAGE] Error: Cannot register NULL device");; mret (-1)
  else
    s ← gets id;
    if MAX_STORAGE_DEVICES <=? num_devices s then
      say (line "[STORAGE] Error: Maximum number of devices reached");; mret (-1)
    else
      init ← some (dev_op s dev_init dev);
      result ← (if init =? 0 then mret 0 else r ← call init [dev]; mret (i32 r));
      if negb (result =? 0) then
        error_msg ← message 64 "[STORAGE] Error: Device initialization failed: %d" [FInt result];
        say error_msg;; mret result
      else
        modify (fun s => set_registry (<[Z.to_nat (num_devices s) := dev]> (devices s)) (num_devices s + 1) s);;
        s ← gets id;
        d ← some (device_at s !! dev);
        info_msg ← message 128 "[STORAGE] Registered device: %s (%s)"
                     [FStr (i_name (info d)); FStr (storage_type_to_string (i_type (info d)))];
        say info_msg;; mret 0.

Definition storage_unregister_device (dev : Z) : M K unit :=
  if dev =? 0 then mret tt
  else
    s ← gets id;
    match list_find (fun d => d = dev) (take (Z.to_nat (num_devices s)) (devices s)) with
    | None => mret tt
    | Some (i, _) =>
        cleanup ← some (dev_op s dev_cleanup dev);
        (if cleanup =? 0 then mret tt else call_void cleanup [dev]);;
        modify (fun s =>
          let n := num_devices s - 1 in
          set_registry (<[Z.to_nat n := 0]> (shift_down (Z.to_nat n - i) i (devices s))) n s);;
        s ← gets id;
        d ← some (device_at s !! dev);
        info_msg ← message 64 "[STORAGE] Unregistered device: %s" [FStr (i_name (info d))];
        say info_msg
    end.

(** The first device of [ds] with the name; 0 when there is none. *)
Fixpoint find_device (s : Storage) (ds : list Z) (name : list Z) : option Z :=
  match ds with
  | [] => Some 0
  | d :: ds =>
      if d =? 0 then find_device s ds name
      else
        x ← device_at s !! d;
        if decide (i_name (info x) = name) then Some d else find_device s ds name
  end.

(** [name] is [None] for a null pointer, or the string's characters. *)
Definition storage_get_device (name : option (list Z)) : M K Z :=
  match name with
  | None => mret 0
  | Some name =>
      s ← gets id;
      some (find_device s (take (Z.to_nat (num_devices s)) (devices s)) name)
  end.

(** The count and what is stored in the caller's array; [has_list] tells whether
    the pointer is not null. *)
Definition storage_get_device_list (has_list : bool) (max_devices : Z) : M K (Z * list StorageDeviceInfo) :=
  if negb has_list || (max_devices <=? 0) then mret (0, [])
  else
    s ← gets id;
    let count := if num_devices s <? max_devices then num_devices s else max_devices in
    infos ← some (mapM (fun d => info <$> device_at s !! d) (take (Z.to_nat count) (devices s)));
    mret (count, infos).

(** A rendering that reads a number as a string pointer is undefined. *)
Definition storage_print_device_info (info : option StorageDeviceInfo) : M K unit :=
  match info with
  | None => mret tt
  | Some info =>
      buffer ← some (render info_format (info_args info));
      say buffer
  end.

Definition storage_probe_devices : M K Z :=
  say (line "[STORAGE] Probing for storage devices...");;
  n ← gets num_devices;
  info_msg ← message 64 "[STORAGE] Found %d storage devices" [FInt n];
  say info_msg;;
  s ← gets id;
  mret (default 0 (devices s !! 0%nat)).
End storage.

(** ** The abstract registry: the list of the registered devices *)

Definition registered (s : Storage) : list Z := take (Z.to_nat (num_devices s)) (devices s).

Record storage_ok (s : Storage) : Prop := {
  so_length : length (devices s) = 16%nat;
  so_num : 0 <= num_devices s <= MAX_STORAGE_DEVICES;
  so_known : Forall (fun d => d <> 0 /\ is_Some (device_at s !! d)) (registered s);
}.

Lemma storage_ok_device s d :
  storage_ok s -> d ∈ registered s -> d <> 0 /\ is_Some (device_at s !! d).
Proof. intros [_ _ Hk] Hd. rewrite Forall_forall in Hk. by apply Hk. Qed.

Lemma registered_add s dev :
  storage_ok s -> num_devices s < MAX_STORAGE_DEVICES ->
  registered (set_registry (<[Z.to_nat (num_devices s) := dev]> (devices s)) (num_devices s + 1) s) =
  registered s ++ [dev].
Proof.
  unfold MAX_STORAGE_DEVICES. intros [Hl Hn _] Hlt. unfold registered. cbn [num_devices devices set_registry].
  replace (Z.to_nat (num_devices s + 1)) with (S (Z.to_nat (num_devices s))) by lia.
  apply slots_push. lia.
Qed.

(** The first device with the name, when every device is known. *)
Lemma find_device_spec s ds name :
  Forall (fun d => d <> 0 /\ is_Some (device_at s !! d)) ds ->
  find_device s ds name =
  Some (match list_find (fun d => (i_name ∘ info <$> device_at s !! d) = Some name) ds with
        | Some (_, d) => d
        | None => 0
        end).
Proof.
  induction 1 as [|d ds [Hd [x Hx]] Hds IH]; [done|]. simpl. decide_lia. rewrite Hx. simpl.
  repeat case_decide; try done; [congruence|congruence|]. rewrite IH.
  by destruct (list_find _ ds) as [[i y]|].
Qed.

(** *** The messages *)

Lemma message_fits {K A} size fmt args t (f : list Z -> M K A) (s : K) l :
  render (bytes_of fmt ++ [10]) args = Some t -> Z.of_nat (length t) < size ->
  (message size fmt args ≫= f) s l = f t s l.
Proof. intros E Hl. unfold message. rewrite M_bind_assoc, E, some_bind. by decide_lia. Qed.

Lemma message_overruns {K A} size fmt args t (f : list Z -> M K A) (s : K) l :
  render (bytes_of fmt ++ [10]) args = Some t -> size <= Z.of_nat (length t) ->
  (message size fmt args ≫= f) s l = Undef.
Proof. intros E Hl. unfold message. rewrite M_bind_assoc, E, some_bind. by decide_lia. Qed.

(** The prefix of the error message has 48 characters: a number of at most ten
    digits fits, but a negative result is printed as an unsigned 64-bit number. *)
Lemma error_msg_render r :
  render (bytes_of "[STORAGE] Error: Device initialization failed: %d" ++ [10]) [FInt r] =
  Some (bytes_of "[STORAGE] Error: Device initialization failed: " ++ num_string (u64 (i32 r)) 10 0 (chr " ") ++ [10]).
Proof. reflexivity. Qed.

Lemma error_msg_fits r :
  0 <= r < 2 ^ 31 -> (length (num_string (u64 (i32 r)) 10 0 (chr " ")) <= 10)%nat.
Proof. intros. rewrite i32_id, u64_id by lia. apply num_string_length_le; simpl Z.of_nat; lia. Qed.

Lemma error_msg_overruns r :
  - 2 ^ 31 <= r < 0 -> (15 < length (num_string (u64 (i32 r)) 10 0 (chr " ")))%nat.
Proof.
  intros. rewrite i32_id by lia. apply num_string_length_gt; [lia|]. split; [|apply u64_range].
  unfold u64. rewrite <- (Z_mod_plus_full _ 1), Z.mod_small; simpl Z.of_nat; lia.
Qed.

(** A device's name is an array of 32 characters. *)
Definition names_fit (s : Storage) : Prop :=
  map_Forall (fun _ d => (length (i_name (info d)) < 32)%nat) (device_at s).

Lemma registered_msg_render i :
  render (bytes_of "[STORAGE] Registered device: %s (%s)" ++ [10])
    [FStr (i_name i); FStr (storage_type_to_string (i_type i))] =
  Some (bytes_of "[STORAGE] Registered device: " ++ i_name i ++ bytes_of " (" ++
    storage_type_to_string (i_type i) ++ bytes_of ")" ++ [10]).
Proof. reflexivity. Qed.

Lemma storage_type_to_string_length type : (length (storage_type_to_string type) <= 8)%nat.
Proof. unfold storage_type_to_string. repeat (case_match; [simpl; lia|]). simpl; lia. Qed.

Lemma unregistered_msg_render i :
  render (bytes_of "[STORAGE] Unregistered device: %s" ++ [10]) [FStr (i_name i)] =
  Some (bytes_of "[STORAGE] Unregistered device: " ++ i_name i ++ [10]).
Proof. reflexivity. Qed.

(** The operation [f] of device [dev] is missing, or the call of it returns [r];
    it may do anything but change the registry or forget another device. *)
Record answers `{Has Storage K} `{Code K} (f dev : Z) (s : K) (l : log) (r : Z) (s1 : K) (l1 : log) : Prop := {
  an_call : (if f =? 0 then mret 0 else call f [dev]) s l = Done (r, s1, l1);
  an_devices : devices (get_part s1) = devices (get_part s);
  an_num : num_devices (get_part s1) = num_devices (get_part s);
  an_known : forall p, p <> dev -> is_Some (device_at (get_part s) !! p) -> is_Some (device_at (get_part s1) !! p);
}.

Section refine.
Context `{Hw} {K : Type} `{Has Storage K} `{Code K}.
Context (fuel : nat) (Hready : always_ready tx_empty fuel (COM1_PORT + 5)).

Lemma say_spec str (s : K) l :
  exists l', prints l l' /\ say fuel str s l = Done (tt, s, l').
Proof. apply (print_last fuel Hready). Qed.

Lemma answers_registered f dev (s : K) l r s1 l1 :
  answers f dev s l r s1 l1 -> registered (get_part s1) = registered (get_part s).
Proof. intros [_ Hd Hn _]. unfold registered. by rewrite Hd, Hn. Qed.

Lemma answers_ok f dev (s : K) l r s1 l1 :
  answers f dev s l r s1 l1 -> storage_ok (get_part s) -> dev <> 0 -> is_Some (device_at (get_part s1) !! dev) ->
  storage_ok (get_part s1).
Proof.
  intros Ha [Hl Hn Hk] Hdev Hd. pose proof (answers_registered _ _ _ _ _ _ _ Ha) as Hreg.
  destruct Ha as [_ Hds Hnum Hkn]. split; [by rewrite Hds|by rewrite Hnum|].
  rewrite Hreg. apply (Forall_impl _ _ _ Hk). intros p [Hp Hsome]. split; [done|].
  destruct (decide (p = dev)) as [->|Hne]; [done|]. by apply Hkn.
Qed.

(** The kernel after a device was added. *)
Definition added (dev : Z) (s : K) : K :=
  let r := get_part s in
  set_part (set_registry (<[Z.to_nat (num_devices r) := dev]> (devices r)) (num_devices r + 1) r) s.

Lemma register_full dev (s : K) l :
  dev <> 0 -> MAX_STORAGE_DEVICES <= num_devices (get_part s) ->
  exists l', prints l l' /\ storage_register_device fuel dev s l = Done (-1, s, l').
Proof.
  intros Hdev Hn. unfold storage_register_device, say. decide_lia. rewrite gets_bind. unfold id. decide_lia.
  step_print Hready. by exists l0.
Qed.

(** [storage_register_device] after the call of [init]. *)
Lemma register_called dev f (s : K) l r s1 l1 :
  dev <> 0 -> num_devices (get_part s) < MAX_STORAGE_DEVICES -> dev_op (get_part s) dev_init dev = Some f ->
  answers f dev s l r s1 l1 -> - 2 ^ 31 <= r < 2 ^ 31 ->
  storage_register_device fuel dev s l =
    (if negb (r =? 0) then
       error_msg ← message 64 "[STORAGE] Error: Device initialization failed: %d" [FInt r];
       say fuel error_msg;; mret r
     else
       modify (fun s => set_registry (<[Z.to_nat (num_devices s) := dev]> (devices s)) (num_devices s + 1) s);;
       s ← gets id;
       d ← some (device_at s !! dev);
       info_msg ← message 128 "[STORAGE] Registered device: %s (%s)"
                    [FStr (i_name (info d)); FStr (storage_type_to_string (i_type (info d)))];
       say fuel info_msg;; mret 0) s1 l1.
Proof.
  intros Hdev Hn Hf Ha Hr. unfold storage_register_device. decide_lia. rewrite gets_bind. unfold id at 1. decide_lia.
  unfold id. rewrite Hf, some_bind.
  assert ((if f =? 0 then mret 0 else r ← call f [dev]; mret (i32 r)) s l = Done (r, s1, l1)) as Hc.
  { pose proof (an_call _ _ _ _ _ _ _ Ha) as E. destruct (f =? 0); [done|].
    rewrite (M_bind_done _ _ _ _ _ _ _ E). by rewrite i32_id. }
  by rewrite (M_bind_done _ _ _ _ _ _ _ Hc).
Qed.

Lemma register_run dev f d (s : K) l s1 l1 :
  dev <> 0 -> num_devices (get_part s) < MAX_STORAGE_DEVICES -> dev_op (get_part s) dev_init dev = Some f ->
  answers f dev s l 0 s1 l1 -> device_at (get_part s1) !! dev = Some d -> (length (i_name (info d)) < 32)%nat ->
  exists l', prints l1 l' /\ storage_register_device fuel dev s l = Done (0, added dev s1, l').
Proof.
  intros Hdev Hn Hf Ha Hd Hname. rewrite (register_called dev f s l 0 s1 l1) by (done || lia). cbn [Z.eqb negb].
  rewrite modify_bind, gets_bind, get_set. unfold id. cbn [device_at set_registry]. rewrite Hd, some_bind.
  erewrite message_fits; [|apply registered_msg_render|].
  2:{ pose proof (storage_type_to_string_length (i_type (info d))). rewrite !length_app. simpl. lia. }
  unfold say. step_print Hready. by exists l0.
Qed.

Lemma register_error dev f (s : K) l r s1 l1 :
  dev <> 0 -> num_devices (get_part s) < MAX_STORAGE_DEVICES -> dev_op (get_part s) dev_init dev = Some f ->
  answers f dev s l r s1 l1 -> 0 < r < 2 ^ 31 ->
  exists l', prints l1 l' /\ storage_register_device fuel dev s l = Done (r, s1, l').
Proof.
  intros Hdev Hn Hf Ha Hr. rewrite (register_called dev f s l r s1 l1) by (done || lia). decide_lia. cbn [negb].
  erewrite message_fits; [|apply error_msg_render|].
  2:{ pose proof (error_msg_fits r). rewrite !length_app. simpl. lia. }
  unfold say. step_print Hready. by exists l0.
Qed.

Lemma register_negative dev f (s : K) l r s1 l1 :
  dev <> 0 -> num_devices (get_part s) < MAX_STORAGE_DEVICES -> dev_op (get_part s) dev_init dev = Some f ->
  answers f dev s l r s1 l1 -> - 2 ^ 31 <= r < 0 -> storage_register_device fuel dev s l = Undef.
Proof.
  intros Hdev Hn Hf Ha Hr. rewrite (register_called dev f s l r s1 l1) by (done || lia). decide_lia. cbn [negb].
  eapply message_overruns; [apply error_msg_render|].
  pose proof (error_msg_overruns r). rewrite !length_app. simpl. lia.
Qed.

Lemma added_registered dev d (s : K) :
  storage_ok (get_part s) -> num_devices (get_part s) < MAX_STORAGE_DEVICES -> dev <> 0 ->
  device_at (get_part s) !! dev = Some d ->
  registered (get_part (added dev s)) = registered (get_part s) ++ [dev] /\ storage_ok (get_part (added dev s)).
Proof.
  intros Hok Hlt Hdev Hd. pose proof Hok as [Hl Hn Hk]. unfold MAX_STORAGE_DEVICES in *. unfold added. rewrite get_set.
  rewrite registered_add by done. split; [done|]. split.
  - cbn [devices set_registry]. by rewrite length_insert.
  - cbn [num_devices set_registry]. unfold MAX_STORAGE_DEVICES. lia.
  - rewrite registered_add by done. apply Forall_app. split; [done|]. constructor; [|done]. split; [done|]. by exists d.
Qed.

(** [storage_unregister_device] after the call of [cleanup]. *)
Lemma unregister_called dev f i x (s : K) l r s1 l1 :
  dev <> 0 -> list_find (fun d => d = dev) (registered (get_part s)) = Some (i, x) ->
  dev_op (get_part s) dev_cleanup dev = Some f -> answers f dev s l r s1 l1 ->
  storage_unregister_device fuel dev s l =
    (modify (fun s =>
       let n := num_devices s - 1 in
       set_registry (<[Z.to_nat n := 0]> (shift_down (Z.to_nat n - i) i (devices s))) n s);;
     s ← gets id;
     d ← some (device_at s !! dev);
     info_msg ← message 64 "[STORAGE] Unregistered device: %s" [FStr (i_name (info d))];
     say fuel info_msg) s1 l1.
Proof.
  intros Hdev Hfind Hf Ha. unfold storage_unregister_device. decide_lia. rewrite gets_bind.
  change (id (get_part s)) with (get_part s : Storage). unfold registered in Hfind. rewrite Hfind, Hf, some_bind.
  assert ((if f =? 0 then mret tt else call_void f [dev]) s l = Done (tt, s1, l1)) as Hc.
  { pose proof (an_call _ _ _ _ _ _ _ Ha) as E. destruct (f =? 0); [by injection E as _ <- <-|].
    unfold call_void. by rewrite (M_bind_done _ _ _ _ _ _ _ E). }
  by rewrite (M_bind_done _ _ _ _ _ _ _ Hc).
Qed.

Lemma registered_removed (s : Storage) dev i x :
  storage_ok s -> list_find (fun d => d = dev) (registered s) = Some (i, x) ->
  let n := num_devices s - 1 in
  let s' := set_registry (<[Z.to_nat n := 0]> (shift_down (Z.to_nat n - i) i (devices s))) n s in
  registered s' = remove_first dev (registered s) /\ storage_ok s'.
Proof.
  intros [Hl Hn Hk] Hfind n s'. unfold MAX_STORAGE_DEVICES in *.
  pose proof (remove_first_find dev (registered s)) as Hrm. rewrite Hfind in Hrm.
  apply list_find_Some in Hfind as (Hi & _ & _). apply lookup_lt_Some in Hi.
  unfold registered in Hi. rewrite length_take in Hi.
  assert (registered s' = remove_first dev (registered s)) as Hreg.
  { rewrite Hrm. unfold s', n, registered. cbn [num_devices devices set_registry].
    replace (Z.to_nat (num_devices s - 1)) with (Z.to_nat (num_devices s) - 1)%nat by lia.
    apply shift_down_take; lia. }
  split; [exact Hreg|]. split.
  - unfold s'. cbn [devices set_registry]. by rewrite length_insert, shift_down_length.
  - unfold s', n. cbn [num_devices set_registry]. unfold MAX_STORAGE_DEVICES. lia.
  - rewrite Hreg. by apply remove_first_sub.
Qed.
End refine.

(** ** Properties *)

(** C26. Registering a device. With sixteen devices registered the result is -1 and
    nothing changes. Otherwise, when [init] (if there is one) returns 0, the
    device is appended to the list of registered devices; when it returns a
    positive error, the list stays and the error is the result; a negative
    error overruns [error_msg] and the call is undefined. [init] may do
    anything else to the kernel, as long as it leaves the registry alone and
    the devices in place; names have at most 31 characters. *)
Theorem storage_register_refines `{Hw} {K} `{Has Storage K} `{Code K} fuel dev f r d (s : K) l s1 l1 :
  always_ready tx_empty fuel (COM1_PORT + 5) -> storage_ok (get_part s) -> dev <> 0 ->
  dev_op (get_part s) dev_init dev = Some f -> answers f dev s l r s1 l1 -> - 2 ^ 31 <= r < 2 ^ 31 ->
  device_at (get_part s1) !! dev = Some d -> (length (i_name (info d)) < 32)%nat ->
  if decide (length (registered (get_part s)) = 16%nat) then
    exists l', storage_register_device fuel dev s l = Done (-1, s, l') /\ prints l l'
  else if decide (r < 0) then storage_register_device fuel dev s l = Undef
  else exists s' l', storage_register_device fuel dev s l = Done (r, s', l') /\ prints l1 l' /\
    storage_ok (get_part s') /\
    registered (get_part s') = registered (get_part s) ++ (if decide (r = 0) then [dev] else []).
Proof.
  intros Hready Hok Hdev Hf Ha Hr Hd Hname. pose proof Hok as [Hl Hn Hk].
  assert (length (registered (get_part s)) = Z.to_nat (num_devices (get_part s))) as Hlen
    by (unfold registered, MAX_STORAGE_DEVICES in *; rewrite length_take; lia).
  pose proof (answers_ok _ _ _ _ _ _ _ Ha Hok Hdev ltac:(by exists d)) as Hok1.
  pose proof (answers_registered _ _ _ _ _ _ _ Ha) as Hreg. pose proof (an_num _ _ _ _ _ _ _ Ha) as Hnum.
  destruct (decide (_ = 16%nat)).
  { destruct (register_full fuel Hready dev s l Hdev) as (l' & ? & ?); [unfold MAX_STORAGE_DEVICES in *; lia|by exists l']. }
  assert (num_devices (get_part s) < MAX_STORAGE_DEVICES) as Hlt by (unfold MAX_STORAGE_DEVICES in *; lia).
  destruct (decide (r < 0)); [eapply register_negative; done || lia|]. destruct (decide (r = 0)) as [->|Hr0].
  - destruct (register_run fuel Hready dev f d s l s1 l1) as (l' & Hp & E); [done..|].
    destruct (added_registered dev d s1 Hok1 ltac:(lia) Hdev Hd) as [Hadd Hok2].
    exists (added dev s1), l'. by rewrite E, Hadd, Hreg.
  - destruct (register_error fuel Hready dev f s l r s1 l1) as (l' & Hp & E); [done..|lia|].
    exists s1, l'. by rewrite E, app_nil_r.
Qed.

(** C27. Unregistering. A device that is not registered changes nothing. For one that
    is, [cleanup] (if there is one) is called, and may do anything to the
    kernel but change the registry or forget another device. When the device's
    structure is still there afterwards, its first place in the list is
    removed and the others keep their order; when [cleanup] has freed it (as
    ide.c's does), the call is undefined, since the message reads its name. *)
Theorem storage_unregister_refines `{Hw} {K} `{Has Storage K} `{Code K} fuel dev f r (s : K) l s1 l1 :
  always_ready tx_empty fuel (COM1_PORT + 5) -> storage_ok (get_part s) -> dev <> 0 ->
  dev_op (get_part s) dev_cleanup dev = Some f -> answers f dev s l r s1 l1 -> names_fit (get_part s1) ->
  if decide (dev ∈ registered (get_part s)) then
    match device_at (get_part s1) !! dev with
    | Some _ => exists s' l', storage_unregister_device fuel dev s l = Done (tt, s', l') /\
        prints l1 l' /\ storage_ok (get_part s') /\
        registered (get_part s') = remove_first dev (registered (get_part s))
    | None => storage_unregister_device fuel dev s l = Undef
    end
  else storage_unregister_device fuel dev s l = Done (tt, s, l).
Proof.
  intros Hready Hok Hdev Hf Ha Hnames.
  destruct (list_find (fun d => d = dev) (registered (get_part s))) as [[i x]|] eqn:Hfind.
  - rewrite decide_True.
    2:{ apply list_find_Some in Hfind as (Hi & -> & _). by apply list_elem_of_lookup_2 in Hi. }
    rewrite (unregister_called fuel dev f i x s l r s1 l1 Hdev Hfind Hf Ha), modify_bind, gets_bind, get_set.
    unfold id. cbv zeta. cbn [device_at set_registry].
    destruct (device_at (get_part s1) !! dev) as [d|] eqn:Hd; [|done]. rewrite some_bind.
    erewrite message_fits; [|apply unregistered_msg_render|].
    2:{ specialize (Hnames _ _ Hd). cbn beta in Hnames. rewrite !length_app. simpl. lia. }
    match goal with |- context [say fuel ?str ?s' l1] =>
      destruct (say_spec fuel Hready str s' l1) as (l' & Hp & E); exists s', l' end.
    split; [exact E|]. split; [done|]. rewrite get_set.
    pose proof (answers_ok _ _ _ _ _ _ _ Ha Hok Hdev ltac:(by exists d)) as Hok1.
    rewrite <- (answers_registered _ _ _ _ _ _ _ Ha) in Hfind |- *.
    pose proof (registered_removed _ dev i x Hok1 Hfind) as Hrm. cbv zeta in Hrm |- *. destruct Hrm. by split.
  - rewrite decide_False.
    2:{ intros Hin. apply list_find_None in Hfind. rewrite Forall_forall in Hfind. by apply (Hfind dev). }
    unfold storage_unregister_device. decide_lia. rewrite gets_bind. change (id (get_part s)) with (get_part s : Storage).
    unfold registered in Hfind. by rewrite Hfind.
Qed.

(** A device that was registered is found by its name, as long as no device
    registered before has that name. *)
Theorem storage_register_get `{Hw} {K} `{Has Storage K} `{Code K} fuel dev f d (s s' : K) l s1 l1 l' l2 :
  always_ready tx_empty fuel (COM1_PORT + 5) -> storage_ok (get_part s) ->
  num_devices (get_part s) < MAX_STORAGE_DEVICES -> dev <> 0 ->
  dev_op (get_part s) dev_init dev = Some f -> answers f dev s l 0 s1 l1 ->
  device_at (get_part s1) !! dev = Some d -> (length (i_name (info d)) < 32)%nat ->
  storage_register_device fuel dev s l = Done (0, s', l') ->
  Forall (fun x => (i_name ∘ info <$> device_at (get_part s1) !! x) <> Some (i_name (info d))) (registered (get_part s)) ->
  storage_get_device (Some (i_name (info d))) s' l2 = Done (dev, s', l2).
Proof.
  intros Hready Hok Hlt Hdev Hf Ha Hd Hname E Hfresh.
  destruct (register_run fuel Hready dev f d s l s1 l1) as (l3 & _ & E'); [done..|]. rewrite E in E'.
  injection E' as -> _. pose proof (answers_ok _ _ _ _ _ _ _ Ha Hok Hdev ltac:(by exists d)) as Hok1.
  pose proof (an_num _ _ _ _ _ _ _ Ha) as Hnum. rewrite <- (answers_registered _ _ _ _ _ _ _ Ha) in Hfresh.
  destruct (added_registered dev d s1 Hok1 ltac:(lia) Hdev Hd) as [Hadd [_ _ Hk2]].
  unfold storage_get_device. rewrite gets_bind. change (id (get_part ?x)) with (get_part x : Storage).
  change (take _ _) with (registered (get_part (added dev s1))). rewrite Hadd in *.
  rewrite find_device_spec by done. unfold added. rewrite get_set. cbn [device_at set_registry].
  rewrite list_find_app_r.
  - simpl. rewrite Hd. simpl. by rewrite decide_True.
  - by apply list_find_None.
Qed.

(** The device report is undefined for every device: [sprintf] knows no [%llu] and takes
    no argument for it, so that [%u] prints the number of sectors and the next
    [%s] reads the capacity in bytes as the address of a string. *)
Theorem storage_print_info_undefined `{Hw} {K} fuel i (s : K) l :
  storage_print_device_info fuel (Some i) s l = Undef.
Proof.
  assert (render info_format (info_args i) = None) as E; [|unfold storage_print_device_info; by rewrite E].
  unfold info_args. generalize (storage_type_to_string (i_type i)). intros type.
  generalize (if tst (i_flags i) STORAGE_FLAG_REMOVABLE then bytes_of "Removable " else []). intros f1.
  generalize (if tst (i_flags i) STORAGE_FLAG_READONLY then bytes_of "ReadOnly " else []). intros f2.
  generalize (if tst (i_flags i) STORAGE_FLAG_BOOT then bytes_of "Boot " else []). intros f3.
  cbv. reflexivity.
Qed.

(** ** The properties at a concrete registry *)

Definition w_device (name : string) : StorageDevice :=
  MkDevice (MkInfo (bytes_of name) STORAGE_TYPE_IDE 0 100 512 256 [] [] []) 0 0.
Definition w_storage (ds : list Z) : Storage :=
  MkStorage (<[1000 := w_device "ide0"]> {[2000 := w_device "ide1"]}) ∅
    (ds ++ replicate (16 - length ds) 0) (Z.of_nat (length ds)).

Lemma w_storage_ok : storage_ok (w_storage [2000]).
Proof.
  split; [reflexivity|unfold MAX_STORAGE_DEVICES; simpl; lia|].
  unfold registered. simpl. constructor; [|constructor]. split; [lia|]. by eexists.
Qed.

(** A kernel whose functions do nothing. *)
Lemma w_answers dev : answers (H0 := w_code) 0 dev (w_storage [2000]) [] 0 (w_storage [2000]) [].
Proof. by split. Qed.

Lemma storage_register_refines_witness :
  exists s' l', storage_register_device (H := w_hw) (H1 := w_code) 1 1000 (w_storage [2000]) [] = Done (0, s', l') /\
    registered s' = [2000; 1000].
Proof.
  destruct (storage_register_refines (H := w_hw) (H1 := w_code) (K := Storage) 1 1000 0 0 (w_device "ide0")
    (w_storage [2000]) [] (w_storage [2000]) []) as (s' & l' & H1 & _ & _ & H2).
  - by apply w_ready.
  - apply w_storage_ok.
  - lia.
  - reflexivity.
  - apply w_answers.
  - lia.
  - reflexivity.
  - simpl. lia.
  - exists s', l'. split; [exact H1|exact H2].
Defined.

Lemma storage_unregister_refines_witness :
  exists s' l', storage_unregister_device (H := w_hw) (H1 := w_code) 1 2000 (w_storage [2000]) [] = Done (tt, s', l') /\
    registered s' = [].
Proof.
  destruct (storage_unregister_refines (H := w_hw) (H1 := w_code) (K := Storage) 1 2000 0 0
    (w_storage [2000]) [] (w_storage [2000]) []) as (s' & l' & H1 & _ & _ & H2).
  - by apply w_ready.
  - apply w_storage_ok.
  - lia.
  - reflexivity.
  - apply w_answers.
  - intros p d. unfold w_storage. cbn [get_part has_refl device_at]. rewrite lookup_insert_Some, lookup_singleton_Some.
    intros [[_ <-]|[_ [_ <-]]]; simpl; lia.
  - exists s', l'. split; [exact H1|exact H2].
Defined.

Lemma storage_register_get_witness :
  exists s' l', storage_register_device (H := w_hw) (H1 := w_code) 1 1000 (w_storage [2000]) [] = Done (0, s', l') /\
    storage_get_device (Some (bytes_of "ide0")) s' l' = Done (1000, s', l').
Proof.
  destruct (register_run (H := w_hw) (H1 := w_code) (K := Storage) 1 (w_ready tx_empty _ eq_refl) 1000 0 (w_device "ide0")
    (w_storage [2000]) [] (w_storage [2000]) [])
    as (l' & _ & E); [lia|reflexivity|reflexivity|apply w_answers|reflexivity|simpl; lia|].
  exists (added 1000 (w_storage [2000])), l'. split; [exact E|].
  refine (storage_register_get (H := w_hw) (H1 := w_code) (K := Storage) 1 1000 0 (w_device "ide0")
    (w_storage [2000]) _ [] (w_storage [2000]) [] l' l' _ w_storage_ok _ _ _ (w_answers 1000) _ _ E _).
  - by apply w_ready.
  - reflexivity.
  - lia.
  - reflexivity.
  - reflexivity.
  - simpl. lia.
  - constructor; [|constructor]. intros Hn. vm_compute in Hn. discriminate Hn.
Defined.
