(* ===== verification/Mouse.v ===== *)
(** * PS/2 mouse (src/impl/drivers/mouse/mouse.c)

    The statics of the file and of [mouse_handler] (the packet under way) are
    one record. A callback gets a pointer to [mouse_state]; in the model it
    reads that state itself. *)
From S2P Require Export Ps2.

(** ** Definitions *)

Definition MOUSE_IRQ := 12.
Definition MOUSE_CMD_ENABLE := 0xF4.
Definition MOUSE_CMD_DISABLE := 0xF5.

Record MouseState := MkMouseState { x_pos : Z; y_pos : Z; buttons : Z; scroll : Z }.
Record MousePacket := MkMousePacket { pk_buttons : Z; x_movement : Z; y_movement : Z }.

Record Mouse := MkMouse {
  mouse_state : MouseState;
  mouse_callback : Z;
  cycle : Z;
  packet : MousePacket;
}.

Definition mouse_initial : Mouse :=
  MkMouse (MkMouseState 512 384 0 0) 0 0 (MkMousePacket 0 0 0).

Definition set_state (s : MouseState) (m : Mouse) : Mouse :=
  MkMouse s (mouse_callback m) (cycle m) (packet m).
Definition set_cycle (c : Z) (m : Mouse) : Mouse :=
  MkMouse (mouse_state m) (mouse_callback m) c (packet m).
Definition set_packet (p : MousePacket) (m : Mouse) : Mouse :=
  MkMouse (mouse_state m) (mouse_callback m) (cycle m) p.

(** The clamp of a coordinate, as a conversion to [uint16_t]. *)
Definition clamp (v hi : Z) : Z := u16 (if v <? 0 then 0 else if hi <? v then hi else v).

(** The update of [mouse_state] when the third byte of a packet is in. *)
Definition apply_packet (p : MousePacket) (s : MouseState) : MouseState :=
  let new_x := x_pos s + x_movement p in
  let new_y := y_pos s - y_movement p in
  MkMouseState (clamp new_x 1023) (clamp new_y 767) (pk_buttons p .& 0x07) (scroll s).

Section mouse.
Context `{Hw} {K : Type} `{Has Mouse K} `{Code K}.

Definition mouse_init (fuel : nat) : M K unit :=
  serial_write_string fuel COM1_PORT (line "[MOUSE] Starting mouse initialization...");;
  asm_cli;;
  port_byte_out KEYBOARD_COMMAND_PORT 0xAD;;
  port_byte_out KEYBOARD_COMMAND_PORT 0xA7;;
  flush_output fuel;;
  port_byte_out KEYBOARD_COMMAND_PORT 0x20;;
  timeout ← retry (Z.to_nat 100000)
    (b ← status_bit 1;
     if b : bool then
       config ← port_byte_in KEYBOARD_DATA_PORT;
       let config := config .| 0x02 in
       let config := config .& Z.lnot 0x20 in
       let config := config .| 0x01 in
       let config := config .& Z.lnot 0x10 in
       port_byte_out KEYBOARD_COMMAND_PORT 0x60;;
       port_byte_out KEYBOARD_DATA_PORT config;;
       serial_write_string fuel COM1_PORT (line "[MOUSE] Controller configured");;
       mret true
     else mret false);
  if (timeout =? 0)%nat then
    serial_write_string fuel COM1_PORT (line "[MOUSE] Error: Controller configuration failed");;
    asm_sti
  else
    port_byte_out KEYBOARD_COMMAND_PORT 0xA8;;
    port_byte_out KEYBOARD_COMMAND_PORT 0xD4;;
    port_byte_out KEYBOARD_DATA_PORT 0xF3;;
    port_byte_out KEYBOARD_DATA_PORT 100;;
    port_byte_out KEYBOARD_COMMAND_PORT 0xD4;;
    port_byte_out KEYBOARD_DATA_PORT 0xE8;;
    port_byte_out KEYBOARD_DATA_PORT 0x03;;
    port_byte_out KEYBOARD_COMMAND_PORT 0xD4;;
    port_byte_out KEYBOARD_DATA_PORT 0xE6;;
    port_byte_out KEYBOARD_COMMAND_PORT 0xD4;;
    port_byte_out KEYBOARD_DATA_PORT 0xF4;;
    retry (Z.to_nat 100000)
      (b ← got_byte 0xFA;
       if b : bool then
         serial_write_string fuel COM1_PORT (line "[MOUSE] Packet streaming enabled");; mret true
       else mret false);;
    port_byte_out KEYBOARD_COMMAND_PORT 0xAE;;
    modify (fun m => set_state (MkMouseState 512 384 0 (scroll (mouse_state m))) m);;
    pic_clear_mask MOUSE_IRQ;;
    serial_write_string fuel COM1_PORT (line "[MOUSE] Interrupt enabled");;
    asm_sti;;
    serial_write_string fuel COM1_PORT (line "[MOUSE] Initialization complete").

Definition mouse_handler (fuel : nat) : M K unit :=
  let print str := serial_write_string fuel COM1_PORT str in
  status ← port_byte_in KEYBOARD_STATUS_PORT;
  print (debug_text "[MOUSE] Status: 0x%02x" [status]);;
  if negb (tst status 0x20) then
    print (line "[MOUSE] Not mouse data, ignoring");;
    pic_send_eoi MOUSE_IRQ
  else
    data ← port_byte_in KEYBOARD_DATA_PORT;
    m ← gets (fun m : Mouse => m);
    print (debug_text "[MOUSE] Received data: 0x%02x, cycle: %d" [data; cycle m]);;
    (if cycle m =? 0 then
       if tst data 0x08 then
         modify (fun m => set_cycle 1
           (set_packet (MkMousePacket data (x_movement (packet m)) (y_movement (packet m))) m));;
         print (line "[MOUSE] First byte received")
       else print (line "[MOUSE] Invalid first byte, resetting")
     else if cycle m =? 1 then
       modify (fun m => set_cycle 2
         (set_packet (MkMousePacket (pk_buttons (packet m)) (i8 data) (y_movement (packet m))) m));;
       print (line "[MOUSE] X movement received")
     else if cycle m =? 2 then
       modify (fun m => set_packet
         (MkMousePacket (pk_buttons (packet m)) (x_movement (packet m)) (i8 data)) m);;
       print (line "[MOUSE] Y movement received");;
       modify (fun m => set_state (apply_packet (packet m) (mouse_state m)) m);;
       s ← gets mouse_state;
       print (debug_text "[MOUSE] Position: X=%d, Y=%d, Buttons=%02x" [x_pos s; y_pos s; buttons s]);;
       callback ← gets mouse_callback;
       (if negb (callback =? 0) then
          call_void callback [];;
          print (line "[MOUSE] Callback executed")
        else print (line "[MOUSE] No callback registered"));;
       modify (set_cycle 0)
     else mret tt);;
    pic_send_eoi MOUSE_IRQ.

(** [mouse_enable] and [mouse_disable] differ in the command. *)
Definition mouse_command (cmd : Z) : M K unit :=
  timeout ← wait_while (Z.to_nat 10000) (status_bit 2);
  if (timeout =? 0)%nat then mret tt
  else
    port_byte_out KEYBOARD_COMMAND_PORT 0xD4;;
    port_byte_out KEYBOARD_DATA_PORT cmd;;
    attempts (Z.to_nat 10000) (got_byte 0xFA).

Definition mouse_enable : M K unit := mouse_command MOUSE_CMD_ENABLE.
Definition mouse_disable : M K unit := mouse_command MOUSE_CMD_DISABLE.

Definition mouse_set_callback (callback : Z) : M K unit :=
  modify (fun m => MkMouse (mouse_state m) callback (cycle m) (packet m)).
End mouse.

(** ** What a byte from the mouse means

    The handler's effect on the state, as a step of a machine that assembles
    packets of three bytes. *)
Definition mouse_step (m : Mouse) (data : Z) : Mouse :=
  let p := packet m in
  match cycle m with
  | 0 =>
      if tst data 0x08
      then set_cycle 1 (set_packet (MkMousePacket data (x_movement p) (y_movement p)) m)
      else m
  | 1 => set_cycle 2 (set_packet (MkMousePacket (pk_buttons p) (i8 data) (y_movement p)) m)
  | 2 =>
      let p := MkMousePacket (pk_buttons p) (x_movement p) (i8 data) in
      set_cycle 0 (set_state (apply_packet p (mouse_state m)) (set_packet p m))
  | _ => m
  end.

Record mouse_inv (m : Mouse) : Prop := {
  mi_x : 0 <= x_pos (mouse_state m) <= 1023;
  mi_y : 0 <= y_pos (mouse_state m) <= 767;
  mi_buttons : 0 <= buttons (mouse_state m) < 8;
  mi_cycle : 0 <= cycle m <= 2;
  mi_dx : -128 <= x_movement (packet m) < 128;
  mi_dy : -128 <= y_movement (packet m) < 128;
}.

Lemma clamp_range v hi : 0 <= hi < 2 ^ 16 -> clamp v hi = Z.max 0 (Z.min v hi).
Proof.
  intros Hh. unfold clamp. destruct (Z.ltb_spec v 0), (Z.ltb_spec hi v); rewrite u16_id; lia.
Qed.

Lemma i8_bounds x : -128 <= i8 x < 128.
Proof. apply i8_range. Qed.

Lemma land_7 x : 0 <= x .& 0x07 < 8.
Proof. change 0x07 with (Z.ones 3). rewrite Z.land_ones by lia. apply Z.mod_pos_bound. lia. Qed.

Lemma apply_packet_ok p s :
  let s' := apply_packet p s in
  0 <= x_pos s' <= 1023 /\ 0 <= y_pos s' <= 767 /\ 0 <= buttons s' < 8.
Proof.
  cbn [apply_packet x_pos y_pos buttons]. rewrite !clamp_range by lia.
  pose proof (land_7 (pk_buttons p)). lia.
Qed.

Lemma mouse_step_inv m data : mouse_inv m -> mouse_inv (mouse_step m data).
Proof.
  intros [Hx Hy Hb Hc Hdx Hdy]. pose proof (i8_bounds data) as Hi.
  unfold mouse_step.
  assert (cycle m = 0 \/ cycle m = 1 \/ cycle m = 2) as [E|[E|E]] by lia; rewrite E.
  - destruct (tst data 0x08); [|by split]. split; simpl; lia.
  - split; simpl; lia.
  - set (p := MkMousePacket _ _ _).
    pose proof (apply_packet_ok p (mouse_state m)) as (? & ? & ?).
    split; cbn [mouse_state packet cycle set_cycle set_state set_packet]; try lia; simpl; lia.
Qed.

(** ** The handler *)

Section handler.
Context `{Hw} {K : Type} `{Has Mouse K} `{Code K}.
Context (fuel : nat) (Hready : always_ready tx_empty fuel (COM1_PORT + 5)).

(** A byte that does not come from the mouse. *)
Lemma mouse_handler_ignores (s : K) l :
  tst (inb_val l KEYBOARD_STATUS_PORT) 0x20 = false ->
  exists l', mouse_handler fuel s l = Done (tt, s, l') /\
    acknowledges (eoi_ports MOUSE_IRQ) l l'.
Proof.
  intros Hst. unfold mouse_handler. rewrite port_in_bind by (unfold KEYBOARD_STATUS_PORT; lia).
  step_print Hready. rewrite Hst. cbn [negb]. step_print Hready.
  rewrite pic_send_eoi_spec. eexists. split; [reflexivity|].
  apply eois_acknowledge. prints_tac.
Qed.

(** The registered callback, when there is one, returns, leaves the driver's
    state alone and only prints. *)
Definition polite (callback : Z) : Prop :=
  callback <> 0 -> forall s1 l1, mouse_callback (get_part s1) = callback ->
  exists v s2 l2, call callback [] s1 l1 = Done (v, s2, l2) /\ get_part s2 = get_part s1 /\ prints l1 l2.

(** The state [s'] after the handler when a byte has taken the driver's state
    from that of [s] to [m']: a completed packet is given to the callback, with
    the new position in place. *)
Definition delivered (s : K) (m' : Mouse) (s' : K) : Prop :=
  let m := get_part s in
  if bool_decide (cycle m = 2 /\ mouse_callback m <> 0) then
    exists l1 v s2 l2, call (mouse_callback m) [] (set_part (set_cycle 2 m') s) l1 = Done (v, s2, l2) /\ s' = set_part m' s2
  else s' = set_part m' s.

(** The third byte. *)
Lemma third_byte (s : K) l0 l data :
  let m := get_part s in
  let p := MkMousePacket (pk_buttons (packet m)) (x_movement (packet m)) (i8 data) in
  let m1 := set_state (apply_packet p (mouse_state m)) (set_packet p m) in
  prints l0 l -> cycle m = 2 -> polite (mouse_callback m) ->
  exists s' l', (callback ← gets mouse_callback;
       (if negb (callback =? 0) then
          call_void callback [];;
          serial_write_string fuel COM1_PORT (line "[MOUSE] Callback executed")
        else serial_write_string fuel COM1_PORT (line "[MOUSE] No callback registered"));;
       modify (set_cycle 0)) (set_part m1 s) l = Done (tt, s', l') /\
    prints l0 l' /\ get_part s' = set_cycle 0 m1 /\ delivered s (set_cycle 0 m1) s'.
Proof.
  intros m p m1 Hp Hc Hpol. rewrite gets_bind, get_set. change (mouse_callback m1) with (mouse_callback m).
  unfold delivered. fold m. destruct (Z.eqb_spec (mouse_callback m) 0) as [Hz|Hz]; cbn [negb].
  - rewrite bool_decide_false by tauto. step_print Hready. eexists _, _. split; [reflexivity|].
    rewrite !get_set, set_set. split; [prints_tac|done].
  - rewrite bool_decide_true by done.
    destruct (Hpol Hz (set_part m1 s) l) as (v & s2 & l2 & E & Hg & Hp2); [by rewrite get_set|].
    unfold call_void. rewrite !M_bind_assoc. rewrite (M_bind_done _ _ _ _ _ _ _ E).
    repeat step Hready. rewrite get_set in Hg. eexists _, _. split; [reflexivity|]. split; [prints_tac|].
    rewrite get_set, Hg. split; [done|]. exists l, v, s2, l2. split; [|done].
    replace (set_cycle 2 (set_cycle 0 m1)) with m1; [done|]. unfold m1, set_cycle, set_state, set_packet. cbn. by rewrite Hc.
Qed.

(** A byte from the mouse. *)
Lemma mouse_handler_data (s : K) l :
  let m := get_part s in
  let l1 := l ++ [EIn KEYBOARD_STATUS_PORT (inb_val l KEYBOARD_STATUS_PORT)] in
  tst (inb_val l KEYBOARD_STATUS_PORT) 0x20 = true -> polite (mouse_callback m) ->
  0 <= cycle m <= 2 ->
  exists l0 s' l', prints l1 l0 /\ mouse_handler fuel s l = Done (tt, s', l') /\
    acknowledges (eoi_ports MOUSE_IRQ) l l' /\
    let m' := mouse_step m (inb_val l0 KEYBOARD_DATA_PORT) in get_part s' = m' /\ delivered s m' s'.
Proof.
  intros m l1 Hst Hcb Hcy. unfold mouse_handler.
  rewrite port_in_bind by (unfold KEYBOARD_STATUS_PORT; lia). fold l1.
  step_print Hready. rewrite Hst. cbn [negb].
  rewrite port_in_bind by (unfold KEYBOARD_DATA_PORT; lia).
  exists l0. set (data := inb_val l0 KEYBOARD_DATA_PORT).
  assert (prints l (l0 ++ [EIn KEYBOARD_DATA_PORT data])) as Hp0.
  { etrans; [|apply prints_read]. etrans; [apply prints_read|exact Hp]. }
  do 2 step Hready. fold m. unfold mouse_step.
  assert (cycle m = 0 \/ cycle m = 1 \/ cycle m = 2) as [E|[E|E]] by lia; rewrite E;
    cbn [Z.eqb Pos.eqb].
  - assert (forall m', delivered s m' (set_part m' s)) as Hd by (intros m'; unfold delivered; fold m; by rewrite bool_decide_false by lia).
    destruct (tst data 0x08).
    + repeat step Hready. rewrite pic_send_eoi_spec. do 2 eexists. split; [exact Hp|]. split; [reflexivity|].
      split; [apply eois_acknowledge; prints_tac|]. fold m. by rewrite get_set.
    + repeat step Hready. rewrite pic_send_eoi_spec. do 2 eexists. split; [exact Hp|].
      split; [reflexivity|]. split; [apply eois_acknowledge; prints_tac|]. split; [done|].
      rewrite <- (set_get s) at 2. apply Hd.
  - repeat step Hready. rewrite pic_send_eoi_spec. do 2 eexists. split; [exact Hp|]. split; [reflexivity|].
    split; [apply eois_acknowledge; prints_tac|]. fold m. rewrite get_set. split; [done|].
    unfold delivered. fold m. by rewrite bool_decide_false by lia.
  - match goal with |- context [gets mouse_callback ≫= ?k] => set (finish := gets mouse_callback ≫= k) end.
    repeat step Hready. fold m.
    match goal with |- context [(finish ≫= _) _ ?l4] =>
      assert (prints l l4) as Hpa by prints_tac;
      destruct (third_byte s l l4 data Hpa E Hcb) as (s' & l' & Ef & Hpf & Hg & Hd) end.
    fold m in Ef, Hg, Hd.
    rewrite (M_bind_done _ _ _ _ _ _ _ Ef), pic_send_eoi_spec. do 2 eexists. split; [exact Hp|]. split; [reflexivity|].
    split; [by apply eois_acknowledge|]. by split.
Qed.
End handler.

(** ** Properties *)

(** C34. Every mouse interrupt, with a callback that returns, leaves the driver's
    state alone and only prints, or with none, is acknowledged once at both
    interrupt controllers and keeps the cursor on the screen. If the status
    says that a mouse byte is there, the byte read then changes the driver's
    state exactly as [mouse_step] does, and when it completes a packet the
    callback is called once, with the new position in place, and nothing else
    changes the kernel's state; otherwise the state is unchanged. *)
Theorem mouse_handler_refines `{Hw} {K} `{Has Mouse K} `{Code K} fuel (s : K) l :
  always_ready tx_empty fuel (COM1_PORT + 5) ->
  mouse_inv (get_part s) -> polite (K := K) (mouse_callback (get_part s)) ->
  exists s' l', mouse_handler fuel s l = Done (tt, s', l') /\
    acknowledges (eoi_ports MOUSE_IRQ) l l' /\ mouse_inv (get_part s') /\
    if tst (inb_val l KEYBOARD_STATUS_PORT) 0x20 then
      exists l0, prints l l0 /\ let m' := mouse_step (get_part s) (inb_val l0 KEYBOARD_DATA_PORT) in
        get_part s' = m' /\ delivered s m' s'
    else s' = s.
Proof.
  intros Hr Hi Hcb. destruct (tst (inb_val l KEYBOARD_STATUS_PORT) 0x20) eqn:Hst.
  - destruct (mouse_handler_data fuel Hr s l Hst Hcb (mi_cycle _ Hi)) as (l0 & s' & l' & Hp & Hh & Ha & Hg & Hd).
    exists s', l'. split; [exact Hh|]. split; [done|]. split; [rewrite Hg; by apply mouse_step_inv|].
    exists l0. split; [|done]. etrans; [apply prints_read|exact Hp].
  - destruct (mouse_handler_ignores fuel Hr s l Hst) as (l' & Hh & Ha). by exists s, l'.
Qed.

(** Three bytes that begin with one that has bit 3 set, arriving at the
    start of a packet, move the cursor by the packet's signed offsets (the
    vertical axis inverted), clamped to the 1024x768 screen, set the buttons
    and leave the machine at the start of a packet; a first byte without bit 3
    is dropped. *)
Theorem mouse_packet_moves m b0 b1 b2 :
  mouse_inv m -> cycle m = 0 ->
  if Z.testbit b0 3 then
    let m' := foldl mouse_step m [b0; b1; b2] in
    x_pos (mouse_state m') = Z.max 0 (Z.min (x_pos (mouse_state m) + i8 b1) 1023) /\
    y_pos (mouse_state m') = Z.max 0 (Z.min (y_pos (mouse_state m) - i8 b2) 767) /\
    buttons (mouse_state m') = b0 mod 8 /\ cycle m' = 0 /\ mouse_inv m'
  else foldl mouse_step m [b0] = m.
Proof.
  intros Hi Hc. assert (tst b0 0x08 = Z.testbit b0 3) as Hb.
  { change 0x08 with (1 .<< 3). apply tst_bit. lia. }
  destruct (Z.testbit b0 3); cbn [foldl].
  - assert (mouse_inv (mouse_step (mouse_step (mouse_step m b0) b1) b2)) as Hinv
      by (by do 3 apply mouse_step_inv).
    assert (mouse_step (mouse_step (mouse_step m b0) b1) b2 =
      let p := MkMousePacket b0 (i8 b1) (i8 b2) in
      set_cycle 0 (set_state (apply_packet p (mouse_state m)) (set_packet p m))) as E.
    { unfold mouse_step at 3. rewrite Hc, Hb. reflexivity. }
    cbv zeta in E |- *. rewrite E in Hinv |- *. split_and!; [..|exact Hinv]; cbn [mouse_state set_cycle set_state apply_packet
      x_pos y_pos buttons x_movement y_movement pk_buttons cycle]; rewrite ?clamp_range by lia; try done.
    change 0x07 with (Z.ones 3). by rewrite Z.land_ones by lia.
  - unfold mouse_step. by rewrite Hc, Hb.
Qed.

Lemma mouse_initial_inv : mouse_inv mouse_initial.
Proof. split; simpl; lia. Qed.

(** A machine that always has the byte 9 from the mouse, and a callback that
    records the position. *)
Definition w_hw_mouse : Hw := {| hw_in l port := if port =? KEYBOARD_DATA_PORT then 9 else 0x20 |}.
Definition w_recording : Code (Mouse * Z) := {| call f args := fun s l => Done (0, (s.1, x_pos (mouse_state s.1)), l) |}.
Definition w_mouse : Mouse := MkMouse (MkMouseState 512 384 0 0) 0x1000 2 (MkMousePacket 8 5 0).

(** The third byte of a packet: the callback gets the position 517. *)
Lemma mouse_handler_refines_witness :
  exists s' l', mouse_handler (H := w_hw_mouse) (H1 := w_recording) 1 (w_mouse, 0) [] = Done (tt, s', l') /\
    mouse_inv s'.1 /\ s'.2 = 517.
Proof.
  destruct (mouse_handler_refines (H := w_hw_mouse) (H1 := w_recording) 1 (w_mouse, 0) [])
    as (s' & l' & Hh & _ & Hi & Hs).
  - intros l. exists 0%nat. split; [lia|reflexivity].
  - split; cbn; lia.
  - intros _ s1 l1 _. do 3 eexists. split; [reflexivity|]. split; [done|reflexivity].
  - exists s', l'. split; [exact Hh|]. split; [exact Hi|].
    change (tst (inb_val (H := w_hw_mouse) [] KEYBOARD_STATUS_PORT) 0x20) with true in Hs.
    destruct Hs as (l0 & _ & _ & Hd).
    change (exists l1 v s2 l2, call (Code := w_recording) 0x1000 [] (set_part (set_cycle 2 (mouse_step w_mouse 9)) (w_mouse, 0)) l1 =
      Done (v, s2, l2) /\ s' = set_part (C := Mouse) (mouse_step w_mouse 9) s2) in Hd.
    destruct Hd as (l1 & v & s2 & l2 & E & ->). injection E as _ <- _. reflexivity.
Defined.

Lemma mouse_packet_moves_witness :
  x_pos (mouse_state (foldl mouse_step mouse_initial [0x09; 5; 250])) = 517 /\
  y_pos (mouse_state (foldl mouse_step mouse_initial [0x09; 5; 250])) = 390.
Proof.
  destruct (mouse_packet_moves mouse_initial 0x09 5 250 mouse_initial_inv eq_refl)
    as (Hx & Hy & _). rewrite Hx, Hy. by split.
Defined.
