(* ===== verification/Keyboard.v ===== *)
(** * PS/2 keyboard (src/impl/drivers/keyboard/keyboard.c)

    The driver's statics are one record. keymap.c keeps a pointer of its own
    for special keys ([keymap_callback] here) which nothing ever sets. *)
From S2P Require Export Keymap Mouse.

(** ** Definitions *)

Definition KEYBOARD_IRQ := 1.
Definition KEYBOARD_CMD_ENABLE := 0xF4.
Definition KEYBOARD_CMD_DISABLE := 0xF5.

Record Keyboard := MkKeyboard {
  scancode_callback : Z;
  char_callback : Z;
  special_callback : Z;
  keymap_callback : Z;
  keyboard_state : KeyboardState;
  special_event : SpecialKeyEvent;
}.

Definition keyboard_initial : Keyboard :=
  MkKeyboard 0 0 0 0 kbs_initial (MkSpecialKeyEvent 0 false kbs_initial).

Definition set_kbs (s : KeyboardState) (k : Keyboard) : Keyboard :=
  MkKeyboard (scancode_callback k) (char_callback k) (special_callback k) (keymap_callback k) s
    (special_event k).
Definition set_event (e : SpecialKeyEvent) (k : Keyboard) : Keyboard :=
  MkKeyboard (scancode_callback k) (char_callback k) (special_callback k) (keymap_callback k)
    (keyboard_state k) e.

Section keyboard.
Context `{Hw} {K : Type} `{Has Keyboard K} `{Has Mouse K} `{Code K}.

(** [if (callback) callback(args);] *)
Definition call_if (callback : Z) (args : list Z) : M K unit :=
  if negb (callback =? 0) then call_void callback args else mret tt.

Definition keyboard_init (fuel : nat) : M K unit :=
  let print s := serial_write_string fuel COM1_PORT (line s) in
  let fail s := print s;; asm_sti in
  print "[DEBUG] Starting keyboard initialization...";;
  asm_cli;;
  timeout ← wait_while (Z.to_nat 100000) (status_bit 2);
  if (timeout =? 0)%nat then fail "[KBD] Error: Initial controller timeout" else
  port_byte_out KEYBOARD_COMMAND_PORT 0xAD;;
  port_byte_out KEYBOARD_COMMAND_PORT 0xA7;;
  flush_output fuel;;
  port_byte_out KEYBOARD_COMMAND_PORT 0x20;;
  timeout ← retry (Z.to_nat 100000)
    (b ← status_bit 1;
     if b : bool then
       config ← port_byte_in KEYBOARD_DATA_PORT;
       let config := config .| 1 in
       let config := config .& Z.lnot (1 .<< 4) in
       let config := config .& Z.lnot (1 .<< 6) in
       port_byte_out KEYBOARD_COMMAND_PORT 0x60;;
       port_byte_out KEYBOARD_DATA_PORT config;;
       print "[DEBUG] Keyboard controller configured";;
       mret true
     else mret false);
  if (timeout =? 0)%nat then fail "[KBD] Error: Controller configuration failed" else
  port_byte_out KEYBOARD_COMMAND_PORT 0xAE;;
  port_byte_out KEYBOARD_DATA_PORT 0xFF;;
  timeout ← retry (Z.to_nat 100000)
    (b ← got_byte 0xFA;
     if b : bool then print "[DEBUG] Keyboard reset acknowledged";; mret true else mret false);
  if (timeout =? 0)%nat then fail "[KBD] Error: Keyboard reset failed" else
  timeout ← retry (Z.to_nat 100000)
    (b ← got_byte 0xAA;
     if b : bool then print "[DEBUG] Keyboard self-test passed";; mret true else mret false);
  if (timeout =? 0)%nat then fail "[KBD] Error: Keyboard self-test failed" else
  port_byte_out KEYBOARD_DATA_PORT 0xF4;;
  timeout ← retry (Z.to_nat 100000)
    (b ← got_byte 0xFA;
     if b : bool then print "[KBD] Keyboard enabled";; mret true else mret false);
  if (timeout =? 0)%nat then fail "[KBD] Error: Keyboard enable failed" else
  pic_clear_mask KEYBOARD_IRQ;;
  print "[DEBUG] Keyboard interrupt enabled";;
  print "[DEBUG] Starting mouse initialization...";;
  mouse_init fuel;;
  asm_sti;;
  print "[DEBUG] Keyboard initialization complete".

Definition keyboard_read_scan_code : M K Z :=
  timeout ← wait_while (Z.to_nat 10000) (b ← status_bit 1; mret (negb b));
  if (timeout =? 0)%nat then mret 0 else port_byte_in KEYBOARD_DATA_PORT.

(** The event is stored through the pointer; the pointer passed to the
    callbacks is the address of the static the event is in. *)
Definition handle_special_key (scancode : Z) (state : KeyboardState) : M K unit :=
  modify (set_event (special_event_of scancode state));;
  callback ← gets keymap_callback;
  call_if callback [].

(** The handler from the scancode on. *)
Definition handle_scancode (fuel : nat) (scancode : Z) : M K unit :=
  serial_write_string fuel COM1_PORT (debug_text "[KBD] Scancode: 0x%02x" [scancode]);;
  modify (fun k => set_kbs (update_keyboard_state scancode (keyboard_state k)) k);;
  callback ← gets scancode_callback;
  call_if callback [scancode];;
  (if is_special_key scancode then
     state ← gets keyboard_state;
     handle_special_key scancode state;;
     callback ← gets special_callback;
     call_if callback []
   else
     callback ← gets char_callback;
     if negb (callback =? 0) then
       state ← gets keyboard_state;
       let c := scancode_to_ascii scancode state in
       (if negb (c =? 0) then
          callback ← gets char_callback;
          call_void callback [c]
        else mret tt)
     else mret tt);;
  pic_send_eoi KEYBOARD_IRQ;;
  asm_sti.

Definition keyboard_handler (fuel : nat) : M K unit :=
  asm_cli;;
  ready ← status_bit 1;
  if negb ready then
    pic_send_eoi KEYBOARD_IRQ;;
    asm_sti
  else scancode ← keyboard_read_scan_code; handle_scancode fuel scancode.

(** [keyboard_enable] and [keyboard_disable] differ in the command. *)
Definition keyboard_command (cmd : Z) : M K unit :=
  timeout ← wait_while (Z.to_nat 10000) (status_bit 2);
  if (timeout =? 0)%nat then mret tt
  else
    port_byte_out KEYBOARD_DATA_PORT cmd;;
    attempts (Z.to_nat 10000) (got_byte 0xFA).

Definition keyboard_enable : M K unit := keyboard_command KEYBOARD_CMD_ENABLE.
Definition keyboard_disable : M K unit := keyboard_command KEYBOARD_CMD_DISABLE.

Definition keyboard_set_scancode_callback (callback : Z) : M K unit :=
  modify (fun k => MkKeyboard callback (char_callback k) (special_callback k) (keymap_callback k)
    (keyboard_state k) (special_event k)).
Definition keyboard_set_char_callback (callback : Z) : M K unit :=
  modify (fun k => MkKeyboard (scancode_callback k) callback (special_callback k) (keymap_callback k)
    (keyboard_state k) (special_event k)).
Definition keyboard_set_special_callback (callback : Z) : M K unit :=
  modify (fun k => MkKeyboard (scancode_callback k) (char_callback k) callback (keymap_callback k)
    (keyboard_state k) (special_event k)).
End keyboard.

(** ** The handler *)

Section handler.
Context `{Hw} {K : Type} `{Has Keyboard K} `{Code K}.
Context (fuel : nat) (Hready : always_ready tx_empty fuel (COM1_PORT + 5)).

(** The log when the handler has found the status bit set twice and reads the
    scancode, and the scancode. *)
Definition status_read (l : log) : log :=
  l ++ [EIn KEYBOARD_STATUS_PORT (inb_val l KEYBOARD_STATUS_PORT)].
Definition data_ready (l : log) : bool := tst (inb_val l KEYBOARD_STATUS_PORT) 1.
Definition scancode_log (l : log) : log := status_read (status_read (l ++ [ECli])).
Definition scancode_at (l : log) : Z := inb_val (scancode_log l) KEYBOARD_DATA_PORT.

Lemma status_bit_bind {A} mask (k : bool -> M K A) (s : K) l :
  (status_bit mask ≫= k) s l = k (tst (inb_val l KEYBOARD_STATUS_PORT) mask) s (status_read l).
Proof. unfold status_bit. run. by rewrite u16_id by (unfold KEYBOARD_STATUS_PORT; lia). Qed.

Lemma read_scan_code_ready {A} (k : Z -> M K A) (s : K) l :
  data_ready l = true ->
  (keyboard_read_scan_code ≫= k) s l =
  k (inb_val (status_read l) KEYBOARD_DATA_PORT) s
    (status_read l ++ [EIn KEYBOARD_DATA_PORT (inb_val (status_read l) KEYBOARD_DATA_PORT)]).
Proof.
  intros Hd. unfold keyboard_read_scan_code. rewrite M_bind_assoc.
  destruct (Z.to_nat 10000) as [|n] eqn:E; [lia|]. cbn [wait_while].
  rewrite M_bind_assoc, M_bind_assoc, status_bit_bind. fold (data_ready l). rewrite Hd, ret_bind.
  cbn [negb]. rewrite ret_bind. cbn [Nat.eqb].
  apply port_in_bind. unfold KEYBOARD_DATA_PORT. lia.
Qed.

Lemma prints_cli l : prints l (l ++ [ECli]).
Proof. exists []. intros p. rewrite sent_app. simpl. by case_decide. Qed.

(** What the handler does with the character of a scancode. *)
Definition deliver (cb sc : Z) (st : KeyboardState) : M K unit :=
  if negb (is_special_key sc) && negb (cb =? 0) && negb (scancode_to_ascii sc st =? 0)
  then call_void cb [scancode_to_ascii sc st] else mret tt.

(** The state after a scancode: a special key's event is recorded. *)
Definition after_scancode (sc : Z) (k : Keyboard) : Keyboard :=
  let k := set_kbs (update_keyboard_state sc (keyboard_state k)) k in
  if is_special_key sc then set_event (special_event_of sc (keyboard_state k)) k else k.

Lemma keyboard_handler_run (s : K) l :
  let k := get_part s in
  data_ready (l ++ [ECli]) = true -> data_ready (status_read (l ++ [ECli])) = true ->
  scancode_callback k = 0 -> special_callback k = 0 -> keymap_callback k = 0 ->
  exists l1, prints l l1 /\ keyboard_handler fuel s l =
    (deliver (char_callback k) (scancode_at l) (update_keyboard_state (scancode_at l) (keyboard_state k));;
     pic_send_eoi KEYBOARD_IRQ;; asm_sti)
      (set_part (after_scancode (scancode_at l) k) s) l1.
Proof.
  intros k Hd1 Hd2 Hsc Hsp Hkm. unfold keyboard_handler. rewrite asm_cli_bind, status_bit_bind.
  fold (data_ready (l ++ [ECli])). rewrite Hd1. cbn [negb]. rewrite read_scan_code_ready by done.
  fold (scancode_log l). fold (scancode_at l). set (sc := scancode_at l).
  set (l0 := scancode_log l ++ _). unfold handle_scancode.
  assert (prints l l0) as Hp0.
  { etrans; [apply prints_cli|]. etrans; [apply prints_read|]. etrans; [apply prints_read|].
    apply prints_read. }
  do 2 step Hready. fold k. step Hready. cbn [scancode_callback set_kbs]. rewrite Hsc.
  unfold call_if. rewrite Z.eqb_refl. cbn [negb]. rewrite ret_bind.
  exists l1. split; [etrans; [exact Hp0|exact Hp]|]. unfold deliver, after_scancode.
  destruct (is_special_key sc); cbn [negb andb].
  - unfold handle_special_key. repeat step Hready. cbn [keymap_callback set_event set_kbs].
    unfold call_if. rewrite Hkm, Z.eqb_refl. cbn [negb]. repeat step Hready.
    cbn [special_callback set_event set_kbs]. rewrite Hsp, Z.eqb_refl. cbn [negb].
    by rewrite !ret_bind.
  - repeat step Hready. cbn [char_callback set_kbs]. destruct (char_callback k =? 0) eqn:E; cbn [negb andb].
    + done.
    + repeat step Hready. cbn [keyboard_state set_kbs].
      destruct (scancode_to_ascii _ _ =? 0); cbn [negb]; [done|]. repeat step Hready. done.
Qed.
End handler.

(** ** Properties *)

(** When the controller has a byte, the handler reads exactly that scancode,
    updates the modifier state with it, and calls the character callback with
    its character when the key is not special and has one, and only then;
    after it the interrupt is acknowledged and interrupts are enabled. *)
Theorem keyboard_handler_delivers `{Hw} {K} `{Has Keyboard K} `{Code K} fuel (s : K) l :
  let k := get_part s in
  let sc := scancode_at l in
  always_ready tx_empty fuel (COM1_PORT + 5) ->
  data_ready (l ++ [ECli]) = true -> data_ready (status_read (l ++ [ECli])) = true ->
  scancode_callback k = 0 -> special_callback k = 0 -> keymap_callback k = 0 ->
  let st := update_keyboard_state sc (keyboard_state k) in
  exists l1, prints l l1 /\ keyboard_handler fuel s l =
    ((if negb (is_special_key sc) && negb (char_callback k =? 0) && negb (scancode_to_ascii sc st =? 0)
      then call_void (char_callback k) [scancode_to_ascii sc st] else mret tt);;
     pic_send_eoi KEYBOARD_IRQ;; asm_sti) (set_part (after_scancode sc k) s) l1.
Proof. intros k sc Hr Hd1 Hd2 Hsc Hsp Hkm st. by apply (keyboard_handler_run fuel Hr s l). Qed.

(** An interrupt without a callback, whether or not there is a byte, returns
    with one end-of-interrupt command sent to the first controller and
    interrupts enabled; without a byte the state does not change. *)
Theorem keyboard_handler_acknowledges `{Hw} {K} `{Has Keyboard K} `{Code K} fuel (s : K) l :
  let k := get_part s in
  always_ready tx_empty fuel (COM1_PORT + 5) ->
  (data_ready (l ++ [ECli]) = true -> data_ready (status_read (l ++ [ECli])) = true) ->
  scancode_callback k = 0 -> special_callback k = 0 -> keymap_callback k = 0 -> char_callback k = 0 ->
  exists s' l', keyboard_handler fuel s l = Done (tt, s', l' ++ [ESti]) /\
    acknowledges (eoi_ports KEYBOARD_IRQ) l l' /\
    s' = if data_ready (l ++ [ECli]) then set_part (after_scancode (scancode_at l) k) s else s.
Proof.
  intros k Hr Hd Hsc Hsp Hkm Hch. destruct (data_ready (l ++ [ECli])) eqn:Hd1.
  - destruct (keyboard_handler_run fuel Hr s l Hd1 (Hd eq_refl) Hsc Hsp Hkm) as (l1 & Hp & ->).
    unfold deliver. fold k. rewrite Hch, Z.eqb_refl. rewrite andb_false_r. cbn [andb].
    rewrite ret_bind. eexists _, _. split.
    + rewrite (M_bind_done _ _ _ _ _ _ _ (pic_send_eoi_spec _ _ _)). reflexivity.
    + split; [|done]. by apply eois_acknowledge.
  - unfold keyboard_handler. rewrite asm_cli_bind, status_bit_bind.
    fold (data_ready (l ++ [ECli])). rewrite Hd1. cbn [negb].
    eexists _, _. split.
    + rewrite (M_bind_done _ _ _ _ _ _ _ (pic_send_eoi_spec _ _ _)). reflexivity.
    + split; [|done]. apply eois_acknowledge. etrans; [apply prints_cli|apply prints_read].
Qed.

(** A machine with a scancode (0xFF on every port, so key 0x7F released). *)
Lemma keyboard_handler_acknowledges_witness :
  exists s' l', keyboard_handler (H := w_hw) (H2 := w_code) 1 keyboard_initial [] =
    Done (tt, s', l' ++ [ESti]).
Proof.
  destruct (keyboard_handler_acknowledges (H := w_hw) (H1 := w_code) 1 keyboard_initial [])
    as (s' & l' & Hh & _); [by apply w_ready|reflexivity..|].
  exists s', l'. exact Hh.
Defined.

(** A machine that has the scancode 0x1E waiting. *)
Definition w_hw_key : Hw := {| hw_in _ port := if port =? KEYBOARD_DATA_PORT then 0x1E else 0xFF |}.

Lemma w_key_ready : @always_ready w_hw_key tx_empty 1 (COM1_PORT + 5).
Proof. intros l. exists 0%nat. split; [lia|reflexivity]. Qed.

Definition w_keyboard : Keyboard := set_kbs kbs_initial (MkKeyboard 0 0x1000 0 0 kbs_initial
  (MkSpecialKeyEvent 0 false kbs_initial)).

Lemma keyboard_handler_delivers_witness :
  exists l1, keyboard_handler (H := w_hw_key) (H2 := w_code) 1 w_keyboard [] =
    (call_void (H := w_code) 0x1000 [97];; pic_send_eoi KEYBOARD_IRQ;; asm_sti) w_keyboard l1.
Proof.
  destruct (keyboard_handler_delivers (H := w_hw_key) (H1 := w_code) 1 w_keyboard [])
    as (l1 & _ & Hh); [apply w_key_ready|reflexivity..|].
  exists l1. exact Hh.
Defined.
