(* ===== verification/Isr.v ===== *)
(** * Interrupt service routines (src/impl/kernel/isr.c)

    [isr] names the routines; [run_isr] is the code of each. A routine that
    halts the processor loops on [hlt] and never returns. *)
From Stdlib Require Import Ascii.
From S2P Require Export Console Pit Keyboard.

(** ** Definitions *)

Record InterruptFrame := MkFrame {
  error_code : Z;
  rip : Z;
  cs : Z;
  rflags : Z;
  rsp : Z;
  ss : Z;
}.

(** The loop of [print_hex]: [i + 1] digits left, the last one first. *)
Fixpoint hex_digits (i : nat) (num : Z) (hex_str : list Z) : list Z :=
  match i with
  | O => hex_str
  | S i =>
      let digit := num .& 0xF in
      let c := if digit <? 10 then chr "0" + digit else chr "A" + (digit - 10) in
      hex_digits i (num .>> 4) (c :: hex_str)
  end.

Definition hex_str (num : Z) : list Z := hex_digits 16 num [].

Section isr.
Context `{Hw} {K : Type}.
Context (fuel : nat).

Definition serial_line (s : string) : M K unit := serial_write_string fuel COM1_PORT (line s).

Definition print_hex `{Has Console K} (num : Z) : M K unit :=
  modify (print_str (bytes_of "0x"));;
  modify (print_str (hex_str num)).

(** [asm_cli(); for(;;) { asm_hlt(); }] *)
Definition halt : M K unit :=
  asm_cli;;
  while_ fuel (asm_hlt;; mret true).

(** A message and an end of interrupt; a message and a halt. *)
Definition report (s : string) (irq : Z) : M K unit := serial_line s;; pic_send_eoi irq.
Definition fatal (s : string) : M K unit := serial_line s;; halt.

Definition isr_default_handler : M K unit :=
  serial_line "Unhandled interrupt";;
  pic_send_eoi 0;;
  pic_send_eoi 8.

(** [cr2] is the register's value. *)
Definition asm_read_cr2 (cr2 : Z) : Z := cr2.

Definition isr_page_fault_handler `{Has Console K} (cr2 : Z) : M K unit :=
  let fault_addr := asm_read_cr2 cr2 in
  modify (print_str (bytes_of "Page Fault! Address: "));;
  print_hex fault_addr;;
  modify (print_str [10]);;
  serial_write_string fuel COM1_PORT
    (debug_text "Page Fault at address 0x%llx! System halted." [fault_addr]);;
  halt.

Definition isr_general_protection (frame : InterruptFrame) : M K unit :=
  serial_line "General protection fault";;
  (if negb (error_code frame =? 0) then
     serial_write_string fuel COM1_PORT (debug_text "Error code: 0x%llx" [error_code frame]);;
     serial_write_string fuel COM1_PORT (debug_text "RIP: 0x%llx" [rip frame]);;
     serial_write_string fuel COM1_PORT (debug_text "CS: 0x%llx" [cs frame]);;
     serial_write_string fuel COM1_PORT (debug_text "RFLAGS: 0x%llx" [rflags frame]);;
     serial_write_string fuel COM1_PORT (debug_text "RSP: 0x%llx" [rsp frame]);;
     serial_write_string fuel COM1_PORT (debug_text "SS: 0x%llx" [ss frame])
   else mret tt);;
  halt.

Definition isr_divide_by_zero := fatal "Divide by zero exception".
Definition isr_debug := report "Debug exception" 0.
Definition isr_nmi := report "NMI interrupt" 0.
Definition isr_breakpoint := report "Breakpoint exception" 0.
Definition isr_overflow := report "Overflow exception" 0.
Definition isr_bound_range := report "Bound range exceeded" 0.
Definition isr_invalid_opcode := fatal "Invalid opcode".
Definition isr_device_not_available := report "Device not available" 0.
Definition isr_double_fault := fatal "Double fault".
Definition isr_invalid_tss := report "Invalid TSS" 0.
Definition isr_segment_not_present := report "Segment not present" 0.
Definition isr_stack_segment := report "Stack segment fault" 0.
Definition isr_fpu_fault := report "FPU fault" 0.
Definition isr_alignment_check := report "Alignment check fault" 0.
Definition isr_machine_check := fatal "Machine check fault".
Definition isr_simd_exception := report "SIMD exception" 0.
Definition isr_virtualization_exception := report "Virtualization exception" 0.

(** Two more names of the same handlers, which the table does not use. *)
Definition isr_timer_handler `{Has Pit K} `{Code K} : M K unit := pit_handler fuel.
Definition isr_keyboard_handler `{Has Keyboard K} `{Code K} : M K unit := keyboard_handler fuel.

Definition isr_timer `{Has Pit K} `{Code K} : M K unit := pit_handler fuel.
Definition isr_keyboard `{Has Keyboard K} `{Code K} : M K unit := keyboard_handler fuel.
Definition isr_cascade : M K unit := pic_send_eoi 2.
Definition isr_com2 := report "COM2 interrupt" 3.
Definition isr_com1 := report "COM1 interrupt" 4.
Definition isr_lpt2 := report "LPT2 interrupt" 5.
Definition isr_floppy := report "Floppy interrupt" 6.
Definition isr_lpt1 := report "LPT1 interrupt" 7.
Definition isr_rtc := report "RTC interrupt" 8.
Definition isr_irq9 := report "IRQ9 interrupt" 9.
Definition isr_irq10 := report "IRQ10 interrupt" 10.
Definition isr_irq11 := report "IRQ11 interrupt" 11.
Definition isr_mouse `{Has Mouse K} `{Code K} : M K unit :=
  mouse_handler fuel;;
  serial_line "[ISR] Mouse interrupt handled".
Definition isr_coproc := report "Coprocessor interrupt" 13.
Definition isr_primary_ata := report "Primary ATA interrupt" 14.
Definition isr_secondary_ata := report "Secondary ATA interrupt" 15.
End isr.

(** ** The routines by name *)

Inductive isr :=
  | Default | DivideByZero | Debug | Nmi | Breakpoint | Overflow | BoundRange | InvalidOpcode
  | DeviceNotAvailable | DoubleFault | InvalidTss | SegmentNotPresent | StackSegment
  | GeneralProtection | PageFault | FpuFault | AlignmentCheck | MachineCheck | SimdException
  | VirtualizationException
  | Timer | Key | Cascade | Com2 | Com1 | Lpt2 | Floppy | Lpt1 | RtcIrq | Irq9 | Irq10 | Irq11
  | MouseIrq | Coproc | PrimaryAta | SecondaryAta.

#[export] Instance isr_eq_dec : EqDecision isr.
Proof. solve_decision. Defined.

Definition run_isr `{Hw} {K} `{Has Console K} `{Has Pit K} `{Has Keyboard K} `{Has Mouse K} `{Code K}
    (fuel : nat) (h : isr) (frame : InterruptFrame) (cr2 : Z) : M K unit :=
  match h with
  | Default => isr_default_handler fuel
  | DivideByZero => isr_divide_by_zero fuel
  | Debug => isr_debug fuel
  | Nmi => isr_nmi fuel
  | Breakpoint => isr_breakpoint fuel
  | Overflow => isr_overflow fuel
  | BoundRange => isr_bound_range fuel
  | InvalidOpcode => isr_invalid_opcode fuel
  | DeviceNotAvailable => isr_device_not_available fuel
  | DoubleFault => isr_double_fault fuel
  | InvalidTss => isr_invalid_tss fuel
  | SegmentNotPresent => isr_segment_not_present fuel
  | StackSegment => isr_stack_segment fuel
  | GeneralProtection => isr_general_protection fuel frame
  | PageFault => isr_page_fault_handler fuel cr2
  | FpuFault => isr_fpu_fault fuel
  | AlignmentCheck => isr_alignment_check fuel
  | MachineCheck => isr_machine_check fuel
  | SimdException => isr_simd_exception fuel
  | VirtualizationException => isr_virtualization_exception fuel
  | Timer => isr_timer fuel
  | Key => isr_keyboard fuel
  | Cascade => isr_cascade
  | Com2 => isr_com2 fuel
  | Com1 => isr_com1 fuel
  | Lpt2 => isr_lpt2 fuel
  | Floppy => isr_floppy fuel
  | Lpt1 => isr_lpt1 fuel
  | RtcIrq => isr_rtc fuel
  | Irq9 => isr_irq9 fuel
  | Irq10 => isr_irq10 fuel
  | Irq11 => isr_irq11 fuel
  | MouseIrq => isr_mouse fuel
  | Coproc => isr_coproc fuel
  | PrimaryAta => isr_primary_ata fuel
  | SecondaryAta => isr_secondary_ata fuel
  end.

(** The routines that stop the machine. *)
Definition is_fatal (h : isr) : bool :=
  match h with
  | DivideByZero | InvalidOpcode | DoubleFault | GeneralProtection | PageFault | MachineCheck => true
  | _ => false
  end.

(** ** Facts *)

Section facts.
Context `{Hw} {K : Type}.
Context (fuel : nat) (Hready : always_ready tx_empty fuel (COM1_PORT + 5)).

Lemma report_spec msg irq (s : K) l :
  exists l', report fuel msg irq s l = Done (tt, s, l') /\ acknowledges (eoi_ports irq) l l'.
Proof.
  unfold report, serial_line. step_print Hready. rewrite pic_send_eoi_spec. eexists. split; [done|].
  by apply eois_acknowledge.
Qed.

Lemma halt_spins n (s : K) l : while_ n (asm_hlt;; mret true) s l = Spin.
Proof. revert l. induction n as [|n IH]; intros l; [done|]. cbn [while_]. run. apply IH. Qed.

Lemma halt_never (s : K) l : halt fuel s l = Spin.
Proof. unfold halt. run. apply halt_spins. Qed.

Lemma print_then_halt str (k : unit -> M K unit) (s : K) l :
  (forall s l, k tt s l = Spin) -> (serial_write_string fuel COM1_PORT str ≫= k) s l = Spin.
Proof. intros Hk. destruct (print_bind fuel Hready str k s l) as (l' & _ & ->). apply Hk. Qed.

Lemma fatal_never msg (s : K) l : fatal fuel msg s l = Spin.
Proof. apply print_then_halt, halt_never. Qed.
End facts.

Definition hex_value (c : Z) : Z := if c <? chr "A" then c - chr "0" else c - chr "A" + 10.

Lemma hex_digits_spec i num acc v :
  0 <= num ->
  foldl (fun a c => 16 * a + hex_value c) v (hex_digits i num acc) =
  foldl (fun a c => 16 * a + hex_value c) (v * 16 ^ Z.of_nat i + num mod 16 ^ Z.of_nat i) acc.
Proof.
  revert num acc. induction i as [|i IH]; intros num acc Hn.
  - cbn [hex_digits]. change (16 ^ Z.of_nat 0) with 1. rewrite Z.mod_1_r. f_equal. lia.
  - cbn [hex_digits]. rewrite IH by (apply Z.shiftr_nonneg; lia). cbn [foldl]. f_equal.
    change 0xF with (Z.ones 4). rewrite Z.land_ones, Z.shiftr_div_pow2 by lia.
    change (2 ^ 4) with 16. pose proof (Z.mod_pos_bound num 16 ltac:(lia)).
    assert (hex_value (if num mod 16 <? 10 then chr "0" + num mod 16 else chr "A" + (num mod 16 - 10))
      = num mod 16) as ->.
    { unfold hex_value. change (chr "A") with 65. change (chr "0") with 48.
      destruct (Z.ltb_spec (num mod 16) 10); decide_lia; lia. }
    rewrite Nat2Z.inj_succ, Z.pow_succ_r by lia.
    rewrite (Z.rem_mul_r num 16) by lia. lia.
Qed.

(** ** Properties *)

(** The sixteen digits that [print_hex] shows for a 64-bit number, read as a
    hexadecimal number, are that number. *)
Theorem hex_str_reads_back num :
  0 <= num < 2 ^ 64 ->
  length (hex_str num) = 16%nat /\ foldl (fun a c => 16 * a + hex_value c) 0 (hex_str num) = num.
Proof.
  intros Hn. split; [done|]. unfold hex_str. rewrite hex_digits_spec by lia. cbn [foldl].
  change (16 ^ Z.of_nat 16) with (2 ^ 64). rewrite Z.mod_small by lia. lia.
Qed.

(** The six fatal exceptions never return to the code that raised them, whatever
    the frame: for every fuel the routine is still halting the processor. *)
Theorem fatal_isr_never_returns `{Hw} {K} `{Has Console K} `{Has Pit K} `{Has Keyboard K}
    `{Has Mouse K} `{Code K} fuel h frame cr2 (s : K) l :
  always_ready tx_empty fuel (COM1_PORT + 5) -> is_fatal h = true ->
  run_isr fuel h frame cr2 s l = Spin.
Proof.
  intros Hr Hf. destruct h; try discriminate; cbn [run_isr]; try by apply fatal_never.
  - unfold isr_general_protection, serial_line. apply print_then_halt; [done|]. intros s1 l1.
    destruct (negb _).
    + repeat (rewrite M_bind_assoc; apply print_then_halt; [done|]; intros ? ?).
      apply print_then_halt; [done|]. intros. apply halt_never.
    + apply halt_never.
  - unfold isr_page_fault_handler, print_hex. rewrite modify_bind, M_bind_assoc, !modify_bind.
    apply print_then_halt; [done|]. intros. apply halt_never.
Qed.

Lemma hex_str_reads_back_witness :
  hex_str 0xB8000 = bytes_of "00000000000B8000" /\
  foldl (fun a c => 16 * a + hex_value c) 0 (hex_str 0xB8000) = 0xB8000.
Proof. split; [reflexivity|]. apply (hex_str_reads_back 0xB8000). lia. Defined.

Lemma fatal_isr_never_returns_witness :
  run_isr (H := w_hw) (H4 := w_code) (K := Console * Pit * Keyboard * Mouse) 1 DoubleFault
    (MkFrame 0 0 0 0 0 0) 0 (console_initial, pit_initial, keyboard_initial, mouse_initial) [] = Spin.
Proof.
  apply (fatal_isr_never_returns (H := w_hw) (H4 := w_code) (K := Console * Pit * Keyboard * Mouse));
    [by apply w_ready|reflexivity].
Defined.
