(* ===== verification/Idt.v ===== *)
(** * Interrupt descriptor table (src/impl/kernel/idt.c, idt.h)

    The table is a list of 256 gates; where the linker puts a routine is the
    argument [addr]. *)
From S2P Require Export Isr.

(** ** Definitions *)

Record IDTEntry := MkGate {
  isr_low : Z;
  kernel_cs : Z;
  ist : Z;
  attributes : Z;
  isr_mid : Z;
  isr_high : Z;
  reserved : Z;
}.

Record IDTPointer := MkIdtPointer { limit : Z; base : Z }.

(** The statics, and what [lidt] loaded. *)
Record Idt := MkIdt { idt : list IDTEntry; idt_pointer : IDTPointer; idtr : option IDTPointer }.

Definition idt_initial : Idt :=
  MkIdt (replicate 256 (MkGate 0 0 0 0 0 0 0)) (MkIdtPointer 0 0) None.

(** [lidt] with a pointer to the limit (2 bytes) and the base (8 bytes). *)
Definition asm_lidt (m : mem) (ptr : Z) (t : Idt) : Idt :=
  MkIdt (idt t) (idt_pointer t) (Some (MkIdtPointer (load_le 2 m ptr) (load64 m (ptr + 2)))).

Section idt.
Context `{Hw} {K : Type} `{Has Idt K}.

Definition idt_set_entry (vector isr flags : Z) : M K unit :=
  let entry := MkGate (isr .& 0xFFFF) 0x08 0 flags ((isr .>> 16) .& 0xFFFF)
                 ((isr .>> 32) .& 0xFFFFFFFF) 0 in
  modify (fun t => MkIdt (<[Z.to_nat (u8 vector) := entry]> (idt t)) (idt_pointer t) (idtr t)).

(** The calls after the loop, in order. *)
Definition idt_vectors : list (Z * isr) :=
  [ (0, DivideByZero); (1, Debug); (2, Nmi); (3, Breakpoint); (4, Overflow); (5, BoundRange);
    (6, InvalidOpcode); (7, DeviceNotAvailable); (8, DoubleFault); (10, InvalidTss);
    (11, SegmentNotPresent); (12, StackSegment); (13, GeneralProtection); (14, PageFault);
    (16, FpuFault); (17, AlignmentCheck); (18, MachineCheck); (19, SimdException);
    (20, VirtualizationException);
    (32, Timer); (33, Key); (34, Cascade); (35, Com2); (36, Com1); (37, Lpt2); (38, Floppy);
    (39, Lpt1); (40, RtcIrq); (41, Irq9); (42, Irq10); (43, Irq11); (44, MouseIrq); (45, Coproc);
    (46, PrimaryAta); (47, SecondaryAta) ].

(** [base] is the address of the table. *)
Definition idt_init (addr : isr -> Z) (base : Z) (fuel : nat) : M K unit :=
  for_each (seqZ 0 256) (fun i => idt_set_entry i (addr Default) 0x8E);;
  for_each idt_vectors (fun '(vector, h) => idt_set_entry vector (addr h) 0x8E);;
  modify (fun t => MkIdt (idt t) (MkIdtPointer (256 * 16 - 1) base) (idtr t));;
  modify (fun t => MkIdt (idt t) (idt_pointer t) (Some (idt_pointer t)));;
  serial_write_string fuel COM1_PORT (line "IDT initialized").

Definition idt_enable_interrupts (fuel : nat) : M K unit :=
  emit ESti;;
  serial_write_string fuel COM1_PORT (line "Interrupts enabled").

Definition idt_disable_interrupts (fuel : nat) : M K unit :=
  emit ECli;;
  serial_write_string fuel COM1_PORT (line "Interrupts disabled").
End idt.

(** ** The processor's view *)

(** The address that an interrupt through the gate jumps to. *)
Definition gate_target (e : IDTEntry) : Z := isr_low e + 2 ^ 16 * isr_mid e + 2 ^ 32 * isr_high e.

(** A present interrupt gate of ring 0 in the kernel's code segment. *)
Definition gate_ok (e : IDTEntry) : bool :=
  (attributes e =? 0x8E) && (kernel_cs e =? 0x08) && (ist e =? 0) && (reserved e =? 0).

(** The routine that belongs to a vector: those of the processor's exceptions by
    their architectural numbers, those of the sixteen lines of the interrupt
    controllers from 32 on, and the default everywhere else. *)
Definition handler_of (v : Z) : isr :=
  match v with
  | 0 => DivideByZero | 1 => Debug | 2 => Nmi | 3 => Breakpoint | 4 => Overflow | 5 => BoundRange
  | 6 => InvalidOpcode | 7 => DeviceNotAvailable | 8 => DoubleFault
  | 10 => InvalidTss | 11 => SegmentNotPresent | 12 => StackSegment | 13 => GeneralProtection | 14 => PageFault
  | 16 => FpuFault | 17 => AlignmentCheck | 18 => MachineCheck | 19 => SimdException | 20 => VirtualizationException
  | 32 => Timer | 33 => Key | 34 => Cascade | 35 => Com2 | 36 => Com1 | 37 => Lpt2 | 38 => Floppy | 39 => Lpt1
  | 40 => RtcIrq | 41 => Irq9 | 42 => Irq10 | 43 => Irq11 | 44 => MouseIrq | 45 => Coproc
  | 46 => PrimaryAta | 47 => SecondaryAta
  | _ => Default
  end.

(** ** Facts *)

Definition gate (isr : Z) : IDTEntry :=
  MkGate (isr .& 0xFFFF) 0x08 0 0x8E ((isr .>> 16) .& 0xFFFF) ((isr .>> 32) .& 0xFFFFFFFF) 0.

Lemma gate_spec isr : gate_target (gate isr) = u64 isr /\ gate_ok (gate isr) = true.
Proof.
  split; [|done]. unfold gate_target, gate. cbn [isr_low isr_mid isr_high].
  change 0xFFFF with (Z.ones 16). change 0xFFFFFFFF with (Z.ones 32).
  rewrite !Z.land_ones, !Z.shiftr_div_pow2 by lia. unfold u64.
  change (2 ^ 64) with (2 ^ 16 * (2 ^ 16 * 2 ^ 32)).
  rewrite (Z.rem_mul_r isr (2 ^ 16)) by lia. rewrite (Z.rem_mul_r (isr / 2 ^ 16) (2 ^ 16)) by lia.
  rewrite Z.div_div by lia. change (2 ^ 16 * 2 ^ 16) with (2 ^ 32). lia.
Qed.

Section install.
Context {K : Type} `{Has Idt K} (addr : isr -> Z).

Definition install (t : list IDTEntry) (p : Z * isr) : list IDTEntry :=
  <[Z.to_nat (u8 p.1) := gate (addr p.2)]> t.

Lemma for_each_install (f : Z * isr -> M K unit) ps s l :
  (forall p s l, f p s l = idt_set_entry p.1 (addr p.2) 0x8E s l) ->
  for_each ps f s l =
  Done (tt, set_part (MkIdt (foldl install (idt (get_part s)) ps) (idt_pointer (get_part s))
                        (idtr (get_part s))) s, l).
Proof.
  intros Hf. revert s. induction ps as [|p ps IH]; intros s; cbn [for_each foldl].
  - unfold mret, M_ret. do 3 f_equal. rewrite <- (set_get s) at 1. f_equal. by destruct (get_part s).
  - unfold mbind, M_bind. rewrite Hf. unfold idt_set_entry, modify. rewrite IH. rewrite get_set, set_set.
    done.
Qed.

Lemma install_length t ps : length (foldl install t ps) = length t.
Proof.
  revert t. induction ps as [|p ps IH]; intros t; cbn [foldl]; [done|].
  rewrite IH. unfold install. by rewrite length_insert.
Qed.

(** The gate of vector [v] is the last one installed there. *)
Lemma install_lookup t ps v :
  0 <= v < 256 -> length t = 256%nat -> Forall (fun p => 0 <= p.1 < 256) ps ->
  foldl install t ps !! Z.to_nat v =
  match list_find (fun p => p.1 = v) (rev ps) with
  | Some (_, p) => Some (gate (addr p.2))
  | None => t !! Z.to_nat v
  end.
Proof.
  intros Hv. revert t. induction ps as [|p ps IH] using rev_ind; intros t Hl Hps; [done|].
  apply Forall_app in Hps as [Hps Hp]. inversion Hp as [|? ? Hp1]; subst.
  rewrite foldl_app, rev_app_distr. cbn [foldl rev app list_find]. unfold install at 1.
  rewrite u8_id by lia. destruct (decide (p.1 = v)) as [<-|Hne].
  - by rewrite list_lookup_insert_eq by (rewrite install_length; lia).
  - rewrite list_lookup_insert_ne by lia. rewrite IH by done.
    by destruct (list_find _ (rev ps)) as [[i q]|].
Qed.
End install.

(** All the gates that [idt_init] installs: the default everywhere, then the
    others. *)
Definition all_vectors : list (Z * isr) := ((fun i => (i, Default)) <$> seqZ 0 256) ++ idt_vectors.

Lemma all_vectors_range : Forall (fun p => 0 <= p.1 < 256) all_vectors.
Proof. apply (bool_decide_unpack _). vm_compute. exact I. Qed.

Lemma all_vectors_handler v :
  0 <= v < 256 ->
  exists i p, list_find (fun p => p.1 = v) (rev all_vectors) = Some (i, p) /\ p.2 = handler_of v.
Proof.
  intros Hv.
  assert (forallb (fun v => match list_find (fun p => p.1 = v) (rev all_vectors) with
    | Some (_, p) => bool_decide (p.2 = handler_of v) | None => false end) (seqZ 0 256) = true) as Hall
    by (vm_compute; reflexivity).
  rewrite forallb_forall in Hall. specialize (Hall v).
  destruct (list_find _ _) as [[i p]|].
  - exists i, p. split; [done|]. eapply bool_decide_eq_true, Hall. apply list_elem_of_In, elem_of_seqZ. lia.
  - exfalso. discriminate Hall. apply list_elem_of_In, elem_of_seqZ. lia.
Qed.

(** The state after [idt_init], and what its table holds. *)
Lemma idt_init_run `{Hw} {K} `{Has Idt K} addr base fuel (s : K) l :
  always_ready tx_empty fuel (COM1_PORT + 5) ->
  exists l', idt_init addr base fuel s l =
      Done (tt, set_part (MkIdt (foldl (install addr) (idt (get_part s)) all_vectors) (MkIdtPointer 4095 base)
                           (Some (MkIdtPointer 4095 base))) s, l') /\ prints l l'.
Proof.
  intros Hr. unfold idt_init.
  assert (for_each (seqZ 0 256) (fun i => idt_set_entry i (addr Default) 0x8E) s l =
    for_each ((fun i => (i, Default)) <$> seqZ 0 256) (fun p => idt_set_entry p.1 (addr p.2) 0x8E) s l) as E1.
  { generalize s l. induction (seqZ 0 256) as [|i js IH]; intros s0 l0; [done|].
    cbn [fmap list_fmap for_each fst snd]. unfold mbind, M_bind, idt_set_entry, modify. apply IH. }
  rewrite (for_each_install addr) in E1 by done. rewrite (M_bind_done _ _ _ _ _ _ _ E1).
  rewrite (M_bind_done _ _ _ _ _ _ _
    (for_each_install addr (fun '(vector, h) => idt_set_entry vector (addr h) 0x8E) idt_vectors _ _
      (fun p _ _ => ltac:(by destruct p)))).
  rewrite !modify_bind, !get_set, !set_set. cbn [idt idt_pointer idtr]. rewrite <- foldl_app.
  fold all_vectors. rewrite ?get_set, ?set_set. cbn [idt idt_pointer idtr].
  match goal with |- context [serial_write_string _ _ ?str ?s1 ?l1] =>
    destruct (print_last fuel Hr str s1 l1) as (l' & Hp & Hrun) end.
  exists l'. split; [exact Hrun|done].
Qed.

Lemma installed_gates addr t v :
  length t = 256%nat -> 0 <= v < 256 ->
  exists e, foldl (install addr) t all_vectors !! Z.to_nat v = Some e /\
    gate_ok e = true /\ gate_target e = u64 (addr (handler_of v)).
Proof.
  intros Hlen Hv. destruct (all_vectors_handler v Hv) as (i & p & Hf & Hh).
  rewrite install_lookup, Hf by (done || apply all_vectors_range). eexists. split; [done|].
  rewrite <- Hh. destruct (gate_spec (addr p.2)). done.
Qed.

(** ** Properties *)

(** C32. After [idt_init] the processor's table register holds the table and its size
    less one, and every one of the 256 gates is a present ring-0 interrupt
    gate whose three address fields put together are the address of the
    routine that belongs to the vector ([handler_of]: the exceptions by their
    architectural numbers, the sixteen lines from 32 on, the default
    elsewhere). *)
Theorem idt_init_installs `{Hw} {K} `{Has Idt K} addr base fuel (s : K) l :
  always_ready tx_empty fuel (COM1_PORT + 5) -> length (idt (get_part s)) = 256%nat ->
  exists s' l', idt_init addr base fuel s l = Done (tt, s', l') /\ prints l l' /\
    idtr (get_part s') = Some (MkIdtPointer 4095 base) /\
    forall v, 0 <= v < 256 -> exists e, idt (get_part s') !! Z.to_nat v = Some e /\
      gate_ok e = true /\ gate_target e = u64 (addr (handler_of v)).
Proof.
  intros Hr Hlen. destruct (idt_init_run addr base fuel s l Hr) as (l' & E & Hp). eexists _, l'.
  split; [exact E|]. split; [done|]. rewrite get_set. split; [done|]. intros v Hv. by apply installed_gates.
Qed.

(** An interrupt on any line of the two controllers but the timer's, the keyboard's
    and the mouse's runs the routine that [idt_init] installed at vector 32 +
    line; it returns with the kernel's state unchanged, having sent exactly
    one end-of-interrupt command to each controller the line goes through. *)
Theorem irq_is_acknowledged `{Hw} {K} `{Has Console K} `{Has Pit K} `{Has Keyboard K}
    `{Has Mouse K} `{Code K} fuel irq frame cr2 (s : K) l :
  always_ready tx_empty fuel (COM1_PORT + 5) ->
  2 <= irq < 16 -> irq <> 12 ->
  exists l', run_isr fuel (handler_of (32 + irq)) frame cr2 s l = Done (tt, s, l') /\
    acknowledges (eoi_ports irq) l l'.
Proof.
  intros Hr Hirq Hne.
  assert (irq ∈ [2; 3; 4; 5; 6; 7; 8; 9; 10; 11; 13; 14; 15]) as Hin
    by (rewrite !elem_of_cons; lia).
  rewrite !elem_of_cons, elem_of_nil in Hin. destruct_or! Hin; try done; subst irq;
    (exact (report_spec fuel Hr _ _ s l) || idtac).
  eexists. split; [apply pic_send_eoi_spec|]. by apply eois_acknowledge.
Qed.

Lemma idt_init_installs_witness :
  exists s' l', idt_init (H := w_hw) (K := Idt) (fun _ => 0x123456789A) 0x5000 1 idt_initial [] = Done (tt, s', l') /\
    exists e, idt s' !! 33%nat = Some e /\ gate_target e = 0x123456789A.
Proof.
  destruct (idt_init_installs (H := w_hw) (K := Idt) (fun _ => 0x123456789A) 0x5000 1 idt_initial [])
    as (s' & l' & Hrun & _ & _ & He); [by apply w_ready|reflexivity|].
  exists s', l'. split; [exact Hrun|]. destruct (He 33) as (e & H1 & _ & H2); [lia|].
  exists e. split; [exact H1|exact H2].
Defined.

Lemma irq_is_acknowledged_witness :
  exists l', run_isr (H := w_hw) (H4 := w_code) (K := Console * Pit * Keyboard * Mouse) 1 (handler_of 46)
    (MkFrame 0 0 0 0 0 0) 0 (console_initial, pit_initial, keyboard_initial, mouse_initial) [] =
    Done (tt, (console_initial, pit_initial, keyboard_initial, mouse_initial), l') /\
    acknowledges [PIC2_COMMAND; PIC1_COMMAND] [] l'.
Proof.
  apply (irq_is_acknowledged (H := w_hw) (H4 := w_code) (K := Console * Pit * Keyboard * Mouse) 1 14);
    [by apply w_ready|lia|lia].
Defined.
