(* ===== verification/Ide.v ===== *)
(** * IDE disk driver (src/impl/drivers/storage/ide.c, ide.h)

    Transfers go through the command block of a drive at eight ports from
    [base]; the data land in the byte memory. The theorems speak of the
    registers of the drive's command block, a fold over the log ([ata_run],
    after the ATA specification: each of the count and address registers is
    two bytes deep, and a 48-bit command takes both bytes). *)
From S2P Require Export Machine.

(** ** Definitions *)

Definition IDE_PRIMARY_SECCOUNT := 0x1F2.
Definition IDE_PRIMARY_LBA_LOW := 0x1F3.
Definition IDE_PRIMARY_LBA_MID := 0x1F4.
Definition IDE_PRIMARY_LBA_HIGH := 0x1F5.
Definition IDE_PRIMARY_STATUS := 0x1F7.
Definition IDE_PRIMARY_COMMAND := 0x1F7.
Definition IDE_SR_ERR := 0x01.
Definition IDE_SR_DRQ := 0x08.
Definition IDE_SR_DRDY := 0x40.
Definition IDE_SR_BSY := 0x80.
Definition IDE_CMD_READ_PIO := 0x20.
Definition IDE_CMD_READ_PIO_EXT := 0x24.
Definition IDE_CMD_WRITE_PIO := 0x30.
Definition IDE_CMD_WRITE_PIO_EXT := 0x34.
Definition IDE_CMD_CACHE_FLUSH := 0xE7.
Definition IDE_CMD_IDENTIFY := 0xEC.
Definition IDE_IDENT_DEVICETYPE := 0.
Definition IDE_IDENT_SERIAL := 20.
Definition IDE_IDENT_MODEL := 54.
Definition IDE_IDENT_CAPABILITIES := 98.
Definition IDE_IDENT_MAX_LBA := 120.
Definition IDE_IDENT_COMMANDSETS := 164.
Definition IDE_IDENT_MAX_LBA_EXT := 200.

Record IDEDevice := MkIde {
  dev_base : Z;
  ctrl : Z;
  bmide : Z;
  slave : Z;
  use_lba48 : bool;
  signature : Z;
  capabilities : Z;
  commandsets : Z;
  size : Z;
}.

(** [while (i >= 0) if (dest[i] == ' ') dest[i] = '\0'; else break;], [k] being [i + 1]. *)
Fixpoint trim (k : nat) (dest : list Z) : list Z :=
  match k with
  | O => dest
  | S i => if default 0 (dest !! i) =? 32 then trim i (<[i := 0]> dest) else dest
  end.

(** The text of [length] characters from word [offset] of the identification data. *)
Definition ide_read_identify_space (buf : list Z) (offset length : Z) : list Z :=
  let word i := default 0 (buf !! Z.to_nat (offset + i)) in
  let dest := mjoin ((fun i => [(word i .>> 8) .& 0xFF; word i .& 0xFF]) <$> seqZ 0 (length / 2)) ++ [0] in
  trim (Z.to_nat length) dest.

(** Two words of the identification data read as one 32-bit number. *)
Definition word32 (data : list Z) (i : Z) : Z :=
  default 0 (data !! Z.to_nat i) + 2 ^ 16 * default 0 (data !! Z.to_nat (i + 1)).

Section ide.
Context `{Hw} {K : Type}.

Definition ide_wait_ready (base : Z) : M K Z :=
  timeout ← retry (Z.to_nat 100000)
    (status ← port_byte_in (base + 7);
     if negb (tst status IDE_SR_BSY) && tst status IDE_SR_DRDY then mret true
     else port_io_wait;; mret false);
  mret (if (timeout =? 0)%nat then -1 else 0).

Definition ide_wait_busy (base : Z) : M K Z :=
  timeout ← retry (Z.to_nat 100000)
    (status ← port_byte_in (base + 7);
     if negb (tst status IDE_SR_BSY) then mret true else port_io_wait;; mret false);
  mret (if (timeout =? 0)%nat then -1 else 0).

Definition ide_select_drive (dev : IDEDevice) : M K unit :=
  port_byte_out (dev_base dev + 6) (0xA0 .| (slave dev .<< 4));;
  port_io_wait.

(** The wait of [ide_identify], and its two early returns. *)
Fixpoint identify_wait (timeout : nat) (base : Z) : M K Z :=
  match timeout with
  | S (S _ as timeout) =>
      status ← port_byte_in (base + IDE_PRIMARY_STATUS);
      if tst status IDE_SR_ERR then mret (-1)
      else if tst status IDE_SR_DRQ then mret 0
      else identify_wait timeout base
  | _ => mret (-1)
  end.

(** [n] words read from a port, after the words [data]. *)
Fixpoint read_words (n : nat) (port : Z) (data : list Z) : M K (list Z) :=
  match n with
  | O => mret data
  | S n => w ← port_word_in port; read_words n port (data ++ [w])
  end.

(** The result with the device's fields; the two strings of the source are
    not used after they are read. *)
Definition ide_identify (dev : IDEDevice) : M K (Z * IDEDevice) :=
  let base := dev_base dev in
  ide_select_drive dev;;
  port_byte_out (base + IDE_PRIMARY_SECCOUNT) 0;;
  port_byte_out (base + IDE_PRIMARY_LBA_LOW) 0;;
  port_byte_out (base + IDE_PRIMARY_LBA_MID) 0;;
  port_byte_out (base + IDE_PRIMARY_LBA_HIGH) 0;;
  port_byte_out (base + IDE_PRIMARY_COMMAND) IDE_CMD_IDENTIFY;;
  r ← identify_wait (Z.to_nat 100000) base;
  if r <? 0 then mret (-1, dev)
  else
    data ← read_words 256 base [];
    let word i := default 0 (data !! Z.to_nat i) in
    let sets := word32 data IDE_IDENT_COMMANDSETS in
    let lba48 := tst sets (1 .<< 26) in
    let sectors := word32 data (if lba48 then IDE_IDENT_MAX_LBA_EXT else IDE_IDENT_MAX_LBA) in
    mret (0, MkIde base (ctrl dev) (bmide dev) (slave dev) lba48 (word IDE_IDENT_DEVICETYPE) (word IDE_IDENT_CAPABILITIES)
               sets sectors).

(** The command bytes; [ide_read_sectors] and [ide_write_sectors] differ in
    the two opcodes. *)
Definition ide_command (dev : IDEDevice) (lba sectors op28 op48 : Z) : M K unit :=
  let base := dev_base dev in
  if use_lba48 dev then
    port_byte_out (base + 2) sectors;;
    port_byte_out (base + 3) (u8 lba);;
    port_byte_out (base + 4) (u8 (lba .>> 8));;
    port_byte_out (base + 5) (u8 (lba .>> 16));;
    port_byte_out (base + 2) (u8 (lba .>> 24));;
    port_byte_out (base + 3) (u8 (lba .>> 32));;
    port_byte_out (base + 4) (u8 (lba .>> 40));;
    port_byte_out (base + 7) op48
  else
    port_byte_out (base + 2) sectors;;
    port_byte_out (base + 3) (u8 lba);;
    port_byte_out (base + 4) (u8 (lba .>> 8));;
    port_byte_out (base + 5) (u8 (lba .>> 16));;
    port_byte_out (base + 6) (0xE0 .| (slave dev .<< 4) .| ((lba .>> 24) .& 0x0F));;
    port_byte_out (base + 7) op28.

Context `{Has mem K}.

(** [n] words from a port to the buffer, and back. *)
Fixpoint read_data (n : nat) (base buf : Z) : M K unit :=
  match n with
  | O => mret tt
  | S n =>
      w ← port_word_in base;
      modify (fun m => store_le 2 m buf w);;
      read_data n base (buf + 2)
  end.

Fixpoint write_data (n : nat) (base buf : Z) : M K unit :=
  match n with
  | O => mret tt
  | S n =>
      m ← gets id;
      port_word_out base (load_le 2 m buf);;
      write_data n base (buf + 2)
  end.

Fixpoint read_sector_loop (sectors : nat) (base buf : Z) : M K Z :=
  match sectors with
  | O => mret 0
  | S sectors =>
      r ← ide_wait_ready base;
      if r <? 0 then mret (-1)
      else read_data 256 base buf;; read_sector_loop sectors base (buf + 512)
  end.

Fixpoint write_sector_loop (sectors : nat) (base buf : Z) : M K Z :=
  match sectors with
  | O => mret 0
  | S sectors =>
      r ← ide_wait_ready base;
      if r <? 0 then mret (-1)
      else
        write_data 256 base buf;;
        (if (sectors =? 0)%nat then
           port_byte_out (base + 7) IDE_CMD_CACHE_FLUSH;; ide_wait_ready base;; mret tt
         else mret tt);;
        write_sector_loop sectors base (buf + 512)
  end.

(** [dev] is [None] for a null pointer; [sectors] is a [uint8_t]. *)
Definition ide_read_sectors (dev : option IDEDevice) (lba sectors buffer : Z) : M K Z :=
  match dev with
  | None => mret (-1)
  | Some dev =>
      if (buffer =? 0) || (sectors =? 0) then mret (-1)
      else
        ide_select_drive dev;;
        r ← ide_wait_ready (dev_base dev);
        if r <? 0 then mret (-1)
        else
          ide_command dev lba sectors IDE_CMD_READ_PIO IDE_CMD_READ_PIO_EXT;;
          read_sector_loop (Z.to_nat sectors) (dev_base dev) buffer
  end.

Definition ide_write_sectors (dev : option IDEDevice) (lba sectors buffer : Z) : M K Z :=
  match dev with
  | None => mret (-1)
  | Some dev =>
      if (buffer =? 0) || (sectors =? 0) then mret (-1)
      else
        ide_select_drive dev;;
        r ← ide_wait_ready (dev_base dev);
        if r <? 0 then mret (-1)
        else
          ide_command dev lba sectors IDE_CMD_WRITE_PIO IDE_CMD_WRITE_PIO_EXT;;
          write_sector_loop (Z.to_nat sectors) (dev_base dev) buffer
  end.
End ide.

(** ** The drive's registers *)

(** A register two bytes deep: the byte written before the last, and the last. *)
Abbreviation reg := (Z * Z)%type.

Record ata := MkAta {
  a_count : reg;
  a_low : reg;
  a_mid : reg;
  a_high : reg;
  a_device : Z;
  a_command : option Z;
}.

Definition push (r : reg) (v : Z) : reg := (r.2, v).

Definition ata_step (base : Z) (a : ata) (e : event) : ata :=
  let '(MkAta c lo mi hi d cmd) := a in
  match e with
  | EOut p v =>
      if p =? base + 2 then MkAta (push c v) lo mi hi d cmd
      else if p =? base + 3 then MkAta c (push lo v) mi hi d cmd
      else if p =? base + 4 then MkAta c lo (push mi v) hi d cmd
      else if p =? base + 5 then MkAta c lo mi (push hi v) d cmd
      else if p =? base + 6 then MkAta c lo mi hi v cmd
      else if p =? base + 7 then MkAta c lo mi hi d (Some v)
      else a
  | _ => a
  end.

Definition ata_run (base : Z) : ata -> log -> ata := foldl (ata_step base).

(** What a 28-bit command asks for: drive, first sector and count. *)
Definition ata_lba28 (a : ata) : Z * Z * Z :=
  (a_device a / 16 mod 2,
   (a_low a).2 + 2 ^ 8 * (a_mid a).2 + 2 ^ 16 * (a_high a).2 + 2 ^ 24 * (a_device a mod 16),
   (a_count a).2).

(** What a 48-bit command asks for: first sector and count. *)
Definition ata_lba48 (a : ata) : Z * Z :=
  ((a_low a).2 + 2 ^ 8 * (a_mid a).2 + 2 ^ 16 * (a_high a).2 +
   2 ^ 24 * (a_low a).1 + 2 ^ 32 * (a_mid a).1 + 2 ^ 40 * (a_high a).1,
   (a_count a).2 + 2 ^ 8 * (a_count a).1).

(** ** Facts *)

(** Events that the drive's command registers do not see. *)
Definition unseen (base : Z) (e : event) : Prop :=
  match e with EOut p _ => p < base + 2 \/ base + 7 < p | _ => True end.

(** The events of a wait: reads of the status, and the small delays. *)
Definition quiet (base : Z) (e : event) : Prop :=
  match e with EIn p _ => p = base + 7 | EOut p _ => p = 0x80 | _ => False end.

Lemma ata_run_unseen base a ext : Forall (unseen base) ext -> ata_run base a ext = a.
Proof.
  induction 1 as [|e ext He Hext IH]; [done|]. unfold ata_run in *. cbn [foldl].
  assert (ata_step base a e = a) as ->; [|done].
  destruct a, e as [|p v| | | | | |]; cbn [ata_step unseen] in *; try done. by decide_lia.
Qed.

Lemma ata_run_app base a l l' : ata_run base a (l ++ l') = ata_run base (ata_run base a l) l'.
Proof. apply foldl_app. Qed.

(** The drive is ready, for a driver that reads its status at log [l]. *)
Definition ide_status_ready (status : Z) : bool :=
  negb (tst status IDE_SR_BSY) && tst status IDE_SR_DRDY.

(** The [n+1]st status the driver polls from log [l] is the first that is ready. *)
Fixpoint ide_ready_in `{Hw} (n : nat) (base : Z) (l : log) : bool :=
  let v := inb_val l (base + 7) in
  match n with
  | O => ide_status_ready v
  | S n => negb (ide_status_ready v) && ide_ready_in n base (l ++ [EIn (base + 7) v; EOut 0x80 0])
  end.

(** Whenever the driver polls, the drive gets ready before the driver gives up. *)
Definition drive_ready `{Hw} (base : Z) : Prop :=
  forall l, exists n, (n < Z.to_nat 99999)%nat /\ ide_ready_in n base l = true.

(** A drive at a base whose command block is not the port of [port_io_wait]. *)
Definition ide_base (base : Z) : Prop := 0x80 < base < 2 ^ 16 - 7.

Lemma quiet_unseen base ext : ide_base base -> Forall (quiet base) ext -> Forall (unseen base) ext.
Proof.
  unfold ide_base. intros Hb Hq. eapply Forall_impl; [exact Hq|].
  intros [p v|p v| | | | | |]; simpl; try done. lia.
Qed.

Section ide_facts.
Context `{Hw} {K : Type}.

Definition ide_poll (base : Z) : M K bool :=
  status ← port_byte_in (base + 7);
  if negb (tst status IDE_SR_BSY) && tst status IDE_SR_DRDY then mret true
  else port_io_wait;; mret false.

Lemma ide_poll_spec base (s : K) l :
  ide_base base ->
  let v := inb_val l (base + 7) in
  ide_poll base s l =
    if ide_status_ready v then Done (true, s, l ++ [EIn (base + 7) v])
    else Done (false, s, l ++ [EIn (base + 7) v; EOut 0x80 0]).
Proof.
  intros Hb v. unfold ide_base in Hb. unfold ide_poll, ide_status_ready. run. rewrite u16_id by lia.
  fold v. destruct (negb (tst v IDE_SR_BSY) && tst v IDE_SR_DRDY); [done|]. by rewrite <- app_assoc.
Qed.

Lemma retry_step timeout (body : M K bool) s l :
  retry (S (S timeout)) body s l =
  (b ← body; if b : bool then mret (S timeout) else retry (S timeout) body) s l.
Proof. done. Qed.

Lemma ide_retry_spec timeout n base (s : K) l :
  ide_base base -> ide_ready_in n base l = true -> (S n < timeout)%nat ->
  exists left ext, retry timeout (ide_poll base) s l = Done (left, s, l ++ ext) /\
    (0 < left)%nat /\ Forall (quiet base) ext.
Proof.
  intros Hb. revert n l. induction timeout as [|[|timeout] IH]; intros n l Hr Ht; [lia|lia|].
  rewrite retry_step. set (v := inb_val l (base + 7)). pose proof (ide_poll_spec base s l Hb) as Hp.
  cbv zeta in Hp. fold v in Hp. destruct n as [|n]; cbn [ide_ready_in] in Hr; fold v in Hr.
  - rewrite Hr in Hp. rewrite (M_bind_done _ _ _ _ _ _ _ Hp).
    exists (S timeout), [EIn (base + 7) v]. split_and!; [done|lia|by repeat constructor].
  - apply andb_true_iff in Hr as [Hv Hr]. apply negb_true_iff in Hv. rewrite Hv in Hp.
    rewrite (M_bind_done _ _ _ _ _ _ _ Hp). destruct (IH n _ Hr ltac:(lia)) as (left & ext & E & Hl & Hq).
    exists left, ([EIn (base + 7) v; EOut 0x80 0] ++ ext). split_and!; [|done|].
    + rewrite E. by rewrite <- app_assoc.
    + by repeat constructor.
Qed.

Lemma ide_wait_ready_spec base (s : K) l :
  ide_base base -> drive_ready base ->
  exists ext, ide_wait_ready base s l = Done (0, s, l ++ ext) /\ Forall (quiet base) ext.
Proof.
  intros Hb Hd. destruct (Hd l) as (n & Hn & Hr).
  destruct (ide_retry_spec (Z.to_nat 100000) n base s l Hb Hr ltac:(lia)) as (left & ext & E & Hl & Hq).
  exists ext. split; [|done]. unfold ide_wait_ready. fold (ide_poll base).
  rewrite (M_bind_done _ _ _ _ _ _ _ E).
  by destruct left; [lia|].
Qed.

(** What the driver read from the drive's data port and the port after it. *)
Definition data_in (base : Z) (l : log) : list (Z * Z) :=
  omap (fun e => match e with
                 | EIn p v => if (p =? base) || (p =? base + 1) then Some (p, v) else None
                 | _ => None
                 end) l.

Lemma data_in_app base l l' : data_in base (l ++ l') = data_in base l ++ data_in base l'.
Proof. apply omap_app. Qed.

Lemma data_in_quiet base ext : Forall (quiet base) ext -> data_in base ext = [].
Proof.
  induction 1 as [|e ext He Hext IH]; [done|].
  change (e :: ext) with ([e] ++ ext). rewrite data_in_app, IH, app_nil_r. destruct e as [p v|p v| | | | | |]; try done.
  simpl in He. subst. unfold data_in. simpl.
  destruct (Z.eqb_spec (base + 7) base), (Z.eqb_spec (base + 7) (base + 1)); done || lia.
Qed.

(** The bytes [bs] came from the two data ports in turn, the first from [base]. *)
Fixpoint alternate (base : Z) (bs : list (Z * Z)) : Prop :=
  match bs with
  | [] => True
  | (p, _) :: (q, _) :: bs => p = base /\ q = base + 1 /\ alternate base bs
  | _ => False
  end.

Lemma alternate_app base bs bs' : alternate base bs -> alternate base bs' -> alternate base (bs ++ bs').
Proof.
  revert bs. fix IH 1. intros [|[p v] [|[q w] bs]] H1 H2; simpl in *; [done|done|].
  destruct H1 as (-> & -> & H1). split_and!; [done|done|]. by apply IH.
Qed.

(** A transfer into the buffer: the state and the log after it. *)
Record delivers `{Has mem K} (base buf n : Z) (s s' : K) (ext : log) : Prop := {
  dv_unseen : Forall (unseen base) ext;
  dv_alternate : alternate base (data_in base ext);
  dv_length : Z.of_nat (length (data_in base ext)) = n;
  dv_bytes : bytes_at (get_part s') buf (snd <$> data_in base ext);
  dv_changes : changes buf (buf + n) (get_part s) (get_part s');
}.

Context `{Has mem K}.

Lemma delivers_app base buf n n' (s s1 s' : K) ext ext' :
  0 <= n -> 0 <= n' -> delivers base buf n s s1 ext -> delivers base (buf + n) n' s1 s' ext' ->
  delivers base buf (n + n') s s' (ext ++ ext').
Proof.
  intros Hn Hn' [U1 A1 L1 B1 C1] [U2 A2 L2 B2 C2]. split.
  - by apply Forall_app.
  - rewrite data_in_app. by apply alternate_app.
  - rewrite data_in_app, length_app. lia.
  - rewrite data_in_app, fmap_app, bytes_at_app, length_fmap, L1. split; [|done].
    eapply bytes_at_changes; [exact C2| |done]. rewrite length_fmap. lia.
  - eapply changes_trans; (eapply changes_weaken; [eassumption|lia|lia]).
Qed.

Lemma delivers_quiet base buf (s : K) ext :
  ide_base base -> Forall (quiet base) ext -> delivers base buf 0 s s ext.
Proof.
  intros Hb Hq. split; rewrite ?(data_in_quiet base ext Hq); try done.
  by apply quiet_unseen.
Qed.

Lemma read_data_delivers n base buf (s : K) l :
  ide_base base ->
  exists s' ext, read_data n base buf s l = Done (tt, s', l ++ ext) /\
    delivers base buf (2 * Z.of_nat n) s s' ext.
Proof.
  intros Hb. revert buf s l. induction n as [|n IH]; intros buf s l; cbn [read_data].
  - exists s, []. split; [unfold mret, M_ret; by rewrite app_nil_r|].
    by apply (delivers_quiet base buf s []).
  - pose proof (port_word_in_spec base s l) as Hw. unfold ide_base in Hb. specialize (Hw ltac:(lia)).
    cbv zeta in Hw. set (b0 := inb_val l base) in *. set (b1 := inb_val _ (base + 1)) in Hw.
    rewrite (M_bind_done _ _ _ _ _ _ _ Hw). rewrite modify_bind.
    set (s1 := set_part _ s). set (e1 := [EIn base b0; EIn (base + 1) b1]) in *.
    destruct (IH (buf + 2) s1 (l ++ e1)) as (s' & ext & E & Hd).
    exists s', (e1 ++ ext). split; [rewrite E; by rewrite app_assoc|].
    replace (2 * Z.of_nat (S n)) with (2 + 2 * Z.of_nat n) by lia.
    apply (delivers_app _ _ _ _ _ s1); [lia|lia| |done].
    assert (data_in base e1 = [(base, b0); (base + 1, b1)]) as Hdi.
    { unfold data_in, e1. simpl. rewrite !Z.eqb_refl, orb_true_r. done. }
    pose proof (inb_range l base). pose proof (inb_range (l ++ [EIn base b0]) (base + 1)).
    fold b0 in H1. fold b1 in H2. split; rewrite ?Hdi; try done.
    + by repeat constructor.
    + unfold s1. rewrite get_set. simpl.
      assert ((b0 + 256 * b1) / 256 = b1) as -> by (Z.to_euclidean_division_equations; lia).
      split_and!; [|by rewrite load_store_eq, u8_id by lia|done].
      rewrite load_store_ne by lia. rewrite load_store_eq. unfold u8. change (2 ^ 8) with 256.
      Z.to_euclidean_division_equations; lia.
    + unfold s1. rewrite get_set. apply (store_le_changes 2).
Qed.

Lemma read_sector_loop_delivers n base buf (s : K) l :
  ide_base base -> drive_ready base ->
  exists s' ext, read_sector_loop n base buf s l = Done (0, s', l ++ ext) /\
    delivers base buf (512 * Z.of_nat n) s s' ext.
Proof.
  intros Hb Hr. revert buf s l. induction n as [|n IH]; intros buf s l; cbn [read_sector_loop].
  - exists s, []. split; [unfold mret, M_ret; by rewrite app_nil_r|].
    by apply (delivers_quiet base buf s []).
  - destruct (ide_wait_ready_spec base s l Hb Hr) as (e1 & E1 & Hq).
    rewrite (M_bind_done _ _ _ _ _ _ _ E1). change (0 <? 0) with false. cbn iota.
    destruct (read_data_delivers 256 base buf s (l ++ e1) Hb) as (s2 & e2 & E2 & Hd2).
    rewrite (M_bind_done _ _ _ _ _ _ _ E2).
    destruct (IH (buf + 512) s2 ((l ++ e1) ++ e2)) as (s' & e3 & E3 & Hd3).
    exists s', (e1 ++ e2 ++ e3). split; [rewrite E3; by rewrite <- !app_assoc|].
    replace (512 * Z.of_nat (S n)) with (0 + (512 + 512 * Z.of_nat n)) by lia.
    apply (delivers_app _ _ _ _ _ s); [lia|lia|by apply delivers_quiet|].
    rewrite Z.add_0_r. by apply (delivers_app _ _ _ _ _ s2); [lia|lia|..].
Qed.

(** The command bytes on the bus. *)
Definition command_log (dev : IDEDevice) (lba sectors op28 op48 : Z) : log :=
  let base := dev_base dev in
  if use_lba48 dev then
    [EOut (base + 2) (u8 sectors); EOut (base + 3) (u8 lba); EOut (base + 4) (u8 (lba .>> 8));
     EOut (base + 5) (u8 (lba .>> 16)); EOut (base + 2) (u8 (lba .>> 24)); EOut (base + 3) (u8 (lba .>> 32));
     EOut (base + 4) (u8 (lba .>> 40)); EOut (base + 7) (u8 op48)]
  else
    [EOut (base + 2) (u8 sectors); EOut (base + 3) (u8 lba); EOut (base + 4) (u8 (lba .>> 8));
     EOut (base + 5) (u8 (lba .>> 16));
     EOut (base + 6) (u8 (0xE0 .| (slave dev .<< 4) .| ((lba .>> 24) .& 0x0F))); EOut (base + 7) (u8 op28)].

Lemma u8_u8 x : u8 (u8 x) = u8 x.
Proof. apply u8_id, u8_range. Qed.

Lemma ide_command_log dev lba sectors op28 op48 (s : K) l :
  ide_base (dev_base dev) ->
  ide_command dev lba sectors op28 op48 s l = Done (tt, s, l ++ command_log dev lba sectors op28 op48).
Proof.
  unfold ide_base. intros Hb. unfold ide_command, command_log.
  destruct (use_lba48 dev); run; rewrite !u16_id, !u8_u8 by lia; by rewrite <- ?app_assoc.
Qed.

(** A command to a drive that is ready, with what follows it. *)
Lemma ide_command_sent dev lba sectors op28 op48 (k : M K Z) (s : K) l :
  ide_base (dev_base dev) -> drive_ready (dev_base dev) ->
  exists v0 e1,
    (ide_select_drive dev;;
     r ← ide_wait_ready (dev_base dev);
     if r <? 0 then mret (-1) else ide_command dev lba sectors op28 op48;; k) s l =
    k s (l ++ (EOut (dev_base dev + 6) v0 :: EOut 0x80 0 :: e1) ++ command_log dev lba sectors op28 op48) /\
    Forall (quiet (dev_base dev)) e1.
Proof.
  intros Hb Hr. set (v0 := u8 (0xA0 .| (slave dev .<< 4))).
  rewrite (M_bind_done _ _ s l tt s (l ++ [EOut (dev_base dev + 6) v0; EOut 0x80 0])).
  2:{ unfold ide_select_drive. run. unfold ide_base in Hb. by rewrite u16_id by lia. }
  destruct (ide_wait_ready_spec (dev_base dev) s (l ++ [EOut (dev_base dev + 6) v0; EOut 0x80 0]) Hb Hr)
    as (e1 & E1 & Hq). rewrite (M_bind_done _ _ _ _ _ _ _ E1). change (0 <? 0) with false. cbn iota.
  rewrite (M_bind_done _ _ _ _ _ _ _ (ide_command_log dev lba sectors _ _ s _ Hb)).
  exists v0, e1. split; [|done]. by rewrite <- !app_assoc.
Qed.

(** A read that the drive serves, step by step. *)
Lemma ide_read_sectors_run dev lba sectors buffer (s : K) l :
  ide_base (dev_base dev) -> drive_ready (dev_base dev) -> buffer <> 0 -> 0 < sectors ->
  exists s' v0 e1 e2, ide_read_sectors (Some dev) lba sectors buffer s l =
      Done (0, s', l ++ (EOut (dev_base dev + 6) v0 :: EOut 0x80 0 :: e1) ++
                   command_log dev lba sectors IDE_CMD_READ_PIO IDE_CMD_READ_PIO_EXT ++ e2) /\
    Forall (quiet (dev_base dev)) e1 /\ delivers (dev_base dev) buffer (512 * sectors) s s' e2.
Proof.
  intros Hb Hr Hbuf Hs. unfold ide_read_sectors. decide_lia. cbn [orb].
  edestruct ide_command_sent as (v0 & e1 & -> & Hq); [done..|].
  match goal with |- context [read_sector_loop ?n ?b ?buf s ?l0] =>
    destruct (read_sector_loop_delivers n b buf s l0 Hb Hr) as (s' & e2 & E2 & Hd) end.
  exists s', v0, e1, e2. rewrite E2. rewrite Z2Nat.id in Hd by lia. split_and!; [|done|done].
  by rewrite <- !app_assoc.
Qed.

(** ** Transfers from the buffer *)

(** What the driver wrote to the drive's data port and the port after it. *)
Definition data_out (base : Z) (l : log) : list (Z * Z) :=
  omap (fun e => match e with
                 | EOut p v => if (p =? base) || (p =? base + 1) then Some (p, v) else None
                 | _ => None
                 end) l.

Lemma data_out_app base l l' : data_out base (l ++ l') = data_out base l ++ data_out base l'.
Proof. apply omap_app. Qed.

Lemma quiet_data_out base ext : ide_base base -> Forall (quiet base) ext -> data_out base ext = [] /\ sent (base + 7) ext = [].
Proof.
  unfold ide_base. intros Hb. induction 1 as [|e ext He Hext [IH1 IH2]]; [done|].
  change (e :: ext) with ([e] ++ ext). rewrite data_out_app, sent_app, IH1, IH2, !app_nil_r.
  destruct e as [p v|p v| | | | | |]; try done. simpl in He. subst. unfold data_out, sent. cbn [omap list_omap].
  decide_lia. done.
Qed.

(** A part of a transfer: the bytes [bs] go to the data ports in turn, and the
    commands [cmds] to the drive. *)
Record takes (base : Z) (bs cmds : list Z) (ext : log) : Prop := {
  tk_alternate : alternate base (data_out base ext);
  tk_bytes : snd <$> data_out base ext = bs;
  tk_commands : sent (base + 7) ext = cmds;
}.

Lemma takes_app base bs bs' cmds cmds' ext ext' :
  takes base bs cmds ext -> takes base bs' cmds' ext' -> takes base (bs ++ bs') (cmds ++ cmds') (ext ++ ext').
Proof.
  intros [A1 B1 C1] [A2 B2 C2]. split.
  - rewrite data_out_app. by apply alternate_app.
  - by rewrite data_out_app, fmap_app, B1, B2.
  - by rewrite sent_app, C1, C2.
Qed.

Lemma takes_quiet base ext : ide_base base -> Forall (quiet base) ext -> takes base [] [] ext.
Proof. intros Hb Hq. destruct (quiet_data_out base ext Hb Hq) as [E1 E2]. by split; rewrite ?E1, ?E2. Qed.

Lemma write_data_takes n base buf (s : K) l :
  ide_base base ->
  exists ext, write_data n base buf s l = Done (tt, s, l ++ ext) /\ takes base (read_bytes (get_part s) buf (2 * n)) [] ext.
Proof.
  intros Hb. revert buf l. induction n as [|n IH]; intros buf l; cbn [write_data].
  - exists []. split; [unfold mret, M_ret; by rewrite app_nil_r|]. by apply takes_quiet.
  - rewrite gets_bind. unfold id. set (m := get_part s). set (w := load_le 2 m buf).
    pose proof (port_word_out_spec base w s l) as Hw. unfold ide_base in Hb. specialize (Hw ltac:(lia)).
    rewrite (M_bind_done _ _ _ _ _ _ _ Hw). set (e1 := [EOut base (w mod 256); EOut (base + 1) (w / 256 mod 256)]).
    destruct (IH (buf + 2) (l ++ e1)) as (ext & E & Ht). exists (e1 ++ ext). split; [rewrite E; by rewrite app_assoc|].
    replace (2 * S n)%nat with (2 + 2 * n)%nat by lia.
    change (read_bytes m buf (2 + 2 * n)) with ([load m buf; load m (buf + 1)] ++ read_bytes m (buf + 1 + 1) (2 * n)).
    replace (buf + 1 + 1) with (buf + 2) by lia. apply (takes_app _ _ _ [] []); [|done].
    pose proof (load_range m buf). pose proof (load_range m (buf + 1)).
    assert (w = load m buf + 256 * load m (buf + 1)) as -> by (unfold w; cbn [load_le]; lia).
    assert ((load m buf + 256 * load m (buf + 1)) mod 256 = load m buf) as E1 by (Z.to_euclidean_division_equations; lia).
    assert ((load m buf + 256 * load m (buf + 1)) / 256 mod 256 = load m (buf + 1)) as E2 by (Z.to_euclidean_division_equations; lia).
    unfold e1. rewrite E1, E2.
    assert (data_out base [EOut base (load m buf); EOut (base + 1) (load m (buf + 1))] =
      [(base, load m buf); (base + 1, load m (buf + 1))]) as Hdo.
    { unfold data_out. cbn [omap list_omap]. by rewrite !Z.eqb_refl, orb_true_r. }
    split; rewrite ?Hdo; [done|done|]. unfold sent. cbn [omap list_omap]. by decide_lia.
Qed.

Lemma write_sector_step n base buf :
  write_sector_loop (K := K) (S n) base buf =
  (r ← ide_wait_ready base;
   if r <? 0 then mret (-1)
   else
     write_data 256 base buf;;
     (if (n =? 0)%nat then port_byte_out (base + 7) IDE_CMD_CACHE_FLUSH;; ide_wait_ready base;; mret tt else mret tt);;
     write_sector_loop n base (buf + 512)).
Proof. reflexivity. Qed.

(** All sectors, and the flush of the drive's cache after the last. *)
Lemma write_sector_loop_takes n base buf (s : K) l :
  ide_base base -> drive_ready base ->
  exists ext, write_sector_loop (S n) base buf s l = Done (0, s, l ++ ext) /\
    takes base (read_bytes (get_part s) buf (512 * S n)) [IDE_CMD_CACHE_FLUSH] ext.
Proof.
  intros Hb Hr. revert buf l. induction n as [|n IH]; intros buf l; rewrite write_sector_step.
  all: destruct (ide_wait_ready_spec base s l Hb Hr) as (e1 & E1 & Hq1);
    rewrite (M_bind_done _ _ _ _ _ _ _ E1); change (0 <? 0) with false; cbn iota;
    destruct (write_data_takes 256 base buf s (l ++ e1) Hb) as (e2 & E2 & Ht2);
    rewrite (M_bind_done _ _ _ _ _ _ _ E2); cbn [Nat.eqb].
  - set (l2 := ((l ++ e1) ++ e2) ++ [EOut (base + 7) IDE_CMD_CACHE_FLUSH]).
    destruct (ide_wait_ready_spec base s l2 Hb Hr) as (e3 & E3 & Hq3).
    exists (e1 ++ e2 ++ [EOut (base + 7) IDE_CMD_CACHE_FLUSH] ++ e3). split.
    + assert (port_byte_out (base + 7) IDE_CMD_CACHE_FLUSH s ((l ++ e1) ++ e2) = Done (tt, s, l2)) as E.
      { unfold ide_base in Hb. unfold port_byte_out, asm_outb, emit. rewrite u16_id by lia. reflexivity. }
      rewrite !M_bind_assoc, (M_bind_done _ _ _ _ _ _ _ E), M_bind_assoc, (M_bind_done _ _ _ _ _ _ _ E3), ret_bind.
      cbn [write_sector_loop]. unfold l2, mret, M_ret. by rewrite <- !app_assoc.
    + replace (512 * 1)%nat with (2 * 256)%nat by lia. revert Ht2. generalize (read_bytes (get_part s) buf (2 * 256)).
      intros bs Ht2. apply (takes_app _ [] bs [] [IDE_CMD_CACHE_FLUSH]); [by apply takes_quiet|].
      rewrite <- (app_nil_r bs). apply (takes_app _ bs [] [] [IDE_CMD_CACHE_FLUSH]); [exact Ht2|].
      apply (takes_app _ [] [] [IDE_CMD_CACHE_FLUSH] []); [|by apply takes_quiet].
      unfold ide_base in Hb. split; unfold data_out, sent; cbn [omap list_omap]; by decide_lia.
  - rewrite ret_bind. destruct (IH (buf + 512) ((l ++ e1) ++ e2)) as (e3 & E3 & Ht3).
    exists (e1 ++ e2 ++ e3). split; [rewrite E3; by rewrite <- !app_assoc|].
    replace (512 * S (S n))%nat with (2 * 256 + 512 * S n)%nat by lia. rewrite read_bytes_app.
    change (Z.of_nat (2 * 256)) with 512. revert Ht2 Ht3. generalize (read_bytes (get_part s) buf (2 * 256)).
    generalize (read_bytes (get_part s) (buf + 512) (512 * S n)). intros bs3 bs2 Ht2 Ht3.
    apply (takes_app _ [] (bs2 ++ bs3) [] [IDE_CMD_CACHE_FLUSH]); [by apply takes_quiet|].
    by apply (takes_app _ bs2 bs3 [] [IDE_CMD_CACHE_FLUSH]).
Qed.

(** A write that the drive serves. *)
Lemma ide_write_sectors_run dev lba sectors buffer (s : K) l :
  ide_base (dev_base dev) -> drive_ready (dev_base dev) -> buffer <> 0 -> 0 < sectors ->
  exists v0 e1 e2, ide_write_sectors (Some dev) lba sectors buffer s l =
      Done (0, s, l ++ ((EOut (dev_base dev + 6) v0 :: EOut 0x80 0 :: e1) ++
                   command_log dev lba sectors IDE_CMD_WRITE_PIO IDE_CMD_WRITE_PIO_EXT) ++ e2) /\
    Forall (quiet (dev_base dev)) e1 /\
    takes (dev_base dev) (read_bytes (get_part s) buffer (512 * Z.to_nat sectors)) [IDE_CMD_CACHE_FLUSH] e2.
Proof.
  intros Hb Hr Hbuf Hs. unfold ide_write_sectors. decide_lia. cbn [orb].
  edestruct ide_command_sent as (v0 & e1 & -> & Hq); [done..|].
  assert (Z.to_nat sectors = S (pred (Z.to_nat sectors))) as -> by lia.
  match goal with |- context [write_sector_loop ?n ?b ?buf s ?l0] =>
    destruct (write_sector_loop_takes (pred (Z.to_nat sectors)) b buf s l0 Hb Hr) as (e2 & E2 & Ht) end.
  exists v0, e1, e2. rewrite E2. split; [|by split]. by rewrite <- !app_assoc.
Qed.

(** The registers of the drive after the command. *)
Lemma ata_run_command base a v0 e1 cmd :
  ide_base base -> Forall (quiet base) e1 ->
  ata_run base a ((EOut (base + 6) v0 :: EOut 0x80 0 :: e1) ++ cmd) =
  ata_run base (MkAta (a_count a) (a_low a) (a_mid a) (a_high a) v0 (a_command a)) cmd.
Proof.
  intros Hb H1. rewrite ata_run_app.
  change (EOut (base + 6) v0 :: EOut 0x80 0 :: e1) with ([EOut (base + 6) v0] ++ EOut 0x80 0 :: e1).
  rewrite ata_run_app. rewrite (ata_run_unseen base _ (EOut 0x80 0 :: e1)).
  - destruct a. unfold ata_run. cbn [foldl ata_step]. by decide_lia.
  - constructor; [unfold ide_base in Hb; simpl; lia|by apply quiet_unseen].
Qed.

Lemma ata_run_read base a v0 e1 cmd e2 :
  ide_base base -> Forall (quiet base) e1 -> Forall (unseen base) e2 ->
  ata_run base a ((EOut (base + 6) v0 :: EOut 0x80 0 :: e1) ++ cmd ++ e2) =
  ata_run base (MkAta (a_count a) (a_low a) (a_mid a) (a_high a) v0 (a_command a)) cmd.
Proof.
  intros Hb H1 H2. rewrite (app_assoc _ cmd e2), ata_run_app, (ata_run_unseen base _ e2) by done.
  by apply ata_run_command.
Qed.
End ide_facts.

Lemma byte_of n k : 0 <= k -> u8 (n .>> k) = n / 2 ^ k mod 256.
Proof. intros. unfold u8. by rewrite Z.shiftr_div_pow2. Qed.

Lemma device_byte sl x :
  sl = 0 \/ sl = 1 -> 0 <= x < 16 -> u8 (0xE0 .| (sl .<< 4) .| (x .& 0x0F)) = 0xE0 + 16 * sl + x.
Proof. intros [-> | ->]; revert x; check_below 16. Qed.

(** Runs the drive over a list of writes to its command block. *)
Ltac ata_steps := repeat progress (cbn [ata_step]; decide_lia).

(** A 28-bit command asks for what the driver was asked for. *)
Lemma command28 dev lba sectors op28 op48 a :
  let base := dev_base dev in
  use_lba48 dev = false -> slave dev = 0 \/ slave dev = 1 -> 0 <= lba < 2 ^ 28 -> 0 < sectors < 256 -> 0 <= op28 < 256 ->
  let a' := ata_run base a (command_log dev lba sectors op28 op48) in
  a_command a' = Some op28 /\ ata_lba28 a' = (slave dev, lba, sectors).
Proof.
  intros base H48 Hsl Hlba Hs Hop. unfold command_log, ata_run. rewrite H48. fold base. cbn [foldl]. destruct a. ata_steps.
  unfold ata_lba28, push. cbn [a_command a_count a_low a_mid a_high a_device fst snd].
  rewrite !byte_of by lia. rewrite Z.shiftr_div_pow2 by lia.
  assert (0 <= lba / 2 ^ 24 < 16) by (Z.to_euclidean_division_equations; lia).
  rewrite device_byte by done. rewrite (u8_id sectors), (u8_id op28) by lia. split; [done|].
  unfold u8. f_equal. f_equal; Z.to_euclidean_division_equations; lia.
Qed.

(** ** Properties *)

(** C28. With a drive that gets ready, reading up to 255 sectors in 28-bit mode returns
    0; the command the drive received is a read of exactly that drive, first
    sector and count; and the buffer, and only the buffer, holds the 512 bytes
    per sector that the driver took, in turn, from the data port and from the
    port after it. *)
Theorem ide_read_sectors_correct `{Hw} {K} `{Has mem K} dev lba sectors buffer (s : K) l a :
  let base := dev_base dev in
  ide_base base -> drive_ready base -> use_lba48 dev = false -> slave dev = 0 \/ slave dev = 1 ->
  0 <= lba < 2 ^ 28 -> 0 < sectors < 256 -> buffer <> 0 ->
  exists s' ext, ide_read_sectors (Some dev) lba sectors buffer s l = Done (0, s', l ++ ext) /\
    a_command (ata_run base a ext) = Some IDE_CMD_READ_PIO /\
    ata_lba28 (ata_run base a ext) = (slave dev, lba, sectors) /\
    alternate base (data_in base ext) /\
    Z.of_nat (length (data_in base ext)) = 512 * sectors /\
    bytes_at (get_part s') buffer (snd <$> data_in base ext) /\
    changes buffer (buffer + 512 * sectors) (get_part s) (get_part s').
Proof.
  cbv zeta. intros Hb Hr H48 Hsl Hlba Hs Hbuf.
  destruct (ide_read_sectors_run dev lba sectors buffer s l Hb Hr Hbuf ltac:(lia))
    as (s' & v0 & e1 & e2 & E & Hq & [D1 D2 D3 D4 D5]). set (base := dev_base dev) in *.
  exists s', ((EOut (base + 6) v0 :: EOut 0x80 0 :: e1) ++
    command_log dev lba sectors IDE_CMD_READ_PIO IDE_CMD_READ_PIO_EXT ++ e2).
  split; [exact E|]. rewrite ata_run_read by done.
  assert (data_in base ((EOut (base + 6) v0 :: EOut 0x80 0 :: e1) ++
    command_log dev lba sectors IDE_CMD_READ_PIO IDE_CMD_READ_PIO_EXT ++ e2) = data_in base e2) as ->.
  { rewrite !data_in_app. change (EOut (base + 6) v0 :: EOut 0x80 0 :: e1)
      with ([EOut (base + 6) v0; EOut 0x80 0] ++ e1). rewrite data_in_app, (data_in_quiet base e1) by done.
    unfold command_log. by rewrite H48. }
  split; [|split; [|done]]; apply command28; unfold IDE_CMD_READ_PIO; done || lia.
Qed.

(** C29. With a drive that gets ready, writing up to 255 sectors in 28-bit mode
    returns 0 and changes nothing in memory: the drive first receives a write
    command of exactly that drive, first sector and count; then the 512 bytes
    per sector of the buffer, in order, in turn at the data port and at the
    port after it; and one more command, the flush of its cache. *)
Theorem ide_write_sectors_correct `{Hw} {K} `{Has mem K} dev lba sectors buffer (s : K) l a :
  let base := dev_base dev in
  ide_base base -> drive_ready base -> use_lba48 dev = false -> slave dev = 0 \/ slave dev = 1 ->
  0 <= lba < 2 ^ 28 -> 0 < sectors < 256 -> buffer <> 0 ->
  exists e1 e2, ide_write_sectors (Some dev) lba sectors buffer s l = Done (0, s, l ++ e1 ++ e2) /\
    a_command (ata_run base a e1) = Some IDE_CMD_WRITE_PIO /\
    ata_lba28 (ata_run base a e1) = (slave dev, lba, sectors) /\
    data_out base e1 = [] /\ alternate base (data_out base e2) /\
    snd <$> data_out base e2 = read_bytes (get_part s) buffer (512 * Z.to_nat sectors) /\
    sent (base + 7) e2 = [IDE_CMD_CACHE_FLUSH].
Proof.
  cbv zeta. intros Hb Hr H48 Hsl Hlba Hs Hbuf.
  destruct (ide_write_sectors_run dev lba sectors buffer s l Hb Hr Hbuf ltac:(lia))
    as (v0 & e1 & e2 & E & Hq & [T1 T2 T3]). set (base := dev_base dev) in *.
  do 2 eexists. split; [exact E|]. rewrite ata_run_command by done. split; [|split; [|split; [|done]]].
  1-2: apply command28; unfold IDE_CMD_WRITE_PIO; done || lia.
  destruct (quiet_data_out base e1 Hb Hq) as [E1 _]. unfold ide_base in Hb.
  change (EOut (base + 6) v0 :: EOut 0x80 0 :: e1) with ([EOut (base + 6) v0; EOut 0x80 0] ++ e1).
  rewrite !data_out_app, E1. unfold command_log, data_out. rewrite H48. fold base. cbn [omap list_omap]. decide_lia. done.
Qed.

(** In 48-bit mode the driver sends the sector count once and three address bytes to
    the wrong registers: the drive takes the count byte for the high half of a
    16-bit count, 256 times what was asked plus a byte of the address, so that
    the count it reads is never the one asked for. *)
Theorem ide_lba48_count `{Hw} {K} `{Has mem K} dev lba sectors buffer (s : K) l a :
  let base := dev_base dev in
  ide_base base -> drive_ready base -> use_lba48 dev = true -> 0 < sectors < 256 -> buffer <> 0 ->
  exists s' ext, ide_read_sectors (Some dev) lba sectors buffer s l = Done (0, s', l ++ ext) /\
    a_command (ata_run base a ext) = Some IDE_CMD_READ_PIO_EXT /\
    (ata_lba48 (ata_run base a ext)).2 = 256 * sectors + lba / 2 ^ 24 mod 256 /\
    (ata_lba48 (ata_run base a ext)).2 <> sectors.
Proof.
  cbv zeta. intros Hb Hr H48 Hs Hbuf.
  destruct (ide_read_sectors_run dev lba sectors buffer s l Hb Hr Hbuf ltac:(lia))
    as (s' & v0 & e1 & e2 & E & Hq & [D1 D2 D3 D4 D5]). set (base := dev_base dev) in *.
  exists s', ((EOut (base + 6) v0 :: EOut 0x80 0 :: e1) ++
    command_log dev lba sectors IDE_CMD_READ_PIO IDE_CMD_READ_PIO_EXT ++ e2).
  split; [exact E|]. rewrite ata_run_read by done.
  unfold command_log, ata_run; rewrite H48; fold base; cbn [foldl]; ata_steps.
  unfold ata_lba48, push. cbn [a_command a_count a_low a_mid a_high a_device fst snd].
  rewrite !byte_of by lia. rewrite (u8_id sectors) by lia.
  pose proof (Z.mod_pos_bound (lba / 2 ^ 24) 256 ltac:(lia)).
  split; [done|]. split; lia.
Qed.

(** A drive at 0x1F0 that is always ready; every byte it delivers is 0x40. *)
Definition w_hw_ide : Hw := {| hw_in _ _ := 0x40 |}.

Lemma w_drive_ready : @drive_ready w_hw_ide 0x1F0.
Proof. intros l. exists 0%nat. split; [lia|reflexivity]. Qed.

Definition w_dev (lba48 : bool) : IDEDevice := MkIde 0x1F0 0 0 1 lba48 0 0 0 0.
Definition w_ata : ata := MkAta (0, 0) (0, 0) (0, 0) (0, 0) 0 None.

Lemma ide_read_sectors_correct_witness :
  exists m' ext, ide_read_sectors (H := w_hw_ide) (K := mem) (Some (w_dev false)) 0x1234567 2 4096 ∅ [] =
      Done (0, m', [] ++ ext) /\
    ata_lba28 (ata_run 0x1F0 w_ata ext) = (1, 0x1234567, 2) /\
    Z.of_nat (length (data_in 0x1F0 ext)) = 1024.
Proof.
  destruct (ide_read_sectors_correct (H := w_hw_ide) (K := mem) (w_dev false) 0x1234567 2 4096 ∅ [] w_ata)
    as (m' & ext & H1 & _ & H2 & _ & H3 & _).
  - unfold ide_base. simpl. lia.
  - apply w_drive_ready.
  - reflexivity.
  - right. reflexivity.
  - lia.
  - lia.
  - lia.
  - exists m', ext. split; [exact H1|]. split; [exact H2|exact H3].
Defined.

Lemma ide_write_sectors_correct_witness :
  exists e1 e2, ide_write_sectors (H := w_hw_ide) (K := mem) (Some (w_dev false)) 0x1234567 2 4096 ∅ [] =
      Done (0, ∅, [] ++ e1 ++ e2) /\
    ata_lba28 (ata_run 0x1F0 w_ata e1) = (1, 0x1234567, 2) /\
    length (data_out 0x1F0 e2) = 1024%nat.
Proof.
  destruct (ide_write_sectors_correct (H := w_hw_ide) (K := mem) (w_dev false) 0x1234567 2 4096 ∅ [] w_ata)
    as (e1 & e2 & H1 & _ & H2 & _ & _ & H3 & _).
  - unfold ide_base. simpl. lia.
  - apply w_drive_ready.
  - reflexivity.
  - right. reflexivity.
  - lia.
  - lia.
  - lia.
  - exists e1, e2. split; [exact H1|]. split; [exact H2|].
    change (dev_base (w_dev false)) with 0x1F0 in H3. rewrite <- (length_fmap snd), H3. apply length_read_bytes.
Defined.

Lemma ide_lba48_count_witness :
  exists m' ext, ide_read_sectors (H := w_hw_ide) (K := mem) (Some (w_dev true)) 5 1 4096 ∅ [] =
      Done (0, m', [] ++ ext) /\
    (ata_lba48 (ata_run 0x1F0 w_ata ext)).2 = 256.
Proof.
  destruct (ide_lba48_count (H := w_hw_ide) (K := mem) (w_dev true) 5 1 4096 ∅ [] w_ata)
    as (m' & ext & H1 & _ & H2 & _).
  - unfold ide_base. simpl. lia.
  - apply w_drive_ready.
  - reflexivity.
  - lia.
  - lia.
  - exists m', ext. split; [exact H1|exact H2].
Defined.
