(* ===== verification/RamFs.v ===== *)
(** * The RAM disk as a file system (src/impl/kernel/ramdisk.c on fs.c)

    The functions of ramdisk.c that the virtual file system reaches through
    [ramdisk_ops], and those that allocate: [ramdisk_create],
    [ramdisk_destroy] and [ramdisk_find_file]. The structures they allocate
    get their addresses from [malloc]; their fields are records kept by
    address, apart from the bytes of the block. *)
From S2P Require Export Alloc Vfs RamDisk.

(** ** Definitions *)

Definition FS_PERM_READ := 0x04.
Definition FS_PERM_WRITE := 0x02.

(** [sizeof] of the structures: the file table alone is 64 entries of 80 bytes. *)
Definition sizeof_FileSystem := 56.
Definition sizeof_FSNode := 328.
Definition sizeof_RamDiskFile := 80.
Definition sizeof_RamDisk := 8 + RAMDISK_MAX_FILES * sizeof_RamDiskFile + 16.

(** The RAM disks by the address of their [struct RamDisk]. *)
Abbreviation RamDisks := (gmap Z RamDisk).

(** [ramdisk_ops] *)
Definition ramdisk_ops `{Linker} : FSOperations :=
  MkOps 0 0 (function "ramdisk_read") (function "ramdisk_write") 0 0 (function "ramdisk_create_file")
    (function "ramdisk_delete_file") 0 0 0 0 0 0 0.

Section ramfs.
Context `{Linker} {K : Type} `{Has Vfs K} `{Has RamDisks K} `{Has mem K} `{Has heap K} `{Has Console K}.
Context (fuel : nat).

Definition put_disk (device : Z) (d : RamDisk) : M K unit := modify (<[device := d]> : RamDisks -> RamDisks).
Definition put_node (p : Z) (n : FSNode) : M K unit :=
  modify (fun v => MkVfs (<[p := n]> (nodes v)) (filesystems v) (operations v) (fd_table v) (mount_points v)
                     (num_mounts v) (root_node v)).
Definition put_fs (fs : Z) (f : option FileSystem) : M K unit :=
  modify (fun v => MkVfs (nodes v) (partial_alter (fun _ => f) fs (filesystems v)) (operations v) (fd_table v)
                     (mount_points v) (num_mounts v) (root_node v)).

(** [node->fs->device] and [node->name], and an operation on that disk. *)
Definition on_node (node : Z) (f : list Z -> st -> Z * st) : M K Z :=
  v ← gets (C := Vfs) id;
  n ← some (nodes v !! node);
  fs ← some (filesystems v !! node_fs n);
  ds ← gets (C := RamDisks) id;
  d ← some (ds !! fs_device fs);
  m ← gets (C := mem) id;
  c ← gets (C := Console) id;
  let '(r, s) := f (node_name n) (MkSt d m c) in
  put_disk (fs_device fs) (disk s);;
  modify (fun _ : mem => ram s);;
  modify (fun _ : Console => screen s);;
  mret r.

(** The string at [p]. *)
Definition string_at (p : Z) : M K (list Z) :=
  m ← gets (C := mem) id;
  n ← lift (strlen fuel m p);
  mret (read_bytes m p (Z.to_nat n)).

(** The code behind the pointers of [ramdisk_ops]. *)
Definition call_ramdisk (f : Z) (args : list Z) : M K Z :=
  match args with
  | [node; offset; size; buffer] =>
      if f =? function "ramdisk_read" then on_node node (fun name s => ramdisk_read s name offset size buffer)
      else if f =? function "ramdisk_write" then on_node node (fun name s => ramdisk_write s name offset size buffer)
      else undef
  | [parent; name; flags] =>
      if f =? function "ramdisk_create_file" then
        name ← string_at name;
        on_node parent (fun _ s => ramdisk_create_file s name flags)
      else undef
  | [node] =>
      if f =? function "ramdisk_delete_file" then on_node node (fun name s => ramdisk_delete_file s name) else undef
  | _ => undef
  end.

Definition ramdisk_create : M K Z :=
  fs ← allocate fuel sizeof_FileSystem;
  if fs =? 0 then print (line "[RAMDISK] Error: Failed to allocate filesystem structure");; mret 0
  else
    ramdisk ← allocate fuel sizeof_RamDisk;
    if ramdisk =? 0 then
      release fs;;
      print (line "[RAMDISK] Error: Failed to allocate RAM disk structure");;
      mret 0
    else
      data ← allocate fuel RAMDISK_SIZE;
      if data =? 0 then
        release ramdisk;;
        release fs;;
        print (line "[RAMDISK] Error: Failed to allocate RAM disk data");;
        mret 0
      else
        m ← gets (C := mem) id;
        let '(d, m) := ramdisk_format data m in
        modify (fun _ : mem => m);;
        put_disk ramdisk d;;
        put_fs fs (Some (MkFs (bytes_of "ramdisk") 0 ramdisk (function "ramdisk_ops")));;
        print (bytes_of "[RAMDISK] Created RAM disk filesystem (");;
        print (line " bytes)");;
        mret fs.

Definition ramdisk_destroy (fs : Z) : M K unit :=
  if fs =? 0 then mret tt
  else
    v ← gets (C := Vfs) id;
    f ← some (filesystems v !! fs);
    if fs_device f =? 0 then mret tt
    else
      ds ← gets (C := RamDisks) id;
      d ← some (ds !! fs_device f);
      release (data d);;
      release (fs_device f);;
      release fs;;
      modify (delete (fs_device f) : RamDisks -> RamDisks);;
      put_fs fs None;;
      print (line "[RAMDISK] Destroyed RAM disk filesystem").

Definition ramdisk_find_file (fs : Z) (name : list Z) : M K Z :=
  v ← gets (C := Vfs) id;
  f ← some (filesystems v !! fs);
  ds ← gets (C := RamDisks) id;
  d ← some (ds !! fs_device f);
  match find_file_by_name d name with
  | None => mret 0
  | Some i =>
      let file := default no_file (files d !! i) in
      node ← allocate fuel sizeof_FSNode;
      if node =? 0 then mret 0
      else
        put_node node (MkNode (rf_name file) (rf_flags file) (FS_PERM_READ .| FS_PERM_WRITE) 0 0 (rf_size file) 0
          (access_time file) (modify_time file) (create_time file) fs
          (fs_device f + 8 + sizeof_RamDiskFile * Z.of_nat i));;
        mret node
  end.
End ramfs.

(** ** Files of a RAM disk behind descriptors *)

Abbreviation fstate := (mem * Vfs * Console * RamDisks)%type.

Definition ramdisk_code `{Linker} (fuel : nat) : Code fstate := {| call := call_ramdisk fuel |}.

(** Descriptor [fd] is open on a node of a file system on the RAM disk [rd]
    at [device]. *)
Record ram_file `{Linker} (v : Vfs) (ds : RamDisks) (fd : Z) (d : FileDescriptor) (n : FSNode) (device : Z) (rd : RamDisk)
  : Prop := {
  rfd_open : open_fd v fd = Some d;
  rfd_node : nodes v !! fd_node d = Some n;
  rfd_fs : exists f, filesystems v !! node_fs n = Some f /\ node_fs n <> 0 /\ fs_device f = device /\
    fs_ops f <> 0 /\ operations v !! fs_ops f = Some ramdisk_ops;
  rfd_disk : ds !! device = Some rd;
}.

(** The linker gives the two functions addresses of their own. *)
Record linked `{Linker} : Prop := {
  lk_read : function "ramdisk_read" <> 0;
  lk_write : function "ramdisk_write" <> 0;
  lk_apart : function "ramdisk_write" <> function "ramdisk_read";
}.

Section files.
Context `{Linker} (fuel : nat) (Hlink : linked).
#[local] Notation transfer := (@vfs_transfer fstate _ (ramdisk_code fuel)).

Lemma on_node_run node n f (device : Z) rd g (m : mem) (v : Vfs) (c : Console) (ds : RamDisks) l r s' :
  nodes v !! node = Some n -> filesystems v !! node_fs n = Some f -> fs_device f = device -> ds !! device = Some rd ->
  g (node_name n) (MkSt rd m c) = (r, s') ->
  on_node node g (m, v, c, ds) l = Done (r, (ram s', v, screen s', <[device := disk s']> ds), l).
Proof.
  intros Hn Hf <- Hd Hg. unfold on_node, put_disk. rewrite !gets_bind. unfold id.
  cbn [get_part has_fst has_snd has_refl fst snd]. rewrite Hn, some_bind, Hf, some_bind, gets_bind. unfold id.
  cbn [get_part has_fst has_snd has_refl fst snd]. rewrite Hd, some_bind, !gets_bind. unfold id.
  cbn [get_part has_fst has_snd has_refl fst snd]. rewrite Hg, !modify_bind. reflexivity.
Qed.

Lemma ram_file_op v ds fd d n device rd op :
  ram_file v ds fd d n device rd -> op_if v op (fd_node d) = Some (op ramdisk_ops).
Proof.
  intros [_ Hn (f & Hf & Hn0 & _ & Ho0 & Ho) _]. unfold op_if. rewrite Hn. cbn. rewrite Hf. decide_lia. cbn. decide_lia.
  cbn. by rewrite Ho.
Qed.

(** A transfer through the descriptor, for an operation of four arguments. *)
Lemma ram_transfer op g v ds fd d n device rd buffer size (m : mem) (c : Console) l r s' :
  ram_file v ds fd d n device rd -> op ramdisk_ops <> 0 ->
  (forall (s : fstate) l, call_ramdisk fuel (op ramdisk_ops) [fd_node d; fd_offset d; size; buffer] s l =
     on_node (fd_node d) g s l) ->
  g (node_name n) (MkSt rd m c) = (r, s') -> - 2 ^ 31 <= r < 2 ^ 31 ->
  0 <= fd_offset d -> fd_offset d + r < 2 ^ 64 ->
  transfer op fd buffer size (m, v, c, ds) l =
    Done (r, (ram s', set_fd fd (MkFd (fd_node d) (fd_offset d + Z.max 0 r) (fd_flags d) (fd_refcount d)) v,
              screen s', <[device := disk s']> ds), l).
Proof.
  intros Hfile Hop Hcall Hg Hr Ho Hlt. pose proof Hfile as [Hfd Hn (f & Hf & _ & Hdev & _) Hd].
  pose proof (on_node_run _ n f device rd g m v c ds l r s' Hn Hf Hdev Hd Hg) as E. rewrite <- Hcall in E.
  pose proof (@vfs_transfer_run fstate _ (ramdisk_code fuel) op (m, v, c, ds)
    (ram s', v, screen s', <[device := disk s']> ds) l l fd buffer size d (op ramdisk_ops) r) as R.
  exact (R Hfd (ram_file_op v ds fd d n device rd op Hfile) Hop E Hr Hfd Hlt Ho).
Qed.

Lemma call_ramdisk_read node offset size buffer (s : fstate) l :
  call_ramdisk fuel (op_read ramdisk_ops) [node; offset; size; buffer] s l =
  on_node node (fun name s => ramdisk_read s name offset size buffer) s l.
Proof. unfold call_ramdisk. cbn [op_read ramdisk_ops]. by rewrite Z.eqb_refl. Qed.

Lemma call_ramdisk_write node offset size buffer (s : fstate) l :
  call_ramdisk fuel (op_write ramdisk_ops) [node; offset; size; buffer] s l =
  on_node node (fun name s => ramdisk_write s name offset size buffer) s l.
Proof.
  unfold call_ramdisk. cbn [op_write ramdisk_ops]. rewrite (proj2 (Z.eqb_neq _ _) (lk_apart Hlink)).
  by rewrite Z.eqb_refl.
Qed.

(** Moving the descriptor keeps the file behind it. *)
Lemma ram_file_moved v ds fd d n device rd rd' offset :
  ram_file v ds fd d n device rd -> length (fd_table v) = 256%nat ->
  ram_file (set_fd fd (MkFd (fd_node d) offset (fd_flags d) (fd_refcount d)) v) (<[device := rd']> ds) fd
    (MkFd (fd_node d) offset (fd_flags d) (fd_refcount d)) n device rd'.
Proof.
  intros [Hfd Hn Hf _] Hlen. apply open_fd_Some in Hfd as (Hr & _ & Hne).
  split; [by apply open_fd_set|done|done|apply lookup_insert_eq].
Qed.
End files.

(** A formatted disk is well formed and has no files. *)
Lemma ramdisk_format_ok d m : disk_ok (ramdisk_format d m).1 /\ forall name, file_named (ramdisk_format d m).1 name = None.
Proof.
  assert (forall i f, files (ramdisk_format d m).1 !! i = Some f -> in_use f = true -> False) as Hno.
  { intros i f Hf Hu. cbn [ramdisk_format fst files] in Hf. apply lookup_replicate in Hf as [-> _]. done. }
  split.
  - split; [done|done|done| |]; intros; exfalso; by eapply Hno.
  - intros name. unfold file_named. destruct (find_file_by_name _ name) as [i|] eqn:E; [|done]. exfalso.
    destruct (find_by_name_Some _ _ _ E) as (f & Hf & Hu & _). by eapply Hno.
Qed.

(** The node of a file of the disk at [device], in the file system [fs]. *)
Definition node_of (fs device : Z) (i : nat) (file : RamDiskFile) : FSNode :=
  MkNode (rf_name file) (rf_flags file) (FS_PERM_READ .| FS_PERM_WRITE) 0 0 (rf_size file) 0
    (access_time file) (modify_time file) (create_time file) fs (device + 8 + sizeof_RamDiskFile * Z.of_nat i).

(** ** Properties *)

(** A write through a descriptor on a file of a RAM disk either fails with -1,
    because the file is unknown or there is no space, and leaves the
    descriptor where it is, or stores all the bytes and moves the descriptor
    behind them; a seek back to where it was and a read of the same size then
    deliver exactly the bytes written, from fs.c down to the bytes of the
    disk. *)
Theorem vfs_ramdisk_roundtrip `{Linker} fuel fd d n device rd buf buf2 size (m : mem) (v : Vfs) (c : Console) (ds : RamDisks) l :
  let code := ramdisk_code fuel in
  linked -> ram_file v ds fd d n device rd -> length (fd_table v) = 256%nat -> disk_ok rd ->
  0 <= fd_offset d <= node_size n -> 0 < size -> fd_offset d + size < 2 ^ 31 ->
  outside rd buf size -> outside rd buf2 size ->
  exists r m1 v1 c1 ds1, vfs_write fd buf size (m, v, c, ds) l = Done (r, (m1, v1, c1, ds1), l) /\
    (r = -1 /\ v1 = v \/
     r = size /\ exists v2 m3 v3 c3 ds3,
       vfs_seek fd (fd_offset d) FS_SEEK_SET (m1, v1, c1, ds1) l = Done (fd_offset d, (m1, v2, c1, ds1), l) /\
       vfs_read fd buf2 size (m1, v2, c1, ds1) l = Done (size, (m3, v3, c3, ds3), l) /\
       forall k, 0 <= k < size -> load m3 (buf2 + k) = load m (buf + k)).
Proof.
  intros code Hlink Hfile Hlen Hok Ho Hs Hb Hb1 Hb2. set (off := fd_offset d) in *.
  destruct (ramdisk_write (MkSt rd m c) (node_name n) off size buf) as [r s1] eqn:Hw.
  assert (r = -1 \/ r = size) as Hr.
  { unfold ramdisk_write in Hw. destruct (find_file_by_name _ _); [|injection Hw as <- _; by left].
    cbv zeta in Hw. destruct (grow_file _ _ _ _) as [[[f1 d1] mm]|]; [|injection Hw as <- _; by left].
    right. injection Hw as <- _. apply i32_id. lia. }
  pose proof (ram_transfer fuel op_write _ v ds fd d n device rd buf size m c l r s1 Hfile (lk_write Hlink)
    (call_ramdisk_write fuel Hlink _ _ _ _) Hw ltac:(lia) ltac:(lia) ltac:(lia)) as E1.
  exists r. do 4 eexists. split; [exact E1|]. destruct Hr as [Er | Er]; rewrite Er in *.
  - left. split; [done|]. apply set_fd_id. pose proof (rfd_open _ _ _ _ _ _ _ Hfile) as Hfd.
    apply open_fd_Some in Hfd as (_ & Ht & _). rewrite Ht. cbn [Z.max]. rewrite Z.add_0_r. by destruct d.
  - right. split; [done|].
    destruct (ramdisk_write_then_read (MkSt rd m c) (node_name n) off size buf buf2 size s1) as (s2 & E2 & _ & Hk);
      [lia|lia|lia|exact Hw|lia| |done|done|].
    { intros i f Hi Hf. destruct (find_by_name_Some _ _ _ Hi) as (f' & Hf' & Hu & _). simplify_eq.
      pose proof (do_file _ Hok i f Hf Hu) as [? ? ? ?]. pose proof (do_space _ Hok). pose proof (do_free _ Hok).
      unfold RAMDISK_BLOCK_SIZE in *. lia. }
    set (v1 := set_fd fd _ v). set (d1 := MkFd (fd_node d) (off + Z.max 0 size) (fd_flags d) (fd_refcount d)).
    pose proof (ram_file_moved v ds fd d n device rd (disk s1) (off + Z.max 0 size) Hfile Hlen) as Hf1. fold d1 in Hf1.
    pose proof (@vfs_seek_set_run fstate _ (ram s1, v1, screen s1, <[device := disk s1]> ds) l fd off d1 n) as Eseek.
    specialize (Eseek (rfd_open _ _ _ _ _ _ _ Hf1) (rfd_node _ _ _ _ _ _ _ Hf1) Ho ltac:(lia)).
    assert (length (fd_table v1) = 256%nat) as Hlen1 by (unfold v1, set_fd; cbn; by rewrite length_insert).
    pose proof (ram_file_moved v1 (<[device := disk s1]> ds) fd d1 n device (disk s1) (disk s1) off Hf1 Hlen1) as Hf2.
    rewrite insert_insert_eq in Hf2.
    pose proof (ram_transfer fuel op_read _ _ _ fd _ n device (disk s1) buf2 size (ram s1) (screen s1) l size s2 Hf2
      (lk_read Hlink) (call_ramdisk_read fuel _ _ _ _) ltac:(destruct s1; exact E2) ltac:(lia) ltac:(cbn; lia) ltac:(cbn; lia)) as E3.
    do 5 eexists. split; [exact Eseek|]. split; [exact E3|]. exact Hk.
Qed.

(** [ramdisk_find_file] returns a null pointer exactly when no file of the
    disk has the name, and then changes nothing; otherwise a new node with
    the fields of the file, in a block of its own, so that neither another
    node nor another allocation changes. *)
Theorem ramdisk_find_file_finds fuel base bl fs name f rd (m : mem) (v : Vfs) (c : Console) (ds : RamDisks) (h : heap) l :
  filesystems v !! fs = Some f -> ds !! fs_device f = Some rd ->
  heap_rep h m base bl -> heap_room 1 fuel bl h -> 0 <= base ->
  match find_file_by_name rd name with
  | None => ramdisk_find_file fuel fs name (m, v, c, ds, h) l = Done (0, (m, v, c, ds, h), l)
  | Some i => exists node v' m' h' bl' sz file,
      ramdisk_find_file fuel fs name (m, v, c, ds, h) l = Done (node, (m', v', c, ds, h'), l) /\
      node <> 0 /\ files rd !! i = Some file /\ in_use file = true /\ rf_name file = name /\
      nodes v' !! node = Some (node_of fs (fs_device f) i file) /\
      (forall p, p <> node -> nodes v' !! p = nodes v !! p) /\
      heap_rep h' m' base bl' /\ live base bl' ≡ₚ (node, sz) :: live base bl /\ keeps base bl m m'
  end.
Proof.
  intros Hf Hd Hr Hroom Hb.
  destruct (find_file_by_name rd name) as [i|] eqn:Hn.
  - destruct (find_by_name_Some _ _ _ Hn) as (file & Hfile & Hu & Hname & Hdef).
    pose proof (allocate_run fuel base 0 bl sizeof_FSNode (m, v, c, ds, h) l) as R.
    destruct (R Hr ltac:(unfold sizeof_FSNode; lia) Hroom) as (p & m' & h' & bl' & sz & E & Hr' & Hs & Hl & Hp & Hk & _).
    unfold HDR in Hp. exists p.
    exists (MkVfs (<[p := node_of fs (fs_device f) i file]> (nodes v)) (filesystems v) (operations v) (fd_table v)
              (mount_points v) (num_mounts v) (root_node v)), m', h', bl', sz, file.
    split_and!; try done; [|lia|cbn; apply lookup_insert_eq|intros q Hq; cbn; by apply lookup_insert_ne].
    unfold ramdisk_find_file. rewrite gets_bind. cbn [get_part has_fst has_snd has_refl fst snd id].
    rewrite Hf, some_bind, gets_bind. cbn [get_part has_fst has_snd has_refl fst snd id]. rewrite Hd, some_bind, Hn, Hdef.
    rewrite (M_bind_done _ _ _ _ _ _ _ E). decide_lia. reflexivity.
  - unfold ramdisk_find_file. rewrite gets_bind. cbn [get_part has_fst has_snd has_refl fst snd id].
    rewrite Hf, some_bind, gets_bind. cbn [get_part has_fst has_snd has_refl fst snd id]. rewrite Hd, some_bind, Hn. reflexivity.
Qed.

(** The file [a] of [disk1], open at offset 100 through descriptor 0. *)
Definition w_linker : Linker := {|
  back_buffer := 0;
  literal _ := 0;
  function s := if String.eqb s "ramdisk_read" then 0x2000 else 0x3000;
|}.
#[local] Existing Instance w_linker.

Definition w_file : FSNode := MkNode [97] FS_FILE 6 0 0 512 0 0 0 0 600 0.
Definition w_open : FileDescriptor := MkFd 500 100 0 1.
Definition w_ramfs : Vfs :=
  MkVfs {[500 := w_file]} {[600 := MkFs (bytes_of "ramdisk") 0 800 700]} {[700 := ramdisk_ops]}
    (w_open :: replicate 255 fd_zero) (replicate 16 (0, 0)) 0 0.

Lemma w_linked : linked.
Proof. split; discriminate. Qed.

Lemma w_ram_file : ram_file w_ramfs {[800 := disk1]} 0 w_open w_file 800 disk1.
Proof.
  split; [reflexivity|reflexivity| |reflexivity]. exists (MkFs (bytes_of "ramdisk") 0 800 700).
  split; [reflexivity|]. split; [discriminate|]. split; [reflexivity|]. split; [discriminate|reflexivity].
Qed.

Lemma vfs_ramdisk_roundtrip_witness :
  exists r (s' : fstate), @vfs_write fstate _ (ramdisk_code 10) 0 0 3 (ram s1, w_ramfs, console_initial, {[800 := disk1]}) [] = Done (r, s', []) /\
    (r = -1 \/ r = 3).
Proof.
  destruct (vfs_ramdisk_roundtrip 10 0 w_open w_file 800 disk1 0 1024 3 (ram s1) w_ramfs console_initial {[800 := disk1]} [])
    as (r & m1 & v1 & c1 & ds1 & E & Hr).
  - exact w_linked.
  - exact w_ram_file.
  - reflexivity.
  - exact disk1_ok.
  - cbn. lia.
  - lia.
  - cbn. lia.
  - left. cbn. lia.
  - left. cbn. lia.
  - exists r, (m1, v1, c1, ds1). split; [exact E|]. destruct Hr as [[Hr _]|[Hr _]]; [by left|by right].
Defined.
