(* ===== verification/Streams.v ===== *)
(** * Descriptors on the files of a RAM disk (src/impl/kernel/ramdisk.c, fs.c)

    What a program with open descriptors may rely on, over any sequence of
    reads, writes and seeks. The specification has no blocks and no memory:
    a file is its bytes and the number of bytes it can hold, a descriptor a
    name and a position ([volume]); [answer] is what a call returns and what
    it leaves, for calls that are [legal]. Below it are the descriptors of fs.c,
    the operations of ramdisk.c behind their pointers, the file table and the
    bytes of the disk. *)
From S2P Require Export RamFs.

(** ** The specification *)

(** [fi_room]: 0 until the first write reserves blocks of 512 bytes. *)
Record file := MkStored { fi_bytes : list Z; fi_room : Z }.

(** [sm_end]: the size the file had when its node was made. *)
Record stream := MkStream { sm_name : list Z; sm_pos : Z; sm_end : Z }.

(** [vo_free]: the blocks that no file has. *)
Record volume := MkVolume { vo_files : gmap (list Z) file; vo_free : Z; vo_open : gmap Z stream }.

Inductive request :=
  | Read (fd n buf : Z)
  | Write (fd : Z) (bytes : list Z) (buf : Z)
  | Seek (fd offset whence : Z).

Definition move (fd pos : Z) (A : volume) : volume :=
  MkVolume (vo_files A) (vo_free A) (alter (fun s => MkStream (sm_name s) pos (sm_end s)) fd (vo_open A)).

(** The blocks for [n] bytes. *)
Definition blocks_for (n : Z) : Z := (n + 511) / 512.

Definition enough_blocks (A : volume) (f : file) (n : Z) : Prop := fi_room f <> 0 \/ blocks_for n <= vo_free A.

#[export] Instance enough_blocks_dec A f n : Decision (enough_blocks A f n).
Proof. unfold enough_blocks. apply _. Defined.

(** The file with [bytes] stored at [pos], and the blocks it reserves. *)
Definition store_bytes (name : list Z) (f : file) (pos : Z) (bytes : list Z) (A : volume) : volume :=
  let need := if fi_room f =? 0 then blocks_for (pos + Z.of_nat (length bytes)) else 0 in
  MkVolume (<[name := MkStored (splice (Z.to_nat pos) bytes (fi_bytes f)) (fi_room f + 512 * need)]> (vo_files A))
    (vo_free A - need) (vo_open A).

(** The position a seek starts from. *)
Definition seek_base (s : stream) (whence : Z) : Z :=
  if whence =? FS_SEEK_SET then 0 else if whence =? FS_SEEK_CUR then sm_pos s else sm_end s.

Definition request_fd (r : request) : Z := match r with Read fd _ _ | Write fd _ _ | Seek fd _ _ => fd end.

(** The result of the call, the bytes it delivers, and the volume after it. *)
Definition answer (r : request) (A : volume) : Z * list Z * volume :=
  match vo_open A !! request_fd r with
  | None => (-1, [], A)
  | Some s =>
      let f := default (MkStored [] 0) (vo_files A !! sm_name s) in
      match r with
      | Read fd n _ =>
          let bytes := take (Z.to_nat n) (drop (Z.to_nat (sm_pos s)) (fi_bytes f)) in
          (Z.of_nat (length bytes), bytes, move fd (sm_pos s + Z.of_nat (length bytes)) A)
      | Write fd bytes _ =>
          let n := Z.of_nat (length bytes) in
          if decide (enough_blocks A f (sm_pos s + n)) then
            (n, [], move fd (sm_pos s + n) (store_bytes (sm_name s) f (sm_pos s) bytes A))
          else (-1, [], A)
      | Seek fd offset whence =>
          let pos := seek_base s whence + offset in
          if decide (0 <= pos <= sm_end s) then (pos, [], move fd pos A) else (-1, [], A)
      end
  end.

(** The caller's side, for a disk whose bytes start at [data]: buffers apart
    from the disk, and no write behind the blocks that a file has. *)
Definition off_disk (data b n : Z) : Prop := b + n <= data \/ data + 2 ^ 33 <= b.

Definition legal (data : Z) (r : request) (A : volume) : Prop :=
  match r with
  | Read fd n buf =>
      0 <= n /\ off_disk data buf n /\
      match vo_open A !! fd with Some s => sm_pos s + n < 2 ^ 31 | None => True end
  | Write fd bytes buf =>
      let n := Z.of_nat (length bytes) in
      Forall (fun c => 0 <= c < 256) bytes /\ off_disk data buf n /\
      match vo_open A !! fd with
      | Some s => sm_pos s + n < 2 ^ 31 /\
          let f := default (MkStored [] 0) (vo_files A !! sm_name s) in fi_room f = 0 \/ sm_pos s + n <= fi_room f
      | None => True
      end
  | Seek _ offset whence =>
      whence ∈ [FS_SEEK_SET; FS_SEEK_CUR; FS_SEEK_END] /\ - 2 ^ 62 <= offset < 2 ^ 62
  end.

#[export] Instance legal_dec data r A : Decision (legal data r A).
Proof. destruct r as [fd n buf|fd bytes buf|fd offset whence]; cbn [legal]; unfold off_disk; try destruct (vo_open A !! fd); apply _. Defined.

(** What a sequence of calls returns, and that each of them is legal. *)
Fixpoint answers (rs : list request) (A : volume) : list (Z * list Z) * volume :=
  match rs with
  | [] => ([], A)
  | r :: rs => let '(v, bytes, A) := answer r A in let '(vs, A) := answers rs A in ((v, bytes) :: vs, A)
  end.

Fixpoint all_legal (data : Z) (rs : list request) (A : volume) : Prop :=
  match rs with
  | [] => True
  | r :: rs => legal data r A /\ all_legal data rs (answer r A).2
  end.

#[export] Instance all_legal_dec data rs A : Decision (all_legal data rs A).
Proof. revert A. induction rs as [|r rs IH]; intros A; cbn [all_legal]; apply _. Defined.

(** ** The calls *)

Section calls.
Context `{Linker} (fuel : nat).
#[local] Instance calls_code : Code fstate := ramdisk_code fuel.

(** A write puts the bytes in its buffer first; a read delivers its buffer's. *)
Definition serve (r : request) : M fstate (Z * list Z) :=
  match r with
  | Read fd n buf =>
      v ← vfs_read fd buf n;
      m ← gets (C := mem) id;
      mret (v, read_bytes m buf (Z.to_nat v))
  | Write fd bytes buf =>
      modify (fun m => write_bytes m buf bytes);;
      v ← vfs_write fd buf (Z.of_nat (length bytes));
      mret (v, [])
  | Seek fd offset whence => v ← vfs_seek fd offset whence; mret (v, [])
  end.

Fixpoint serve_all (rs : list request) : M fstate (list (Z * list Z)) :=
  match rs with
  | [] => mret []
  | r :: rs => v ← serve r; vs ← serve_all rs; mret (v :: vs)
  end.
End calls.

(** ** What the state has to do with the volume *)

Definition stored (d : RamDisk) (m : mem) (f : RamDiskFile) : file := MkStored (contents d m f) (512 * block_count f).

Section streams.
Context `{Linker} (fuel : nat) (Hlink : linked) (device start : Z).

(** The descriptor [fd] is open on a file of the disk, as [s] says, or closed. *)
Definition descriptor (v : Vfs) (ds : RamDisks) (rd : RamDisk) (fd : Z) (s : option stream) : Prop :=
  match s with
  | None => open_fd v fd = None
  | Some s => exists d n f, ram_file v ds fd d n device rd /\ node_name n = sm_name s /\
      fd_offset d = sm_pos s /\ node_size n = sm_end s /\ file_named rd (sm_name s) = Some f /\
      0 <= sm_pos s <= rf_size f /\ 0 <= sm_end s <= rf_size f
  end.

Record represents (rd : RamDisk) (m : mem) (v : Vfs) (ds : RamDisks) (A : volume) : Prop := {
  rp_ok : disk_ok rd;
  rp_names : unique_names rd;
  rp_data : data rd = start;
  rp_disk : ds !! device = Some rd;
  rp_files : forall name, vo_files A !! name = stored rd m <$> file_named rd name;
  rp_free : vo_free A = free_blocks rd;
  rp_table : length (fd_table v) = 256%nat;
  rp_open : forall fd, descriptor v ds rd fd (vo_open A !! fd);
}.

Lemma open_fd_set_ne v fd d fd' : 0 <= fd -> fd' <> fd -> open_fd (set_fd fd d v) fd' = open_fd v fd'.
Proof.
  intros Hfd Hne. unfold open_fd. destruct (_ || _) eqn:Hb; [done|]. apply orb_false_iff in Hb as [? ?].
  cbn. by rewrite list_lookup_insert_ne by lia.
Qed.

Lemma ram_file_other v ds fd' d' n' rd rd1 fd d :
  ram_file v ds fd' d' n' device rd -> 0 <= fd -> fd' <> fd ->
  ram_file (set_fd fd d v) (<[device := rd1]> ds) fd' d' n' device rd1.
Proof.
  intros [Ho Hn Hf _] Hfd Hne. split; [by rewrite open_fd_set_ne|done|done|apply lookup_insert_eq].
Qed.

Lemma file_named_ok rd name f : disk_ok rd -> file_named rd name = Some f -> file_ok rd f.
Proof.
  intros Hd (i & Hi & Hf)%bind_Some. destruct (find_by_name_Some _ _ _ Hi) as (f' & Hf' & Hu & _). simplify_eq.
  by eapply do_file.
Qed.

(** A change of memory apart from the disk. *)
Lemma represents_memory rd m m' v ds A lo hi :
  represents rd m v ds A -> changes lo hi m m' -> off_disk start lo (hi - lo) -> represents rd m' v ds A.
Proof.
  intros [Hok Hun Hdt Hds Hfl Hfr Ht Ho] Hc Hout. split; try done. intros name. rewrite Hfl.
  destruct (file_named rd name) as [f|] eqn:E; [|done]. cbn. f_equal. unfold stored. f_equal. symmetry.
  pose proof (file_named_ok rd name f Hok E) as Hf. pose proof Hf as [? ? ? ?]. pose proof (do_space _ Hok).
  eapply contents_changes; [done|done|done|exact Hc|]. unfold off_disk in Hout. lia.
Qed.

(** A new version of the file behind [fd], and a new position of [fd]. *)
Lemma represents_update rd rd1 m m1 v ds A A1 fd s d n f f1 pos :
  represents rd m v ds A -> vo_open A !! fd = Some s -> ram_file v ds fd d n device rd ->
  node_name n = sm_name s -> node_size n = sm_end s -> file_named rd (sm_name s) = Some f ->
  0 <= sm_end s <= rf_size f -> rf_size f <= rf_size f1 -> 0 <= pos <= rf_size f1 ->
  disk_ok rd1 -> unique_names rd1 -> data rd1 = start ->
  (forall name, file_named rd1 name = if decide (name = sm_name s) then Some f1 else file_named rd name) ->
  (forall name, vo_files A1 !! name = stored rd1 m1 <$> file_named rd1 name) ->
  vo_free A1 = free_blocks rd1 -> vo_open A1 = vo_open A ->
  represents rd1 m1 (set_fd fd (MkFd (fd_node d) pos (fd_flags d) (fd_refcount d)) v) (<[device := rd1]> ds) (move fd pos A1).
Proof.
  intros [Hok Hun Hdt Hds Hfl Hfr Ht Ho] Hs Hfile Hnn Hns Hf He Hle Hpos Hok1 Hun1 Hdt1 Hnm Hfl1 Hfr1 Ho1.
  split; try done.
  - apply lookup_insert_eq.
  - unfold set_fd. cbn. by rewrite length_insert.
  - intros fd'. cbn [move vo_open]. rewrite Ho1. destruct (decide (fd' = fd)) as [->|Hne].
    + rewrite lookup_alter_eq, Hs. exists (MkFd (fd_node d) pos (fd_flags d) (fd_refcount d)), n, f1. cbn.
      split_and!; try done; try lia; [|by rewrite Hnm, decide_True].
      eapply ram_file_moved; [exact Hfile|done].
    + rewrite lookup_alter_ne by done. specialize (Ho fd'). pose proof (rfd_open _ _ _ _ _ _ _ Hfile) as Hfd.
      apply open_fd_Some in Hfd as (Hfd & _). destruct (vo_open A !! fd') as [s'|]; cbn [descriptor] in *.
      * destruct Ho as (d' & n' & f' & Hfile' & E1 & E2 & E3 & E4 & E5 & E6).
        destruct (decide (sm_name s' = sm_name s)) as [En|En].
        -- exists d', n', f1. rewrite En in E4. simplify_eq. split_and!; try done; try lia.
           ++ eapply ram_file_other; [exact Hfile'|lia|done].
           ++ by rewrite Hnm, decide_True.
        -- exists d', n', f'. split_and!; try done; try lia.
           ++ eapply ram_file_other; [exact Hfile'|lia|done].
           ++ by rewrite Hnm, decide_False.
      * by rewrite open_fd_set_ne by lia.
Qed.

(** ** One call *)

#[local] Instance streams_code : Code fstate := ramdisk_code fuel.

(** The call [r] returns what the specification answers. *)
Definition answered (rd : RamDisk) (m : mem) (v : Vfs) (c : Console) (ds : RamDisks) (A : volume) (r : request) (l : log) : Prop :=
  exists rd1 m1 v1 c1 ds1, serve fuel r (m, v, c, ds) l = Done ((answer r A).1, (m1, v1, c1, ds1), l) /\
    represents rd1 m1 v1 ds1 (answer r A).2.

Lemma answered_closed rd m v c ds A r l :
  represents rd m v ds A -> legal start r A -> vo_open A !! request_fd r = None -> answered rd m v c ds A r l.
Proof.
  intros Hrp Hl Hs. pose proof (rp_open _ _ _ _ _ Hrp (request_fd r)) as Hc. rewrite Hs in Hc. cbn [descriptor] in Hc.
  unfold answered. assert (answer r A = (-1, [], A)) as -> by (unfold answer; by rewrite Hs).
  destruct r as [fd n buf|fd bytes buf|fd offset whence]; cbn [request_fd] in Hc; cbn [fst snd serve].
  - exists rd, m, v, c, ds. split; [|done]. unfold vfs_read, vfs_transfer. vfs_run. by rewrite Hc.
  - destruct Hl as (_ & Hout & _). exists rd, (write_bytes m buf bytes), v, c, ds. split.
    + unfold vfs_write, vfs_transfer. vfs_run. by rewrite Hc.
    + eapply represents_memory; [exact Hrp|apply write_bytes_changes|].
      by replace (buf + Z.of_nat (length bytes) - buf) with (Z.of_nat (length bytes)) by lia.
  - exists rd, m, v, c, ds. split; [|done]. unfold vfs_seek. vfs_run. by rewrite Hc.
Qed.

(** What the descriptor [fd] stands for. *)
Lemma descriptor_file rd m v ds A fd s :
  represents rd m v ds A -> vo_open A !! fd = Some s ->
  exists d n f i, ram_file v ds fd d n device rd /\ node_name n = sm_name s /\ fd_offset d = sm_pos s /\
    node_size n = sm_end s /\ file_named rd (sm_name s) = Some f /\ find_file_by_name rd (sm_name s) = Some i /\
    files rd !! i = Some f /\ in_use f = true /\ rf_name f = sm_name s /\ file_ok rd f /\
    0 <= sm_pos s <= rf_size f /\ 0 <= sm_end s <= rf_size f /\ rf_size f < 2 ^ 21 /\
    vo_files A !! sm_name s = Some (stored rd m f).
Proof.
  intros Hrp Hs. pose proof (rp_open _ _ _ _ _ Hrp fd) as Hd. rewrite Hs in Hd.
  destruct Hd as (d & n & f & Hfile & Hn & Ho & He & Hf & Hp & Hend). exists d, n, f.
  pose proof Hf as (i & Hi & Hfi)%bind_Some. destruct (find_by_name_Some _ _ _ Hi) as (f' & Hf' & Hu & Hnm & _). simplify_eq.
  pose proof (file_named_ok rd (sm_name s) f (rp_ok _ _ _ _ _ Hrp) Hf) as Hok. pose proof Hok as [? ? ? ?].
  pose proof (do_space _ (rp_ok _ _ _ _ _ Hrp)). unfold RAMDISK_BLOCK_SIZE in *.
  exists i. split_and!; try done; try lia. by rewrite (rp_files _ _ _ _ _ Hrp), Hf.
Qed.

Lemma answered_read rd m v c ds A fd n buf s l :
  represents rd m v ds A -> legal start (Read fd n buf) A -> vo_open A !! fd = Some s ->
  answered rd m v c ds A (Read fd n buf) l.
Proof.
  intros Hrp (Hn & Hout & Hl) Hs. rewrite Hs in Hl.
  destruct (descriptor_file rd m v ds A fd s Hrp Hs) as
    (d & nd & f & i & Hfile & Hnn & Ho & He & Hf & Hi & Hfi & Hu & Hnm & Hok & Hp & Hend & Hsz & Hst).
  destruct (ramdisk_read (MkSt rd m c) (node_name nd) (fd_offset d) n buf) as [r s1] eqn:Hr.
  rewrite Hnn, Ho in Hr. pose proof (rp_data _ _ _ _ _ Hrp) as Hdt.
  destruct (ramdisk_read_spec (MkSt rd m c) (sm_name s) (sm_pos s) n buf r s1 i f) as
    (Er & Hb & Hc & Hok1 & Hdt1 & Hfr1 & t & Hfs); try done; try lia; [apply Hrp|cbn; unfold outside; by rewrite Hdt|].
  cbn [disk ram] in *. set (bytes := take (Z.to_nat n) (drop (Z.to_nat (sm_pos s)) (contents rd m f))) in *.
  assert (Z.of_nat (length bytes) <= n /\ sm_pos s + Z.of_nat (length bytes) <= rf_size f) as [Hbn Hbs].
  { unfold bytes. rewrite length_take, length_drop. unfold contents. rewrite length_read_bytes. lia. }
  rewrite <- Hnn, <- Ho in Hr.
  pose proof (ram_transfer fuel op_read _ v ds fd d nd device rd buf n m c l r s1 Hfile (lk_read Hlink)
    (call_ramdisk_read fuel _ _ _ _) Hr ltac:(lia) ltac:(lia) ltac:(lia)) as E.
  unfold answered. assert (answer (Read fd n buf) A = (r, bytes, move fd (sm_pos s + r) A)) as ->.
  { unfold answer. cbn [request_fd]. rewrite Hs, Hst. cbn [default id fi_bytes stored]. unfold id. by rewrite Er. }
  cbn [fst snd]. do 5 eexists. split.
  - cbn [serve]. rewrite (M_bind_done _ _ _ _ _ _ _ E), gets_bind. cbn. by rewrite Hb.
  - destruct (file_named_update rd (disk s1) (sm_name s) i f (with_times (modify_time f) t f)) as [Hun1 Hnm1];
      try done; [apply Hrp|].
    rewrite Ho, Z.max_r by lia.
    eapply (represents_update rd (disk s1) m (ram s1) v ds A A fd s d nd f (with_times (modify_time f) t f)); try done.
    + cbn. lia.
    + by rewrite Hdt1.
    + assert (represents rd (ram s1) v ds A) as Hrp1.
      { eapply represents_memory; [exact Hrp|exact Hc|]. by replace (buf + n - buf) with n by lia. }
      intros name. rewrite (rp_files _ _ _ _ _ Hrp1 name), Hnm1. case_decide as En; [|].
      * subst name. rewrite Hf. cbn. unfold stored, contents, file_data. cbn. by rewrite Hdt1.
      * destruct (file_named rd name); [|done]. cbn. unfold stored, contents, file_data. by rewrite Hdt1.
    + rewrite Hfr1. apply Hrp.
Qed.

Lemma answered_seek rd m v c ds A fd offset whence s l :
  represents rd m v ds A -> legal start (Seek fd offset whence) A -> vo_open A !! fd = Some s ->
  answered rd m v c ds A (Seek fd offset whence) l.
Proof.
  intros Hrp [Hw Hoff] Hs.
  destruct (descriptor_file rd m v ds A fd s Hrp Hs) as
    (d & nd & f & i & Hfile & Hnn & Ho & He & Hf & Hi & Hfi & Hu & Hnm & Hok & Hp & Hend & Hsz & Hst).
  pose proof (seek_run (m, v, c, ds) l fd offset whence d nd (seek_base s whence) (rfd_open _ _ _ _ _ _ _ Hfile)
    (rfd_node _ _ _ _ _ _ _ Hfile)) as E. cbn [get_part set_part has_fst has_snd has_refl fst snd] in E.
  rewrite Ho, He in E. specialize (E ltac:(lia) ltac:(lia)).
  assert ((whence, seek_base s whence) ∈ [(FS_SEEK_SET, 0); (FS_SEEK_CUR, sm_pos s); (FS_SEEK_END, sm_end s)] /\
    0 <= seek_base s whence < 2 ^ 21) as [Hin Hb].
  { rewrite !elem_of_cons, elem_of_nil in Hw. destruct Hw as [->|[->|[->|[]]]]; cbn; (split; [set_solver|lia]). }
  specialize (E Hin ltac:(lia)). unfold answered.
  assert (answer (Seek fd offset whence) A = if decide (0 <= seek_base s whence + offset <= sm_end s) then
    (seek_base s whence + offset, [], move fd (seek_base s whence + offset) A) else (-1, [], A)) as ->.
  { unfold answer. cbn [request_fd]. by rewrite Hs. }
  case_decide; cbn [fst snd serve]; rewrite (M_bind_done _ _ _ _ _ _ _ E); do 5 eexists; (split; [reflexivity|]); [|done].
  assert (<[device := rd]> ds = ds) as Hds by (apply insert_id; apply Hrp). rewrite <- Hds.
  eapply (represents_update rd rd m m v ds A A fd s d nd f f); try done; try lia; try apply Hrp.
  intros name. case_decide; [by subst|done].
Qed.

Lemma blocks_for_code n :
  0 <= n < 2 ^ 31 -> u32 (u64 (n + RAMDISK_BLOCK_SIZE - 1) / RAMDISK_BLOCK_SIZE) = blocks_for n.
Proof.
  intros Hn. unfold blocks_for, RAMDISK_BLOCK_SIZE. replace (n + 512 - 1) with (n + 511) by lia.
  rewrite u64_id by lia. apply u32_id. split; [apply Z.div_pos; lia|apply Z.div_lt_upper_bound; lia].
Qed.

Lemma enough_blocks_count A rd m f n :
  0 <= block_count f -> vo_free A = free_blocks rd ->
  enough_blocks A (stored rd m f) n <-> block_count f <> 0 \/ blocks_for n <= free_blocks rd.
Proof. intros Hc <-. unfold enough_blocks. cbn. split; (intros [?|?]; [left; lia|by right]). Qed.

Lemma answered_write rd m v c ds A fd bytes buf s l :
  represents rd m v ds A -> legal start (Write fd bytes buf) A -> vo_open A !! fd = Some s ->
  answered rd m v c ds A (Write fd bytes buf) l.
Proof.
  intros Hrp0 (Hby & Hout & Hl) Hs. set (m' := write_bytes m buf bytes). set (n := Z.of_nat (length bytes)) in *.
  assert (represents rd m' v ds A) as Hrp.
  { eapply represents_memory; [exact Hrp0|apply write_bytes_changes|]. fold n. by replace (buf + n - buf) with n by lia. }
  destruct (descriptor_file rd m' v ds A fd s Hrp Hs) as
    (d & nd & f & i & Hfile & Hnn & Ho & He & Hf & Hi & Hfi & Hu & Hnm & Hok & Hp & Hend & Hsz & Hst).
  rewrite Hs, Hst in Hl. destruct Hl as [Hlt Hroom]. cbn [default id fi_room stored] in Hroom. unfold id in Hroom. cbn [fi_room] in Hroom.
  pose proof (rp_data _ _ _ _ _ Hrp) as Hdt. pose proof Hok as [Hb0 Hc0 _ _].
  assert (read_bytes m' buf (Z.to_nat n) = bytes) as Hbuf.
  { unfold n. rewrite Nat2Z.id. apply read_bytes_eq, write_bytes_at, Hby. }
  destruct (ramdisk_write (MkSt rd m' c) (node_name nd) (fd_offset d) n buf) as [r s1] eqn:Hr.
  pose proof Hr as Hr'. rewrite Hnn, Ho in Hr'.
  assert (answer (Write fd bytes buf) A =
    if decide (block_count f <> 0 \/ blocks_for (sm_pos s + n) <= free_blocks rd) then
      (n, [], move fd (sm_pos s + n) (store_bytes (sm_name s) (stored rd m' f) (sm_pos s) bytes A)) else (-1, [], A)) as Ha.
  { unfold answer. cbn [request_fd]. rewrite Hs, Hst. cbn [default]. unfold id. apply decide_ext.
    apply enough_blocks_count; [lia|apply Hrp]. }
  destruct (ramdisk_write_in_place (MkSt rd m' c) (sm_name s) (sm_pos s) n buf r s1 i f) as
    [(-> & Ed & Er & Hz & Hfew)|(f1 & -> & Hok1 & Hfs & Hu1 & Hdt1 & Hsz1 & Hf1 & Hap & Hram & Hn1 & Hst1 & Hcnt)];
    try done; try lia; [apply Hrp|..]; cbn [disk ram] in *; rewrite blocks_for_code in * by lia.
  - pose proof (ram_transfer fuel op_write _ v ds fd d nd device rd buf n m' c l (-1) s1 Hfile (lk_write Hlink)
      (call_ramdisk_write fuel Hlink _ _ _ _) Hr ltac:(lia) ltac:(lia) ltac:(lia)) as E.
    unfold answered. rewrite Ha, decide_False by lia. cbn [fst snd]. do 5 eexists. split.
    + cbn [serve]. rewrite modify_bind. cbn [get_part set_part has_fst has_snd has_refl fst snd]. fold m' n.
      by rewrite (M_bind_done _ _ _ _ _ _ _ E).
    + rewrite Z.max_l, Z.add_0_r, Er, Ed, (insert_id ds device) by (done || lia || apply Hrp).
      rewrite set_fd_id; [done|]. pose proof (rfd_open _ _ _ _ _ _ _ Hfile) as Hfd.
      apply open_fd_Some in Hfd as (_ & Ht & _). rewrite Ht. by destruct d.
  - pose proof (ram_transfer fuel op_write _ v ds fd d nd device rd buf n m' c l n s1 Hfile (lk_write Hlink)
      (call_ramdisk_write fuel Hlink _ _ _ _) Hr ltac:(lia) ltac:(lia) ltac:(lia)) as E.
    unfold answered. rewrite Ha, decide_True by (destruct (Z.eqb_spec (block_count f) 0); lia).
    cbn [fst snd]. do 5 eexists. split.
    + cbn [serve]. rewrite modify_bind. cbn [get_part set_part has_fst has_snd has_refl fst snd]. fold m' n.
      by rewrite (M_bind_done _ _ _ _ _ _ _ E).
    + destruct (file_named_update rd (disk s1) (sm_name s) i f f1) as [Hun1 Hnm1]; try done; [apply Hrp|].
      rewrite Ho, Z.max_r by lia.
      eapply (represents_update rd (disk s1) m' (ram s1) v ds A
        (store_bytes (sm_name s) (stored rd m' f) (sm_pos s) bytes A) fd s d nd f f1); try done; try lia.
      * intros name. cbn [store_bytes vo_files]. rewrite Hnm1. destruct (decide (name = sm_name s)) as [->|En].
        -- rewrite lookup_insert_eq. cbn [fmap option_fmap option_map]. f_equal. unfold stored.
           rewrite Hram. rewrite (write_contents rd (disk s1) m' f f1 (sm_pos s) buf n); try done; try lia;
             [|unfold outside; by rewrite Hdt]. rewrite Hbuf. cbn [fi_bytes fi_room]. f_equal. fold n.
           destruct (Z.eqb_spec (block_count f) 0); [decide_lia; lia|]. decide_lia. lia.
        -- rewrite lookup_insert_ne by done. rewrite (rp_files _ _ _ _ _ Hrp).
           destruct (file_named rd name) as [g|] eqn:Eg; [|done]. cbn. unfold stored. do 2 f_equal. symmetry.
           pose proof Eg as (j & Hj & Hg)%bind_Some. destruct (find_by_name_Some _ _ _ Hj) as (g' & Hg' & Hgu & Hgn & _).
           simplify_eq. assert (j <> i) as Hji by (intros ->; congruence).
           pose proof (do_space _ Hok1). pose proof (do_free _ Hok1). pose proof Hf1 as [? ? ? ?].
           unfold RAMDISK_BLOCK_SIZE in *. rewrite Hram, file_data_id, Hdt1 by lia.
           eapply contents_changes; [apply Hrp|by eapply file_named_ok, Eg; apply Hrp|done|apply memcpy_changes; lia|].
           destruct (Hap j g Hji Hg Hgu); [left|right]; lia.
      * cbn [store_bytes vo_free fi_room stored]. rewrite (rp_free _ _ _ _ _ Hrp). fold n.
        destruct (Z.eqb_spec (block_count f) 0); decide_lia; lia.
Qed.

Lemma answered_request rd m v c ds A r l :
  represents rd m v ds A -> legal start r A -> answered rd m v c ds A r l.
Proof.
  intros Hrp Hl. destruct (vo_open A !! request_fd r) as [s|] eqn:Hs; [|by apply answered_closed].
  destruct r; cbn [request_fd] in Hs; [by eapply answered_read|by eapply answered_write|by eapply answered_seek].
Qed.
End streams.

(** ** Properties *)

(** C5. Any sequence of reads, writes and seeks through open (or closed)
    descriptors on the files of a RAM disk, legal for the caller, returns
    exactly what the specification answers, the bytes read included, and leaves
    what it says: descriptors on one file see each other's writes and keep
    their own positions, other files keep their bytes, a first write that
    finds too few blocks returns -1 and changes nothing. The file table stays
    well formed. *)
Theorem streams_refine `{Linker} fuel device start rd (m : mem) (v : Vfs) (c : Console) (ds : RamDisks) A rs l :
  linked -> represents device start rd m v ds A -> all_legal start rs A ->
  exists rd1 m1 v1 c1 ds1, serve_all fuel rs (m, v, c, ds) l = Done ((answers rs A).1, (m1, v1, c1, ds1), l) /\
    represents device start rd1 m1 v1 ds1 (answers rs A).2.
Proof.
  intros Hlink. revert rd m v c ds A. induction rs as [|r rs IH]; intros rd m v c ds A Hrp Hl; cbn [answers serve_all].
  - by exists rd, m, v, c, ds.
  - destruct Hl as [Hl Hrs].
    destruct (answered_request fuel Hlink device start rd m v c ds A r l Hrp Hl) as (rd1 & m1 & v1 & c1 & ds1 & E & Hrp1).
    destruct (IH rd1 m1 v1 c1 ds1 _ Hrp1 Hrs) as (rd2 & m2 & v2 & c2 & ds2 & E2 & Hrp2).
    exists rd2, m2, v2, c2, ds2. rewrite (M_bind_done _ _ _ _ _ _ _ E), (M_bind_done _ _ _ _ _ _ _ E2).
    destruct (answer r A) as [[n bytes] A1]. cbn [fst snd] in *. by destruct (answers rs A1).
Qed.

(** Descriptor 0 on the file [a] of [disk1], at 100; 1 and 2 on the empty file [b]. *)
#[local] Existing Instance w_linker.

Definition w_empty : FSNode := MkNode [98] FS_FILE 6 0 0 0 0 0 0 0 600 0.
Definition w_fds : list FileDescriptor := [w_open; MkFd 501 0 0 1; MkFd 501 0 0 1].
Definition w_three : Vfs :=
  MkVfs {[500 := w_file; 501 := w_empty]} {[600 := MkFs (bytes_of "ramdisk") 0 800 700]} {[700 := ramdisk_ops]}
    (w_fds ++ replicate 253 fd_zero) (replicate 16 (0, 0)) 0 0.
Definition w_volume : volume :=
  MkVolume (<[[97] := MkStored (read_bytes (ram s1) 4096 512) 512]> (<[[98] := MkStored [] 0]> ∅)) 2047
    (<[0 := MkStream [97] 100 512]> (<[1 := MkStream [98] 0 0]> (<[2 := MkStream [98] 0 0]> ∅))).

Lemma w_unique : unique_names disk1.
Proof.
  intros i j f g Hi Hj Hf Hg.
  destruct (disk1_files i f Hi Hf) as [[-> ->]|[-> ->]], (disk1_files j g Hj Hg) as [[-> ->]|[-> ->]]; done.
Qed.

Lemma w_represents : represents 800 4096 disk1 (ram s1) w_three {[800 := disk1]} w_volume.
Proof.
  split; [apply disk1_ok|apply w_unique|done|done| |done|done|].
  - intros name. destruct (decide (name = [97])) as [->|Ha]; [reflexivity|].
    destruct (decide (name = [98])) as [->|Hb]; [reflexivity|]. cbn [w_volume vo_files].
    rewrite !lookup_insert_ne, lookup_empty by done.
    replace (file_named disk1 name) with (@None RamDiskFile); [done|]. symmetry.
    apply file_named_None; [apply w_unique|]. intros i f Hi Hf.
    by destruct (disk1_files i f Hi Hf) as [[-> ->]|[-> ->]].
  - assert (forall fd node d n, open_fd w_three fd = Some d -> nodes w_three !! fd_node d = Some n -> fd_node d = node ->
      node_fs n = 600 -> ram_file w_three {[800 := disk1]} fd d n 800 disk1) as Hram.
    { intros fd node d n Ho Hn _ Hf. split; [done|done| |done]. rewrite Hf.
      exists (MkFs (bytes_of "ramdisk") 0 800 700). by split_and!. }
    intros fd. destruct (decide (fd = 0)) as [->|H0].
    { exists w_open, w_file, (MkFile [97] 0 512 0 1 0 0 0 true). split_and!; try done. by apply (Hram 0 500). }
    destruct (decide (fd = 1)) as [->|H1].
    { exists (MkFd 501 0 0 1), w_empty, (MkFile [98] 0 0 0 0 0 0 0 true). split_and!; try done. by apply (Hram 1 501). }
    destruct (decide (fd = 2)) as [->|H2].
    { exists (MkFd 501 0 0 1), w_empty, (MkFile [98] 0 0 0 0 0 0 0 true). split_and!; try done. by apply (Hram 2 501). }
    cbn [w_volume vo_open]. rewrite !lookup_insert_ne, lookup_empty by done. cbn [descriptor].
    unfold open_fd. destruct (_ || _) eqn:Hb; [done|]. apply orb_false_iff in Hb as [Hlo Hhi]. unfold MAX_FD in *.
    cbn [fd_table w_three]. rewrite lookup_app_r by (cbn; lia). rewrite lookup_replicate_2 by (cbn; lia). done.
Qed.

(** "Hi" is written to [b] through one descriptor, read through the other;
    a read beyond the end of [a] is short. *)
Definition w_requests : list request :=
  [Write 1 [72; 105] 0; Read 2 10 1024; Seek 0 (-2) FS_SEEK_END; Read 0 10 1024; Seek 1 1 FS_SEEK_SET; Read 7 1 0].

Lemma streams_refine_witness :
  exists s', serve_all 10 w_requests (ram s1, w_three, console_initial, {[800 := disk1]}) [] =
    Done ([(2, []); (2, [72; 105]); (510, []); (2, [0; 0]); (-1, []); (-1, [])], s', []).
Proof.
  destruct (streams_refine 10 800 4096 disk1 (ram s1) w_three console_initial {[800 := disk1]} w_volume w_requests [])
    as (rd1 & m1 & v1 & c1 & ds1 & E & _).
  - apply w_linked.
  - apply w_represents.
  - apply (bool_decide_unpack _). vm_compute. exact I.
  - exists (m1, v1, c1, ds1). rewrite E. vm_compute. reflexivity.
Defined.
