(* ===== verification/IdeDevice.v ===== *)
(** * IDE drives as storage devices (src/impl/drivers/storage/ide.c, lines 18-25
    and 257-308)

    [ide_init_device] allocates the two structures of a drive and identifies
    it; [ide_cleanup_device] frees them. As in RamFs.v the fields of a
    structure are a record kept by the address that [malloc] returned. *)
From S2P Require Export Alloc Storage Ide.

(** ** Definitions *)

Definition sizeof_StorageDevice := 144.
Definition sizeof_IDEDevice := 20.

Abbreviation IdeDevices := (gmap Z IDEDevice).

Definition ide_ops `{Linker} : StorageDeviceOps :=
  MkDevOps 0 (function "ide_read_sectors") (function "ide_write_sectors") 0 (function "ide_cleanup_device").

Section device.
Context `{Linker} `{Hw} {K : Type} `{Has Storage K} `{Has IdeDevices K} `{Has mem K} `{Has heap K}.
Context (fuel : nat).
(** What the fields that nothing assigns happen to hold. *)
Context (junk : StorageDeviceInfo).

Definition put_device (p : Z) (d : option StorageDevice) : M K unit :=
  modify (fun s => MkStorage (partial_alter (fun _ => d) p (device_at s)) (ops_at s) (devices s) (num_devices s)).
Definition put_ide (p : Z) (d : option IDEDevice) : M K unit :=
  modify (partial_alter (fun _ => d) p : IdeDevices -> IdeDevices).

(** The fields of [dev->info] assigned before the identification. *)
Definition device_info (slave : Z) : StorageDeviceInfo :=
  MkInfo (bytes_of (if slave =? 0 then "ide0" else "ide1")) STORAGE_TYPE_IDE 0 (total_sectors junk) 512 256
    (model junk) (serial junk) (firmware junk).

Definition ide_init_device (base slave : Z) : M K Z :=
  dev ← allocate fuel sizeof_StorageDevice;
  if dev =? 0 then
    serial_write_string fuel COM1_PORT (line "[IDE] Error: Failed to allocate device structure");; mret 0
  else
    ide_dev ← allocate fuel sizeof_IDEDevice;
    if ide_dev =? 0 then
      release dev;;
      serial_write_string fuel COM1_PORT (line "[IDE] Error: Failed to allocate IDE structure");; mret 0
    else
      '(r, d) ← ide_identify (MkIde base 0 0 slave false 0 0 0 0);
      if negb (r =? 0) then
        release ide_dev;;
        release dev;;
        serial_write_string fuel COM1_PORT (line "[IDE] Error: Device identification failed");; mret 0
      else
        put_ide ide_dev (Some d);;
        put_device dev (Some (MkDevice (device_info slave) (function "ide_ops") ide_dev));;
        mret dev.

Definition ide_cleanup_device (dev : Z) : M K unit :=
  if dev =? 0 then mret tt
  else
    s ← gets (C := Storage) id;
    d ← some (device_at s !! dev);
    (if negb (private_data d =? 0) then
       release (private_data d);;
       put_ide (private_data d) None
     else mret tt);;
    release dev;;
    put_device dev None.
End device.

(** ** Identification returns *)

Section identify.
Context `{Hw} {K : Type}.

(** [x] returns in the state it started from. *)
Definition pure_run {A} (x : M K A) (P : A -> Prop) : Prop :=
  forall s l, exists a l', x s l = Done (a, s, l') /\ P a.

Lemma pure_bind {A B} (x : M K A) (f : A -> M K B) P Q :
  pure_run x P -> (forall a, P a -> pure_run (f a) Q) -> pure_run (x ≫= f) Q.
Proof.
  intros Hx Hf s l. destruct (Hx s l) as (a & l1 & E & Ha). destruct (Hf a Ha s l1) as (b & l2 & E2 & Hb).
  exists b, l2. by rewrite (M_bind_done _ _ _ _ _ _ _ E).
Qed.

Lemma pure_ret {A} (a : A) (P : A -> Prop) : P a -> pure_run (mret a) P.
Proof. intros Ha s l. by exists a, l. Qed.

Lemma pure_out port v : pure_run (port_byte_out port v) (fun _ => True).
Proof. intros s l. by do 2 eexists. Qed.

Lemma pure_in port : pure_run (port_byte_in port) (fun _ => True).
Proof. intros s l. by do 2 eexists. Qed.

Lemma pure_identify_wait n base : pure_run (identify_wait n base) (fun r => r = 0 \/ r = -1).
Proof.
  induction n as [|[|n] IH]; [apply pure_ret; by right..|].
  change (pure_run (status ← port_byte_in (base + IDE_PRIMARY_STATUS);
      if tst status IDE_SR_ERR then mret (-1) else if tst status IDE_SR_DRQ then mret 0
      else identify_wait (S n) base) (fun r => r = 0 \/ r = -1)).
  eapply pure_bind; [apply pure_in|]. intros v _.
  destruct (tst v IDE_SR_ERR); [apply pure_ret; by right|].
  destruct (tst v IDE_SR_DRQ); [apply pure_ret; by left|done].
Qed.

Lemma pure_read_words n port data : pure_run (read_words n port data) (fun _ => True).
Proof.
  revert data. induction n as [|n IH]; intros data; cbn [read_words]; [by apply pure_ret|].
  apply (pure_bind _ _ (fun _ => True)); [|intros w _; apply IH]. unfold port_word_in.
  eapply pure_bind; [apply pure_in|]. intros a _. eapply pure_bind; [apply pure_in|]. intros b _. by apply pure_ret.
Qed.

(** With any drive, present or not, [ide_identify] returns 0 or -1; a drive
    that is identified keeps its place and its selection. *)
Lemma ide_identify_returns dev :
  pure_run (ide_identify dev) (fun p => (p.1 = 0 \/ p.1 = -1) /\ dev_base p.2 = dev_base dev /\ slave p.2 = slave dev).
Proof.
  unfold ide_identify, ide_select_drive, port_io_wait. cbv zeta.
  repeat (eapply pure_bind; [first [apply pure_out|eapply pure_bind; [apply pure_out|intros ? _; apply pure_out]]|intros ? _]).
  eapply pure_bind; [apply pure_identify_wait|]. intros r Hr.
  destruct (r <? 0); [apply pure_ret; cbn; auto|].
  eapply pure_bind; [apply pure_read_words|]. intros data _. apply pure_ret. cbn. auto.
Qed.
End identify.

(** ** Devices on the heap *)

Abbreviation dstate := (Storage * IdeDevices * mem * heap)%type.

Section run.
Context `{Linker} `{Hw} (fuel : nat) (Hready : always_ready tx_empty fuel (COM1_PORT + 5)).

Lemma allocate_device base k bl n (s : Storage) (ds : IdeDevices) (m : mem) (h : heap) l :
  heap_rep h m base bl -> 0 < n <= 4072 -> heap_room (S k) fuel bl h -> 0 <= base ->
  exists p m' h' bl' sz, allocate fuel n (s, ds, m, h) l = Done (p, (s, ds, m', h'), l) /\ p <> 0 /\
    heap_rep h' m' base bl' /\ live base bl' ≡ₚ (p, sz) :: live base bl /\
    keeps base bl m m' /\ heap_room k fuel bl' h'.
Proof.
  intros Hr Hn Hroom Hb. pose proof (allocate_run fuel base k bl n (s, ds, m, h) l) as R.
  destruct (R Hr Hn Hroom) as (p & m' & h' & bl' & sz & E & Hr' & _ & Hl & Hp & Hk & Hroom').
  unfold HDR in Hp. exists p, m', h', bl', sz. split; [exact E|]. split_and!; [lia|done..].
Qed.
Lemma ide_init_device_run junk hbase bl port slave
    (s : Storage) (ds : IdeDevices) (m : mem) (h : heap) l :
  heap_rep h m hbase bl -> heap_room 2 fuel bl h -> 0 <= hbase ->
  exists p s' ds' m' h' bl' l', ide_init_device fuel junk port slave (s, ds, m, h) l = Done (p, (s', ds', m', h'), l') /\
    heap_rep h' m' hbase bl' /\ keeps hbase bl m m' /\
    (p = 0 /\ s' = s /\ ds' = ds /\ live hbase bl' ≡ₚ live hbase bl \/
     p <> 0 /\ exists q sp sq d, q <> 0 /\ live hbase bl' ≡ₚ (q, sq) :: (p, sp) :: live hbase bl /\
       s' = MkStorage (<[p := MkDevice (device_info junk slave) (function "ide_ops") q]> (device_at s)) (ops_at s) (devices s) (num_devices s) /\
       ds' = <[q := d]> ds /\ dev_base d = port /\ Ide.slave d = slave).
Proof.
  intros Hr Hroom Hb.
  destruct (allocate_device hbase 1 bl sizeof_StorageDevice s ds m h l Hr ltac:(unfold sizeof_StorageDevice; lia) Hroom Hb)
    as (p & m1 & h1 & bl1 & sp & E1 & Hp & Hr1 & Hl1 & Hk1 & Hroom1).
  destruct (allocate_device hbase 0 bl1 sizeof_IDEDevice s ds m1 h1 l Hr1 ltac:(unfold sizeof_IDEDevice; lia) Hroom1 Hb)
    as (q & m2 & h2 & bl2 & sq & E2 & Hq & Hr2 & Hl2 & Hk2 & _).
  destruct (ide_identify_returns (MkIde port 0 0 slave false 0 0 0 0) (s, ds, m2, h2) l) as ([r d] & l3 & E3 & Hres & Hd).
  unfold ide_init_device. rewrite (M_bind_done _ _ _ _ _ _ _ E1). decide_lia.
  rewrite (M_bind_done _ _ _ _ _ _ _ E2). decide_lia. rewrite (M_bind_done _ _ _ _ _ _ _ E3). cbn [fst] in Hres.
  assert (keeps hbase bl m m2) as Hk.
  { destruct Hk1 as [Ha1 Hb1], Hk2 as [Ha2 Hb2]. split; [intros a Ha; by rewrite Ha2, Ha1|].
    intros x sz a Hin Ha. rewrite (Hb2 x sz); [by apply (Hb1 x sz)|rewrite Hl1; by right|done]. }
  destruct Hres as [->| ->]; cbn [Z.eqb negb].
  - exists p. do 5 eexists. exists l3. split; [reflexivity|]. split; [exact Hr2|]. split; [exact Hk|]. right.
    split; [done|]. exists q, sp, sq, d. split; [done|]. split; [by rewrite Hl2, Hl1|]. by split.
  - unfold release. rewrite !modify_bind. cbn [get_part set_part has_fst has_snd has_refl fst snd].
    destruct (free_two hbase h2 m2 bl2 q sq p sp Hr2) as (bl3 & Hr3 & Hl3 & [Ha3 Hb3] & _).
    { rewrite Hl2. by left. }
    { rewrite Hl2, Hl1. right. by left. }
    { pose proof (live_NoDup _ _ _ _ _ (hr_seg Hr2)) as Hnd. rewrite Hl2, Hl1, !fmap_cons in Hnd.
      apply NoDup_cons in Hnd as [Hno _]. cbn in Hno. set_solver. }
    assert (live hbase bl3 ≡ₚ live hbase bl) as Hl.
    { rewrite Hl2, Hl1 in Hl3. by apply Permutation_cons_inv, Permutation_cons_inv in Hl3. }
    destruct (print_bind fuel Hready (line "[IDE] Error: Device identification failed") (fun _ => mret 0)
      (s, ds, free (free m2 q) p, h2) l3) as (l4 & _ & E4).
    exists 0, s, ds, (free (free m2 q) p), h2, bl3, l4. split; [exact E4|]. split; [exact Hr3|]. split.
    + destruct Hk as [Ha Hb']. split; [intros a Hlt; by rewrite Ha3, Ha|].
      intros x sz a Hin Hx. rewrite (Hb3 x sz); [by apply (Hb' x sz)|by rewrite Hl|done].
    + left. by split_and!.
Qed.

(** [ide_cleanup_device] frees both allocations of a device. *)
Lemma ide_cleanup_device_run hbase bl p q sp sq d i (s : Storage) (ds : IdeDevices) (m : mem) (h : heap) l :
  heap_rep h m hbase bl -> p <> 0 -> q <> 0 -> p <> q -> (p, sp) ∈ live hbase bl -> (q, sq) ∈ live hbase bl ->
  device_at s !! p = Some (MkDevice i d q) ->
  exists bl', ide_cleanup_device p (s, ds, m, h) l =
      Done (tt, (MkStorage (delete p (device_at s)) (ops_at s) (devices s) (num_devices s), delete q ds, free (free m q) p, h), l) /\
    heap_rep h (free (free m q) p) hbase bl' /\ live hbase bl ≡ₚ (q, sq) :: (p, sp) :: live hbase bl' /\
    keeps hbase bl' m (free (free m q) p).
Proof.
  intros Hr Hp Hq Hne Hinp Hinq Hdev.
  destruct (free_two hbase h m bl q sq p sp Hr Hinq Hinp ltac:(done)) as (bl' & Hr' & Hl & Hk & _).
  exists bl'. split; [|by split_and!]. unfold ide_cleanup_device. decide_lia. rewrite gets_bind.
  cbn [get_part has_fst has_snd has_refl fst snd]. unfold id. rewrite Hdev, some_bind. cbn [private_data]. decide_lia.
  cbn [negb]. unfold release, put_ide, put_device. rewrite !M_bind_assoc, !modify_bind. reflexivity.
Qed.
End run.

(** ** Properties *)

(** C30. Whatever drive answers, or none, [ide_init_device] returns. When the
    identification fails it returns a null pointer, both allocations are
    freed again and no device is recorded; otherwise it returns the address
    of a new device with the name of its position, the operations of the
    driver and the identified drive behind it. In both cases the earlier
    allocations keep their bytes. *)
Theorem ide_init_device_outcomes `{Linker} `{Hw} fuel junk hbase bl port slave
    (s : Storage) (ds : IdeDevices) (m : mem) (h : heap) l :
  always_ready tx_empty fuel (COM1_PORT + 5) ->
  heap_rep h m hbase bl -> heap_room 2 fuel bl h -> 0 <= hbase ->
  exists p s' ds' m' h' bl' l', ide_init_device fuel junk port slave (s, ds, m, h) l = Done (p, (s', ds', m', h'), l') /\
    heap_rep h' m' hbase bl' /\ keeps hbase bl m m' /\
    (p = 0 /\ s' = s /\ ds' = ds /\ live hbase bl' ≡ₚ live hbase bl \/
     p <> 0 /\ exists q sp sq d, q <> 0 /\ live hbase bl' ≡ₚ (q, sq) :: (p, sp) :: live hbase bl /\
       s' = MkStorage (<[p := MkDevice (device_info junk slave) (function "ide_ops") q]> (device_at s)) (ops_at s) (devices s) (num_devices s) /\
       ds' = <[q := d]> ds /\ dev_base d = port /\ Ide.slave d = slave).
Proof. intros Hready. by apply ide_init_device_run. Qed.

(** C31. A device's life: when [ide_init_device] has returned a device, its
    operations' [cleanup] gives back exactly what was allocated for it, forgets
    the device and its drive, and keeps every earlier allocation. *)
Theorem ide_device_cleaned_up `{Linker} `{Hw} fuel junk hbase bl port slave
    (s : Storage) (ds : IdeDevices) (m : mem) (h : heap) l :
  always_ready tx_empty fuel (COM1_PORT + 5) ->
  heap_rep h m hbase bl -> heap_room 2 fuel bl h -> 0 <= hbase ->
  exists p s1 ds1 m1 h1 l1, ide_init_device fuel junk port slave (s, ds, m, h) l = Done (p, (s1, ds1, m1, h1), l1) /\
    (p <> 0 -> exists q m2 bl2,
      ide_cleanup_device p (s1, ds1, m1, h1) l1 =
        Done (tt, (MkStorage (delete p (device_at s)) (ops_at s) (devices s) (num_devices s), delete q ds, m2, h1), l1) /\
      heap_rep h1 m2 hbase bl2 /\ live hbase bl2 ≡ₚ live hbase bl /\ keeps hbase bl m m2).
Proof.
  intros Hready Hr Hroom Hb.
  destruct (ide_init_device_run fuel Hready junk hbase bl port slave s ds m h l Hr Hroom Hb)
    as (p & s1 & ds1 & m1 & h1 & bl1 & l1 & E & Hr1 & Hk1 & Hout).
  exists p, s1, ds1, m1, h1, l1. split; [exact E|]. intros Hp.
  destruct Hout as [[? _]|(_ & q & sp & sq & d & Hq & Hl1 & -> & -> & _)]; [done|].
  assert (q <> p) as Hne.
  { pose proof (live_NoDup _ _ _ _ _ (hr_seg Hr1)) as Hnd. rewrite Hl1, !fmap_cons in Hnd.
    apply NoDup_cons in Hnd as [Hno _]. cbn in Hno. set_solver. }
  destruct (ide_cleanup_device_run hbase bl1 p q sp sq (function "ide_ops") (device_info junk slave)
    (MkStorage (<[p:=MkDevice (device_info junk slave) (function "ide_ops") q]> (device_at s)) (ops_at s) (devices s) (num_devices s))
    (<[q:=d]> ds) m1 h1 l1 Hr1 Hp Hq ltac:(done)) as (bl2 & E2 & Hr2 & Hl2 & [Ha2 Hb2]).
  { rewrite Hl1. right. by left. }
  { rewrite Hl1. by left. }
  { apply lookup_insert_eq. }
  assert (live hbase bl2 ≡ₚ live hbase bl) as Hl.
  { rewrite Hl1 in Hl2. by apply Permutation_cons_inv, Permutation_cons_inv in Hl2. }
  exists q, (free (free m1 q) p), bl2. split; [|split; [exact Hr2|split; [exact Hl|]]].
  - rewrite E2. cbn [device_at ops_at devices num_devices]. by rewrite !delete_insert_eq.
  - destruct Hk1 as [Ha1 Hb1]. split; [intros a Hlt; by rewrite Ha2, Ha1|].
    intros x sz a Hin Hx. rewrite (Hb2 x sz); [by apply (Hb1 x sz)|by rewrite Hl|done].
Qed.

(** Through the registry a drive cannot be removed: [storage_unregister_device]
    calls [cleanup], which frees the device, and then prints its name. *)
Theorem unregister_drive_undefined `{Linker} `{Hw} `{C : Code dstate} fuel p q i j
    (s : Storage) (ds : IdeDevices) (m : mem) (h : heap) l :
  p <> 0 -> q <> 0 -> function "ide_ops" <> 0 -> function "ide_cleanup_device" <> 0 ->
  list_find (fun d => d = p) (take (Z.to_nat (num_devices s)) (devices s)) = Some (j, p) ->
  device_at s !! p = Some (MkDevice i (function "ide_ops") q) -> ops_at s !! function "ide_ops" = Some ide_ops ->
  call (function "ide_cleanup_device") [p] = (ide_cleanup_device p;; mret 0) ->
  storage_unregister_device fuel p (s, ds, m, h) l = Undef.
Proof.
  intros Hp Hq Hops Hcl Hfind Hdev Hopsat Hcall. unfold storage_unregister_device. decide_lia. rewrite gets_bind.
  change (id (get_part _)) with s. rewrite Hfind.
  assert (dev_op s dev_cleanup p = Some (function "ide_cleanup_device")) as ->.
  { unfold dev_op. rewrite Hdev. cbn [mbind option_bind dev_ops]. decide_lia. by rewrite Hopsat. }
  rewrite some_bind. decide_lia.
  unfold call_void. rewrite Hcall. unfold ide_cleanup_device. decide_lia. rewrite !M_bind_assoc, gets_bind.
  change (id (get_part _)) with s. rewrite Hdev, !M_bind_assoc, some_bind. cbn [private_data]. decide_lia. cbn [negb].
  unfold release, put_ide, put_device. repeat first [rewrite M_bind_assoc | rewrite modify_bind | rewrite ret_bind | rewrite gets_bind].
  unfold set_registry, id. cbn [get_part set_part has_fst has_snd has_refl fst snd device_at]. by rewrite lookup_partial_alter_eq.
Qed.

Definition w_ide_linker : Linker := {| back_buffer := 0; literal _ := 0; function _ := 0x3000 |}.
#[local] Existing Instance w_ide_linker.

Section outcomes_witness.
#[local] Existing Instance w_hw.

Lemma ide_init_device_outcomes_witness :
  exists p (s' : Storage) (ds' : IdeDevices) (m' : mem) (h' : heap) l',
    ide_init_device 10 (MkInfo [] 0 0 0 0 0 [] [] []) 0x1F0 1 (w_storage [], ∅, ∅, w_h0) [] = Done (p, (s', ds', m', h'), l').
Proof.
  destruct (ide_init_device_outcomes 10 (MkInfo [] 0 0 0 0 0 [] [] []) 0x400000 [] 0x1F0 1 (w_storage []) ∅ ∅ w_h0 [])
    as (p & s' & ds' & m' & h' & bl' & l' & E & _).
  - intros l. exists 0%nat. split; [lia|reflexivity].
  - by split.
  - split; [reflexivity|]. cbn [length]. lia.
  - lia.
  - exists p, s', ds', m', h', l'. exact E.
Defined.
End outcomes_witness.

(** A drive that always has data, and a serial port that is ready. *)
Definition w_hw_drive : Hw := {| hw_in _ port := if port =? COM1_PORT + 5 then 0x20 else 0x48 |}.
#[local] Existing Instance w_hw_drive.

Lemma ide_device_cleaned_up_witness :
  exists p (s1 s2 : Storage) (ds1 ds2 : IdeDevices) (m1 m2 : mem) (h1 : heap) bl2 l1,
    ide_init_device 10 (MkInfo [] 0 0 0 0 0 [] [] []) 0 1 (w_storage [], ∅, ∅, w_h0) [] = Done (p, (s1, ds1, m1, h1), l1) /\
    p <> 0 /\ ide_cleanup_device p (s1, ds1, m1, h1) l1 = Done (tt, (s2, ds2, m2, h1), l1) /\
    live 0x400000 bl2 = [].
Proof.
  destruct (ide_device_cleaned_up 10 (MkInfo [] 0 0 0 0 0 [] [] []) 0x400000 [] 0 1 (w_storage []) ∅ ∅ w_h0 [])
    as (p & s1 & ds1 & m1 & h1 & l1 & E & Hclean).
  - intros l. exists 0%nat. split; [lia|reflexivity].
  - by split.
  - split; [reflexivity|]. cbn [length]. lia.
  - lia.
  - assert (p <> 0) as Hp.
    { pose proof (f_equal (fun r => match r with Done (p, _, _) => p | _ => 0 end) E) as Ep. cbn beta iota in Ep.
      rewrite <- Ep. vm_compute. discriminate. }
    destruct (Hclean Hp) as (q & m2 & bl2 & E2 & _ & Hl & _).
    eexists p, s1, _, ds1, _, m1, m2, h1, bl2, l1. split; [exact E|]. split; [exact Hp|]. split; [exact E2|].
    by apply Permutation_nil_r.
Defined.
