(* ===== verification/Vga.v ===== *)
(** * VGA graphics (src/impl/drivers/video/vga.c)

    The driver draws into a 64 KiB buffer of its own and copies it to the
    frame buffer at 0xA0000. Both lie in the byte memory. A store behind the end
    of the buffer, which C gives no meaning (it reaches other statics), is
    [Undef], and so is every drawing function that comes to one. The address of
    the static [back_buffer] is the linker's choice, a parameter. *)
From S2P Require Export CString Ps2.

(** ** Definitions *)

Definition VGA_COLOR_BLACK := 0x00.
Definition VGA_COLOR_BLUE := 0x01.
Definition VGA_COLOR_CYAN := 0x03.
Definition VGA_COLOR_RED := 0x04.
Definition VGA_COLOR_LIGHT_GRAY := 0x07.
Definition VGA_COLOR_DARK_GRAY := 0x08.
Definition VGA_COLOR_YELLOW := 0x0E.
Definition VGA_COLOR_WHITE := 0x0F.
Definition VGA_MODE_TEXT_80x25 := 0x03.
Definition VGA_MODE_320x200x256 := 0x13.
Definition VGA_MODE_640x480x16 := 0x12.
Definition VGA_MEMORY_BASE := 0xA0000.
Definition VGA_MEMORY_SIZE := 0x10000.

Definition WINDOW_BORDER_COLOR := VGA_COLOR_LIGHT_GRAY.
Definition WINDOW_TITLE_COLOR := VGA_COLOR_BLUE.
Definition WINDOW_BACKGROUND_COLOR := VGA_COLOR_WHITE.
Definition TASKBAR_COLOR := VGA_COLOR_DARK_GRAY.
Definition DESKTOP_COLOR := VGA_COLOR_CYAN.

Record VGAMode := MkMode {
  width : Z;
  height : Z;
  bpp : Z;
  vmode : Z;
  framebuffer : Z;
  pitch : Z;
}.

(** [current_mode] before the first mode is set. *)
Definition mode_zero : VGAMode := MkMode 0 0 0 0 0 0.

(** A [const char *] argument: a literal of the source, or a string in memory. *)
Inductive text := Literal (s : list Z) | At (p : Z).

(** [text[i]] *)
Definition char_at (m : mem) (t : text) (i : Z) : Z :=
  match t with
  | Literal s => default 0 (s !! Z.to_nat i)
  | At p => load m (p + i)
  end.

Definition text_strlen (fuel : nat) (m : mem) (t : text) : res Z :=
  match t with
  | Literal s => Done (Z.of_nat (length s))
  | At p => strlen fuel m p
  end.

Definition lit (s : string) : text := Literal (bytes_of s).

(** The result of [int] arithmetic; an overflow is undefined. *)
Definition int (x : Z) : res Z := if decide (- 2 ^ 31 <= x < 2 ^ 31) then Done x else Undef.

(** The table of modes of [vga_set_mode]: width, height, bits per pixel and
    pitch. *)
Definition mode_info (mode : Z) : option (Z * Z * Z * Z) :=
  if mode =? VGA_MODE_TEXT_80x25 then Some (80, 25, 4, 80 * 2)
  else if mode =? VGA_MODE_320x200x256 then Some (320, 200, 8, 320)
  else if mode =? VGA_MODE_640x480x16 then Some (640, 480, 4, 640 / 2)
  else None.

Section drawing.
Context (back_buffer : Z).

Section mode.
Context (cm : VGAMode).

Definition vga_set_pixel (m : mem) (x y color : Z) : res mem :=
  if (width cm <=? x) || (height cm <=? y) then Done m
  else
    let offset := u32 (y * pitch cm + x) in
    if offset <? VGA_MEMORY_SIZE then Done (store m (back_buffer + offset) color) else Undef.

(** The inner loop of [vga_draw_rect]. *)
Definition rect_row (x y width color : Z) (m : mem) (i : Z) : res mem :=
  fold_res (fun m j => vga_set_pixel m (u16 (x + j)) (u16 (y + i)) color) m (seqZ 0 width).

Definition vga_draw_rect (m : mem) (x y width height color : Z) : res mem :=
  fold_res (rect_row x y width color) m (seqZ 0 height).

(** The [while (1)] of [vga_draw_line]. *)
Fixpoint line_loop (fuel : nat) (dx dy sx sy x2 y2 color : Z) (m : mem) (x1 y1 err : Z) : res mem :=
  match fuel with
  | O => Spin
  | S fuel =>
      m ← vga_set_pixel m x1 y1 color;
      if (x1 =? x2) && (y1 =? y2) then Done m
      else
        let e2 := err in
        '(err, x1) ← (if - dx <? e2 then err ← int (err - dy); Done (err, u16 (x1 + sx)) else Done (err, x1));
        '(err, y1) ← (if e2 <? dy then err ← int (err + dx); Done (err, u16 (y1 + sy)) else Done (err, y1));
        line_loop fuel dx dy sx sy x2 y2 color m x1 y1 err
  end.

Definition vga_draw_line (fuel : nat) (m : mem) (x1 y1 x2 y2 color : Z) : res mem :=
  let dx := Z.abs (x2 - x1) in
  let dy := Z.abs (y2 - y1) in
  let sx := if x1 <? x2 then 1 else -1 in
  let sy := if y1 <? y2 then 1 else -1 in
  let err := Z.quot (if dy <? dx then dx else - dy) 2 in
  line_loop fuel dx dy sx sy x2 y2 color m x1 y1 err.

(** The loop of [vga_draw_text] over the characters from [i] on. *)
Fixpoint text_loop (fuel : nat) (x y : Z) (t : text) (color : Z) (m : mem) (i : Z) : res mem :=
  match fuel with
  | O => Spin
  | S fuel =>
      if char_at m t i =? 0 then Done m
      else m ← vga_draw_rect m (u16 (x + i * 8)) y (8 - 1) 16 color; text_loop fuel x y t color m (i + 1)
  end.

Definition vga_draw_text (fuel : nat) (m : mem) (x y : Z) (t : text) (color : Z) : res mem :=
  text_loop fuel x y t color m 0.

Definition vga_draw_window (fuel : nat) (m : mem) (x y width height : Z) (title : text) : res mem :=
  m ← vga_draw_rect m x y width height WINDOW_BORDER_COLOR;
  m ← vga_draw_rect m (u16 (x + 1)) (u16 (y + 1)) (u16 (width - 2)) 20 WINDOW_TITLE_COLOR;
  m ← vga_draw_text fuel m (u16 (x + 5)) (u16 (y + 5)) title VGA_COLOR_WHITE;
  m ← vga_draw_rect m (u16 (x + 1)) (u16 (y + 21)) (u16 (width - 2)) (u16 (height - 22)) WINDOW_BACKGROUND_COLOR;
  m ← vga_draw_rect m (u16 (x + width - 18)) (u16 (y + 4)) 14 14 VGA_COLOR_RED;
  vga_draw_text fuel m (u16 (x + width - 16)) (u16 (y + 6)) (lit "X") VGA_COLOR_WHITE.

Definition vga_draw_button (fuel : nat) (m : mem) (x y width height : Z) (t : text) : res mem :=
  m ← vga_draw_rect m x y width height VGA_COLOR_LIGHT_GRAY;
  m ← vga_draw_line fuel m x y (u16 (x + width - 1)) y VGA_COLOR_WHITE;
  m ← vga_draw_line fuel m x y x (u16 (y + height - 1)) VGA_COLOR_WHITE;
  m ← vga_draw_line fuel m x (u16 (y + height - 1)) (u16 (x + width - 1)) (u16 (y + height - 1)) VGA_COLOR_DARK_GRAY;
  m ← vga_draw_line fuel m (u16 (x + width - 1)) y (u16 (x + width - 1)) (u16 (y + height - 1)) VGA_COLOR_DARK_GRAY;
  n ← text_strlen fuel m t;
  let text_x := u16 (x + u64 (width - n * 8) / 2) in
  let text_y := u16 (y + Z.quot (height - 16) 2) in
  vga_draw_text fuel m text_x text_y t VGA_COLOR_BLACK.

Definition vga_draw_taskbar (fuel : nat) (m : mem) : res mem :=
  m ← vga_draw_rect m 0 (u16 (height cm - 30)) (width cm) 30 TASKBAR_COLOR;
  m ← vga_draw_button fuel m 5 (u16 (height cm - 25)) 60 20 (lit "Start");
  vga_draw_text fuel m (u16 (width cm - 50)) (u16 (height cm - 20)) (lit "12:00") VGA_COLOR_WHITE.

Definition vga_draw_desktop_icons (fuel : nat) (m : mem) : res mem :=
  m ← vga_draw_rect m 20 20 32 32 VGA_COLOR_YELLOW;
  m ← vga_draw_text fuel m 10 60 (lit "My Computer") VGA_COLOR_BLACK;
  m ← vga_draw_rect m 20 100 32 32 VGA_COLOR_BLUE;
  m ← vga_draw_text fuel m 10 140 (lit "Documents") VGA_COLOR_BLACK;
  m ← vga_draw_rect m 20 180 32 32 VGA_COLOR_BLACK;
  vga_draw_text fuel m 10 220 (lit "Terminal") VGA_COLOR_BLACK.

Definition vga_update_cursor (fuel : nat) (m : mem) (x y : Z) : res mem :=
  m ← vga_draw_line fuel m x y (u16 (x + 8)) (u16 (y + 8)) VGA_COLOR_BLACK;
  m ← vga_draw_line fuel m x y (u16 (x + 2)) (u16 (y + 8)) VGA_COLOR_BLACK;
  vga_draw_line fuel m (u16 (x + 2)) (u16 (y + 8)) (u16 (x + 8)) (u16 (y + 8)) VGA_COLOR_BLACK.
End mode.

Definition vga_clear_screen (m : mem) (color : Z) : mem := memset m back_buffer color VGA_MEMORY_SIZE.

Definition vga_swap_buffers (m : mem) : mem := memcpy m VGA_MEMORY_BASE back_buffer VGA_MEMORY_SIZE.

Definition clear_buffers (m : mem) : mem :=
  memset (memset m back_buffer 0 VGA_MEMORY_SIZE) VGA_MEMORY_BASE 0 VGA_MEMORY_SIZE.

Section vga.
Context `{Hw} {K : Type} `{Has VGAMode K} `{Has mem K}.
Context (fuel : nat).

(** Drawing reads the current mode and changes the memory. *)
Definition draw (f : VGAMode -> mem -> res mem) : M K unit :=
  cm ← gets (C := VGAMode) id;
  m ← gets (C := mem) id;
  m ← lift (f cm m);
  modify (fun _ : mem => m).

(** The register writes at the start of [vga_set_mode] and [vga_init]. *)
Definition mode_registers : M K unit :=
  port_byte_out 0x3C2 0x63;;
  port_byte_out 0x3C4 0x00;;
  port_byte_out 0x3C5 0x03;;
  port_byte_out 0x3C4 0x01;;
  port_byte_out 0x3C5 0x01;;
  port_byte_out 0x3D4 0x11;;
  v ← port_byte_in 0x3D5;
  port_byte_out 0x3D5 (v .& 0x7F).

(** The fields are assigned before [mode] and [framebuffer]; an unsupported
    mode assigns none. *)
Definition vga_set_mode (mode : Z) : M K Z :=
  mode_registers;;
  match mode_info mode with
  | None =>
      serial_write_string fuel COM1_PORT (line "[VGA] Error: Unsupported video mode");;
      mret (-1)
  | Some (w, h, b, p) =>
      modify (fun _ : VGAMode => MkMode w h b mode VGA_MEMORY_BASE p);;
      modify clear_buffers;;
      serial_write_string fuel COM1_PORT (line "[VGA] Video mode set successfully");;
      mret 0
  end.

Definition vga_init : M K unit :=
  serial_write_string fuel COM1_PORT (line "[VGA] Initializing graphics system...");;
  mode_registers;;
  vga_set_mode VGA_MODE_TEXT_80x25;;
  modify clear_buffers;;
  serial_write_string fuel COM1_PORT (line "[VGA] Graphics system initialized").

Definition vga_init_desktop : M K unit :=
  vga_set_mode VGA_MODE_640x480x16;;
  modify (fun m => vga_clear_screen m DESKTOP_COLOR);;
  draw (fun cm m => vga_draw_taskbar cm fuel m);;
  draw (fun cm m => vga_draw_desktop_icons cm fuel m);;
  modify vga_swap_buffers.

Definition vga_get_mode : M K VGAMode := gets id.
End vga.
End drawing.

(** ** Lines

    The ideal line from [a] to [b] in [n] steps, rounded to integers: where
    step [k] is on one of the two axes. *)

Definition on_line (a b n k : Z) : Z := a + Z.sgn (b - a) * ((k * Z.abs (b - a) + (n - 1) / 2) / n).

Definition line_steps (x1 y1 x2 y2 : Z) : Z := Z.max (Z.abs (x2 - x1)) (Z.abs (y2 - y1)).

(** Division by its characterisation. *)
Lemma div_is a b q : 0 < b -> b * q <= a < b * q + b -> a / b = q.
Proof. intros Hb Hq. symmetry. apply (Z.div_unique_pos a b q (a - b * q)); lia. Qed.

Lemma on_line_major a b n k :
  n = Z.abs (b - a) -> 0 < n -> 0 <= k -> on_line a b n k = a + Z.sgn (b - a) * k.
Proof.
  intros Hn Hp Hk. unfold on_line. rewrite <- Hn. rewrite (div_is _ _ k); [done|done|].
  pose proof (Z.div_mod (n - 1) 2). pose proof (Z.mod_pos_bound (n - 1) 2). nia.
Qed.

Lemma on_line_end a b n : Z.abs (b - a) <= n -> on_line a b n n = b.
Proof.
  intros Hn. unfold on_line. destruct (decide (n = 0)) as [->|Hn0].
  { rewrite Zdiv_0_r. lia. }
  rewrite (div_is _ _ (Z.abs (b - a))); [lia|lia|].
  pose proof (Z.div_mod (n - 1) 2). pose proof (Z.mod_pos_bound (n - 1) 2). nia.
Qed.

(** The error term of the loop determines the step of the minor axis. *)
Lemma on_line_minor a b n k j :
  0 < n -> - n < (k * Z.abs (b - a)) - j * n - n / 2 <= 0 ->
  on_line a b n k = a + Z.sgn (b - a) * j.
Proof.
  intros Hn Hj. unfold on_line. rewrite (div_is _ _ j); [done|done|].
  pose proof (Z.div_mod (n - 1) 2). pose proof (Z.mod_pos_bound (n - 1) 2).
  pose proof (Z.div_mod n 2). pose proof (Z.mod_pos_bound n 2). nia.
Qed.

(** The shorter axis does not move behind its end [d]; [n] is the longer one. *)
Lemma minor_moves n d h k j : 0 <= d -> 0 <= h -> k < n -> j <= d -> h - k * d + j * n < d -> j < d.
Proof. intros. assert (j <> d); [intros ->|lia]. nia. Qed.
Lemma minor_moves_neg n d h k j : 0 <= d -> 0 <= h -> k < n -> j <= d -> - d < - h + k * d - j * n -> j < d.
Proof. intros. assert (j <> d); [intros ->|lia]. nia. Qed.
Lemma minor_ends n d e j : 0 <= e + (j - d) * n < n -> 0 <= e < n -> j = d.
Proof. intros. nia. Qed.

Section line.
Context (back_buffer : Z) (cm : VGAMode) (x1 y1 x2 y2 color : Z).
Context (Hx1 : 0 <= x1 < 2 ^ 16) (Hy1 : 0 <= y1 < 2 ^ 16) (Hx2 : 0 <= x2 < 2 ^ 16) (Hy2 : 0 <= y2 < 2 ^ 16).
Let dx := Z.abs (x2 - x1).
Let dy := Z.abs (y2 - y1).
Let sx := if x1 <? x2 then 1 else -1.
Let sy := if y1 <? y2 then 1 else -1.

(** The pixel of step [k]. *)
Definition line_pixel (m : mem) (k : Z) : res mem :=
  let n := line_steps x1 y1 x2 y2 in
  vga_set_pixel back_buffer cm m (on_line x1 x2 n k) (on_line y1 y2 n k) color.

Lemma line_dir a b j : 0 <= j <= Z.abs (b - a) -> Z.sgn (b - a) * j = (if a <? b then 1 else -1) * j.
Proof. intros Hj. destruct (Z.ltb_spec a b); [rewrite Z.sgn_pos; lia|]. destruct (decide (a = b)); [nia|]. rewrite Z.sgn_neg; lia. Qed.

(** A step along an axis stays between the ends. *)
Lemma line_move a b j :
  0 <= a < 2 ^ 16 -> 0 <= b < 2 ^ 16 -> 0 <= j < Z.abs (b - a) ->
  u16 (a + (if a <? b then 1 else -1) * j + (if a <? b then 1 else -1)) =
  a + (if a <? b then 1 else -1) * (j + 1).
Proof. intros Ha Hb Hj. destruct (Z.ltb_spec a b); rewrite u16_id; lia. Qed.

Lemma move_x j : 0 <= j < dx -> u16 (x1 + sx * j + sx) = x1 + sx * (j + 1).
Proof. by apply line_move. Qed.
Lemma move_y j : 0 <= j < dy -> u16 (y1 + sy * j + sy) = y1 + sy * (j + 1).
Proof. by apply line_move. Qed.

Lemma half_bounds n : 0 < n -> 0 <= n / 2 < n.
Proof. intros Hn. split; [apply Z.div_pos; lia|apply Z.div_lt; lia]. Qed.

Lemma quot_half n : 0 <= n -> Z.quot n 2 = n / 2 /\ Z.quot (- n) 2 = - (n / 2).
Proof. intros Hn. rewrite Z.quot_opp_l, Z.quot_div_nonneg by lia. done. Qed.

(** The loop when x is the longer axis, from step [k] on, after [j] steps in y. *)
Lemma line_loop_x fuel k j m :
  dy < dx -> 0 <= k <= dx -> 0 <= j <= dy ->
  0 <= dx / 2 - k * dy + j * dx < dx -> dx - k < Z.of_nat fuel ->
  line_loop back_buffer cm fuel dx dy sx sy x2 y2 color m (x1 + sx * k) (y1 + sy * j) (dx / 2 - k * dy + j * dx) =
  fold_res line_pixel m (seqZ k (dx - k + 1)).
Proof.
  intros Hxy. assert (0 <= dy) by (unfold dy; lia). pose proof (half_bounds dx ltac:(lia)). revert k j m. induction fuel as [|fuel IH]; intros k j m Hk Hj He Hf; [lia|].
  assert (line_steps x1 y1 x2 y2 = dx) as Hn by (unfold line_steps; lia).
  rewrite seqZ_cons by lia. cbn [fold_res line_loop].
  assert (line_pixel m k = vga_set_pixel back_buffer cm m (x1 + sx * k) (y1 + sy * j) color) as ->.
  { unfold line_pixel. rewrite Hn. rewrite on_line_major by (unfold dx in *; lia).
    rewrite (on_line_minor y1 y2 dx k j) by (fold dy; lia). rewrite !line_dir by (unfold dx, dy in *; lia). done. }
  destruct (vga_set_pixel _ _ m _ _ _) as [m1| |]; [|done..]. cbn [mbind res_bind].
  destruct (Z.eqb_spec (x1 + sx * k) x2) as [Ex|Ex].
  - assert (k = dx) as -> by (unfold sx, dx in *; destruct (Z.ltb_spec x1 x2); lia).
    assert (j = dy) as -> by (apply (minor_ends dx _ (dx / 2)); lia).
    replace (y1 + sy * dy =? y2) with true by (symmetry; apply Z.eqb_eq; unfold sy, dy; destruct (Z.ltb_spec y1 y2); lia).
    cbn [andb]. by replace (Z.pred (dx - dx + 1)) with 0 by lia.
  - cbn [andb]. assert (k < dx) as Hkd by (unfold sx, dx in *; destruct (Z.ltb_spec x1 x2); lia).
    assert (dx < 2 ^ 16) by (unfold dx; lia). unfold int.
    rewrite (proj2 (Z.ltb_lt (- dx) _)) by lia. rewrite decide_True by lia. cbn [mbind res_bind].
    rewrite move_x by lia.
    destruct (Z.ltb_spec (dx / 2 - k * dy + j * dx) dy) as [Hm|Hm].
    + assert (j < dy) by (apply (minor_moves dx _ (dx / 2) k); lia). rewrite decide_True by lia. cbn [mbind res_bind].
      rewrite move_y by lia.
      replace (dx / 2 - k * dy + j * dx - dy + dx) with (dx / 2 - (k + 1) * dy + (j + 1) * dx) by ring.
      rewrite IH by lia. do 2 f_equal; lia.
    + cbn [mbind res_bind].
      replace (dx / 2 - k * dy + j * dx - dy) with (dx / 2 - (k + 1) * dy + j * dx) by ring.
      rewrite IH by lia. do 2 f_equal; lia.
Qed.

(** And when y is the longer one. *)
Lemma line_loop_y fuel k j m :
  dx <= dy -> 0 < dy -> 0 <= k <= dy -> 0 <= j <= dx ->
  - dy < - (dy / 2) + k * dx - j * dy <= 0 -> dy - k < Z.of_nat fuel ->
  line_loop back_buffer cm fuel dx dy sx sy x2 y2 color m (x1 + sx * j) (y1 + sy * k) (- (dy / 2) + k * dx - j * dy) =
  fold_res line_pixel m (seqZ k (dy - k + 1)).
Proof.
  intros Hxy Hpos. pose proof (half_bounds dy Hpos). assert (0 <= dx) by (unfold dx; lia). revert k j m. induction fuel as [|fuel IH]; intros k j m Hk Hj He Hf; [lia|].
  assert (line_steps x1 y1 x2 y2 = dy) as Hn by (unfold line_steps; lia).
  rewrite seqZ_cons by lia. cbn [fold_res line_loop].
  assert (line_pixel m k = vga_set_pixel back_buffer cm m (x1 + sx * j) (y1 + sy * k) color) as ->.
  { unfold line_pixel. rewrite Hn. rewrite (on_line_major y1 y2) by (unfold dy in *; lia).
    rewrite (on_line_minor x1 x2 dy k j) by (fold dx; lia). rewrite !line_dir by (unfold dx, dy in *; lia). done. }
  destruct (vga_set_pixel _ _ m _ _ _) as [m1| |]; [|done..]. cbn [mbind res_bind].
  destruct (Z.eqb_spec (y1 + sy * k) y2) as [Ey|Ey].
  - assert (k = dy) as -> by (unfold sy, dy in *; destruct (Z.ltb_spec y1 y2); lia).
    assert (j = dx) as -> by (apply (minor_ends dy _ (dy / 2)); lia).
    replace (x1 + sx * dx =? x2) with true by (symmetry; apply Z.eqb_eq; unfold sx, dx; destruct (Z.ltb_spec x1 x2); lia).
    cbn [andb]. by replace (Z.pred (dy - dy + 1)) with 0 by lia.
  - rewrite andb_false_r. assert (k < dy) as Hkd by (unfold sy, dy in *; destruct (Z.ltb_spec y1 y2); lia).
    assert (dy < 2 ^ 16) by (unfold dy; lia). unfold int.
    assert (0 <= dx) by (unfold dx; lia).
    rewrite (proj2 (Z.ltb_lt (- (dy / 2) + k * dx - j * dy) dy)) by lia.
    destruct (Z.ltb_spec (- dx) (- (dy / 2) + k * dx - j * dy)) as [Hm|Hm].
    + assert (j < dx) by (apply (minor_moves_neg dy _ (dy / 2) k); lia). rewrite decide_True by lia. cbn [mbind res_bind].
      rewrite move_x by lia. rewrite decide_True by lia. cbn [mbind res_bind].
      rewrite move_y by lia.
      replace (- (dy / 2) + k * dx - j * dy - dy + dx) with (- (dy / 2) + (k + 1) * dx - (j + 1) * dy) by ring.
      rewrite IH by lia. do 2 f_equal; lia.
    + cbn [mbind res_bind]. rewrite decide_True by lia. cbn [mbind res_bind].
      rewrite move_y by lia.
      replace (- (dy / 2) + k * dx - j * dy + dx) with (- (dy / 2) + (k + 1) * dx - j * dy) by ring.
      rewrite IH by lia. do 2 f_equal; lia.
Qed.

Lemma vga_draw_line_run fuel m :
  let n := line_steps x1 y1 x2 y2 in
  n < Z.of_nat fuel ->
  vga_draw_line back_buffer cm fuel m x1 y1 x2 y2 color = fold_res line_pixel m (seqZ 0 (n + 1)).
Proof.
  intros n Hf. unfold vga_draw_line. fold dx dy sx sy. destruct (Z.ltb_spec dy dx) as [Hxy|Hxy].
  - rewrite (proj1 (quot_half dx ltac:(unfold dx; lia))).
    pose proof (line_loop_x fuel 0 0 m Hxy) as E. rewrite !Z.mul_0_r, !Z.mul_0_l, !Z.add_0_r, !Z.sub_0_r in E.
    pose proof (Z.div_mod dx 2). pose proof (Z.mod_pos_bound dx 2). assert (0 <= dy) by (unfold dy; lia).
    assert (n = dx) as Hn by (unfold n, line_steps; fold dx dy; lia).
    rewrite E by lia. by rewrite Hn.
  - rewrite (proj2 (quot_half dy ltac:(unfold dy; lia))). assert (0 <= dx) by (unfold dx; lia).
    assert (n = dy) as Hn by (unfold n, line_steps; fold dx dy; lia). destruct (decide (dy = 0)) as [E0|E0].
    + destruct fuel as [|fuel]; [lia|]. assert (x1 = x2 /\ y1 = y2) as [E1 E2] by (unfold dx, dy in *; lia).
      rewrite Hn, E0. change (seqZ 0 (0 + 1)) with [0].
      cbn [line_loop fold_res]. rewrite (proj2 (Z.eqb_eq x1 x2) E1), (proj2 (Z.eqb_eq y1 y2) E2). cbn [andb].
      unfold line_pixel. change (line_steps x1 y1 x2 y2) with n. rewrite Hn, E0. unfold on_line.
      rewrite E1, E2, !Z.sub_diag, !Z.mul_0_l, !Z.add_0_r. done.
    + pose proof (line_loop_y fuel 0 0 m Hxy ltac:(lia)) as E.
      rewrite !Z.mul_0_r, !Z.mul_0_l, !Z.add_0_r, !Z.sub_0_r in E.
      pose proof (Z.div_mod dy 2). pose proof (Z.mod_pos_bound dy 2). rewrite E by lia. by rewrite Hn.
Qed.
End line.

(** ** Pixels

    In a mode that fits, every pixel of the screen has a byte of the buffer
    of its own. *)

Record mode_fits (cm : VGAMode) : Prop := {
  fits_width : 0 <= width cm <= pitch cm;
  fits_height : 0 <= height cm;
  fits_size : height cm * pitch cm <= VGA_MEMORY_SIZE;
}.

Definition on_screen (cm : VGAMode) (x y : Z) : Prop := 0 <= x < width cm /\ 0 <= y < height cm.

Definition pixel (back_buffer : Z) (cm : VGAMode) (m : mem) (x y : Z) : Z :=
  load m (back_buffer + (y * pitch cm + x)).

#[export] Instance changes_preorder lo hi : PreOrder (changes lo hi).
Proof. split; [intros m; apply changes_refl|intros m1 m2 m3; apply changes_trans]. Qed.

Section pixels.
Context (back_buffer : Z) (cm : VGAMode) (Hfit : mode_fits cm).

Lemma offset_in_buffer x y : on_screen cm x y -> 0 <= y * pitch cm + x < VGA_MEMORY_SIZE.
Proof. intros [Hx Hy]. destruct Hfit as [Hw Hh Hs]. nia. Qed.

Lemma offset_inj x y px py :
  on_screen cm x y -> on_screen cm px py ->
  y * pitch cm + x = py * pitch cm + px <-> x = px /\ y = py.
Proof.
  intros [Hx Hy] [Hpx Hpy]. destruct Hfit as [Hw Hh Hs]. split; [|by intros [-> ->]].
  intros E. assert (y = py) as ->; [|lia]. nia.
Qed.

Lemma set_pixel_on m x y c :
  on_screen cm x y -> vga_set_pixel back_buffer cm m x y c = Done (store m (back_buffer + (y * pitch cm + x)) c).
Proof.
  intros Hs. pose proof (offset_in_buffer x y Hs) as Ho. unfold VGA_MEMORY_SIZE in Ho. unfold vga_set_pixel.
  destruct Hs as [Hx Hy]. rewrite (proj2 (Z.leb_gt _ _)), (proj2 (Z.leb_gt _ _)) by lia. cbn [orb].
  rewrite u32_id by lia. by rewrite (proj2 (Z.ltb_lt _ _)) by (unfold VGA_MEMORY_SIZE; lia).
Qed.

Lemma set_pixel_off m x y c :
  0 <= x -> 0 <= y -> ~ on_screen cm x y -> vga_set_pixel back_buffer cm m x y c = Done m.
Proof.
  intros Hx Hy Hs. unfold vga_set_pixel.
  destruct (Z.leb_spec (width cm) x), (Z.leb_spec (height cm) y); try done. destruct Hs. split; lia.
Qed.

#[local] Instance on_screen_dec x y : Decision (on_screen cm x y).
Proof. unfold on_screen. apply _. Defined.

(** [m'] shows what [m] shows, but the colour [c] where [P] says so, and
    differs from it in the buffer only. *)
Record painted (P : Z -> Z -> Prop) `{!forall x y, Decision (P x y)} (c : Z) (m m' : mem) : Prop := {
  pt_pixel : forall px py, on_screen cm px py ->
    pixel back_buffer cm m' px py = if decide (P px py) then u8 c else pixel back_buffer cm m px py;
  pt_changes : changes back_buffer (back_buffer + VGA_MEMORY_SIZE) m m';
}.

Lemma painted_nothing P `{!forall x y, Decision (P x y)} c m : (forall x y, ~ P x y) -> painted P c m m.
Proof. intros HP. split; [|apply changes_refl]. intros px py _. by rewrite decide_False. Qed.

Lemma painted_app P Q R `{!forall x y, Decision (P x y), !forall x y, Decision (Q x y), !forall x y, Decision (R x y)} c m1 m2 m3 :
  (forall x y, R x y <-> P x y \/ Q x y) -> painted P c m1 m2 -> painted Q c m2 m3 -> painted R c m1 m3.
Proof.
  intros HR [Hp1 Hc1] [Hp2 Hc2]. split; [|by eapply changes_trans].
  intros px py Hs. rewrite Hp2, Hp1 by done. specialize (HR px py). repeat case_decide; tauto.
Qed.

Lemma set_pixel_paints m x y c :
  0 <= x -> 0 <= y -> exists m', vga_set_pixel back_buffer cm m x y c = Done m' /\
    painted (fun px py => px = x /\ py = y) c m m'.
Proof.
  intros Hx Hy. destruct (decide (on_screen cm x y)) as [Hs|Hs].
  - rewrite set_pixel_on by done. eexists. split; [done|]. split.
    + intros px py Hp. unfold pixel. rewrite load_store. apply decide_ext.
      pose proof (offset_inj x y px py Hs Hp). lia.
    + pose proof (offset_in_buffer x y Hs). apply changes_store. lia.
  - rewrite set_pixel_off by done. eexists. split; [done|]. split; [|apply changes_refl].
    intros px py Hp. rewrite decide_False; [done|]. intros [-> ->]. done.
Qed.

Lemma rect_row_paints m x y w c i :
  0 <= w -> 0 <= x -> x + w <= 2 ^ 16 -> exists m', rect_row back_buffer cm x y w c m i = Done m' /\
    painted (fun px py => x <= px < x + w /\ py = u16 (y + i)) c m m'.
Proof.
  intros Hw Hx Hxw. unfold rect_row. rewrite <- (Z2Nat.id w) in * by done.
  induction (Z.to_nat w) as [|k IH]; [exists m; split; [done|apply painted_nothing; lia]|].
  destruct IH as (m1 & E1 & P1); [lia..|]. rewrite seqZ_S, fold_res_snoc, E1. cbn [mbind res_bind].
  destruct (set_pixel_paints m1 (u16 (x + (0 + Z.of_nat k))) (u16 (y + i)) c) as (m2 & -> & P2); [apply u16_range..|].
  exists m2. split; [done|]. eapply painted_app; [|exact P1|exact P2]. intros px py. cbn beta. rewrite (u16_id (x + _)) by lia. lia.
Qed.

Lemma rect_paints m x y w h c :
  0 <= w -> 0 <= h -> 0 <= x -> x + w <= 2 ^ 16 -> 0 <= y -> y + h <= 2 ^ 16 ->
  exists m', vga_draw_rect back_buffer cm m x y w h c = Done m' /\
    painted (fun px py => x <= px < x + w /\ y <= py < y + h) c m m'.
Proof.
  intros Hw Hh Hx Hxw Hy Hyh. unfold vga_draw_rect. rewrite <- (Z2Nat.id h) in * by done.
  induction (Z.to_nat h) as [|k IH]; [exists m; split; [done|apply painted_nothing; lia]|].
  destruct IH as (m1 & E1 & P1); [lia..|]. rewrite seqZ_S, fold_res_snoc, E1. cbn [mbind res_bind].
  destruct (rect_row_paints m1 x y w c (0 + Z.of_nat k)) as (m2 & -> & P2); [done..|].
  exists m2. split; [done|]. eapply painted_app; [|exact P1|exact P2]. intros px py. cbn beta. rewrite (u16_id (y + _)) by lia. lia.
Qed.
End pixels.

Lemma mode_info_fits mode w h b p :
  mode_info mode = Some (w, h, b, p) -> mode <> VGA_MODE_640x480x16 ->
  mode_fits (MkMode w h b mode VGA_MEMORY_BASE p).
Proof.
  unfold mode_info. repeat case_match; intros E ?; simplify_eq; try lia;
    split; cbn; unfold VGA_MEMORY_SIZE; lia.
Qed.

(** ** What drawing reaches

    In a mode that fits, every drawing function returns and stores only in
    the buffer. *)

Section reach.
Context (back_buffer : Z) (cm : VGAMode) (Hfit : mode_fits cm).

(** [r] returns a memory that differs from [m] in the buffer only. *)
Definition reaches (m : mem) (r : res mem) : Prop :=
  exists m', r = Done m' /\ changes back_buffer (back_buffer + VGA_MEMORY_SIZE) m m'.

Lemma reaches_bind m r f :
  reaches m r -> (forall m', changes back_buffer (back_buffer + VGA_MEMORY_SIZE) m m' -> reaches m' (f m')) ->
  reaches m (r ≫= f).
Proof.
  intros (m1 & -> & H1) Hf. destruct (Hf m1 H1) as (m2 & E & H2). exists m2. split; [exact E|].
  by eapply changes_trans.
Qed.

Lemma set_pixel_reach m x y c : 0 <= x -> 0 <= y -> reaches m (vga_set_pixel back_buffer cm m x y c).
Proof. intros Hx Hy. destruct (set_pixel_paints back_buffer cm Hfit m x y c Hx Hy) as (m' & E & [_ Hc]). by exists m'. Qed.

Lemma on_line_nonneg a b n k :
  0 <= a -> 0 <= b -> Z.abs (b - a) <= n -> 0 <= k <= n -> 0 <= on_line a b n k.
Proof.
  intros Ha Hb Hd Hk. unfold on_line. destruct (decide (n = 0)) as [->|Hn].
  { rewrite Zdiv_0_r. lia. }
  assert (0 <= (k * Z.abs (b - a) + (n - 1) / 2) / n <= Z.abs (b - a)) as Hq.
  { pose proof (Z.div_mod (n - 1) 2). pose proof (Z.mod_pos_bound (n - 1) 2). split.
    - apply Z.div_pos; nia.
    - apply Z.lt_succ_r, Z.div_lt_upper_bound; nia. }
  set (q := _ / n) in *. destruct (Z.sgn_spec (b - a)) as [[? ->]|[[? ->]|[? ->]]]; lia.
Qed.

Lemma line_reach fuel m x1 y1 x2 y2 c :
  0 <= x1 < 2 ^ 16 -> 0 <= y1 < 2 ^ 16 -> 0 <= x2 < 2 ^ 16 -> 0 <= y2 < 2 ^ 16 ->
  line_steps x1 y1 x2 y2 < Z.of_nat fuel ->
  reaches m (vga_draw_line back_buffer cm fuel m x1 y1 x2 y2 c).
Proof.
  intros Hx1 Hy1 Hx2 Hy2 Hf. rewrite vga_draw_line_run by done. apply fold_res_done; [apply _|].
  intros m1 k Hk%elem_of_seqZ. apply set_pixel_reach; apply on_line_nonneg; unfold line_steps in *; lia.
Qed.

Lemma line_reach_any fuel m x1 y1 x2 y2 c :
  0 <= x1 < 2 ^ 16 -> 0 <= y1 < 2 ^ 16 -> 0 <= x2 < 2 ^ 16 -> 0 <= y2 < 2 ^ 16 -> 2 ^ 16 <= Z.of_nat fuel ->
  reaches m (vga_draw_line back_buffer cm fuel m x1 y1 x2 y2 c).
Proof. intros. apply line_reach; try done. unfold line_steps. lia. Qed.

Lemma update_cursor_reach fuel m x y :
  0 <= x < 2 ^ 16 -> 0 <= y < 2 ^ 16 -> 2 ^ 16 <= Z.of_nat fuel ->
  reaches m (vga_update_cursor back_buffer cm fuel m x y).
Proof.
  intros Hx Hy Hf. unfold vga_update_cursor.
  apply reaches_bind; [apply line_reach_any; (done || apply u16_range)|intros m1 _].
  apply reaches_bind; [apply line_reach_any; (done || apply u16_range)|intros m2 _].
  apply line_reach_any; (done || apply u16_range).
Qed.

Lemma rect_reach m x y w h c : reaches m (vga_draw_rect back_buffer cm m x y w h c).
Proof.
  apply fold_res_done; [apply _|]. intros m1 i _. apply fold_res_done; [apply _|]. intros m2 j _.
  apply set_pixel_reach; apply u16_range.
Qed.

(** A text that stays readable while pixels are set is drawn. *)
Lemma text_reach_any fuel m x y t s c :
  Forall cchar s -> (length s < fuel)%nat ->
  (forall m1 i d, changes back_buffer (back_buffer + VGA_MEMORY_SIZE) m m1 -> (s ++ [0]) !! i = Some d ->
     char_at m1 t (Z.of_nat i) = d) ->
  reaches m (vga_draw_text back_buffer cm fuel m x y t c).
Proof.
  intros Hs Hf Ht. unfold vga_draw_text. change 0 with (Z.of_nat 0).
  assert (forall k n m1, changes back_buffer (back_buffer + VGA_MEMORY_SIZE) m m1 -> (n + k = length s)%nat -> (k < fuel)%nat ->
    reaches m1 (text_loop back_buffer cm fuel x y t c m1 (Z.of_nat n))) as Hloop;
    [|apply (Hloop (length s)); [apply changes_refl|lia|lia]].
  clear Hf. induction fuel as [|fuel IH]; intros k n m1 Hm1 Hn Hk; [lia|]. cbn [text_loop]. destruct k as [|k].
  - rewrite (Ht m1 n 0 Hm1) by (rewrite lookup_app_r, list_lookup_singleton by lia; by replace (n - length s)%nat with 0%nat by lia).
    cbn [Z.eqb]. exists m1. split; [done|apply changes_refl].
  - destruct (lookup_lt_is_Some_2 s n) as [d Hd]; [lia|].
    rewrite (Ht m1 n d Hm1) by (by rewrite lookup_app_l by lia).
    pose proof (Forall_lookup_1 _ _ _ _ Hs Hd) as Hc. unfold cchar in Hc.
    rewrite (proj2 (Z.eqb_neq d 0)) by lia. replace (Z.of_nat n + 1) with (Z.of_nat (S n)) by lia.
    apply reaches_bind; [apply rect_reach|]. intros m2 Hm2. apply (IH k); [by eapply changes_trans|lia|lia].
Qed.

Lemma text_reach fuel m x y s c :
  Forall cchar s -> (length s < fuel)%nat -> reaches m (vga_draw_text back_buffer cm fuel m x y (Literal s) c).
Proof.
  intros Hs Hf. apply (text_reach_any fuel m x y (Literal s) s c Hs Hf). intros m1 i d _ Hi. cbn [char_at]. rewrite Nat2Z.id.
  destruct (lookup_app_Some s [0] i d) as [[Hl|[Hl Hl']] _]; [exact Hi|by rewrite Hl|].
  rewrite lookup_ge_None_2 by lia. by apply list_lookup_singleton_Some in Hl' as [_ <-].
Qed.

(** A string in memory away from the buffer. *)
Lemma text_reach_at fuel m x y p s c :
  cstr m p s -> (length s < fuel)%nat ->
  p + Z.of_nat (length s) < back_buffer \/ back_buffer + VGA_MEMORY_SIZE <= p ->
  reaches m (vga_draw_text back_buffer cm fuel m x y (At p) c).
Proof.
  intros [Hs Hb] Hf Hp. apply (text_reach_any fuel m x y (At p) s c Hs Hf). intros m1 i d Hc Hi. cbn [char_at].
  apply lookup_lt_Some in Hi as Hlt. rewrite length_app in Hlt. cbn [length] in Hlt.
  rewrite Hc by lia. rewrite bytes_at_lookup in Hb. by apply Hb.
Qed.

(** A window with such a title. *)
Lemma window_reach fuel m x y w h p s :
  cstr m p s -> (length s < fuel)%nat -> (1 < fuel)%nat ->
  p + Z.of_nat (length s) < back_buffer \/ back_buffer + VGA_MEMORY_SIZE <= p ->
  reaches m (vga_draw_window back_buffer cm fuel m x y w h (At p)).
Proof.
  intros Ht Hf Hf1 Hp. unfold vga_draw_window.
  apply reaches_bind; [apply rect_reach|intros m1 H1]. apply reaches_bind; [apply rect_reach|intros m2 H2].
  apply reaches_bind.
  { apply (text_reach_at fuel m2 _ _ p s); [|done..]. eapply cstr_ext; [|exact Ht]. intros a Ha.
    rewrite H2 by lia. apply H1. lia. }
  intros m3 _. apply reaches_bind; [apply rect_reach|intros m4 _].
  apply reaches_bind; [apply rect_reach|intros m5 _].
  apply (text_reach fuel m5 _ _ [88]); [by repeat constructor|cbn [length]; lia].
Qed.

Lemma button_reach fuel m x y w h s :
  0 <= x < 2 ^ 16 -> 0 <= y < 2 ^ 16 -> Forall cchar s -> Z.of_nat (length s) < 2 ^ 16 -> 2 ^ 16 <= Z.of_nat fuel ->
  reaches m (vga_draw_button back_buffer cm fuel m x y w h (Literal s)).
Proof.
  intros Hx Hy Hs Hl Hf. unfold vga_draw_button.
  apply reaches_bind; [apply rect_reach|intros m0 _].
  do 4 (apply reaches_bind; [apply line_reach_any; (done || apply u16_range)|intros ? _]).
  cbn [text_strlen]. rewrite res_bind_done. apply text_reach; [done|lia].
Qed.
End reach.

Lemma lit_cchar s : forallb (fun c => bool_decide (cchar c)) (bytes_of s) = true -> Forall cchar (bytes_of s).
Proof. rewrite forallb_forall, Forall_forall. intros H x Hx. eapply bool_decide_eq_true, H. by apply list_elem_of_In. Qed.

Section desktop.
Context (back_buffer : Z) (cm : VGAMode) (Hfit : mode_fits cm) (fuel : nat) (Hf : 2 ^ 16 <= Z.of_nat fuel).

Lemma taskbar_reach m : reaches back_buffer m (vga_draw_taskbar back_buffer cm fuel m).
Proof using Hfit Hf.
  unfold vga_draw_taskbar, lit. apply reaches_bind; [by apply rect_reach|intros m1 _].
  apply reaches_bind; [apply button_reach; [done|lia|apply u16_range|by apply lit_cchar|cbn; lia|done]|intros m2 _].
  apply text_reach; [done|by apply lit_cchar|cbn; lia].
Qed.

Lemma icons_reach m : reaches back_buffer m (vga_draw_desktop_icons back_buffer cm fuel m).
Proof using Hfit Hf.
  unfold vga_draw_desktop_icons, lit.
  do 2 (apply reaches_bind; [by apply rect_reach|intros ? _];
    apply reaches_bind; [apply text_reach; [done|by apply lit_cchar|cbn; lia]|intros ? _]).
  apply reaches_bind; [by apply rect_reach|intros ? _]. apply text_reach; [done|by apply lit_cchar|cbn; lia].
Qed.
End desktop.

(** *** The mode that does not fit *)

Lemma set_pixel_overruns back_buffer cm m x y c :
  0 <= x < width cm -> 0 <= y < height cm -> VGA_MEMORY_SIZE <= y * pitch cm + x < 2 ^ 32 ->
  vga_set_pixel back_buffer cm m x y c = Undef.
Proof.
  intros Hx Hy Ho. unfold vga_set_pixel.
  rewrite (proj2 (Z.leb_gt (width cm) x)), (proj2 (Z.leb_gt (height cm) y)) by lia. cbn [orb].
  rewrite u32_id by (unfold VGA_MEMORY_SIZE in *; lia). by rewrite (proj2 (Z.ltb_ge _ _)) by lia.
Qed.

(** A rectangle whose corner is on the screen but behind the end of the buffer. *)
Lemma rect_overruns back_buffer cm m x y w h c :
  0 <= x < width cm -> 0 <= y < height cm -> x < 2 ^ 16 -> y < 2 ^ 16 -> 0 < w -> 0 < h ->
  VGA_MEMORY_SIZE <= y * pitch cm + x < 2 ^ 32 ->
  vga_draw_rect back_buffer cm m x y w h c = Undef.
Proof.
  intros Hx Hy Hx' Hy' Hw Hh Ho. unfold vga_draw_rect. rewrite (seqZ_cons 0 h) by done. cbn [fold_res].
  assert (rect_row back_buffer cm x y w c m 0 = Undef) as ->; [|done].
  unfold rect_row. rewrite seqZ_cons by done. cbn [fold_res].
  by rewrite !Z.add_0_r, (u16_id x), (u16_id y), set_pixel_overruns by lia.
Qed.

(** ** Properties *)

(** C24. Between any two 16-bit points [vga_draw_line] sets, in this order,
    exactly one pixel per step of the longer axis, each on the ideal line
    rounded to integers, the first at the start and the last at the end. The
    loop terminates and no [int] overflows, with fuel above the longer of the
    two distances (so 65536 is always enough); in a mode whose pixels fit the
    buffer the line is drawn, with no byte changed outside the buffer. *)
Theorem vga_draw_line_traces back_buffer cm fuel m x1 y1 x2 y2 color :
  0 <= x1 < 2 ^ 16 -> 0 <= y1 < 2 ^ 16 -> 0 <= x2 < 2 ^ 16 -> 0 <= y2 < 2 ^ 16 ->
  let n := line_steps x1 y1 x2 y2 in
  n < Z.of_nat fuel ->
  let r := vga_draw_line back_buffer cm fuel m x1 y1 x2 y2 color in
  r = fold_res (fun m k => vga_set_pixel back_buffer cm m (on_line x1 x2 n k) (on_line y1 y2 n k) color)
        m (seqZ 0 (n + 1)) /\
  r <> Spin /\
  (mode_fits cm -> exists m', r = Done m' /\ changes back_buffer (back_buffer + VGA_MEMORY_SIZE) m m') /\
  (on_line x1 x2 n 0, on_line y1 y2 n 0) = (x1, y1) /\
  (on_line x1 x2 n n, on_line y1 y2 n n) = (x2, y2).
Proof.
  intros Hx1 Hy1 Hx2 Hy2 n Hf r. assert (r = _) as E by (by apply vga_draw_line_run). split; [exact E|].
  split; [rewrite E; apply fold_res_ends; intros; unfold line_pixel, vga_set_pixel; by repeat case_match|].
  split; [intros Hfit; by apply line_reach|].
  rewrite !on_line_end by (unfold n, line_steps; lia). split; [|done].
  assert ((n - 1) / 2 / n = 0) as E0; [|by unfold on_line; rewrite !Z.mul_0_l, !Z.add_0_l, E0, !Z.mul_0_r, !Z.add_0_r].
  destruct (decide (n = 0)) as [->|Hn]; [done|]. assert (0 < n) by (unfold n, line_steps in *; lia).
  apply Z.div_small. pose proof (Z.div_mod (n - 1) 2). pose proof (Z.mod_pos_bound (n - 1) 2). lia.
Qed.

(** C25. In a mode whose pixels fit the buffer, a rectangle that stays within 16
    bits is drawn: exactly the pixels of the screen that lie in it are set, and
    no byte outside the buffer. *)
Theorem vga_draw_rect_fills back_buffer cm m x y w h c :
  mode_fits cm ->
  0 <= w -> 0 <= h -> 0 <= x -> x + w <= 2 ^ 16 -> 0 <= y -> y + h <= 2 ^ 16 -> 0 <= c < 256 ->
  exists m', vga_draw_rect back_buffer cm m x y w h c = Done m' /\
  (forall px py, on_screen cm px py ->
     pixel back_buffer cm m' px py =
     if decide (x <= px < x + w /\ y <= py < y + h) then c else pixel back_buffer cm m px py) /\
  changes back_buffer (back_buffer + VGA_MEMORY_SIZE) m m'.
Proof.
  intros Hfit Hw Hh Hx Hxw Hy Hyh Hc.
  destruct (rect_paints back_buffer cm Hfit m x y w h c Hw Hh Hx Hxw Hy Hyh) as (m' & E & [Hp Hch]).
  exists m'. split; [exact E|]. split; [|done]. intros px py Hs. rewrite Hp by done. by rewrite u8_id.
Qed.

(** [vga_set_mode] accepts three modes: it then describes the mode in
    [current_mode], clears both buffers and returns 0. Any other mode returns
    -1 and leaves the mode and the memory alone (but the registers are
    already reprogrammed). *)
Theorem vga_set_mode_selects `{Hw} back_buffer fuel mode (cm : VGAMode) (m : mem) l :
  always_ready tx_empty fuel (COM1_PORT + 5) ->
  exists l', vga_set_mode back_buffer fuel mode (cm, m) l =
    match mode_info mode with
    | Some (w, h, b, p) => Done (0, (MkMode w h b mode VGA_MEMORY_BASE p, clear_buffers back_buffer m), l')
    | None => Done (-1, (cm, m), l')
    end /\ sent 0x3C2 l' = sent 0x3C2 l ++ [0x63].
Proof.
  intros Hr. unfold vga_set_mode, mode_registers.
  assert (forall p v (s : VGAMode * mem) l (k : unit -> M (VGAMode * mem) Z), (port_byte_out p v ≫= k) s l = k tt s (l ++ [EOut (u16 p) (u8 v)])) as out
    by reflexivity.
  repeat (rewrite M_bind_assoc || rewrite out). rewrite port_in_bind by lia. rewrite out.
  set (l1 := _ ++ [EOut _ _]).
  assert (sent 0x3C2 l1 = sent 0x3C2 l ++ [0x63]) as Hs.
  { unfold l1. rewrite !sent_app. cbn. by rewrite !app_nil_r. }
  destruct (mode_info mode) as [[[[w h] b] p]|].
  - rewrite modify_bind. rewrite modify_bind. step_print Hr. exists l0. split; [done|].
    destruct Hp as [t Ht]. by rewrite Ht, decide_False, app_nil_r, Hs.
  - step_print Hr. exists l0. split; [done|]. destruct Hp as [t Ht]. by rewrite Ht, decide_False, app_nil_r, Hs.
Qed.

(** In the 640x480 mode, the one of the desktop, the rows are 320 bytes apart
    but a pixel takes a byte: the right half of a row is the left half of the
    next one, and from row 205 on no pixel has a byte of the 64 KiB buffer:
    setting one is undefined. *)
Theorem vga_640x480_overruns back_buffer m x y color cm :
  mode_info VGA_MODE_640x480x16 = Some (width cm, height cm, bpp cm, pitch cm) ->
  0 <= y < 480 ->
  (0 <= x < 320 -> y < 479 ->
     vga_set_pixel back_buffer cm m (x + 320) y color = vga_set_pixel back_buffer cm m x (y + 1) color) /\
  (0 <= x < 640 -> 205 <= y -> vga_set_pixel back_buffer cm m x y color = Undef).
Proof.
  cbn. intros [= Hw Hh _ Hp] Hy. change (640 / 2) with 320 in Hp. split.
  - intros Hx Hy'. unfold vga_set_pixel. rewrite <- Hw, <- Hh, <- Hp.
    rewrite (proj2 (Z.leb_gt 640 (x + 320))), (proj2 (Z.leb_gt 640 x)) by lia.
    rewrite (proj2 (Z.leb_gt 480 y)), (proj2 (Z.leb_gt 480 (y + 1))) by lia. cbn [orb].
    by replace ((y + 1) * 320 + x) with (y * 320 + (x + 320)) by lia.
  - intros Hx Hy'. apply set_pixel_overruns; rewrite <- ?Hw, <- ?Hh, <- ?Hp; unfold VGA_MEMORY_SIZE; lia.
Qed.

Definition w_mode : VGAMode := MkMode 320 200 8 VGA_MODE_320x200x256 VGA_MEMORY_BASE 320.

Lemma w_mode_fits : mode_fits w_mode.
Proof. apply (mode_info_fits VGA_MODE_320x200x256 320 200 8 320); [reflexivity|discriminate]. Qed.

Lemma vga_draw_line_traces_witness :
  vga_draw_line 0 w_mode 6 ∅ 9 3 4 5 7 =
    fold_res (fun m p => vga_set_pixel 0 w_mode m p.1 p.2 7) ∅
      [(9, 3); (8, 3); (7, 4); (6, 4); (5, 5); (4, 5)] /\
  exists m', vga_draw_line 0 w_mode 6 ∅ 9 3 4 5 7 = Done m'.
Proof.
  destruct (vga_draw_line_traces 0 w_mode 6 ∅ 9 3 4 5 7 ltac:(lia) ltac:(lia) ltac:(lia) ltac:(lia) ltac:(reflexivity))
    as (E & _ & Hd & _). split; [rewrite E; reflexivity|]. destruct (Hd w_mode_fits) as (m' & E' & _). by exists m'.
Defined.

Lemma vga_draw_rect_fills_witness :
  exists m', vga_draw_rect 0 w_mode ∅ 10 20 3 2 4 = Done m' /\
    pixel 0 w_mode m' 12 21 = 4 /\ pixel 0 w_mode m' 13 21 = 0.
Proof.
  destruct (vga_draw_rect_fills 0 w_mode ∅ 10 20 3 2 4 w_mode_fits) as (m' & E & Hp & _); [lia..|].
  exists m'. split; [exact E|]. rewrite !Hp by (split; cbn; lia). split; reflexivity.
Defined.

Lemma vga_set_mode_selects_witness :
  exists l', vga_set_mode (H := w_hw) (K := VGAMode * mem) 0 1 0x6A (w_mode, ∅ : mem) [] = Done (-1, (w_mode, ∅ : mem), l').
Proof.
  destruct (vga_set_mode_selects (H := w_hw) 0 1 0x6A w_mode ∅ []) as (l' & E & _);
    [apply w_ready; reflexivity|]. exists l'.
  change (mode_info 0x6A) with (@None (Z * Z * Z * Z)) in E. exact E.
Defined.

Lemma vga_640x480_overruns_witness :
  let cm := MkMode 640 480 4 VGA_MODE_640x480x16 VGA_MEMORY_BASE 320 in
  vga_set_pixel 0 cm ∅ 330 7 9 = vga_set_pixel 0 cm ∅ 10 8 9 /\ vga_set_pixel 0 cm ∅ 0 450 9 = Undef.
Proof.
  split.
  - apply (vga_640x480_overruns 0 ∅ 10 7 9); [reflexivity|lia..].
  - destruct (vga_640x480_overruns 0 ∅ 0 450 9 (MkMode 640 480 4 VGA_MODE_640x480x16 VGA_MEMORY_BASE 320)) as [_ H];
      [reflexivity|lia|]. apply H; lia.
Defined.
