(* ===== verification/Window.v ===== *)
(** * The window manager (src/impl/drivers/video/window.c)

    The list of windows, from the bottom of the screen to its top, is an
    array of pointers with a count. A [struct Window] is 80 bytes of the heap
    ([malloc] of Heap.v), read and written in the byte memory at the offsets
    the compiler gives its fields. The paint, click and key functions of a
    window are code behind pointers. *)
From S2P Require Export Slots Alloc Vga.

(** ** Definitions *)

Definition MAX_WINDOWS := 16.
Definition WINDOW_FLAG_VISIBLE := 0x01.
Definition WINDOW_FLAG_MOVABLE := 0x02.
Definition WINDOW_FLAG_RESIZABLE := 0x04.
Definition WINDOW_FLAG_MINIMIZED := 0x08.
Definition WINDOW_FLAG_MAXIMIZED := 0x10.
Definition TERMINAL_BUFFER_SIZE := 1024.

(** The fields of [struct Window] at [w]; [sizeof] is 80. *)
Definition sizeof_Window := 80.
Definition w_title (w : Z) : Z := w.
Definition w_x (m : mem) (w : Z) : Z := load_le 2 m (w + 32).
Definition w_y (m : mem) (w : Z) : Z := load_le 2 m (w + 34).
Definition w_width (m : mem) (w : Z) : Z := load_le 2 m (w + 36).
Definition w_height (m : mem) (w : Z) : Z := load_le 2 m (w + 38).
Definition w_flags (m : mem) (w : Z) : Z := load_le 4 m (w + 40).
Definition w_content (m : mem) (w : Z) : Z := load_le 8 m (w + 48).
Definition w_on_paint (m : mem) (w : Z) : Z := load_le 8 m (w + 56).
Definition w_on_click (m : mem) (w : Z) : Z := load_le 8 m (w + 64).
Definition w_on_key (m : mem) (w : Z) : Z := load_le 8 m (w + 72).
Definition set_w_x (w v : Z) (m : mem) : mem := store_le 2 m (w + 32) v.
Definition set_w_y (w v : Z) (m : mem) : mem := store_le 2 m (w + 34) v.
Definition set_w_width (w v : Z) (m : mem) : mem := store_le 2 m (w + 36) v.
Definition set_w_height (w v : Z) (m : mem) : mem := store_le 2 m (w + 38) v.
Definition set_w_flags (w v : Z) (m : mem) : mem := store_le 4 m (w + 40) v.
Definition set_w_content (w v : Z) (m : mem) : mem := store_le 8 m (w + 48) v.
Definition set_w_on_paint (w v : Z) (m : mem) : mem := store_le 8 m (w + 56) v.
Definition set_w_on_click (w v : Z) (m : mem) : mem := store_le 8 m (w + 64) v.
Definition set_w_on_key (w v : Z) (m : mem) : mem := store_le 8 m (w + 72) v.

(** [struct TerminalBuffer] at [b]; [sizeof] is 1028. *)
Definition sizeof_TerminalBuffer := 1028.
Definition tb_cursor (m : mem) (b : Z) : Z := i32 (load_le 4 m (b + 1024)).
Definition set_tb_cursor (b v : Z) (m : mem) : mem := store_le 4 m (b + 1024) v.

Record WM := MkWM {
  windows : list Z;
  num_windows : Z;
  active_window : Z;
  dragging_window : Z;
  drag_offset_x : Z;
  drag_offset_y : Z;
}.

Definition wm_initial : WM := MkWM (replicate 16 0) 0 0 0 0 0.

Definition set_windows (ws : list Z) (n : Z) (s : WM) : WM :=
  MkWM ws n (active_window s) (dragging_window s) (drag_offset_x s) (drag_offset_y s).
Definition set_active (w : Z) (s : WM) : WM :=
  MkWM (windows s) (num_windows s) w (dragging_window s) (drag_offset_x s) (drag_offset_y s).
Definition set_dragging (w dx dy : Z) (s : WM) : WM :=
  MkWM (windows s) (num_windows s) (active_window s) w dx dy.

(** [windows[i]] *)
Definition window_at (s : WM) (i : nat) : Z := default 0 (windows s !! i).

(** [(num_windows > 0) ? windows[num_windows - 1] : NULL] *)
Definition top_window (s : WM) : Z :=
  if 0 <? num_windows s then window_at s (Z.to_nat (num_windows s - 1)) else 0.

(** The index of the first entry that is [w]. *)
Definition find_window (s : WM) (w : Z) : option nat :=
  fst <$> list_find (fun v => v = w) (take (Z.to_nat (num_windows s)) (windows s)).

(** [window_bring_to_front] on the list. *)
Definition bring_to_front (w : Z) (s : WM) : WM :=
  if w =? 0 then s
  else
    match find_window s w with
    | None => s
    | Some i =>
        let n := Z.to_nat (num_windows s) in
        set_active w (set_windows (<[(n - 1)%nat := w]> (shift_down (n - 1 - i) i (windows s))) (num_windows s) s)
    end.

(** The part of [window_destroy] on the list, for the entry [i]. *)
Definition remove_window (w : Z) (i : nat) (s : WM) : WM :=
  let n := Z.to_nat (num_windows s) in
  let s := set_windows (<[(n - 1)%nat := 0]> (shift_down (n - 1 - i) i (windows s))) (num_windows s - 1) s in
  if active_window s =? w then set_active (top_window s) s else s.

(** The fields that [window_create] sets. *)
Definition init_window (window title x y width height : Z) (m : mem) : mem :=
  let m := strncpy m (w_title window) title (32 - 1) in
  let m := store m (w_title window + (32 - 1)) 0 in
  let m := set_w_height window height (set_w_width window width (set_w_y window y (set_w_x window x m))) in
  let m := set_w_flags window (WINDOW_FLAG_VISIBLE .| WINDOW_FLAG_MOVABLE) m in
  set_w_on_key window 0 (set_w_on_click window 0 (set_w_on_paint window 0 (set_w_content window 0 m))).

(** [x >= window->x && x < window->x + window->width && ...] *)
Definition in_window (m : mem) (w x y : Z) : bool :=
  (w_x m w <=? x) && (x <? w_x m w + w_width m w) && (w_y m w <=? y) && (y <? w_y m w + w_height m w).

Definition in_title_bar (m : mem) (w y : Z) : bool := y <? w_y m w + 20.

Definition in_close_button (m : mem) (w x y : Z) : bool :=
  (w_x m w + w_width m w - 18 <=? x) && (x <? w_x m w + w_width m w - 4) &&
  (w_y m w + 4 <=? y) && (y <? w_y m w + 18).

Section window.
Context `{Linker} `{Hw} {K : Type} `{Has WM K} `{Has VGAMode K} `{Has mem K} `{Has heap K} `{Code K}.
Context (fuel : nat).

#[local] Notation log_line s := (serial_write_string fuel COM1_PORT (line s)).
#[local] Notation get_mem := (gets (C := mem) id).
#[local] Notation get_wm := (gets (C := WM) id).

Definition window_init : M K unit :=
  log_line "[WINDOW] Initializing window manager...";;
  modify (fun s => MkWM (replicate 16 0) 0 0 0 (drag_offset_x s) (drag_offset_y s));;
  vga_init back_buffer fuel;;
  log_line "[WINDOW] Window manager initialized".

Definition window_bring_to_front (window : Z) : M K unit := modify (bring_to_front window).

Definition window_create (title x y width height : Z) : M K Z :=
  n ← gets num_windows;
  if MAX_WINDOWS <=? n then log_line "[WINDOW] Error: Maximum number of windows reached";; mret 0
  else
    window ← allocate fuel sizeof_Window;
    if window =? 0 then log_line "[WINDOW] Error: Failed to allocate window structure";; mret 0
    else
      modify (init_window window title x y width height);;
      modify (fun s => set_windows (<[Z.to_nat n := window]> (windows s)) (n + 1) s);;
      window_bring_to_front window;;
      mret window.

Definition window_destroy (window : Z) : M K unit :=
  if window =? 0 then mret tt
  else
    s ← get_wm;
    match find_window s window with
    | None => mret tt
    | Some i =>
        modify (remove_window window i);;
        modify (fun m : mem => free (if w_content m window =? 0 then m else free m (w_content m window)) window)
    end.

(** A function that does nothing to the null pointer. *)
Definition on_window (window : Z) (f : M K unit) : M K unit := if window =? 0 then mret tt else f.

Definition window_show (window : Z) : M K unit :=
  on_window window (
    modify (fun m => set_w_flags window (w_flags m window .| WINDOW_FLAG_VISIBLE) m);;
    window_bring_to_front window).

Definition window_hide (window : Z) : M K unit :=
  on_window window (
    modify (fun m => set_w_flags window (w_flags m window .& u32 (Z.lnot WINDOW_FLAG_VISIBLE)) m);;
    modify (fun s => if active_window s =? window then set_active (top_window s) s else s)).

Definition window_move (window x y : Z) : M K unit :=
  on_window window (modify (fun m => set_w_y window y (set_w_x window x m))).

Definition window_resize (window width height : Z) : M K unit :=
  on_window window (
    modify (fun m => if tst (w_flags m window) WINDOW_FLAG_RESIZABLE
                     then set_w_height window height (set_w_width window width m) else m)).

Definition window_minimize (window : Z) : M K unit :=
  on_window window (
    modify (fun m => set_w_flags window (w_flags m window .| WINDOW_FLAG_MINIMIZED) m);;
    modify (fun m => set_w_flags window (w_flags m window .& u32 (Z.lnot WINDOW_FLAG_MAXIMIZED)) m)).

Definition window_maximize (window : Z) : M K unit :=
  on_window window (
    modify (fun m => set_w_flags window (w_flags m window .| WINDOW_FLAG_MAXIMIZED) m);;
    modify (fun m => set_w_flags window (w_flags m window .& u32 (Z.lnot WINDOW_FLAG_MINIMIZED)) m)).

Definition window_restore (window : Z) : M K unit :=
  on_window window (
    modify (fun m => set_w_flags window
      (w_flags m window .& u32 (Z.lnot (WINDOW_FLAG_MINIMIZED .| WINDOW_FLAG_MAXIMIZED))) m)).

(** What a mouse event at [(x, y)] does to the window it lies in. *)
Definition click_window (window x y buttons : Z) : M K unit :=
  m ← get_mem;
  if in_title_bar m window y then
    (if tst buttons 0x01 then
       modify (set_dragging window (x - w_x m window) (y - w_y m window));;
       window_bring_to_front window
     else mret tt);;
    (if in_close_button m window x y then window_destroy window else mret tt)
  else if negb (w_on_click m window =? 0) then
    call_void (w_on_click m window) [window; u16 (x - w_x m window); u16 (y - w_y m window)]
  else mret tt.

(** The loop over the windows, from the top ([i - 1]) down. *)
Fixpoint mouse_loop (i : nat) (x y buttons : Z) : M K unit :=
  match i with
  | O => mret tt
  | S i =>
      s ← get_wm;
      m ← get_mem;
      let window := window_at s i in
      if negb (tst (w_flags m window) WINDOW_FLAG_VISIBLE) then mouse_loop i x y buttons
      else if in_window m window x y then click_window window x y buttons
      else mouse_loop i x y buttons
  end.

Definition window_handle_mouse (x y buttons : Z) : M K unit :=
  draw (fun cm m => vga_update_cursor back_buffer cm fuel m x y);;
  s ← get_wm;
  if negb (dragging_window s =? 0) then
    if tst buttons 0x01 then
      window_move (dragging_window s) (u16 (x - drag_offset_x s)) (u16 (y - drag_offset_y s))
    else modify (fun s => set_dragging 0 (drag_offset_x s) (drag_offset_y s) s)
  else mouse_loop (Z.to_nat (num_windows s)) x y buttons.

Definition window_handle_key (key : Z) : M K unit :=
  s ← get_wm;
  m ← get_mem;
  if negb (active_window s =? 0) && negb (w_on_key m (active_window s) =? 0)
  then call_void (w_on_key m (active_window s)) [active_window s; key]
  else mret tt.

Definition paint_window (window : Z) : M K unit :=
  m ← get_mem;
  if negb (tst (w_flags m window) WINDOW_FLAG_VISIBLE) then mret tt
  else
    draw (fun cm m => vga_draw_window back_buffer cm fuel m (w_x m window) (w_y m window)
                        (w_width m window) (w_height m window) (At (w_title window)));;
    m ← get_mem;
    if w_on_paint m window =? 0 then mret tt else call_void (w_on_paint m window) [window].

(** [for (int i = 0; i < num_windows; i++)]; the paint functions may change
    [num_windows]. *)
Fixpoint paint_loop (k i : nat) : M K unit :=
  match k with
  | O => spin
  | S k =>
      s ← get_wm;
      if Z.of_nat i <? num_windows s then paint_window (window_at s i);; paint_loop k (S i)
      else mret tt
  end.

Definition window_update : M K unit :=
  modify (fun m => vga_clear_screen back_buffer m DESKTOP_COLOR);;
  draw (fun cm m => vga_draw_taskbar back_buffer cm fuel m);;
  paint_loop fuel 0;;
  modify (vga_swap_buffers back_buffer).

Definition window_draw_text (window x y : Z) (t : text) : M K unit :=
  on_window window (
    draw (fun cm m => vga_draw_text back_buffer cm fuel m (u16 (w_x m window + x)) (u16 (w_y m window + y + 20)) t VGA_COLOR_BLACK)).

Definition window_draw_button (window x y width height : Z) (t : text) : M K unit :=
  on_window window (
    draw (fun cm m => vga_draw_button back_buffer cm fuel m (u16 (w_x m window + x)) (u16 (w_y m window + y + 20)) width height t)).

Definition window_clear (window color : Z) : M K unit :=
  on_window window (
    draw (fun cm m => vga_draw_rect back_buffer cm m (u16 (w_x m window + 1)) (u16 (w_y m window + 21))
                        (u16 (w_width m window - 2)) (u16 (w_height m window - 22)) color)).

(** The terminal's buffer is the window's [content], its data at offset 0. *)
Definition terminal_paint (window : Z) : M K unit :=
  m ← get_mem;
  let buffer := w_content m window in
  if buffer =? 0 then mret tt
  else
    window_clear window VGA_COLOR_BLACK;;
    window_draw_text window 2 2 (At buffer).

(** [buffer->data[buffer->cursor++] = key; buffer->data[buffer->cursor] = 0] *)
Definition type_key (buffer key : Z) (m : mem) : mem :=
  if tb_cursor m buffer <? TERMINAL_BUFFER_SIZE - 1 then
    let cursor := tb_cursor m buffer in
    let m := set_tb_cursor buffer (cursor + 1) (store m (buffer + cursor) (u8 key)) in
    store m (buffer + tb_cursor m buffer) 0
  else m.

Definition terminal_key (window key : Z) : M K unit :=
  m ← get_mem;
  let buffer := w_content m window in
  if buffer =? 0 then mret tt else modify (type_key buffer key).

Definition window_create_terminal : M K Z :=
  window ← window_create (literal "Terminal") 100 100 400 300;
  if window =? 0 then mret 0
  else
    buffer ← allocate fuel sizeof_TerminalBuffer;
    if buffer =? 0 then window_destroy window;; mret 0
    else
      modify (fun m => memset m buffer 0 sizeof_TerminalBuffer);;
      modify (set_w_content window buffer);;
      modify (set_w_on_paint window (function "terminal_paint"));;
      modify (set_w_on_key window (function "terminal_key"));;
      mret window.

Definition file_browser_paint (window : Z) : M K unit :=
  window_clear window VGA_COLOR_WHITE;;
  window_draw_text window 2 2 (lit "File Browser - Coming Soon!").

Definition window_create_file_browser : M K Z :=
  window ← window_create (literal "File Browser") 150 150 500 400;
  if window =? 0 then mret 0
  else
    modify (set_w_on_paint window (function "file_browser_paint"));;
    mret window.

Definition text_editor_paint (window : Z) : M K unit :=
  window_clear window VGA_COLOR_WHITE;;
  window_draw_text window 2 2 (lit "Text Editor - Coming Soon!").

Definition window_create_text_editor : M K Z :=
  window ← window_create (literal "Text Editor") 200 200 600 450;
  if window =? 0 then mret 0
  else
    modify (set_w_on_paint window (function "text_editor_paint"));;
    mret window.

(** "Create initial windows". *)
Definition open_windows : M K unit :=
  terminal ← window_create_terminal;
  (if terminal =? 0 then mret tt else window_show terminal;; window_move terminal 50 50);;
  file_browser ← window_create_file_browser;
  (if file_browser =? 0 then mret tt else window_show file_browser;; window_move file_browser 200 100).

(** [vga_get_mode] returns the address of a variable, never a null pointer. *)
Definition window_init_gui : M K unit :=
  log_line "[WINDOW] Initializing graphical interface...";;
  vga_set_mode back_buffer fuel VGA_MODE_640x480x16;;
  vga_init_desktop back_buffer fuel;;
  open_windows;;
  modify (vga_swap_buffers back_buffer);;
  log_line "[WINDOW] Graphical interface initialized".
End window.

(** ** The list of windows, bottom first *)

(** The window being dragged, and where it is held. *)
Definition drag_of (s : WM) : Z * Z * Z := (dragging_window s, drag_offset_x s, drag_offset_y s).

Definition stack (s : WM) : list Z := take (Z.to_nat (num_windows s)) (windows s).

Record wm_ok (s : WM) : Prop := {
  wm_length : length (windows s) = 16%nat;
  wm_num : 0 <= num_windows s <= MAX_WINDOWS;
  wm_nodup : NoDup (stack s);
  wm_null : 0 ∉ stack s;
  wm_active : active_window s = 0 \/ active_window s ∈ stack s;
}.

Lemma wm_initial_ok : wm_ok wm_initial.
Proof. split; cbn; [done|unfold MAX_WINDOWS; lia|constructor|set_solver|by left]. Qed.

Lemma stack_length s : wm_ok s -> length (stack s) = Z.to_nat (num_windows s).
Proof. intros [Hl Hn _ _ _]. unfold stack, MAX_WINDOWS in *. rewrite length_take. lia. Qed.

Lemma find_window_spec s w :
  match find_window s w with
  | Some i => stack s !! i = Some w /\ delete i (stack s) = remove_first w (stack s)
  | None => w ∉ stack s /\ remove_first w (stack s) = stack s
  end.
Proof.
  unfold find_window. change (take _ _) with (stack s).
  pose proof (remove_first_find w (stack s)) as Hr.
  destruct (list_find _ (stack s)) as [[i v]|] eqn:E; cbn.
  - apply list_find_Some in E as (Hi & -> & _). by rewrite Hr.
  - split; [|done]. intros Hw. apply list_find_None in E. by eapply Forall_forall in E.
Qed.

Lemma remove_first_elem x y l : NoDup l -> y ∈ remove_first x l <-> y ∈ l /\ y <> x.
Proof.
  induction 1 as [|z l Hz Hnd IH]; simpl; [set_solver|].
  case_decide; subst; rewrite ?elem_of_cons; set_solver.
Qed.

Lemma remove_first_nodup x l : NoDup l -> NoDup (remove_first x l).
Proof.
  induction 1 as [|z l Hz Hnd IH]; simpl; [constructor|]. case_decide; [done|].
  constructor; [|done]. rewrite remove_first_elem by done. tauto.
Qed.

Lemma top_window_last s : wm_ok s -> top_window s = default 0 (last (stack s)).
Proof.
  intros Hok. pose proof (stack_length s Hok) as Hl. pose proof (wm_num s Hok). unfold top_window, window_at.
  rewrite last_lookup, Hl. destruct (Z.ltb_spec 0 (num_windows s)).
  - unfold stack. rewrite lookup_take_lt by lia. do 2 f_equal. lia.
  - unfold stack. replace (num_windows s) with 0 by lia. done.
Qed.

Lemma bring_to_front_in s w :
  wm_ok s -> w ∈ stack s ->
  stack (bring_to_front w s) = remove_first w (stack s) ++ [w] /\
  wm_ok (bring_to_front w s) /\ active_window (bring_to_front w s) = w /\
  drag_of (bring_to_front w s) = drag_of s.
Proof.
  intros Hok Hw. pose proof Hok as [Hl Hn Hnd Hnull _]. unfold bring_to_front.
  assert (w <> 0) by (intros ->; done). decide_lia.
  pose proof (find_window_spec s w) as Hf. destruct (find_window s w) as [i|]; [|by destruct Hf].
  destruct Hf as [Hi Hdel]. apply lookup_lt_Some in Hi as Hlt. rewrite stack_length in Hlt by done.
  set (n := Z.to_nat (num_windows s)) in *. unfold MAX_WINDOWS in *.
  set (s' := set_active _ _).
  assert (stack s' = remove_first w (stack s) ++ [w]) as Hs.
  { transitivity (take (n - 1) (shift_down (n - 1 - i) i (windows s)) ++ [w]).
    - rewrite <- slots_push by (rewrite shift_down_length; lia).
      replace (S (n - 1)) with n by lia. done.
    - f_equal. rewrite <- Hdel. unfold stack. fold n. rewrite <- shift_down_take by lia.
      by rewrite take_insert_ge by lia. }
  split_and!; [done| |done|done]. split.
  - cbn. by rewrite length_insert, shift_down_length.
  - cbn. unfold MAX_WINDOWS. lia.
  - rewrite Hs. apply NoDup_app. split_and!; [by apply remove_first_nodup| |apply NoDup_singleton].
    intros v. rewrite remove_first_elem by done. set_solver.
  - rewrite Hs, elem_of_app, remove_first_elem by done. set_solver.
  - right. rewrite Hs. cbn. set_solver.
Qed.

Lemma bring_to_front_out s w : w ∉ stack s -> bring_to_front w s = s.
Proof.
  intros Hw. unfold bring_to_front. destruct (w =? 0); [done|].
  pose proof (find_window_spec s w) as Hf. destruct (find_window s w) as [i|]; [|done].
  destruct Hf as [Hi _]. destruct Hw. by eapply list_elem_of_lookup_2.
Qed.

Lemma remove_window_stack s w i :
  wm_ok s -> find_window s w = Some i ->
  stack (remove_window w i s) = remove_first w (stack s) /\ wm_ok (remove_window w i s) /\
  active_window (remove_window w i s) =
    (if decide (active_window s = w) then default 0 (last (remove_first w (stack s))) else active_window s) /\
  drag_of (remove_window w i s) = drag_of s.
Proof.
  intros Hok Hf. pose proof Hok as [Hl Hn Hnd Hnull Hact].
  pose proof (find_window_spec s w) as Hi. rewrite Hf in Hi. destruct Hi as [Hi Hdel].
  apply lookup_lt_Some in Hi as Hlt. rewrite stack_length in Hlt by done. unfold remove_window.
  set (n := Z.to_nat (num_windows s)) in *. unfold MAX_WINDOWS in *. set (s1 := set_windows _ _ _).
  assert (stack s1 = remove_first w (stack s)) as Hs.
  { unfold stack at 1. cbn. replace (Z.to_nat (num_windows s - 1)) with (n - 1)%nat by lia.
    rewrite shift_down_take by lia. exact Hdel. }
  assert (forall a, a = 0 \/ a ∈ stack s1 -> wm_ok (set_active a s1)) as Hok1.
  { intros a Ha. split; cbn.
    - by rewrite length_insert, shift_down_length.
    - unfold MAX_WINDOWS. lia.
    - change (stack (set_active a s1)) with (stack s1). rewrite Hs. by apply remove_first_nodup.
    - change (stack (set_active a s1)) with (stack s1). rewrite Hs, remove_first_elem by done. tauto.
    - exact Ha. }
  assert (wm_ok (set_active 0 s1)) as Hok0 by (apply Hok1; by left).
  pose proof (top_window_last _ Hok0) as Ht.
  change (top_window (set_active 0 s1)) with (top_window s1) in Ht.
  change (stack (set_active 0 s1)) with (stack s1) in Ht. rewrite <- Hs, <- Ht.
  change (active_window s1) with (active_window s).
  destruct (Z.eqb_spec (active_window s) w) as [E|E].
  - rewrite decide_True by done. split_and!; try done. apply Hok1. rewrite Ht.
    destruct (last (stack s1)) as [v|] eqn:El; [right|by left]. by eapply last_Some_elem_of.
  - rewrite decide_False by done. split_and!; try done.
    change s1 with (set_active (active_window s) s1). apply Hok1.
    rewrite Hs, remove_first_elem by done. destruct Hact; tauto.
Qed.

(** ** The fields of a window *)

Ltac fields :=
  repeat first [ rewrite load_le_store_le_eq | rewrite load_le_store_le_ne by lia ].

(** The fields behind the title, as [init_window] stores them. *)
Lemma fields_changes w x y width height fl c p ck k m :
  changes (w + 32) (w + sizeof_Window) m
    (set_w_on_key w k (set_w_on_click w ck (set_w_on_paint w p (set_w_content w c (set_w_flags w fl
      (set_w_height w height (set_w_width w width (set_w_y w y (set_w_x w x m))))))))).
Proof.
  unfold set_w_x, set_w_y, set_w_width, set_w_height, set_w_flags, set_w_content,
    set_w_on_paint, set_w_on_click, set_w_on_key, sizeof_Window.
  repeat (eapply changes_trans; [|eapply changes_weaken; [apply store_le_changes|lia|lia]]).
  apply changes_refl.
Qed.

Lemma title_bytes m w title t :
  cstr m title t -> title + Z.of_nat (length t) < w ->
  exists l, store (strncpy m (w_title w) title (32 - 1)) (w_title w + (32 - 1)) 0 =
    write_bytes m w (take 31 t ++ [0] ++ l) /\ length (take 31 t ++ [0] ++ l) = 32%nat /\
    Forall (fun c => 0 <= c < 256) (take 31 t ++ [0] ++ l).
Proof.
  intros Ht Hd. unfold w_title. rewrite (strncpy_spec _ _ _ _ t) by (done || lia).
  exists (replicate (31 - length t) 0). split_and!.
  - change (Z.to_nat (32 - 1)) with 31%nat. cbn [app].
    rewrite replicate_cons_app, app_assoc, (write_bytes_app _ _ _ [0]). cbn [write_bytes].
    f_equal. rewrite length_app, length_take, length_replicate. lia.
  - rewrite !length_app, length_take, length_replicate. cbn [length]. lia.
  - rewrite !Forall_app. split_and!; [apply cchar_byte, Forall_take, Ht|repeat constructor; lia|].
    apply Forall_replicate. lia.
Qed.

(** What [init_window] leaves in memory. *)
Record window_fields (m : mem) (w : Z) (t : list Z) (x y width height fl : Z) : Prop := {
  wf_title : cstr m w t;
  wf_x : w_x m w = x;
  wf_y : w_y m w = y;
  wf_width : w_width m w = width;
  wf_height : w_height m w = height;
  wf_flags : w_flags m w = fl;
  wf_content : w_content m w = 0;
  wf_on_paint : w_on_paint m w = 0;
  wf_on_click : w_on_click m w = 0;
  wf_on_key : w_on_key m w = 0;
}.

Lemma init_window_spec w title t x y width height m :
  cstr m title t -> title + Z.of_nat (length t) < w ->
  0 <= x < 2 ^ 16 -> 0 <= y < 2 ^ 16 -> 0 <= width < 2 ^ 16 -> 0 <= height < 2 ^ 16 ->
  let m' := init_window w title x y width height m in
  window_fields m' w (take 31 t) x y width height (WINDOW_FLAG_VISIBLE .| WINDOW_FLAG_MOVABLE) /\
  changes w (w + sizeof_Window) m m'.
Proof.
  intros Ht Hd Hx Hy Hw Hh m'. destruct (title_bytes m w title t Ht Hd) as (l & E & Hl & Hb).
  pose proof (fields_changes w x y width height (WINDOW_FLAG_VISIBLE .| WINDOW_FLAG_MOVABLE) 0 0 0 0
    (write_bytes m w (take 31 t ++ [0] ++ l))) as Hc.
  unfold m', init_window. rewrite E. split.
  - split; unfold w_x, w_y, w_width, w_height, w_flags, w_content, w_on_paint, w_on_click, w_on_key,
      set_w_x, set_w_y, set_w_width, set_w_height, set_w_flags, set_w_content, set_w_on_paint,
      set_w_on_click, set_w_on_key; fields; try (apply Z.mod_small; cbn; lia); try reflexivity.
    apply (cstr_changes (write_bytes m w (take 31 t ++ [0] ++ l)) _ (w + 32) (w + sizeof_Window)); [exact Hc| |].
    { rewrite length_take. lia. }
    assert (Forall cchar (take 31 t)) as Hf by (apply Forall_take; apply Ht).
    split; [done|]. apply (write_bytes_at m w), bytes_at_app in Hb as [H1 [H2 _]%bytes_at_app].
    by apply bytes_at_app.
  - eapply changes_trans; [|eapply changes_weaken; [exact Hc|lia|lia]].
    eapply changes_weaken; [apply write_bytes_changes|lia|]. rewrite Hl. unfold sizeof_Window. lia.
Qed.

(** ** Windows in the heap *)

(** The part of the kernel the window manager works on. *)
Abbreviation desk Env := (WM * VGAMode * mem * heap * Env)%type.

(** Every window of the list is an allocation in use of the heap, whose
    blocks are [bl] from [base] on. *)
Record desk_ok (base : Z) (bl : list ablk) (wm : WM) (m : mem) (h : heap) : Prop := {
  dk_wm : wm_ok wm;
  dk_heap : heap_rep h m base bl;
  dk_live : Forall (fun w => exists sz, (w, sz) ∈ live base bl /\ sizeof_Window <= sz) (stack wm);
}.

Lemma remove_first_notin x l : x ∉ l -> remove_first x l = l.
Proof. induction l as [|y l IH]; simpl; [done|]. rewrite not_elem_of_cons. intros [Hx Hl]. rewrite decide_False by done. by rewrite IH. Qed.

Lemma remove_first_app x l1 l2 : x ∉ l1 -> remove_first x (l1 ++ l2) = l1 ++ remove_first x l2.
Proof. induction l1 as [|y l IH]; simpl; [done|]. rewrite not_elem_of_cons. intros [Hx Hl]. rewrite decide_False by done. by rewrite IH. Qed.

(** A new allocation is none of the old ones. *)
Lemma allocated_fresh base bl bl' m h p s q sz :
  heap_rep h m base bl' -> live base bl' ≡ₚ (p, s) :: live base bl -> (q, sz) ∈ live base bl -> q <> p.
Proof.
  intros Hr Hl Hq ->. pose proof (live_NoDup _ _ _ _ _ (hr_seg Hr)) as Hnd.
  rewrite Hl, fmap_cons in Hnd. apply NoDup_cons in Hnd as [Hno _]. apply Hno.
  apply list_elem_of_fmap. by exists (p, sz).
Qed.

Lemma push_window_ok wm p :
  wm_ok wm -> num_windows wm < MAX_WINDOWS -> p <> 0 -> p ∉ stack wm ->
  let wm1 := set_windows (<[Z.to_nat (num_windows wm) := p]> (windows wm)) (num_windows wm + 1) wm in
  stack wm1 = stack wm ++ [p] /\ wm_ok wm1.
Proof.
  intros Hok Hn Hp Hfresh wm1. pose proof Hok as [Hl Hnum Hnd Hnull Hact]. unfold MAX_WINDOWS in *.
  assert (stack wm1 = stack wm ++ [p]) as Hs.
  { unfold stack. cbn. replace (Z.to_nat (num_windows wm + 1)) with (S (Z.to_nat (num_windows wm))) by lia.
    apply slots_push. lia. }
  split; [done|]. split.
  - cbn. by rewrite length_insert.
  - cbn. unfold MAX_WINDOWS. lia.
  - rewrite Hs. apply NoDup_app. split_and!; [done|set_solver|apply NoDup_singleton].
  - rewrite Hs. set_solver.
  - rewrite Hs. cbn. set_solver.
Qed.

Section desk.
Context {Env : Type} (e : Env) `{Linker} `{Hw} `{Code (desk Env)} (fuel : nat) (base : Z).

Lemma allocate_spec k bl n (wm : WM) (cm : VGAMode) (m : mem) (h : heap) l :
  heap_rep h m base bl -> 0 < n <= 4072 -> heap_room (S k) fuel bl h ->
  exists p m' h' bl' s, allocate fuel n (wm, cm, m, h, e) l = Done (p, (wm, cm, m', h', e), l) /\
    heap_rep h' m' base bl' /\ n <= s /\ live base bl' ≡ₚ (p, s) :: live base bl /\ base + HDR <= p /\
    keeps base bl m m' /\ heap_room k fuel bl' h'.
Proof.
  intros Hr Hn Hroom.
  pose proof (allocate_run fuel base k bl n (wm, cm, m, h, e) l) as R.
  destruct (R Hr Hn Hroom) as (p & m' & h' & bl' & s & E & H').
  exists p, m', h', bl', s. split; [exact E|exact H'].
Qed.

(** Storing within one allocation leaves the heap and the other allocations. *)
Lemma desk_ok_write bl wm m m' h p sz :
  desk_ok base bl wm m h -> (p, sz) ∈ live base bl -> changes p (p + sz) m m' ->
  desk_ok base bl wm m' h /\ keeps_but p (live base bl) m m'.
Proof.
  intros [Hw Hr Hl] Hp Hc. destruct (heap_rep_write _ _ _ _ _ _ _ Hr Hp Hc) as [Hr' Hk].
  split; [by split|done].
Qed.

Lemma window_create_run k bl title t x y width height (wm : WM) (cm : VGAMode) (m : mem) (h : heap) l :
  desk_ok base bl wm m h -> heap_room (S k) fuel bl h -> num_windows wm < MAX_WINDOWS ->
  cstr m title t -> title + Z.of_nat (length t) < base ->
  0 <= x < 2 ^ 16 -> 0 <= y < 2 ^ 16 -> 0 <= width < 2 ^ 16 -> 0 <= height < 2 ^ 16 ->
  exists w wm' m' h' bl' s,
    window_create fuel title x y width height (wm, cm, m, h, e) l = Done (w, (wm', cm, m', h', e), l) /\
    desk_ok base bl' wm' m' h' /\ stack wm' = stack wm ++ [w] /\ active_window wm' = w /\
    drag_of wm' = drag_of wm /\
    window_fields m' w (take 31 t) x y width height (WINDOW_FLAG_VISIBLE .| WINDOW_FLAG_MOVABLE) /\
    live base bl' ≡ₚ (w, s) :: live base bl /\ sizeof_Window <= s /\ keeps base bl m m' /\
    heap_room k fuel bl' h'.
Proof.
  intros [Hwm Hr Hlive] Hroom Hnum Ht Htb Hx Hy Hwd Hht.
  destruct (allocate_spec k bl sizeof_Window wm cm m h l Hr ltac:(unfold sizeof_Window; lia) Hroom)
    as (w & m1 & h' & bl' & s & E & Hr1 & Hs & Hl & Hw & [Hlow Hpay] & Hroom').
  pose proof (hr_base Hr) as Hb. unfold HDR in Hw.
  assert ((w, s) ∈ live base bl') as Hin by (rewrite Hl; by left).
  assert (cstr m1 title t) as Ht1.
  { split; [apply Ht|]. apply bytes_at_lookup. intros i c Hi. apply lookup_lt_Some in Hi as Hlt.
    rewrite length_app in Hlt. cbn [length] in Hlt. rewrite Hlow by lia.
    destruct Ht as [_ Ht]. by apply (proj1 (bytes_at_lookup m title _) Ht). }
  destruct (init_window_spec w title t x y width height m1 Ht1 ltac:(lia) Hx Hy Hwd Hht) as [Hfl Hch].
  destruct (heap_rep_write h' m1 _ base bl' w s Hr1 Hin (changes_weaken w (w + sizeof_Window) w (w + s) m1 _ Hch ltac:(lia) ltac:(lia)))
    as [Hr2 Hk2].
  assert (w ∉ stack wm) as Hfresh.
  { intros Hwin. rewrite Forall_forall in Hlive. destruct (Hlive w Hwin) as (sz & Hsz & _).
    by apply (allocated_fresh _ _ _ _ _ w s w sz Hr1 Hl). }
  destruct (push_window_ok wm w Hwm Hnum ltac:(lia) Hfresh) as [Hst Hok1]. set (wm1 := set_windows _ _ _) in *.
  destruct (bring_to_front_in wm1 w Hok1 ltac:(rewrite Hst; set_solver)) as (Hst2 & Hok2 & Hact & Hdrag).
  rewrite Hst, remove_first_app in Hst2 by done. cbn [remove_first] in Hst2. rewrite decide_True in Hst2 by done.
  rewrite app_nil_r in Hst2.
  exists w, (bring_to_front w wm1), (init_window w title x y width height m1), h', bl', s. split.
  { unfold window_create. rewrite gets_bind. cbn [get_part has_fst has_snd has_refl fst snd].
    rewrite (proj2 (Z.leb_gt _ _)) by done. rewrite (M_bind_done _ _ _ _ _ _ _ E).
    replace (w =? 0) with false by (symmetry; apply Z.eqb_neq; lia). reflexivity. }
  split_and!; try done.
  - split; [done|done|]. rewrite Hst2. apply Forall_app. split.
    + eapply Forall_impl; [exact Hlive|]. intros v (sz & Hv & Hsz). exists sz. rewrite Hl. split; [by right|done].
    + constructor; [|done]. by exists s.
  - split.
    + intros a Ha. rewrite Hch by lia. by apply Hlow.
    + intros q sz a Hq Ha. rewrite (Hk2 q sz a); [by apply (Hpay q sz)|rewrite Hl; by right| |done].
      by eapply allocated_fresh.
Qed.

Lemma window_create_full title x y width height (wm : WM) (cm : VGAMode) (m : mem) (h : heap) l :
  always_ready tx_empty fuel (COM1_PORT + 5) -> num_windows wm = MAX_WINDOWS ->
  exists l', window_create fuel title x y width height (wm, cm, m, h, e) l = Done (0, (wm, cm, m, h, e), l') /\ prints l l'.
Proof.
  intros Hready Hn.
  destruct (print_last fuel Hready (line "[WINDOW] Error: Maximum number of windows reached") (wm, cm, m, h, e) l)
    as (l' & Hp & E).
  exists l'. split; [|done]. unfold window_create. rewrite gets_bind.
  cbn [get_part has_fst has_snd has_refl fst snd]. rewrite Hn, Z.leb_refl. by rewrite (M_bind_done _ _ _ _ _ _ _ E).
Qed.

(** [window_destroy] frees the content, if any, and the window. *)
Definition free_window (m : mem) (w : Z) : mem :=
  free (if w_content m w =? 0 then m else free m (w_content m w)) w.

(** What [window_destroy] frees: the window, and its content when it has one. *)
Definition owned (m : mem) (bl : list ablk) (w : Z) (own : list (Z * Z)) : Prop :=
  exists s, if decide (w_content m w = 0) then own = [(w, s)]
            else exists sc, own = [(w_content m w, sc); (w, s)] /\ w_content m w <> w.

Lemma free_window_spec h m bl w own :
  heap_rep h m base bl -> owned m bl w own -> Forall (fun r => r ∈ live base bl) own ->
  exists bl', heap_rep h (free_window m w) base bl' /\
    live base bl ≡ₚ own ++ live base bl' /\ keeps base bl' m (free_window m w) /\ (length bl' <= length bl)%nat.
Proof.
  intros Hr (s & Ho) Hown. unfold free_window. destruct (decide (w_content m w = 0)) as [E|E].
  - subst own. rewrite (proj2 (Z.eqb_eq _ _) E). inversion Hown as [|? ? Hin _]; subst.
    destruct (free_spec h m base bl w s Hr Hin) as (Hr1 & [Hk1 Hk2] & Hl1).
    eexists. split; [exact Hr1|]. split; [exact Hl1|]. split; [|apply a_free_length]. split; [exact Hk1|].
    intros q sz a Hq. apply Hk2. rewrite Hl1. by right.
  - destruct Ho as (sc & -> & Hne). rewrite (proj2 (Z.eqb_neq _ _) E).
    inversion Hown as [|? ? Hc Hrest]; subst. inversion Hrest as [|? ? Hin _]; subst.
    by apply free_two.
Qed.

Lemma window_destroy_run bl w own (wm : WM) (cm : VGAMode) (m : mem) (h : heap) l :
  desk_ok base bl wm m h -> w ∈ stack wm ->
  owned m bl w own -> Forall (fun r => r ∈ live base bl) own ->
  (forall v, v ∈ stack wm -> v <> w -> v ∉ own.*1) ->
  exists wm' bl',
    window_destroy w (wm, cm, m, h, e) l = Done (tt, (wm', cm, free_window m w, h, e), l) /\
    desk_ok base bl' wm' (free_window m w) h /\ stack wm' = remove_first w (stack wm) /\
    active_window wm' = (if decide (active_window wm = w) then default 0 (last (stack wm')) else active_window wm) /\
    drag_of wm' = drag_of wm /\
    live base bl ≡ₚ own ++ live base bl' /\ keeps base bl' m (free_window m w) /\ (length bl' <= length bl)%nat.
Proof.
  intros [Hwm Hr Hlive] Hw Ho Hown Hothers.
  destruct (free_window_spec h m bl w own Hr Ho Hown) as (bl' & Hr' & Hl & Hk & Hlen).
  pose proof (find_window_spec wm w) as Hf. destruct (find_window wm w) as [i|] eqn:Ef; [|by destruct Hf].
  destruct (remove_window_stack wm w i Hwm Ef) as (Hst & Hok & Hact & Hdrag). rewrite <- Hst in Hact.
  exists (remove_window w i wm), bl'. split.
  { unfold window_destroy. assert (w <> 0) by (intros ->; by apply (wm_null _ Hwm)). decide_lia.
    rewrite gets_bind. cbn [get_part has_fst has_snd has_refl fst snd id]. rewrite Ef. reflexivity. }
  split_and!; try done. split; [done|done|]. rewrite Hst. apply Forall_forall. intros v Hv.
  apply remove_first_elem in Hv as [Hv Hne]; [|by apply wm_nodup].
  rewrite Forall_forall in Hlive. destruct (Hlive v Hv) as (sz & Hsz & Hle). exists sz. split; [|done].
  rewrite Hl in Hsz. apply elem_of_app in Hsz as [Hsz|Hsz]; [|done]. destruct (Hothers v Hv Hne).
  apply list_elem_of_fmap. by exists (v, sz).
Qed.

(** ** The mouse *)

Definition hits (m : mem) (x y w : Z) : bool :=
  tst (w_flags m w) WINDOW_FLAG_VISIBLE && in_window m w x y.

(** The topmost visible window at a point. *)
Definition topmost (m : mem) (x y : Z) (ws : list Z) : option Z :=
  last (filter (fun w => hits m x y w = true) ws).

Lemma mouse_loop_run i x y b (wm : WM) (cm : VGAMode) (m : mem) (h : heap) l :
  (i <= length (windows wm))%nat ->
  mouse_loop i x y b (wm, cm, m, h, e) l =
  match topmost m x y (take i (windows wm)) with
  | Some w => click_window w x y b (wm, cm, m, h, e) l
  | None => Done (tt, (wm, cm, m, h, e), l)
  end.
Proof.
  induction i as [|i IH]; intros Hi; [done|]. cbn [mouse_loop]. rewrite !gets_bind.
  cbn [get_part has_fst has_snd has_refl fst snd id].
  destruct (lookup_lt_is_Some_2 (windows wm) i) as [w Hw]; [lia|].
  unfold window_at. rewrite Hw. cbn [default]. unfold topmost. rewrite (take_S_r _ _ w Hw), filter_app, filter_cons, filter_nil.
  unfold id. destruct (decide (hits m x y w = true)) as [Hh|Hh].
  - rewrite last_snoc. apply andb_true_iff in Hh as [-> ->]. done.
  - rewrite app_nil_r. change (filter _ _) with (filter (fun w => hits m x y w = true) (take i (windows wm))).
    change (last _) with (topmost m x y (take i (windows wm))). rewrite <- IH by lia.
    apply not_true_iff_false, andb_false_iff in Hh as [->|E]; [done|]. cbn. rewrite E. by destruct (tst _ _).
Qed.

(** Stores below the heap do not touch it. *)
Lemma desk_ok_below bl wm m m' h lo hi :
  desk_ok base bl wm m h -> changes lo hi m m' -> hi <= base -> desk_ok base bl wm m' h.
Proof.
  intros [Hwm [Hhd Hs Hb Htop] Hl] Hc Hhi. split; [done| |done]. split; try done.
  eapply seg_changes; [exact Hc|lia|done].
Qed.

(** The fields of a window behind a changed range. *)
Lemma fields_below m m' w lo hi :
  changes lo hi m m' -> hi <= w ->
  w_x m' w = w_x m w /\ w_y m' w = w_y m w /\ w_width m' w = w_width m w /\ w_height m' w = w_height m w /\
  w_flags m' w = w_flags m w /\ w_content m' w = w_content m w.
Proof.
  intros Hc Hw. unfold w_x, w_y, w_width, w_height, w_flags, w_content.
  split_and!; eapply load_le_changes; try exact Hc; lia.
Qed.

Lemma desk_window bl wm m h w : desk_ok base bl wm m h -> w ∈ stack wm -> base <= w /\ w <> 0.
Proof.
  intros [Hwm Hr Hl] Hw. rewrite Forall_forall in Hl. destruct (Hl w Hw) as (sz & Hin & _).
  pose proof (live_bounds _ _ _ _ _ _ _ (hr_seg Hr) Hin). pose proof (hr_base Hr). unfold HDR in *. lia.
Qed.

Lemma topmost_below m m' x y ws lo hi :
  changes lo hi m m' -> Forall (fun w => hi <= w) ws -> topmost m' x y ws = topmost m x y ws.
Proof.
  intros Hc Hws. unfold topmost. f_equal. induction Hws as [|w ws Hw Hws IH]; [done|].
  rewrite !filter_cons, IH. destruct (fields_below m m' w lo hi Hc Hw) as (Ex & Ey & Ew & Eh & Ef & _).
  unfold hits, in_window. by rewrite Ex, Ey, Ew, Eh, Ef.
Qed.

(** A mouse event while no window is dragged: the cursor is drawn, and the
    topmost visible window at the point gets the event. *)
Lemma handle_mouse_run bl x y b (wm : WM) (cm : VGAMode) (m : mem) (h : heap) l :
  desk_ok base bl wm m h -> mode_fits cm -> back_buffer + VGA_MEMORY_SIZE <= base -> 2 ^ 16 <= Z.of_nat fuel ->
  0 <= x < 2 ^ 16 -> 0 <= y < 2 ^ 16 -> dragging_window wm = 0 ->
  exists m1, changes back_buffer (back_buffer + VGA_MEMORY_SIZE) m m1 /\ desk_ok base bl wm m1 h /\
    window_handle_mouse fuel x y b (wm, cm, m, h, e) l =
    match topmost m x y (stack wm) with
    | Some w => click_window w x y b (wm, cm, m1, h, e) l
    | None => Done (tt, (wm, cm, m1, h, e), l)
    end.
Proof.
  intros Hok Hfit Hbase Hf Hx Hy Hd.
  destruct (update_cursor_reach back_buffer cm Hfit fuel m x y Hx Hy Hf) as (m1 & E & Hc).
  exists m1. split; [done|]. split; [by eapply desk_ok_below|].
  rewrite <- (topmost_below m m1 x y _ _ _ Hc) by (apply Forall_forall; intros w Hw;
    pose proof (desk_window bl wm m h w Hok Hw); lia).
  unfold window_handle_mouse. rewrite (M_bind_done _ _ _ _ tt (wm, cm, m1, h, e) l).
  - rewrite gets_bind. cbn [get_part has_fst has_snd has_refl fst snd id]. unfold id. rewrite Hd. cbn [negb Z.eqb].
    apply mouse_loop_run. pose proof (dk_wm _ _ _ _ _ Hok) as [Hl Hn _ _ _]. unfold MAX_WINDOWS in *. lia.
  - unfold draw. rewrite !gets_bind. cbn [get_part has_fst has_snd has_refl fst snd id]. unfold id, lift.
    cbn [mbind M_bind]. rewrite E. reflexivity.
Qed.

(** And while one is: it is moved as long as the left button is held. *)
Lemma handle_mouse_drag x y b (wm : WM) (cm : VGAMode) (m : mem) (h : heap) l :
  mode_fits cm -> 2 ^ 16 <= Z.of_nat fuel -> 0 <= x < 2 ^ 16 -> 0 <= y < 2 ^ 16 ->
  dragging_window wm <> 0 -> tst b 0x01 = true ->
  exists m1, changes back_buffer (back_buffer + VGA_MEMORY_SIZE) m m1 /\
    window_handle_mouse fuel x y b (wm, cm, m, h, e) l =
    Done (tt, (wm, cm, set_w_y (dragging_window wm) (u16 (y - drag_offset_y wm))
                        (set_w_x (dragging_window wm) (u16 (x - drag_offset_x wm)) m1), h, e), l).
Proof.
  intros Hfit Hf Hx Hy Hd Hb.
  destruct (update_cursor_reach back_buffer cm Hfit fuel m x y Hx Hy Hf) as (m1 & E & Hc).
  exists m1. split; [done|]. unfold window_handle_mouse. rewrite (M_bind_done _ _ _ _ tt (wm, cm, m1, h, e) l).
  - rewrite gets_bind. cbn [get_part has_fst has_snd has_refl fst snd id]. unfold id.
    rewrite (proj2 (Z.eqb_neq _ _) Hd). cbn [negb]. rewrite Hb. unfold window_move, on_window.
    rewrite (proj2 (Z.eqb_neq _ _) Hd). reflexivity.
  - unfold draw. rewrite !gets_bind. cbn [get_part has_fst has_snd has_refl fst snd id]. unfold id, lift.
    cbn [mbind M_bind]. rewrite E. reflexivity.
Qed.

Lemma moved_x w x y m : w_x (set_w_y w y (set_w_x w x m)) w = u16 x.
Proof. unfold w_x, set_w_y, set_w_x. fields. done. Qed.
Lemma moved_y w x y m : w_y (set_w_y w y (set_w_x w x m)) w = u16 y.
Proof. unfold w_y, set_w_y, set_w_x. fields. done. Qed.
End desk.

(** ** The terminal *)

(** The terminal's buffer at [b] holds the text [t]. *)
Record terminal_ok (m : mem) (b : Z) (t : list Z) : Prop := {
  tm_length : (length t < 1024)%nat;
  tm_cursor : tb_cursor m b = Z.of_nat (length t);
  tm_data : bytes_at m b (t ++ [0]);
}.

Lemma type_key_changes m b key t : terminal_ok m b t -> changes b (b + sizeof_TerminalBuffer) m (type_key b key m).
Proof.
  intros [Hl Hc _]. unfold type_key, TERMINAL_BUFFER_SIZE, set_tb_cursor, sizeof_TerminalBuffer.
  rewrite Hc. destruct (Z.ltb_spec (Z.of_nat (length t)) (1024 - 1)); [|apply changes_refl].
  set (m1 := store_le _ _ _ _). assert (changes b (b + 1028) m m1) as H1.
  { eapply changes_trans; [apply (changes_store _ _ m (b + Z.of_nat (length t)) (u8 key)); lia|].
    eapply changes_weaken; [apply store_le_changes|lia|lia]. }
  assert (tb_cursor m1 b = Z.of_nat (length t) + 1) as Hc1.
  { unfold tb_cursor, m1. rewrite load_le_store_le_eq. rewrite Z.mod_small by (cbn; lia). rewrite i32_id; lia. }
  rewrite Hc1. eapply changes_trans; [exact H1|]. apply changes_store. lia.
Qed.

Lemma type_key_ok m b key t :
  terminal_ok m b t -> 0 <= key < 256 ->
  terminal_ok (type_key b key m) b (take 1023 (t ++ [key])).
Proof.
  intros [Hl Hc Hd] Hk. unfold type_key, TERMINAL_BUFFER_SIZE. rewrite Hc.
  destruct (Z.ltb_spec (Z.of_nat (length t)) (1024 - 1)) as [Hlt|Hge].
  2: { rewrite take_app_le by lia. rewrite take_ge by lia. by split. }
  rewrite take_ge by (rewrite length_app; cbn [length]; lia).
  set (m1 := set_tb_cursor _ _ _).
  assert (tb_cursor m1 b = Z.of_nat (length t) + 1) as Hc1.
  { unfold tb_cursor, m1, set_tb_cursor. rewrite load_le_store_le_eq.
    rewrite Z.mod_small by (cbn; lia). rewrite i32_id; lia. }
  rewrite Hc1. split; rewrite ?length_app; cbn [length].
  - lia.
  - unfold tb_cursor. rewrite (load_le_changes 4 m1 _ (b + (Z.of_nat (length t) + 1)) (b + (Z.of_nat (length t) + 2)))
      by (try apply changes_store; lia).
    fold (tb_cursor m1 b). rewrite Hc1. lia.
  - apply bytes_at_app in Hd as [Hd _]. rewrite bytes_at_app, bytes_at_app, length_app. cbn [bytes_at length].
    rewrite !load_store. split_and!; try done.
    + eapply (bytes_at_changes m _ (b + Z.of_nat (length t)) (b + sizeof_TerminalBuffer)); [|lia|done].
      unfold m1, set_tb_cursor, sizeof_TerminalBuffer.
      eapply changes_trans; [|apply changes_store; lia].
      eapply changes_trans; [|eapply changes_weaken; [apply store_le_changes|lia|lia]]. apply changes_store. lia.
    + rewrite decide_False by lia. unfold m1, set_tb_cursor.
      rewrite (store_le_changes 4 _ (b + 1024)) by lia. rewrite load_store_eq. by rewrite !u8_id by (rewrite ?u8_id by lia; lia).
    + by rewrite decide_True by lia.
Qed.

(** The [n] bytes at [p] are the same. *)
Definition same_at (p n : Z) (m m' : mem) : Prop := forall a, p <= a < p + n -> load m' a = load m a.

Lemma terminal_ok_empty m b : (forall a, b <= a < b + sizeof_TerminalBuffer -> load m a = 0) -> terminal_ok m b [].
Proof.
  unfold sizeof_TerminalBuffer. intros Hz. split; cbn.
  - lia.
  - unfold tb_cursor. rewrite load_le_zero; [done|]. intros a Ha. apply Hz. lia.
  - split; [|done]. apply Hz. lia.
Qed.

Lemma terminal_ok_ext m m' b s : same_at b 1028 m m' -> terminal_ok m b s -> terminal_ok m' b s.
Proof.
  intros He [Hl Hc Hd]. split; [done| |].
  - rewrite <- Hc. unfold tb_cursor. f_equal. apply load_le_ext. intros a Ha. apply He. lia.
  - rewrite bytes_at_lookup in *. intros i c Hi. apply lookup_lt_Some in Hi as Hlt.
    rewrite length_app in Hlt. cbn [length] in Hlt. rewrite He by lia. by apply Hd.
Qed.

Lemma window_show_run {Env} (e : Env) `{Linker} `{Hw} `{Code (desk Env)} base bl w (wm : WM) (cm : VGAMode) (m : mem) (h : heap) l :
  desk_ok base bl wm m h -> w ∈ stack wm ->
  exists wm' m', window_show w (wm, cm, m, h, e) l = Done (tt, (wm', cm, m', h, e), l) /\
    desk_ok base bl wm' m' h /\ stack wm' = remove_first w (stack wm) ++ [w] /\ active_window wm' = w /\
    w_flags m' w = w_flags m w .| WINDOW_FLAG_VISIBLE /\ changes (w + 40) (w + 44) m m'.
Proof.
  intros Hok Hw. destruct (desk_window base bl wm m h w Hok Hw) as [_ Hw0].
  destruct (bring_to_front_in wm w (dk_wm _ _ _ _ _ Hok) Hw) as (Hst & Hwm & Hact & _).
  set (m' := set_w_flags w (w_flags m w .| WINDOW_FLAG_VISIBLE) m).
  assert (changes (w + 40) (w + 44) m m') as Hc by (eapply changes_weaken; [exact (store_le_changes 4 m (w + 40) _)|lia|lia]).
  exists (bring_to_front w wm), m'. split_and!; try done.
  - unfold window_show, on_window. rewrite (proj2 (Z.eqb_neq _ _) Hw0). reflexivity.
  - pose proof Hok as [_ _ Hl]. rewrite Forall_forall in Hl. destruct (Hl w Hw) as (sz & Hin & Hsz).
    unfold sizeof_Window in Hsz.
    destruct (desk_ok_write base bl wm m m' h w sz Hok Hin) as [[_ Hr _] _].
    { eapply changes_weaken; [exact Hc|lia|lia]. }
    split; [done|done|]. rewrite Hst. apply Forall_app. split.
    + apply remove_first_sub. by apply Forall_forall.
    + constructor; [by apply Hl|done].
  - unfold w_flags at 1, m', set_w_flags. rewrite load_le_store_le_eq. apply Z.mod_small.
    pose proof (load_le_range 4 m (w + 40)) as Hr. fold (w_flags m w) in Hr.
    split; [apply Z.lor_nonneg; unfold WINDOW_FLAG_VISIBLE; lia|].
    change (256 ^ Z.of_nat 4) with (2 ^ 32) in *. apply Z.log2_lt_pow2.
    { assert (Z.testbit (w_flags m w .| WINDOW_FLAG_VISIBLE) 0 = true) as Hb by (rewrite Z.lor_spec; apply orb_true_r).
      assert (0 <= w_flags m w .| WINDOW_FLAG_VISIBLE) by (apply Z.lor_nonneg; unfold WINDOW_FLAG_VISIBLE; lia).
      destruct (decide (w_flags m w .| WINDOW_FLAG_VISIBLE = 0)) as [E|E]; [by rewrite E in Hb|lia]. }
    rewrite Z.log2_lor by (unfold WINDOW_FLAG_VISIBLE; lia). apply Z.max_lub_lt; [|done].
    destruct (decide (w_flags m w = 0)) as [->|Hne]; [done|]. apply Z.log2_lt_pow2; lia.
Qed.

(** ** Properties *)

(** C22. [window_create] with fewer than sixteen windows puts a new, visible window
    with the fields asked for (and no content or functions) on top of the
    list and makes it active; it lies in a new allocation, so that no byte of
    another allocation changes. With sixteen windows it returns a null
    pointer and changes nothing. *)
Theorem window_create_refines {Env} (e : Env) `{Linker} `{Hw} `{Code (desk Env)} fuel base bl title t x y width height
    (wm : WM) (cm : VGAMode) (m : mem) (h : heap) l :
  always_ready tx_empty fuel (COM1_PORT + 5) ->
  desk_ok base bl wm m h -> heap_room 1 fuel bl h ->
  cstr m title t -> title + Z.of_nat (length t) < base ->
  0 <= x < 2 ^ 16 -> 0 <= y < 2 ^ 16 -> 0 <= width < 2 ^ 16 -> 0 <= height < 2 ^ 16 ->
  exists w s' l', window_create fuel title x y width height (wm, cm, m, h, e) l = Done (w, s', l') /\
    prints l l' /\
    if decide (length (stack wm) = 16%nat) then w = 0 /\ s' = (wm, cm, m, h, e)
    else exists wm' m' h' bl' s, s' = (wm', cm, m', h', e) /\
      desk_ok base bl' wm' m' h' /\ stack wm' = stack wm ++ [w] /\ active_window wm' = w /\
      window_fields m' w (take 31 t) x y width height (WINDOW_FLAG_VISIBLE .| WINDOW_FLAG_MOVABLE) /\
      live base bl' ≡ₚ (w, s) :: live base bl /\ sizeof_Window <= s /\ keeps base bl m m'.
Proof.
  intros Hready Hok Hroom Ht Htb Hx Hy Hwd Hht. pose proof (dk_wm _ _ _ _ _ Hok) as Hwm.
  rewrite stack_length by done. pose proof (wm_num _ Hwm). unfold MAX_WINDOWS in *. case_decide as Hd.
  - destruct (window_create_full e fuel title x y width height wm cm m h l Hready ltac:(unfold MAX_WINDOWS; lia))
      as (l' & E & Hp).
    by exists 0, (wm, cm, m, h, e), l'.
  - destruct (window_create_run e fuel base 0 bl title t x y width height wm cm m h l Hok Hroom
      ltac:(unfold MAX_WINDOWS; lia) Ht Htb Hx Hy Hwd Hht)
      as (w & wm' & m' & h' & bl' & s & E & Hok' & Hst & Hact & _ & Hf & Hl & Hs & Hk & _).
    exists w, (wm', cm, m', h', e), l. split_and!; [exact E|reflexivity|]. by exists wm', m', h', bl', s.
Qed.

(** C23. [window_destroy] of a window of the list takes it out of the list, keeps
    the order of the others, hands the focus to the top of the list when the
    window had it, and frees exactly the window and its content: every other
    allocation stays in use, with its bytes. *)
Theorem window_destroy_refines {Env} (e : Env) `{Linker} `{Hw} `{Code (desk Env)} base bl w own
    (wm : WM) (cm : VGAMode) (m : mem) (h : heap) l :
  desk_ok base bl wm m h -> w ∈ stack wm ->
  owned m bl w own -> Forall (fun r => r ∈ live base bl) own ->
  (forall v, v ∈ stack wm -> v <> w -> v ∉ own.*1) ->
  exists wm' m' bl', window_destroy w (wm, cm, m, h, e) l = Done (tt, (wm', cm, m', h, e), l) /\
    desk_ok base bl' wm' m' h /\ stack wm' = remove_first w (stack wm) /\
    active_window wm' = (if decide (active_window wm = w) then default 0 (last (stack wm')) else active_window wm) /\
    live base bl ≡ₚ own ++ live base bl' /\ keeps base bl' m m'.
Proof.
  intros Hok Hw Ho Hown Hothers.
  destruct (window_destroy_run e base bl w own wm cm m h l Hok Hw Ho Hown Hothers)
    as (wm' & bl' & E & Hok' & Hst & Hact & _ & Hl & Hk & _).
  by exists wm', (free_window m w), bl'.
Qed.

(** Pressing the left button on the title bar of the topmost visible window
    at a point, away from its close button, raises that window to the top of
    the list and makes it active; a move of the mouse with the button held
    then moves the window by as much as the mouse. Drawing the cursor changes
    none of this, in a graphics mode whose pixels fit the buffer. *)
Theorem window_drag_follows {Env} (e : Env) `{Linker} `{Hw} `{Code (desk Env)} fuel base bl x y x2 y2 b b2 w
    (wm : WM) (cm : VGAMode) (m : mem) (h : heap) l :
  desk_ok base bl wm m h -> mode_fits cm -> back_buffer + VGA_MEMORY_SIZE <= base -> 2 ^ 16 <= Z.of_nat fuel ->
  0 <= x < 2 ^ 16 -> 0 <= y < 2 ^ 16 -> 0 <= x2 < 2 ^ 16 -> 0 <= y2 < 2 ^ 16 ->
  dragging_window wm = 0 -> tst b 0x01 = true -> tst b2 0x01 = true ->
  topmost m x y (stack wm) = Some w -> in_title_bar m w y = true -> in_close_button m w x y = false ->
  exists wm' m', (window_handle_mouse fuel x y b;; window_handle_mouse fuel x2 y2 b2) (wm, cm, m, h, e) l =
      Done (tt, (wm', cm, m', h, e), l) /\
    stack wm' = remove_first w (stack wm) ++ [w] /\ active_window wm' = w /\ dragging_window wm' = w /\
    w_x m' w = u16 (w_x m w + (x2 - x)) /\ w_y m' w = u16 (w_y m w + (y2 - y)).
Proof.
  intros Hok Hfit Hbase Hf Hx Hy Hx2 Hy2 Hd Hb Hb2 Htop Htitle Hclose.
  destruct (handle_mouse_run e fuel base bl x y b wm cm m h l Hok Hfit Hbase Hf Hx Hy Hd) as (m1 & Hc & Hok1 & E).
  rewrite Htop in E. assert (w ∈ stack wm) as Hw.
  { apply last_Some_elem_of, list_elem_of_filter in Htop. apply Htop. }
  destruct (desk_window base bl wm m h w Hok Hw) as [Hbw Hw0].
  destruct (fields_below m m1 w _ _ Hc ltac:(lia)) as (Ewx & Ewy & Eww & _).
  set (wm1 := set_dragging w (x - w_x m1 w) (y - w_y m1 w) wm).
  assert (wm_ok wm1) as Hok2 by (destruct (dk_wm _ _ _ _ _ Hok); by split).
  destruct (bring_to_front_in wm1 w Hok2 Hw) as (Hst & _ & Hact & Hdrag).
  set (wm2 := bring_to_front w wm1) in *.
  assert (click_window w x y b (wm, cm, m1, h, e) l = Done (tt, (wm2, cm, m1, h, e), l)) as Eclick.
  { unfold click_window. rewrite gets_bind. cbn [get_part has_fst has_snd has_refl fst snd id]. unfold id.
    unfold in_title_bar, in_close_button in *. rewrite Ewx, Ewy, Eww, Htitle, Hb, Hclose. rewrite <- Ewx, <- Ewy. reflexivity. }
  rewrite Eclick in E.
  injection Hdrag as Hdrag Ex Ey.
  destruct (handle_mouse_drag e fuel x2 y2 b2 wm2 cm m1 h l Hfit Hf Hx2 Hy2) as (m2 & _ & E2);
    [by rewrite Hdrag|exact Hb2|].
  rewrite Hdrag in E2.
  eexists wm2, _. split; [rewrite (M_bind_done _ _ _ _ _ _ _ E); exact E2|].
  split_and!; [exact Hst|exact Hact|exact Hdrag| |].
  - rewrite moved_x, Ex, Ewx, u16_id by apply u16_range. f_equal. lia.
  - rewrite moved_y, Ey, Ewy, u16_id by apply u16_range. f_equal. lia.
Qed.

(** A left click on the close button of the topmost window destroys it but
    leaves it in [dragging_window]: when the mouse moves with the button still
    held, the position is stored in the freed memory. *)
Theorem window_close_dangles {Env} (e : Env) `{Linker} `{Hw} `{Code (desk Env)} fuel base bl x y b w own
    (wm : WM) (cm : VGAMode) (m : mem) (h : heap) l :
  desk_ok base bl wm m h -> mode_fits cm -> back_buffer + VGA_MEMORY_SIZE <= base -> 2 ^ 16 <= Z.of_nat fuel ->
  0 <= x < 2 ^ 16 -> 0 <= y < 2 ^ 16 -> dragging_window wm = 0 -> tst b 0x01 = true ->
  topmost m x y (stack wm) = Some w -> in_title_bar m w y = true -> in_close_button m w x y = true ->
  owned m bl w own -> Forall (fun r => r ∈ live base bl) own ->
  (forall v, v ∈ stack wm -> v <> w -> v ∉ own.*1) ->
  exists wm' m' bl', window_handle_mouse fuel x y b (wm, cm, m, h, e) l = Done (tt, (wm', cm, m', h, e), l) /\
    heap_rep h m' base bl' /\ live base bl ≡ₚ own ++ live base bl' /\
    stack wm' = remove_first w (stack wm) /\ dragging_window wm' = w /\
    forall x2 y2 b2 l2, 0 <= x2 < 2 ^ 16 -> 0 <= y2 < 2 ^ 16 -> tst b2 0x01 = true ->
      exists m2, window_handle_mouse fuel x2 y2 b2 (wm', cm, m', h, e) l2 = Done (tt, (wm', cm, m2, h, e), l2) /\
        w_x m2 w = u16 (x2 - (x - w_x m w)) /\ w_y m2 w = u16 (y2 - (y - w_y m w)).
Proof.
  intros Hok Hfit Hbase Hf Hx Hy Hd Hb Htop Htitle Hclose Ho Hown Hothers.
  destruct (handle_mouse_run e fuel base bl x y b wm cm m h l Hok Hfit Hbase Hf Hx Hy Hd) as (m1 & Hc & Hok1 & E).
  rewrite Htop in E. assert (w ∈ stack wm) as Hw.
  { apply last_Some_elem_of, list_elem_of_filter in Htop. apply Htop. }
  destruct (desk_window base bl wm m h w Hok Hw) as [Hbw Hw0].
  destruct (fields_below m m1 w _ _ Hc ltac:(lia)) as (Ewx & Ewy & Eww & _ & _ & Ect).
  set (wm1 := set_dragging w (x - w_x m w) (y - w_y m w) wm).
  assert (wm_ok wm1) as Hok2 by (destruct (dk_wm _ _ _ _ _ Hok); by split).
  destruct (bring_to_front_in wm1 w Hok2 Hw) as (Hst & Hok3 & _ & Hdrag).
  set (wm2 := bring_to_front w wm1) in *. change (stack wm1) with (stack wm) in Hst.
  assert (desk_ok base bl wm2 m1 h) as Hok4.
  { destruct Hok1 as [_ Hr Hl]. split; [done|done|]. rewrite Hst. apply Forall_app.
    split; [by apply remove_first_sub|]. constructor; [|done]. rewrite Forall_forall in Hl. by apply Hl. }
  assert (forall v, v ∈ stack wm2 -> v <> w -> v ∉ own.*1) as Hothers2.
  { intros v Hv Hne. apply Hothers; [|done]. rewrite Hst in Hv. apply elem_of_app in Hv as [Hv|Hv]; [|set_solver].
    apply remove_first_elem in Hv; [tauto|]. apply (wm_nodup _ (dk_wm _ _ _ _ _ Hok)). }
  assert (owned m1 bl w own) as Ho1 by (unfold owned; rewrite Ect; exact Ho).
  destruct (window_destroy_run e base bl w own wm2 cm m1 h l Hok4 ltac:(rewrite Hst; set_solver) Ho1 Hown Hothers2)
    as (wm' & bl' & E2 & Hok' & Hst' & _ & Hdrag' & Hl & _).
  rewrite Hdrag in Hdrag'. injection Hdrag' as Hdw Ex' Ey'.
  exists wm', (free_window m1 w), bl'. split_and!.
  - rewrite E. unfold click_window. rewrite gets_bind. cbn [get_part has_fst has_snd has_refl fst snd]. unfold id.
    unfold in_title_bar, in_close_button in *. rewrite Ewx, Ewy, Eww, Htitle, Hb, Hclose. exact E2.
  - apply (dk_heap _ _ _ _ _ Hok').
  - exact Hl.
  - rewrite Hst', Hst, remove_first_app.
    + cbn [remove_first]. rewrite decide_True by done. apply app_nil_r.
    + rewrite remove_first_elem by (apply (wm_nodup _ (dk_wm _ _ _ _ _ Hok))). tauto.
  - exact Hdw.
  - intros x2 y2 b2 l2 Hx2 Hy2 Hb2.
    destruct (handle_mouse_drag e fuel x2 y2 b2 wm' cm (free_window m1 w) h l2 Hfit Hf Hx2 Hy2) as (m2 & _ & E3);
      [by rewrite Hdw|exact Hb2|].
    eexists. split; [exact E3|]. rewrite Hdw, Ex', Ey'.
    rewrite moved_x, moved_y, (u16_id (u16 (x2 - _))), (u16_id (u16 (y2 - _))) by apply u16_range. by split.
Qed.

(** Typing into the terminal window appends the keys to its text, up to 1023
    characters, always terminated; no byte outside the buffer changes. *)
Theorem terminal_holds_typed {Env} (e : Env) `{Linker} `{Hw} `{Code (desk Env)} ks w b t
    (wm : WM) (cm : VGAMode) (m : mem) (h : heap) l :
  terminal_ok m b t -> w_content m w = b -> b <> 0 ->
  b + sizeof_TerminalBuffer <= w \/ w + sizeof_Window <= b ->
  Forall (fun k => 0 <= k < 256) ks ->
  exists m', for_each ks (terminal_key w) (wm, cm, m, h, e) l = Done (tt, (wm, cm, m', h, e), l) /\
    terminal_ok m' b (take 1023 (t ++ ks)) /\ changes b (b + sizeof_TerminalBuffer) m m'.
Proof.
  intros Ht Hb Hb0 Hd Hks. revert m t Ht Hb. induction Hks as [|k ks Hk Hks IH]; intros m t Ht Hb.
  - exists m. split; [done|]. rewrite app_nil_r, take_ge by (destruct Ht; lia). split; [done|]. apply changes_refl.
  - pose proof (type_key_changes m b k t Ht) as Hc.
    destruct (IH (type_key b k m) (take 1023 (t ++ [k]))) as (m' & E & Hok & Hc').
    { by apply type_key_ok. }
    { etransitivity; [|exact Hb]. unfold w_content. eapply load_le_changes; [exact Hc|]. unfold sizeof_Window in *. lia. }
    exists m'. split_and!.
    + cbn [for_each]. rewrite (M_bind_done _ _ _ _ tt (wm, cm, type_key b k m, h, e) l); [exact E|].
      unfold terminal_key. rewrite gets_bind. cbn [get_part has_fst has_snd has_refl fst snd]. unfold id.
      rewrite Hb, (proj2 (Z.eqb_neq _ _) Hb0). reflexivity.
    + assert (take 1023 (t ++ k :: ks) = take 1023 (take 1023 (t ++ [k]) ++ ks)) as ->; [|done].
      change (k :: ks) with ([k] ++ ks). rewrite app_assoc.
      destruct (decide (length (t ++ [k]) <= 1023)%nat) as [Hl|Hl]; [by rewrite (take_ge (t ++ [k])) by done|].
      generalize (t ++ [k]) Hl. intros u Hu. rewrite (take_app_le u ks), (take_app_le (take 1023 u) ks), take_take by (rewrite ?length_take; lia). done.
    + by eapply changes_trans.
Qed.

(** Showing a window makes it visible, raises it to the top of the list,
    without changing the order of the others, and makes it active. *)
Theorem window_show_raises {Env} (e : Env) `{Linker} `{Hw} `{Code (desk Env)} base bl w (wm : WM) (cm : VGAMode) (m : mem) (h : heap) l :
  desk_ok base bl wm m h -> w ∈ stack wm ->
  exists wm' m', window_show w (wm, cm, m, h, e) l = Done (tt, (wm', cm, m', h, e), l) /\
    desk_ok base bl wm' m' h /\ stack wm' = remove_first w (stack wm) ++ [w] /\ active_window wm' = w /\
    w_flags m' w = w_flags m w .| WINDOW_FLAG_VISIBLE /\ changes (w + 40) (w + 44) m m'.
Proof. intros Hok Hw. exact (window_show_run e base bl w wm cm m h l Hok Hw). Qed.

(** ** Concrete runs *)

#[local] Existing Instance w_hw.
#[local] Existing Instance w_code.
#[local] Instance w_linker : Linker := {| back_buffer := 0x200000; literal _ := 0x1000; function _ := 0x2000 |}.
Definition w_fuel : nat := Z.to_nat (2 ^ 16).

Lemma w_desk_initial : desk_ok 0x400000 [] wm_initial (store ∅ 0x1000 72) w_h0.
Proof. split; [apply wm_initial_ok| |constructor]. by split. Qed.

Lemma w_title_ok : cstr (store ∅ 0x1000 72) 0x1000 [72].
Proof. split; [repeat constructor; lia|by vm_compute]. Qed.

Lemma w_room : heap_room 1 w_fuel [] w_h0.
Proof. split; [reflexivity|]. unfold w_fuel. cbn [length]. lia. Qed.

(** A desk with one window, at (10, 10), of 100 by 80. *)
Lemma w_desk : exists w wm m h bl s, desk_ok 0x400000 bl wm m h /\ stack wm = [w] /\ dragging_window wm = 0 /\
  live 0x400000 bl ≡ₚ [(w, s)] /\ window_fields m w [72] 10 10 100 80 3.
Proof.
  destruct (window_create_run tt w_fuel 0x400000 0 [] 0x1000 [72] 10 10 100 80
    wm_initial w_mode _ w_h0 [] w_desk_initial w_room)
    as (w & wm & m & h & bl & s & _ & Hok & Hst & _ & Hd & Hf & Hl & _); try done.
  { apply w_title_ok. }
  exists w, wm, m, h, bl, s. injection Hd as Hd _ _. done.
Qed.

Lemma w_topmost m w x y :
  window_fields m w [72] 10 10 100 80 3 -> 10 <= x < 110 -> 10 <= y < 90 -> topmost m x y [w] = Some w.
Proof.
  intros [_ Ex Ey Ew Eh Ef _ _ _ _] Hx Hy. unfold topmost. rewrite filter_cons, filter_nil.
  assert (hits m x y w = true) as ->; [|done]. unfold hits, in_window. rewrite Ex, Ey, Ew, Eh, Ef.
  repeat (apply andb_true_iff; split); first [reflexivity|lia].
Qed.

Lemma w_fuel_enough : 2 ^ 16 <= Z.of_nat w_fuel.
Proof. unfold w_fuel. rewrite Z2Nat.id; lia. Qed.

Lemma window_create_refines_witness :
  exists w s' l', window_create w_fuel 0x1000 10 10 100 80
      (wm_initial, w_mode, store ∅ 0x1000 72, w_h0, tt) [] = Done (w, s', l') /\ w ∈ stack (s'.1.1.1.1).
Proof.
  destruct (window_create_refines tt w_fuel 0x400000 [] 0x1000 [72] 10 10 100 80
    wm_initial w_mode (store ∅ 0x1000 72) w_h0 []) as (w & s' & l' & E & _ & Hr); try done.
  { intros l0. exists 0%nat. split; [unfold w_fuel; lia|reflexivity]. }
  { apply w_desk_initial. }
  { apply w_room. }
  { apply w_title_ok. }
  exists w, s', l'. split; [exact E|]. rewrite decide_False in Hr by done.
  destruct Hr as (wm' & m' & h' & bl' & s & -> & _ & Hst & _). cbn. rewrite Hst. apply elem_of_app. right. by left.
Defined.

Lemma w_owned m bl w s :
  window_fields m w [72] 10 10 100 80 3 -> live 0x400000 bl ≡ₚ [(w, s)] ->
  owned m bl w [(w, s)] /\ Forall (fun r => r ∈ live 0x400000 bl) [(w, s)].
Proof.
  intros Hf Hl. split.
  - exists s. by rewrite decide_True by apply (wf_content _ _ _ _ _ _ _ _ Hf).
  - constructor; [|done]. rewrite Hl. by left.
Qed.

Lemma window_destroy_refines_witness :
  exists w (wm : WM) (m : mem) (h : heap) (wm' : WM) (m' : mem), w ∈ stack wm /\
    window_destroy w (wm, w_mode, m, h, tt) [] = Done (tt, (wm', w_mode, m', h, tt), []) /\ stack wm' = [].
Proof.
  destruct w_desk as (w & wm & m & h & bl & s & Hok & Hst & _ & Hl & Hf).
  destruct (w_owned m bl w s Hf Hl) as [Ho Hown].
  destruct (window_destroy_refines tt 0x400000 bl w [(w, s)] wm w_mode m h []) as (wm' & m' & bl' & E & _ & Hst' & _);
    [exact Hok|rewrite Hst; by left|exact Ho|exact Hown| |].
  { intros v Hv Hne. rewrite Hst in Hv. apply list_elem_of_singleton in Hv. done. }
  exists w, wm, m, h, wm', m'. rewrite Hst'. rewrite Hst in *. split_and!; [by left|exact E|].
  cbn [remove_first]. by rewrite decide_True.
Defined.

Lemma window_show_raises_witness :
  exists w (wm : WM) (m : mem) (h : heap) (wm' : WM) (m' : mem), window_show w (wm, w_mode, m, h, tt) [] = Done (tt, (wm', w_mode, m', h, tt), []) /\ active_window wm' = w.
Proof.
  destruct w_desk as (w & wm & m & h & bl & s & Hok & Hst & _).
  destruct (window_show_raises tt 0x400000 bl w wm w_mode m h [] Hok) as (wm' & m' & E & _ & _ & Ha & _); [rewrite Hst; by left|].
  by exists w, wm, m, h, wm', m'.
Defined.

(** Pressed at (50, 15), moved to (70, 35): the window moves to (30, 30). *)
Lemma window_drag_follows_witness :
  exists w (wm : WM) (m : mem) (h : heap) (wm' : WM) (m' : mem),
    (window_handle_mouse w_fuel 50 15 1;; window_handle_mouse w_fuel 70 35 1) (wm, w_mode, m, h, tt) [] =
      Done (tt, (wm', w_mode, m', h, tt), []) /\ w_x m' w = 30 /\ w_y m' w = 30.
Proof.
  destruct w_desk as (w & wm & m & h & bl & s & Hok & Hst & Hd & _ & Hf). pose proof Hf as [_ Ex Ey Ew Eh _ _ _ _ _].
  destruct (window_drag_follows tt w_fuel 0x400000 bl 50 15 70 35 1 1 w wm w_mode m h [])
    as (wm' & m' & E & _ & _ & _ & Hx & Hy);
    [exact Hok|exact w_mode_fits|vm_compute; discriminate|exact w_fuel_enough|lia..|exact Hd|reflexivity|reflexivity| | | |].
  - rewrite Hst. apply w_topmost; [exact Hf|lia..].
  - unfold in_title_bar. by rewrite Ey.
  - unfold in_close_button. by rewrite Ex, Ey, Ew.
  - exists w, wm, m, h, wm', m'. rewrite Hx, Hy, Ex, Ey. split_and!; [exact E|reflexivity..].
Defined.

(** Pressed at (95, 20), on the close button. *)
Lemma window_close_dangles_witness :
  exists w (wm : WM) (m : mem) (h : heap) (wm' : WM) (m' : mem), window_handle_mouse w_fuel 95 20 1 (wm, w_mode, m, h, tt) [] = Done (tt, (wm', w_mode, m', h, tt), []) /\
    stack wm' = [] /\ dragging_window wm' = w.
Proof.
  destruct w_desk as (w & wm & m & h & bl & s & Hok & Hst & Hd & Hl & Hf). pose proof Hf as [_ Ex Ey Ew Eh _ _ _ _ _].
  destruct (w_owned m bl w s Hf Hl) as [Ho Hown].
  destruct (window_close_dangles tt w_fuel 0x400000 bl 95 20 1 w [(w, s)] wm w_mode m h [])
    as (wm' & m' & bl' & E & _ & _ & Hst' & Hdr & _);
    [exact Hok|exact w_mode_fits|vm_compute; discriminate|exact w_fuel_enough|lia..|exact Hd|reflexivity| | | |exact Ho|exact Hown| |].
  - rewrite Hst. apply w_topmost; [exact Hf|lia..].
  - unfold in_title_bar. by rewrite Ey.
  - unfold in_close_button. by rewrite Ex, Ey, Ew.
  - intros v Hv Hne. rewrite Hst in Hv. apply list_elem_of_singleton in Hv. done.
  - exists w, wm, m, h, wm', m'. split_and!; [exact E| |exact Hdr]. rewrite Hst', Hst. cbn [remove_first]. by rewrite decide_True.
Defined.

Lemma terminal_holds_typed_witness :
  exists m' : mem, for_each [104; 105] (terminal_key 0x5000) ((wm_initial, w_mode, store64 ∅ 0x5030 0x6000, w_h0, tt) : desk unit) [] =
      Done (tt, (wm_initial, w_mode, m', w_h0, tt), []) /\ bytes_at m' 0x6000 [104; 105; 0].
Proof.
  destruct (terminal_holds_typed tt [104; 105] 0x5000 0x6000 [] wm_initial w_mode (store64 ∅ 0x5030 0x6000) w_h0 [])
    as (m' & E & [_ _ Hb] & _).
  - split; [cbn; lia|by vm_compute|by vm_compute].
  - by vm_compute.
  - lia.
  - right. unfold sizeof_Window. lia.
  - repeat constructor; lia.
  - exists m'. split; [exact E|exact Hb].
Defined.
