(* ===== verification/Desktop.v ===== *)
(** * The desk: the window manager with the graphics driver and the heap (src/impl/drivers/video/window.c)

    What drawing leaves alone, a new terminal in memory, and the start of the
    window manager. [window_init] puts up an empty list of windows;
    [window_init_gui] then selects a mode whose pixels do not fit the back
    buffer, and its first drawing is undefined. *)
From S2P Require Export Window.

(** ** A new terminal *)

Section windows.
Context `{Linker}.

(** What a new terminal looks like. *)
Record terminal_window (m : mem) (t b : Z) : Prop := {
  tw_content : w_content m t = b;
  tw_key : w_on_key m t = u64 (function "terminal_key");
  tw_flags : w_flags m t = WINDOW_FLAG_VISIBLE .| WINDOW_FLAG_MOVABLE;
  tw_text : terminal_ok m b [];
  tw_title : cstr m t (bytes_of "Terminal");
  tw_paint : w_on_paint m t = u64 (function "terminal_paint");
}.

(** The stores of [window_create_terminal] behind the two allocations. *)
Definition terminal_stores (t b : Z) (m : mem) : mem :=
  set_w_on_key t (function "terminal_key") (set_w_on_paint t (function "terminal_paint")
    (set_w_content t b (memset m b 0 sizeof_TerminalBuffer))).

Lemma terminal_fields_changes t b m :
  changes (t + 48) (t + 80) (memset m b 0 sizeof_TerminalBuffer) (terminal_stores t b m).
Proof.
  unfold terminal_stores, set_w_on_key, set_w_on_paint, set_w_content.
  do 3 (eapply changes_trans; [|eapply changes_weaken; [apply store_le_changes|lia|lia]]). apply changes_refl.
Qed.

Lemma terminal_stores_window t b m :
  0 <= b < 2 ^ 64 -> t + 80 <= b \/ b + 1028 <= t ->
  w_flags m t = WINDOW_FLAG_VISIBLE .| WINDOW_FLAG_MOVABLE -> cstr m t (bytes_of "Terminal") ->
  terminal_window (terminal_stores t b m) t b.
Proof.
  intros Hb Hd Hfl Ht. pose proof (terminal_fields_changes t b m) as Hc.
  pose proof (memset_changes m b 0 sizeof_TerminalBuffer) as Hc0. unfold sizeof_TerminalBuffer in Hc0. split.
  - unfold w_content, terminal_stores, set_w_on_key, set_w_on_paint, set_w_content. fields. apply Z.mod_small. cbn. lia.
  - unfold w_on_key, terminal_stores, set_w_on_key. fields. reflexivity.
  - rewrite <- Hfl. unfold w_flags. apply load_le_ext. intros a Ha. rewrite Hc by lia. apply Hc0. lia.
  - apply terminal_ok_empty. unfold sizeof_TerminalBuffer. intros a Ha. rewrite Hc by lia.
    rewrite memset_load, decide_True by (unfold sizeof_TerminalBuffer; lia). reflexivity.
  - apply (cstr_ext m); [|exact Ht]. intros a Ha. cbn [length bytes_of] in Ha. rewrite Hc by lia. apply Hc0. lia.
  - unfold w_on_paint, terminal_stores, set_w_on_key, set_w_on_paint. fields. reflexivity.
Qed.

End windows.

Section desktop.
Context {Env : Type} (e : Env) `{Linker} `{Hw} `{Code (desk Env)}.
Context (fuel : nat) (base : Z).
Context (Hready : always_ready tx_empty fuel (COM1_PORT + 5)).

(** The mode of the desktop, 640 by 480. *)
Definition desk_mode : VGAMode := MkMode 640 480 4 VGA_MODE_640x480x16 VGA_MEMORY_BASE 320.

(** The layout of the kernel's memory: the back buffer lies behind the frame
    buffer, and the heap behind it. *)
Context (Hbuffer : 0xB0000 <= back_buffer) (Hbase : back_buffer + VGA_MEMORY_SIZE <= base).

(** Drawing leaves alone the heap, and what lies between the two buffers. *)
Definition drawn (m m' : mem) : Prop :=
  forall a, base <= a \/ 0xB0000 <= a < back_buffer -> load m' a = load m a.

#[local] Instance drawn_preorder : PreOrder drawn.
Proof.
  split; [by intros m a|]. intros m1 m2 m3 H12 H23 a Ha. by rewrite H23, H12.
Qed.

Lemma drawn_back m m' : changes back_buffer (back_buffer + VGA_MEMORY_SIZE) m m' -> drawn m m'.
Proof. intros Hc a Ha. apply Hc. lia. Qed.

Lemma drawn_frame m m' : changes VGA_MEMORY_BASE (VGA_MEMORY_BASE + VGA_MEMORY_SIZE) m m' -> drawn m m'.
Proof. unfold VGA_MEMORY_SIZE in Hbase. intros Hc a Ha. apply Hc. unfold VGA_MEMORY_BASE, VGA_MEMORY_SIZE. lia. Qed.

Lemma swap_drawn m : drawn m (vga_swap_buffers back_buffer m).
Proof. apply drawn_frame, memcpy_changes. unfold VGA_MEMORY_SIZE. lia. Qed.

Lemma desk_mode_info : mode_info VGA_MODE_640x480x16 = Some (640, 480, 4, 320).
Proof. reflexivity. Qed.

(** ** The parts of the state through drawing and allocating *)

Lemma desk_ok_drawn bl wm m m' h : desk_ok base bl wm m h -> drawn m m' -> desk_ok base bl wm m' h.
Proof.
  intros [Hwm [Hhd Hs Hb Htop] Hl] Hd. split; [done| |done]. split; try done.
  eapply seg_ext; [|exact Hs]. intros a Ha. apply Hd. left. eapply in_header_bounds in Ha; [|exact Hs]. lia.
Qed.

Lemma desk_ok_alloc bl bl' wm m m' h h' p s :
  desk_ok base bl wm m h -> heap_rep h' m' base bl' -> live base bl' ≡ₚ (p, s) :: live base bl ->
  desk_ok base bl' wm m' h'.
Proof.
  intros [Hwm _ Hl] Hr Hp. split; [done|done|]. eapply Forall_impl; [exact Hl|].
  intros w (sz & Hin & Hsz). exists sz. split; [|done]. rewrite Hp. by right.
Qed.

(** ** The graphics driver on the desk *)

Lemma mode_registers_desk (s : desk Env) l : exists l', mode_registers s l = Done (tt, s, l') /\ no_eoi l l'.
Proof.
  unfold mode_registers.
  assert (forall p v (s : desk Env) l (k : unit -> M (desk Env) unit), (port_byte_out p v ≫= k) s l = k tt s (l ++ [EOut (u16 p) (u8 v)])) as out
    by reflexivity.
  rewrite !out. rewrite port_in_bind by lia. eexists. split; [reflexivity|].
  rewrite <- !app_assoc. by apply no_eoi_app.
Qed.

Lemma set_mode_desk mode w ht b p (wm : WM) (cm : VGAMode) (m : mem) (h : heap) l :
  mode_info mode = Some (w, ht, b, p) ->
  exists l', vga_set_mode back_buffer fuel mode (wm, cm, m, h, e) l =
    Done (0, (wm, MkMode w ht b mode VGA_MEMORY_BASE p, clear_buffers back_buffer m, h, e), l') /\ no_eoi l l'.
Proof.
  intros Hm. unfold vga_set_mode. destruct (mode_registers_desk (wm, cm, m, h, e) l) as (l1 & E1 & N1).
  rewrite (M_bind_done _ _ _ _ _ _ _ E1), Hm. rewrite modify_bind, modify_bind. step_print Hready.
  eexists. split; [reflexivity|]. etransitivity; [exact N1|auto with cint].
Qed.

Lemma draw_desk (f : VGAMode -> mem -> res mem) (wm : WM) (cm : VGAMode) (m m' : mem) (h : heap) l :
  f cm m = Done m' -> draw f (wm, cm, m, h, e) l = Done (tt, (wm, cm, m', h, e), l).
Proof.
  intros E. unfold draw. rewrite !gets_bind. cbn [get_part has_fst has_snd has_refl fst snd]. unfold id, lift.
  cbn [mbind M_bind]. rewrite E. reflexivity.
Qed.

(** [window_init] empties the list of windows, selects the text mode and clears
    the two buffers. *)
Lemma window_init_run (wm : WM) (cm : VGAMode) (m : mem) (h : heap) l :
  exists l', window_init fuel (wm, cm, m, h, e) l =
      Done (tt, (MkWM (replicate 16 0) 0 0 0 (drag_offset_x wm) (drag_offset_y wm),
                 MkMode 80 25 4 VGA_MODE_TEXT_80x25 VGA_MEMORY_BASE 160,
                 clear_buffers back_buffer (clear_buffers back_buffer m), h, e), l') /\ no_eoi l l'.
Proof.
  unfold window_init. step_print Hready. rewrite modify_bind.
  set (wm' := MkWM (replicate 16 0) 0 0 0 (drag_offset_x wm) (drag_offset_y wm)).
  unfold vga_init. rewrite !M_bind_assoc. step_print Hready.
  rewrite !M_bind_assoc. destruct (mode_registers_desk (wm', cm, m, h, e) l1) as (l2 & E2 & N2).
  change (set_part _ _) with (wm', cm, m, h, e). rewrite (M_bind_done _ _ _ _ _ _ _ E2).
  rewrite !M_bind_assoc.
  destruct (set_mode_desk VGA_MODE_TEXT_80x25 80 25 4 160 wm' cm m h l2 eq_refl) as (l3 & E3 & N3).
  rewrite (M_bind_done _ _ _ _ _ _ _ E3). rewrite M_bind_assoc, modify_bind. step_print Hready.
  destruct (print_last fuel Hready (line "[WINDOW] Window manager initialized")
    (wm', MkMode 80 25 4 VGA_MODE_TEXT_80x25 VGA_MEMORY_BASE 160, clear_buffers back_buffer (clear_buffers back_buffer m), h, e) l4) as (l5 & N5 & E5).
  exists l5. split; [exact E5|]. apply prints_no_eoi in Hp, Hp0, Hp1, N5. etransitivity; [exact Hp|].
  etransitivity; [exact Hp0|]. etransitivity; [exact N2|]. etransitivity; [exact N3|]. by etransitivity.
Qed.

(** ** The start of the graphical interface *)

Lemma draw_undef (f : VGAMode -> mem -> res mem) (wm : WM) (cm : VGAMode) (m : mem) (h : heap) l :
  f cm m = Undef -> draw f (wm, cm, m, h, e) l = Undef.
Proof.
  intros E. unfold draw. rewrite !gets_bind. cbn [get_part has_fst has_snd has_refl fst snd]. unfold id, lift.
  cbn [mbind M_bind]. by rewrite E.
Qed.

(** The taskbar begins in row 450, at the offset 144000 of a buffer of 65536
    bytes. *)
Lemma taskbar_overruns m : vga_draw_taskbar back_buffer desk_mode fuel m = Undef.
Proof.
  unfold vga_draw_taskbar. change (u16 (height desk_mode - 30)) with 450.
  by rewrite rect_overruns by (cbn; unfold VGA_MEMORY_SIZE; lia).
Qed.

Lemma init_desktop_overruns (wm : WM) (cm : VGAMode) (m : mem) (h : heap) l :
  vga_init_desktop back_buffer fuel (wm, cm, m, h, e) l = Undef.
Proof using Hready.
  unfold vga_init_desktop. destruct (set_mode_desk _ _ _ _ _ wm cm m h l desk_mode_info) as (l1 & E1 & _).
  rewrite (M_bind_done _ _ _ _ _ _ _ E1), modify_bind. apply M_bind_undef, draw_undef, taskbar_overruns.
Qed.

Lemma init_gui_overruns (wm : WM) (cm : VGAMode) (m : mem) (h : heap) l :
  window_init_gui fuel (wm, cm, m, h, e) l = Undef.
Proof using Hready.
  unfold window_init_gui. step_print Hready.
  destruct (set_mode_desk _ _ _ _ _ wm cm m h l0 desk_mode_info) as (l1 & E1 & _).
  rewrite (M_bind_done _ _ _ _ _ _ _ E1). apply M_bind_undef, init_desktop_overruns.
Qed.
End desktop.

(** ** Properties *)

(** The graphical interface never comes up: in every state [window_init_gui] is
    undefined. It selects the 640x480 mode, whose rows are 320 bytes apart
    while a pixel takes a byte, and the first pixel of the taskbar lies
    78464 bytes behind the end of the back buffer. *)
Theorem window_init_gui_overruns {Env} (e : Env) `{Linker} `{Hw} `{Code (desk Env)} fuel
    (wm : WM) (cm : VGAMode) (m : mem) (h : heap) l :
  always_ready tx_empty fuel (COM1_PORT + 5) -> window_init_gui fuel (wm, cm, m, h, e) l = Undef.
Proof. intros Hr. by apply init_gui_overruns. Qed.

(** ** A concrete run *)

#[local] Existing Instance w_hw.
#[local] Existing Instance w_code.
Definition w_layout : Linker := {|
  back_buffer := 0x200000;
  literal s := if String.eqb s "Terminal" then 0x100000 else 0x100100;
  function _ := 0x2000;
|}.

#[local] Existing Instance w_layout.

Definition w_rodata : mem :=
  write_bytes (write_bytes ∅ 0x100000 (bytes_of "Terminal" ++ [0])) 0x100100 (bytes_of "File Browser" ++ [0]).

Lemma w_literal p s :
  forallb (fun c => bool_decide (cchar c)) (bytes_of s) = true ->
  read_bytes w_rodata p (S (length (bytes_of s))) = bytes_of s ++ [0] -> cstr w_rodata p (bytes_of s).
Proof.
  intros Hs Hr. split; [by apply lit_cchar|]. rewrite <- Hr. apply bytes_at_read.
Qed.

Lemma w_desk_ok : desk_ok 0x400000 [] wm_initial w_rodata w_h0.
Proof. split; [exact wm_initial_ok| |constructor]. by split. Qed.

Lemma window_init_gui_overruns_witness : window_init_gui 1 ((wm_initial, w_mode, ∅ : mem, w_h0, tt) : desk unit) [] = Undef.
Proof. apply (window_init_gui_overruns tt 1). intros l. exists 0%nat. split; [lia|reflexivity]. Defined.
