(* ===== verification/Paint.v ===== *)
(** * Painting the desktop ([window_update] of src/impl/drivers/video/window.c)

    Each window of the list is drawn and its paint function called, in a mode
    whose pixels fit the back buffer. The calls
    go through the window's pointer; what lies behind it is stated as an
    interface ([paints_windows]) that the kernel's code implements. *)
From S2P Require Export Desktop.

(** ** Functions whose addresses are taken *)

Definition functions : list string :=
  ["timer_tick"; "keyboard_scancode"; "keyboard_char"; "special_key"; "mouse_event";
   "terminal_paint"; "terminal_key"; "file_browser_paint"; "text_editor_paint"]%string.

(** What the linker promises of their addresses. *)
Record placed `{Linker} : Prop := {
  pl_distinct : NoDup (function <$> functions);
  pl_address : Forall (fun a => 0 < a < 2 ^ 64) (function <$> functions);
}.

Section placed.
Context `{Linker} (Hpl : placed).

Lemma function_eqb a b : a ∈ functions -> b ∈ functions -> (function a =? function b) = String.eqb a b.
Proof.
  intros [i Hi]%list_elem_of_lookup_1 [j Hj]%list_elem_of_lookup_1.
  destruct (String.eqb_spec a b) as [->|Hne]; [apply Z.eqb_refl|]. apply Z.eqb_neq. intros E. apply Hne.
  assert (i = j) as ->; [|congruence]. apply (NoDup_lookup (function <$> functions) i j (function a)).
  - apply Hpl.
  - by rewrite list_lookup_fmap, Hi.
  - rewrite list_lookup_fmap, Hj. by rewrite E.
Qed.

Lemma function_address a : a ∈ functions -> 0 < function a < 2 ^ 64.
Proof.
  intros Ha. pose proof (pl_address Hpl) as Hn. rewrite Forall_fmap, Forall_forall in Hn. by apply Hn.
Qed.

Lemma function_nonnull a : a ∈ functions -> (function a =? 0) = false.
Proof. intros Ha. apply function_address in Ha. lia. Qed.

Lemma function_u64 a : a ∈ functions -> u64 (function a) = function a.
Proof. intros Ha. apply function_address in Ha. apply u64_id. lia. Qed.
End placed.

Ltac listed := unfold functions; repeat (first [apply list_elem_of_here | apply list_elem_of_further]).

(** The window functions behind their addresses. *)
Definition window_code `{Linker} {Env} (fuel : nat) : Code (desk Env) := {|
  call f args :=
    let w := default 0 (args !! 0%nat) in
    if f =? function "terminal_paint" then terminal_paint fuel w;; mret 0
    else if f =? function "terminal_key" then terminal_key w (default 0 (args !! 1%nat));; mret 0
    else if f =? function "file_browser_paint" then file_browser_paint fuel w;; mret 0
    else if f =? function "text_editor_paint" then text_editor_paint fuel w;; mret 0
    else undef
|}.

(** What the window manager needs of the code behind its pointers. *)
Class PaintsWindows `{Linker} {Env} (fuel : nat) (C : Code (desk Env)) : Prop := {
  paints_terminal : forall w, call (function "terminal_paint") [w] = (terminal_paint fuel w;; mret 0);
  paints_browser : forall w, call (function "file_browser_paint") [w] = (file_browser_paint fuel w;; mret 0);
  paints_editor : forall w, call (function "text_editor_paint") [w] = (text_editor_paint fuel w;; mret 0);
  types_terminal : forall w k, call (function "terminal_key") [w; k] = (terminal_key w k;; mret 0);
}.

Lemma window_code_paints `{Linker} {Env} fuel : placed -> PaintsWindows (Env := Env) fuel (window_code fuel).
Proof.
  intros Hpl. split; intros; cbv beta iota delta [call window_code]; rewrite !(function_eqb Hpl) by listed; reflexivity.
Qed.

Section paint.
Context {Env : Type} (e : Env) `{Linker} `{C : Code (desk Env)} (fuel : nat) (base : Z).
Context (Hpl : placed) (Hpw : PaintsWindows fuel C).
Context (Hfuel : 2 ^ 16 <= Z.of_nat fuel).
Context (Hbuffer : 0xB0000 <= back_buffer) (Hbase : back_buffer + VGA_MEMORY_SIZE <= base).
Context (cm : VGAMode) (Hfit : mode_fits cm).

#[local] Existing Instance drawn_preorder.

(** [x] returns and only draws. *)
Definition draws (x : M (desk Env) unit) (wm : WM) (m : mem) (h : heap) : Prop :=
  forall l, exists m', x (wm, cm, m, h, e) l = Done (tt, (wm, cm, m', h, e), l) /\ drawn base m m'.

Lemma draws_bind x y wm m h :
  draws x wm m h -> (forall m', drawn base m m' -> draws y wm m' h) -> draws (x;; y) wm m h.
Proof.
  intros Hx Hy l. destruct (Hx l) as (m1 & E1 & H1). destruct (Hy m1 H1 l) as (m2 & E2 & H2).
  exists m2. rewrite (M_bind_done _ _ _ _ _ _ _ E1). split; [exact E2|]. by transitivity m1.
Qed.

Lemma draws_draw (f : VGAMode -> mem -> res mem) wm m h :
  (reaches back_buffer m (f cm m)) ->
  draws (draw f) wm m h.
Proof.
  intros (m' & E & Hc) l. exists m'. split; [by apply draw_desk|by eapply drawn_back].
Qed.

Lemma draws_nothing wm m h : draws (mret tt) wm m h.
Proof. intros l. by exists m. Qed.

Lemma draws_gets {B X} `{Has B (desk Env)} (g : B -> X) (k : X -> M (desk Env) unit) wm m h :
  draws (k (g (get_part (wm, cm, m, h, e)))) wm m h -> draws (gets g ≫= k) wm m h.
Proof. intros Hk l. rewrite gets_bind. exact (Hk l). Qed.

Lemma draws_get (k : mem -> M (desk Env) unit) wm m h :
  draws (k m) wm m h -> draws (m ← gets (C := mem) id; k m) wm m h.
Proof. exact (draws_gets (id : mem -> mem) k wm m h). Qed.

Lemma draws_modify (g : mem -> mem) wm m h : drawn base m (g m) -> draws (modify g) wm m h.
Proof. intros Hd l. by exists (g m). Qed.

Lemma draws_call f x w wm m h :
  call f [w] = (x;; mret 0) -> draws x wm m h -> draws (call_void f [w]) wm m h.
Proof.
  intros E Hx l. destruct (Hx l) as (m' & E' & Hd). exists m'. split; [|done]. unfold call_void. rewrite E.
  rewrite M_bind_assoc. by rewrite (M_bind_done _ _ _ _ _ _ _ E').
Qed.

(** ** The paint functions *)

Lemma terminal_paint_draws w t wm m h :
  w <> 0 -> base <= w_content m w -> terminal_ok m (w_content m w) t -> Forall cchar t ->
  draws (terminal_paint fuel w) wm m h.
Proof.
  intros Hw0 Hb [Hl _ Ht] Hc. unfold terminal_paint. apply draws_get.
  destruct (_ =? 0); [apply draws_nothing|]. unfold window_clear, window_draw_text, on_window.
  rewrite (proj2 (Z.eqb_neq w 0)) by done. apply draws_bind.
  - by apply draws_draw, rect_reach.
  - intros m1 Hd. apply draws_draw.
    assert (cstr m1 (w_content m w) t) as Ht1.
    { eapply cstr_ext; [|by split]. intros a Ha. apply Hd. lia. }
    eapply (text_reach_at _ _ Hfit); [exact Ht1|lia|lia].
Qed.

(** The paint functions that fill the window and print a line. *)
Lemma banner_draws w (s : string) color wm m h :
  forallb (fun c => bool_decide (cchar c)) (bytes_of s) = true -> (length (bytes_of s) < 100)%nat -> w <> 0 ->
  draws (window_clear w color;; window_draw_text fuel w 2 2 (lit s)) wm m h.
Proof.
  intros Hs Hl Hw0. unfold window_clear, window_draw_text, on_window.
  rewrite (proj2 (Z.eqb_neq w 0)) by done. apply draws_bind.
  - by apply draws_draw, rect_reach.
  - intros m1 Hd. apply draws_draw. apply text_reach; [exact Hfit|by apply lit_cchar|lia].
Qed.

(** A window of the heap with its title, and a paint function that draws. *)
Lemma paint_window_draws w title wm m h :
  base <= w -> cstr m w title -> (length title < fuel)%nat ->
  (forall m1, drawn base m m1 -> w_on_paint m1 w <> 0 -> draws (call_void (w_on_paint m1 w) [w]) wm m1 h) ->
  draws (paint_window fuel w) wm m h.
Proof.
  intros Hw Ht Hl Hp. unfold paint_window. apply draws_get. destruct (negb _); [apply draws_nothing|].
  apply draws_bind.
  - apply draws_draw. eapply window_reach; [exact Hfit|exact Ht|exact Hl|lia|unfold w_title; lia].
  - intros m1 Hd. apply draws_get. destruct (Z.eqb_spec (w_on_paint m1 w) 0); [apply draws_nothing|by apply Hp].
Qed.

(** All windows are painted, when each of them can be. *)
Lemma paint_list_draws wm m h :
  wm_ok wm ->
  (forall w m1, w ∈ stack wm -> drawn base m m1 -> draws (paint_window fuel w) wm m1 h) ->
  draws (paint_loop fuel fuel 0) wm m h.
Proof.
  intros Hwm Hp. pose proof (stack_length wm Hwm) as Hn. pose proof (wm_num wm Hwm). unfold MAX_WINDOWS in *.
  assert (forall k i m1, drawn base m m1 -> (i <= length (stack wm) < i + k)%nat ->
    draws (paint_loop fuel k i) wm m1 h) as Hall; [|apply Hall; [done|lia]].
  induction k as [|k IH]; intros i m1 Hd Hi; [lia|]. cbn [paint_loop]. apply draws_gets.
  cbn [get_part has_fst has_snd has_refl fst snd id]. destruct (Z.ltb_spec (Z.of_nat i) (num_windows wm)); [|apply draws_nothing].
  destruct (lookup_lt_is_Some_2 (stack wm) i) as [w Hw]; [lia|].
  assert (window_at wm i = w) as ->.
  { unfold stack in Hw. apply lookup_take_Some in Hw as [Hw _]. unfold window_at. by rewrite Hw. }
  apply draws_bind; [apply Hp; [by eapply list_elem_of_lookup_2|done]|].
  intros m2 Hd2. apply IH; [by transitivity m1|lia].
Qed.

(** [window_update] paints the whole desktop and nothing else. *)
Lemma window_update_paints wm m h :
  (forall m1, drawn base m m1 -> draws (paint_loop fuel fuel 0) wm m1 h) -> draws (window_update fuel) wm m h.
Proof.
  intros Hp. unfold window_update.
  assert (drawn base m (vga_clear_screen back_buffer m DESKTOP_COLOR)) as Hd
    by (eapply drawn_back; [eassumption..|apply memset_changes]).
  apply draws_bind; [by apply draws_modify|]. clear Hd. intros m1 Hd1.
  apply draws_bind; [apply draws_draw, taskbar_reach; [exact Hfit|done]|]. intros m2 Hd2.
  apply draws_bind; [apply Hp; by transitivity m1|]. intros m3 _.
  apply draws_modify. eapply swap_drawn; eassumption.
Qed.

End paint.

(** Concrete addresses for the functions. *)
Definition w_functions : Linker := {|
  back_buffer := 0x200000;
  literal s := if String.eqb s "Terminal" then 0x100000 else 0x100100;
  function f := 0x2000 + foldr Z.add 0 (bytes_of f);
|}.

Lemma w_placed : placed (H := w_functions).
Proof. split; [by apply (bool_decide_unpack _)|repeat constructor; done]. Qed.
