(* ===== verification/Screen.v ===== *)
(** * The screen as its users see it: any sequence of window calls (src/impl/drivers/video/window.c)

    What the window manager promises to the programs that open windows and to
    the user with the mouse and the keyboard, over any sequence of calls,
    events and repaints whose choice may depend on the answers so far. The
    specification knows neither the heap nor the array of pointers: a screen
    is a stack of windows, each with its place, its marks and what is in it,
    one window with the focus, and what the mouse holds. [legal] is the
    callers' side of the contract, [promised] the other, [after] the screen
    after a call; [session] is the relation of the states that the calls of
    Window.v reach. *)
From S2P Require Export Paint.

(** ** The specification *)

(** What is in a window: a terminal has the text typed into it. *)
Inductive kind := Plain | Terminal (typed : list Z) | FileBrowser | TextEditor.

Record face := Face {
  fc_title : list Z;
  fc_x : Z;
  fc_y : Z;
  fc_width : Z;
  fc_height : Z;
  fc_visible : bool;
  fc_minimized : bool;
  fc_maximized : bool;
  fc_kind : kind;
}.

Definition placed_at (x y : Z) (f : face) : face :=
  Face (fc_title f) x y (fc_width f) (fc_height f) (fc_visible f) (fc_minimized f) (fc_maximized f) (fc_kind f).
Definition marked (visible minimized maximized : bool) (f : face) : face :=
  Face (fc_title f) (fc_x f) (fc_y f) (fc_width f) (fc_height f) visible minimized maximized (fc_kind f).
Definition filled (k : kind) (f : face) : face :=
  Face (fc_title f) (fc_x f) (fc_y f) (fc_width f) (fc_height f) (fc_visible f) (fc_minimized f) (fc_maximized f) k.

(** A key in a window: a terminal takes it as long as it has room. *)
Definition typed_into (key : Z) (f : face) : face :=
  match fc_kind f with
  | Terminal t => filled (Terminal (take 1023 (t ++ [key]))) f
  | _ => f
  end.

(** [sc_order]: the windows, bottom first; [sc_drag]: the window that follows
    the mouse (0 for none), and where it is held. *)
Record screen := MkScreen {
  sc_order : list Z;
  sc_face : gmap Z face;
  sc_focus : Z;
  sc_drag : Z * Z * Z;
}.

Inductive request :=
  | Create (title : Z) (text : list Z) (x y width height : Z)
  | OpenTerminal
  | OpenBrowser
  | OpenEditor
  | Destroy (w : Z)
  | Show (w : Z)
  | Hide (w : Z)
  | Move (w x y : Z)
  | Resize (w width height : Z)
  | Minimize (w : Z)
  | Maximize (w : Z)
  | Restore (w : Z)
  | Mouse (x y buttons : Z)
  | Key (key : Z)
  | Repaint.

Definition opens (r : request) : option face :=
  match r with
  | Create _ text x y width height => Some (Face (take 31 text) x y width height true false false Plain)
  | OpenTerminal => Some (Face (bytes_of "Terminal") 100 100 400 300 true false false (Terminal []))
  | OpenBrowser => Some (Face (bytes_of "File Browser") 150 150 500 400 true false false FileBrowser)
  | OpenEditor => Some (Face (bytes_of "Text Editor") 200 200 600 450 true false false TextEditor)
  | _ => None
  end.

Definition edit (w : Z) (g : face -> face) (A : screen) : screen :=
  MkScreen (sc_order A) (alter g w (sc_face A)) (sc_focus A) (sc_drag A).
Definition focused (w : Z) (A : screen) : screen := MkScreen (sc_order A) (sc_face A) w (sc_drag A).
Definition held (w dx dy : Z) (A : screen) : screen := MkScreen (sc_order A) (sc_face A) (sc_focus A) (w, dx, dy).

(** The top of a stack, 0 when it is empty. *)
Definition top (ws : list Z) : Z := default 0 (last ws).

Definition opened (w : Z) (f : face) (A : screen) : screen :=
  MkScreen (sc_order A ++ [w]) (<[w := f]> (sc_face A)) w (sc_drag A).

Definition raised (w : Z) (A : screen) : screen :=
  if decide (w ∈ sc_order A) then MkScreen (remove_first w (sc_order A) ++ [w]) (sc_face A) w (sc_drag A) else A.

Definition closed (w : Z) (A : screen) : screen :=
  if decide (w ∈ sc_order A) then
    let ws := remove_first w (sc_order A) in
    MkScreen ws (delete w (sc_face A)) (if decide (sc_focus A = w) then top ws else sc_focus A) (sc_drag A)
  else A.

(** *** The mouse *)

Definition covers (f : face) (x y : Z) : bool :=
  fc_visible f && ((fc_x f <=? x) && (x <? fc_x f + fc_width f) && (fc_y f <=? y) && (y <? fc_y f + fc_height f)).

Definition on_close_button (f : face) (x y : Z) : bool :=
  (fc_x f + fc_width f - 18 <=? x) && (x <? fc_x f + fc_width f - 4) && (fc_y f + 4 <=? y) && (y <? fc_y f + 18).

(** The topmost visible window at a point. *)
Definition window_under (A : screen) (x y : Z) : option Z :=
  last (filter (fun w => from_option (fun f => covers f x y) false (sc_face A !! w) = true) (sc_order A)).

(** The mouse in the window [w]: the left button takes hold of it by its title
    bar and raises it; on the close button any event closes it. *)
Definition pointed (w : Z) (f : face) (x y buttons : Z) (A : screen) : screen :=
  if y <? fc_y f + 20 then
    let A := if tst buttons 0x01 then raised w (held w (x - fc_x f) (y - fc_y f) A) else A in
    if on_close_button f x y then closed w A else A
  else A.

Definition moused (x y buttons : Z) (A : screen) : screen :=
  let '(w, dx, dy) := sc_drag A in
  if decide (w = 0) then
    match window_under A x y with
    | Some v => from_option (fun f => pointed v f x y buttons A) A (sc_face A !! v)
    | None => A
    end
  else if tst buttons 0x01 then edit w (placed_at (u16 (x - dx)) (u16 (y - dy))) A
  else held 0 dx dy A.

(** *** The contract *)

Definition promised (A : screen) (r : request) (v : Z) : Prop :=
  match opens r with
  | Some _ => if decide (length (sc_order A) = 16%nat) then v = 0 else v <> 0 /\ v ∉ sc_order A
  | None => v = 0
  end.

(** Nothing makes a window resizable: [Resize] changes nothing. *)
Definition after (A : screen) (r : request) (v : Z) : screen :=
  match r with
  | Create _ _ _ _ _ _ | OpenTerminal | OpenBrowser | OpenEditor =>
      from_option (fun f => if decide (v = 0) then A else opened v f A) A (opens r)
  | Destroy w => closed w A
  | Show w => raised w (edit w (fun f => marked true (fc_minimized f) (fc_maximized f) f) A)
  | Hide w =>
      let A1 := edit w (fun f => marked false (fc_minimized f) (fc_maximized f) f) A in
      if decide (w ∈ sc_order A /\ sc_focus A = w) then focused (top (sc_order A)) A1 else A1
  | Move w x y => edit w (placed_at (u16 x) (u16 y)) A
  | Resize _ _ _ => A
  | Minimize w => edit w (fun f => marked (fc_visible f) true false f) A
  | Maximize w => edit w (fun f => marked (fc_visible f) false true f) A
  | Restore w => edit w (fun f => marked (fc_visible f) false false f) A
  | Mouse x y buttons => moused x y buttons A
  | Key key => edit (sc_focus A) (typed_into key) A
  | Repaint => A
  end.

(** The screen at the start. *)
Definition blank (drag : Z * Z * Z) : screen := MkScreen [] ∅ 0 drag.

(** ** The calls *)

Section calls.
Context {Env : Type} (e : Env) `{Linker} `{Hw} `{C : Code (desk Env)} (fuel : nat).

Definition serve (r : request) : M (desk Env) Z :=
  match r with
  | Create title _ x y width height => window_create fuel title x y width height
  | OpenTerminal => window_create_terminal fuel
  | OpenBrowser => window_create_file_browser fuel
  | OpenEditor => window_create_text_editor fuel
  | Destroy w => window_destroy w;; mret 0
  | Show w => window_show w;; mret 0
  | Hide w => window_hide w;; mret 0
  | Move w x y => window_move w x y;; mret 0
  | Resize w width height => window_resize w width height;; mret 0
  | Minimize w => window_minimize w;; mret 0
  | Maximize w => window_maximize w;; mret 0
  | Restore w => window_restore w;; mret 0
  | Mouse x y buttons => window_handle_mouse fuel x y buttons;; mret 0
  | Key key => window_handle_key key;; mret 0
  | Repaint => window_update fuel;; mret 0
  end.

(** A string that nothing on the screen overwrites: between the frame buffer
    and the back buffer. *)
Definition constant (m : mem) (p : Z) (t : list Z) : Prop :=
  cstr m p t /\ 0xB0000 <= p /\ p + Z.of_nat (length t) < back_buffer.

(** A handle, or the null pointer. *)
Definition handle (A : screen) (w : Z) : Prop := w = 0 \/ w ∈ sc_order A.

Definition coordinates (x y : Z) : Prop := 0 <= x < 2 ^ 16 /\ 0 <= y < 2 ^ 16.

(** While the left button is down, the window that the mouse holds must not
    have been closed (see [window_close_dangles]). *)
Definition legal (m0 : mem) (A : screen) (r : request) : Prop :=
  match r with
  | Create title text x y width height => constant m0 title text /\ coordinates x y /\ coordinates width height
  | OpenTerminal => constant m0 (literal "Terminal") (bytes_of "Terminal")
  | OpenBrowser => constant m0 (literal "File Browser") (bytes_of "File Browser")
  | OpenEditor => constant m0 (literal "Text Editor") (bytes_of "Text Editor")
  | Show w | Hide w | Move w _ _ | Resize w _ _ | Minimize w | Maximize w | Restore w => handle A w
  | Mouse x y buttons => coordinates x y /\ (tst buttons 0x01 = true -> handle A (sc_drag A).1.1)
  | Key key => cchar key
  | Destroy _ | Repaint => True
  end.

Inductive session (m0 : mem) (s0 : desk Env) (A0 : screen) : nat -> desk Env -> log -> screen -> Prop :=
  | session_start l : session m0 s0 A0 0 s0 l A0
  | session_call n s l A r v s' l' :
      session m0 s0 A0 n s l A -> legal m0 A r -> serve r s l = Done (v, s', l') ->
      session m0 s0 A0 (S n) s' l' (after A r v).

(** ** Windows in memory *)

Definition flags_of (f : face) : Z :=
  Z.b2z (fc_visible f) + WINDOW_FLAG_MOVABLE + Z.b2z (fc_minimized f) * WINDOW_FLAG_MINIMIZED +
  Z.b2z (fc_maximized f) * WINDOW_FLAG_MAXIMIZED.

(** The functions of a window, by what is in it. *)
Definition paint_of (k : kind) : Z :=
  match k with
  | Plain => 0
  | Terminal _ => function "terminal_paint"
  | FileBrowser => function "file_browser_paint"
  | TextEditor => function "text_editor_paint"
  end.

Definition key_of (k : kind) : Z := match k with Terminal _ => function "terminal_key" | _ => 0 end.

(** The content: a terminal has a buffer. *)
Definition content_ok (m : mem) (b : Z) (k : kind) : Prop :=
  match k with
  | Terminal t => terminal_ok m b t /\ Forall cchar t
  | _ => b = 0
  end.

(** The structure at [w] shows the face [f]. *)
Record shows (m : mem) (w : Z) (f : face) : Prop := {
  sh_title : cstr m w (fc_title f);
  sh_length : (length (fc_title f) <= 31)%nat;
  sh_x : w_x m w = fc_x f;
  sh_y : w_y m w = fc_y f;
  sh_width : w_width m w = fc_width f;
  sh_height : w_height m w = fc_height f;
  sh_flags : w_flags m w = flags_of f;
  sh_content : content_ok m (w_content m w) (fc_kind f);
  sh_paint : w_on_paint m w = paint_of (fc_kind f);
  sh_click : w_on_click m w = 0;
  sh_key : w_on_key m w = key_of (fc_kind f);
}.

(** What the screen shows is what is in memory. *)
Record displays (A : screen) (s : desk Env) : Prop := {
  di_order : stack s.1.1.1.1 = sc_order A;
  di_focus : active_window s.1.1.1.1 = sc_focus A;
  di_drag : drag_of s.1.1.1.1 = sc_drag A;
  di_dom : forall w, is_Some (sc_face A !! w) <-> w ∈ sc_order A;
  di_face : map_Forall (shows s.1.1.2) (sc_face A);
}.

(** The allocations that a window has, and how much of them it uses. *)
Definition area (m : mem) (w : Z) (f : face) : list (Z * Z) :=
  (w, sizeof_Window) :: match fc_kind f with Terminal _ => [(w_content m w, sizeof_TerminalBuffer)] | _ => [] end.

Definition in_use (base : Z) (bl : list ablk) (r : Z * Z) : Prop := exists s, (r.1, s) ∈ live base bl /\ r.2 <= s.

Record stands (base : Z) (bl : list ablk) (m : mem) (w : Z) (f : face) : Prop := {
  st_shows : shows m w f;
  st_live : Forall (in_use base bl) (area m w f);
  st_distinct : NoDup (area m w f).*1;
}.
End calls.

(** ** The invariant *)

Section cells.
Context `{Linker} (base : Z) (bl0 : list ablk) (m0 : mem).

(** The windows [F] stand in memory, none in the way of another, nor of the
    allocations of others ([bl0]), which are as they were at the start. *)
Record cells (bl : list ablk) (F : gmap Z face) (m : mem) : Prop := {
  ce_stands : map_Forall (stands base bl m) F;
  ce_apart : forall v w f g, F !! v = Some f -> F !! w = Some g -> v <> w -> (area m v f).*1 ## (area m w g).*1;
  ce_guests : forall p s, (p, s) ∈ live base bl0 ->
    (p, s) ∈ live base bl /\ (forall w f, F !! w = Some f -> p ∉ (area m w f).*1) /\
    forall a, p <= a < p + s -> load m a = load m0 a;
}.

Lemma terminal_same m m' b k : same_at b sizeof_TerminalBuffer m m' -> content_ok m b k -> content_ok m' b k.
Proof. intros Hs. destruct k; try done. intros [Ht Hc]. split; [|done]. by eapply terminal_ok_ext. Qed.

(** A window stands where its bytes do not change. *)
Lemma shows_ext m m' w f :
  same_at w sizeof_Window m m' ->
  (forall t, fc_kind f = Terminal t -> same_at (w_content m w) sizeof_TerminalBuffer m m') ->
  shows m w f -> shows m' w f /\ area m' w f = area m w f.
Proof.
  intros Hw Hb [Ht Hl Hx Hy Hwd Hh Hf Hc Hp Hk1 Hk2]. unfold sizeof_Window in Hw.
  assert (forall n a, w <= a -> a + Z.of_nat n <= w + 80 -> load_le n m' a = load_le n m a) as E
    by (intros n a ? ?; apply load_le_ext; intros; apply Hw; lia).
  assert (w_content m' w = w_content m w) as Ec by (apply E; lia).
  split; [|unfold area; by rewrite Ec]. split; try done.
  all: try (unfold w_x, w_y, w_width, w_height, w_flags, w_on_paint, w_on_click, w_on_key in *; rewrite E by lia; done).
  - eapply cstr_ext; [|exact Ht]. intros a Ha. apply Hw. lia.
  - rewrite Ec. destruct (fc_kind f) as [|t| |] eqn:Ek; try done.
    apply (terminal_same m m' _ (Terminal t)); [by eapply Hb|done].
Qed.

Lemma stands_keep bl bl' m m' w f :
  (forall p s, p ∈ (area m w f).*1 -> (p, s) ∈ live base bl ->
     (p, s) ∈ live base bl' /\ forall a, p <= a < p + s -> load m' a = load m a) ->
  stands base bl m w f -> stands base bl' m' w f /\ area m' w f = area m w f.
Proof.
  intros Hk [Hs Hl Hd].
  assert (forall r, r ∈ area m w f -> in_use base bl' r /\ same_at r.1 r.2 m m') as Hr.
  { intros r Hr. rewrite Forall_forall in Hl. destruct (Hl r Hr) as (s & Hin & Hle).
    destruct (Hk r.1 s) as [Hin' Hb]; [apply list_elem_of_fmap; by exists r|done|].
    split; [by exists s|]. intros a Ha. apply Hb. lia. }
  destruct (shows_ext m m' w f) as [Hs' Ha]; [|intros t Et|done|].
  - apply (Hr (w, sizeof_Window)). by left.
  - apply (Hr (w_content m w, sizeof_TerminalBuffer)). unfold area. rewrite Et. right. by left.
  - split; [|done]. split; rewrite ?Ha; [done| |done]. apply Forall_forall. intros r Hin. by apply Hr.
Qed.

(** Everything but the window [w0] is kept; [w0] gets the face [ff], or goes. *)
Lemma cells_but bl bl' F m m' w0 ff :
  cells bl F m ->
  (forall p s, (p, s) ∈ live base bl -> (forall f, F !! w0 = Some f -> p ∉ (area m w0 f).*1) ->
     (p, s) ∈ live base bl' /\ forall a, p <= a < p + s -> load m' a = load m a) ->
  (forall f', ff = Some f' -> stands base bl' m' w0 f' /\
     forall p, p ∈ (area m' w0 f').*1 -> (exists f, F !! w0 = Some f /\ p ∈ (area m w0 f).*1) \/ p ∉ (live base bl).*1) ->
  cells bl' (partial_alter (fun _ => ff) w0 F) m'.
Proof.
  intros [Hst Hap Hg] Hk Hnew.
  assert (forall p w f, F !! w = Some f -> p ∈ (area m w f).*1 -> p ∈ (live base bl).*1) as Hlive.
  { intros p w f Hw (r & -> & Hr)%list_elem_of_fmap. pose proof (st_live _ _ _ _ _ (Hst w f Hw)) as Hl.
    rewrite Forall_forall in Hl. destruct (Hl r Hr) as (s & Hin & _). apply list_elem_of_fmap. by exists (r.1, s). }
  assert (forall w f, F !! w = Some f -> w <> w0 -> stands base bl' m' w f /\ area m' w f = area m w f) as Hold.
  { intros w f Hw Hne. apply (stands_keep bl); [|by apply Hst]. intros p s Hp Hin. apply Hk; [done|].
    intros f0 Hf0 Hp0. by apply (Hap w w0 f f0 Hw Hf0 Hne p). }
  assert (forall w f, w <> w0 -> F !! w = Some f -> forall f', ff = Some f' -> (area m' w0 f').*1 ## (area m w f).*1) as Hcross.
  { intros w f Hne Hw f' -> p Hp Hp'. destruct (proj2 (Hnew f' eq_refl) p Hp) as [(f0 & Hf0 & Hp0)|Hno].
    - by apply (Hap w w0 f f0 Hw Hf0 Hne p).
    - by apply Hno, (Hlive p w f). }
  split.
  - intros w f [[<- E]|[Hne Hw]]%lookup_partial_alter_Some; [by apply Hnew|by apply Hold].
  - intros v w f g [[<- Ef]|[Hv Hvf]]%lookup_partial_alter_Some [[<- Eg]|[Hw Hwg]]%lookup_partial_alter_Some Hne; [done| | |].
    + rewrite (proj2 (Hold w g Hwg ltac:(done))). by eapply Hcross.
    + rewrite (proj2 (Hold v f Hvf ltac:(done))). intros p Hp Hp'. by eapply (Hcross v f ltac:(done) Hvf g Eg p).
    + rewrite (proj2 (Hold v f Hvf ltac:(done))), (proj2 (Hold w g Hwg ltac:(done))). by eapply Hap.
  - intros p s Hp. destruct (Hg p s Hp) as (Hin & Hno & Hb). destruct (Hk p s Hin) as [Hin' Hb']; [by apply Hno|].
    split; [done|]. split; [|intros a Ha; by rewrite Hb', Hb].
    intros w f [[<- E]|[Hne Hw]]%lookup_partial_alter_Some Hpa.
    + destruct (proj2 (Hnew f E) p Hpa) as [(f0 & Hf0 & Hp0)|Hnl]; [by eapply Hno|].
      apply Hnl, list_elem_of_fmap. by exists (p, s).
    + rewrite (proj2 (Hold w f Hw ltac:(done))) in Hpa. by eapply Hno.
Qed.

(** Nothing of it in the allocations in use. *)
Lemma cells_ext bl bl' F m m' :
  cells bl F m ->
  (forall p s, (p, s) ∈ live base bl -> (p, s) ∈ live base bl' /\ forall a, p <= a < p + s -> load m' a = load m a) ->
  cells bl' F m'.
Proof.
  intros Hc Hk. pose (w0 := fresh (dom F)). assert (F !! w0 = None) as Hw by (apply not_elem_of_dom, is_fresh).
  replace F with (partial_alter (fun _ => None) w0 F) by (by exact (delete_id F w0 Hw)).
  eapply cells_but; [exact Hc|by intros p s Hp _; apply Hk|done].
Qed.
End cells.

Section models.
Context {Env : Type} (e : Env) `{Linker} `{Hw} `{C : Code (desk Env)} (fuel : nat) (base : Z).
Context (bl0 : list ablk) (m0 : mem) (cm : VGAMode).

(** The state is the screen [A], with room for [k] more allocations. *)
Record models (k : nat) (bl : list ablk) (A : screen) (wm : WM) (m : mem) (h : heap) : Prop := {
  mo_desk : desk_ok base bl wm m h;
  mo_room : heap_room k fuel bl h;
  mo_order : stack wm = sc_order A;
  mo_focus : active_window wm = sc_focus A;
  mo_drag : drag_of wm = sc_drag A;
  mo_dom : forall w, is_Some (sc_face A !! w) <-> w ∈ sc_order A;
  mo_cells : cells base bl0 m0 bl (sc_face A) m;
  mo_frame : forall a, 0xB0000 <= a < back_buffer -> load m a = load m0 a;
}.

Lemma models_weaken k bl A wm m h : models (S k) bl A wm m h -> models k bl A wm m h.
Proof. intros [? [? ?] ? ? ? ? ? ?]. split; try done. split; lia. Qed.

Lemma models_displays k bl A wm m h : models k bl A wm m h -> displays A (wm, cm, m, h, e).
Proof. intros [? ? ? ? ? ? Hc ?]. split; try done. intros w f Hw. by apply (ce_stands _ _ _ _ _ _ Hc). Qed.

(** A window of the screen is a window of the list. *)
Lemma models_face k bl A wm m h w :
  models k bl A wm m h -> w ∈ sc_order A -> exists f, sc_face A !! w = Some f /\ stands base bl m w f /\ base <= w /\ w <> 0.
Proof.
  intros Hm Hw. destruct (proj2 (mo_dom _ _ _ _ _ _ Hm w) Hw) as [f Hf]. exists f. split; [done|].
  split; [by apply (ce_stands _ _ _ _ _ _ (mo_cells _ _ _ _ _ _ Hm))|].
  apply (desk_window base bl wm m h w); [apply Hm|]. by rewrite (mo_order _ _ _ _ _ _ Hm).
Qed.

Lemma models_null k bl A wm m h : models k bl A wm m h -> 0 ∉ sc_order A.
Proof. intros Hm Hn. by destruct (models_face _ _ _ _ _ _ _ Hm Hn) as (f & _ & _ & _ & ?). Qed.

(** The list of windows is in another order, or something else has the focus. *)
Lemma models_list k bl A wm wm' m h ws fo dr :
  models k bl A wm m h -> wm_ok wm' -> stack wm' = ws -> active_window wm' = fo -> drag_of wm' = dr ->
  (forall w, w ∈ ws <-> w ∈ sc_order A) -> models k bl (MkScreen ws (sc_face A) fo dr) wm' m h.
Proof.
  intros [[Hwm Hr Hl] ? Ho ? ? Hd ? ?] Hok <- <- <- He. split; try done.
  - split; [done|done|]. apply Forall_forall. intros w Hw. rewrite Forall_forall in Hl. apply Hl.
    rewrite Ho. by apply He.
  - intros w. cbn [sc_face sc_order]. by rewrite Hd, He.
Qed.

(** A store within what belongs to a window. *)
Lemma models_write k bl A wm m m' h w f f' p s :
  models k bl A wm m h -> sc_face A !! w = Some f ->
  (p, s) ∈ live base bl -> p ∈ (area m w f).*1 -> changes p (p + s) m m' -> back_buffer <= base ->
  stands base bl m' w f' -> (area m' w f').*1 = (area m w f).*1 ->
  models k bl (MkScreen (sc_order A) (<[w := f']> (sc_face A)) (sc_focus A) (sc_drag A)) wm m' h.
Proof.
  intros [Hok Hroom Ho Hfo Hdr Hdom Hc Hfr] Hw Hin Hp Hch Hb Hst Ha.
  destruct (desk_ok_write base bl wm m m' h p s Hok Hin Hch) as [Hok' Hk].
  pose proof (live_bounds _ _ _ _ _ _ _ (hr_seg (dk_heap _ _ _ _ _ Hok)) Hin) as [Hlo _]. unfold HDR in Hlo.
  split; try done.
  - intros v. cbn [sc_face sc_order]. rewrite <- Hdom. rewrite lookup_insert_is_Some'. split; [intros [<-|?]; [by exists f|done]|by right].
  - cbn [sc_face]. apply (cells_but base bl0 m0 bl bl (sc_face A) m m' w (Some f')); [done| |].
    + intros q sq Hq Hno. split; [done|]. intros a Haq. apply (Hk q sq); [done| |done].
      intros ->. by apply (Hno f).
    + intros ? [= <-]. split; [done|]. intros q Hq. left. exists f. by rewrite <- Ha.
  - intros a Har. rewrite <- Hfr by done. apply Hch. lia.
Qed.

(** The place of a window, and its flags. *)
Definition lies (m : mem) (w : Z) (f : face) : Prop :=
  w_x m w = fc_x f /\ w_y m w = fc_y f /\ w_width m w = fc_width f /\ w_height m w = fc_height f.

Definition looks (m : mem) (w : Z) (f : face) : Prop := lies m w f /\ w_flags m w = flags_of f.

Lemma shows_lies m w f : shows m w f -> lies m w f.
Proof. by intros []. Qed.

(** [stands] after a change of the place and the flags of a window. *)
Lemma stands_fields bl m m' w f f' :
  stands base bl m w f -> changes (w + 32) (w + 44) m m' ->
  fc_title f' = fc_title f -> fc_kind f' = fc_kind f ->
  looks m' w f' ->
  (forall r, r ∈ area m w f -> r.1 <> w -> r.1 + r.2 <= w \/ w + sizeof_Window <= r.1) ->
  stands base bl m' w f' /\ area m' w f' = area m w f.
Proof.
  intros [[Ht Hl Hx Hy Hwd Hh Hf Hc Hp Hk1 Hk2] Hlive Hnd] Hch Et Ek [(Ex & Ey & Ew & Eh) Ef] Hd.
  assert (w_content m' w = w_content m w) as Ec by (unfold w_content; eapply load_le_changes; [exact Hch|lia]).
  assert (area m' w f' = area m w f) as Ha by (unfold area; by rewrite Ek, Ec).
  split; [|done]. split; rewrite ?Ha; [|done..]. split; rewrite ?Et, ?Ek; try done.
  - eapply cstr_changes; [exact Hch| |done]. left. lia.
  - rewrite Ec. destruct (fc_kind f) as [|t| |] eqn:Ekf; try done.
    apply (terminal_same m m' _ (Terminal t)); [|done]. intros a Har.
    unfold area in Hnd, Hd. rewrite Ekf in Hnd, Hd. apply Hch.
    destruct (Hd (w_content m w, sizeof_TerminalBuffer)) as [|]; [right; by left| |cbn in *; lia|cbn in *; unfold sizeof_Window in *; lia].
    cbn. intros E. apply NoDup_cons in Hnd as [Hno _]. apply Hno. cbn. rewrite E. by left.
  - rewrite <- Hp. unfold w_on_paint. eapply load_le_changes; [exact Hch|]. lia.
  - rewrite <- Hk1. unfold w_on_click. eapply load_le_changes; [exact Hch|]. lia.
  - rewrite <- Hk2. unfold w_on_key. eapply load_le_changes; [exact Hch|]. lia.
Qed.

(** The allocations of a window lie apart. *)
Lemma area_apart bl m w f r :
  (exists h, heap_rep h m base bl) -> stands base bl m w f -> r ∈ area m w f -> r.1 <> w ->
  r.1 + r.2 <= w \/ w + sizeof_Window <= r.1.
Proof.
  intros [h Hr] [_ Hl _] Hin Hne. rewrite Forall_forall in Hl.
  destruct (Hl r Hin) as (s & Hs & Hle). destruct (Hl (w, sizeof_Window)) as (sw & Hsw & Hlew); [by left|].
  destruct (live_disjoint_2 _ _ _ _ _ r.1 s w sw (hr_seg Hr) Hs Hsw Hne); cbn in *; lia.
Qed.

Lemma edit_some A w g f :
  sc_face A !! w = Some f -> edit w g A = MkScreen (sc_order A) (<[w := g f]> (sc_face A)) (sc_focus A) (sc_drag A).
Proof.
  intros Hw. unfold edit. f_equal. apply map_eq. intros v. destruct (decide (w = v)) as [<-|Hne].
  - by rewrite lookup_alter_eq, lookup_insert_eq, Hw.
  - by rewrite lookup_alter_ne, lookup_insert_ne.
Qed.

Lemma edit_none A w g : sc_face A !! w = None -> edit w g A = A.
Proof.
  intros Hw. destruct A as [ws F fo dr]. unfold edit. cbn in *. f_equal. apply map_eq. intros v.
  destruct (decide (w = v)) as [<-|Hne]; [by rewrite lookup_alter_eq, Hw|by rewrite lookup_alter_ne].
Qed.

Lemma models_no_face k bl A wm m h w : models k bl A wm m h -> w ∉ sc_order A -> sc_face A !! w = None.
Proof.
  intros Hm Hw. apply eq_None_not_Some. intros Hs. by apply Hw, (mo_dom _ _ _ _ _ _ Hm).
Qed.

(** A store to the place or the flags of a window. *)
Lemma models_edit k bl A wm m m' h w g :
  models k bl A wm m h -> back_buffer <= base -> w ∈ sc_order A ->
  changes (w + 32) (w + 44) m m' ->
  (forall f, shows m w f -> fc_title (g f) = fc_title f /\ fc_kind (g f) = fc_kind f /\ looks m' w (g f)) ->
  models k bl (edit w g A) wm m' h.
Proof.
  intros Hm Hb Hw Hch Hg. destruct (models_face _ _ _ _ _ _ _ Hm Hw) as (f & Hf & Hst & _ & _).
  rewrite (edit_some A w g f Hf). destruct (Hg f (st_shows _ _ _ _ _ Hst)) as (Et & Ek & Hl).
  pose proof (st_live _ _ _ _ _ Hst) as Hlive. apply Forall_cons in Hlive as [(s & Hs & Hle) _].
  cbn in Hs, Hle. unfold sizeof_Window in Hle.
  destruct (stands_fields bl m m' w f (g f) Hst Hch Et Ek Hl) as [Hst' Ha].
  { intros r Hr. apply (area_apart bl m w f); [|done..]. exists h. apply Hm. }
  eapply models_write; [exact Hm|exact Hf|exact Hs|by left| |done|exact Hst'|by rewrite Ha].
  eapply changes_weaken; [exact Hch|lia|lia].
Qed.

(** ** The answers *)

Definition answered (k : nat) (A : screen) (wm : WM) (m : mem) (h : heap) (r : request) (l : log) : Prop :=
  exists v wm' m' h' bl' l',
    serve fuel r (wm, cm, m, h, e) l = Done (v, (wm', cm, m', h', e), l') /\ prints l l' /\
    promised A r v /\ models k bl' (after A r v) wm' m' h'.

(** A call that does nothing. *)
Lemma answered_idle k bl A wm m h r l :
  models (S k) bl A wm m h -> serve fuel r (wm, cm, m, h, e) l = Done (0, (wm, cm, m, h, e), l) ->
  opens r = None -> after A r 0 = A -> answered k A wm m h r l.
Proof.
  intros Hm E Ho Ha. exists 0, wm, m, h, bl, l. split; [done|]. split; [done|].
  unfold promised. rewrite Ho, Ha. split; [done|by apply models_weaken].
Qed.

(** A call that changes the place or the flags of a window. *)
Lemma edit_answered k bl A wm m h r l w g x (fm : mem -> mem) :
  models (S k) bl A wm m h -> back_buffer <= base -> handle A w ->
  serve fuel r = (on_window w x;; mret 0) ->
  (forall s l, x s l = Done (tt, set_part (fm (get_part s)) s, l)) ->
  opens r = None -> after A r 0 = edit w g A ->
  changes (w + 32) (w + 44) m (fm m) ->
  (forall f, shows m w f -> fc_title (g f) = fc_title f /\ fc_kind (g f) = fc_kind f /\ looks (fm m) w (g f)) ->
  answered k A wm m h r l.
Proof.
  intros Hm Hb Hh Er Ex Ho Ha Hch Hg. destruct (decide (w ∈ sc_order A)) as [Hw|Hw].
  - exists 0, wm, (fm m), h, bl, l. split.
    + rewrite Er. unfold on_window. destruct (Z.eqb_spec w 0) as [->|Hw0]; [by destruct (models_null _ _ _ _ _ _ Hm)|].
      by rewrite (M_bind_done _ _ _ _ _ _ _ (Ex _ _)).
    + split; [done|]. unfold promised. rewrite Ho, Ha. split; [done|].
      apply models_weaken. by eapply models_edit.
  - destruct Hh as [->|?]; [|done]. apply (answered_idle k bl); [done|by rewrite Er|done|].
    rewrite Ha. by eapply edit_none, models_no_face.
Qed.

(** Setting the flags of a window leaves it in its place. *)
Lemma lies_flags m w f v : lies m w f -> lies (set_w_flags w v m) w f.
Proof.
  unfold lies. intros (<- & <- & <- & <-). pose proof (store_le_changes 4 m (w + 40) v) as Hc.
  split_and!; eapply load_le_changes; try exact Hc; lia.
Qed.

Lemma flags_set w v m : w_flags (set_w_flags w v m) w = u32 v.
Proof. unfold w_flags, set_w_flags. by rewrite load_le_store_le_eq. Qed.

Lemma set_flags_changes w v m : changes (w + 32) (w + 44) m (set_w_flags w v m).
Proof. eapply changes_weaken; [apply (store_le_changes 4)|lia|lia]. Qed.

(** All the words of flags that a window can have. *)
Ltac all_flags f := unfold flags_of, marked; cbn; destruct (fc_visible f), (fc_minimized f), (fc_maximized f); reflexivity.

(** A few stores, one after the other. *)
Ltac stores := cbv beta; repeat (eapply changes_trans; [|eapply changes_weaken; [apply store_le_changes|lia|lia]]); apply changes_refl.

Lemma looks_moved m w f x y : shows m w f -> looks (set_w_y w y (set_w_x w x m)) w (placed_at (u16 x) (u16 y) f).
Proof.
  intros Hs. assert (changes (w + 32) (w + 36) m (set_w_y w y (set_w_x w x m))) as Hc by (unfold set_w_x, set_w_y; stores).
  unfold looks, lies. rewrite moved_x, moved_y. cbn [fc_x fc_y fc_width fc_height placed_at]. change (flags_of _) with (flags_of f).
  rewrite <- (sh_width _ _ _ Hs), <- (sh_height _ _ _ Hs), <- (sh_flags _ _ _ Hs).
  split_and!; [done|done|..]; (eapply load_le_changes; [exact Hc|lia]).
Qed.

Lemma move_answered k bl A wm m h w x y l :
  models (S k) bl A wm m h -> back_buffer <= base -> handle A w -> answered k A wm m h (Move w x y) l.
Proof.
  intros Hm Hb Hh. eapply edit_answered; [exact Hm|done|exact Hh|reflexivity|reflexivity|reflexivity|reflexivity| |].
  - unfold set_w_x, set_w_y. stores.
  - intros f Hs. split; [done|]. split; [done|]. by apply looks_moved.
Qed.

(** The functions that set the flags of a window, once or twice. *)
Lemma marks_answered k bl A wm m h r w l v1 v2 g :
  models (S k) bl A wm m h -> back_buffer <= base -> handle A w ->
  serve fuel r = (on_window w (
    modify (fun m => set_w_flags w (v1 (w_flags m w)) m);; modify (fun m => set_w_flags w (v2 (w_flags m w)) m));; mret 0) ->
  opens r = None -> after A r 0 = edit w g A ->
  (forall m f, lies m w f -> lies m w (g f)) ->
  (forall f, fc_title (g f) = fc_title f /\ fc_kind (g f) = fc_kind f /\ u32 (v2 (u32 (v1 (flags_of f)))) = flags_of (g f)) ->
  answered k A wm m h r l.
Proof.
  intros Hm Hb Hh Er Ho Ha Hlies Hg.
  apply (edit_answered k bl A wm m h r l w g _
    (fun m => let m1 := set_w_flags w (v1 (w_flags m w)) m in set_w_flags w (v2 (w_flags m1 w)) m1) Hm Hb Hh Er);
    [reflexivity|done|done| |].
  - cbv zeta. eapply changes_trans; apply set_flags_changes.
  - intros f Hs. destruct (Hg f) as (Et & Ek & Ef). split; [done|]. split; [done|]. cbv zeta.
    split; [by apply lies_flags, lies_flags, Hlies, shows_lies|]. by rewrite !flags_set, (sh_flags _ _ _ Hs).
Qed.

Lemma minimize_answered k bl A wm m h w l :
  models (S k) bl A wm m h -> back_buffer <= base -> handle A w -> answered k A wm m h (Minimize w) l.
Proof.
  intros Hm Hb Hh. apply (marks_answered k bl A wm m h _ w l (fun v => v .| WINDOW_FLAG_MINIMIZED)
    (fun v => v .& u32 (Z.lnot WINDOW_FLAG_MAXIMIZED))
    (fun f => marked (fc_visible f) true false f) Hm Hb Hh); [reflexivity..|done|].
  intros f. split; [done|]. split; [done|all_flags f].
Qed.

Lemma maximize_answered k bl A wm m h w l :
  models (S k) bl A wm m h -> back_buffer <= base -> handle A w -> answered k A wm m h (Maximize w) l.
Proof.
  intros Hm Hb Hh. apply (marks_answered k bl A wm m h _ w l (fun v => v .| WINDOW_FLAG_MAXIMIZED)
    (fun v => v .& u32 (Z.lnot WINDOW_FLAG_MINIMIZED))
    (fun f => marked (fc_visible f) false true f) Hm Hb Hh); [reflexivity..|done|].
  intros f. split; [done|]. split; [done|all_flags f].
Qed.

Lemma restore_answered k bl A wm m h w l :
  models (S k) bl A wm m h -> back_buffer <= base -> handle A w -> answered k A wm m h (Restore w) l.
Proof.
  intros Hm Hb Hh. eapply edit_answered; [exact Hm|done|exact Hh|reflexivity..|apply set_flags_changes|].
  intros f Hs. split; [done|]. split; [done|]. split; [apply lies_flags; exact (shows_lies _ _ _ Hs)|].
  rewrite flags_set, (sh_flags _ _ _ Hs). all_flags f.
Qed.

(** No window can be resized. *)
Lemma resize_answered k bl A wm m h w x y l :
  models (S k) bl A wm m h -> handle A w -> answered k A wm m h (Resize w x y) l.
Proof.
  intros Hm Hh. apply (answered_idle k bl); [done| |done..]. unfold serve, window_resize, on_window.
  destruct (Z.eqb_spec w 0) as [->|Hw0]; [done|]. destruct Hh as [?|Hw]; [done|].
  destruct (models_face _ _ _ _ _ _ _ Hm Hw) as (f & _ & Hst & _).
  rewrite modify_bind. cbn [get_part set_part has_fst has_snd has_refl fst snd].
  rewrite (sh_flags _ _ _ (st_shows _ _ _ _ _ Hst)).
  assert (tst (flags_of f) WINDOW_FLAG_RESIZABLE = false) as -> by all_flags f. reflexivity.
Qed.

(** *** The list of windows *)

Lemma models_raise k bl A wm m h w :
  models k bl A wm m h -> w ∈ sc_order A -> models k bl (raised w A) (bring_to_front w wm) m h.
Proof.
  intros Hm Hw. pose proof (dk_wm _ _ _ _ _ (mo_desk _ _ _ _ _ _ Hm)) as Hwm.
  destruct (bring_to_front_in wm w Hwm) as (Hst & Hok & Hact & Hd); [by rewrite (mo_order _ _ _ _ _ _ Hm)|].
  rewrite (mo_order _ _ _ _ _ _ Hm) in Hst. rewrite (mo_drag _ _ _ _ _ _ Hm) in Hd.
  unfold raised. rewrite decide_True by done. eapply models_list; [exact Hm|done..|].
  intros v. pose proof (wm_nodup _ Hwm) as Hnd. rewrite (mo_order _ _ _ _ _ _ Hm) in Hnd.
  rewrite elem_of_app, remove_first_elem, list_elem_of_singleton by done. destruct (decide (v = w)) as [->|]; naive_solver.
Qed.

Lemma models_hold k bl A wm m h w dx dy :
  models k bl A wm m h -> models k bl (held w dx dy A) (set_dragging w dx dy wm) m h.
Proof.
  intros Hm. pose proof (dk_wm _ _ _ _ _ (mo_desk _ _ _ _ _ _ Hm)) as [? ? ? ? ?].
  eapply models_list; [exact Hm|by split|apply Hm|apply Hm|done|done].
Qed.

Lemma models_focus k bl A wm m h w :
  models k bl A wm m h -> handle A w -> models k bl (focused w A) (set_active w wm) m h.
Proof.
  intros Hm Hh. pose proof (dk_wm _ _ _ _ _ (mo_desk _ _ _ _ _ _ Hm)) as [? ? ? ? ?].
  eapply models_list; [exact Hm| |apply Hm|done|apply Hm|done]. split; try done.
  unfold handle in Hh. rewrite <- (mo_order _ _ _ _ _ _ Hm) in Hh. exact Hh.
Qed.

Lemma models_top k bl A wm m h : models k bl A wm m h -> top_window wm = top (sc_order A) /\ handle A (top (sc_order A)).
Proof.
  intros Hm. pose proof (dk_wm _ _ _ _ _ (mo_desk _ _ _ _ _ _ Hm)) as Hwm. split.
  - rewrite top_window_last by done. by rewrite (mo_order _ _ _ _ _ _ Hm).
  - unfold top, handle. destruct (last (sc_order A)) as [v|] eqn:E; [right|by left]. by eapply last_Some_elem_of.
Qed.

Lemma show_answered k bl A wm m h w l :
  models (S k) bl A wm m h -> back_buffer <= base -> handle A w -> answered k A wm m h (Show w) l.
Proof.
  intros Hm Hb Hh. destruct (decide (w ∈ sc_order A)) as [Hw|Hw].
  - destruct (models_face _ _ _ _ _ _ _ Hm Hw) as (_ & _ & _ & _ & Hw0).
    exists 0, (bring_to_front w wm), (set_w_flags w (w_flags m w .| WINDOW_FLAG_VISIBLE) m), h, bl, l.
    split; [unfold serve, window_show, on_window; by rewrite (proj2 (Z.eqb_neq w 0))|].
    split; [done|]. split; [done|]. apply models_weaken, models_raise; [|done].
    apply (models_edit _ _ _ _ m); [done|done|done|apply set_flags_changes|].
    intros f Hs. split; [done|]. split; [done|]. split; [apply lies_flags; exact (shows_lies _ _ _ Hs)|].
    rewrite flags_set, (sh_flags _ _ _ Hs). all_flags f.
  - destruct Hh as [->|?]; [|done]. apply (answered_idle k bl); [done|done|done|]. cbn [after].
    rewrite edit_none by (by eapply models_no_face). unfold raised. by rewrite decide_False.
Qed.

Lemma hide_answered k bl A wm m h w l :
  models (S k) bl A wm m h -> back_buffer <= base -> handle A w -> answered k A wm m h (Hide w) l.
Proof.
  intros Hm Hb Hh. destruct (decide (w ∈ sc_order A)) as [Hw|Hw].
  - destruct (models_face _ _ _ _ _ _ _ Hm Hw) as (_ & _ & _ & _ & Hw0).
    set (m1 := set_w_flags w (w_flags m w .& u32 (Z.lnot WINDOW_FLAG_VISIBLE)) m).
    exists 0, (if active_window wm =? w then set_active (top_window wm) wm else wm), m1, h, bl, l.
    split; [unfold serve, window_hide, on_window; by rewrite (proj2 (Z.eqb_neq w 0))|].
    split; [done|]. split; [done|]. apply models_weaken. cbn [after]. cbv zeta.
    set (A1 := edit w _ A). assert (models (S k) bl A1 wm m1 h) as Hm1.
    { apply (models_edit _ _ _ _ m); [done|done|done|apply set_flags_changes|].
      intros f Hs. split; [done|]. split; [done|]. split; [apply lies_flags; exact (shows_lies _ _ _ Hs)|].
      unfold m1. rewrite flags_set, (sh_flags _ _ _ Hs). all_flags f. }
    rewrite (mo_focus _ _ _ _ _ _ Hm). destruct (Z.eqb_spec (sc_focus A) w) as [E|E].
    + rewrite decide_True by done. destruct (models_top _ _ _ _ _ _ Hm1) as [-> Ht].
      change (top (sc_order A)) with (top (sc_order A1)). by apply models_focus.
    + by rewrite decide_False by naive_solver.
  - destruct Hh as [->|?]; [|done]. apply (answered_idle k bl); [done|done|done|]. cbn [after]. cbv zeta.
    rewrite edit_none by (by eapply models_no_face). by rewrite decide_False by tauto.
Qed.

(** *** Closing *)

(** What [window_destroy] frees is what the window has. *)
Lemma area_owned bl m w f h :
  heap_rep h m base bl -> stands base bl m w f ->
  exists own, owned m bl w own /\ Forall (fun r => r ∈ live base bl) own /\ forall p, p ∈ own.*1 <-> p ∈ (area m w f).*1.
Proof.
  intros Hr [Hs Hl Hnd]. unfold area in *. pose proof (sh_content _ _ _ Hs) as Hc.
  assert (forall t, fc_kind f = Terminal t -> w_content m w <> 0) as Hn0.
  { intros t Et. rewrite Et in Hl. apply Forall_cons in Hl as [_ [(sb & Hin & _) _]%Forall_cons].
    pose proof (live_bounds _ _ _ _ _ _ _ (hr_seg Hr) Hin). pose proof (hr_base Hr). cbn in *. unfold HDR in *. lia. }
  apply Forall_cons in Hl as [(s & Hin & _) Hl]. cbn [fst] in Hin.
  destruct (fc_kind f) as [|t| |] eqn:Ek; cbn in Hc.
  2: { apply Forall_cons in Hl as [(sb & Hinb & _) _]. cbn [fst] in Hinb.
       exists [(w_content m w, sb); (w, s)]. split; [|split].
       - exists s. rewrite decide_False by (by eapply Hn0). exists sb. split; [done|].
         apply NoDup_cons in Hnd as [Hno _]. intros E. apply Hno. change (w ∈ [w_content m w]). rewrite E. by left.
       - by repeat constructor.
       - intros p. cbn. set_solver. }
  all: exists [(w, s)]; split; [exists s; by rewrite decide_True|]; split; [by repeat constructor|set_solver].
Qed.

Lemma models_close k bl A wm m h w l :
  models k bl A wm m h -> back_buffer <= base -> w ∈ sc_order A ->
  exists wm' bl', window_destroy w (wm, cm, m, h, e) l = Done (tt, (wm', cm, free_window m w, h, e), l) /\
    models k bl' (closed w A) wm' (free_window m w) h.
Proof.
  intros Hm Hb Hw. destruct (models_face _ _ _ _ _ _ _ Hm Hw) as (f & Hf & Hst & _ & _).
  pose proof Hm as [Hok [Hp Hfu] Ho Hfo Hdr Hdom Hc Hfr]. pose proof (wm_nodup _ (dk_wm _ _ _ _ _ Hok)) as Hnd.
  destruct (area_owned bl m w f h (dk_heap _ _ _ _ _ Hok) Hst) as (own & Hown & Hl & Ha).
  destruct (window_destroy_run e base bl w own wm cm m h l Hok) as (wm' & bl' & E & Hok' & Hst' & Hact & Hd & Hlv & [Hkb Hk] & Hlen);
    [by rewrite Ho|done|done| |].
  { intros v Hv Hne Hvo. rewrite Ho in Hv. destruct (models_face _ _ _ _ _ _ _ Hm Hv) as (g & Hg & _).
    apply (ce_apart _ _ _ _ _ _ Hc v w g f Hg Hf Hne v); [by left|by apply Ha]. }
  exists wm', bl'. split; [exact E|]. unfold closed. rewrite decide_True by done. rewrite Ho in *. rewrite Hfo, Hst' in Hact.
  split; cbn [sc_order sc_face sc_focus sc_drag]; [done|split; lia|done|done|congruence| | |].
  - intros v. rewrite lookup_delete_is_Some, Hdom, remove_first_elem by done. naive_solver.
  - apply (cells_but base bl0 m0 bl bl' (sc_face A) m _ w None); [done| |done].
    intros p s Hin Hno. assert ((p, s) ∈ live base bl') as Hin'.
    { rewrite Hlv in Hin. apply elem_of_app in Hin as [Hin|]; [|done]. destruct (Hno f Hf). apply Ha.
      apply list_elem_of_fmap. by exists (p, s). }
    split; [done|]. intros a Haa. by apply (Hk p s).
  - intros a Har. rewrite <- Hfr by done. apply Hkb. lia.
Qed.

Lemma destroy_answered k bl A wm m h w l :
  models (S k) bl A wm m h -> back_buffer <= base -> answered k A wm m h (Destroy w) l.
Proof.
  intros Hm Hb. destruct (decide (w ∈ sc_order A)) as [Hw|Hw].
  - destruct (models_close _ _ _ _ _ _ w l Hm Hb Hw) as (wm' & bl' & E & Hm').
    exists 0, wm', (free_window m w), h, bl', l. split; [unfold serve; by rewrite (M_bind_done _ _ _ _ _ _ _ E)|].
    split; [done|]. split; [done|by apply models_weaken].
  - apply (answered_idle k bl); [done| |done|].
    + unfold serve, window_destroy. destruct (w =? 0); [done|].
      rewrite M_bind_assoc, gets_bind. cbn [get_part has_fst has_snd has_refl fst snd]. unfold id.
      pose proof (find_window_spec wm w) as Hf. destruct (find_window wm w) as [i|]; [|done].
      destruct Hf as [Hi _]. destruct Hw. rewrite <- (mo_order _ _ _ _ _ _ Hm). by eapply list_elem_of_lookup_2.
    + cbn [after]. unfold closed. by rewrite decide_False.
Qed.

(** *** Opening *)

(** A new window among the others. *)
Lemma models_opened k bl bl' A wm wm' m m' h h' w f :
  models (S k) bl A wm m h -> desk_ok base bl' wm' m' h' -> heap_room k fuel bl' h' ->
  stack wm' = stack wm ++ [w] -> active_window wm' = w -> drag_of wm' = drag_of wm -> w ∉ sc_order A ->
  (forall p s a, (p, s) ∈ live base bl -> (p, s) ∈ live base bl' /\ (p <= a < p + s -> load m' a = load m a)) ->
  (forall a, 0xB0000 <= a < back_buffer -> load m' a = load m a) ->
  stands base bl' m' w f -> (forall p, p ∈ (area m' w f).*1 -> p ∉ (live base bl).*1) ->
  models k bl' (opened w f A) wm' m' h'.
Proof.
  intros [_ _ Ho Hfo Hdr Hdom Hc Hfr] Hok Hroom Hst Hact Hd Hno Hk Hfr' Hs Hfresh.
  split; cbn [opened sc_order sc_face sc_focus sc_drag]; [done|done|by rewrite Hst, Ho|done|by rewrite Hd| | |].
  - intros v. rewrite lookup_insert_is_Some', Hdom, elem_of_app, list_elem_of_singleton. naive_solver.
  - apply (cells_but base bl0 m0 bl bl' (sc_face A) m m' w (Some f)); [done| |].
    + intros p s Hin _. split; [by apply (Hk p s 0)|]. intros a Ha. by apply (Hk p s a).
    + intros ? [= <-]. split; [done|]. intros p Hp. right. by apply Hfresh.
  - intros a Ha. by rewrite Hfr', Hfr.
Qed.

(** The room on the screen is the room in the array. *)
Lemma models_number k bl A wm m h :
  models k bl A wm m h -> num_windows wm = Z.of_nat (length (sc_order A)) /\ num_windows wm <= MAX_WINDOWS.
Proof.
  intros Hm. pose proof (dk_wm _ _ _ _ _ (mo_desk _ _ _ _ _ _ Hm)) as Hwm. pose proof (wm_num _ Hwm).
  pose proof (stack_length _ Hwm) as Hl. rewrite (mo_order _ _ _ _ _ _ Hm) in Hl. lia.
Qed.

Lemma constant_now k bl A wm m h p t : models k bl A wm m h -> constant m0 p t -> cstr m p t.
Proof.
  intros Hm (Ht & Hlo & Hhi). eapply cstr_ext; [|exact Ht]. intros a Ha. apply (mo_frame _ _ _ _ _ _ Hm). lia.
Qed.

Definition plain (text : list Z) (x y width height : Z) : face :=
  Face (take 31 text) x y width height true false false Plain.

(** [window_create] opens a plain window; what it allocated is given back by
    the lemma for the functions that go on from there. *)
Lemma models_create k bl A wm m h title text x y width height l :
  models (S k) bl A wm m h -> back_buffer <= base -> length (sc_order A) <> 16%nat ->
  constant m0 title text -> coordinates x y -> coordinates width height ->
  exists w s wm' m' h' bl',
    window_create fuel title x y width height (wm, cm, m, h, e) l = Done (w, (wm', cm, m', h', e), l) /\
    w <> 0 /\ w ∉ sc_order A /\ live base bl' ≡ₚ (w, s) :: live base bl /\ sizeof_Window <= s /\
    models k bl' (opened w (plain text x y width height) A) wm' m' h'.
Proof.
  intros Hm Hb Hn Ht [Hx Hy] [Hw Hh]. pose proof (mo_desk _ _ _ _ _ _ Hm) as Hok.
  destruct (models_number _ _ _ _ _ _ Hm) as [En Hmax]. unfold MAX_WINDOWS in *.
  destruct (window_create_run e fuel base k bl title text x y width height wm cm m h l Hok (mo_room _ _ _ _ _ _ Hm)
    ltac:(unfold MAX_WINDOWS; lia) (constant_now _ _ _ _ _ _ _ _ Hm Ht) ltac:(destruct Ht; lia) Hx Hy Hw Hh)
    as (w & wm' & m' & h' & bl' & s & E & Hok' & Hst & Hact & Hd & Hf & Hl & Hs & [Hkb Hk] & Hroom).
  assert (w ∈ stack wm') as Hin by (rewrite Hst; set_solver).
  destruct (desk_window base bl' wm' m' h' w Hok' Hin) as [_ Hw0].
  assert (w ∉ sc_order A) as Hno.
  { rewrite <- (mo_order _ _ _ _ _ _ Hm). pose proof (wm_nodup _ (dk_wm _ _ _ _ _ Hok')) as Hnd.
    rewrite Hst in Hnd. apply NoDup_app in Hnd as (_ & Hd' & _). intros Hin'. apply (Hd' w Hin'). by left. }
  exists w, s, wm', m', h', bl'. split; [exact E|]. split; [done|]. split; [done|]. split; [done|]. split; [done|].
  eapply models_opened; [exact Hm|done..| | | |].
  - intros p sp a Hp. split; [rewrite Hl; by right|]. by apply Hk.
  - intros a Ha. apply Hkb. lia.
  - destruct Hf. split; [split; try done; cbn; rewrite ?length_take; lia| |].
    + repeat constructor. exists s. split; [rewrite Hl; by left|done].
    + cbn. apply NoDup_singleton.
  - intros p Hp. cbn in Hp. apply list_elem_of_singleton in Hp as ->. intros ((q & sq) & Eq & Hq)%list_elem_of_fmap.
    cbn in Eq. by apply (allocated_fresh base bl bl' m' h' w s q sq (dk_heap _ _ _ _ _ Hok') Hl Hq).
Qed.

(** A call that begins with [window_create], when there is no room. *)
Lemma full_answered k bl A wm m h r f l title x y width height :
  always_ready tx_empty fuel (COM1_PORT + 5) -> models (S k) bl A wm m h -> length (sc_order A) = 16%nat ->
  opens r = Some f -> after A r 0 = A ->
  (forall (s : desk Env) l', window_create fuel title x y width height s l = Done (0, s, l') -> serve fuel r s l = Done (0, s, l')) ->
  answered k A wm m h r l.
Proof.
  intros Hready Hm Hn Ho Ha Er.
  destruct (window_create_full e fuel title x y width height wm cm m h l Hready) as (l' & E & Hp).
  { destruct (models_number _ _ _ _ _ _ Hm). unfold MAX_WINDOWS in *. lia. }
  exists 0, wm, m, h, bl, l'. split; [by apply Er|].
  split; [done|]. unfold promised. rewrite Ho, Ha.
  rewrite decide_True by done. split; [done|by apply models_weaken].
Qed.

Lemma create_answered k bl A wm m h title text x y width height l :
  always_ready tx_empty fuel (COM1_PORT + 5) -> models (S k) bl A wm m h -> back_buffer <= base ->
  legal m0 A (Create title text x y width height) -> answered k A wm m h (Create title text x y width height) l.
Proof.
  intros Hready Hm Hb (Ht & Hx & Hw). destruct (decide (length (sc_order A) = 16%nat)) as [Hn|Hn].
  - by eapply (full_answered k bl A wm m h (Create title text x y width height) _ l title x y width height).
  - destruct (models_create _ _ _ _ _ _ title text x y width height l Hm Hb Hn Ht Hx Hw)
      as (w & s & wm' & m' & h' & bl' & E & Hw0 & Hno & _ & _ & Hm').
    exists w, wm', m', h', bl', l. split; [exact E|]. split; [done|]. unfold promised. cbn [opens].
    rewrite decide_False by done. split; [done|]. cbn [after opens from_option]. by rewrite decide_False.
Qed.

(** *** Windows with a banner *)

Context (Hpl : placed).

(** Giving a plain window its paint function. *)
Lemma stands_paint bl m w f fn k :
  stands base bl m w f -> fc_kind f = Plain -> k = FileBrowser \/ k = TextEditor ->
  fn ∈ functions -> paint_of k = function fn ->
  stands base bl (set_w_on_paint w (function fn) m) w (filled k f).
Proof.
  intros [[Ht Hl Hx Hy Hwd Hh Hf Hc Hp Hk1 Hk2] Hlive Hnd] Hkf Hk Hfn Epk.
  set (m' := set_w_on_paint w (function fn) m). pose proof (store_le_changes 8 m (w + 56) (function fn)) as Hch.
  assert (forall n a, a + Z.of_nat n <= w + 56 \/ w + 64 <= a -> load_le n m' a = load_le n m a) as E.
  { intros n a Ha. eapply load_le_changes; [exact Hch|lia]. }
  assert (area m' w (filled k f) = area m w f) as Ha by (unfold area; rewrite Hkf; by destruct Hk as [-> | ->]).
  split; rewrite ?Ha; [|done..]. rewrite Hkf in Hc, Hk2. cbn in Hc, Hk2.
  split; cbn [filled fc_title fc_x fc_y fc_width fc_height fc_kind]; try done.
  all: try (unfold w_x, w_y, w_width, w_height, w_flags, w_on_click in *; rewrite E by lia; done).
  - eapply cstr_changes; [exact Hch| |done]. lia.
  - assert (w_content m' w = 0) as -> by (rewrite <- Hc; unfold w_content; apply E; lia). by destruct Hk as [-> | ->].
  - unfold m', w_on_paint, set_w_on_paint. rewrite load_le_store_le_eq, Epk. exact (function_u64 Hpl fn Hfn).
  - assert (w_on_key m' w = 0) as -> by (rewrite <- Hk2; unfold w_on_key; apply E; lia). by destruct Hk as [-> | ->].
Qed.

(** The functions that open a plain window and set its paint function. *)
Definition open_with (title : Z) (x y width height paint : Z) : M (desk Env) Z :=
  window ← window_create fuel title x y width height;
  if window =? 0 then mret 0
  else
    modify (set_w_on_paint window paint);;
    mret window.

Lemma banner_answered kd bl A wm m h r k (s : string) x y width height fn l :
  always_ready tx_empty fuel (COM1_PORT + 5) -> models (S kd) bl A wm m h -> back_buffer <= base ->
  serve fuel r = open_with (literal s) x y width height (function fn) ->
  opens r = Some (filled k (plain (bytes_of s) x y width height)) ->
  (forall v, after A r v = if decide (v = 0) then A else opened v (filled k (plain (bytes_of s) x y width height)) A) ->
  k = FileBrowser \/ k = TextEditor -> fn ∈ functions -> paint_of k = function fn ->
  constant m0 (literal s) (bytes_of s) -> coordinates x y -> coordinates width height -> answered kd A wm m h r l.
Proof.
  intros Hready Hm Hb Er Ho Ha Hk Hfn Epk Ht Hx Hw. destruct (decide (length (sc_order A) = 16%nat)) as [Hn|Hn].
  - apply (full_answered kd bl A wm m h r _ l (literal s) x y width height Hready Hm Hn Ho); [by rewrite Ha|].
    intros s0 l' E. rewrite Er. unfold open_with. by rewrite (M_bind_done _ _ _ _ _ _ _ E).
  - destruct (models_create _ _ _ _ _ _ (literal s) (bytes_of s) x y width height l Hm Hb Hn Ht Hx Hw)
      as (w & sz & wm' & m' & h' & bl' & E & Hw0 & Hno & Hl & Hsz & Hm'). unfold sizeof_Window in Hsz.
    set (f := plain (bytes_of s) x y width height) in *.
    assert (sc_face (opened w f A) !! w = Some f) as Hf by apply lookup_insert_eq.
    pose proof (ce_stands _ _ _ _ _ _ (mo_cells _ _ _ _ _ _ Hm') w f Hf) as Hst.
    exists w, wm', (set_w_on_paint w (function fn) m'), h', bl', l. split; [|split; [done|split]].
    + rewrite Er. unfold open_with. rewrite (M_bind_done _ _ _ _ _ _ _ E). by rewrite (proj2 (Z.eqb_neq w 0)).
    + unfold promised. rewrite Ho. by rewrite decide_False.
    + rewrite Ha, decide_False by done.
      replace (opened w (filled k f) A) with
        (MkScreen (sc_order (opened w f A)) (<[w := filled k f]> (sc_face (opened w f A))) (sc_focus (opened w f A)) (sc_drag (opened w f A)))
        by (unfold opened; cbn; by rewrite insert_insert_eq).
      apply (models_write kd bl' _ wm' m' _ h' w f (filled k f) w sz Hm' Hf); [rewrite Hl; by left|by left| |done| |].
      * eapply changes_weaken; [apply (store_le_changes 8)|lia|lia].
      * by apply stands_paint.
      * unfold area. by destruct Hk as [-> | ->].
Qed.

Lemma browser_answered k bl A wm m h l :
  always_ready tx_empty fuel (COM1_PORT + 5) -> models (S k) bl A wm m h -> back_buffer <= base ->
  legal m0 A OpenBrowser -> answered k A wm m h OpenBrowser l.
Proof.
  intros Hready Hm Hb Ht.
  by apply (banner_answered k bl A wm m h OpenBrowser FileBrowser "File Browser" 150 150 500 400 "file_browser_paint" l);
    try done; [by left|listed].
Qed.

Lemma editor_answered k bl A wm m h l :
  always_ready tx_empty fuel (COM1_PORT + 5) -> models (S k) bl A wm m h -> back_buffer <= base ->
  legal m0 A OpenEditor -> answered k A wm m h OpenEditor l.
Proof.
  intros Hready Hm Hb Ht.
  by apply (banner_answered k bl A wm m h OpenEditor TextEditor "Text Editor" 200 200 600 450 "text_editor_paint" l);
    try done; [by right|listed].
Qed.

(** *** The terminal *)

Definition terminal_face : face :=
  Face (bytes_of "Terminal") 100 100 400 300 true false false (Terminal []).

(** A plain window with the title and a fresh buffer becomes a terminal. *)
Lemma stands_terminal bl bl' m1 m2 t b st sb :
  (forall a, t <= a < t + st -> load m2 a = load m1 a) ->
  stands base bl m1 t (plain (bytes_of "Terminal") 100 100 400 300) ->
  (t, st) ∈ live base bl' -> (b, sb) ∈ live base bl' -> sizeof_Window <= st -> sizeof_TerminalBuffer <= sb ->
  t <> b -> t + st <= b \/ b + sb <= t -> 0 <= b < 2 ^ 64 ->
  stands base bl' (terminal_stores t b m2) t terminal_face /\
  area (terminal_stores t b m2) t terminal_face = [(t, sizeof_Window); (b, sizeof_TerminalBuffer)].
Proof.
  intros Hk [[Ht _ Hx Hy Hwd Hh Hf Hc Hp Hk1 Hk2] _ _] Hint Hinb Hst Hsb Hne Hd Hb.
  unfold sizeof_Window in Hst. assert (sizeof_TerminalBuffer = 1028) as Esz by done.
  assert (forall n a, t <= a -> a + Z.of_nat n <= t + 80 -> load_le n m2 a = load_le n m1 a) as E12
    by (intros n a ? ?; apply load_le_ext; intros; apply Hk; lia).
  destruct (terminal_stores_window t b m2 Hb ltac:(lia)) as [Ec Ek _ Etx Ett Ep].
  { transitivity (w_flags m1 t); [unfold w_flags; apply E12; lia|exact Hf]. }
  { eapply cstr_ext; [|exact Ht]. intros a Ha. cbn in Ha. apply Hk. lia. }
  assert (changes b (b + sizeof_TerminalBuffer) m2 (memset m2 b 0 sizeof_TerminalBuffer)) as Hc1 by apply memset_changes.
  assert (forall n a, t <= a -> a + Z.of_nat n <= t + 48 -> load_le n (terminal_stores t b m2) a = load_le n m1 a) as E.
  { intros n a Ha Hn. rewrite (load_le_changes n (memset m2 b 0 sizeof_TerminalBuffer) _ _ _ a (terminal_fields_changes t b m2)) by lia.
    rewrite (load_le_changes n m2 _ _ _ a Hc1) by lia. apply E12; lia. }
  assert (area (terminal_stores t b m2) t terminal_face = [(t, sizeof_Window); (b, sizeof_TerminalBuffer)]) as Ea
    by exact (f_equal (fun c => [(t, sizeof_Window); (c, sizeof_TerminalBuffer)]) Ec).
  split; [|done]. split; rewrite ?Ea.
  - split; cbn [fc_title fc_x fc_y fc_width fc_height fc_kind terminal_face].
    + exact Ett.
    + cbn. lia.
    + unfold w_x. rewrite E by lia. exact Hx.
    + unfold w_y. rewrite E by lia. exact Hy.
    + unfold w_width. rewrite E by lia. exact Hwd.
    + unfold w_height. rewrite E by lia. exact Hh.
    + unfold w_flags. rewrite E by lia. exact Hf.
    + rewrite Ec. split; [exact Etx|constructor].
    + rewrite Ep. exact (function_u64 Hpl "terminal_paint" ltac:(listed)).
    + rewrite <- Hk1. transitivity (w_on_click (memset m2 b 0 sizeof_TerminalBuffer) t).
      * unfold w_on_click, terminal_stores, set_w_on_key, set_w_on_paint, set_w_content. by fields.
      * unfold w_on_click. rewrite (load_le_changes 8 m2 _ _ _ (t + 64) Hc1) by lia. apply E12; lia.
    + rewrite Ek. exact (function_u64 Hpl "terminal_key" ltac:(listed)).
  - apply Forall_cons. split; [exists st; by split|]. apply Forall_cons. split; [exists sb; by split|constructor].
  - cbn. apply NoDup_cons. split; [|apply NoDup_singleton].
    intros Etb%list_elem_of_singleton. exact (Hne Etb).
Qed.

(** The buffer of a new terminal, and the stores behind it. *)
Lemma buffer_run k bl t st (wm : WM) (m : mem) (h : heap) l :
  desk_ok base bl wm m h -> heap_room (S k) fuel bl h -> (t, st) ∈ live base bl -> sizeof_Window <= st ->
  exists b sb m2 h' bl', allocate fuel sizeof_TerminalBuffer (wm, cm, m, h, e) l = Done (b, (wm, cm, m2, h', e), l) /\
    desk_ok base bl' wm (terminal_stores t b m2) h' /\ heap_room k fuel bl' h' /\
    live base bl' ≡ₚ (b, sb) :: live base bl /\ sizeof_TerminalBuffer <= sb /\ t <> b /\
    (t + st <= b \/ b + sb <= t) /\ 0 < b < 2 ^ 64 /\ keeps base bl m m2 /\ b ∉ (live base bl).*1 /\
    (forall p s a, (p, s) ∈ live base bl -> p <> t -> p <= a < p + s -> load (terminal_stores t b m2) a = load m a) /\
    forall a, a < base -> load (terminal_stores t b m2) a = load m a.
Proof.
  intros Hok Hroom Hint1 Hst.
  destruct (allocate_spec e fuel base k bl sizeof_TerminalBuffer wm cm m h l (dk_heap _ _ _ _ _ Hok)
    ltac:(unfold sizeof_TerminalBuffer; lia) Hroom) as (b & m2 & h2 & bl2 & sb & E & Hr2 & Hsb & Hl2 & Hbb & [Hk2 Hk2'] & Hroom2).
  pose proof (desk_ok_alloc base bl bl2 wm m m2 h h2 b sb Hok Hr2 Hl2) as Hok2.
  assert ((t, st) ∈ live base bl2 /\ (b, sb) ∈ live base bl2) as [Hint Hinb] by (rewrite Hl2; split; [by right|by left]).
  assert (forall p s, (p, s) ∈ live base bl -> p <> b) as Hfresh
    by (intros p s; exact (allocated_fresh base bl bl2 m2 h2 b sb p s Hr2 Hl2)).
  pose proof (Hfresh t st Hint1) as Hne. pose proof (live_disjoint_2 _ _ _ _ _ t st b sb (hr_seg Hr2) Hint Hinb Hne) as Hd.
  destruct (live_bounds _ _ _ _ _ _ _ (hr_seg Hr2) Hinb) as [_ Hbt]. destruct (live_bounds _ _ _ _ _ _ _ (hr_seg Hr2) Hint) as [Htb _].
  pose proof (hr_top Hr2). pose proof (hr_base Hr2). unfold HDR in *.
  pose proof (memset_changes m2 b 0 sizeof_TerminalBuffer) as Hc3. assert (sizeof_TerminalBuffer = 1028 /\ sizeof_Window = 80) as [Esz Esw] by done.
  pose proof (terminal_fields_changes t b m2) as Hc4.
  destruct (desk_ok_write base bl2 wm m2 _ h2 b sb Hok2 Hinb (changes_weaken _ _ b (b + sb) _ _ Hc3 ltac:(lia) ltac:(lia))) as [Hok3 Hk3].
  destruct (desk_ok_write base bl2 wm _ _ h2 t st Hok3 Hint (changes_weaken _ _ t (t + st) _ _ Hc4 ltac:(lia) ltac:(lia))) as [Hok4 Hk4].
  exists b, sb, m2, h2, bl2. split_and!; [exact E|exact Hok4|exact Hroom2|exact Hl2|lia|exact Hne|exact Hd|lia|lia|by split| | |].
  - intros ((q & sq) & -> & Hq)%list_elem_of_fmap. by apply (Hfresh q sq Hq).
  - intros p s a Hp Hpt Ha. assert ((p, s) ∈ live base bl2) as Hp2 by (rewrite Hl2; by right).
    rewrite (Hk4 p s) by done. rewrite (Hk3 p s a Hp2); [by apply (Hk2' p s)|by eapply Hfresh|done].
  - intros a Ha. rewrite Hc4, Hc3 by lia. by apply Hk2.
Qed.

Lemma terminal_answered k bl A wm m h l :
  always_ready tx_empty fuel (COM1_PORT + 5) -> models (S (S k)) bl A wm m h -> back_buffer <= base ->
  legal m0 A OpenTerminal -> answered k A wm m h OpenTerminal l.
Proof.
  intros Hready Hm Hb Hc. destruct (decide (length (sc_order A) = 16%nat)) as [Hn|Hn].
  { eapply (full_answered k bl A wm m h OpenTerminal _ l (literal "Terminal") 100 100 400 300);
      [done|by apply models_weaken|done|reflexivity|done|].
    intros s l' E. unfold serve, window_create_terminal. by rewrite (M_bind_done _ _ _ _ _ _ _ E). }
  destruct (models_create _ _ _ _ _ _ (literal "Terminal") (bytes_of "Terminal") 100 100 400 300 l Hm Hb Hn Hc ltac:(done) ltac:(done))
    as (t & st & wm1 & m1 & h1 & bl1 & E1 & Ht0 & Hno & Hl1 & Hst & Hm1).
  set (f := plain (bytes_of "Terminal") 100 100 400 300) in *.
  pose proof Hm1 as [Hok1 Hroom1 Ho1 Hfo1 Hdr1 Hdom1 Hc1 Hfr1].
  assert ((t, st) ∈ live base bl1) as Hint1 by (rewrite Hl1; by left).
  destruct (buffer_run k bl1 t st wm1 m1 h1 l Hok1 Hroom1 Hint1 Hst)
    as (b & sb & m2 & h2 & bl2 & E2 & Hok2 & Hroom2 & Hl2 & Hsb & Hne & Hd & Hb2 & [_ Hk2] & Hfresh & Hk & Hkb).
  assert ((t, st) ∈ live base bl2 /\ (b, sb) ∈ live base bl2) as [Hint Hinb] by (rewrite Hl2; split; [by right|by left]).
  exists t, wm1, (terminal_stores t b m2), h2, bl2, l. split; [|split; [done|split]].
  - unfold serve, window_create_terminal. rewrite (M_bind_done _ _ _ _ _ _ _ E1).
    rewrite (proj2 (Z.eqb_neq t 0)) by done. rewrite (M_bind_done _ _ _ _ _ _ _ E2).
    rewrite (proj2 (Z.eqb_neq b 0)) by lia. rewrite !modify_bind. reflexivity.
  - unfold promised. cbn [opens]. by rewrite decide_False.
  - cbn [after opens from_option]. rewrite decide_False by done. fold terminal_face.
    assert (sc_face (opened t f A) !! t = Some f) as Hf by apply lookup_insert_eq.
    pose proof (ce_stands _ _ _ _ _ _ Hc1 t f Hf) as Hs.
    split; cbn [opened sc_order sc_face sc_focus sc_drag] in *;
      [exact Hok2|exact Hroom2|exact Ho1|exact Hfo1|exact Hdr1|..].
    + intros v. rewrite <- Hdom1. by rewrite !lookup_insert_is_Some'.
    + rewrite <- (insert_insert_eq (sc_face A) t terminal_face f).
      apply (cells_but base bl0 m0 bl1 bl2 (<[t := f]> (sc_face A)) m1 _ t (Some terminal_face)); [done| |].
      * intros p s Hp Hnt. assert (p <> t) as Hpt by (intros ->; apply (Hnt f Hf); by left).
        split; [rewrite Hl2; by right|]. intros a Ha. by apply (Hk p s).
      * intros ? [= <-]. destruct (stands_terminal bl1 bl2 m1 m2 t b st sb (fun a => Hk2 t st a Hint1) Hs Hint Hinb Hst Hsb Hne Hd
          ltac:(lia)) as [Hs' Ea].
        split; [done|]. intros p Hp. rewrite Ea in Hp. cbn in Hp. apply elem_of_cons in Hp as [->|Hp].
        { left. exists f. split; [done|by left]. }
        apply list_elem_of_singleton in Hp as ->. by right.
    + intros a Ha. rewrite <- Hfr1 by done. apply Hkb. lia.
Qed.

(** *** Keys *)

Context (Hpw : PaintsWindows fuel C).

Lemma stands_typed bl m w f t k :
  (exists h, heap_rep h m base bl) -> stands base bl m w f -> fc_kind f = Terminal t -> cchar k ->
  let m' := type_key (w_content m w) k m in
  changes (w_content m w) (w_content m w + sizeof_TerminalBuffer) m m' /\
  stands base bl m' w (typed_into k f) /\ area m' w (typed_into k f) = area m w f.
Proof.
  intros Hr Hst Ek Hk m'. pose proof Hst as [Hs Hl Hnd]. pose proof (sh_content _ _ _ Hs) as Hc. rewrite Ek in Hc. destruct Hc as [Ht Hcc].
  pose proof (type_key_changes m _ k t Ht) as Hch. fold m' in Hch. split; [done|].
  assert (w_content m w <> w) as Hne.
  { unfold area in Hnd. rewrite Ek in Hnd. apply NoDup_cons in Hnd as [Hno _]. intros E. apply Hno.
    change (w ∈ [w_content m w]). rewrite E. by left. }
  assert (w_content m w + sizeof_TerminalBuffer <= w \/ w + sizeof_Window <= w_content m w) as Hd.
  { apply (area_apart bl m w f (w_content m w, sizeof_TerminalBuffer) Hr Hst); [|done].
    unfold area. rewrite Ek. right. by left. }
  assert (forall n a, w <= a -> a + Z.of_nat n <= w + sizeof_Window -> load_le n m' a = load_le n m a) as E.
  { intros n a ? ?. eapply load_le_changes; [exact Hch|]. lia. }
  unfold sizeof_Window in Hd, E.
  assert (w_content m' w = w_content m w) as Ec by (unfold w_content; apply E; lia).
  assert (typed_into k f = filled (Terminal (take 1023 (t ++ [k]))) f) as -> by (unfold typed_into; by rewrite Ek).
  assert (area m' w (filled (Terminal (take 1023 (t ++ [k]))) f) = area m w f) as Ea.
  { unfold area. rewrite Ek. cbn [fc_kind filled]. by rewrite Ec. }
  split; [|done]. split; rewrite ?Ea; [|done..]. destruct Hs as [Htl Hlen Hx Hy Hwd Hh Hf _ Hp Hk1 Hk2].
  split; cbn [filled fc_title fc_x fc_y fc_width fc_height fc_kind]; rewrite ?Ec; try done.
  - eapply cstr_changes; [exact Hch| |done]. lia.
  - rewrite <- Hx. apply E; lia.
  - rewrite <- Hy. apply E; lia.
  - rewrite <- Hwd. apply E; lia.
  - rewrite <- Hh. apply E; lia.
  - change (flags_of _) with (flags_of f). rewrite <- Hf. apply E; lia.
  - split; [apply type_key_ok; [done|unfold cchar in Hk; lia]|]. apply Forall_take, Forall_app. by split; [|constructor].
  - rewrite Ek in Hp. transitivity (w_on_paint m w); [apply E; lia|exact Hp].
  - rewrite <- Hk1. apply E; lia.
  - rewrite Ek in Hk2. transitivity (w_on_key m w); [apply E; lia|exact Hk2].
Qed.

Lemma edit_same A w g f : sc_face A !! w = Some f -> g f = f -> edit w g A = A.
Proof. intros Hw Hg. rewrite (edit_some A w g f Hw), Hg, insert_id by done. by destruct A. Qed.

(** The window with the focus takes no keys. *)
Lemma key_ignored k bl A wm m h key l :
  models (S k) bl A wm m h -> (w_on_key m (sc_focus A) = 0 \/ sc_focus A = 0) ->
  edit (sc_focus A) (typed_into key) A = A -> answered k A wm m h (Key key) l.
Proof.
  intros Hm Hn Ha. apply (answered_idle k bl); [done| |done|done]. unfold serve, window_handle_key.
  rewrite !M_bind_assoc, !gets_bind, !M_bind_assoc, !gets_bind. cbn [get_part has_fst has_snd has_refl fst snd]. unfold id.
  rewrite (mo_focus _ _ _ _ _ _ Hm). destruct Hn as [-> | ->]; [by rewrite andb_false_r|done].
Qed.

Lemma key_answered k bl A wm m h key l :
  models (S k) bl A wm m h -> back_buffer <= base -> cchar key -> answered k A wm m h (Key key) l.
Proof.
  intros Hm Hb Hkey. pose proof (mo_focus _ _ _ _ _ _ Hm) as Hfo. pose proof (mo_desk _ _ _ _ _ _ Hm) as Hok.
  assert (handle A (sc_focus A)) as [Hz|Hw].
  { unfold handle. rewrite <- Hfo, <- (mo_order _ _ _ _ _ _ Hm). apply (dk_wm _ _ _ _ _ Hok). }
  { apply (key_ignored k bl); [done|by right|]. eapply edit_none, models_no_face; [done|]. rewrite Hz. by eapply models_null. }
  destruct (models_face _ _ _ _ _ _ _ Hm Hw) as (f & Hf & Hst & _ & Hw0). set (w := sc_focus A) in *.
  pose proof (sh_key _ _ _ (st_shows _ _ _ _ _ Hst)) as Ekey.
  destruct (fc_kind f) as [|t| |] eqn:Ek.
  2: { destruct (stands_typed bl m w f t key ltac:(by exists h; apply Hok) Hst Ek Hkey) as (Hch & Hst' & Ea).
    pose proof (st_live _ _ _ _ _ Hst) as Hl. unfold area in Hl. rewrite Ek in Hl.
    apply Forall_cons in Hl as [_ [(sb & Hin & Hle) _]%Forall_cons]. cbn [fst snd] in *.
    exists 0, wm, (type_key (w_content m w) key m), h, bl, l. split; [|split; [done|split; [done|]]].
    - unfold serve, window_handle_key.
      rewrite !M_bind_assoc, !gets_bind, !M_bind_assoc, !gets_bind. cbn [get_part has_fst has_snd has_refl fst snd]. unfold id.
      rewrite Hfo, Ekey. cbn [key_of]. rewrite (function_nonnull Hpl) by listed.
      rewrite (proj2 (Z.eqb_neq w 0)) by done. cbn [negb andb]. unfold call_void. rewrite types_terminal.
      unfold terminal_key. rewrite !M_bind_assoc, !gets_bind. cbn [get_part has_fst has_snd has_refl fst snd]. unfold id.
      pose proof (live_bounds _ _ _ _ _ _ _ (hr_seg (dk_heap _ _ _ _ _ Hok)) Hin). pose proof (hr_base (dk_heap _ _ _ _ _ Hok)).
      unfold HDR in *. rewrite (proj2 (Z.eqb_neq (w_content m w) 0)) by lia. reflexivity.
    - cbn [after]. fold w. rewrite (edit_some _ _ _ _ Hf). apply models_weaken.
      eapply models_write; [exact Hm|exact Hf|exact Hin| | |done|exact Hst'|by rewrite Ea].
      + unfold area. rewrite Ek. right. by left.
      + eapply changes_weaken; [exact Hch|lia|lia]. }
  all: apply (key_ignored k bl); [done|by left|]; fold w; apply (edit_same _ _ _ f); [done|]; unfold typed_into; by rewrite Ek.
Qed.

(** *** The mouse *)

Context (Hfuel : 2 ^ 16 <= Z.of_nat fuel).
Context (Hfit : mode_fits cm).
Context (Hbuffer : 0xB0000 <= back_buffer) (Hbase : back_buffer + VGA_MEMORY_SIZE <= base).

Lemma base_behind : back_buffer <= base.
Proof. unfold VGA_MEMORY_SIZE in Hbase. lia. Qed.

(** Drawing leaves the screen as it is. *)
Lemma models_drawn k bl A wm m m' h : models k bl A wm m h -> drawn base m m' -> models k bl A wm m' h.
Proof.
  intros [Hok Hroom Ho Hfo Hdr Hdom Hc Hfr] Hd. split; try done.
  - by eapply desk_ok_drawn.
  - eapply cells_ext; [exact Hc|]. intros p s Hp. split; [done|]. intros a Ha. apply Hd. left.
    pose proof (live_bounds _ _ _ _ _ _ _ (hr_seg (dk_heap _ _ _ _ _ Hok)) Hp). unfold HDR in *. lia.
  - intros a Ha. rewrite <- Hfr by done. apply Hd. by right.
Qed.

Lemma shows_covers m w f x y : shows m w f -> hits m x y w = covers f x y.
Proof.
  intros [_ _ Hx Hy Hw Hh Hf _ _ _ _]. unfold hits, covers, in_window. rewrite Hx, Hy, Hw, Hh, Hf.
  f_equal. unfold flags_of. by destruct (fc_visible f), (fc_minimized f), (fc_maximized f).
Qed.

Lemma topmost_under k bl A wm m h x y : models k bl A wm m h -> topmost m x y (stack wm) = window_under A x y.
Proof.
  intros Hm. rewrite (mo_order _ _ _ _ _ _ Hm). unfold topmost, window_under. f_equal.
  assert (Forall (fun w => hits m x y w = from_option (fun f => covers f x y) false (sc_face A !! w)) (sc_order A)) as Hall.
  { apply Forall_forall. intros w Hw. destruct (models_face _ _ _ _ _ _ _ Hm Hw) as (f & -> & Hst & _).
    apply shows_covers, Hst. }
  induction Hall as [|w ws Hw _ IH]; [done|]. rewrite !filter_cons, IH, Hw. done.
Qed.

(** The button is let go. *)
Lemma handle_mouse_release x y b (wm : WM) (m : mem) (h : heap) l :
  0 <= x < 2 ^ 16 -> 0 <= y < 2 ^ 16 -> dragging_window wm <> 0 -> tst b 0x01 = false ->
  exists m1, changes back_buffer (back_buffer + VGA_MEMORY_SIZE) m m1 /\
    window_handle_mouse fuel x y b (wm, cm, m, h, e) l =
    Done (tt, (set_dragging 0 (drag_offset_x wm) (drag_offset_y wm) wm, cm, m1, h, e), l).
Proof.
  intros Hx Hy Hd Hb.
  destruct (update_cursor_reach back_buffer cm Hfit fuel m x y Hx Hy Hfuel) as (m1 & E & Hc).
  exists m1. split; [done|]. unfold window_handle_mouse.
  rewrite (M_bind_done _ _ _ _ _ _ _ (draw_desk e (fun cm m => vga_update_cursor back_buffer cm fuel m x y) wm cm m m1 h l E)).
  rewrite gets_bind. cbn [get_part has_fst has_snd has_refl fst snd id]. unfold id.
  rewrite (proj2 (Z.eqb_neq _ _) Hd), Hb. reflexivity.
Qed.

(** A mouse event in a window. *)
Lemma models_pointed k bl A wm m h w f x y b l :
  models k bl A wm m h -> w ∈ sc_order A -> sc_face A !! w = Some f ->
  exists wm' m' bl', click_window w x y b (wm, cm, m, h, e) l = Done (tt, (wm', cm, m', h, e), l) /\
    models k bl' (pointed w f x y b A) wm' m' h.
Proof.
  intros Hm Hw Hf. destruct (models_face _ _ _ _ _ _ _ Hm Hw) as (f' & Hf' & Hst & _ & Hw0).
  rewrite Hf in Hf'. injection Hf' as <-. destruct (st_shows _ _ _ _ _ Hst) as [_ _ Ex Ey Ew _ _ _ _ Ec _].
  unfold click_window, pointed. 
  assert (in_title_bar m w y = (y <? fc_y f + 20)) as E1 by (unfold in_title_bar; by rewrite Ey).
  assert (in_close_button m w x y = on_close_button f x y) as E2 by (unfold in_close_button, on_close_button; by rewrite Ex, Ey, Ew).
  rewrite gets_bind. cbn [get_part has_fst has_snd has_refl fst snd]. unfold id. rewrite E1, E2, Ex, Ey, Ec.
  destruct (y <? fc_y f + 20); [|by exists wm, m, bl]. cbv zeta.
  set (A1 := if tst b 1 then _ else A).
  assert (exists wm1, (if tst b 1 then modify (set_dragging w (x - fc_x f) (y - fc_y f));; window_bring_to_front w else mret tt)
      (wm, cm, m, h, e) l = Done (tt, (wm1, cm, m, h, e), l) /\ models k bl A1 wm1 m h /\ w ∈ sc_order A1)
    as (wm1 & R1 & Hm1 & Hw1).
  { unfold A1. destruct (tst b 1); [|by exists wm]. 
    exists (bring_to_front w (set_dragging w (x - fc_x f) (y - fc_y f) wm)). split; [done|]. split.
    - apply models_raise; [by apply models_hold|done].
    - unfold raised. rewrite decide_True by done. cbn. set_solver. }
  rewrite (M_bind_done _ _ _ _ _ _ _ R1). destruct (on_close_button f x y); [|by exists wm1, m, bl].
  destruct (models_close _ _ _ _ _ _ w l Hm1 base_behind Hw1) as (wm' & bl' & E & Hm').
  by exists wm', (free_window m w), bl'.
Qed.

Lemma mouse_answered k bl A wm m h x y b l :
  models (S k) bl A wm m h -> legal m0 A (Mouse x y b) -> answered k A wm m h (Mouse x y b) l.
Proof.
  intros Hm [[Hx Hy] Hdrag]. pose proof (mo_desk _ _ _ _ _ _ Hm) as Hok. pose proof (mo_drag _ _ _ _ _ _ Hm) as Hd.
  assert (forall wm' m' h' bl' A', window_handle_mouse fuel x y b (wm, cm, m, h, e) l = Done (tt, (wm', cm, m', h', e), l) ->
    moused x y b A = A' -> models (S k) bl' A' wm' m' h' -> answered k A wm m h (Mouse x y b) l) as done_with.
  { intros wm' m' h' bl' A' E Ea Hm'. exists 0, wm', m', h', bl', l.
    split; [unfold serve; by rewrite (M_bind_done _ _ _ _ _ _ _ E)|]. split; [done|]. split; [done|].
    apply models_weaken. cbn [after]. by rewrite Ea. }
  unfold moused in done_with. rewrite <- Hd in done_with. unfold drag_of in Hd, done_with. rewrite <- Hd in Hdrag. cbn [fst] in Hdrag.
  destruct (decide (dragging_window wm = 0)) as [Hz|Hz].
  - destruct (handle_mouse_run e fuel base bl x y b wm cm m h l Hok Hfit Hbase Hfuel Hx Hy Hz)
      as (m1 & Hch & _ & E). rewrite (topmost_under _ _ _ _ _ _ _ _ Hm) in E.
    assert (drawn base m m1) as Hdm by (by eapply drawn_back).
    pose proof (models_drawn _ _ _ _ _ _ _ Hm Hdm) as Hm1. destruct (window_under A x y) as [w|] eqn:Eu; [|by eapply done_with].
    assert (w ∈ sc_order A) as Hw by (apply last_Some_elem_of, list_elem_of_filter in Eu; apply Eu).
    destruct (models_face _ _ _ _ _ _ _ Hm1 Hw) as (f & Hf & _).
    destruct (models_pointed _ _ _ _ _ _ _ _ x y b l Hm1 Hw Hf) as (wm' & m' & bl' & Ec & Hm').
    eapply done_with; [by rewrite E|by rewrite Hf|done].
  - destruct (tst b 1) eqn:Eb.
    + destruct (handle_mouse_drag e fuel x y b wm cm m h l Hfit Hfuel Hx Hy Hz Eb) as (m1 & Hch & E).
      assert (drawn base m m1) as Hdm by (by eapply drawn_back).
      pose proof (models_drawn _ _ _ _ _ _ _ Hm Hdm) as Hm1. set (w := dragging_window wm) in *.
      destruct (Hdrag eq_refl) as [?|Hw]; [done|]. eapply done_with; [exact E|reflexivity|].
      apply (models_edit _ _ _ _ m1); [done|apply base_behind|done| |].
      * unfold set_w_x, set_w_y. stores.
      * intros f Hs. split; [done|]. split; [done|].
        pose proof (looks_moved m1 w f (u16 (x - drag_offset_x wm)) (u16 (y - drag_offset_y wm)) Hs) as Hl.
        by rewrite (u16_id (u16 (x - _))), (u16_id (u16 (y - _))) in Hl by apply u16_range.
    + destruct (handle_mouse_release x y b wm m h l Hx Hy Hz Eb) as (m1 & Hch & E).
      assert (drawn base m m1) as Hdm by (by eapply drawn_back).
      eapply done_with; [exact E|reflexivity|]. apply models_hold. by eapply models_drawn.
Qed.

(** *** Painting *)

Lemma window_painted k bl A wm m h w :
  models k bl A wm m h -> w ∈ sc_order A -> draws e base cm (paint_window fuel w) wm m h.
Proof.
  intros Hm Hw. destruct (models_face _ _ _ _ _ _ _ Hm Hw) as (f & Hf & Hst & Hwb & Hw0).
  pose proof (st_shows _ _ _ _ _ Hst) as Hs. pose proof (sh_length _ _ _ Hs).
  eapply paint_window_draws; [done..|exact Hwb|apply Hs|lia|]. intros m1 Hd Hp.
  pose proof (models_drawn _ _ _ _ _ _ _ Hm Hd) as Hm1.
  pose proof (ce_stands _ _ _ _ _ _ (mo_cells _ _ _ _ _ _ Hm1) w f Hf) as Hst1.
  destruct Hst1 as [[_ _ _ _ _ _ _ Hc Ep _ _] Hl _]. rewrite Ep in *. unfold area in Hl.
  destruct (fc_kind f) as [|t| |]; [done|..]; cbn [paint_of] in *.
  - eapply draws_call; [apply paints_terminal|]. destruct Hc as [Ht Hcc].
    apply Forall_cons in Hl as [_ [(sb & Hin & _) _]%Forall_cons].
    pose proof (live_bounds _ _ _ _ _ _ _ (hr_seg (dk_heap _ _ _ _ _ (mo_desk _ _ _ _ _ _ Hm1))) Hin) as [Hb _].
    eapply terminal_paint_draws; [done..|cbn [fst] in Hb; unfold HDR in Hb; lia|exact Ht|done].
  - eapply draws_call; [apply paints_browser|]. eapply banner_draws; [done..|cbn; lia|done].
  - eapply draws_call; [apply paints_editor|]. eapply banner_draws; [done..|cbn; lia|done].
Qed.

Lemma repaint_answered k bl A wm m h l :
  models (S k) bl A wm m h -> answered k A wm m h Repaint l.
Proof.
  intros Hm. assert (draws e base cm (window_update fuel) wm m h) as Hd; [|].
  { apply window_update_paints; [done..|]. intros m1 Hd1. pose proof (models_drawn _ _ _ _ _ _ _ Hm Hd1) as Hm1.
    apply paint_list_draws; [done..|apply Hm1|]. intros w m2 Hw Hd2. rewrite (mo_order _ _ _ _ _ _ Hm1) in Hw.
    eapply window_painted; [by eapply models_drawn|done]. }
  destruct (Hd l) as (m' & E & Hd'). exists 0, wm, m', h, bl, l.
  split; [unfold serve; by rewrite (M_bind_done _ _ _ _ _ _ _ E)|]. split; [done|]. split; [done|].
  apply models_weaken. by eapply models_drawn.
Qed.

(** ** Sessions *)

Context (Hready : always_ready tx_empty fuel (COM1_PORT + 5)).

Lemma legal_answered k bl A wm m h r l :
  models (S (S k)) bl A wm m h -> legal m0 A r -> answered k A wm m h r l.
Proof.
  intros Hm2 Hlg. pose proof (models_weaken _ _ _ _ _ _ Hm2) as Hm. pose proof base_behind as Hb.
  destruct r; cbn in Hlg.
  - by eapply create_answered.
  - by eapply terminal_answered.
  - by eapply browser_answered.
  - by eapply editor_answered.
  - by eapply destroy_answered.
  - by eapply show_answered.
  - by eapply hide_answered.
  - by eapply move_answered.
  - by eapply resize_answered.
  - by eapply minimize_answered.
  - by eapply maximize_answered.
  - by eapply restore_answered.
  - by eapply mouse_answered.
  - by eapply key_answered.
  - by eapply repaint_answered.
Qed.

(** A desk without windows is a blank screen. *)
Lemma models_blank k wm h :
  desk_ok base bl0 wm m0 h -> stack wm = [] -> heap_room k fuel bl0 h -> models k bl0 (blank (drag_of wm)) wm m0 h.
Proof.
  intros Hok Hst Hroom. split; cbn [blank sc_order sc_face sc_focus sc_drag]; try done.
  - pose proof (wm_active _ (dk_wm _ _ _ _ _ Hok)) as [?|Ha]; [done|]. rewrite Hst in Ha. by apply elem_of_nil in Ha.
  - intros w. rewrite lookup_empty. split; [by intros []|by intros ?%elem_of_nil].
Qed.

Lemma session_on_screen N n bl A0 wm0 m1 h0 s l A :
  models (2 * N) bl A0 wm0 m1 h0 -> session fuel m0 (wm0, cm, m1, h0, e) A0 n s l A -> (n <= N)%nat ->
  exists wm m h bl, s = (wm, cm, m, h, e) /\ models (2 * (N - n)) bl A wm m h.
Proof.
  intros Hm0 Hs. induction Hs as [l|n s l A r v s' l' Hs IH Hlg E]; intros Hn.
  - exists wm0, m1, h0, bl. by rewrite Nat.sub_0_r.
  - destruct IH as (wm & m & h & bl1 & -> & Hm); [lia|].
    replace (2 * (N - n))%nat with (S (S (2 * (N - S n))))%nat in Hm by lia.
    destruct (legal_answered _ _ _ _ _ _ r l Hm Hlg) as (v' & wm' & m' & h' & bl' & l'' & E' & _ & _ & Hm').
    rewrite E in E'. injection E' as -> -> ->. by exists wm', m', h', bl'.
Qed.

(** What the users of a screen may rely on at [s]. *)
Definition serves (A : screen) (s : desk Env) (l : log) : Prop :=
  displays A s /\
  forall r, legal m0 A r -> exists v s' l', serve fuel r s l = Done (v, s', l') /\ prints l l' /\
    promised A r v /\ displays (after A r v) s' /\
    forall p sz a, (p, sz) ∈ live base bl0 -> p <= a < p + sz -> load s'.1.1.2 a = load m0 a.

Lemma screen_serves N n bl A0 wm0 m1 h0 s l A :
  models (2 * N) bl A0 wm0 m1 h0 -> session fuel m0 (wm0, cm, m1, h0, e) A0 n s l A -> (n < N)%nat -> serves A s l.
Proof.
  intros Hm0 Hs Hn. destruct (session_on_screen N n bl A0 wm0 m1 h0 s l A Hm0 Hs ltac:(lia)) as (wm & m & h & bl1 & -> & Hm).
  split; [by eapply models_displays|]. intros r Hlg.
  replace (2 * (N - n))%nat with (S (S (2 * (N - S n))))%nat in Hm by lia.
  destruct (legal_answered _ _ _ _ _ _ r l Hm Hlg) as (v & wm' & m' & h' & bl' & l' & E & Hp & Hpr & Hm').
  exists v, (wm', cm, m', h', e), l'. split; [exact E|]. split; [exact Hp|]. split; [exact Hpr|].
  split; [by eapply models_displays|]. intros p sz a Hin Ha.
  by apply (ce_guests _ _ _ _ _ _ (mo_cells _ _ _ _ _ _ Hm') p sz Hin).
Qed.

(** *** The desktop of the start *)

(** The two windows of [open_windows]. *)
Definition desktop_screen (t f : Z) (A : screen) : screen :=
  let A := after (after (after A OpenTerminal t) (Show t) 0) (Move t 50 50) 0 in
  after (after (after A OpenBrowser f) (Show f) 0) (Move f 200 100) 0.

(** A call whose result is not used. *)
Lemma answered_void k A wm m h r x l :
  serve fuel r = (x;; mret 0) -> opens r = None -> answered k A wm m h r l ->
  exists wm' m' h' bl' l', x (wm, cm, m, h, e) l = Done (tt, (wm', cm, m', h', e), l') /\ prints l l' /\
    models k bl' (after A r 0) wm' m' h'.
Proof.
  intros Er Ho (v & wm' & m' & h' & bl' & l' & E & Hp & Hpr & Hm). unfold promised in Hpr. rewrite Ho in Hpr. subst v.
  rewrite Er in E. apply M_bind_inv in E as ([] & s1 & l1 & Ex & Eq). injection Eq as -> ->.
  by exists wm', m', h', bl', l'.
Qed.

(** A window is shown and moved. *)
Lemma show_move_screen k bl A wm m h w x y l :
  models (2 + k) bl A wm m h -> w ∈ sc_order A ->
  exists wm' m' h' bl' l', (window_show w;; window_move w x y) (wm, cm, m, h, e) l = Done (tt, (wm', cm, m', h', e), l') /\
    prints l l' /\ models k bl' (after (after A (Show w) 0) (Move w x y) 0) wm' m' h'.
Proof.
  intros Hm Hw. pose proof base_behind as Hb. assert (w ∈ sc_order (after A (Show w) 0)) as Hw'.
  { cbn [after]. unfold raised. cbn [edit sc_order]. rewrite decide_True by exact Hw. cbn [sc_order]. set_solver. }
  destruct (answered_void _ _ _ _ _ (Show w) (window_show w) l eq_refl eq_refl (show_answered _ _ _ _ _ _ w l Hm Hb (or_intror Hw)))
    as (wm1 & m1 & h1 & bl1 & l1 & E1 & P1 & Hm1).
  destruct (answered_void _ _ _ _ _ (Move w x y) (window_move w x y) l1 eq_refl eq_refl
    (move_answered _ _ _ _ _ _ w x y l1 Hm1 Hb (or_intror Hw'))) as (wm2 & m2 & h2 & bl2 & l2 & E2 & P2 & Hm2).
  exists wm2, m2, h2, bl2, l2. split; [by rewrite (M_bind_done _ _ _ _ _ _ _ E1)|]. split; [by rewrite P1|done].
Qed.

(** What an answer to a request to open a window says, with room for it. *)
Lemma promised_opens A r f v :
  opens r = Some f -> length (sc_order A) <> 16%nat -> promised A r v -> v <> 0 /\ v ∉ sc_order A.
Proof. unfold promised. intros -> Hn. by rewrite decide_False. Qed.

(** The windows on the screen after an [open]. *)
Lemma after_opens A r f v :
  opens r = Some f -> v <> 0 -> sc_order (after A r v) = sc_order A ++ [v].
Proof. destruct r; try done; intros [= <-] Hv; cbn [after opens from_option]; by rewrite decide_False. Qed.

Lemma after_show_move A w x y :
  w ∈ sc_order A -> sc_order (after (after A (Show w) 0) (Move w x y) 0) = remove_first w (sc_order A) ++ [w].
Proof. intros Hw. cbn [after edit sc_order]. unfold raised. cbn [edit sc_order]. by rewrite decide_True. Qed.

Lemma open_windows_screen k bl A wm m h l :
  models (7 + k) bl A wm m h -> sc_order A = [] ->
  constant m0 (literal "Terminal") (bytes_of "Terminal") -> constant m0 (literal "File Browser") (bytes_of "File Browser") ->
  exists t f wm' m' h' bl' l', open_windows fuel (wm, cm, m, h, e) l = Done (tt, (wm', cm, m', h', e), l') /\
    prints l l' /\ t <> 0 /\ f <> 0 /\ f <> t /\ models k bl' (desktop_screen t f A) wm' m' h'.
Proof.
  intros Hm Ho Ht Hf. pose proof base_behind as Hb.
  destruct (terminal_answered (5 + k) bl A wm m h l Hready Hm Hb Ht) as (t & wm1 & m1 & h1 & bl1 & l1 & E1 & P1 & Hpt & Hm1).
  destruct (promised_opens A OpenTerminal _ t eq_refl ltac:(by rewrite Ho) Hpt) as [Ht0 _].
  pose proof (after_opens A OpenTerminal _ t eq_refl Ht0) as Ho1. rewrite Ho in Ho1.
  destruct (show_move_screen (3 + k) bl1 _ wm1 m1 h1 t 50 50 l1 Hm1 ltac:(rewrite Ho1; by left))
    as (wm2 & m2 & h2 & bl2 & l2 & E2 & P2 & Hm2).
  assert (sc_order (after (after (after A OpenTerminal t) (Show t) 0) (Move t 50 50) 0) = [t]) as Ho2.
  { rewrite after_show_move by (rewrite Ho1; by left). rewrite Ho1. cbn [app remove_first]. by rewrite decide_True. }
  set (A2 := after _ (Move t 50 50) 0) in *.
  destruct (browser_answered (2 + k) bl2 A2 wm2 m2 h2 l2 Hready Hm2 Hb Hf) as (f & wm3 & m3 & h3 & bl3 & l3 & E3 & P3 & Hpf & Hm3).
  destruct (promised_opens A2 OpenBrowser _ f eq_refl ltac:(by rewrite Ho2) Hpf) as [Hf0 Hft].
  pose proof (after_opens A2 OpenBrowser _ f eq_refl Hf0) as Ho3.
  destruct (show_move_screen k bl3 _ wm3 m3 h3 f 200 100 l3 Hm3 ltac:(rewrite Ho3; set_solver))
    as (wm4 & m4 & h4 & bl4 & l4 & E4 & P4 & Hm4).
  exists t, f, wm4, m4, h4, bl4, l4. split; [|split; [|split; [exact Ht0|split; [exact Hf0|split; [|exact Hm4]]]]].
  - unfold open_windows. cbn [serve] in E1, E3. rewrite (M_bind_done _ _ _ _ _ _ _ E1), (proj2 (Z.eqb_neq t 0)) by done.
    rewrite (M_bind_done _ _ _ _ _ _ _ E2), (M_bind_done _ _ _ _ _ _ _ E3), (proj2 (Z.eqb_neq f 0)) by done. exact E4.
  - by rewrite P1, P2, P3, P4.
  - intros ->. apply Hft. rewrite Ho2. by left.
Qed.

End models.

(** The screen of the start: the browser over the terminal. *)
Definition start_screen (t f : Z) (drag : Z * Z * Z) : screen :=
  MkScreen [t; f]
    (<[f := Face (bytes_of "File Browser") 200 100 500 400 true false false FileBrowser]>
      (<[t := Face (bytes_of "Terminal") 50 50 400 300 true false false (Terminal [])]> ∅)) f drag.

Lemma desktop_screen_blank t f d :
  t <> 0 -> f <> 0 -> t <> f -> desktop_screen t f (blank d) = start_screen t f d.
Proof.
  intros Ht Hf Hne. unfold desktop_screen.
  set (tf := Face (bytes_of "Terminal") 50 50 400 300 true false false (Terminal [])).
  assert (after (after (after (blank d) OpenTerminal t) (Show t) 0) (Move t 50 50) 0 = MkScreen [t] (<[t := tf]> ∅) t d) as ->.
  { cbn. rewrite decide_False by done. unfold opened, raised, edit. cbn. rewrite decide_True by (by left). cbn.
    rewrite decide_True by done. cbn. by rewrite !alter_insert_eq. }
  cbn. rewrite decide_False by done. unfold opened, raised, edit. cbn. rewrite decide_True by set_solver. cbn.
  rewrite decide_False, decide_True by done. cbn. by rewrite !alter_insert_eq.
Qed.

(** ** Properties *)

(** C6. In a graphics mode whose pixels fit the back buffer, over any sequence
    of fewer than [N] legal requests from a desk without windows (windows
    created, opened as terminals, file browsers or editors, destroyed, shown,
    hidden, moved, marked; mouse events and keys; repaints) the state in memory
    displays the abstract screen, and the next legal request returns, answers
    what the specification promises, leaves the state displaying the screen
    after it, and has changed no byte of an allocation that was there before
    the session. The heap needs room for two allocations per request. (The
    modes 80x25 and 320x200 of [vga_set_mode] fit; the 640x480 mode that
    [window_init_gui] selects does not: see [window_init_gui_overruns].) *)
Theorem screen_refines {Env} (e : Env) `{Linker} `{Hw} `{C : Code (desk Env)} fuel base bl0 N n
    (wm0 : WM) (cm : VGAMode) (m0 : mem) (h0 : heap) s l A :
  always_ready tx_empty fuel (COM1_PORT + 5) -> 2 ^ 16 <= Z.of_nat fuel -> mode_fits cm ->
  0xB0000 <= back_buffer -> back_buffer + VGA_MEMORY_SIZE <= base ->
  placed -> PaintsWindows fuel C ->
  desk_ok base bl0 wm0 m0 h0 -> stack wm0 = [] -> heap_room (2 * N) fuel bl0 h0 ->
  session fuel m0 (wm0, cm, m0, h0, e) (blank (drag_of wm0)) n s l A -> (n < N)%nat ->
  displays A s /\
  forall r, legal m0 A r -> exists v s' l', serve fuel r s l = Done (v, s', l') /\ prints l l' /\
    promised A r v /\ displays (after A r v) s' /\
    forall p sz a, (p, sz) ∈ live base bl0 -> p <= a < p + sz -> load s'.1.1.2 a = load m0 a.
Proof.
  intros Hready Hf Hfit Hbb Hbase Hpl Hpw Hok Hst Hroom Hs Hn.
  apply (screen_serves e fuel base bl0 m0 cm Hpl Hpw Hf Hfit Hbb Hbase Hready N n bl0 (blank (drag_of wm0)) wm0 m0 h0); [|done..].
  by apply models_blank.
Qed.


(** ** A concrete run *)

#[local] Existing Instance w_hw.
#[local] Existing Instance w_functions.
#[local] Instance w_window_code : Code (desk unit) := window_code w_fuel.

Lemma w_blank_desk : desk_ok 0x400000 [] wm_initial w_rodata w_h0.
Proof. exact w_desk_ok. Qed.

Lemma w_constant_terminal : constant w_rodata 0x100000 (bytes_of "Terminal").
Proof. split; [|split; [done|by vm_compute]]. by apply w_literal. Qed.

(** A terminal is opened, and an h typed into it. *)
Lemma screen_refines_witness :
  exists t (s' : desk unit) l1 s1 l', serve w_fuel OpenTerminal (wm_initial, w_mode, w_rodata, w_h0, tt) [] = Done (t, s1, l1) /\
    serve w_fuel (Key 104) s1 l1 = Done (0, s', l') /\
    stack s'.1.1.1.1 = [t] /\ terminal_ok s'.1.1.2 (w_content s'.1.1.2 t) [104].
Proof.
  assert (heap_room (2 * 2) w_fuel [] w_h0) as Hroom by (split; [reflexivity|unfold w_fuel; cbn [length]; lia]).
  assert (always_ready tx_empty w_fuel (COM1_PORT + 5)) as Hready by (intros l0; exists 0%nat; split; [unfold w_fuel; lia|reflexivity]).
  assert (0xB0000 <= back_buffer) as Hbb by (vm_compute; discriminate).
  assert (back_buffer + VGA_MEMORY_SIZE <= 0x400000) as Hbase by (vm_compute; discriminate).
  pose proof (window_code_paints (Env := unit) w_fuel w_placed) as Hpw.
  destruct (screen_refines tt w_fuel 0x400000 [] 2 0 wm_initial w_mode w_rodata w_h0 (wm_initial, w_mode, w_rodata, w_h0, tt) []
    (blank (0, 0, 0)) Hready w_fuel_enough w_mode_fits Hbb Hbase w_placed Hpw
    w_blank_desk eq_refl Hroom (session_start _ _ _ _ _) ltac:(lia)) as [_ Hr].
  destruct (Hr OpenTerminal w_constant_terminal) as (t & s1 & l1 & E1 & _ & Ht & _). clear Hr.
  destruct Ht as [Ht _].
  assert (session w_fuel w_rodata (wm_initial, w_mode, w_rodata, w_h0, tt) (blank (0, 0, 0)) 1 s1 l1 (after (blank (0, 0, 0)) OpenTerminal t)) as Hs
    by exact (session_call w_fuel w_rodata _ _ 0 _ _ _ OpenTerminal _ _ _ (session_start _ _ _ _ []) w_constant_terminal E1).
  assert (cchar 104) as Hk by (unfold cchar; lia).
  destruct (screen_refines tt w_fuel 0x400000 [] 2 1 wm_initial w_mode w_rodata w_h0 s1 l1 (after (blank (0, 0, 0)) OpenTerminal t)
    Hready w_fuel_enough w_mode_fits Hbb Hbase w_placed Hpw w_blank_desk eq_refl Hroom Hs Nat.lt_1_2) as [_ Hr].
  destruct (Hr (Key 104) Hk) as (v & s' & l' & E2 & _ & Hv & [Ho _ _ _ Hf] & _). clear Hr.
  cbn [promised opens] in Hv. subst v. exists t, s', l1, s1, l'. split; [exact E1|]. split; [exact E2|].
  cbn [after opens from_option] in Ho, Hf. rewrite decide_False in Ho, Hf by done. split; [exact Ho|].
  unfold edit, opened in Hf. cbn [sc_face sc_focus] in Hf.
  destruct (Hf t _ (eq_trans (lookup_alter_eq _ _ _) (f_equal _ (lookup_insert_eq _ _ _)))) as [_ _ _ _ _ _ _ [Hc _] _ _ _].
  exact Hc.
Defined.

Lemma start_terminal t f d :
  t <> f -> sc_face (start_screen t f d) !! t = Some (Face (bytes_of "Terminal") 50 50 400 300 true false false (Terminal [])).
Proof. intros Hne. cbn [sc_face start_screen]. by rewrite lookup_insert_ne, lookup_insert_eq. Qed.

(** On the desktop of the start, a press on the terminal's title bar gives it
    the focus, and an h typed then is its text. *)
Lemma start_screen_pressed t f :
  t <> f -> t <> 0 -> f <> 0 ->
  after (start_screen t f (0, 0, 0)) (Mouse 60 60 1) 0 =
  MkScreen [f; t] (sc_face (start_screen t f (0, 0, 0))) t (t, 10, 10).
Proof.
  intros Hne Ht Hf. cbn [after]. unfold moused. cbn [sc_drag start_screen]. rewrite decide_True by done.
  pose proof (start_terminal t f (0, 0, 0) Hne) as Et.
  assert (sc_face (start_screen t f (0, 0, 0)) !! f = Some (Face (bytes_of "File Browser") 200 100 500 400 true false false FileBrowser)) as Ef
    by apply lookup_insert_eq.
  assert (window_under (start_screen t f (0, 0, 0)) 60 60 = Some t) as ->.
  { unfold window_under. change (sc_order _) with [t; f]. rewrite !filter_cons, filter_nil, Et, Ef. reflexivity. }
  rewrite Et. cbn [from_option]. unfold pointed. cbn [fc_y fc_x]. unfold raised, held. cbn [sc_order start_screen].
  rewrite decide_True by (by left). cbn. by rewrite decide_True.
Qed.

