(* ===== verification/Sysinfo.v ===== *)
(** * System information (src/impl/kernel/sysinfo.c)

    What [cpuid] returns for a leaf is the processor's choice, a parameter;
    the date of the build is the compiler's. A [char] array that holds a
    string is the list of its characters. *)
From Stdlib Require Import Ascii.
From S2P Require Export Format Machine Console.

(** ** Definitions *)

Definition CPU_FEATURE_FPU := 1 .<< 0.
Definition CPU_FEATURE_MMX := 1 .<< 1.
Definition CPU_FEATURE_SSE := 1 .<< 2.
Definition CPU_FEATURE_SSE2 := 1 .<< 3.
Definition CPU_FEATURE_SSE3 := 1 .<< 4.
Definition CPU_FEATURE_AVX := 1 .<< 5.
Definition CPU_FEATURE_VMX := 1 .<< 6.

Record BIOSInfo := MkBios { bios_vendor : list Z; bios_version : list Z; release_date : list Z; revision : Z }.

Record CPUInfo := MkCpu {
  vendor : list Z;
  brand : list Z;
  family : Z;
  model : Z;
  stepping : Z;
  max_cpuid : Z;
  max_extended : Z;
  features : Z;
  cache_size : Z;
  cores : Z;
  threads : Z;
  clock_speed : Z;
}.

Record MemoryInfo := MkMemory { total_ram : Z; available_ram : Z; used_ram : Z; memory_regions : Z }.

Record SystemBoardInfo := MkBoard {
  manufacturer : list Z; product : list Z; board_version : list Z; serial : list Z; asset_tag : list Z }.

Record BootConfig := MkBoot {
  framebuffer_addr : Z; framebuffer_pitch : Z; framebuffer_width : Z; framebuffer_height : Z;
  framebuffer_bpp : Z; boot_device : Z; cmdline_addr : Z; modules_count : Z; modules_addr : Z; boot_flags : Z }.

Record SystemInfo := MkSystemInfo {
  os_name : list Z;
  version : list Z;
  build_date : list Z;
  uptime_seconds : Z;
  bios : BIOSInfo;
  cpu : CPUInfo;
  memory : MemoryInfo;
  board : SystemBoardInfo;
  boot : BootConfig;
}.

(** [sys_info], a static, is zero before [sysinfo_init]. *)
Definition sysinfo_zero : SystemInfo :=
  MkSystemInfo [] [] [] 0 (MkBios [] [] [] 0) (MkCpu [] [] 0 0 0 0 0 0 0 0 0 0) (MkMemory 0 0 0 0)
    (MkBoard [] [] [] [] []) (MkBoot 0 0 0 0 0 0 0 0 0 0).

(** The registers eax, ebx, ecx and edx after [cpuid] with [leaf] in eax, and
    eax and edx after [rdmsr] with the number of a register in ecx. *)
Class Cpu := { cpuid_regs : Z -> Z * Z * Z * Z; rdmsr_regs : Z -> Z * Z }.

Definition asm_cpuid `{Cpu} (leaf : Z) : Z * Z * Z * Z :=
  let '(a, b, c, d) := cpuid_regs (u32 leaf) in (u32 a, u32 b, u32 c, u32 d).

Definition asm_rdmsr `{Cpu} (msr : Z) : Z :=
  let '(low, high) := rdmsr_regs (u32 msr) in (u32 high .<< 32) .| u32 low.

Definition cpuid `{Cpu} (leaf : Z) : Z * Z * Z * Z := asm_cpuid leaf.
Definition read_msr `{Cpu} (msr : Z) : Z := asm_rdmsr msr.

(** The bytes of a register stored in a [char] array. *)
Definition reg_bytes (r : Z) : list Z := [u8 r; u8 (r .>> 8); u8 (r .>> 16); u8 (r .>> 24)].

(** The string in an array: its bytes up to the first NUL. *)
Fixpoint until_nul (l : list Z) : list Z :=
  match l with
  | [] => []
  | c :: l => if c =? 0 then [] else c :: until_nul l
  end.

(** [if (reg & (1 << bit)) cpu->features |= flag;] *)
Definition add_feature (reg bit flag fs : Z) : Z := if tst reg (1 .<< bit) then fs .| flag else fs.

(** The fields not assigned keep their values. *)
Definition sysinfo_detect_cpu `{Cpu} (cpu : CPUInfo) : CPUInfo :=
  let '(max, b, c, d) := cpuid 0 in
  let vendor := until_nul (reg_bytes b ++ reg_bytes d ++ reg_bytes c) in
  let brand :=
    if 0x80000004 <=? max then
      until_nul (concat ((fun i =>
        let '(a, b, c, d) := cpuid (0x80000002 + i) in
        reg_bytes a ++ reg_bytes b ++ reg_bytes c ++ reg_bytes d) <$> seqZ 0 3))
    else bytes_of "Unknown" in
  let '(eax, ebx, ecx, edx) := cpuid 1 in
  let features := 0 in
  let features := add_feature edx 0 CPU_FEATURE_FPU features in
  let features := add_feature edx 23 CPU_FEATURE_MMX features in
  let features := add_feature edx 25 CPU_FEATURE_SSE features in
  let features := add_feature edx 26 CPU_FEATURE_SSE2 features in
  let features := add_feature ecx 0 CPU_FEATURE_SSE3 features in
  let features := add_feature ecx 28 CPU_FEATURE_AVX features in
  let features := add_feature ecx 5 CPU_FEATURE_VMX features in
  let family := (eax .>> 8) .& 0xF in
  let model := (eax .>> 4) .& 0xF in
  let stepping := eax .& 0xF in
  let '(eax, ebx, ecx, edx) := cpuid 1 in
  let threads := (ebx .>> 16) .& 0xFF in
  let cores := threads / 2 in
  let '(eax, ebx, ecx, edx) := cpuid 0x80000006 in
  let cache_size := (ecx .>> 16) .& 0xFFFF in
  MkCpu vendor brand family model stepping max (max_extended cpu) features cache_size cores threads 1000.

Definition sysinfo_detect_memory (mem : MemoryInfo) : MemoryInfo :=
  MkMemory (256 * 1024 * 1024) (240 * 1024 * 1024) (16 * 1024 * 1024) 1.

Definition sysinfo_detect_board (board : SystemBoardInfo) : SystemBoardInfo :=
  MkBoard (bytes_of "NansOS Virtual Systems") (bytes_of "NansOS Development Board") (bytes_of "1.0")
    (bytes_of "NANS0001") (bytes_of "NANS-DEV-001").

Definition sysinfo_get_boot_config (c : BootConfig) : BootConfig :=
  MkBoot (framebuffer_addr c) (1024 * 4) 1024 768 32 (boot_device c) (cmdline_addr c) (modules_count c) (modules_addr c) 0.

(** A line that [sprintf] puts together. *)
Definition sprintf_text (fmt : string) (args : list farg) : list Z := default [] (render (line fmt) args).

Section sysinfo.
Context `{Cpu} (DATE : list Z).

Definition sysinfo_detect_bios (b : BIOSInfo) : BIOSInfo :=
  MkBios (bytes_of "NansOS BIOS") (bytes_of "1.0.0") DATE 1.

Definition sysinfo_init_info (s : SystemInfo) : SystemInfo :=
  MkSystemInfo (bytes_of "NansOS") (bytes_of "0.1.0") DATE 0
    (sysinfo_detect_bios (bios s)) (sysinfo_detect_cpu (cpu s)) (sysinfo_detect_memory (memory s))
    (sysinfo_detect_board (board s)) (sysinfo_get_boot_config (boot s)).

(** The texts [sysinfo_print_all] prints, in order. *)
Definition sysinfo_report (s : SystemInfo) : list (list Z) :=
  let mb x := FInt (u32 (x / 1024 / 1024)) in
  [ [10] ++ line "=== System Information ===";
    sprintf_text "OS: %s v%s (Built: %s)" [FStr (os_name s); FStr (version s); FStr (build_date s)];
    [10] ++ line "--- CPU Information ---";
    sprintf_text "Vendor: %s" [FStr (vendor (cpu s))];
    sprintf_text "Brand: %s" [FStr (brand (cpu s))];
    sprintf_text "Family: %d, Model: %d, Stepping: %d" [FInt (family (cpu s)); FInt (model (cpu s)); FInt (stepping (cpu s))];
    sprintf_text "Cores: %d, Threads: %d" [FInt (cores (cpu s)); FInt (threads (cpu s))];
    sprintf_text "Cache: %dKB, Clock: %dMHz" [FInt (cache_size (cpu s)); FInt (clock_speed (cpu s))];
    [10] ++ line "--- Memory Information ---";
    sprintf_text "Total RAM: %dMB" [mb (total_ram (memory s))];
    sprintf_text "Available: %dMB" [mb (available_ram (memory s))];
    sprintf_text "Used: %dMB" [mb (used_ram (memory s))];
    [10] ++ line "--- BIOS Information ---";
    sprintf_text "Vendor: %s" [FStr (bios_vendor (bios s))];
    sprintf_text "Version: %s (%s)" [FStr (bios_version (bios s)); FStr (release_date (bios s))];
    [10] ++ line "--- System Board ---";
    sprintf_text "Manufacturer: %s" [FStr (manufacturer (board s))];
    sprintf_text "Product: %s" [FStr (product (board s))];
    sprintf_text "Version: %s" [FStr (board_version (board s))];
    [10] ++ line "--- Boot Configuration ---";
    sprintf_text "Display: %dx%dx%d" [FInt (framebuffer_width (boot s)); FInt (framebuffer_height (boot s)); FInt (framebuffer_bpp (boot s))];
    [10] ++ line "=========================" ].

Context {K : Type} `{Has SystemInfo K} `{Has Console K}.

Definition sysinfo_init : M K unit := modify sysinfo_init_info.

Definition sysinfo_print_all : M K unit :=
  s ← gets (C := SystemInfo) id;
  for_each (sysinfo_report s) (fun t => modify (print_str t)).
End sysinfo.

(** ** Properties *)

Lemma add_feature_bit reg bit k fs i :
  0 <= bit -> 0 <= k -> 0 <= i ->
  Z.testbit (add_feature reg bit (1 .<< k) fs) i = Z.testbit fs i || (Z.testbit reg bit && (i =? k)).
Proof.
  intros Hb Hk Hi. unfold add_feature. rewrite tst_bit by done.
  destruct (Z.testbit reg bit); cbn [andb]; [|by rewrite orb_false_r].
  rewrite Z.lor_spec. f_equal. rewrite Z.shiftl_mul_pow2, Z.mul_1_l by done.
  rewrite Z.pow2_bits_eqb by done. apply Z.eqb_sym.
Qed.

(** A field of a register: [n] bits from bit [k] on. *)
Lemma field_spec reg k n : 0 <= k -> 0 <= n -> (reg .>> k) .& Z.ones n = reg / 2 ^ k mod 2 ^ n.
Proof. intros Hk Hn. by rewrite Z.land_ones, Z.shiftr_div_pow2. Qed.

(** C39. [sysinfo_detect_cpu] decodes what [cpuid] returns: the feature word has
    exactly the bits of leaf 1 that the source lists (FPU, MMX, SSE, SSE2 from
    edx and SSE3, AVX, VMX from ecx); family, model and stepping are bits 8-11,
    4-7 and 0-3 of its eax, the threads bits 16-23 of its ebx and the cores
    half of them; the cache size is the upper half of ecx of leaf 0x80000006;
    the vendor is the string in ebx, edx and ecx of leaf 0. *)
Theorem sysinfo_features_decode `{Cpu} c :
  let '(max, ebx0, ecx0, edx0) := cpuid 0 in
  let '(eax, ebx, ecx, edx) := cpuid 1 in
  let '(_, _, ecx6, _) := cpuid 0x80000006 in
  let d := sysinfo_detect_cpu c in
  (forall i, 0 <= i ->
    Z.testbit (features d) i =
    match [Z.testbit edx 0; Z.testbit edx 23; Z.testbit edx 25; Z.testbit edx 26;
           Z.testbit ecx 0; Z.testbit ecx 28; Z.testbit ecx 5] !! Z.to_nat i with
    | Some b => b
    | None => false
    end) /\
  family d = eax / 2 ^ 8 mod 16 /\ model d = eax / 2 ^ 4 mod 16 /\ stepping d = eax mod 16 /\
  threads d = ebx / 2 ^ 16 mod 256 /\ cores d = ebx / 2 ^ 16 mod 256 / 2 /\
  cache_size d = ecx6 / 2 ^ 16 mod 2 ^ 16 /\ max_cpuid d = max /\
  vendor d = until_nul (reg_bytes ebx0 ++ reg_bytes edx0 ++ reg_bytes ecx0).
Proof.
  unfold sysinfo_detect_cpu. destruct (cpuid 0) as [[[max b0] c0] d0].
  destruct (cpuid 1) as [[[eax ebx] ecx] edx]. destruct (cpuid 0x80000006) as [[[? ?] ecx6] ?].
  cbv zeta. cbn [features family model stepping threads cores cache_size max_cpuid vendor].
  split; [|split_and!; try done].
  - intros i Hi.
    unfold CPU_FEATURE_FPU, CPU_FEATURE_MMX, CPU_FEATURE_SSE, CPU_FEATURE_SSE2, CPU_FEATURE_SSE3,
      CPU_FEATURE_AVX, CPU_FEATURE_VMX.
    rewrite !add_feature_bit, Z.bits_0 by lia.
    destruct (decide (i < 7)) as [Hlt|Hge].
    + assert (i = 0 \/ i = 1 \/ i = 2 \/ i = 3 \/ i = 4 \/ i = 5 \/ i = 6) as Hc by lia.
      destruct Hc as [E|[E|[E|[E|[E|[E|E]]]]]]; subst i; cbn;
        rewrite ?andb_false_r, ?andb_true_r, ?orb_false_r; done.
    + rewrite lookup_ge_None_2 by (cbn [length]; lia).
      replace (i =? 0) with false by lia. replace (i =? 1) with false by lia. replace (i =? 2) with false by lia.
      replace (i =? 3) with false by lia. replace (i =? 4) with false by lia. replace (i =? 5) with false by lia.
      replace (i =? 6) with false by lia. by rewrite !andb_false_r.
  - apply (field_spec eax 8 4); lia.
  - apply (field_spec eax 4 4); lia.
  - exact (Z.land_ones eax 4 ltac:(lia)).
  - apply (field_spec ebx 16 8); lia.
  - f_equal. apply (field_spec ebx 16 8); lia.
  - apply (field_spec ecx6 16 16); lia.
Qed.

(** The number of extended leaves is in leaf 0x80000000; leaf 0 has the
    number of basic ones, which is small, so the brand is never read. *)
Lemma sysinfo_brand_unknown `{Cpu} c :
  (cpuid 0).1.1.1 < 0x80000000 -> brand (sysinfo_detect_cpu c) = bytes_of "Unknown".
Proof.
  unfold sysinfo_detect_cpu. destruct (cpuid 0) as [[[max b0] c0] d0]. cbn [fst]. intros Hm.
  destruct (cpuid 1) as [[[eax ebx] ecx] edx]. destruct (cpuid 0x80000006) as [[[? ?] ?] ?]. cbn [brand].
  by rewrite (proj2 (Z.leb_gt _ _)) by lia.
Qed.
