(* ===== verification/Setup.v ===== *)
(** * The setup wizard (src/impl/kernel/main.c, lines 67-265)

    A state machine driven by the keys typed before the desktop starts. *)
From Stdlib Require Import Ascii.
From S2P Require Export Format Machine Console.

(** ** Definitions *)

Definition PRINT_COLOR_GREEN := 2.
Definition PRINT_COLOR_CYAN := 3.
Definition PRINT_COLOR_RED := 4.

Record SystemConfig := MkConfig {
  language : list Z;
  screen_width : Z;
  screen_height : Z;
  color_depth : Z;
  keyboard_layout : Z;
  timezone : Z;
  storage_mode : Z;
}.

Inductive SetupState :=
  | SETUP_WELCOME | SETUP_LANGUAGE | SETUP_DISPLAY | SETUP_KEYBOARD
  | SETUP_STORAGE | SETUP_TIMEZONE | SETUP_CONFIRM | SETUP_COMPLETE.

#[export] Instance setup_state_eq_dec : EqDecision SetupState.
Proof. solve_decision. Defined.

Record Setup := MkSetup {
  system_config : SystemConfig;
  setup_complete : Z;
  current_setup_state : SetupState;
}.

Definition setup_initial : Setup := MkSetup (MkConfig [] 0 0 0 0 0 0) 0 SETUP_WELCOME.

Definition set_state (x : SetupState) (s : Setup) : Setup := MkSetup (system_config s) (setup_complete s) x.
Definition set_config (f : SystemConfig -> SystemConfig) (s : Setup) : Setup :=
  MkSetup (f (system_config s)) (setup_complete s) (current_setup_state s).

Definition set_language (v : list Z) (c : SystemConfig) : SystemConfig :=
  MkConfig v (screen_width c) (screen_height c) (color_depth c) (keyboard_layout c) (timezone c) (storage_mode c).
Definition set_screen (w h : Z) (c : SystemConfig) : SystemConfig :=
  MkConfig (language c) w h (color_depth c) (keyboard_layout c) (timezone c) (storage_mode c).
Definition set_layout (v : Z) (c : SystemConfig) : SystemConfig :=
  MkConfig (language c) (screen_width c) (screen_height c) (color_depth c) v (timezone c) (storage_mode c).
Definition set_timezone (v : Z) (c : SystemConfig) : SystemConfig :=
  MkConfig (language c) (screen_width c) (screen_height c) (color_depth c) (keyboard_layout c) v (storage_mode c).
Definition set_storage (v : Z) (c : SystemConfig) : SystemConfig :=
  MkConfig (language c) (screen_width c) (screen_height c) (color_depth c) (keyboard_layout c) (timezone c) v.

(** The text of each state; the last one is not part of [SETUP_CONFIRM]'s. *)
Definition setup_text (s : Setup) : list (list Z) :=
  match current_setup_state s with
  | SETUP_WELCOME =>
      [line "Welcome to NansOS!"; line "This wizard will help you configure your system.";
       line "Press ENTER to continue..."]
  | SETUP_LANGUAGE =>
      [line "Select your language:"; line "1. English"; line "2. Spanish"; line "3. French"; line "4. German";
       bytes_of "Enter selection (1-4): "]
  | SETUP_DISPLAY =>
      [line "Select display resolution:"; line "1. 800x600"; line "2. 1024x768"; line "3. 1280x720"; line "4. 1920x1080";
       bytes_of "Enter selection (1-4): "]
  | SETUP_KEYBOARD =>
      [line "Select keyboard layout:"; line "1. US (QWERTY)"; line "2. UK (QWERTY)"; line "3. German (QWERTZ)";
       line "4. French (AZERTY)"; bytes_of "Enter selection (1-4): "]
  | SETUP_STORAGE =>
      [line "Configure storage:"; line "1. Auto-detect (Recommended)"; line "2. AHCI Mode"; line "3. IDE Mode";
       line "4. NVMe Mode"; bytes_of "Enter selection (1-4): "]
  | SETUP_TIMEZONE =>
      [line "Select timezone:"; line "1. UTC-8 (Pacific Time)"; line "2. UTC-5 (Eastern Time)"; line "3. UTC+0 (GMT)";
       line "4. UTC+1 (Central European Time)"; bytes_of "Enter selection (1-4): "]
  | SETUP_CONFIRM =>
      let c := system_config s in
      [line "Configuration Summary:"; bytes_of "Language: "; language c; [10]; bytes_of "Display: ";
       default [] (render (bytes_of "%dx%d") [FInt (screen_width c); FInt (screen_height c)]); [10];
       [10] ++ line "Press ENTER to confirm and start NansOS..."]
  | SETUP_COMPLETE => [line "Setup complete! Starting NansOS..."]
  end.

(** The inner [switch] of [SETUP_DISPLAY]. *)
Definition choose_display (c : Z) : SystemConfig -> SystemConfig :=
  if c =? chr "1" then set_screen 800 600
  else if c =? chr "2" then set_screen 1024 768
  else if c =? chr "3" then set_screen 1280 720
  else if c =? chr "4" then set_screen 1920 1080
  else fun k => k.

(** The outer [switch], for a [c] from '1' to '4'. *)
Definition choose (c : Z) (s : Setup) : Setup :=
  match current_setup_state s with
  | SETUP_WELCOME | SETUP_CONFIRM | SETUP_COMPLETE => s
  | SETUP_LANGUAGE =>
      let lang := if c =? chr "1" then bytes_of "English" else if c =? chr "2" then bytes_of "Spanish"
                  else if c =? chr "3" then bytes_of "French" else bytes_of "German" in
      set_state SETUP_DISPLAY (set_config (set_language lang) s)
  | SETUP_DISPLAY => set_state SETUP_KEYBOARD (set_config (choose_display c) s)
  | SETUP_KEYBOARD => set_state SETUP_STORAGE (set_config (set_layout (c - chr "1")) s)
  | SETUP_STORAGE => set_state SETUP_TIMEZONE (set_config (set_storage (c - chr "1")) s)
  | SETUP_TIMEZONE => set_state SETUP_CONFIRM (set_config (set_timezone (c - chr "1")) s)
  end.

Definition is_enter (c : Z) : bool := (c =? 10) || (c =? 13).

Section setup.
Context {K : Type} `{Has Setup K} `{Has Console K}.

Definition put (t : list Z) : M K unit := modify (print_str t).
Definition set_color (fg bg : Z) : M K unit := modify (print_set_color fg bg).

Definition run_setup_wizard : M K unit :=
  modify print_clear;;
  set_color PRINT_COLOR_CYAN PRINT_COLOR_BLACK;;
  put ([10] ++ line "=== NansOS Setup Wizard ===" ++ [10]);;
  set_color PRINT_COLOR_WHITE PRINT_COLOR_BLACK;;
  modify (fun s => if decide (current_setup_state s = SETUP_COMPLETE)
                   then MkSetup (system_config s) 1 (current_setup_state s) else s);;
  s ← gets (C := Setup) id;
  for_each (setup_text s) put.

Definition handle_setup_input (c : Z) : M K unit :=
  s ← gets current_setup_state;
  if is_enter c && bool_decide (s = SETUP_WELCOME) then
    modify (set_state SETUP_LANGUAGE);; run_setup_wizard
  else if is_enter c && bool_decide (s = SETUP_CONFIRM) then
    modify (set_state SETUP_COMPLETE);; run_setup_wizard
  else if (chr "1" <=? c) && (c <=? chr "4") then
    modify (choose c);; run_setup_wizard
  else mret tt.
End setup.

(** ** The wizard as a function on its state *)

Definition wizard (s : Setup) (c : Z) : Setup :=
  if is_enter c && bool_decide (current_setup_state s = SETUP_WELCOME) then set_state SETUP_LANGUAGE s
  else if is_enter c && bool_decide (current_setup_state s = SETUP_CONFIRM)
  then MkSetup (system_config s) 1 SETUP_COMPLETE
  else if (chr "1" <=? c) && (c <=? chr "4") then choose c s
  else s.

(** How far the wizard is. *)
Definition stage (x : SetupState) : Z :=
  match x with
  | SETUP_WELCOME => 0 | SETUP_LANGUAGE => 1 | SETUP_DISPLAY => 2 | SETUP_KEYBOARD => 3
  | SETUP_STORAGE => 4 | SETUP_TIMEZONE => 5 | SETUP_CONFIRM => 6 | SETUP_COMPLETE => 7
  end.

Definition languages : list (list Z) :=
  [bytes_of "English"; bytes_of "Spanish"; bytes_of "French"; bytes_of "German"].
Definition resolutions : list (Z * Z) := [(800, 600); (1024, 768); (1280, 720); (1920, 1080)].

(** What holds after any keys: the choices behind the current state are valid
    ones, and setup is complete exactly in the last state. *)
Record setup_ok (s : Setup) : Prop := {
  so_language : 2 <= stage (current_setup_state s) -> language (system_config s) ∈ languages;
  so_screen : 3 <= stage (current_setup_state s) ->
    (screen_width (system_config s), screen_height (system_config s)) ∈ resolutions;
  so_numbers : 0 <= keyboard_layout (system_config s) < 4 /\ 0 <= storage_mode (system_config s) < 4 /\
    0 <= timezone (system_config s) < 4;
  so_complete : setup_complete s = (if decide (current_setup_state s = SETUP_COMPLETE) then 1 else 0);
}.

Lemma setup_initial_ok : setup_ok setup_initial.
Proof. by split. Qed.

Lemma digit_cases c : chr "1" <= c <= chr "4" -> c = chr "1" \/ c = chr "2" \/ c = chr "3" \/ c = chr "4".
Proof. change (chr "1") with 49. change (chr "2") with 50. change (chr "3") with 51. change (chr "4") with 52. lia. Qed.

Lemma choose_display_screen c k :
  49 <= c <= 52 -> exists w h, choose_display c k = set_screen w h k /\ (w, h) ∈ resolutions.
Proof.
  intros Hd. destruct (digit_cases c Hd) as [E|[E|[E|E]]]; subst c; unfold choose_display; cbn;
    do 2 eexists; (split; [reflexivity|set_solver]).
Qed.

Lemma choose_ok c s : setup_ok s -> chr "1" <= c <= chr "4" -> setup_ok (choose c s).
Proof.
  intros [Hl Hs Hn Hc] Hd. destruct s as [k n x].
  change (chr "1") with 49 in Hd. change (chr "4") with 52 in Hd. unfold choose.
  destruct x; cbn -[chr] in *; try (by split); (split; cbn -[chr]; [| | |done]).
  all: intros; try (apply Hl; lia); try (apply Hs; lia); try lia.
  - repeat case_match; set_solver.
  - destruct (choose_display_screen c k Hd) as (w & h & -> & _). cbn. apply Hl. lia.
  - destruct (choose_display_screen c k Hd) as (w & h & -> & Hr). exact Hr.
  - destruct (choose_display_screen c k Hd) as (w & h & -> & _). exact Hn.
  - change (chr "1") with 49. lia.
  - change (chr "1") with 49. lia.
  - change (chr "1") with 49. lia.
Qed.

Lemma wizard_ok c s : setup_ok s -> setup_ok (wizard s c).
Proof.
  intros Hok. unfold wizard.
  destruct (is_enter c && bool_decide (current_setup_state s = SETUP_WELCOME)) eqn:E1.
  { apply andb_true_iff in E1 as [_ E1%bool_decide_eq_true]. destruct Hok as [_ _ Hn Hc].
    destruct s as [k n x]; cbn in *; subst x. split; cbn; [lia|lia|done|done]. }
  destruct (is_enter c && bool_decide (current_setup_state s = SETUP_CONFIRM)) eqn:E2.
  { apply andb_true_iff in E2 as [_ E2%bool_decide_eq_true]. destruct Hok as [Hl Hs Hn Hc].
    destruct s as [k n x]; cbn in *; subst x. split; cbn in *; [intros _; apply Hl; lia|intros _; apply Hs; lia|done|done]. }
  destruct ((chr "1" <=? c) && (c <=? chr "4")) eqn:E3; [|done].
  apply choose_ok; [done|]. lia.
Qed.

Lemma wizard_stage c s :
  stage (current_setup_state s) <= stage (current_setup_state (wizard s c)) <= stage (current_setup_state s) + 1.
Proof.
  unfold wizard. destruct s as [k n x]. cbn [current_setup_state].
  destruct (is_enter c && bool_decide (x = SETUP_WELCOME)) eqn:E1.
  { apply andb_true_iff in E1 as [_ E1%bool_decide_eq_true]. subst x. cbn. lia. }
  destruct (is_enter c && bool_decide (x = SETUP_CONFIRM)) eqn:E2.
  { apply andb_true_iff in E2 as [_ E2%bool_decide_eq_true]. subst x. cbn. lia. }
  destruct ((chr "1" <=? c) && (c <=? chr "4")); [|cbn; lia]. destruct x; unfold choose; cbn -[chr]; lia.
Qed.

(** In the state, the setup and the console come after what else there is. *)
Section run.
Context {X : Type} (x : X).
Implicit Types (s : Setup) (con : Console).

Lemma put_bind {A} t (k : unit -> M (X * (Setup * Console)) A) s con l :
  (put t ≫= k) (x, (s, con)) l = k tt (x, (s, print_str t con)) l.
Proof. reflexivity. Qed.

Lemma for_each_put ts s con l :
  for_each ts put (x, (s, con)) l = Done (tt, (x, (s, foldl (fun con t => print_str t con) con ts)), l).
Proof. revert con. induction ts as [|t ts IH]; intros con; [done|]. cbn [for_each foldl]. rewrite put_bind. apply IH. Qed.

Lemma run_wizard_run s con l :
  exists con', run_setup_wizard (x, (s, con)) l =
    Done (tt, (x, (if decide (current_setup_state s = SETUP_COMPLETE)
               then MkSetup (system_config s) 1 (current_setup_state s) else s, con')), l).
Proof.
  unfold run_setup_wizard, set_color. rewrite !modify_bind.
  cbn [get_part set_part has_fst has_snd has_refl fst snd]. rewrite put_bind, !modify_bind, gets_bind.
  cbn [get_part set_part has_fst has_snd has_refl fst snd]. unfold id. rewrite for_each_put. by eexists.
Qed.

(** A digit does not complete the setup. *)
Lemma choose_complete c s :
  setup_complete s = (if decide (current_setup_state s = SETUP_COMPLETE) then 1 else 0) ->
  (if decide (current_setup_state (choose c s) = SETUP_COMPLETE)
   then MkSetup (system_config (choose c s)) 1 (current_setup_state (choose c s)) else choose c s) = choose c s.
Proof. destruct s as [k n []]; cbn; intros Hn; subst n; reflexivity. Qed.

(** Every key leaves the state that [wizard] computes. *)
Lemma handle_run c s con l :
  setup_complete s = (if decide (current_setup_state s = SETUP_COMPLETE) then 1 else 0) ->
  exists con', handle_setup_input c (x, (s, con)) l = Done (tt, (x, (wizard s c, con')), l).
Proof.
  intros Hc. unfold handle_setup_input, wizard. rewrite gets_bind. cbn [get_part has_fst has_snd has_refl fst snd].
  destruct (is_enter c && bool_decide (current_setup_state s = SETUP_WELCOME)).
  { rewrite modify_bind. cbn [get_part set_part has_fst has_snd has_refl fst snd].
    destruct (run_wizard_run (set_state SETUP_LANGUAGE s) con l) as [con' ->]. by exists con'. }
  destruct (is_enter c && bool_decide (current_setup_state s = SETUP_CONFIRM)).
  { rewrite modify_bind. cbn [get_part set_part has_fst has_snd has_refl fst snd].
    destruct (run_wizard_run (set_state SETUP_COMPLETE s) con l) as [con' ->]. by exists con'. }
  destruct ((chr "1" <=? c) && (c <=? chr "4")); [|by exists con].
  rewrite modify_bind. cbn [get_part set_part has_fst has_snd has_refl fst snd].
  destruct (run_wizard_run (choose c s) con l) as [con' ->]. exists con'. by rewrite choose_complete.
Qed.

Lemma handle_keys ks s con l :
  setup_ok s ->
  exists con', for_each ks handle_setup_input (x, (s, con)) l = Done (tt, (x, (foldl wizard s ks, con')), l) /\
    setup_ok (foldl wizard s ks).
Proof.
  revert s con. induction ks as [|c ks IH]; intros s con Hok; [by exists con|]. cbn [for_each foldl].
  destruct (handle_run c s con l (so_complete _ Hok)) as [con1 E]. rewrite (M_bind_done _ _ _ _ _ _ _ E).
  apply IH. by apply wizard_ok.
Qed.
End run.

Lemma wizard_digit d s : 1 <= d <= 4 -> wizard s (48 + d) = choose (48 + d) s.
Proof.
  intros Hd. unfold wizard, is_enter. change (chr "1") with 49. change (chr "4") with 52. decide_lia. done.
Qed.

Lemma step_language d k n :
  1 <= d <= 4 -> exists l, languages !! Z.to_nat (d - 1) = Some l /\
    choose (48 + d) (MkSetup k n SETUP_LANGUAGE) = MkSetup (set_language l k) n SETUP_DISPLAY.
Proof.
  intros Hd. assert (d = 1 \/ d = 2 \/ d = 3 \/ d = 4) as [E|[E|[E|E]]] by lia; subst d; eexists; (split; reflexivity).
Qed.

Lemma step_display d k n :
  1 <= d <= 4 -> exists w h, resolutions !! Z.to_nat (d - 1) = Some (w, h) /\
    choose (48 + d) (MkSetup k n SETUP_DISPLAY) = MkSetup (set_screen w h k) n SETUP_KEYBOARD.
Proof.
  intros Hd. assert (d = 1 \/ d = 2 \/ d = 3 \/ d = 4) as [E|[E|[E|E]]] by lia; subst d;
    do 2 eexists; (split; reflexivity).
Qed.

(** The last three choices. *)
Lemma steps_numbers d3 d4 d5 k :
  choose (48 + d5) (choose (48 + d4) (choose (48 + d3) (MkSetup k 0 SETUP_KEYBOARD))) =
  MkSetup (set_timezone (d5 - 1) (set_storage (d4 - 1) (set_layout (d3 - 1) k))) 0 SETUP_CONFIRM.
Proof.
  assert (forall d, 48 + d - chr "1" = d - 1) as E by (intros d; change (chr "1") with 49; lia).
  unfold choose. cbn [current_setup_state set_state set_config system_config setup_complete]. by rewrite !E.
Qed.

(** The keys that complete the setup. *)
Definition setup_keys (d1 d2 d3 d4 d5 : Z) : list Z := [10] ++ (Z.add 48 <$> [d1; d2; d3; d4; d5]).

(** The wizard after them; ENTER then confirms. *)
Lemma setup_keys_confirm d1 d2 d3 d4 d5 :
  1 <= d1 <= 4 -> 1 <= d2 <= 4 -> 1 <= d3 <= 4 -> 1 <= d4 <= 4 -> 1 <= d5 <= 4 ->
  exists lang w h,
    languages !! Z.to_nat (d1 - 1) = Some lang /\ resolutions !! Z.to_nat (d2 - 1) = Some (w, h) /\
    foldl wizard setup_initial (setup_keys d1 d2 d3 d4 d5) =
      MkSetup (MkConfig lang w h 0 (d3 - 1) (d5 - 1) (d4 - 1)) 0 SETUP_CONFIRM.
Proof.
  intros H1 H2 H3 H4 H5.
  destruct (step_language d1 (system_config setup_initial) 0 H1) as (lang & Hlang & E1).
  destruct (step_display d2 (set_language lang (system_config setup_initial)) 0 H2) as (w & h & Hr & E2).
  exists lang, w, h. split; [done|]. split; [done|]. unfold setup_keys. cbn [app fmap list_fmap foldl].
  rewrite !wizard_digit by done.
  change (wizard setup_initial 10) with (MkSetup (system_config setup_initial) 0 SETUP_LANGUAGE).
  rewrite E1, E2, steps_numbers. reflexivity.
Qed.

Lemma setup_keys_wizard d1 d2 d3 d4 d5 :
  1 <= d1 <= 4 -> 1 <= d2 <= 4 -> 1 <= d3 <= 4 -> 1 <= d4 <= 4 -> 1 <= d5 <= 4 ->
  exists lang w h,
    languages !! Z.to_nat (d1 - 1) = Some lang /\ resolutions !! Z.to_nat (d2 - 1) = Some (w, h) /\
    setup_complete (foldl wizard setup_initial (setup_keys d1 d2 d3 d4 d5)) = 0 /\
    wizard (foldl wizard setup_initial (setup_keys d1 d2 d3 d4 d5)) 10 =
      MkSetup (MkConfig lang w h 0 (d3 - 1) (d5 - 1) (d4 - 1)) 1 SETUP_COMPLETE.
Proof.
  intros H1 H2 H3 H4 H5. destruct (setup_keys_confirm d1 d2 d3 d4 d5 H1 H2 H3 H4 H5) as (lang & w & h & Hl & Hr & E).
  exists lang, w, h. by rewrite E.
Qed.

(** Incomplete at the end, incomplete all along. *)
Lemma wizard_incomplete c s : setup_ok s -> setup_complete (wizard s c) = 0 -> setup_complete s = 0.
Proof.
  intros Hok Hw. pose proof (wizard_stage c s) as Hs. rewrite (so_complete _ Hok).
  rewrite (so_complete _ (wizard_ok c s Hok)) in Hw.
  destruct (decide (current_setup_state s = SETUP_COMPLETE)) as [E|]; [|done]. rewrite E in Hs.
  destruct (current_setup_state (wizard s c)); cbn in Hs; try lia. by rewrite decide_True in Hw.
Qed.

Lemma wizards_incomplete ks s : setup_ok s -> setup_complete (foldl wizard s ks) = 0 -> setup_complete s = 0.
Proof.
  revert s. induction ks as [|c ks IH]; intros s Hok Hw; [done|]. cbn [foldl] in Hw.
  apply (wizard_incomplete c); [done|]. apply IH; [by apply wizard_ok|done].
Qed.

(** ** Properties *)

(** C38. Whatever keys are typed, the wizard returns after each, the choices made
    so far are valid ones (a language of the list, one of the four
    resolutions, numbers below four), setup is complete exactly when the last
    state is reached, and each key moves the wizard forward by one state or
    leaves it. *)
Theorem setup_stays_valid {X} (x : X) ks c (con : Console) l :
  exists (s : Setup) (con' : Console), for_each ks handle_setup_input (x, (setup_initial, con)) l = Done (tt, (x, (s, con')), l) /\
    setup_ok s /\
    exists s' con'', handle_setup_input c (x, (s, con')) l = Done (tt, (x, (s', con'')), l) /\
      stage (current_setup_state s) <= stage (current_setup_state s') <= stage (current_setup_state s) + 1.
Proof.
  destruct (handle_keys x ks setup_initial con l setup_initial_ok) as (con' & E & Hok).
  exists (foldl wizard setup_initial ks), con'. split; [exact E|]. split; [exact Hok|].
  destruct (handle_run x c _ con' l (so_complete _ Hok)) as [con'' E'].
  exists (wizard (foldl wizard setup_initial ks) c), con''. split; [exact E'|]. apply wizard_stage.
Qed.

(** ENTER, five digits from 1 to 4 and ENTER complete the setup, with exactly
    the choices typed: language, resolution, keyboard layout, storage mode
    and time zone, in this order. *)
Theorem setup_completes {X} (x : X) d1 d2 d3 d4 d5 (con : Console) l :
  1 <= d1 <= 4 -> 1 <= d2 <= 4 -> 1 <= d3 <= 4 -> 1 <= d4 <= 4 -> 1 <= d5 <= 4 ->
  exists con' w h lang,
    for_each (setup_keys d1 d2 d3 d4 d5 ++ [10]) handle_setup_input (x, (setup_initial, con)) l =
    Done (tt, (x, (MkSetup (MkConfig lang w h 0 (d3 - 1) (d5 - 1) (d4 - 1)) 1 SETUP_COMPLETE, con')), l) /\
    languages !! Z.to_nat (d1 - 1) = Some lang /\ resolutions !! Z.to_nat (d2 - 1) = Some (w, h).
Proof.
  intros H1 H2 H3 H4 H5.
  destruct (setup_keys_wizard d1 d2 d3 d4 d5 H1 H2 H3 H4 H5) as (lang & w & h & Hl & Hr & _ & E).
  destruct (handle_keys x (setup_keys d1 d2 d3 d4 d5 ++ [10]) setup_initial con l setup_initial_ok) as (con' & E' & _).
  exists con', w, h, lang. split; [|done]. rewrite E', foldl_app. cbn [foldl]. by rewrite E.
Qed.

Lemma setup_completes_witness :
  exists con : Console, for_each [10; 50; 49; 49; 51; 52; 10] handle_setup_input (tt, (setup_initial, console_initial)) [] =
    Done (tt, (tt, (MkSetup (MkConfig (bytes_of "Spanish") 800 600 0 0 3 2) 1 SETUP_COMPLETE, con)), []).
Proof.
  destruct (setup_completes tt 2 1 1 3 4 console_initial []) as (con & w & h & lang & E & Hl & Hr); [lia..|].
  exists con. injection Hl as <-. injection Hr as <- <-. exact E.
Defined.
