(* ===== verification/Kernel.v ===== *)
(** * The kernel's start and its callbacks (src/impl/kernel/main.c)

    The composition of the components: initialisation in order, the functions
    registered with the drivers, and one turn of the main loop. The state [K]
    has a part for every component. *)
From Stdlib Require Import Ascii.
From S2P Require Export Setup Sysinfo Window Keyboard Rtc Idt.

(** ** Definitions *)

Definition SERIAL_BAUD_115200 := 1.

(** The statics of main.c the wizard does not use: the counter of
    [timer_tick], and the pointer [system_info]. *)
Record Kern := MkKern { uptime_ticks : Z; system_info : Z }.

Definition kern_initial : Kern := MkKern 0 0.

(** The names of [special_key]. *)
Definition key_names : list (Z * string) :=
  [ (KEY_F1, "F1"); (0x3C, "F2"); (0x3D, "F3"); (0x3E, "F4"); (0x3F, "F5"); (0x40, "F6"); (0x41, "F7");
    (0x42, "F8"); (0x43, "F9"); (0x44, "F10"); (0x57, "F11"); (KEY_F12, "F12"); (0x48, "Up"); (0x50, "Down");
    (0x4B, "Left"); (0x4D, "Right"); (KEY_HOME, "Home"); (0x4F, "End"); (0x49, "PgUp"); (0x51, "PgDn");
    (0x52, "Insert"); (KEY_DELETE, "Delete"); (KEY_ESCAPE, "Escape") ]%string.

Definition key_name (k : Z) : list Z :=
  bytes_of (default "Unknown"%string (snd <$> (list_find (fun p => p.1 = k) key_names ≫= fun p => Some p.2))).

(** The message of [special_key]. *)
Definition special_key_text (e : SpecialKeyEvent) : list Z :=
  sprintf_text "Special Key: %s (%s) [Ctrl:%d Shift:%d Alt:%d]"
    [FStr (key_name (key_code e)); FStr (bytes_of (if is_pressed e then "Pressed" else "Released"));
     FInt (Z.b2z (ctrl_pressed (event_state e))); FInt (Z.b2z (shift_pressed (event_state e)));
     FInt (Z.b2z (alt_pressed (event_state e)))].

(** The features that F3 lists. *)
Definition feature_names : list (Z * string) :=
  [ (CPU_FEATURE_FPU, "FPU "); (CPU_FEATURE_MMX, "MMX "); (CPU_FEATURE_SSE, "SSE "); (CPU_FEATURE_SSE2, "SSE2 ");
    (CPU_FEATURE_SSE3, "SSE3 "); (CPU_FEATURE_AVX, "AVX "); (CPU_FEATURE_VMX, "VMX ") ]%string.

(** [time_str] of the main loop, for [t] timer ticks. *)
Definition clock_text (t : Z) : list Z :=
  let seconds := u32 (t / PIT_DEFAULT_HZ) in
  let minutes := seconds / 60 in
  let hours := minutes / 60 in
  default [] (render (bytes_of "%02d:%02d:%02d") [FInt (hours mod 24); FInt (minutes mod 60); FInt (seconds mod 60)]).

Section kernel.
Context `{Linker} `{Hw} `{Cpu} {K : Type}.
Context `{Has Kern K} `{Has Setup K} `{Has Console K} `{Has SystemInfo K} `{Has WM K} `{Has VGAMode K}
  `{Has mem K} `{Has heap K} `{Has Pit K} `{Has Rtc K} `{Has Keyboard K} `{Has Mouse K} `{Has Idt K} `{Code K}.
(** The addresses of the interrupt routines and of the table, the build date. *)
Context (fuel : nat) (addr : isr -> Z) (idt_base : Z) (DATE : list Z).

#[local] Notation serial s := (serial_write_string fuel COM1_PORT s).

Definition debug_print (msg : list Z) : M K unit :=
  set_color PRINT_COLOR_CYAN PRINT_COLOR_BLACK;;
  put (bytes_of "[DEBUG] ");;
  put msg;;
  set_color PRINT_COLOR_WHITE PRINT_COLOR_BLACK;;
  serial (bytes_of "[DEBUG] ");;
  serial msg.

Definition keyboard_scancode (scancode : Z) : M K unit :=
  serial (sprintf_text "Scancode: 0x%02x" [FInt scancode]).

Definition keyboard_char (c : Z) : M K unit :=
  done ← gets setup_complete;
  if done =? 0 then
    handle_setup_input c;;
    done ← gets setup_complete;
    if negb (done =? 0) then
      put ([10] ++ line "Initializing graphical interface...");;
      window_init fuel;;
      window_init_gui fuel;;
      put (line "Welcome to NansOS Desktop!");;
      serial (line "Transitioned to graphical mode")
    else mret tt
  else window_handle_key c.

(** [system_info->...]: the only object the pointer could point to is the
    [sys_info] of sysinfo.c. *)
Definition deref_system_info : M K unit :=
  p ← gets system_info; if p =? 0 then undef else mret tt.

Definition special_key : M K unit :=
  e ← gets special_event;
  (if is_pressed e then
     if key_code e =? KEY_F1 then sysinfo_print_all
     else if key_code e =? 0x3C then
       deref_system_info;;
       modify (fun s => MkSystemInfo (os_name s) (version s) (build_date s) (uptime_seconds s) (bios s) (cpu s)
                          (sysinfo_detect_memory (memory s)) (board s) (boot s));;
       put ([10] ++ line "Memory information updated.")
     else if key_code e =? 0x3D then
       put ([10] ++ line "CPU Features:");;
       deref_system_info;;
       s ← gets (C := SystemInfo) id;
       for_each feature_names (fun '(flag, name) =>
         if tst (features (cpu s)) flag then put (bytes_of name) else mret tt);;
       put [10]
     else mret tt
   else mret tt);;
  put (special_key_text e);;
  serial (special_key_text e).

Definition mouse_event : M K unit :=
  s ← gets mouse_state;
  serial (sprintf_text "[MOUSE] Event: X=%d, Y=%d, Buttons=%02x" [FInt (x_pos s); FInt (y_pos s); FInt (buttons s)]).

Definition timer_tick : M K unit :=
  modify (fun k => MkKern (u32 (uptime_ticks k + 1)) (system_info k));;
  ticks ← gets uptime_ticks;
  if ticks mod 100 =? 0 then serial (sprintf_text "Uptime: %d seconds" [FInt (ticks / 100)]) else mret tt.

Definition print_boot_header : M K unit :=
  set_color PRINT_COLOR_GREEN PRINT_COLOR_BLACK;;
  put ([10] ++ line "=================================");;
  put (line "       NansOS v0.1.0");;
  put (line "  Copyright (c) 2025 NansStudios");;
  put (line "=================================" ++ [10]);;
  set_color PRINT_COLOR_WHITE PRINT_COLOR_BLACK.

(** [mmu_init(); vmm_init();]: the allocator of pages belongs to the heap. *)
Definition memory_init : M K unit :=
  modify mmu_init;;
  h ← gets (C := heap) id;
  c ← gets (C := Console) id;
  let '(st, c) := vmm_init (pages h) c in
  modify (fun h => MkHeap (heap_head h) st);;
  modify (fun _ : Console => c).

Definition init_system : M K Z :=
  debug_print (line "Starting system initialization...");;
  debug_print (line "Initializing memory management...");;
  memory_init;;
  debug_print (line "Memory management initialized");;
  debug_print (line "Initializing system information...");;
  sysinfo_init DATE;;
  debug_print (line "System information initialized");;
  debug_print (line "Initializing IDT...");;
  idt_init addr idt_base fuel;;
  debug_print (line "IDT initialized");;
  debug_print (line "Initializing PIC...");;
  pic_init;;
  debug_print (line "PIC initialized");;
  debug_print (line "Initializing PIT...");;
  pit_init fuel PIT_DEFAULT_HZ;;
  pit_set_callback (function "timer_tick");;
  debug_print (line "PIT initialized");;
  debug_print (line "Initializing serial port...");;
  serial_init COM1_PORT SERIAL_BAUD_115200;;
  debug_print (line "Serial port initialized");;
  debug_print (line "Initializing RTC...");;
  rtc_init fuel;;
  rtc_enable_interrupt;;
  debug_print (line "RTC initialized");;
  debug_print (line "Initializing keyboard...");;
  keyboard_init fuel;;
  keyboard_set_scancode_callback (function "keyboard_scancode");;
  keyboard_set_char_callback (function "keyboard_char");;
  keyboard_set_special_callback (function "special_key");;
  debug_print (line "Keyboard initialization complete");;
  debug_print (line "Initializing mouse...");;
  mouse_init fuel;;
  mouse_set_callback (function "mouse_event");;
  debug_print (line "Mouse initialization complete");;
  debug_print (line "Enabling interrupts...");;
  idt_enable_interrupts fuel;;
  debug_print (line "Interrupts enabled");;
  debug_print (line "System initialization complete!");;
  serial (line "NansOS initialized and ready!");;
  mret 0.

Definition handle_system_error (error_msg : list Z) : M K unit :=
  set_color PRINT_COLOR_RED PRINT_COLOR_BLACK;;
  put ([10] ++ bytes_of "FATAL ERROR: ");;
  put error_msg;;
  put ([10] ++ line "System halted.");;
  serial ([10] ++ bytes_of "FATAL ERROR: ");;
  serial error_msg;;
  serial ([10] ++ line "System halted.");;
  idt_disable_interrupts fuel;;
  while_ fuel (asm_hlt;; mret true).

(** One turn of the [while (1)] of [kernel_main]. The coordinates of the cursor
    are converted to the parameters' type, which is theirs. *)
Definition main_step : M K unit :=
  done ← gets setup_complete;
  (if negb (done =? 0) then
     t ← pit_get_ticks;
     if t mod PIT_DEFAULT_HZ =? 0 then
       t ← pit_get_ticks;
       window_update fuel;;
       mode ← vga_get_mode;
       if negb (vmode mode =? VGA_MODE_TEXT_80x25) then
         draw (fun cm m => vga_draw_text back_buffer cm fuel m (u16 (width mode - 70)) (u16 (height mode - 20))
                             (Literal (clock_text t)) VGA_COLOR_WHITE);;
         modify (vga_swap_buffers back_buffer)
       else mret tt
     else mret tt
   else mret tt);;
  done ← gets setup_complete;
  (if negb (done =? 0) then
     s ← gets mouse_state;
     draw (fun cm m => vga_update_cursor back_buffer cm fuel m (u16 (x_pos s)) (u16 (y_pos s)))
   else mret tt);;
  asm_hlt.

Definition kernel_main : M K unit :=
  asm_cli;;
  serial_init COM1_PORT SERIAL_BAUD_115200;;
  serial (line "Serial port initialized");;
  modify print_clear;;
  print_boot_header;;
  serial (line "Kernel started");;
  r ← init_system;
  if negb (r =? 0) then handle_system_error (bytes_of "System initialization failed")
  else
    serial (line "Entering main kernel loop");;
    run_setup_wizard;;
    while_ fuel (main_step;; mret true).
End kernel.

(** ** Properties *)

(** The names that [special_key] chooses from. *)
Lemma key_name_cases k : key_name k ∈ (bytes_of <$> ("Unknown"%string :: key_names.*2)).
Proof.
  apply list_elem_of_fmap. unfold key_name.
  destruct (list_find _ key_names) as [[i [k' s]]|] eqn:E; [|exists "Unknown"%string; split; [reflexivity|set_solver]].
  apply list_find_Some in E as (Hi & _ & _). exists s. split; [reflexivity|].
  apply elem_of_cons. right. apply list_elem_of_fmap. exists (k', s).
  split; [reflexivity|]. exact (list_elem_of_lookup_2 _ _ _ Hi).
Qed.

(** The message of [special_key] fits its buffer of 64 bytes with the NUL,
    for every event. *)
Theorem special_key_text_fits e : Z.of_nat (length (special_key_text e)) + 1 <= 64.
Proof.
  unfold special_key_text. generalize (key_name (key_code e)) (key_name_cases (key_code e)).
  apply Forall_forall.
  destruct (is_pressed e), (ctrl_pressed _), (shift_pressed _), (alt_pressed _);
    (repeat (apply Forall_cons; split; [apply Z.leb_le; vm_compute; reflexivity|])); apply Forall_nil; exact I.
Qed.

(** [sprintf] knows no width: the clock of the taskbar shows no digits. *)
Lemma clock_text_constant t : clock_text t = bytes_of "?d:?d:?d".
Proof.
  unfold clock_text. set (s := u32 _). generalize (s / 60 / 60 mod 24) (s / 60 mod 60) (s mod 60). intros a b c.
  vm_compute. reflexivity.
Qed.

(** [system_info] is a null pointer before [kernel_main], and no function of
    the kernel assigns it: F2 is undefined behaviour (and F3 as well). *)
Lemma special_key_needs_system_info `{Linker} `{Hw} `{Has Kern K} `{Has Setup K} `{Has Console K}
    `{Has SystemInfo K} `{Has Keyboard K} (k : K) fuel l :
  system_info (get_part k) = 0 ->
  is_pressed (special_event (get_part k)) = true -> key_code (special_event (get_part k)) = 0x3C ->
  special_key fuel k l = Undef.
Proof.
  intros Hs Hp Hk. unfold special_key. rewrite gets_bind, Hp, Hk.
  change (0x3C =? KEY_F1) with false. rewrite Z.eqb_refl. cbn iota.
  unfold deref_system_info. rewrite !M_bind_assoc, gets_bind, Hs. reflexivity.
Qed.
