(* ===== verification/Steady.v ===== *)
(** * Computations that return, and what they leave alone

    A small program logic for the theorems about the kernel as a whole. A
    view is what one watches of the state and the log. A computation is
    [steady] when it returns from every state and the view stays; it [ends]
    in a condition when it does so from every state of the given view, and
    [fails] when it is undefined from every such state. *)
From S2P Require Export Machine.

Section steady.
Context {K V : Type} (view : K -> log -> V).

Definition steady {A} (x : M K A) : Prop :=
  forall s l, exists a s' l', x s l = Done (a, s', l') /\ view s' l' = view s l.

Definition ends {A} (x : M K A) (v : V) (P : A -> V -> Prop) : Prop :=
  forall s l, view s l = v -> exists a s' l', x s l = Done (a, s', l') /\ P a (view s' l').

(** ** Steady computations *)

Lemma steady_ret {A} (a : A) : steady (mret a).
Proof. intros s l. by exists a, s, l. Qed.

Lemma steady_bind {A B} (x : M K A) (f : A -> M K B) :
  steady x -> (forall a, steady (f a)) -> steady (x ≫= f).
Proof.
  intros Hx Hf s l. destruct (Hx s l) as (a & s1 & l1 & E & W). destruct (Hf a s1 l1) as (b & s2 & l2 & E2 & W2).
  exists b, s2, l2. rewrite (M_bind_done _ _ _ _ _ _ _ E). split; [done|congruence].
Qed.

Lemma steady_if {A} (b : bool) (x y : M K A) : steady x -> steady y -> steady (if b then x else y).
Proof. by destruct b. Qed.

Lemma steady_emit e : (forall s l, view s (l ++ [e]) = view s l) -> steady (emit e).
Proof. intros He s l. do 3 eexists. split; [reflexivity|apply He]. Qed.

Lemma steady_in `{Hw} port :
  (forall p v s l, view s (l ++ [EIn p v]) = view s l) -> steady (port_byte_in port).
Proof. intros He s l. do 3 eexists. split; [reflexivity|apply He]. Qed.

Lemma steady_gets {C X} `{Has C K} (f : C -> X) : steady (gets f).
Proof. intros s l. by do 3 eexists. Qed.

Lemma steady_modify {C} `{Has C K} (f : C -> C) :
  (forall s l, view (set_part (f (get_part s)) s) l = view s l) -> steady (modify f).
Proof. intros Hf s l. do 3 eexists. split; [reflexivity|apply Hf]. Qed.

Lemma steady_retry n body : steady body -> steady (retry n body).
Proof.
  intros Hb. induction n as [|[|n] IH]; [apply steady_ret..|].
  change (steady (b ← body; if b : bool then mret (S n) else retry (S n) body)).
  apply steady_bind; [done|]. intros []; [apply steady_ret|done].
Qed.

Lemma steady_wait_while n c : steady c -> steady (wait_while n c).
Proof.
  intros Hc. induction n as [|n IH]; cbn [wait_while]; (apply steady_bind; [done|]); intros []; (done || apply steady_ret).
Qed.

Lemma steady_for_each {A} (xs : list A) f : (forall x, steady (f x)) -> steady (for_each xs f).
Proof.
  intros Hf. induction xs as [|x xs IH]; cbn [for_each]; [apply steady_ret|]. by apply steady_bind.
Qed.

(** ** Conditions at the end *)

Lemma ends_ret {A} (a : A) v (P : A -> V -> Prop) : P a v -> ends (mret a) v P.
Proof. intros HP s l <-. by exists a, s, l. Qed.

Lemma ends_bind {A B} (x : M K A) (f : A -> M K B) v P :
  ends x v (fun a v1 => ends (f a) v1 P) -> ends (x ≫= f) v P.
Proof.
  intros Hx s l E. destruct (Hx s l E) as (a & s1 & l1 & E1 & Hf). destruct (Hf s1 l1 eq_refl) as (b & s2 & l2 & E2 & HP).
  exists b, s2, l2. by rewrite (M_bind_done _ _ _ _ _ _ _ E1).
Qed.

Lemma ends_weaken {A} (x : M K A) v (P Q : A -> V -> Prop) :
  ends x v P -> (forall a v', P a v' -> Q a v') -> ends x v Q.
Proof. intros Hx HPQ s l E. destruct (Hx s l E) as (a & s1 & l1 & E1 & HP). eauto 6. Qed.

Lemma ends_assoc {A B C} (x : M K A) (f : A -> M K B) (g : B -> M K C) v P :
  ends (x ≫= (fun a => f a ≫= g)) v P -> ends ((x ≫= f) ≫= g) v P.
Proof. intros Hx s l E. rewrite M_bind_assoc. by apply Hx. Qed.

(** A computation, with a continuation that returns. *)
Lemma ends_then_ret {A} (x : M K A) v P : ends (x ≫= fun a => mret a) v P -> ends x v P.
Proof.
  intros Hx s l E. destruct (Hx s l E) as (a & s1 & l1 & E1 & HP). exists a, s1, l1. split; [|done].
  apply M_bind_inv in E1 as (a' & s' & l' & E1 & E2). injection E2 as -> -> ->. exact E1.
Qed.

Lemma ends_ret_bind {A B} (a : A) (f : A -> M K B) v P : ends (f a) v P -> ends (mret a ≫= f) v P.
Proof. done. Qed.

Lemma ends_steady {A B} (x : M K A) (f : A -> M K B) v P :
  steady x -> (forall a, ends (f a) v P) -> ends (x ≫= f) v P.
Proof.
  intros Hx Hf. apply ends_bind. intros s l E. destruct (Hx s l) as (a & s1 & l1 & E1 & W).
  exists a, s1, l1. split; [done|]. rewrite W, E. apply Hf.
Qed.

(** What is read is in the view; what is changed changes the view by [g]. *)
Lemma ends_gets {C X B} `{Has C K} (f : C -> X) (g : V -> X) (k : X -> M K B) v P :
  (forall s l, f (get_part s) = g (view s l)) -> ends (k (g v)) v P -> ends (gets f ≫= k) v P.
Proof. intros Hg Hk s l E. rewrite gets_bind, (Hg s l), E. by apply Hk. Qed.

Lemma ends_modify {C B} `{Has C K} (f : C -> C) (g : V -> V) (k : unit -> M K B) v P :
  (forall s l, view (set_part (f (get_part s)) s) l = g (view s l)) ->
  ends (k tt) (g v) P -> ends (modify f ≫= k) v P.
Proof. intros Hg Hk s l E. rewrite modify_bind. apply Hk. by rewrite Hg, E. Qed.

Lemma ends_emit {B} e (g : V -> V) (k : unit -> M K B) v P :
  (forall s l, view s (l ++ [e]) = g (view s l)) -> ends (k tt) (g v) P -> ends (emit e ≫= k) v P.
Proof. intros Hg Hk s l E. rewrite emit_bind. apply Hk. by rewrite Hg, E. Qed.

(** ** Undefined computations *)

Definition fails {A} (x : M K A) (v : V) : Prop := forall s l, view s l = v -> x s l = Undef.

Lemma fails_here {A B} (x : M K A) (f : A -> M K B) v : fails x v -> fails (x ≫= f) v.
Proof. intros Hx s l E. by apply M_bind_undef, Hx. Qed.

Lemma fails_bind {A B} (x : M K A) (f : A -> M K B) v :
  ends x v (fun a v1 => fails (f a) v1) -> fails (x ≫= f) v.
Proof.
  intros Hx s l E. destruct (Hx s l E) as (a & s1 & l1 & E1 & Hf). rewrite (M_bind_done _ _ _ _ _ _ _ E1). by apply Hf.
Qed.

Lemma fails_steady {A B} (x : M K A) (f : A -> M K B) v :
  steady x -> (forall a, fails (f a) v) -> fails (x ≫= f) v.
Proof.
  intros Hx Hf. apply fails_bind. intros s l E. destruct (Hx s l) as (a & s1 & l1 & E1 & W).
  exists a, s1, l1. split; [done|]. rewrite W, E. apply Hf.
Qed.

Lemma fails_gets {C X B} `{Has C K} (f : C -> X) (g : V -> X) (k : X -> M K B) v :
  (forall s l, f (get_part s) = g (view s l)) -> fails (k (g v)) v -> fails (gets f ≫= k) v.
Proof. intros Hg Hk s l E. rewrite gets_bind, (Hg s l), E. by apply Hk. Qed.

Lemma fails_modify {C B} `{Has C K} (f : C -> C) (g : V -> V) (k : unit -> M K B) v :
  (forall s l, view (set_part (f (get_part s)) s) l = g (view s l)) ->
  fails (k tt) (g v) -> fails (modify f ≫= k) v.
Proof. intros Hg Hk s l E. rewrite modify_bind. apply Hk. by rewrite Hg, E. Qed.
End steady.

(** ** Going through a computation *)

Create HintDb steady discriminated.
#[export] Hint Constants Opaque : steady.
#[export] Hint Resolve steady_ret steady_gets : steady.

(** What is left are the calls without a lemma. *)
Ltac steady_step :=
  lazymatch goal with
  | |- steady _ (mbind _ _) => apply steady_bind; [|intros ?]
  | |- steady _ (if _ then _ else _) => apply steady_if
  | |- steady _ (retry _ _) => apply steady_retry
  | |- steady _ (wait_while _ _) => apply steady_wait_while
  | |- steady _ (for_each _ _) => apply steady_for_each; intros ?
  | |- steady _ (modify _) => apply steady_modify; intros ? ?; reflexivity
  | |- steady _ _ => solve [eauto 2 with steady]
  | |- forall _, _ => intros ?
  end.
Ltac steady := repeat steady_step.
