(* ===== verification/Start.v ===== *)
(** * The start of the kernel, up to its main loop (src/impl/kernel/main.c)

    [kernel_main] on the whole state: with devices that respond, every
    initialisation returns, and the main loop is reached with each callback
    and each gate where it belongs. *)
From S2P Require Export Desktop Kernel Steady.

(** ** The whole state, and how it is wired *)

Abbreviation env := (Kern * Setup * Console * SystemInfo * Pit * Rtc * Keyboard * Mouse * Idt)%type.
Abbreviation kstate := (desk env).

(** Windows, graphics mode, memory and heap; of the heap, the outline keeps
    where the first block and the next page are. *)
Abbreviation desk_state := (WM * VGAMode * mem * heap)%type.

Definition outline (d : desk_state) : WM * VGAMode * mem * (Z * Z) :=
  (d.1.1.1, d.1.1.2, d.1.2, (heap_head d.2, next_free_page (pages d.2))).

(** The callbacks registered with the drivers, the state of the keys, the setup,
    the interrupt table, the outline of the desk and the pointer
    [system_info]: what the drivers' own initialisation must leave alone. *)
Record Wiring := MkWiring {
  on_tick : Z;
  on_scancode : Z;
  on_char : Z;
  on_special : Z;
  on_mouse : Z;
  on_keymap : Z;
  wired_keys : KeyboardState;
  wired_setup : Setup;
  wired_idt : Idt;
  wired_desk : WM * VGAMode * mem * (Z * Z);
  wired_info : Z;
}.

Definition wiring (s : kstate) : Wiring :=
  let k : Keyboard := get_part s in
  MkWiring (timer_callback (get_part s)) (scancode_callback k) (char_callback k) (special_callback k)
    (mouse_callback (get_part s)) (keymap_callback k) (keyboard_state k) (get_part s) (get_part s)
    (outline s.1) (system_info (get_part s)).

(** ** Devices that respond *)

Section devices.
Context `{Hw}.

(** The loop that empties the output buffer of the PS/2 controller ends
    within [fuel] rounds. *)
Fixpoint drained (fuel : nat) (l : log) : bool :=
  match fuel with
  | O => false
  | S fuel =>
      let l1 := status_read l in
      if tst (inb_val l KEYBOARD_STATUS_PORT) 1
      then drained fuel (l1 ++ [EIn KEYBOARD_DATA_PORT (inb_val l1 KEYBOARD_DATA_PORT)])
      else true
  end.

Record responds (fuel : nat) : Prop := {
  rs_serial : always_ready tx_empty fuel (COM1_PORT + 5);
  rs_ps2 : forall l, drained fuel l = true;
  rs_clock : forall l, clock_idle fuel l = true;
}.
End devices.

(** ** Quiet computations: they return, leave the wiring alone and acknowledge
    no interrupt *)

(** The end-of-interrupt commands to the first controller. *)
Definition eois (l : log) : list Z := filter (fun v => v = PIC_EOI) (sent PIC1_COMMAND l).

Lemma eois_app l l' : eois (l ++ l') = eois l ++ eois l'.
Proof. unfold eois. by rewrite sent_app, filter_app. Qed.

Lemma eois_snoc l e : eois [e] = [] -> eois (l ++ [e]) = eois l.
Proof. intros E. by rewrite eois_app, E, app_nil_r. Qed.

Lemma eois_in l p v : eois (l ++ [EIn p v]) = eois l.
Proof. by apply eois_snoc. Qed.

Definition watched (s : kstate) (l : log) : Wiring * list Z := (wiring s, eois l).
Abbreviation quiet := (steady watched).

Lemma watched_inv s l w d : watched s l = (w, d) -> wiring s = w /\ eois l = d.
Proof. intros E. split; [exact (f_equal fst E)|exact (f_equal snd E)]. Qed.

Section quiet.
Context `{Hw}.

Lemma quiet_emit e : eois [e] = [] -> quiet (emit e).
Proof. intros E. apply steady_emit. intros s l. unfold watched. by rewrite eois_snoc. Qed.

Lemma quiet_out port v : u16 port <> PIC1_COMMAND \/ u8 v <> PIC_EOI -> quiet (port_byte_out port v).
Proof.
  intros Hne. apply quiet_emit. unfold eois, sent. cbn [omap list_omap]. destruct (Z.eqb_spec (u16 port) PIC1_COMMAND); [|done].
  rewrite filter_cons_False by (destruct Hne; done). done.
Qed.

Lemma quiet_in port : quiet (port_byte_in port).
Proof. apply steady_in. intros. unfold watched. by rewrite eois_in. Qed.

Lemma quiet_serial fuel str :
  always_ready tx_empty fuel (COM1_PORT + 5) -> quiet (serial_write_string fuel COM1_PORT str).
Proof.
  intros Hr s l. destruct (print_last fuel Hr str s l) as (l' & [t Hp] & E). exists tt, s, l'. split; [exact E|].
  unfold watched, eois. by rewrite Hp, decide_False, app_nil_r.
Qed.
End quiet.
#[export] Hint Resolve quiet_in : steady.
#[export] Hint Extern 1 (steady _ (emit _)) => apply quiet_emit; reflexivity : steady.
#[export] Hint Extern 1 (steady _ asm_cli) => apply quiet_emit; reflexivity : steady.
#[export] Hint Extern 1 (steady _ asm_sti) => apply quiet_emit; reflexivity : steady.
#[export] Hint Extern 1 (steady _ (port_byte_out _ _)) => apply quiet_out; left; vm_compute; discriminate : steady.
#[export] Hint Extern 2 (steady _ (port_byte_out _ _)) => apply quiet_out; right; vm_compute; discriminate : steady.

Section drivers.
Context `{Hw} (fuel : nat) (Hresp : responds fuel).


Lemma quiet_print str : quiet (serial_write_string fuel COM1_PORT str).
Proof. apply quiet_serial, (rs_serial fuel Hresp). Qed.
#[local] Hint Resolve quiet_print : steady.

Lemma quiet_put str : quiet (put str).
Proof. unfold put. steady. Qed.
Lemma quiet_color fg bg : quiet (set_color fg bg).
Proof. unfold set_color. steady. Qed.
#[local] Hint Resolve quiet_put quiet_color : steady.

Lemma quiet_debug str : quiet (debug_print fuel str).
Proof. unfold debug_print. steady. Qed.

Lemma quiet_status mask : quiet (status_bit mask).
Proof. unfold status_bit. steady. Qed.

Lemma quiet_mask irq : quiet (pic_clear_mask irq).
Proof. unfold pic_clear_mask, irq_port. destruct (irq <? 8); cbv beta iota zeta; steady. Qed.

Lemma quiet_got ack : quiet (got_byte ack).
Proof. unfold got_byte, status_bit. steady. Qed.
#[local] Hint Resolve quiet_debug quiet_status quiet_mask quiet_got : steady.

(** The two loops without a bound of their own. *)
Lemma quiet_flush : quiet (flush_output fuel).
Proof.
  intros s l. pose proof (rs_ps2 fuel Hresp l) as Hd. unfold flush_output. revert l Hd.
  generalize fuel. intros n. induction n as [|n IH]; intros l Hd; cbn [drained while_] in *; [done|].
  rewrite M_bind_assoc, status_bit_bind. destruct (tst (inb_val l KEYBOARD_STATUS_PORT) 1).
  - rewrite M_bind_assoc, port_in_bind by (unfold KEYBOARD_DATA_PORT; lia). rewrite ret_bind.
    destruct (IH _ Hd) as (a & s' & l' & E & W). exists a, s', l'. split; [exact E|]. rewrite W.
    unfold watched, status_read. by rewrite !eois_in.
  - rewrite ret_bind. exists tt, s, (status_read l). split; [done|]. unfold watched, status_read. by rewrite eois_in.
Qed.

Lemma quiet_clock : quiet (while_ fuel (r ← rtc_update_in_progress; mret (negb (r =? 0)))).
Proof.
  intros s l. destruct (wait_settles fuel s l (rs_clock fuel Hresp l)) as (l1 & E & _ & Hp).
  exists tt, s, (l ++ l1). split; [exact E|]. unfold watched, eois. by rewrite sent_app, Hp, app_nil_r by done.
Qed.
#[local] Hint Resolve quiet_flush quiet_clock : steady.

(** The initialisations. *)
Lemma quiet_register reg : quiet (rtc_read_register reg).
Proof. unfold rtc_read_register. steady. Qed.
#[local] Hint Resolve quiet_register : steady.

Lemma quiet_rtc_init : quiet (rtc_init fuel).
Proof. unfold rtc_init, rtc_write_register, rtc_read_time, set_current_time. steady. Qed.

Lemma quiet_rtc_enable : quiet rtc_enable_interrupt.
Proof. unfold rtc_enable_interrupt, rtc_write_register. steady. Qed.

Lemma quiet_pic_init : quiet pic_init.
Proof. unfold pic_init, port_io_wait. steady. Qed.

Lemma quiet_pit_init : quiet (pit_init fuel PIT_DEFAULT_HZ).
Proof.
  unfold pit_init, pit_set_frequency. change (PIT_DEFAULT_HZ =? 0) with false. cbv beta iota zeta. steady.
Qed.

Lemma quiet_serial_init baud : quiet (serial_init COM1_PORT baud).
Proof. unfold serial_init. steady. Qed.

Lemma quiet_sysinfo `{Cpu} DATE : quiet (sysinfo_init DATE).
Proof. unfold sysinfo_init. steady. Qed.

Lemma quiet_memory : quiet memory_init.
Proof. intros s l. do 3 eexists. split; reflexivity. Qed.

Lemma quiet_mouse_init : quiet (mouse_init fuel).
Proof. unfold mouse_init. steady. Qed.
#[local] Hint Resolve quiet_mouse_init : steady.

Lemma quiet_keyboard_init : quiet (keyboard_init fuel).
Proof. unfold keyboard_init. steady. Qed.

Lemma quiet_enable : quiet (idt_enable_interrupts fuel).
Proof. unfold idt_enable_interrupts. steady. Qed.
#[local] Hint Resolve quiet_enable quiet_rtc_init quiet_rtc_enable quiet_pic_init quiet_pit_init quiet_serial_init
  quiet_sysinfo quiet_memory quiet_keyboard_init : steady.

(** ** The whole initialisation *)

(** From any state wired as [w], [x] goes on as [y] from some state wired as
    [w'], having acknowledged nothing; a computation leads to a value when it
    goes on by returning it. *)
Definition enters {A} (x : M kstate A) (w : Wiring) (y : M kstate A) (w' : Wiring) : Prop :=
  forall s l, wiring s = w -> exists s' l', x s l = y s' l' /\ watched s' l' = (w', eois l).
Abbreviation leads x w a w' := (enters x w (mret a) w').

Lemma enters_refl {A} (x : M kstate A) w : enters x w x w.
Proof. intros s l E. exists s, l. unfold watched. by rewrite E. Qed.

Lemma enters_bind {A B} (x : M kstate A) (f : A -> M kstate B) w a w1 y w' :
  leads x w a w1 -> enters (f a) w1 y w' -> enters (x ≫= f) w y w'.
Proof.
  intros Hx Hf s l E. destruct (Hx s l E) as (s1 & l1 & E1 & [W1 D1]%watched_inv). destruct (Hf s1 l1 W1) as (s2 & l2 & E2 & W2).
  exists s2, l2. rewrite (M_bind_done _ _ _ _ _ _ _ E1). by rewrite W2, D1.
Qed.

Lemma enters_quiet {A B} (x : M kstate A) (f : A -> M kstate B) w y w' :
  quiet x -> (forall a, enters (f a) w y w') -> enters (x ≫= f) w y w'.
Proof.
  intros Hx Hf s l E. destruct (Hx s l) as (a & s1 & l1 & E1 & [W1 D1]%watched_inv).
  destruct (Hf a s1 l1) as (s2 & l2 & E2 & W2); [congruence|].
  exists s2, l2. rewrite (M_bind_done _ _ _ _ _ _ _ E1). by rewrite W2, D1.
Qed.

Lemma leads_modify {C} `{Has C kstate} (f : C -> C) w w' :
  (forall s, wiring s = w -> wiring (set_part (f (get_part s)) s) = w') -> leads (modify f) w tt w'.
Proof. intros Hf s l E. do 2 eexists. split; [reflexivity|]. unfold watched. by rewrite Hf. Qed.

(** The steps that change the wiring. *)
Lemma leads_tick f w :
  leads (pit_set_callback f) w tt
    (MkWiring f (on_scancode w) (on_char w) (on_special w) (on_mouse w) (on_keymap w) (wired_keys w) (wired_setup w) (wired_idt w) (wired_desk w) (wired_info w)).
Proof. apply leads_modify. by intros s <-. Qed.

Lemma leads_scancode f w :
  leads (keyboard_set_scancode_callback f) w tt
    (MkWiring (on_tick w) f (on_char w) (on_special w) (on_mouse w) (on_keymap w) (wired_keys w) (wired_setup w) (wired_idt w) (wired_desk w) (wired_info w)).
Proof. apply leads_modify. by intros s <-. Qed.

Lemma leads_char f w :
  leads (keyboard_set_char_callback f) w tt
    (MkWiring (on_tick w) (on_scancode w) f (on_special w) (on_mouse w) (on_keymap w) (wired_keys w) (wired_setup w) (wired_idt w) (wired_desk w) (wired_info w)).
Proof. apply leads_modify. by intros s <-. Qed.

Lemma leads_special f w :
  leads (keyboard_set_special_callback f) w tt
    (MkWiring (on_tick w) (on_scancode w) (on_char w) f (on_mouse w) (on_keymap w) (wired_keys w) (wired_setup w) (wired_idt w) (wired_desk w) (wired_info w)).
Proof. apply leads_modify. by intros s <-. Qed.

Lemma leads_mouse f w :
  leads (mouse_set_callback f) w tt
    (MkWiring (on_tick w) (on_scancode w) (on_char w) (on_special w) f (on_keymap w) (wired_keys w) (wired_setup w) (wired_idt w) (wired_desk w) (wired_info w)).
Proof. apply leads_modify. by intros s <-. Qed.

Lemma leads_idt addr base w :
  leads (idt_init addr base fuel) w tt
    (MkWiring (on_tick w) (on_scancode w) (on_char w) (on_special w) (on_mouse w) (on_keymap w) (wired_keys w) (wired_setup w)
       (MkIdt (foldl (install addr) (idt (wired_idt w)) all_vectors) (MkIdtPointer 4095 base) (Some (MkIdtPointer 4095 base))) (wired_desk w) (wired_info w)).
Proof.
  intros s l <-. destruct (idt_init_run addr base fuel s l (rs_serial fuel Hresp)) as (l' & E & [t Hp]).
  eexists _, l'. split; [exact E|]. unfold watched, eois. by rewrite Hp, decide_False, app_nil_r.
Qed.

Ltac leads_step :=
  lazymatch goal with
  | |- leads (mret _) _ _ _ => apply enters_refl
  | |- enters (mbind _ ?x) _ _ _ =>
      lazymatch x with
      | pit_set_callback _ => eapply enters_bind; [apply leads_tick|]
      | keyboard_set_scancode_callback _ => eapply enters_bind; [apply leads_scancode|]
      | keyboard_set_char_callback _ => eapply enters_bind; [apply leads_char|]
      | keyboard_set_special_callback _ => eapply enters_bind; [apply leads_special|]
      | mouse_set_callback _ => eapply enters_bind; [apply leads_mouse|]
      | idt_init _ _ _ => eapply enters_bind; [apply leads_idt|]
      | _ => apply enters_quiet; [solve [eauto 2 with steady]|intros ?]
      end
  end.

(** The wiring that [init_system] leaves. *)
Definition wired `{Linker} (addr : isr -> Z) (base : Z) (w : Wiring) : Wiring :=
  MkWiring (function "timer_tick") (function "keyboard_scancode") (function "keyboard_char") (function "special_key")
    (function "mouse_event") (on_keymap w) (wired_keys w) (wired_setup w)
    (MkIdt (foldl (install addr) (idt (wired_idt w)) all_vectors) (MkIdtPointer 4095 base) (Some (MkIdtPointer 4095 base)))
    (wired_desk w) (wired_info w).

Lemma init_system_leads `{Linker} `{Cpu} addr base DATE w :
  leads (init_system fuel addr base DATE) w 0 (wired addr base w).
Proof. unfold init_system. repeat (leads_step; cbn [on_tick on_scancode on_char on_special on_mouse on_keymap wired_keys wired_setup wired_idt wired_desk wired_info]). Qed.

Lemma quiet_clear : quiet (modify print_clear).
Proof. steady. Qed.

Lemma quiet_header : quiet print_boot_header.
Proof. unfold print_boot_header. steady. Qed.
#[local] Hint Resolve quiet_clear quiet_header : steady.

(** The first page of the wizard does not complete the setup. *)
Lemma wizard_leads w :
  current_setup_state (wired_setup w) <> SETUP_COMPLETE -> leads run_setup_wizard w tt w.
Proof.
  intros Hw. unfold run_setup_wizard. do 4 leads_step.
  eapply enters_bind; [apply (leads_modify (C := Setup) _ w w)|].
  - intros s E. subst w. cbn [wiring wired_setup] in Hw. by rewrite decide_False.
  - apply enters_quiet; [apply steady_gets|intros c]. intros s l E.
    destruct (steady_for_each _ (setup_text c) put quiet_put s l) as ([] & s' & l' & E' & W).
    exists s', l'. split; [done|]. rewrite W. unfold watched. by rewrite E.
Qed.

(** One turn of the main loop before the setup is complete only halts. *)
Lemma main_step_idle `{Linker} `{Code kstate} (s : kstate) l :
  setup_complete (get_part s) = 0 -> main_step fuel s l = Done (tt, s, l ++ [EHlt]).
Proof.
  intros E. unfold main_step. rewrite gets_bind, E. cbn [Z.eqb negb]. rewrite ret_bind, gets_bind, E.
  cbn [Z.eqb negb]. rewrite ret_bind. reflexivity.
Qed.

Lemma kernel_main_enters `{Linker} `{Cpu} `{Code kstate} addr base DATE w :
  current_setup_state (wired_setup w) <> SETUP_COMPLETE ->
  enters (kernel_main fuel addr base DATE) w (while_ fuel (main_step fuel;; mret true)) (wired addr base w).
Proof.
  intros Hs. unfold kernel_main. do 6 leads_step.
  eapply enters_bind; [apply init_system_leads|]. cbn [Z.eqb negb]. leads_step.
  eapply enters_bind; [apply wizard_leads; exact Hs|apply enters_refl].
Qed.
End drivers.

(** ** Properties *)

(** With a serial port that gets ready, a PS/2 controller whose output buffer
    can be emptied and a clock whose updates end, and when no interrupt
    arrives meanwhile, [kernel_main] returns from every initialisation and
    enters its main loop, whatever else the devices answer. By then the timer, the keyboard and the mouse have the kernel's
    callbacks, the processor's table register holds the table, each of its 256
    gates is present and targets its routine, and the setup is where it was;
    until the setup is complete, every turn of the loop only halts. *)
Theorem kernel_main_starts `{Hw} `{Linker} `{Cpu} `{Code kstate} fuel addr base DATE (s : kstate) l :
  responds fuel -> length (idt (get_part s)) = 256%nat -> get_part (C := Setup) s = setup_initial ->
  exists s' l', kernel_main fuel addr base DATE s l = while_ fuel (main_step fuel;; mret true) s' l' /\
    timer_callback (get_part s') = function "timer_tick" /\
    scancode_callback (get_part s') = function "keyboard_scancode" /\
    char_callback (get_part s') = function "keyboard_char" /\
    special_callback (get_part s') = function "special_key" /\
    mouse_callback (get_part s') = function "mouse_event" /\
    get_part s' = setup_initial /\
    idtr (get_part s') = Some (MkIdtPointer 4095 base) /\
    (forall v, 0 <= v < 256 -> exists e, idt (get_part s') !! Z.to_nat v = Some e /\
      gate_ok e = true /\ gate_target e = u64 (addr (handler_of v))) /\
    main_step fuel s' l' = Done (tt, s', l' ++ [EHlt]).
Proof.
  intros Hresp Hlen Hsetup.
  destruct (kernel_main_enters fuel Hresp addr base DATE (wiring s)) with (s := s) (l := l) as (s' & l' & E & [W _]%watched_inv);
    [cbn [wiring wired_setup]; by rewrite Hsetup|done|].
  pose proof (f_equal wired_setup W) as Hs. pose proof (f_equal wired_idt W) as Hi.
  cbn [wiring wired wired_setup wired_idt wired_desk wired_info] in Hs, Hi. rewrite Hsetup in Hs.
  exists s', l'. split; [exact E|]. split; [exact (f_equal on_tick W)|].
  split; [exact (f_equal on_scancode W)|]. split; [exact (f_equal on_char W)|].
  split; [exact (f_equal on_special W)|]. split; [exact (f_equal on_mouse W)|]. split; [exact Hs|].
  rewrite Hi. split; [done|]. split; [intros v Hv; by apply installed_gates|].
  apply main_step_idle. by rewrite Hs.
Qed.

(** A machine whose serial port is ready, whose PS/2 controller has nothing
    to read and never accepts a command, and whose clock is idle. *)
Definition w_hw_quiet : Hw := {| hw_in _ port := if port =? COM1_PORT + 5 then 0x20 else 0 |}.
Definition w_cpu : Cpu := {| cpuid_regs _ := (0, 0, 0, 0); rdmsr_regs _ := (0, 0) |}.

Definition w_kstate : kstate :=
  (wm_initial, mode_zero, w_rodata, w_h0,
   (kern_initial, setup_initial, console_initial, sysinfo_zero, pit_initial, rtc_initial, keyboard_initial,
    mouse_initial, idt_initial)).

#[local] Existing Instance w_hw_quiet.
#[local] Existing Instance w_cpu.
#[local] Existing Instance w_layout.
#[local] Existing Instance w_code.

Lemma w_responds : responds 1.
Proof.
  split.
  - intros l. exists 0%nat. split; [lia|reflexivity].
  - intros l. reflexivity.
  - intros l. reflexivity.
Qed.

Lemma kernel_main_starts_witness :
  exists (s' : kstate) l', kernel_main 1 (fun _ => 0x1000) 0x8000 [] w_kstate [] =
      while_ 1 (main_step 1;; mret true) s' l' /\
    char_callback (get_part s') = function "keyboard_char".
Proof.
  destruct (kernel_main_starts 1 (fun _ => 0x1000) 0x8000 [] w_kstate []) as (s' & l' & E & _ & _ & Hc & _).
  - exact w_responds.
  - reflexivity.
  - reflexivity.
  - exists s', l'. split; [exact E|exact Hc].
Defined.
