(* ===== verification/Interrupts.v ===== *)
(** * The interrupt routines of the kernel (src/impl/kernel/main.c, isr.c)

    The routine that the gate of each of the sixteen lines leads to, with the
    drivers' handlers and the functions of main.c that [init_system] registers
    as callbacks: one call of a C function, from its first statement to its
    return. What the processor does at the entry of an interrupt and after
    the return is not part of the sources (the routines end in [ret], and
    there is no [iretq]) and not modelled; no call is taken to interrupt
    another. The calls through pointers run the functions at the addresses. *)
From Stdlib Require Import Ascii.
From S2P Require Export Start Paint.

(** ** Calls through the registered pointers *)

Section code.
Context `{Linker} `{Hw} (fuel : nat).

(** A call at the address of a function of main.c runs it; the other functions
    whose addresses are taken are those of the windows. *)
Definition kernel_code : Code kstate := {|
  call f args :=
    let arg := default 0 (args !! 0%nat) in
    if f =? function "timer_tick" then timer_tick fuel;; mret 0
    else if f =? function "keyboard_scancode" then keyboard_scancode fuel arg;; mret 0
    else if f =? function "keyboard_char" then keyboard_char (H15 := window_code fuel) fuel arg;; mret 0
    else if f =? function "special_key" then special_key fuel;; mret 0
    else if f =? function "mouse_event" then mouse_event fuel;; mret 0
    else call (Code := window_code fuel) f args
|}.

(** A call of the routine that the gate of a line leads to. *)
Definition interrupt (irq : Z) (frame : InterruptFrame) (cr2 : Z) : M kstate unit :=
  run_isr (H4 := kernel_code) fuel (handler_of (32 + irq)) frame cr2.

Definition turn : M kstate unit := main_step (H15 := kernel_code) fuel.
End code.

(** ** What one watches *)

(** The wiring, the two counts of ticks, the last event of a special key, the
    commands sent to the two interrupt controllers, and the desk. *)
Record Seen := MkSeen {
  wires : Wiring;
  uptime : Z;
  ticks_seen : Z;
  event_seen : SpecialKeyEvent;
  eois1 : list Z;
  eois2 : list Z;
  desktop : desk_state;
}.

Definition see (s : kstate) (l : log) : Seen :=
  MkSeen (wiring s) (uptime_ticks (get_part s)) (tick_count (get_part s)) (special_event (get_part s))
    (sent PIC1_COMMAND l) (sent PIC2_COMMAND l) s.1.

(** The views after a change. *)
Definition with_pressed (ks : KeyboardState) (c : Setup) (v : Seen) : Seen :=
  let w := wires v in
  MkSeen (MkWiring (on_tick w) (on_scancode w) (on_char w) (on_special w) (on_mouse w) (on_keymap w) ks c (wired_idt w)
            (wired_desk w) (wired_info w)) (uptime v) (ticks_seen v) (event_seen v) (eois1 v) (eois2 v) (desktop v).

Definition with_setup (c : Setup) (v : Seen) : Seen := with_pressed (wired_keys (wires v)) c v.
Definition with_keys (ks : KeyboardState) (v : Seen) : Seen := with_pressed ks (wired_setup (wires v)) v.

Definition with_event (e : SpecialKeyEvent) (v : Seen) : Seen :=
  MkSeen (wires v) (uptime v) (ticks_seen v) e (eois1 v) (eois2 v) (desktop v).

Definition with_ticks (u t : Z) (v : Seen) : Seen :=
  MkSeen (wires v) u t (event_seen v) (eois1 v) (eois2 v) (desktop v).

(** The end-of-interrupt commands for a line. *)
Definition acked (irq : Z) (v : Seen) : Seen :=
  MkSeen (wires v) (uptime v) (ticks_seen v) (event_seen v) (eois1 v ++ [PIC_EOI])
    (eois2 v ++ (if 8 <=? irq then [PIC_EOI] else [])) (desktop v).

Abbreviation still := (steady see).
Abbreviation ending := (ends see).

Abbreviation failing := (fails see).

(** ** What a scancode means *)

(** The kernel's functions behind the pointers of the drivers. *)
Record registered `{Linker} (w : Wiring) : Prop := {
  rg_tick : on_tick w = function "timer_tick";
  rg_scancode : on_scancode w = function "keyboard_scancode";
  rg_char : on_char w = function "keyboard_char";
  rg_special : on_special w = function "special_key";
  rg_mouse : on_mouse w = function "mouse_event";
  rg_keymap : on_keymap w = 0;
}.

(** The scancodes, one at most, that the keyboard has for a call at [l]. *)
Definition codes_at `{Hw} (irq : Z) (l : log) : list Z :=
  if (irq =? 1) && data_ready (l ++ [ECli]) then [scancode_at l] else [].

(** On the state of the keys and the setup: a special key goes to
    [special_key], another one gives its character to the wizard. *)
Definition press (ks : KeyboardState * Setup) (sc : Z) : KeyboardState * Setup :=
  let k := update_keyboard_state sc ks.1 in
  let c := scancode_to_ascii sc k in
  (k, if is_special_key sc || (c =? 0) then ks.2 else wizard ks.2 c).

Definition pressed (v : Seen) : KeyboardState * Setup := (wired_keys (wires v), wired_setup (wires v)).

(** The scancodes whose handling is undefined: F2 and F3 going down
    ([special_key] follows the null pointer [system_info]), and the key that
    completes the setup ([window_init_gui] draws outside its buffer). *)
Definition breaks (ks : KeyboardState * Setup) (sc : Z) : bool :=
  (sc =? 0x3C) || (sc =? 0x3D) || negb (setup_complete (press ks sc).2 =? 0).

(** The states in which the setup is not complete. *)
Record setting_up `{Linker} (w : Wiring) : Prop := {
  su_registered : registered w;
  su_setup : setup_ok (wired_setup w);
  su_incomplete : setup_complete (wired_setup w) = 0;
  su_info : wired_info w = 0;
}.

Section handlers.
Context `{Linker} `{Hw} (fuel : nat).
Context (Hready : always_ready tx_empty fuel (COM1_PORT + 5)).

Lemma see_app s l l' :
  sent PIC1_COMMAND l' = [] -> sent PIC2_COMMAND l' = [] -> see s (l ++ l') = see s l.
Proof. intros E1 E2. unfold see. by rewrite !sent_app, E1, E2, !app_nil_r. Qed.

Lemma still_print str : still (serial_write_string fuel COM1_PORT str).
Proof.
  intros s l. destruct (print_last fuel Hready str s l) as (l' & [t Hp] & E). exists tt, s, l'.
  split; [exact E|]. unfold see. by rewrite !Hp, !decide_False, !app_nil_r by done.
Qed.

Lemma still_in port : still (port_byte_in port).
Proof. apply steady_in. intros. by apply see_app. Qed.
Lemma still_cli : still asm_cli.
Proof. apply steady_emit. intros. by apply see_app. Qed.
Lemma still_sti : still asm_sti.
Proof. apply steady_emit. intros. by apply see_app. Qed.
Lemma still_hlt : still asm_hlt.
Proof. apply steady_emit. intros. by apply see_app. Qed.
#[local] Hint Resolve still_print still_in still_cli still_sti still_hlt : steady.

Lemma still_put str : still (put str).
Proof. unfold put. steady. Qed.
Lemma still_color fg bg : still (set_color fg bg).
Proof. unfold set_color. steady. Qed.
#[local] Hint Resolve still_put still_color : steady.

Lemma still_status mask : still (status_bit mask).
Proof. unfold status_bit. steady. Qed.
#[local] Hint Resolve still_status : steady.

Lemma still_scan_code : still keyboard_read_scan_code.
Proof. unfold keyboard_read_scan_code. steady. Qed.

Lemma still_scancode c : still (keyboard_scancode fuel c).
Proof. unfold keyboard_scancode. steady. Qed.

Lemma still_mouse_event : still (mouse_event fuel).
Proof. unfold mouse_event. steady. Qed.

Lemma still_print_all : still sysinfo_print_all.
Proof. unfold sysinfo_print_all. steady. Qed.
#[local] Hint Resolve still_scan_code still_scancode still_mouse_event still_print_all : steady.

(** Runs the first computation of a sequence that leaves the view alone. *)
Ltac pass := apply ends_steady; [solve [steady]|intros ?].

Lemma ending_eoi {A} irq (k : unit -> M kstate A) v P :
  ending (k tt) (acked irq v) P -> ending (pic_send_eoi irq ≫= k) v P.
Proof.
  intros Hk s l <-. rewrite (M_bind_done _ _ _ _ _ _ _ (pic_send_eoi_spec irq s l)). apply Hk.
  unfold see, acked, eoi_ports. cbn [wires uptime ticks_seen event_seen eois1 eois2 desktop].
  rewrite !sent_app. destruct (8 <=? irq); cbn; by rewrite ?app_nil_r.
Qed.

(** ** The callbacks *)

Definition tick (v : Seen) : Seen := with_ticks (u32 (uptime v + 1)) (ticks_seen v) v.

Lemma timer_tick_ends v P : P tt (tick v) -> ending (timer_tick fuel) v P.
Proof.
  intros HP. unfold timer_tick. eapply (ends_modify _ _ tick); [done|]. pass.
  apply ends_then_ret. pass. destruct a0. by apply ends_ret.
Qed.

(** A special key that is not F2 or F3 going down. *)
Definition harmless (e : SpecialKeyEvent) : Prop :=
  is_pressed e = true -> key_code e <> 0x3C /\ key_code e <> 0x3D.

Lemma special_key_ends v P : harmless (event_seen v) -> P tt v -> ending (special_key fuel) v P.
Proof.
  intros He HP. unfold special_key. eapply (ends_gets _ _ event_seen); [done|].
  apply ends_then_ret. apply ends_assoc.
  apply ends_steady; [|intros _; apply ends_assoc; pass; pass; destruct a0; by apply ends_ret].
  unfold harmless in He. destruct (is_pressed _); [|steady]. destruct He as [H2 H3]; [done|].
  destruct (_ =? KEY_F1); [steady|]. decide_lia. steady.
Qed.

Lemma run_wizard_ends v P :
  let s := wired_setup (wires v) in
  P tt (with_setup (if decide (current_setup_state s = SETUP_COMPLETE)
                    then MkSetup (system_config s) 1 (current_setup_state s) else s) v) ->
  ending run_setup_wizard v P.
Proof.
  intros s HP. unfold run_setup_wizard. do 4 pass. eapply (ends_modify _ _ (fun v =>
    let s := wired_setup (wires v) in with_setup (if decide (current_setup_state s = SETUP_COMPLETE)
                    then MkSetup (system_config s) 1 (current_setup_state s) else s) v)); [done|].
  pass. apply ends_then_ret. pass. destruct a4. apply ends_ret. exact HP.
Qed.

Lemma with_setup_twice c c' v : with_setup c (with_setup c' v) = with_setup c v.
Proof. reflexivity. Qed.

Lemma handle_input_ends c v P :
  setup_ok (wired_setup (wires v)) -> P tt (with_setup (wizard (wired_setup (wires v)) c) v) ->
  ending (handle_setup_input c) v P.
Proof.
  set (s := wired_setup (wires v)). intros Hok HP. unfold handle_setup_input.
  eapply (ends_gets _ _ (fun v => current_setup_state (wired_setup (wires v)))); [done|]. fold s.
  unfold wizard in HP. destruct (is_enter c && bool_decide (current_setup_state s = SETUP_WELCOME)).
  { eapply (ends_modify _ _ (fun v => with_setup (Setup.set_state SETUP_LANGUAGE (wired_setup (wires v))) v)); [done|].
    by apply run_wizard_ends. }
  destruct (is_enter c && bool_decide (current_setup_state s = SETUP_CONFIRM)).
  { eapply (ends_modify _ _ (fun v => with_setup (Setup.set_state SETUP_COMPLETE (wired_setup (wires v))) v)); [done|].
    by apply run_wizard_ends. }
  destruct ((chr "1" <=? c) && (c <=? chr "4")).
  - eapply (ends_modify _ _ (fun v => with_setup (Setup.choose c (wired_setup (wires v))) v)); [done|].
    apply run_wizard_ends. rewrite with_setup_twice. cbn [with_setup with_pressed wires wired_setup]. fold s.
    rewrite choose_complete by apply so_complete, Hok. exact HP.
  - apply ends_ret. by destruct v as [[] ? ? ? ? ? ?].
Qed.

(** F2 and F3 going down. *)
Lemma special_key_fails v :
  is_pressed (event_seen v) = true -> key_code (event_seen v) = 0x3C \/ key_code (event_seen v) = 0x3D ->
  wired_info (wires v) = 0 -> failing (special_key fuel) v.
Proof.
  intros Hp Hk Hi. assert (failing deref_system_info v) as Hd.
  { unfold deref_system_info. eapply (fails_gets _ _ (fun v => wired_info (wires v))); [done|]. by rewrite Hi. }
  unfold special_key. eapply (fails_gets _ _ event_seen); [done|]. rewrite Hp. apply fails_here.
  destruct Hk as [-> | ->]; cbn [Z.eqb Pos.eqb KEY_F1].
  - by apply fails_here.
  - apply fails_steady; [steady|intros _]. by apply fails_here.
Qed.

(** A key that leaves the setup incomplete. *)
Lemma keyboard_char_ends `{Code kstate} c v P :
  setup_ok (wired_setup (wires v)) -> setup_complete (wired_setup (wires v)) = 0 ->
  setup_complete (wizard (wired_setup (wires v)) c) = 0 -> P tt (with_setup (wizard (wired_setup (wires v)) c) v) ->
  ending (keyboard_char fuel c) v P.
Proof using Hready.
  intros Hok Hs Hs1 HP. unfold keyboard_char.
  eapply (ends_gets _ _ (fun v => setup_complete (wired_setup (wires v)))); [done|]. rewrite Hs. cbn [Z.eqb].
  apply ends_bind, handle_input_ends; [done|]. set (v1 := with_setup (wizard (wired_setup (wires v)) c) v).
  eapply (ends_gets _ _ (fun v => setup_complete (wired_setup (wires v)))); [done|].
  change (wired_setup (wires v1)) with (wizard (wired_setup (wires v)) c). rewrite Hs1. by apply ends_ret.
Qed.

(** The key that completes it. *)
Lemma keyboard_char_fails `{Code kstate} c v :
  setup_ok (wired_setup (wires v)) -> setup_complete (wired_setup (wires v)) = 0 ->
  setup_complete (wizard (wired_setup (wires v)) c) <> 0 -> failing (keyboard_char fuel c) v.
Proof using Hready.
  intros Hok Hs Hs1. unfold keyboard_char.
  eapply (fails_gets _ _ (fun v => setup_complete (wired_setup (wires v)))); [done|]. rewrite Hs. cbn [Z.eqb].
  apply fails_bind, handle_input_ends; [done|]. set (v1 := with_setup (wizard (wired_setup (wires v)) c) v).
  eapply (fails_gets _ _ (fun v => setup_complete (wired_setup (wires v)))); [done|].
  change (wired_setup (wires v1)) with (wizard (wired_setup (wires v)) c). decide_lia. cbn [negb].
  apply fails_steady; [steady|intros _]. intros [[[[wm cm] m] h] e] l _.
  destruct (window_init_run e fuel Hready wm cm m h l) as (l' & E & _).
  rewrite (M_bind_done _ _ _ _ _ _ _ E). by apply M_bind_undef, init_gui_overruns.
Qed.

(** ** Calls of the callbacks *)

Context (Hpl : placed).

Let kcode : Code kstate := kernel_code fuel.
#[local] Existing Instance kcode | 0.

(** A call at the address of a callback runs it. *)
Ltac called := cbv beta iota delta [call kcode kernel_code]; rewrite !(function_eqb Hpl) by listed; reflexivity.

Lemma call_tick : call (function "timer_tick") [] = (timer_tick fuel;; mret 0).
Proof using Hpl. called. Qed.
Lemma call_scancode c : call (function "keyboard_scancode") [c] = (keyboard_scancode fuel c;; mret 0).
Proof using Hpl. called. Qed.
Lemma call_char c : call (function "keyboard_char") [c] = (keyboard_char (H15 := window_code fuel) fuel c;; mret 0).
Proof using Hpl. called. Qed.
Lemma call_special : call (function "special_key") [] = (special_key fuel;; mret 0).
Proof using Hpl. called. Qed.
Lemma call_mouse : call (function "mouse_event") [] = (mouse_event fuel;; mret 0).
Proof using Hpl. called. Qed.

(** A call of a callback in the middle of a handler. *)
Lemma called_ends {A} f args (x : M kstate unit) (k : unit -> M kstate A) v P :
  call f args = (x;; mret 0) -> ending x v (fun _ v1 => ending (k tt) v1 P) -> ending (call_void f args ≫= k) v P.
Proof. intros E Hx. unfold call_void. rewrite E. do 2 apply ends_assoc. by apply ends_bind. Qed.

Lemma called_passes {A} f args (x : M kstate unit) (k : unit -> M kstate A) v :
  call f args = (x;; mret 0) -> still x -> failing (k tt) v -> failing (call_void f args ≫= k) v.
Proof.
  intros E Hx Hk. unfold call_void. rewrite E. apply fails_steady; [|by intros []]. steady.
Qed.

Lemma called_fails f args (x : M kstate unit) v :
  call f args = (x;; mret 0) -> failing x v -> failing (call_void f args) v.
Proof. intros E Hx. unfold call_void. rewrite E. by do 2 apply fails_here. Qed.

(** ** The handlers *)

Lemma ends_still {A} (x : M kstate A) v (P : A -> Seen -> Prop) :
  still x -> (forall a, P a v) -> ending x v P.
Proof. intros Hx HP s l <-. destruct (Hx s l) as (a & s' & l' & E & W'). exists a, s', l'. by rewrite W'. Qed.

Definition count_tick (v : Seen) : Seen := with_ticks (uptime v) (u64 (ticks_seen v + 1)) v.

Lemma timer_ends v P :
  on_tick (wires v) = function "timer_tick" -> P tt (acked 0 (tick (count_tick v))) ->
  ending (isr_timer fuel) v P.
Proof using Hpl Hready.
  intros Hc HP. unfold isr_timer, pit_handler.
  eapply (ends_modify _ _ count_tick); [done|]. pass. pass.
  eapply (ends_gets _ _ (fun v => on_tick (wires v))); [done|]. change (on_tick (wires (count_tick v))) with (on_tick (wires v)).
  rewrite Hc, (function_nonnull Hpl) by listed. cbn [negb].
  apply (called_ends _ _ _ _ _ _ call_tick), timer_tick_ends. apply ends_then_ret, ending_eoi. by apply ends_ret.
Qed.

Lemma mouse_ends v P :
  on_mouse (wires v) = function "mouse_event" -> P tt (acked 12 v) -> ending (isr_mouse fuel) v P.
Proof using Hpl Hready.
  intros Hc HP. unfold isr_mouse, serial_line. apply ends_bind. unfold mouse_handler. pass. pass.
  assert (forall k, ending (pic_send_eoi MOUSE_IRQ) v (fun _ v' => ending (serial_write_string fuel COM1_PORT k) v' P)) as Heoi.
  { intros k. apply ends_then_ret, ending_eoi, ends_ret, ends_still; [apply still_print|]. by intros []. }
  destruct (negb _); [by pass|]. do 3 pass. apply ends_bind.
  eapply ends_weaken with (P := fun _ v' => v' = v); [|intros ? ? ->; apply Heoi].
  destruct (_ =? 0); [by apply ends_still; [steady|]|]. destruct (_ =? 1); [by apply ends_still; [steady|]|].
  destruct (_ =? 2); [|by apply ends_still; [steady|]]. do 5 pass.
  eapply (ends_gets _ _ (fun v => on_mouse (wires v))); [done|]. rewrite Hc, (function_nonnull Hpl) by listed. cbn [negb].
  apply ends_assoc, (called_ends _ _ _ _ _ _ call_mouse), ends_still; [steady|intros _].
  pass. by apply ends_still; [steady|].
Qed.

(** *** The keyboard *)

Lemma special_event_code sc st :
  0 <= sc < 256 -> is_pressed (special_event_of sc st) = true -> key_code (special_event_of sc st) = sc.
Proof.
  unfold special_event_of. cbn [is_pressed key_code].
  apply (forall_below (fun sc => negb (is_release sc) = true -> key_of sc = sc) 256). vm_compute. reflexivity.
Qed.

Lemma safe_harmless sc st : 0 <= sc < 256 -> sc <> 0x3C -> sc <> 0x3D -> harmless (special_event_of sc st).
Proof. intros Hr H2 H3 Hp. by rewrite special_event_code. Qed.

(** What a keyboard call with [codes] does to the view. *)
Definition keyed (codes : list Z) (v v' : Seen) : Prop :=
  exists e, let p := foldl press (pressed v) codes in v' = acked 1 (with_event e (with_pressed p.1 p.2 v)).

(** The choice of the handler between a special key and a character, in the view
    [v] after the update of the keys. *)
Section scancode.
Context (sc : Z) (v : Seen).
Let w := wires v.
Let ks := update_keyboard_state sc (wired_keys w).
Let v1 := with_keys ks v.
Context (Hsu : setting_up w) (Hsc : 0 <= sc < 256).

(** The end of the handler. *)
Lemma handler_end_ends e P :
  (forall v', keyed [sc] v v' -> P tt v') ->
  ending (pic_send_eoi KEYBOARD_IRQ ;; asm_sti) (with_event e (with_pressed ks (press (pressed v) sc).2 v)) P.
Proof using Type.
  intros HP. apply ending_eoi, ends_still; [steady|]. intros []. apply HP. by exists e.
Qed.

Lemma scancode_ends P :
  breaks (pressed v) sc = false -> (forall v', keyed [sc] v v' -> P tt v') -> ending (handle_scancode fuel sc) v P.
Proof using Hpl Hready Hsu Hsc.
  intros Hb HP. pose proof Hsu as [[_ Rsc Rch Rsp _ Rkm] Hok Hs _].
  unfold breaks in Hb. apply orb_false_iff in Hb as [[H2 H3]%orb_false_iff Hs1%negb_false_iff].
  pose proof (fun e => handler_end_ends e P HP) as Hend. unfold press in Hend, Hs1. cbn [fst snd pressed] in Hend, Hs1. fold w ks in Hend, Hs1.
  unfold handle_scancode. pass. eapply (ends_modify _ _ (fun v => with_keys (update_keyboard_state sc (wired_keys (wires v))) v)); [done|].
  fold w ks v1. eapply (ends_gets _ _ (fun v => on_scancode (wires v))); [done|].
  change (on_scancode (wires v1)) with (on_scancode w). unfold call_if.
  rewrite Rsc, (function_nonnull Hpl) by listed. cbn [negb].
  apply (called_ends _ _ _ _ _ _ (call_scancode sc)), ends_still; [steady|intros _].
  destruct (is_special_key sc); cbn [orb] in Hend, Hs1.
  - apply ends_assoc. eapply (ends_gets _ _ (fun v => wired_keys (wires v))); [done|]. change (wired_keys (wires v1)) with ks.
    unfold handle_special_key. do 2 apply ends_assoc.
    eapply (ends_modify _ _ (with_event (special_event_of sc ks))); [done|]. apply ends_assoc.
    eapply (ends_gets _ _ (fun v => on_keymap (wires v))); [done|].
    change (on_keymap (wires (with_event _ v1))) with (on_keymap w). unfold call_if. rewrite Rkm.
    cbn [Z.eqb negb]. apply ends_ret_bind, ends_assoc.
    eapply (ends_gets _ _ (fun v => on_special (wires v))); [done|].
    change (on_special (wires (with_event _ v1))) with (on_special w).
    rewrite Rsp, (function_nonnull Hpl) by listed. cbn [negb].
    apply (called_ends _ _ _ _ _ _ call_special), special_key_ends; [apply safe_harmless; lia|apply Hend].
  - apply ends_assoc. eapply (ends_gets _ _ (fun v => on_char (wires v))); [done|]. change (on_char (wires v1)) with (on_char w).
    rewrite Rch, (function_nonnull Hpl) by listed. cbn [negb]. apply ends_assoc.
    eapply (ends_gets _ _ (fun v => wired_keys (wires v))); [done|]. change (wired_keys (wires v1)) with ks.
    destruct (scancode_to_ascii sc ks =? 0) eqn:Hc; cbn [negb].
    { apply ends_ret_bind. exact (Hend (event_seen v)). }
    apply ends_assoc. eapply (ends_gets _ _ (fun v => on_char (wires v))); [done|]. change (on_char (wires v1)) with (on_char w).
    rewrite Rch. apply (called_ends _ _ _ _ _ _ (call_char _)), keyboard_char_ends; [done|done|by apply Z.eqb_eq|].
    exact (Hend (event_seen v)).
Qed.

Lemma scancode_fails : breaks (pressed v) sc = true -> failing (handle_scancode fuel sc) v.
Proof using Hpl Hready Hsu Hsc.
  intros Hb. pose proof Hsu as [[_ Rsc Rch Rsp _ Rkm] Hok Hs Hi].
  unfold handle_scancode. apply fails_steady; [steady|intros _].
  eapply (fails_modify _ _ (fun v => with_keys (update_keyboard_state sc (wired_keys (wires v))) v)); [done|].
  fold w ks v1. eapply (fails_gets _ _ (fun v => on_scancode (wires v))); [done|].
  change (on_scancode (wires v1)) with (on_scancode w). unfold call_if.
  rewrite Rsc, (function_nonnull Hpl) by listed. cbn [negb].
  apply (called_passes _ _ _ _ _ (call_scancode sc)); [steady|]. apply fails_here.
  unfold breaks, press in Hb. cbn [fst snd pressed] in Hb. fold w ks in Hb.
  destruct (is_special_key sc) eqn:Hspecial; cbn [orb] in Hb.
  - rewrite Hs in Hb. cbn [Z.eqb negb] in Hb. rewrite orb_false_r in Hb.
    assert (sc = 0x3C \/ sc = 0x3D) as Hk by lia.
    eapply (fails_gets _ _ (fun v => wired_keys (wires v))); [done|]. change (wired_keys (wires v1)) with ks.
    apply fails_bind. unfold handle_special_key.
    eapply (ends_modify _ _ (with_event (special_event_of sc ks))); [done|].
    eapply (ends_gets _ _ (fun v => on_keymap (wires v))); [done|].
    change (on_keymap (wires (with_event _ v1))) with (on_keymap w). unfold call_if. rewrite Rkm.
    cbn [Z.eqb negb]. apply ends_ret.
    eapply (fails_gets _ _ (fun v => on_special (wires v))); [done|].
    change (on_special (wires (with_event _ v1))) with (on_special w).
    rewrite Rsp, (function_nonnull Hpl) by listed. cbn [negb]. apply (called_fails _ _ _ _ call_special), special_key_fails; [by destruct Hk as [-> | ->]| |done].
    change (key_code (special_event_of sc ks) = 0x3C \/ key_code (special_event_of sc ks) = 0x3D).
    rewrite special_event_code; [done|done|by destruct Hk as [-> | ->]].
  - assert (scancode_to_ascii sc ks =? 0 = false /\ setup_complete (wizard (wired_setup w) (scancode_to_ascii sc ks)) <> 0) as [Hc Hs1].
    { destruct (Z.eqb_spec sc 0x3C) as [->|]; [done|]. destruct (Z.eqb_spec sc 0x3D) as [->|]; [done|]. cbn [orb] in Hb.
      destruct (scancode_to_ascii sc ks =? 0); [rewrite Hs in Hb; done|]. split; [done|]. lia. }
    eapply (fails_gets _ _ (fun v => on_char (wires v))); [done|]. change (on_char (wires v1)) with (on_char w).
    rewrite Rch, (function_nonnull Hpl) by listed. cbn [negb].
    eapply (fails_gets _ _ (fun v => wired_keys (wires v))); [done|]. change (wired_keys (wires v1)) with ks.
    rewrite Hc. cbn [negb].
    eapply (fails_gets _ _ (fun v => on_char (wires v))); [done|]. change (on_char (wires v1)) with (on_char w).
    rewrite Rch. by apply (called_fails _ _ _ _ (call_char _)), keyboard_char_fails.
Qed.
End scancode.

(** ** Any line *)

Lemma report_ends msg irq v (P : unit -> Seen -> Prop) : P tt (acked irq v) -> ending (report fuel msg irq) v P.
Proof using Hready.
  intros HP. unfold report, serial_line. pass. apply ends_then_ret, ending_eoi. by apply ends_ret.
Qed.

(** A byte that the keyboard has when its routine is called stays there until it
    is read. *)
Definition keeps_byte (l : log) : Prop := data_ready (l ++ [ECli]) = true -> data_ready (status_read (l ++ [ECli])) = true.

Lemma keyboard_ends s l :
  setting_up (wiring s) -> keeps_byte l ->
  if existsb (breaks (pressed (see s l))) (codes_at 1 l) then isr_keyboard fuel s l = Undef
  else exists s' l', isr_keyboard fuel s l = Done (tt, s', l') /\ keyed (codes_at 1 l) (see s l) (see s' l').
Proof using Hpl Hready.
  intros Hsu Hk. unfold isr_keyboard, keyboard_handler.
  rewrite asm_cli_bind, status_bit_bind. fold (data_ready (l ++ [ECli])). unfold codes_at. cbn [Z.eqb Pos.eqb andb].
  assert (see s (status_read (l ++ [ECli])) = see s l) as Es1 by (unfold status_read; by rewrite !see_app).
  destruct (data_ready (l ++ [ECli])) eqn:Hd; cbn [negb existsb].
  - rewrite read_scan_code_ready by by apply Hk. fold (scancode_log l) (scancode_at l). rewrite orb_false_r.
    assert (see s (scancode_log l ++ [EIn KEYBOARD_DATA_PORT (scancode_at l)]) = see s l) as Es2.
    { unfold scancode_log. rewrite see_app by done. unfold status_read at 1. rewrite see_app by done. exact Es1. }
    assert (0 <= scancode_at l < 256) as Hsc by apply u8_range.
    destruct (breaks (pressed (see s l)) (scancode_at l)) eqn:Hb.
    + by apply (scancode_fails (scancode_at l) (see s l)).
    + destruct (scancode_ends (scancode_at l) (see s l) Hsu Hsc (fun _ v' => keyed [scancode_at l] (see s l) v') Hb)
        with (s := s) (l := scancode_log l ++ [EIn KEYBOARD_DATA_PORT (scancode_at l)])
        as ([] & s' & l' & E & Hkd); [done|done|by exists s', l'].
  - destruct (ending_eoi (A := unit) KEYBOARD_IRQ (fun _ => asm_sti) (see s l) (fun _ v' => keyed [] (see s l) v'))
      with (s := s) (l := status_read (l ++ [ECli])) as ([] & s' & l' & E & Hkd); [|done|by exists s', l'].
    apply ends_still; [steady|]. intros []. exists (event_seen (see s l)). by destruct (see s l) as [[] ? ? ? ? ? ?].
Qed.

(** What a call on a line with [codes] from the keyboard does to the view. *)
Definition served (irq : Z) (codes : list Z) (v v' : Seen) : Prop :=
  if irq =? 0 then v' = acked 0 (tick (count_tick v))
  else if irq =? 1 then keyed codes v v' else v' = acked irq v.

Lemma interrupt_ends irq frame cr2 s l :
  0 <= irq < 16 -> setting_up (wiring s) -> keeps_byte l ->
  if existsb (breaks (pressed (see s l))) (codes_at irq l) then interrupt fuel irq frame cr2 s l = Undef
  else exists s' l', interrupt fuel irq frame cr2 s l = Done (tt, s', l') /\ served irq (codes_at irq l) (see s l) (see s' l').
Proof using Hpl Hready.
  intros Hi Hsu Hk. unfold interrupt.
  assert (forall x, ending x (see s l) (fun _ v' => served irq [] (see s l) v') ->
    exists s' l', x s l = Done (tt, s', l') /\ served irq [] (see s l) (see s' l')) as Hend.
  { intros x Hx. destruct (Hx s l eq_refl) as ([] & s' & l' & E & Hv). by exists s', l'. }
  assert (irq <> 1 -> codes_at irq l = []) as Hnone by (intros; unfold codes_at; by decide_lia).
  assert (irq ∈ seqZ 0 16) as Hin by (apply elem_of_seqZ; lia). revert Hend.
  change (seqZ 0 16) with [0; 1; 2; 3; 4; 5; 6; 7; 8; 9; 10; 11; 12; 13; 14; 15] in Hin.
  repeat (apply elem_of_cons in Hin as [->|Hin]); [..|by apply elem_of_nil in Hin]; intros Hend;
    try rewrite Hnone by done; cbn [existsb];
    (match goal with |- context [handler_of ?x] =>
       let h := eval vm_compute in (handler_of x) in change (handler_of x) with h end); cbn [run_isr].
  all: try by apply Hend, report_ends.
  - apply Hend, timer_ends; [|done]. apply (rg_tick _ (su_registered _ Hsu)).
  - by apply keyboard_ends.
  - by apply Hend, ends_then_ret, ending_eoi, ends_ret.
  - apply Hend, mouse_ends; [|done]. apply (rg_mouse _ (su_registered _ Hsu)).
Qed.

(** The parts of the view after the call. *)
Lemma served_parts irq l v v' :
  setting_up (wires v) -> existsb (breaks (pressed v)) (codes_at irq l) = false -> served irq (codes_at irq l) v v' ->
  setting_up (wires v') /\ pressed v' = foldl press (pressed v) (codes_at irq l) /\ desktop v' = desktop v /\
  wired_idt (wires v') = wired_idt (wires v) /\
  uptime v' = (if irq =? 0 then u32 (uptime v + 1) else uptime v) /\
  ticks_seen v' = (if irq =? 0 then u64 (ticks_seen v + 1) else ticks_seen v) /\
  eois1 v' = eois1 v ++ [PIC_EOI] /\ eois2 v' = eois2 v ++ (if 8 <=? irq then [PIC_EOI] else []).
Proof.
  intros Hsu Hb Hv. unfold served in Hv. destruct (Z.eqb_spec irq 0) as [->|Hn0]; [by subst v'|].
  destruct (Z.eqb_spec irq 1) as [->|Hn1].
  - destruct Hv as [e ->]. split; [|split; [symmetry; apply surjective_pairing|done]].
    cbn [wires acked with_event with_pressed]. set (p := foldl press (pressed v) (codes_at 1 l)).
    assert (setup_ok p.2 /\ setup_complete p.2 = 0) as [Hok Hs].
    { destruct Hsu as [_ Hok Hs _]. unfold p, codes_at in *. destruct (_ && _); [|done]. cbn [foldl existsb] in *.
      rewrite orb_false_r in Hb. unfold breaks in Hb. apply orb_false_iff in Hb as [_ Hb%negb_false_iff].
      split; [|by apply Z.eqb_eq]. unfold press. cbn [snd]. destruct (_ || _); [done|by apply wizard_ok]. }
    destruct Hsu as [[] _ _ Hi]. by split.
  - subst v'. unfold codes_at. rewrite (proj2 (Z.eqb_neq irq 1) Hn1). by split_and!.
Qed.
End handlers.

(** ** Properties *)

(** A state after power-on. *)
Record powered (s : kstate) : Prop := {
  pw_idt : length (idt (get_part s)) = 256%nat;
  pw_setup : get_part (C := Setup) s = setup_initial;
  pw_keyboard : get_part (C := Keyboard) s = keyboard_initial;
  pw_info : system_info (get_part s) = 0;
}.

(** What [kernel_main] has done when it enters its loop. *)
Lemma kernel_main_ready `{Hw} `{Linker} `{Cpu} fuel addr table DATE (s : kstate) l :
  responds fuel -> powered s ->
  exists s0 l0, kernel_main (H15 := kernel_code fuel) fuel addr table DATE s l = while_ fuel (turn fuel;; mret true) s0 l0 /\
    eois l0 = eois l /\ setting_up (wiring s0) /\ pressed (see s0 l0) = (kbs_initial, setup_initial) /\
    idtr (get_part s0) = Some (MkIdtPointer 4095 table) /\
    forall v, 0 <= v < 256 -> exists e, idt (get_part s0) !! Z.to_nat v = Some e /\
      gate_ok e = true /\ gate_target e = u64 (addr (handler_of v)).
Proof.
  intros Hresp [Hlen Hsetup Hkbd Hinfo].
  destruct (kernel_main_enters (H2 := kernel_code fuel) fuel Hresp addr table DATE (wiring s)) with (s := s) (l := l)
    as (s0 & l0 & E & [Hw0 Hd0]%watched_inv); [cbn [wiring wired_setup]; by rewrite Hsetup|done|].
  assert (pressed (see s0 l0) = (kbs_initial, setup_initial)) as Hp0.
  { unfold pressed. cbn [see wires]. rewrite Hw0. cbn [wired wiring wired_keys wired_setup]. by rewrite Hkbd, Hsetup. }
  exists s0, l0. split; [exact E|]. split; [exact Hd0|]. split.
  { rewrite Hw0. split; cbn [wired wiring wired_setup wired_info]; rewrite ?Hsetup; [|apply setup_initial_ok|done|done].
    split; [done..|exact (f_equal keymap_callback Hkbd)]. }
  split; [exact Hp0|]. pose proof (f_equal wired_idt Hw0) as Ht0. cbn [wiring wired wired_idt] in Ht0. rewrite Ht0.
  split; [done|]. intros v Hv. by apply installed_gates.
Qed.

(** C1. The interrupt routines serve the kernel until the setup is complete. From
    power-on state, with devices that respond and when no interrupt arrives
    meanwhile, [kernel_main] reaches its main loop with every gate present and
    leading to its routine, the kernel's callbacks registered and the setup at
    its start. In every state with these callbacks in which the setup is not
    complete, a turn of the loop only halts, and a call of the routine of any
    of the sixteen lines (with a keyboard that keeps its byte until it is
    read) is undefined if its scancode is F2 or F3 going down or
    the key that completes the setup, and otherwise returns to such a state:
    keys and setup have become exactly what the scancode means, the timer's
    two counters have advanced on line 0 only, each controller the line goes
    through has got one end-of-interrupt command, and the interrupt table and
    the desk (windows, graphics mode, memory, heap) are unchanged. The calls
    are those of C functions: entry and return of an interrupt are not part of
    the sources. *)
Theorem routines_serve_setup `{Hw} `{Linker} `{Cpu} fuel addr table DATE (s : kstate) l :
  responds fuel -> placed -> powered s ->
  exists s0 l0, kernel_main (H15 := kernel_code fuel) fuel addr table DATE s l = while_ fuel (turn fuel;; mret true) s0 l0 /\
  idtr (get_part s0) = Some (MkIdtPointer 4095 table) /\
  (forall v, 0 <= v < 256 -> exists e, idt (get_part s0) !! Z.to_nat v = Some e /\
    gate_ok e = true /\ gate_target e = u64 (addr (handler_of v))) /\
  (keyboard_state (get_part s0), get_part s0) = (kbs_initial, setup_initial) /\ setting_up (wiring s0) /\
  forall s1 l1, setting_up (wiring s1) ->
    turn fuel s1 l1 = Done (tt, s1, l1 ++ [EHlt]) /\
    forall irq frame cr2, 0 <= irq < 16 -> keeps_byte l1 ->
      let p := (keyboard_state (get_part s1), get_part s1) in
      if existsb (breaks p) (codes_at irq l1) then interrupt fuel irq frame cr2 s1 l1 = Undef
      else exists s2 l2, interrupt fuel irq frame cr2 s1 l1 = Done (tt, s2, l2) /\ setting_up (wiring s2) /\
        (keyboard_state (get_part s2), get_part s2) = foldl press p (codes_at irq l1) /\
        s2.1 = s1.1 /\ get_part (C := Idt) s2 = get_part s1 /\
        uptime_ticks (get_part s2) = (if irq =? 0 then u32 (uptime_ticks (get_part s1) + 1) else uptime_ticks (get_part s1)) /\
        tick_count (get_part s2) = (if irq =? 0 then u64 (tick_count (get_part s1) + 1) else tick_count (get_part s1)) /\
        sent PIC1_COMMAND l2 = sent PIC1_COMMAND l1 ++ [PIC_EOI] /\
        sent PIC2_COMMAND l2 = sent PIC2_COMMAND l1 ++ (if 8 <=? irq then [PIC_EOI] else []).
Proof.
  intros Hresp Hpl Hpw. pose proof (rs_serial fuel Hresp) as Hready.
  destruct (kernel_main_ready fuel addr table DATE s l Hresp Hpw) as (s0 & l0 & E & _ & Hsu & Hp0 & Ht & Hg).
  exists s0, l0. split; [exact E|]. split; [exact Ht|]. split; [exact Hg|]. split; [exact Hp0|]. split; [exact Hsu|].
  intros s1 l1 Hsu1. split.
  { exact (main_step_idle (H1 := kernel_code fuel) fuel s1 l1 (su_incomplete (wiring s1) Hsu1)). }
  intros irq frame cr2 Hi Hk p.
  pose proof (interrupt_ends fuel Hready Hpl irq frame cr2 s1 l1 Hi Hsu1 Hk) as Hend.
  change (pressed (see s1 l1)) with p in Hend. destruct (existsb (breaks p) (codes_at irq l1)) eqn:Hb; [exact Hend|].
  destruct Hend as (s2 & l2 & E2 & Hv). exists s2, l2. split; [exact E2|].
  exact (served_parts irq l1 (see s1 l1) (see s2 l2) Hsu1 Hb Hv).
Qed.

(** ** A concrete machine *)

#[local] Existing Instance w_hw_quiet.
#[local] Existing Instance w_cpu.

(** Functions that lie apart. *)
#[local] Existing Instance w_functions.

Lemma w_powered : powered w_kstate.
Proof. by split. Qed.

(** After the start: a call of the mouse's routine. *)
Lemma routines_serve_setup_witness :
  exists s0 l0 s1 l1, interrupt 1 12 (MkFrame 0 0 0 0 0 0) 0 s0 l0 = Done (tt, s1, l1) /\
    sent PIC1_COMMAND l1 = sent PIC1_COMMAND l0 ++ [PIC_EOI] /\ sent PIC2_COMMAND l1 = sent PIC2_COMMAND l0 ++ [PIC_EOI].
Proof.
  destruct (routines_serve_setup 1 (fun _ => 0x1000) 0x8000 [] w_kstate []) as (s0 & l0 & _ & _ & _ & _ & Hsu & Hall).
  - exact w_responds.
  - exact w_placed.
  - exact w_powered.
  - destruct (proj2 (Hall s0 l0 Hsu) 12 (MkFrame 0 0 0 0 0 0) 0) as (s1 & l1 & E & _ & _ & _ & _ & _ & _ & E1 & E2);
      [lia|intros Hd; exact Hd|].
    exists s0, l0, s1, l1. split; [exact E|]. split; [exact E1|exact E2].
Defined.
