(* ===== verification/Typing.v ===== *)
(** * Typing at the setup (src/impl/kernel/main.c, isr.c, keyboard.c)

    The scancodes of a keyboard, handed to the kernel by calls of its
    interrupt routine, make the choices that were typed; the last key ends in
    undefined behaviour, since the desktop's first drawing leaves its buffer. *)
From S2P Require Export Interrupts.

(** ** What the scancodes of the setup mean *)

(** A key that goes down and up again. *)
Definition stroke (key : Z) : list Z := [key; key + 0x80].

(** ENTER and five digits: the key of digit [d] has the code [d + 1]. *)
Definition typed_codes (d1 d2 d3 d4 d5 : Z) : list Z :=
  mjoin (stroke <$> ([0x1C] ++ (Z.add 1 <$> [d1; d2; d3; d4; d5]))).

Lemma press_digit d s :
  1 <= d <= 4 -> foldl press (kbs_initial, s) (stroke (1 + d)) = (kbs_initial, wizard s (48 + d)).
Proof. intros Hd. assert (d = 1 \/ d = 2 \/ d = 3 \/ d = 4) as [E|[E|[E|E]]] by lia; subst d; reflexivity. Qed.

Lemma press_enter s : foldl press (kbs_initial, s) (stroke 0x1C) = (kbs_initial, wizard s 10).
Proof. reflexivity. Qed.

Lemma typed_codes_mean d1 d2 d3 d4 d5 :
  1 <= d1 <= 4 -> 1 <= d2 <= 4 -> 1 <= d3 <= 4 -> 1 <= d4 <= 4 -> 1 <= d5 <= 4 ->
  exists lang w h,
    languages !! Z.to_nat (d1 - 1) = Some lang /\ resolutions !! Z.to_nat (d2 - 1) = Some (w, h) /\
    foldl press (kbs_initial, setup_initial) (typed_codes d1 d2 d3 d4 d5) =
      (kbs_initial, MkSetup (MkConfig lang w h 0 (d3 - 1) (d5 - 1) (d4 - 1)) 0 SETUP_CONFIRM).
Proof.
  intros H1 H2 H3 H4 H5.
  destruct (setup_keys_confirm d1 d2 d3 d4 d5 H1 H2 H3 H4 H5) as (lang & w & h & Hl & Hr & Hw).
  exists lang, w, h. split; [done|]. split; [done|]. unfold typed_codes.
  cbn [app fmap list_fmap]. cbn [mjoin list_join]. rewrite !foldl_app, press_enter.
  rewrite !press_digit by done. cbn [foldl]. f_equal. exact Hw.
Qed.

(** ** Sequences of scancodes *)

(** No scancode on the way is one whose handling is undefined. *)
Fixpoint harmless_codes (p : KeyboardState * Setup) (codes : list Z) : bool :=
  match codes with
  | [] => true
  | c :: codes => negb (breaks p c) && harmless_codes (press p c) codes
  end.

Lemma press_ok p c : setup_ok p.2 -> setup_ok (press p c).2.
Proof. intros Hok. unfold press. cbn [snd]. destruct (_ || _); [done|by apply wizard_ok]. Qed.

Lemma press_incomplete p c : setup_ok p.2 -> setup_complete (press p c).2 = 0 -> setup_complete p.2 = 0.
Proof. intros Hok. unfold press. cbn [snd]. destruct (_ || _); [done|by apply wizard_incomplete]. Qed.

Lemma presses_incomplete codes p :
  setup_ok p.2 -> setup_complete (foldl press p codes).2 = 0 -> setup_complete p.2 = 0.
Proof.
  revert p. induction codes as [|c codes IH]; intros p Hok Hs; [done|].
  apply (press_incomplete p c Hok), IH; [by apply press_ok|done].
Qed.

(** Without F2 and F3, and when the setup is not complete at the end. *)
Lemma codes_harmless codes p :
  setup_ok p.2 -> setup_complete (foldl press p codes).2 = 0 -> Forall (fun c => c <> 0x3C /\ c <> 0x3D) codes ->
  harmless_codes p codes = true.
Proof.
  intros Hok Hs Hc. revert p Hok Hs. induction Hc as [|c codes [H2 H3] _ IH]; intros p Hok Hs; [done|].
  cbn [harmless_codes foldl] in *. rewrite IH by (done || by apply press_ok). rewrite andb_true_r. unfold breaks.
  rewrite (presses_incomplete codes (press p c)) by (done || by apply press_ok). by decide_lia.
Qed.

Lemma typed_codes_plain d1 d2 d3 d4 d5 :
  1 <= d1 <= 4 -> 1 <= d2 <= 4 -> 1 <= d3 <= 4 -> 1 <= d4 <= 4 -> 1 <= d5 <= 4 ->
  Forall (fun c => c <> 0x3C /\ c <> 0x3D) (typed_codes d1 d2 d3 d4 d5).
Proof.
  intros. unfold typed_codes, stroke. cbn [app fmap list_fmap mjoin list_join].
  repeat (apply Forall_cons; split; [lia|]). by apply Forall_nil.
Qed.

(** ** Calls of the keyboard's routine *)

(** One call after the other, each with what the processor passes. *)
Definition calls `{Linker} `{Hw} (fuel : nat) (frames : list (InterruptFrame * Z)) : M kstate unit :=
  for_each frames (fun '(frame, cr2) => interrupt fuel 1 frame cr2).

(** The keyboard has the next scancode after each acknowledged call, and keeps it
    until it is read. *)
Definition types `{Hw} (codes : list Z) : Prop :=
  forall k c l, codes !! k = Some c -> length (eois l) = k -> codes_at 1 l = [c] /\ keeps_byte l.

Section typing.
Context `{Linker} `{Hw} (fuel : nat).
Context (Hready : always_ready tx_empty fuel (COM1_PORT + 5)) (Hpl : placed).
Context (all : list Z) (Htypes : types all).

Lemma next_call c codes s l frame cr2 :
  setting_up (wiring s) -> drop (length (eois l)) all = c :: codes ->
  if breaks (pressed (see s l)) c then interrupt fuel 1 frame cr2 s l = Undef
  else exists s' l', interrupt fuel 1 frame cr2 s l = Done (tt, s', l') /\
    setting_up (wiring s') /\ pressed (see s' l') = press (pressed (see s l)) c /\ s'.1 = s.1 /\
    drop (length (eois l')) all = codes.
Proof using Hready Hpl Htypes.
  intros Hsu Hc. assert (all !! length (eois l) = Some c) as Hlook.
  { rewrite <- (Nat.add_0_r (length (eois l))), <- lookup_drop. by rewrite Hc. }
  destruct (Htypes _ c l Hlook eq_refl) as [Hcode Hk].
  pose proof (interrupt_ends fuel Hready Hpl 1 frame cr2 s l ltac:(lia) Hsu Hk) as Hend. rewrite Hcode in Hend.
  cbn [existsb] in Hend. rewrite orb_false_r in Hend. destruct (breaks (pressed (see s l)) c) eqn:Hb; [exact Hend|].
  destruct Hend as (s' & l' & E & Hv). exists s', l'. split; [exact E|]. rewrite <- Hcode in Hv.
  destruct (served_parts 1 l (see s l) (see s' l') Hsu) as (Hsu' & Hp & Hd & _ & _ & _ & He & _); [|done|].
  { rewrite Hcode. cbn [existsb]. by rewrite Hb. }
  rewrite Hcode in Hp. split; [exact Hsu'|]. split; [exact Hp|]. split; [exact Hd|].
  change (sent PIC1_COMMAND l' = sent PIC1_COMMAND l ++ [PIC_EOI]) in He.
  assert (length (eois l') = S (length (eois l))) as ->.
  { unfold eois. rewrite He, filter_app, length_app, filter_cons_True by done. cbn [filter length list_filter]. lia. }
  by rewrite (drop_S all c (length (eois l)) Hlook) in Hc; injection Hc.
Qed.

Lemma calls_run codes rest frames s l :
  setting_up (wiring s) -> drop (length (eois l)) all = codes ++ rest -> length frames = length codes ->
  harmless_codes (pressed (see s l)) codes = true ->
  exists s' l', calls fuel frames s l = Done (tt, s', l') /\ setting_up (wiring s') /\
    pressed (see s' l') = foldl press (pressed (see s l)) codes /\ s'.1 = s.1 /\ drop (length (eois l')) all = rest.
Proof using Hready Hpl Htypes.
  revert frames s l. induction codes as [|c codes IH]; intros [|[frame cr2] frames] s l Hsu Hc Hlen Hb; try done.
  { by exists s, l. }
  cbn [harmless_codes app] in Hb, Hc. apply andb_true_iff in Hb as [Hb%negb_true_iff Hbs].
  pose proof (next_call c (codes ++ rest) s l frame cr2 Hsu Hc) as Hn. rewrite Hb in Hn.
  destruct Hn as (s1 & l1 & E1 & Hsu1 & Hp1 & Hd1 & Hc1). rewrite <- Hp1 in Hbs.
  destruct (IH frames s1 l1 Hsu1 Hc1 ltac:(simpl in Hlen; lia) Hbs) as (s2 & l2 & E2 & Hsu2 & Hp2 & Hd2 & Hc2).
  exists s2, l2. split; [unfold calls; cbn [for_each]; by rewrite (M_bind_done _ _ _ _ _ _ _ E1)|].
  split; [exact Hsu2|]. split; [by rewrite Hp2, Hp1|]. split; [by rewrite Hd2|exact Hc2].
Qed.
End typing.

(** ** Properties *)

(** C2. Typing makes the choices. After power-on, when the keyboard has the scancodes
    of ENTER, five digits from 1 to 4 (pressed and released one after the
    other) and a last ENTER, and its routine is called once for each scancode,
    the twelve calls up to the last ENTER return: the setup waits for the
    confirmation with exactly the choices typed, and windows, graphics mode,
    memory and heap are as [kernel_main] left them. The call for the last
    ENTER, which completes the setup and starts the window manager, is
    undefined. (The calls are those of C functions, one after the other; no
    interrupt arrives during the start.) *)
Theorem typing_makes_choices `{Hw} `{Linker} `{Cpu} fuel addr table DATE d1 d2 d3 d4 d5 frames (s : kstate) l :
  responds fuel -> placed -> powered s -> eois l = [] ->
  1 <= d1 <= 4 -> 1 <= d2 <= 4 -> 1 <= d3 <= 4 -> 1 <= d4 <= 4 -> 1 <= d5 <= 4 ->
  types (typed_codes d1 d2 d3 d4 d5 ++ [0x1C]) -> length frames = 12%nat ->
  exists s0 l0, kernel_main (H15 := kernel_code fuel) fuel addr table DATE s l = while_ fuel (turn fuel;; mret true) s0 l0 /\
  exists s1 l1 lang x y, calls fuel frames s0 l0 = Done (tt, s1, l1) /\
    languages !! Z.to_nat (d1 - 1) = Some lang /\ resolutions !! Z.to_nat (d2 - 1) = Some (x, y) /\
    get_part s1 = MkSetup (MkConfig lang x y 0 (d3 - 1) (d5 - 1) (d4 - 1)) 0 SETUP_CONFIRM /\ s1.1 = s0.1 /\
    forall frame cr2, interrupt fuel 1 frame cr2 s1 l1 = Undef.
Proof.
  intros Hresp Hpl Hpw Hl Hd1 Hd2 Hd3 Hd4 Hd5 Ht Hlen. pose proof (rs_serial fuel Hresp) as Hready.
  destruct (kernel_main_ready fuel addr table DATE s l Hresp Hpw) as (s0 & l0 & E & He & Hsu & Hp0 & _).
  exists s0, l0. split; [exact E|].
  destruct (typed_codes_mean d1 d2 d3 d4 d5 Hd1 Hd2 Hd3 Hd4 Hd5) as (lang & x & y & Hlang & Hres & Hmean).
  destruct (calls_run fuel Hready Hpl _ Ht (typed_codes d1 d2 d3 d4 d5) [0x1C] frames s0 l0 Hsu)
    as (s1 & l1 & E1 & Hsu1 & Hp1 & Hs1 & Hc1).
  - by rewrite He, Hl.
  - by rewrite Hlen.
  - rewrite Hp0. apply codes_harmless; [apply setup_initial_ok|by rewrite Hmean|by apply typed_codes_plain].
  - rewrite Hp0, Hmean in Hp1. exists s1, l1, lang, x, y. split; [exact E1|]. split; [done|]. split; [done|].
    split; [exact (f_equal snd Hp1)|]. split; [exact Hs1|]. intros frame cr2.
    pose proof (next_call fuel Hready Hpl _ Ht 0x1C [] s1 l1 frame cr2 Hsu1 Hc1) as Hn. rewrite Hp1 in Hn. exact Hn.
Qed.

(** ** A concrete machine *)

#[local] Existing Instance w_cpu.
#[local] Existing Instance w_functions.

(** The keyboard gives the bytes in the interrupt routines only, which start
    by disabling the interrupts. *)
Fixpoint waits (r : log) : bool :=
  match r with
  | ECli :: _ => true
  | EIn p _ :: r => (p =? KEYBOARD_STATUS_PORT) && waits r
  | _ => false
  end.

Definition w_codes : list Z := typed_codes 2 1 1 3 4 ++ [0x1C].

(** A serial port that is ready, a clock that is idle, and this keyboard. *)
Definition w_hw_typing : Hw := {|
  hw_in l port :=
    if port =? COM1_PORT + 5 then 0x20
    else if port =? KEYBOARD_STATUS_PORT then (if waits (rev l) then 1 else 0)
    else if port =? KEYBOARD_DATA_PORT then default 0 (w_codes !! length (eois l))
    else 0
|}.
#[local] Existing Instance w_hw_typing.

Lemma w_data_ready l : data_ready l = waits (rev l).
Proof.
  unfold data_ready, inb_val. cbn [hw_in w_hw_typing]. change (KEYBOARD_STATUS_PORT =? COM1_PORT + 5) with false.
  rewrite Z.eqb_refl. cbn iota. by destruct (waits (rev l)).
Qed.

Lemma w_data l : inb_val l KEYBOARD_DATA_PORT = u8 (default 0 (w_codes !! length (eois l))).
Proof. reflexivity. Qed.

Lemma w_typing_keeps l : keeps_byte l.
Proof.
  intros _. rewrite w_data_ready. unfold status_read. rewrite !rev_app_distr. cbn [rev app waits].
  by rewrite Z.eqb_refl.
Qed.

Lemma w_typing_responds n : responds (S (S n)).
Proof.
  split.
  - intros l. exists 0%nat. split; [lia|reflexivity].
  - intros l. cbn [drained]. destruct (tst _ 1); [|done]. set (l1 := _ ++ [EIn KEYBOARD_DATA_PORT _]).
    fold (data_ready l1). rewrite w_data_ready. unfold l1. rewrite rev_app_distr. reflexivity.
  - reflexivity.
Qed.

Lemma w_types : types w_codes.
Proof.
  intros k c l Hc Hk. split; [|apply w_typing_keeps]. unfold codes_at. rewrite w_data_ready, rev_app_distr. cbn [Z.eqb Pos.eqb andb rev app waits].
  unfold scancode_at. rewrite w_data. unfold scancode_log, status_read. rewrite !eois_in, eois_snoc by done.
  rewrite Hk, Hc. cbn [default from_option]. f_equal. apply u8_id. apply list_elem_of_lookup_2 in Hc. revert c Hc.
  apply Forall_forall. by apply (bool_decide_unpack _); vm_compute.
Qed.

Lemma typing_makes_choices_witness :
  exists s0 l0 s1 l1, calls 2 (replicate 12 (MkFrame 0 0 0 0 0 0, 0)) s0 l0 = Done (tt, s1, l1) /\
    get_part s1 = MkSetup (MkConfig (bytes_of "Spanish") 800 600 0 0 3 2) 0 SETUP_CONFIRM /\
    interrupt 2 1 (MkFrame 0 0 0 0 0 0) 0 s1 l1 = Undef.
Proof.
  destruct (typing_makes_choices 2 (fun _ => 0x1000) 0x8000 [] 2 1 1 3 4 (replicate 12 (MkFrame 0 0 0 0 0 0, 0)) w_kstate [])
    as (s0 & l0 & _ & s1 & l1 & lang & x & y & E & Hl & Hr & Hs & _ & Hu).
  - apply w_typing_responds.
  - exact w_placed.
  - exact w_powered.
  - reflexivity.
  - lia.
  - lia.
  - lia.
  - lia.
  - lia.
  - exact w_types.
  - reflexivity.
  - exists s0, l0, s1, l1. split; [exact E|]. injection Hl as <-. injection Hr as <- <-. split; [exact Hs|apply Hu].
Defined.
